(* ===== verification/_CoqProject ===== *)
-Q . S2P
Prelude.v
Config.v
Address.v
Allocator.v
FrameAllocator.v
TaskId.v
PhysMem.v
PageTable.v
PageTableSpec.v
UserMem.v
BlockDev.v
BlockCache.v
BlockAccess.v
Bitmap.v
Layout.v
InodeTree.v
InodeData.v
Efs.v
Vfs.v
FsRep.v
VfsSpec.v
FsModel.v
FsBoot.v
MemorySet.v
MemorySetSpec.v
AddressSpace.v
ElfLoad.v
KernelSpace.v
MmapSpec.v
Kernel.v
Machine.v
MachineSpec.v
OsFile.v
OsFileSpec.v
Pack.v
Process.v
Syscall.v
ProcSpec.v
ProcInv.v
TaskSpec.v
ForkExec.v
ProcProps.v
BrkSpec.v
FileCalls.v
SpawnSpec.v
TrapSpec.v
Boot.v
