(* ===== verification/Prelude.v ===== *)
(** * A verification of the rCore tutorial kernel with the easy-fs file system

    The program has two halves.  The kernel ([src/os/src]) manages physical frames, page
    tables, address spaces, processes and traps on a single RISC-V core; the file system
    ([src/easy-fs/src]) keeps files in a block device behind a small write-back cache, and
    [src/easy-fs-fuse] packs an image with it.  Every definition that models code is an
    executable translation of a function or type of the sources, and keeps its name:
    [Type::method] becomes [Type_method].

    ** Conventions

    - Machine integers are [Z]; the kernel is built in release mode, so arithmetic wraps
      and the wrap-around is written out ([add_w], [sub_w], [%usize], [%u32]).
    - A panic (failed [assert!], [unwrap] of [None], index out of range) is [Err Panic] of
      the type [res]; [M S A] is state passing with faults.
    - Fields of structures carry a prefix of their type; a [Vec] is a [list], a [BTreeMap]
      or an arena of shared objects a [gmap].
    - Where the code drops a value, the model calls the drop function explicitly, in the
      order Rust drops.

    ** Files

    Foundations:
    - [Prelude], [Config]: integers, results, vectors, slices; [os/src/config.rs].
    - [Address]: [os/src/mm/address.rs].
    - [Allocator]: the interface (a type class) of allocators of distinct identifiers;
      [FrameAllocator] ([os/src/mm/frame_allocator.rs]) and [TaskId] ([os/src/task/id.rs])
      discharge it.

    Memory:
    - [PhysMem]: bytes of physical memory with the global frame allocator.
    - [PageTable], [PageTableSpec]: [os/src/mm/page_table.rs], SV39 tables as bytes in
      memory, and their refinement to finite maps from pages to entries.
    - [UserMem]: user buffers, strings and objects ([os/src/mm/page_table.rs]).
    - [MemorySet], [MemorySetSpec], [AddressSpace], [MmapSpec]: [os/src/mm/memory_set.rs],
      the ownership invariant of an address space, and the contracts of mapping,
      unmapping, copying and dropping.
    - [ElfLoad]: the space [from_elf] makes for a program.
    - [KernelSpace]: the space of the kernel, [remap_test], and the memory interface of the
      block driver ([os/src/drivers/block/virtio_blk.rs]).

    File system:
    - [BlockDev], [BlockCache], [BlockAccess]: [easy-fs/src/block_dev.rs] and
      [block_cache.rs]; programs over blocks are trees ([prog]) that run on the cache or on
      a plain store of blocks.
    - [Bitmap], [Layout], [InodeTree], [InodeData]: [bitmap.rs], [layout.rs], the block
      tree of an inode and the bytes of a file.
    - [Efs], [Vfs]: [efs.rs], [vfs.rs].
    - [FsRep], [VfsSpec], [FsModel], [FsBoot]: what a consistent disk is, the contract of
      each operation of [vfs.rs], the abstract file system, and creating and opening.
    - [Pack]: the image packer ([easy-fs-fuse/src/main.rs]).

    Kernel:
    - [Kernel]: the state of the kernel, one field for each global of the code, the task
      control blocks, the processor and the timer ([os/src/task], [os/src/timer.rs]).
    - [OsFile], [OsFileSpec]: open files ([os/src/fs]).
    - [Process], [Syscall]: creation, exit and the program break ([os/src/task/task.rs],
      [mod.rs]), the system calls, the trap handler and the idle loop
      ([os/src/syscall], [os/src/trap/mod.rs], [os/src/task/processor.rs]).
    - [ProcSpec], [ProcInv], [ProcProps]: the process table as an abstract machine, that
      every operation of the kernel is a step of it, and the invariant.
    - [Machine], [MachineSpec]: the part of the processor the assembly uses (registers,
      control registers, address translation) and the routines of [trap.S] and
      [switch.S] as lists of instructions.
    - [TaskSpec], [ForkExec], [BrkSpec], [SpawnSpec], [TrapSpec]: what [new], [fork],
      [exec], [sbrk], [spawn] and the dispatcher of system calls do to memory, registers
      and the process table.
    - [FileCalls]: [sys_read] and [sys_write] on a file, from the virtual memory of the
      program to the contents of the file.
    - [Boot]: [rust_main].

    ** What is proved

    - Memory.  A page table in memory behaves as a finite map from pages to entries; frames
      have one owner; the operations on address spaces map and unmap exactly the pages
      asked for, keep all other pages, and return frames exactly once.  A loaded program
      has its segments and nothing else, the kernel's space is the identity on the kernel.
    - File system.  The cache is transparent and durable after a sync; bitmaps and block
      trees allocate and free exactly once; any sequence of operations through the cache
      agrees with the abstract file system, also after a restart; [sys_read]
      and [sys_write] move bytes between mapped memory of a program and these contents; a
      packed image serves its files.
    - Processes.  Every run of the kernel keeps the process table well formed and is a
      run of the abstract machine; the ready queue is fair; [waitpid] reaps once.
    - Composition.  A machine with a packed image reaches the first instruction of its
      initial process; a trap and its return, a switch and its return keep the registers;
      [fork] returns twice, [exec] and [spawn] start their program, with the frames of
      other processes untouched.
    - Limits.  Where the code panics or hangs on arguments of a program, the theorem says
      so: conflicting mappings, objects across pages, addresses above the address space,
      unknown system calls.

    ** Bounds and fuel

    Loops over data are structural.  Where a loop has no structural argument the model
    takes fuel and the theorems show that the fuel given is enough: ranges of pages
    ([range_iteration_terminates]); the read and write loops of an inode (one iteration
    per byte at most); [copy_data] (one per page of data); [translated_byte_buffer] (one
    per page, [noncanonical_buffer_diverges] for the addresses where it is not enough);
    [translated_str] and [read_all], whose length only the data determines, take
    [env_fuel], and their theorems hold for every fuel above the length; dropping a task
    takes as much fuel as there are tasks.  The theorems that need free frames ask for
    three per page that is mapped (the frame and two tables) and a constant for the
    trampoline and the stacks; [new_kernel] needs 150.

    ** Not modelled

    The SBI calls, console and logging output, the kernel heap, the panic handler and the
    build script are interfaces to hardware, to libraries or to the build; [entry.asm] only
    sets the boot stack.  The crate [virtio_drivers] and the device behind it are the class
    [BlockDevice] with its laws; the ELF reader, the linker symbols, the clock, the
    keyboard and the layout the compiler gives [TaskInfo] are fields of [Env], documented
    there.  The kernel reads physical memory through its identity mapping, which [Boot]
    establishes and the later steps take for granted.  [RefCell] borrow checks
    ([UPSafeCell]), the file-system mutex and the alignment of buffers cast to structures
    are not modelled.  The model of the processor covers the instructions of the two
    assembly files; code compiled from Rust is modelled as Rust.  Task contexts are in
    the [.bss] section in the theorem on [__switch]; the context that an exiting task
    passes to [schedule], which nothing reads, is on its kernel stack.  The user programs
    are arbitrary: a program may write anything to its own frames and trap for any cause. *)

From Stdlib Require Export ZArith Lia.
From stdpp Require Export base numbers list gmap.

Global Set Default Goal Selector "!".
Open Scope Z_scope.

(** * Machine integers

    The kernel ([os/Makefile]) and the image packer are built with
    [cargo ... --release], so integer overflow wraps around.  A [w]-bit unsigned
    integer is a [Z] in [[0, 2^w)]; the operators below write the wrap-around out. *)

Definition wrap (w z : Z) : Z := z mod 2 ^ w.

Definition fits (w z : Z) : Prop := 0 ≤ z < 2 ^ w.

Definition add_w (w a b : Z) : Z := wrap w (a + b).
Definition sub_w (w a b : Z) : Z := wrap w (a - b).
Definition mul_w (w a b : Z) : Z := wrap w (a * b).
Definition shl_w (w a k : Z) : Z := wrap w (Z.shiftl a k).

(** The operands of the notations below stay in the notation's own scope. *)
Arguments add_w : clear scopes.
Arguments sub_w : clear scopes.
Arguments mul_w : clear scopes.
Arguments shl_w : clear scopes.

Declare Scope usize_scope.
Delimit Scope usize_scope with usize.
Notation "a + b" := (add_w 64 a b) : usize_scope.
Notation "a - b" := (sub_w 64 a b) : usize_scope.
Notation "a * b" := (mul_w 64 a b) : usize_scope.
Notation "a ≪ b" := (shl_w 64 a b) : usize_scope.

Declare Scope u32_scope.
Delimit Scope u32_scope with u32.
Notation "a + b" := (add_w 32 a b) : u32_scope.
Notation "a - b" := (sub_w 32 a b) : u32_scope.
Notation "a * b" := (mul_w 32 a b) : u32_scope.

(** * Faults and results

    [panic!], a failed [assert!], an [unwrap] of [None] or an index out of range
    is [Panic]; spinning on a lock the caller already holds is [Deadlock]; reading
    a value that is no valid inhabitant of its Rust type is [Undefined].  [OutOfFuel] is
    not a fault of the program: it marks a loop cut off by the bound of its model. *)

Inductive fault := Panic | Deadlock | Undefined | OutOfFuel.

Inductive res (A : Type) :=
| Ok (a : A)
| Err (e : fault).
Arguments Ok {A} a.
Arguments Err {A} e.

#[export] Instance fault_eq_dec : EqDecision fault.
Proof. solve_decision. Defined.

#[export] Instance res_ret : MRet res := λ A x, Ok x.
#[export] Instance res_bind : MBind res := λ A B f m,
  match m with Ok a => f a | Err e => Err e end.
#[export] Instance res_map : FMap res := λ A B f m,
  match m with Ok a => Ok (f a) | Err e => Err e end.

Definition res_assert (b : bool) : res unit := if b then Ok () else Err Panic.

Definition unwrap {A} (o : option A) : res A :=
  match o with Some a => Ok a | None => Err Panic end.

(** State-passing computations that may fault. *)

Definition M (S A : Type) := S → res (A * S).

#[export] Instance M_ret {S} : MRet (M S) := λ A x s, Ok (x, s).
#[export] Instance M_bind {S} : MBind (M S) := λ A B f m s,
  match m s with Ok (a, s') => f a s' | Err e => Err e end.

Definition lift {S A} (r : res A) : M S A := λ s,
  match r with Ok a => Ok (a, s) | Err e => Err e end.
Definition get_state {S} : M S S := λ s, Ok (s, s).
Definition put_state {S} (s' : S) : M S unit := λ _, Ok ((), s').

(** [for x in l { body }] over a state-passing body. *)
Fixpoint for_each {S A} (body : A → M S unit) (l : list A) : M S unit :=
  match l with
  | [] => mret ()
  | x :: l' => _ ← body x; for_each body l'
  end.

(** * [Vec] *)

Definition vec_push {A} (v : list A) (x : A) : list A := v ++ [x].

Definition vec_pop {A} (v : list A) : option (A * list A) :=
  match reverse v with
  | [] => None
  | x :: r => Some (x, reverse r)
  end.

(** [v[i]] and [v[i] = x]: an index out of range panics. *)
Definition vec_get {A} (v : list A) (i : Z) : res A := unwrap (v !! Z.to_nat i).
Definition vec_set {A} (v : list A) (i : Z) (x : A) : res (list A) :=
  if decide (Z.to_nat i < length v)%nat then Ok (<[Z.to_nat i := x]> v) else Err Panic.

Lemma vec_pop_nil {A} (v : list A) : vec_pop v = None ↔ v = [].
Proof.
  unfold vec_pop. destruct v as [|x v] using rev_ind; [done|].
  rewrite reverse_snoc. split; [done|]. intros H%(f_equal length).
  rewrite length_app in H. simpl in H. lia.
Qed.

Lemma vec_pop_Some {A} (v : list A) x v' :
  vec_pop v = Some (x, v') ↔ v = v' ++ [x].
Proof.
  unfold vec_pop. split.
  - destruct v as [|y v _] using rev_ind; [done|].
    rewrite reverse_snoc, reverse_involutive. naive_solver.
  - intros ->. by rewrite reverse_snoc, reverse_involutive.
Qed.

Lemma vec_pop_push {A} (v : list A) x : vec_pop (vec_push v x) = Some (x, v).
Proof. by apply vec_pop_Some. Qed.

Abbreviation len l := (Z.of_nat (length l)).

(** [&l[off..off + n]] and overwriting [l] at [off], for ranges inside [l]. *)
Definition slice {A} (l : list A) (off n : Z) : list A :=
  take (Z.to_nat n) (drop (Z.to_nat off) l).
Definition splice {A} (l : list A) (off : Z) (x : list A) : list A :=
  take (Z.to_nat off) l ++ x ++ drop (Z.to_nat off + length x) l.

(** [&v[a..b]] and [v[a..b].copy_from_slice(src)], with their bounds checks *)
Definition vec_slice {A} (v : list A) (a b : Z) : res (list A) :=
  if decide (a ≤ b ∧ b ≤ Z.of_nat (length v)) then Ok (slice v a (b - a)) else Err Panic.
Definition vec_copy {A} (v : list A) (a b : Z) (src : list A) : res (list A) :=
  if decide (a ≤ b ∧ b ≤ Z.of_nat (length v) ∧ Z.of_nat (length src) = b - a)
  then Ok (splice v a src) else Err Panic.

Section Slices.
Context {A : Type}.
Implicit Types (l x : list A) (off n : Z).

Lemma length_slice l off n :
  0 ≤ off → 0 ≤ n →
  Z.of_nat (length (slice l off n)) = Z.max 0 (Z.min n (Z.of_nat (length l) - off)).
Proof. intros. unfold slice. rewrite length_take, length_drop. lia. Qed.

Lemma lookup_slice l off n (i : nat) :
  Z.of_nat i < n → 0 ≤ off → slice l off n !! i = l !! (Z.to_nat off + i)%nat.
Proof. intros. unfold slice. by rewrite lookup_take_lt, lookup_drop by lia. Qed.

Lemma length_splice l off x :
  0 ≤ off → off + Z.of_nat (length x) ≤ Z.of_nat (length l) → length (splice l off x) = length l.
Proof. intros. unfold splice. rewrite !length_app, length_take, length_drop. lia. Qed.

Lemma slice_splice_eq l off x n :
  0 ≤ off → off + Z.of_nat (length x) ≤ Z.of_nat (length l) → n = Z.of_nat (length x) →
  slice (splice l off x) off n = x.
Proof.
  intros Ho Hl ->. unfold splice, slice.
  rewrite drop_app_length' by (rewrite length_take; lia). rewrite take_app_length'; [done|lia].
Qed.

Lemma lookup_splice_out l off x (i : nat) :
  0 ≤ off → off + Z.of_nat (length x) ≤ Z.of_nat (length l) →
  Z.of_nat i < off ∨ off + Z.of_nat (length x) ≤ Z.of_nat i →
  splice l off x !! i = l !! i.
Proof.
  intros Ho Hl [Hi|Hi]; unfold splice.
  - rewrite lookup_app_l by (rewrite length_take; lia). by rewrite lookup_take_lt by lia.
  - rewrite lookup_app_r by (rewrite length_take; lia). rewrite length_take.
    rewrite lookup_app_r by lia. rewrite lookup_drop. f_equal. lia.
Qed.

Lemma lookup_splice_in l off x (i : nat) :
  0 ≤ off → off + Z.of_nat (length x) ≤ Z.of_nat (length l) →
  off ≤ Z.of_nat i < off + Z.of_nat (length x) →
  splice l off x !! i = x !! (i - Z.to_nat off)%nat.
Proof.
  intros Ho Hl Hi. unfold splice. rewrite lookup_app_r by (rewrite length_take; lia).
  rewrite length_take. rewrite lookup_app_l by lia. f_equal. lia.
Qed.

Lemma slice_splice_ne l off x off' n :
  0 ≤ off → off + Z.of_nat (length x) ≤ Z.of_nat (length l) → 0 ≤ off' →
  off' + n ≤ off ∨ off + Z.of_nat (length x) ≤ off' →
  slice (splice l off x) off' n = slice l off' n.
Proof.
  intros Ho Hl Ho' Hd. apply list_eq. intros i.
  destruct (decide (Z.of_nat i < n)); [|by unfold slice; rewrite !lookup_take_ge by lia].
  rewrite !lookup_slice by lia. apply lookup_splice_out; lia.
Qed.

Lemma splice_slice l off n :
  0 ≤ off → 0 ≤ n → off + n ≤ Z.of_nat (length l) → splice l off (slice l off n) = l.
Proof.
  intros Ho Hn Hl. apply list_eq. intros i.
  assert (Z.of_nat (length (slice l off n)) = n) as Hlen by (rewrite length_slice; lia).
  destruct (decide (off ≤ Z.of_nat i < off + n)).
  - rewrite lookup_splice_in by lia. rewrite lookup_slice by lia. f_equal. lia.
  - rewrite lookup_splice_out by lia. done.
Qed.
End Slices.

(** * Arithmetic lemmas *)

Lemma wrap_small w z : fits w z → wrap w z = z.
Proof. apply Z.mod_small. Qed.

Lemma wrap_fits w z : 0 ≤ w → fits w (wrap w z).
Proof. intros. apply Z.mod_pos_bound. lia. Qed.

Lemma add_w_small w a b : fits w (a + b) → add_w w a b = a + b.
Proof. apply wrap_small. Qed.
Lemma sub_w_small w a b : fits w (a - b) → sub_w w a b = a - b.
Proof. apply wrap_small. Qed.
Lemma mul_w_small w a b : fits w (a * b) → mul_w w a b = a * b.
Proof. apply wrap_small. Qed.

Lemma land_low w z : 0 ≤ w → Z.land z (2 ^ w - 1) = z mod 2 ^ w.
Proof. intros. rewrite <- Z.land_ones, Z.ones_equiv by lia. f_equal. Qed.

Lemma shl_w_small w a k : 0 ≤ k → fits w (a * 2 ^ k) → shl_w w a k = a * 2 ^ k.
Proof. intros Hk Hf. unfold shl_w. rewrite Z.shiftl_mul_pow2 by lia. by apply wrap_small. Qed.

Lemma lor_fits w a b : 0 ≤ w → fits w a → fits w b → fits w (Z.lor a b).
Proof.
  intros Hw Ha Hb. assert (Z.lor a b = wrap w (Z.lor a b)) as ->; [|by apply wrap_fits].
  unfold wrap. rewrite <- Z.land_ones, Z.land_lor_distr_l, !Z.land_ones by lia.
  by rewrite !Z.mod_small.
Qed.

(** Shifted high part and low part occupy disjoint bits. *)
Lemma lor_shiftl_low a b k : 0 ≤ k → 0 ≤ b < 2 ^ k → Z.lor (Z.shiftl a k) b = a * 2 ^ k + b.
Proof.
  intros Hk Hb. rewrite <- Z.shiftl_mul_pow2 by lia.
  rewrite <- Z.lxor_lor; [rewrite <- Z.add_nocarry_lxor; [done|]|].
  all: apply Z.bits_inj'; intros n Hn; rewrite Z.land_spec, Z.bits_0.
  all: destruct (decide (n < k)).
  all: try (rewrite Z.shiftl_spec_low by lia; done).
  all: replace b with (b mod 2 ^ k) by (apply Z.mod_small; lia).
  all: rewrite Z.mod_pow2_bits_high by lia; apply andb_false_r.
Qed.

(** * Little-endian encoding of unsigned integers *)

Fixpoint le_value (l : list Z) : Z :=
  match l with
  | [] => 0
  | b :: l' => b + 256 * le_value l'
  end.

Fixpoint le_bytes (n : nat) (z : Z) : list Z :=
  match n with
  | O => []
  | S n' => z mod 256 :: le_bytes n' (z / 256)
  end.

Definition is_byte (b : Z) : Prop := fits 8 b.

#[export] Instance fits_dec w z : Decision (fits w z).
Proof. unfold fits. apply _. Defined.
#[export] Instance is_byte_dec b : Decision (is_byte b).
Proof. unfold is_byte. apply _. Defined.

Lemma length_le_bytes n z : length (le_bytes n z) = n.
Proof. revert z. induction n; intros; simpl; [done|]. by rewrite IHn. Qed.

Lemma le_bytes_bytes n z : Forall is_byte (le_bytes n z).
Proof.
  revert z. induction n as [|n IH]; intros z; simpl; constructor; [|apply IH].
  apply wrap_fits. lia.
Qed.

Lemma le_value_bytes n z : 0 ≤ z < 256 ^ Z.of_nat n → le_value (le_bytes n z) = z.
Proof.
  revert z. induction n as [|n IH]; intros z Hz; simpl.
  - change (256 ^ Z.of_nat 0) with 1 in Hz. lia.
  - rewrite Nat2Z.inj_succ, Z.pow_succ_r in Hz by lia.
    rewrite IH; [pose proof (Z.div_mod z 256); lia|].
    split; [apply Z.div_pos; lia|]. apply Z.div_lt_upper_bound; lia.
Qed.

Lemma le_value_range l : Forall is_byte l → 0 ≤ le_value l < 256 ^ Z.of_nat (length l).
Proof.
  induction 1 as [|b l Hb Hl IH]; simpl le_value; [done|].
  rewrite length_cons, Nat2Z.inj_succ, Z.pow_succ_r by lia.
  unfold is_byte, fits in Hb. change (2 ^ 8) with 256 in Hb. lia.
Qed.

Lemma le_bytes_value l : Forall is_byte l → le_bytes (length l) (le_value l) = l.
Proof.
  induction 1 as [|b l Hb Hl IH]; [done|]. simpl.
  unfold is_byte, fits in Hb. change (2 ^ 8) with 256 in Hb.
  replace ((b + 256 * le_value l) mod 256) with b
    by (rewrite Z.mul_comm, Z_mod_plus_full, Z.mod_small; lia).
  replace ((b + 256 * le_value l) / 256) with (le_value l)
    by (rewrite Z.mul_comm, Z.div_add, (Z.div_small b); lia).
  by rewrite IH.
Qed.

(** * Automation *)

(** Case analysis on the monadic structure of a successful computation. *)
Ltac res_inv :=
  repeat match goal with
  | H : mret _ = Ok _ |- _ => unfold mret, res_ret in H
  | H : Ok _ = Ok _ |- _ => injection H as H; subst || (try rewrite H in * )
  | H : Err _ = Ok _ |- _ => discriminate H
  | H : Ok _ = Err _ |- _ => discriminate H
  end.

(** * Reasoning about computations that may fault *)

Section Ensures.
Context {S : Type}.

(** If [p] returns, its result and the final state satisfy [Q]. *)
Definition ensures {A} (p : M S A) (s : S) (Q : A → S → Prop) : Prop :=
  match p s with Ok (a, s') => Q a s' | Err _ => True end.

Lemma ensures_ret {A} (a : A) s Q : Q a s → ensures (mret a) s Q.
Proof. done. Qed.

Lemma ensures_bind {A B} (p : M S A) (f : A → M S B) s Q :
  ensures p s (λ a s', ensures (f a) s' Q) → ensures (p ≫= f) s Q.
Proof. unfold ensures, mbind, M_bind. by destruct (p s) as [[a s']|]. Qed.

Lemma ensures_mono {A} (p : M S A) s (Q Q' : A → S → Prop) :
  ensures p s Q → (∀ a s', Q a s' → Q' a s') → ensures p s Q'.
Proof. unfold ensures. destruct (p s) as [[a s']|]; auto. Qed.

Lemma ensures_lift {A} (r : res A) s Q : (∀ a, r = Ok a → Q a s) → ensures (lift r) s Q.
Proof. unfold ensures, lift. destruct r; auto. Qed.

Lemma ensures_get s (Q : S → S → Prop) : Q s s → ensures get_state s Q.
Proof. done. Qed.

(** Running the first half of a sequence. *)
Lemma bind_Ok {A B} (p : M S A) (f : A → M S B) s a s' : p s = Ok (a, s') → (p ≫= f) s = f a s'.
Proof. unfold mbind, M_bind. by intros ->. Qed.

Lemma bind_Err {A B} (p : M S A) (f : A → M S B) s e : p s = Err e → (p ≫= f) s = Err e.
Proof. unfold mbind, M_bind. by intros ->. Qed.

Lemma bind_inv {A B} (p : M S A) (f : A → M S B) s r :
  (p ≫= f) s = Ok r → ∃ a s', p s = Ok (a, s') ∧ f a s' = Ok r.
Proof. unfold mbind, M_bind. destruct (p s) as [[a s']|]; [|done]. by exists a, s'. Qed.

Lemma ensures_Ok {A} (p : M S A) s a s' Q : ensures p s Q → p s = Ok (a, s') → Q a s'.
Proof. unfold ensures. intros H E. by rewrite E in H. Qed.
End Ensures.
