(* ===== verification/Config.v ===== *)
(** Constants of the kernel ([os/src/config.rs]). *)

From S2P Require Import Prelude.

Definition USER_STACK_SIZE : Z := 4096 * 2.
Definition KERNEL_STACK_SIZE : Z := 4096 * 2.
Definition PAGE_SIZE : Z := 0x1000.
Definition PAGE_SIZE_BITS : Z := 0xc.
Definition MAX_SYSCALL_NUM : Z := 500.
Definition USIZE_MAX : Z := 2 ^ 64 - 1.
(** [usize::MAX - PAGE_SIZE + 1] *)
Definition TRAMPOLINE : Z := USIZE_MAX - PAGE_SIZE + 1.
Definition TRAP_CONTEXT_BASE : Z := TRAMPOLINE - PAGE_SIZE.
Definition CLOCK_FREQ : Z := 12500000.
Definition MEMORY_END : Z := 0x88000000.
Definition MMIO : list (Z * Z) := [(0x10001000, 0x1000)].
