(* ===== verification/Address.v ===== *)
(** Physical and virtual addresses and page numbers of SV39
    ([os/src/mm/address.rs]): the masking conversions, the sign extension of
    virtual addresses, page rounding, the three page-table indexes of a virtual
    page number, and the ranges of page numbers the kernel iterates over. *)

From S2P Require Import Prelude Config.

Definition PA_WIDTH_SV39 : Z := 56.
Definition VA_WIDTH_SV39 : Z := 39.
Definition PPN_WIDTH_SV39 : Z := PA_WIDTH_SV39 - PAGE_SIZE_BITS.
Definition VPN_WIDTH_SV39 : Z := VA_WIDTH_SV39 - PAGE_SIZE_BITS.

(** * The four newtypes over [usize] *)

Record PhysAddr := MkPhysAddr { pa_0 : Z }.
Record VirtAddr := MkVirtAddr { va_0 : Z }.
Record PhysPageNum := MkPhysPageNum { ppn_0 : Z }.
Record VirtPageNum := MkVirtPageNum { vpn_0 : Z }.

#[export] Instance PhysAddr_eq_dec : EqDecision PhysAddr.
Proof. solve_decision. Defined.
#[export] Instance VirtAddr_eq_dec : EqDecision VirtAddr.
Proof. solve_decision. Defined.
#[export] Instance PhysPageNum_eq_dec : EqDecision PhysPageNum.
Proof. solve_decision. Defined.
#[export] Instance VirtPageNum_eq_dec : EqDecision VirtPageNum.
Proof. solve_decision. Defined.
#[export] Instance PhysPageNum_countable : Countable PhysPageNum.
Proof. by refine (inj_countable' ppn_0 MkPhysPageNum _); intros []. Defined.
#[export] Instance VirtPageNum_countable : Countable VirtPageNum.
Proof. by refine (inj_countable' vpn_0 MkVirtPageNum _); intros []. Defined.

(** * [From] conversions *)

Definition PhysAddr_from (v : Z) : PhysAddr :=
  MkPhysAddr (Z.land v (Z.shiftl 1 PA_WIDTH_SV39 - 1)).
Definition PhysPageNum_from (v : Z) : PhysPageNum :=
  MkPhysPageNum (Z.land v (Z.shiftl 1 PPN_WIDTH_SV39 - 1)).
Definition VirtAddr_from (v : Z) : VirtAddr :=
  MkVirtAddr (Z.land v (Z.shiftl 1 VA_WIDTH_SV39 - 1)).
Definition VirtPageNum_from (v : Z) : VirtPageNum :=
  MkVirtPageNum (Z.land v (Z.shiftl 1 VPN_WIDTH_SV39 - 1)).

(** [usize::from(VirtAddr)]: bit 38 is extended to bits 39..63.  [!x] on a 64-bit
    integer is [2^64 - 1 - x]. *)
Definition usize_from_VirtAddr (v : VirtAddr) : Z :=
  if decide (Z.shiftl 1 (VA_WIDTH_SV39 - 1) ≤ va_0 v)
  then Z.lor (va_0 v) (USIZE_MAX - (Z.shiftl 1 VA_WIDTH_SV39 - 1))
  else va_0 v.

(** * Page rounding *)

Definition VirtAddr_floor (v : VirtAddr) : VirtPageNum :=
  MkVirtPageNum (va_0 v / PAGE_SIZE).
Definition VirtAddr_ceil (v : VirtAddr) : VirtPageNum :=
  MkVirtPageNum ((va_0 v - 1 + PAGE_SIZE)%usize / PAGE_SIZE).
Definition VirtAddr_page_offset (v : VirtAddr) : Z :=
  Z.land (va_0 v) (PAGE_SIZE - 1).
Definition VirtAddr_aligned (v : VirtAddr) : bool :=
  bool_decide (VirtAddr_page_offset v = 0).

Definition PhysAddr_floor (p : PhysAddr) : PhysPageNum :=
  MkPhysPageNum (pa_0 p / PAGE_SIZE).
Definition PhysAddr_ceil (p : PhysAddr) : PhysPageNum :=
  MkPhysPageNum ((pa_0 p - 1 + PAGE_SIZE)%usize / PAGE_SIZE).
Definition PhysAddr_page_offset (p : PhysAddr) : Z :=
  Z.land (pa_0 p) (PAGE_SIZE - 1).
Definition PhysAddr_aligned (p : PhysAddr) : bool :=
  bool_decide (PhysAddr_page_offset p = 0).

(** The conversions to page numbers assert alignment. *)
Definition VirtPageNum_from_VirtAddr (v : VirtAddr) : res VirtPageNum :=
  _ ← res_assert (bool_decide (VirtAddr_page_offset v = 0));
  mret (VirtAddr_floor v).
Definition VirtAddr_from_VirtPageNum (v : VirtPageNum) : VirtAddr :=
  MkVirtAddr (vpn_0 v ≪ PAGE_SIZE_BITS)%usize.
Definition PhysPageNum_from_PhysAddr (p : PhysAddr) : res PhysPageNum :=
  _ ← res_assert (bool_decide (PhysAddr_page_offset p = 0));
  mret (PhysAddr_floor p).
Definition PhysAddr_from_PhysPageNum (p : PhysPageNum) : PhysAddr :=
  MkPhysAddr (ppn_0 p ≪ PAGE_SIZE_BITS)%usize.

(** * Page-table indexes

    [for i in (0..3).rev() { idx[i] = vpn & 511; vpn >>= 9; }] *)
Fixpoint indexes_loop (ks : list nat) (vpn : Z) (idx : list Z) : list Z :=
  match ks with
  | [] => idx
  | i :: ks' => indexes_loop ks' (Z.shiftr vpn 9) (<[i := Z.land vpn 511]> idx)
  end.
Definition VirtPageNum_indexes (v : VirtPageNum) : list Z :=
  indexes_loop [2; 1; 0]%nat (vpn_0 v) [0; 0; 0].

(** * Ranges *)

Class StepByOne (T : Type) := step : T → T.
#[export] Instance VirtPageNum_step : StepByOne VirtPageNum :=
  λ v, MkVirtPageNum (vpn_0 v + 1)%usize.
#[export] Instance PhysPageNum_step : StepByOne PhysPageNum :=
  λ p, MkPhysPageNum (ppn_0 p + 1)%usize.

(** [#[derive(PartialOrd)]] of the newtypes compares the wrapped integers. *)
Class PartialOrd (T : Type) := le_b : T → T → bool.
#[export] Instance VirtPageNum_ord : PartialOrd VirtPageNum :=
  λ a b, bool_decide (vpn_0 a ≤ vpn_0 b).
#[export] Instance PhysPageNum_ord : PartialOrd PhysPageNum :=
  λ a b, bool_decide (ppn_0 a ≤ ppn_0 b).

Record SimpleRange (T : Type) := MkSimpleRange { get_start : T; get_end : T }.
Arguments MkSimpleRange {T}.
Arguments get_start {T}.
Arguments get_end {T}.

Record SimpleRangeIterator (T : Type) := MkSimpleRangeIterator { sri_current : T; sri_end : T }.
Arguments MkSimpleRangeIterator {T}.
Arguments sri_current {T}.
Arguments sri_end {T}.

Section Range.
Context {T : Type} `{EqDecision T, StepByOne T, PartialOrd T}.

Definition SimpleRange_new (s e : T) : res (SimpleRange T) :=
  _ ← res_assert (le_b s e); mret (MkSimpleRange s e).

Definition SimpleRange_into_iter (r : SimpleRange T) : SimpleRangeIterator T :=
  MkSimpleRangeIterator (get_start r) (get_end r).

Definition SimpleRangeIterator_next (it : SimpleRangeIterator T) :
    option T * SimpleRangeIterator T :=
  if decide (sri_current it = sri_end it) then (None, it)
  else (Some (sri_current it), MkSimpleRangeIterator (step (sri_current it)) (sri_end it)).

(** The items a [for] loop sees; [None] if [fuel] calls of [next] do not exhaust it. *)
Fixpoint iter_collect (fuel : nat) (it : SimpleRangeIterator T) : option (list T) :=
  match fuel with
  | O => None
  | S fuel' =>
      match SimpleRangeIterator_next it with
      | (None, _) => Some []
      | (Some x, it') => (λ l, x :: l) <$> iter_collect fuel' it'
      end
  end.
End Range.

Abbreviation VPNRange := (SimpleRange VirtPageNum).

(** The page numbers [for vpn in range] visits. *)
Definition VPNRange_vpns (r : VPNRange) : list VirtPageNum :=
  default [] (iter_collect (S (Z.to_nat (vpn_0 (get_end r) - vpn_0 (get_start r))))
                           (SimpleRange_into_iter r)).

(** * Lemmas *)

Create HintDb addr.
#[export] Hint Unfold PA_WIDTH_SV39 VA_WIDTH_SV39 PPN_WIDTH_SV39 VPN_WIDTH_SV39
  PAGE_SIZE PAGE_SIZE_BITS USIZE_MAX : addr.

Lemma page_offset_mod z : Z.land z (PAGE_SIZE - 1) = z mod PAGE_SIZE.
Proof. apply (land_low 12). lia. Qed.

Lemma VirtPageNum_indexes_eq v :
  VirtPageNum_indexes v =
    [(vpn_0 v / 2 ^ 18) mod 512; (vpn_0 v / 2 ^ 9) mod 512; vpn_0 v mod 512].
Proof.
  destruct v as [n]. unfold VirtPageNum_indexes. simpl vpn_0.
  cbn [indexes_loop insert list_insert].
  rewrite <- (Z.shiftr_div_pow2 n 9), <- (Z.shiftr_div_pow2 n 18) by lia.
  change 18 with (9 + 9). rewrite <- Z.shiftr_shiftr by lia.
  change 511 with (2 ^ 9 - 1). by rewrite !land_low by lia.
Qed.

Lemma vpn_of_indexes n : 0 ≤ n < 2 ^ 27 →
  n = ((n / 2 ^ 18) mod 512) * 2 ^ 18 + ((n / 2 ^ 9) mod 512) * 2 ^ 9 + n mod 512.
Proof.
  intros Hn. change (2 ^ 27) with (512 * 2 ^ 18) in Hn.
  rewrite (Z.mod_small (n / 2 ^ 18)) by
    (split; [apply Z.div_pos; lia|apply Z.div_lt_upper_bound; lia]).
  change (2 ^ 18) with (2 ^ 9 * 512). rewrite <- Z.div_div by lia.
  pose proof (Z.div_mod (n / 2 ^ 9) 512). pose proof (Z.div_mod n 512).
  change (2 ^ 9) with 512 in *. lia.
Qed.

Lemma VirtPageNum_indexes_inj v w :
  0 ≤ vpn_0 v < 2 ^ 27 → 0 ≤ vpn_0 w < 2 ^ 27 →
  VirtPageNum_indexes v = VirtPageNum_indexes w → v = w.
Proof.
  rewrite !VirtPageNum_indexes_eq. destruct v as [a], w as [b]. simpl.
  intros Ha Hb Heq. injection Heq as H1 H2 H3.
  rewrite (vpn_of_indexes a), (vpn_of_indexes b) by lia. by rewrite H1, H2, H3.
Qed.

Lemma VirtPageNum_indexes_range v i :
  i ∈ VirtPageNum_indexes v → 0 ≤ i < 512.
Proof.
  rewrite VirtPageNum_indexes_eq, !elem_of_cons, elem_of_nil.
  intros [->|[->|[->|[]]]]; apply Z.mod_pos_bound; lia.
Qed.

Lemma iter_collect_vpn (n : nat) l :
  0 ≤ l → l + Z.of_nat n < 2 ^ 64 →
  iter_collect (S n) (MkSimpleRangeIterator (MkVirtPageNum l) (MkVirtPageNum (l + Z.of_nat n)))
  = Some (MkVirtPageNum <$> seqZ l (Z.of_nat n)).
Proof.
  revert l. induction n as [|n IH]; intros l Hl Hn.
  - simpl. unfold SimpleRangeIterator_next. simpl. rewrite Z.add_0_r.
    by rewrite decide_True.
  - rewrite seqZ_cons by lia. rewrite Nat2Z.inj_succ.
    remember (S n) as m eqn:Em. cbn [iter_collect]. subst m.
    unfold SimpleRangeIterator_next at 1. cbn [sri_current sri_end].
    rewrite decide_False by (intros [= ?]; lia).
    unfold step, VirtPageNum_step. cbn [vpn_0]. rewrite add_w_small by (unfold fits; lia).
    replace (l + Z.succ (Z.of_nat n)) with (l + 1 + Z.of_nat n) by lia.
    rewrite IH by lia. simpl. do 3 f_equal. f_equal; lia.
Qed.

Lemma VPNRange_vpns_eq l r :
  0 ≤ l ≤ r → r < 2 ^ 64 →
  VPNRange_vpns (MkSimpleRange (MkVirtPageNum l) (MkVirtPageNum r)) =
    MkVirtPageNum <$> seqZ l (r - l).
Proof.
  intros Hl Hr. unfold VPNRange_vpns, SimpleRange_into_iter. cbn [get_start get_end vpn_0].
  pose proof (iter_collect_vpn (Z.to_nat (r - l)) l) as H.
  rewrite Z2Nat.id in H by lia. replace (l + (r - l)) with r in H by lia.
  rewrite H by lia. done.
Qed.

Lemma elem_of_VPNRange_vpns l r v :
  0 ≤ l ≤ r → r < 2 ^ 64 →
  v ∈ VPNRange_vpns (MkSimpleRange (MkVirtPageNum l) (MkVirtPageNum r)) ↔ l ≤ vpn_0 v < r.
Proof.
  intros Hl Hr. rewrite VPNRange_vpns_eq by done. rewrite list_elem_of_fmap. split.
  - intros (n & -> & Hn%elem_of_seqZ). simpl. lia.
  - intros H. exists (vpn_0 v). rewrite elem_of_seqZ. destruct v. simpl in *. split; [done|lia].
Qed.

Lemma NoDup_VPNRange_vpns l r :
  0 ≤ l ≤ r → r < 2 ^ 64 →
  NoDup (VPNRange_vpns (MkSimpleRange (MkVirtPageNum l) (MkVirtPageNum r))).
Proof.
  intros Hl Hr. rewrite VPNRange_vpns_eq by done.
  apply NoDup_fmap_2; [by intros ?? [=]|]. apply NoDup_seqZ.
Qed.

Lemma VirtAddr_ceil_eq a :
  0 ≤ a < 2 ^ 64 - 4096 → VirtAddr_ceil (MkVirtAddr a) = MkVirtPageNum ((a + 4095) / 4096).
Proof.
  intros Ha. unfold VirtAddr_ceil, add_w, sub_w, wrap, PAGE_SIZE. cbn [va_0].
  rewrite Zplus_mod_idemp_l. rewrite Z.mod_small by lia. do 2 f_equal. lia.
Qed.

Lemma VirtAddr_aligned_spec v : VirtAddr_aligned v = true ↔ va_0 v mod 4096 = 0.
Proof.
  unfold VirtAddr_aligned, VirtAddr_page_offset. rewrite page_offset_mod.
  apply bool_decide_eq_true.
Qed.

(** * Properties *)

(** Every page-table index is below 512 and the three indexes of a 27-bit
    virtual page number are exactly its three 9-bit digits, most significant first. *)
Theorem indexes_are_digits v :
  0 ≤ vpn_0 v < 2 ^ 27 →
  ∃ i0 i1 i2, VirtPageNum_indexes v = [i0; i1; i2] ∧
    0 ≤ i0 < 512 ∧ 0 ≤ i1 < 512 ∧ 0 ≤ i2 < 512 ∧
    vpn_0 v = i0 * 2 ^ 18 + i1 * 2 ^ 9 + i2.
Proof.
  intros Hv. rewrite VirtPageNum_indexes_eq. do 3 eexists. split; [done|].
  repeat (split; [apply Z.mod_pos_bound; lia|]). by apply vpn_of_indexes.
Qed.

Lemma indexes_are_digits_witness :
  ∃ i0 i1 i2, VirtPageNum_indexes (MkVirtPageNum 0x7fffffe) = [i0; i1; i2] ∧
    0 ≤ i0 < 512 ∧ 0 ≤ i1 < 512 ∧ 0 ≤ i2 < 512 ∧
    0x7fffffe = i0 * 2 ^ 18 + i1 * 2 ^ 9 + i2.
Proof. apply (indexes_are_digits (MkVirtPageNum 0x7fffffe)). simpl. lia. Defined.

(** A range built by [SimpleRange::new] is iterated to its end: the iterator
    stops after [r - l] items and yields the page numbers [l, l+1, ..., r-1]. *)
Theorem range_iteration_terminates l r rg :
  0 ≤ l → r < 2 ^ 64 →
  SimpleRange_new (MkVirtPageNum l) (MkVirtPageNum r) = Ok rg →
  iter_collect (S (Z.to_nat (r - l))) (SimpleRange_into_iter rg)
    = Some (MkVirtPageNum <$> seqZ l (r - l)) ∧
  VPNRange_vpns rg = MkVirtPageNum <$> seqZ l (r - l).
Proof.
  intros Hl Hr Hnew. unfold SimpleRange_new, le_b, VirtPageNum_ord in Hnew. simpl in Hnew.
  destruct (bool_decide_reflect (l ≤ r)); [|done]. injection Hnew as <-.
  split; [|by apply VPNRange_vpns_eq].
  pose proof (iter_collect_vpn (Z.to_nat (r - l)) l) as H.
  rewrite Z2Nat.id in H by lia. replace (l + (r - l)) with r in H by lia. apply H; lia.
Qed.

Lemma range_iteration_terminates_witness :
  VPNRange_vpns (MkSimpleRange (MkVirtPageNum 3) (MkVirtPageNum 6)) =
    [MkVirtPageNum 3; MkVirtPageNum 4; MkVirtPageNum 5].
Proof.
  etransitivity; [eapply (range_iteration_terminates 3 6)|]; [lia|lia|reflexivity|reflexivity].
Defined.

Lemma usize_canonical v :
  0 ≤ va_0 v < 2 ^ 39 →
  VirtAddr_from (usize_from_VirtAddr v) = v ∧
  (usize_from_VirtAddr v < 2 ^ 38 ∨ 2 ^ 64 - 2 ^ 38 ≤ usize_from_VirtAddr v < 2 ^ 64).
Proof.
  destruct v as [a]. simpl. intros Ha.
  unfold VirtAddr_from, usize_from_VirtAddr. autounfold with addr. cbn [va_0].
  change (Z.shiftl 1 39 - 1) with (2 ^ 39 - 1). change (Z.shiftl 1 (39 - 1)) with (2 ^ 38).
  rewrite land_low by lia. case_decide.
  - change (2 ^ 64 - 1 - (2 ^ 39 - 1)) with (Z.shiftl (2 ^ 25 - 1) 39).
    rewrite Z.lor_comm, lor_shiftl_low by lia.
    split; [|lia]. f_equal. rewrite Z.add_comm, Z_mod_plus_full. by apply Z.mod_small.
  - split; [|lia]. f_equal. by apply Z.mod_small.
Qed.

(** Sign extension of a 39-bit virtual address round-trips: converting to
    [usize] and back is the identity, and the [usize] has bits 39..63 equal to bit 38
    (a canonical SV39 address). *)
Theorem VirtAddr_usize_roundtrip v :
  0 ≤ va_0 v < 2 ^ 39 →
  VirtAddr_from (usize_from_VirtAddr v) = v ∧
  (usize_from_VirtAddr v < 2 ^ 38 ∨ 2 ^ 64 - 2 ^ 38 ≤ usize_from_VirtAddr v < 2 ^ 64).
Proof. apply usize_canonical. Qed.

Lemma VirtAddr_usize_roundtrip_witness :
  VirtAddr_from (usize_from_VirtAddr (MkVirtAddr 0x7ffffff000)) = MkVirtAddr 0x7ffffff000 ∧
  (usize_from_VirtAddr (MkVirtAddr 0x7ffffff000) < 2 ^ 38 ∨
   2 ^ 64 - 2 ^ 38 ≤ usize_from_VirtAddr (MkVirtAddr 0x7ffffff000) < 2 ^ 64).
Proof. apply (VirtAddr_usize_roundtrip (MkVirtAddr 0x7ffffff000)). simpl. lia. Defined.

(** [floor] and [ceil] of a virtual address are the tightest page bounds around it
    ([VirtAddr(0).ceil()], whose [0 - 1] wraps around, included), and they coincide
    exactly on aligned addresses. *)
Theorem floor_ceil_tight v :
  0 ≤ va_0 v < 2 ^ 39 →
  vpn_0 (VirtAddr_floor v) * PAGE_SIZE ≤ va_0 v < (vpn_0 (VirtAddr_floor v) + 1) * PAGE_SIZE ∧
  (vpn_0 (VirtAddr_ceil v) - 1) * PAGE_SIZE < va_0 v ≤ vpn_0 (VirtAddr_ceil v) * PAGE_SIZE ∧
  (VirtAddr_aligned v = true ↔ VirtAddr_floor v = VirtAddr_ceil v).
Proof.
  destruct v as [a]. cbn [va_0]. intros Ha.
  rewrite VirtAddr_aligned_spec, VirtAddr_ceil_eq by lia.
  unfold VirtAddr_floor, PAGE_SIZE. cbn [va_0 vpn_0]. change 0x1000 with 4096.
  pose proof (Z.div_mod a 4096). pose proof (Z.mod_pos_bound a 4096).
  pose proof (Z.div_mod (a + 4095) 4096). pose proof (Z.mod_pos_bound (a + 4095) 4096).
  split; [lia|]. split; [lia|]. split.
  - intros. f_equal. lia.
  - intros [= ?]. lia.
Qed.

Lemma floor_ceil_tight_witness :
  vpn_0 (VirtAddr_floor (MkVirtAddr 0x1801)) * PAGE_SIZE ≤ 0x1801
    < (vpn_0 (VirtAddr_floor (MkVirtAddr 0x1801)) + 1) * PAGE_SIZE.
Proof. apply (floor_ceil_tight (MkVirtAddr 0x1801)). simpl. lia. Defined.

(** C40: The newtypes hold values of their width whatever integer they are made from: 39-bit
    virtual and 56-bit physical addresses, 27-bit virtual and 44-bit physical page numbers.
    Page numbers of addresses, page offsets and page-table indexes stay in their width, the
    address of a page number in that of addresses, and the integer of a virtual address is
    a canonical one.  Only [ceil] can leave the width of page numbers, by one, for an
    address in the last page. *)
Theorem addresses_in_width x :
  let va := VirtAddr_from x in let pa := PhysAddr_from x in let vpn := VirtPageNum_from x in let ppn := PhysPageNum_from x in
  (fits 39 (va_0 va) ∧ fits 56 (pa_0 pa) ∧ fits 27 (vpn_0 vpn) ∧ fits 44 (ppn_0 ppn)) ∧
  (fits 27 (vpn_0 (VirtAddr_floor va)) ∧ fits 44 (ppn_0 (PhysAddr_floor pa)) ∧
   fits 12 (VirtAddr_page_offset va) ∧ fits 12 (PhysAddr_page_offset pa)) ∧
  (fits 39 (va_0 (VirtAddr_from_VirtPageNum vpn)) ∧ fits 56 (pa_0 (PhysAddr_from_PhysPageNum ppn))) ∧
  (∀ i, i ∈ VirtPageNum_indexes vpn → fits 9 i) ∧
  (usize_from_VirtAddr va < 2 ^ 38 ∨ 2 ^ 64 - 2 ^ 38 ≤ usize_from_VirtAddr va < 2 ^ 64) ∧
  (vpn_0 (VirtAddr_ceil va) = 2 ^ 27 ↔ 2 ^ 39 - 4096 < va_0 va) ∧ (2 ^ 39 - 4096 < va_0 va ∨ fits 27 (vpn_0 (VirtAddr_ceil va))).
Proof.
  cbv zeta. assert (∀ w v, 0 ≤ w → fits w (Z.land v (Z.shiftl 1 w - 1))) as Hw.
  { intros w v H0. rewrite Z.shiftl_1_l. unfold fits. rewrite land_low by lia. apply Z.mod_pos_bound. lia. }
  pose proof (Hw 39 x ltac:(lia)) as H39. pose proof (Hw 56 x ltac:(lia)) as H56. pose proof (Hw 27 x ltac:(lia)) as H27. pose proof (Hw 44 x ltac:(lia)) as H44.
  split; [done|]. unfold fits in *. change (Z.land x (Z.shiftl 1 39 - 1)) with (va_0 (VirtAddr_from x)) in H39.
  change (Z.land x (Z.shiftl 1 56 - 1)) with (pa_0 (PhysAddr_from x)) in H56. change (Z.land x (Z.shiftl 1 27 - 1)) with (vpn_0 (VirtPageNum_from x)) in H27.
  change (Z.land x (Z.shiftl 1 44 - 1)) with (ppn_0 (PhysPageNum_from x)) in H44.
  destruct (VirtAddr_from x) as [va], (PhysAddr_from x) as [pa], (VirtPageNum_from x) as [vpn], (PhysPageNum_from x) as [ppn].
  cbn [va_0 pa_0 vpn_0 ppn_0] in *. unfold VirtAddr_floor, PhysAddr_floor, VirtAddr_page_offset, PhysAddr_page_offset.
  unfold VirtAddr_from_VirtPageNum, PhysAddr_from_PhysPageNum. cbn [va_0 pa_0 vpn_0 ppn_0].
  rewrite !page_offset_mod, !shl_w_small, VirtAddr_ceil_eq by (unfold fits, PAGE_SIZE_BITS; lia). unfold PAGE_SIZE, PAGE_SIZE_BITS.
  cbn [vpn_0]. pose proof (Z.mod_pos_bound va 4096). pose proof (Z.mod_pos_bound pa 4096).
  pose proof (Z.div_mod va 4096). pose proof (Z.div_mod pa 4096). pose proof (Z.div_mod (va + 4095) 4096). pose proof (Z.mod_pos_bound (va + 4095) 4096).
  split; [lia|]. split; [lia|]. split; [|split; [exact (proj2 (usize_canonical (MkVirtAddr va) H39))|split; [split; lia|destruct (Z.lt_ge_cases (2 ^ 39 - 4096) va); [left|right]; lia]]].
  intros i. rewrite VirtPageNum_indexes_eq. cbn [vpn_0]. rewrite !elem_of_cons, elem_of_nil.
  intros [->|[->|[->|[]]]]; apply Z.mod_pos_bound; lia.
Qed.
