(* ===== verification/Allocator.v ===== *)
(** What the kernel promises of its allocators of numbers: the frame allocator hands
    out physical page numbers, the two [RecycleAllocator]s hand out process
    identifiers and kernel-stack slots.  Both keep a high-water mark [current] and a
    stack [recycled] of returned numbers.  The interface states the contract through
    the set of live numbers; the clients' theorems below are proved against it. *)

From S2P Require Import Prelude.

(** An allocator with state [S]: [live s x] says that [x] is handed out, [room s]
    that one more allocation fits. *)
Class Allocator (S : Type) := {
  al_alloc : S → option (Z * S);
  al_dealloc : S → Z → res S;
  al_inv : S → Prop;
  al_live : S → Z → Prop;
  al_room : S → Prop;
  al_alloc_room s : al_inv s → al_room s →
    ∃ x s', al_alloc s = Some (x, s') ∧ al_inv s' ∧ ¬ al_live s x ∧
      ∀ y, al_live s' y ↔ y = x ∨ al_live s y;
  al_dealloc_live s x : al_inv s → al_live s x →
    ∃ s', al_dealloc s x = Ok s' ∧ al_inv s' ∧
      ∀ y, al_live s' y ↔ al_live s y ∧ y ≠ x;
  al_dealloc_twice s x s' : al_inv s → al_live s x → al_dealloc s x = Ok s' →
    al_dealloc s' x = Err Panic;
}.

(** * Clients

    A client holds the list [owned] of the numbers it obtained and did not return;
    it only returns numbers it owns (in the Rust code the owner is the unique
    [FrameTracker], [PidHandle] or [KernelStack], whose [Drop] returns it). *)
Section Clients.
Context {S : Type} `{Allocator S}.

Inductive client_step : S * list Z → S * list Z → Prop :=
| client_alloc s owned x s' :
    al_room s → al_alloc s = Some (x, s') → client_step (s, owned) (s', x :: owned)
| client_drop s owned1 x owned2 s' :
    al_dealloc s x = Ok s' →
    client_step (s, owned1 ++ x :: owned2) (s', owned1 ++ owned2).

Definition client_inv (c : S * list Z) : Prop :=
  al_inv c.1 ∧ NoDup c.2 ∧ ∀ y, al_live c.1 y ↔ y ∈ c.2.

Lemma client_step_inv c c' : client_inv c → client_step c c' → client_inv c'.
Proof.
  intros (Hinv & Hnd & Hlive) Hstep. inversion Hstep as [s o x s' Hroom Ha|s o1 x o2 s' Hd];
    subst; simpl in *.
  - destruct (al_alloc_room s Hinv Hroom) as (x' & s'' & Ha' & Hinv' & Hfresh & Hl).
    rewrite Ha in Ha'. injection Ha' as <- <-. split; [done|]. split; simpl.
    + constructor; [by rewrite <- Hlive|done].
    + intros y. rewrite Hl, elem_of_cons, Hlive. done.
  - assert (al_live s x) as Hx by (apply Hlive; set_solver).
    destruct (al_dealloc_live s x Hinv Hx) as (s'' & Hd' & Hinv' & Hl).
    rewrite Hd in Hd'. injection Hd' as <-. apply NoDup_app in Hnd as Hnd'.
    destruct Hnd' as (Hn1 & Hdis & Hn2). apply NoDup_cons in Hn2 as [Hx2 Hn2].
    split; [done|]. split; simpl.
    + apply NoDup_app. split; [done|]. split; [|done]. intros y Hy Hy2.
      apply (Hdis y Hy). set_solver.
    + intros y. rewrite Hl, Hlive, !elem_of_app, elem_of_cons. split.
      * naive_solver.
      * intros [Hy|Hy]; (split; [set_solver|]); intros ->; [apply (Hdis x Hy); set_solver|done].
Qed.

Lemma client_reachable_inv c c' : client_inv c → rtc client_step c c' → client_inv c'.
Proof. intros Hc. induction 1; eauto using client_step_inv. Qed.

(** A number a client owns can always be returned: dropping its handle never panics. *)
Lemma client_drop_progress s owned x :
  client_inv (s, owned) → x ∈ owned → ∃ s', al_dealloc s x = Ok s'.
Proof.
  intros (Hinv & _ & Hlive) Hx. apply Hlive in Hx.
  destruct (al_dealloc_live s x Hinv Hx) as (s' & ? & _). eauto.
Qed.
End Clients.
