(* ===== verification/FrameAllocator.v ===== *)
(** The stack frame allocator ([os/src/mm/frame_allocator.rs]). *)

From S2P Require Import Prelude Config Address Allocator.

Record StackFrameAllocator := MkStackFrameAllocator {
  sfa_current : Z;
  sfa_end : Z;
  sfa_recycled : list Z
}.

Definition StackFrameAllocator_new : StackFrameAllocator := MkStackFrameAllocator 0 0 [].

Definition StackFrameAllocator_init (s : StackFrameAllocator) (l r : PhysPageNum) :
    StackFrameAllocator :=
  MkStackFrameAllocator (ppn_0 l) (ppn_0 r) (sfa_recycled s).

Definition StackFrameAllocator_alloc (s : StackFrameAllocator) :
    option (PhysPageNum * StackFrameAllocator) :=
  match vec_pop (sfa_recycled s) with
  | Some (ppn, rest) =>
      Some (PhysPageNum_from ppn, MkStackFrameAllocator (sfa_current s) (sfa_end s) rest)
  | None =>
      if decide (sfa_current s = sfa_end s) then None
      else
        let current := (sfa_current s + 1)%usize in
        Some (PhysPageNum_from (current - 1)%usize,
              MkStackFrameAllocator current (sfa_end s) (sfa_recycled s))
  end.

Definition StackFrameAllocator_dealloc (s : StackFrameAllocator) (ppn : PhysPageNum) :
    res StackFrameAllocator :=
  let p := ppn_0 ppn in
  if decide (sfa_current s ≤ p) then Err Panic
  else if decide (p ∈ sfa_recycled s) then Err Panic
  else Ok (MkStackFrameAllocator (sfa_current s) (sfa_end s) (vec_push (sfa_recycled s) p)).

(** [init_frame_allocator] uses the frames between the end of the kernel image and
    [MEMORY_END]; [ekernel] is a linker symbol, a parameter here. *)
Definition init_frame_allocator (ekernel : Z) : StackFrameAllocator :=
  StackFrameAllocator_init StackFrameAllocator_new
    (PhysAddr_ceil (PhysAddr_from ekernel)) (PhysAddr_floor (PhysAddr_from MEMORY_END)).

(** * The allocator discharges the interface

    [l] and [r] are the bounds given to [init]. *)

Definition sfa_inv (l r : Z) (s : StackFrameAllocator) : Prop :=
  0 ≤ l ≤ sfa_current s ∧ sfa_current s ≤ r ∧ r ≤ 2 ^ 44 ∧ sfa_end s = r ∧
  NoDup (sfa_recycled s) ∧ Forall (λ x, l ≤ x < sfa_current s) (sfa_recycled s).

Definition sfa_live (l : Z) (s : StackFrameAllocator) (x : Z) : Prop :=
  l ≤ x < sfa_current s ∧ x ∉ sfa_recycled s.

Definition sfa_room (s : StackFrameAllocator) : Prop :=
  sfa_recycled s ≠ [] ∨ sfa_current s ≠ sfa_end s.

Lemma PhysPageNum_from_small x : 0 ≤ x < 2 ^ 44 → PhysPageNum_from x = MkPhysPageNum x.
Proof.
  intros Hx. unfold PhysPageNum_from. f_equal.
  change (Z.shiftl 1 PPN_WIDTH_SV39 - 1) with (2 ^ 44 - 1).
  rewrite land_low by lia. by apply Z.mod_small.
Qed.

Lemma sfa_alloc_room l r s :
  sfa_inv l r s → sfa_room s →
  ∃ x s', StackFrameAllocator_alloc s = Some (MkPhysPageNum x, s') ∧ sfa_inv l r s' ∧
    ¬ sfa_live l s x ∧ l ≤ x < r ∧ (∀ y, sfa_live l s' y ↔ y = x ∨ sfa_live l s y).
Proof.
  destruct s as [c e rc]. unfold sfa_inv, sfa_room, sfa_live, StackFrameAllocator_alloc.
  simpl. intros (Hl & Hc & He & -> & Hnd & Hrc) Hroom.
  destruct (vec_pop rc) as [[x rest]|] eqn:Hpop.
  - apply vec_pop_Some in Hpop as ->. apply Forall_app in Hrc as [Hrc Hx].
    apply Forall_cons_1 in Hx as [Hx _]. apply NoDup_app in Hnd as (Hnd & Hdis & _).
    rewrite PhysPageNum_from_small by lia. do 2 eexists. split; [done|]. simpl.
    split; [done|]. split; [set_solver|]. split; [lia|]. intros y. split.
    + intros [Hy Hyr]. destruct (decide (y = x)); set_solver.
    + intros [->|[Hy Hyr]]; [|set_solver]. split; [lia|]. intros Hin.
      apply (Hdis x Hin). set_solver.
  - apply vec_pop_nil in Hpop as ->. destruct Hroom as [?|Hne]; [done|].
    rewrite decide_False by done.
    rewrite add_w_small by (unfold fits; lia). rewrite sub_w_small by (unfold fits; lia).
    replace (c + 1 - 1) with c by lia. rewrite PhysPageNum_from_small by lia.
    do 2 eexists. split; [done|]. simpl. split; [repeat split; try lia; constructor|].
    split; [lia|]. split; [lia|]. intros y. set_unfold. lia.
Qed.

Lemma sfa_alloc_full s : ¬ sfa_room s → StackFrameAllocator_alloc s = None.
Proof.
  destruct s as [c e rc]. unfold sfa_room, StackFrameAllocator_alloc. simpl. intros Hn.
  assert (rc = []) as -> by (destruct rc; [done|exfalso; apply Hn; by left]).
  simpl. rewrite decide_True; [done|]. destruct (decide (c = e)); [done|].
  exfalso. apply Hn. by right.
Qed.

Lemma sfa_dealloc_live l r s x :
  sfa_inv l r s → sfa_live l s x →
  ∃ s', StackFrameAllocator_dealloc s (MkPhysPageNum x) = Ok s' ∧ sfa_inv l r s' ∧
    (∀ y, sfa_live l s' y ↔ sfa_live l s y ∧ y ≠ x) ∧ x ∈ sfa_recycled s'.
Proof.
  destruct s as [c e rc]. unfold sfa_inv, sfa_live, StackFrameAllocator_dealloc. simpl.
  intros (Hl & Hc & He & -> & Hnd & Hrc) [Hx Hxr]. rewrite !decide_False by (done || lia).
  eexists. split; [done|]. simpl. unfold vec_push. split; [|split; [|set_solver]].
  - repeat split; try lia.
    + apply NoDup_app. split; [done|]. split; [set_solver|]. apply NoDup_singleton.
    + apply Forall_app. split; [done|]. by apply Forall_singleton.
  - intros y. rewrite elem_of_app, list_elem_of_singleton. tauto.
Qed.

#[export, program] Instance StackFrameAllocator_ok (l r : Z) : Allocator StackFrameAllocator := {|
  al_alloc s := match StackFrameAllocator_alloc s with
                | Some (p, s') => Some (ppn_0 p, s') | None => None end;
  al_dealloc s x := StackFrameAllocator_dealloc s (MkPhysPageNum x);
  al_inv := sfa_inv l r;
  al_live := sfa_live l;
  al_room := sfa_room;
|}.
Next Obligation.
  intros l r s Hinv Hroom.
  destruct (sfa_alloc_room l r s Hinv Hroom) as (x & s' & -> & ? & ? & _ & ?). eauto 6.
Qed.
Next Obligation.
  intros l r s x Hinv Hx. destruct (sfa_dealloc_live l r s x Hinv Hx) as (s' & ? & ? & ? & _). eauto.
Qed.
Next Obligation.
  intros l r s x s' Hinv Hx Hd.
  destruct (sfa_dealloc_live l r s x Hinv Hx) as (s'' & Hd' & _ & _ & Hr).
  rewrite Hd in Hd'. injection Hd' as <-. unfold StackFrameAllocator_dealloc. simpl.
  case_decide; [done|]. by rewrite decide_True.
Qed.

Lemma init_frame_allocator_eq ekernel :
  0 < ekernel ≤ MEMORY_END →
  init_frame_allocator ekernel =
    MkStackFrameAllocator ((ekernel + 4095) / 4096) (MEMORY_END / 4096) [].
Proof.
  intros He. unfold MEMORY_END in He.
  assert (PhysAddr_from ekernel = MkPhysAddr ekernel) as Hfrom.
  { unfold PhysAddr_from. f_equal. change (Z.shiftl 1 PA_WIDTH_SV39 - 1) with (2 ^ 56 - 1).
    rewrite land_low by lia. apply Z.mod_small. lia. }
  unfold init_frame_allocator, StackFrameAllocator_init. rewrite Hfrom.
  unfold PhysAddr_ceil, PAGE_SIZE. cbn [pa_0 ppn_0].
  rewrite sub_w_small, add_w_small by (unfold fits; lia).
  f_equal. f_equal. lia.
Qed.

Lemma init_frame_allocator_inv ekernel :
  0 < ekernel ≤ MEMORY_END →
  sfa_inv ((ekernel + 4095) / 4096) (MEMORY_END / 4096) (init_frame_allocator ekernel).
Proof.
  intros He. rewrite init_frame_allocator_eq by done. unfold MEMORY_END in *.
  unfold sfa_inv. simpl sfa_current. simpl sfa_end. simpl sfa_recycled.
  assert (0 ≤ (ekernel + 4095) / 4096 ≤ 0x88000000 / 4096).
  { change (0x88000000 / 4096) with ((0x88000000 + 4095) / 4096).
    split; [apply Z.div_pos; lia|apply Z.div_le_mono; lia]. }
  split; [lia|]. split; [lia|]. split; [done|]. split; [done|]. split; constructor.
Qed.

(** * Properties *)

(** C14: whatever sequence of allocations and drops the kernel performs after
    [init_frame_allocator], the outstanding frames are pairwise distinct, lie entirely
    between the end of the kernel image and [MEMORY_END], and dropping any of them
    succeeds. *)
Theorem frames_owned_once ekernel s owned :
  0 < ekernel ≤ MEMORY_END →
  rtc (client_step (H := StackFrameAllocator_ok ((ekernel + 4095) / 4096) (MEMORY_END / 4096)))
    (init_frame_allocator ekernel, []) (s, owned) →
  NoDup owned ∧
  ∀ x, x ∈ owned →
    ekernel ≤ x * PAGE_SIZE ∧ (x + 1) * PAGE_SIZE ≤ MEMORY_END ∧
    ∃ s', StackFrameAllocator_dealloc s (MkPhysPageNum x) = Ok s'.
Proof.
  intros He Hsteps. pose proof (init_frame_allocator_inv ekernel He) as Hinit.
  eapply client_reachable_inv in Hsteps as Hc.
  2:{ split; [exact Hinit|]. split; [constructor|]. intros y. simpl. unfold sfa_live.
      rewrite init_frame_allocator_eq by done. simpl. set_unfold. lia. }
  pose proof Hc as (Hinv & Hnd & Hlive). split; [done|]. intros x Hx.
  split; [|split].
  3: { apply (client_drop_progress _ _ x Hc Hx). }
  all: simpl in Hinv, Hlive; apply Hlive in Hx as [Hx _];
    destruct Hinv as (_ & Hr & _); unfold PAGE_SIZE, MEMORY_END in *.
  - pose proof (Z.div_mod (ekernel + 4095) 4096). pose proof (Z.mod_pos_bound (ekernel + 4095) 4096).
    lia.
  - change (0x88000000 / 4096) with 0x88000 in Hr. lia.
Qed.

(** A run that allocates two frames, drops the first and allocates again. *)
Lemma frames_owned_once_witness :
  NoDup [0x80300; 0x80301] ∧ 0x80300000 ≤ 0x80300 * PAGE_SIZE.
Proof.
  assert (rtc (client_step (H := StackFrameAllocator_ok ((0x80300000 + 4095) / 4096) (MEMORY_END / 4096)))
    (init_frame_allocator 0x80300000, [])
    (MkStackFrameAllocator 0x80302 0x88000 [], [0x80300; 0x80301])) as Hrun.
  { apply (rtc_l _ _ (MkStackFrameAllocator 0x80301 0x88000 [], [0x80300])).
    { apply client_alloc; [right; vm_compute; discriminate|vm_compute; reflexivity]. }
    apply (rtc_l _ _ (MkStackFrameAllocator 0x80302 0x88000 [], [0x80301; 0x80300])).
    { apply client_alloc; [right; vm_compute; discriminate|vm_compute; reflexivity]. }
    apply (rtc_l _ _ (MkStackFrameAllocator 0x80302 0x88000 [0x80300], [0x80301])).
    { apply (client_drop _ [0x80301] 0x80300 []); vm_compute; reflexivity. }
    apply rtc_once. apply client_alloc; [left; vm_compute; discriminate|vm_compute; reflexivity]. }
  apply frames_owned_once in Hrun as [Hnd Hall]; [|unfold MEMORY_END; lia].
  split; [exact Hnd|]. apply (Hall 0x80300). set_solver.
Defined.

(** The allocator fails only when it is exhausted: under its invariant [alloc]
    returns [None] exactly when every frame of its range is live, and otherwise it
    returns a frame of the range that was not live. *)
Theorem frame_alloc_complete l r s :
  sfa_inv l r s →
  (StackFrameAllocator_alloc s = None ↔ ∀ x, l ≤ x < r → sfa_live l s x) ∧
  ∀ p s', StackFrameAllocator_alloc s = Some (p, s') →
    l ≤ ppn_0 p < r ∧ ¬ sfa_live l s (ppn_0 p) ∧ sfa_inv l r s' ∧
    ∀ y, sfa_live l s' y ↔ y = ppn_0 p ∨ sfa_live l s y.
Proof.
  intros Hinv.
  assert (Decision (sfa_room s)) as Hdec by (unfold sfa_room; apply _).
  destruct (decide (sfa_room s)) as [Hroom|Hfull].
  - destruct (sfa_alloc_room l r s Hinv Hroom) as (x & s' & Ha & Hinv' & Hdead & Hrange & Hl).
    rewrite Ha. split; [|intros p s'' [= <- <-]; auto]. split; [done|].
    intros Hall. exfalso. apply Hdead, Hall, Hrange.
  - rewrite (sfa_alloc_full s Hfull). split; [|done]. split; [|done]. intros _ x Hx.
    destruct Hinv as (Hl & Hc & _ & He & _). unfold sfa_room in Hfull. unfold sfa_live.
    destruct (sfa_recycled s); [|exfalso; apply Hfull; by left].
    split; [|set_solver]. destruct (decide (sfa_current s = sfa_end s)); [lia|].
    exfalso. apply Hfull. by right.
Qed.

Lemma frame_alloc_complete_witness :
  (∃ p s', StackFrameAllocator_alloc (MkStackFrameAllocator 5 8 [3; 4]) = Some (p, s') ∧
           2 ≤ ppn_0 p < 8) ∧
  ∀ x, 2 ≤ x < 4 → sfa_live 2 (MkStackFrameAllocator 4 4 []) x.
Proof.
  assert (sfa_inv 2 8 (MkStackFrameAllocator 5 8 [3; 4])) as Hi.
  { unfold sfa_inv; simpl. repeat split; try lia; [|repeat constructor; lia].
    apply (bool_decide_unpack _). vm_compute. done. }
  split.
  - exists (MkPhysPageNum 4), (MkStackFrameAllocator 5 8 [3]). split; [reflexivity|].
    eapply (frame_alloc_complete 2 8 _ Hi). reflexivity.
  - apply (frame_alloc_complete 2 4); [|reflexivity].
    unfold sfa_inv; simpl. repeat split; try lia; constructor.
Defined.

(** The validity check of [dealloc] rejects a frame that was never handed out
    because it is above the high-water mark, and a frame returned twice. *)
Theorem frame_dealloc_rejects l r s p :
  sfa_inv l r s →
  (sfa_current s ≤ ppn_0 p → StackFrameAllocator_dealloc s p = Err Panic) ∧
  (sfa_live l s (ppn_0 p) → ∃ s', StackFrameAllocator_dealloc s p = Ok s' ∧
     StackFrameAllocator_dealloc s' p = Err Panic).
Proof.
  intros Hinv. destruct p as [x]. cbn [ppn_0]. split.
  - intros Hx. unfold StackFrameAllocator_dealloc. simpl. by rewrite decide_True.
  - intros Hx. destruct (sfa_dealloc_live l r s x Hinv Hx) as (s' & Hd & _).
    exists s'. split; [done|].
    apply (al_dealloc_twice (Allocator := StackFrameAllocator_ok l r) s x s' Hinv Hx Hd).
Qed.

Lemma frame_dealloc_rejects_witness :
  StackFrameAllocator_dealloc (MkStackFrameAllocator 5 8 []) (MkPhysPageNum 6) = Err Panic ∧
  ∃ s', StackFrameAllocator_dealloc (MkStackFrameAllocator 5 8 []) (MkPhysPageNum 3) = Ok s' ∧
     StackFrameAllocator_dealloc s' (MkPhysPageNum 3) = Err Panic.
Proof.
  assert (sfa_inv 2 8 (MkStackFrameAllocator 5 8 [])) as Hi.
  { unfold sfa_inv; simpl. repeat split; try lia; constructor. }
  split.
  - apply (frame_dealloc_rejects 2 8 _ (MkPhysPageNum 6) Hi). simpl. lia.
  - apply (frame_dealloc_rejects 2 8 _ (MkPhysPageNum 3) Hi). split; simpl; [lia|set_solver].
Defined.
