(* ===== verification/TaskId.v ===== *)
(** Process identifiers and kernel-stack slots ([os/src/task/id.rs]): the recycling
    allocator behind [PID_ALLOCATOR] and [KSTACK_ALLOCATOR], and the position of a
    kernel stack in the kernel address space. *)

From S2P Require Import Prelude Config Allocator.

Record RecycleAllocator := MkRecycleAllocator {
  ra_current : Z;
  ra_recycled : list Z
}.

Definition RecycleAllocator_new : RecycleAllocator := MkRecycleAllocator 0 [].

Definition RecycleAllocator_alloc (s : RecycleAllocator) : Z * RecycleAllocator :=
  match vec_pop (ra_recycled s) with
  | Some (id, rest) => (id, MkRecycleAllocator (ra_current s) rest)
  | None =>
      let current := (ra_current s + 1)%usize in
      ((current - 1)%usize, MkRecycleAllocator current (ra_recycled s))
  end.

Definition RecycleAllocator_dealloc (s : RecycleAllocator) (id : Z) : res RecycleAllocator :=
  _ ← res_assert (bool_decide (id < ra_current s));
  _ ← res_assert (negb (bool_decide (id ∈ ra_recycled s)));
  mret (MkRecycleAllocator (ra_current s) (vec_push (ra_recycled s) id)).

(** [(bottom, top)] of the kernel stack of a slot. *)
Definition kernel_stack_position (app_id : Z) : Z * Z :=
  let top := (TRAMPOLINE - app_id * (KERNEL_STACK_SIZE + PAGE_SIZE))%usize in
  let bottom := (top - KERNEL_STACK_SIZE)%usize in
  (bottom, top).

Definition KernelStack_get_top (kstack : Z) : Z := (kernel_stack_position kstack).2.

(** * The allocator discharges the interface *)

Definition ra_inv (s : RecycleAllocator) : Prop :=
  0 ≤ ra_current s < 2 ^ 64 ∧ NoDup (ra_recycled s) ∧
  Forall (λ x, 0 ≤ x < ra_current s) (ra_recycled s).

Definition ra_live (s : RecycleAllocator) (x : Z) : Prop :=
  0 ≤ x < ra_current s ∧ x ∉ ra_recycled s.

(** Only the 2^64-th simultaneously live identifier would not fit. *)
Definition ra_room (s : RecycleAllocator) : Prop :=
  ra_recycled s ≠ [] ∨ ra_current s < 2 ^ 64 - 1.

Lemma ra_alloc_room s :
  ra_inv s → ra_room s →
  ∃ x s', RecycleAllocator_alloc s = (x, s') ∧ ra_inv s' ∧ ¬ ra_live s x ∧
    (∀ y, ra_live s' y ↔ y = x ∨ ra_live s y).
Proof.
  destruct s as [c rc]. unfold ra_inv, ra_room, ra_live, RecycleAllocator_alloc. simpl.
  intros (Hc & Hnd & Hrc) Hroom. destruct (vec_pop rc) as [[x rest]|] eqn:Hpop.
  - apply vec_pop_Some in Hpop as ->. apply Forall_app in Hrc as [Hrc Hx].
    apply Forall_cons_1 in Hx as [Hx _]. apply NoDup_app in Hnd as (Hnd & Hdis & _).
    do 2 eexists. split; [done|]. simpl. split; [done|]. split; [set_solver|].
    intros y. split.
    + intros [Hy Hyr]. destruct (decide (y = x)); set_solver.
    + intros [->|[Hy Hyr]]; [|set_solver]. split; [lia|]. intros Hin.
      apply (Hdis x Hin). set_solver.
  - apply vec_pop_nil in Hpop as ->. destruct Hroom as [?|Hne]; [done|].
    rewrite add_w_small by (unfold fits; lia). rewrite sub_w_small by (unfold fits; lia).
    do 2 eexists. split; [done|]. simpl. split; [repeat split; try lia; constructor|].
    split; [lia|]. intros y. set_unfold. lia.
Qed.

Lemma ra_dealloc_live s x :
  ra_inv s → ra_live s x →
  ∃ s', RecycleAllocator_dealloc s x = Ok s' ∧ ra_inv s' ∧
    (∀ y, ra_live s' y ↔ ra_live s y ∧ y ≠ x) ∧ x ∈ ra_recycled s'.
Proof.
  destruct s as [c rc]. unfold ra_inv, ra_live, RecycleAllocator_dealloc. simpl.
  intros (Hc & Hnd & Hrc) [Hx Hxr].
  rewrite (bool_decide_eq_true_2 (x < c)), (bool_decide_eq_false_2 (x ∈ rc)) by (done || lia).
  eexists. split; [done|]. simpl. unfold vec_push. split; [|split; [|set_solver]].
  - repeat split; try lia.
    + apply NoDup_app. split; [done|]. split; [set_solver|]. apply NoDup_singleton.
    + apply Forall_app. split; [done|]. by apply Forall_singleton.
  - intros y. rewrite elem_of_app, list_elem_of_singleton. tauto.
Qed.

#[export, program] Instance RecycleAllocator_ok : Allocator RecycleAllocator := {|
  al_alloc s := Some (RecycleAllocator_alloc s);
  al_dealloc := RecycleAllocator_dealloc;
  al_inv := ra_inv;
  al_live := ra_live;
  al_room := ra_room;
|}.
Next Obligation.
  intros s Hinv Hroom. destruct (ra_alloc_room s Hinv Hroom) as (x & s' & -> & ? & ? & ?).
  eauto 6.
Qed.
Next Obligation.
  intros s x Hinv Hx. destruct (ra_dealloc_live s x Hinv Hx) as (s' & ? & ? & ? & _). eauto.
Qed.
Next Obligation.
  intros s x s' Hinv Hx Hd. destruct (ra_dealloc_live s x Hinv Hx) as (s'' & Hd' & _ & _ & Hr).
  rewrite Hd in Hd'. injection Hd' as <-. unfold RecycleAllocator_dealloc.
  rewrite (bool_decide_eq_true_2 (x ∈ _)) by done.
  by destruct (bool_decide (x < _)).
Qed.

(** * Properties *)

(** Process identifiers (and kernel-stack slots) are never shared: after any
    sequence of allocations and drops from the fresh allocator the outstanding
    identifiers are pairwise distinct, exactly the live ones, and each can be dropped
    without a panic. *)
Theorem pids_owned_once s owned :
  rtc client_step (RecycleAllocator_new, []) (s, owned) →
  NoDup owned ∧ (∀ x, x ∈ owned ↔ ra_live s x) ∧
  ∀ x, x ∈ owned → ∃ s', RecycleAllocator_dealloc s x = Ok s'.
Proof.
  intros Hsteps. eapply client_reachable_inv in Hsteps as Hc.
  2:{ split; [|split; [constructor|]]; simpl.
      - unfold ra_inv. simpl. repeat split; try lia; constructor.
      - intros y. unfold ra_live. simpl. set_unfold. lia. }
  pose proof Hc as (Hinv & Hnd & Hlive). split; [done|]. split; [by intros; rewrite <- Hlive|].
  intros x Hx. apply (client_drop_progress _ _ x Hc Hx).
Qed.

Lemma pids_owned_once_witness : NoDup [0; 1].
Proof.
  apply (pids_owned_once (MkRecycleAllocator 2 [])).
  apply (rtc_l _ _ (MkRecycleAllocator 1 [], [0])).
  { apply client_alloc; [right; simpl; lia|reflexivity]. }
  apply (rtc_l _ _ (MkRecycleAllocator 2 [], [1; 0])).
  { apply client_alloc; [right; simpl; lia|reflexivity]. }
  apply (rtc_l _ _ (MkRecycleAllocator 2 [0], [1])).
  { apply (client_drop _ [1] 0 []). vm_compute. reflexivity. }
  apply rtc_once. apply client_alloc; [left; done|vm_compute; reflexivity].
Defined.

(** Kernel stacks of different slots are disjoint and separated by at least one
    unmapped guard page, all of them lie below the trampoline page, and (for the
    slots that fit the upper half of SV39) every stack address is canonical. *)
Theorem kernel_stacks_separated a b :
  0 ≤ a < b → (b + 1) * (KERNEL_STACK_SIZE + PAGE_SIZE) ≤ 2 ^ 38 - PAGE_SIZE →
  let '(bottom_a, top_a) := kernel_stack_position a in
  let '(bottom_b, top_b) := kernel_stack_position b in
  2 ^ 64 - 2 ^ 38 ≤ bottom_b ∧ top_b = bottom_b + KERNEL_STACK_SIZE ∧
  top_b + PAGE_SIZE ≤ bottom_a ∧ top_a = bottom_a + KERNEL_STACK_SIZE ∧
  top_a ≤ TRAMPOLINE ∧ bottom_b mod PAGE_SIZE = 0.
Proof.
  unfold kernel_stack_position, KERNEL_STACK_SIZE, PAGE_SIZE, TRAMPOLINE, USIZE_MAX, PAGE_SIZE.
  intros Ha Hb. rewrite (add_w_small 64 (4096 * 2)) by done.
  rewrite !mul_w_small by (unfold fits; lia).
  rewrite !(sub_w_small 64 (2 ^ 64 - 1 - 0x1000 + 1)) by (unfold fits; lia).
  rewrite !sub_w_small by (unfold fits; lia).
  repeat (split; [lia|]).
  replace (2 ^ 64 - 1 - 0x1000 + 1 - b * (4096 * 2 + 0x1000) - 4096 * 2)
    with ((2 ^ 52 - 3 - b * 3) * 0x1000) by lia.
  apply Z.mod_mul. lia.
Qed.

Lemma kernel_stacks_separated_witness :
  (kernel_stack_position 4).2 + PAGE_SIZE ≤ (kernel_stack_position 3).1.
Proof.
  pose proof (kernel_stacks_separated 3 4 ltac:(lia) ltac:(vm_compute; discriminate)) as H.
  exact (proj1 (proj2 (proj2 H))).
Defined.
