(* ===== verification/PhysMem.v ===== *)
(** Physical memory as the kernel sees it through its identity mapping: bytes at
    physical addresses, read and written as slices and as little-endian 64-bit
    words ([PhysPageNum::get_bytes_array], [get_pte_array] and [PhysAddr::get_mut] of
    [os/src/mm/address.rs]), together with the global frame allocator
    ([frame_alloc], [frame_dealloc] and [FrameTracker] of
    [os/src/mm/frame_allocator.rs]). *)

From S2P Require Import Prelude Config Address Allocator FrameAllocator.

(** Every physical address holds a byte; addresses not in the map hold 0. *)
Abbreviation memory := (gmap Z Z).

Definition read_u8 (m : memory) (a : Z) : Z := default 0 (m !! a).

Definition read_bytes (m : memory) (a n : Z) : list Z := read_u8 m <$> seqZ a n.

Fixpoint write_bytes (m : memory) (a : Z) (l : list Z) : memory :=
  match l with
  | [] => m
  | b :: l' => write_bytes (<[a := b]> m) (a + 1) l'
  end.

Definition read_u64 (m : memory) (a : Z) : Z := le_value (read_bytes m a 8).
Definition write_u64 (m : memory) (a v : Z) : memory := write_bytes m a (le_bytes 8 v).

Definition page_addr (p : PhysPageNum) : Z := pa_0 (PhysAddr_from_PhysPageNum p).

(** [ppn.get_bytes_array()] as a slice of 4096 bytes. *)
Definition get_bytes_array (m : memory) (p : PhysPageNum) : list Z :=
  read_bytes m (page_addr p) 4096.
Definition set_bytes_array (m : memory) (p : PhysPageNum) (l : list Z) : memory :=
  write_bytes m (page_addr p) l.

(** * The memory-management state: memory and the global frame allocator *)

Record MM := MkMM { mm_mem : memory; mm_fa : StackFrameAllocator }.

(** A [FrameTracker] owns one frame; dropping it returns the frame. *)
Record FrameTracker := MkFrameTracker { ft_ppn : PhysPageNum }.

(** [FrameTracker::new] clears the page. *)
Definition FrameTracker_new (m : memory) (p : PhysPageNum) : FrameTracker * memory :=
  (MkFrameTracker p, set_bytes_array m p (replicate 4096 0)).

Definition frame_alloc : M MM (option FrameTracker) := λ s,
  match StackFrameAllocator_alloc (mm_fa s) with
  | Some (ppn, fa') =>
      let '(ft, m') := FrameTracker_new (mm_mem s) ppn in
      Ok (Some ft, MkMM m' fa')
  | None => Ok (None, s)
  end.

Definition frame_dealloc (ppn : PhysPageNum) : M MM unit := λ s,
  fa' ← StackFrameAllocator_dealloc (mm_fa s) ppn;
  mret ((), MkMM (mm_mem s) fa').

Definition FrameTracker_drop (f : FrameTracker) : M MM unit := frame_dealloc (ft_ppn f).

(** * Memory lemmas *)

Definition mem_wf (m : memory) : Prop := ∀ a, is_byte (read_u8 m a).

Lemma length_read_bytes m a n : 0 ≤ n → Z.of_nat (length (read_bytes m a n)) = n.
Proof. intros. unfold read_bytes. rewrite length_fmap, length_seqZ. lia. Qed.

Lemma read_u8_insert m a b x :
  read_u8 (<[a := b]> m) x = if decide (a = x) then b else read_u8 m x.
Proof. unfold read_u8. rewrite lookup_insert. by case_decide. Qed.

Lemma read_u8_write_bytes_out m a l x :
  ¬ (a ≤ x < a + Z.of_nat (length l)) → read_u8 (write_bytes m a l) x = read_u8 m x.
Proof.
  revert m a. induction l as [|b l IH]; intros m a Hx; simpl; [done|].
  rewrite length_cons in Hx. rewrite IH by lia. rewrite read_u8_insert.
  rewrite decide_False by lia. done.
Qed.

Lemma read_u8_write_bytes_in m a l (i : nat) b :
  l !! i = Some b → read_u8 (write_bytes m a l) (a + Z.of_nat i) = b.
Proof.
  revert m a i. induction l as [|c l IH]; intros m a i Hi; [done|]. simpl.
  destruct i as [|i]; simpl in Hi.
  - injection Hi as ->. rewrite read_u8_write_bytes_out by lia.
    rewrite read_u8_insert, decide_True; [done|lia].
  - replace (a + Z.of_nat (S i)) with (a + 1 + Z.of_nat i) by lia. by apply IH.
Qed.

Lemma read_bytes_write_eq m a l n :
  n = Z.of_nat (length l) → read_bytes (write_bytes m a l) a n = l.
Proof.
  intros ->. apply list_eq. intros i. unfold read_bytes. rewrite list_lookup_fmap.
  destruct (l !! i) as [b|] eqn:Hi.
  - apply lookup_lt_Some in Hi as Hlt. rewrite lookup_seqZ_lt by lia. simpl.
    f_equal. by apply read_u8_write_bytes_in.
  - apply lookup_ge_None in Hi. rewrite lookup_seqZ_ge by lia. done.
Qed.

Lemma read_bytes_write_out m a l x n :
  x + n ≤ a ∨ a + Z.of_nat (length l) ≤ x →
  read_bytes (write_bytes m a l) x n = read_bytes m x n.
Proof.
  intros Hd. apply list_fmap_ext. intros i y Hy%list_elem_of_lookup_2.
  apply elem_of_seqZ in Hy. apply read_u8_write_bytes_out. lia.
Qed.

Lemma read_bytes_ext m m' a n :
  (∀ x, a ≤ x < a + n → read_u8 m' x = read_u8 m x) → read_bytes m' a n = read_bytes m a n.
Proof.
  intros H. apply list_fmap_ext. intros i y Hy%list_elem_of_lookup_2.
  apply elem_of_seqZ in Hy. apply H. lia.
Qed.

Lemma write_bytes_wf m a l : mem_wf m → Forall is_byte l → mem_wf (write_bytes m a l).
Proof.
  intros Hm Hl x. destruct (decide (a ≤ x < a + Z.of_nat (length l))) as [Hin|Hout].
  - destruct (lookup_lt_is_Some_2 l (Z.to_nat (x - a))) as [b Hb]; [lia|].
    replace x with (a + Z.of_nat (Z.to_nat (x - a))) by lia.
    rewrite (read_u8_write_bytes_in _ _ _ _ b Hb). by eapply Forall_lookup_1.
  - rewrite read_u8_write_bytes_out by done. apply Hm.
Qed.

Lemma read_bytes_wf m a n : mem_wf m → Forall is_byte (read_bytes m a n).
Proof. intros Hm. apply Forall_fmap, Forall_true. intros x. apply Hm. Qed.

Lemma read_u64_range m a : mem_wf m → 0 ≤ read_u64 m a < 2 ^ 64.
Proof.
  intros Hm. pose proof (le_value_range (read_bytes m a 8) (read_bytes_wf m a 8 Hm)) as H.
  rewrite length_read_bytes in H by lia. exact H.
Qed.

Lemma read_u64_write_eq m a v : fits 64 v → read_u64 (write_u64 m a v) a = v.
Proof.
  intros Hv. unfold read_u64, write_u64. rewrite read_bytes_write_eq.
  - apply le_value_bytes. exact Hv.
  - by rewrite length_le_bytes.
Qed.

Lemma read_u64_write_out m a v x :
  x + 8 ≤ a ∨ a + 8 ≤ x → read_u64 (write_u64 m a v) x = read_u64 m x.
Proof.
  intros H. unfold read_u64, write_u64. rewrite read_bytes_write_out; [done|].
  rewrite length_le_bytes. lia.
Qed.

Lemma write_u64_wf m a v : mem_wf m → mem_wf (write_u64 m a v).
Proof. intros. apply write_bytes_wf; [done|apply le_bytes_bytes]. Qed.

Lemma page_addr_eq p : 0 ≤ ppn_0 p < 2 ^ 44 → page_addr p = ppn_0 p * 4096.
Proof.
  intros Hp. unfold page_addr, PhysAddr_from_PhysPageNum, PAGE_SIZE_BITS. cbn [pa_0].
  rewrite shl_w_small; [done|lia|unfold fits; lia].
Qed.

(** * Frame allocation *)

(** Frames [alloc] can still hand out. *)
Definition sfa_avail (s : StackFrameAllocator) : Z :=
  Z.of_nat (length (sfa_recycled s)) + (sfa_end s - sfa_current s).

Lemma sfa_avail_room l r s : sfa_inv l r s → 0 < sfa_avail s → sfa_room s.
Proof.
  intros (_ & _ & _ & He & _). unfold sfa_avail, sfa_room.
  destruct (sfa_recycled s); simpl; [right; lia|left; done].
Qed.

Lemma sfa_alloc_avail s p s' :
  0 ≤ sfa_current s < 2 ^ 64 - 1 →
  StackFrameAllocator_alloc s = Some (p, s') → sfa_avail s' = sfa_avail s - 1.
Proof.
  intros Hc. destruct s as [c e rc]. unfold StackFrameAllocator_alloc, sfa_avail. simpl in *.
  destruct (vec_pop rc) as [[x rest]|] eqn:Hpop.
  - apply vec_pop_Some in Hpop as ->. intros [= <- <-]. simpl. rewrite length_app. simpl. lia.
  - case_decide; [done|]. intros [= <- <-]. simpl. rewrite add_w_small by (unfold fits; lia). lia.
Qed.

(** [frame_alloc] gives a cleared frame that was not live and touches no other byte. *)
Lemma frame_alloc_ok l r s :
  sfa_inv l r (mm_fa s) → 0 < sfa_avail (mm_fa s) → mem_wf (mm_mem s) →
  ∃ p s', frame_alloc s = Ok (Some (MkFrameTracker p), s') ∧
    sfa_inv l r (mm_fa s') ∧ mem_wf (mm_mem s') ∧ l ≤ ppn_0 p < r ∧
    ¬ sfa_live l (mm_fa s) (ppn_0 p) ∧
    (∀ y, sfa_live l (mm_fa s') y ↔ y = ppn_0 p ∨ sfa_live l (mm_fa s) y) ∧
    sfa_avail (mm_fa s') = sfa_avail (mm_fa s) - 1 ∧
    get_bytes_array (mm_mem s') p = replicate 4096 0 ∧
    (∀ a, ¬ (ppn_0 p * 4096 ≤ a < (ppn_0 p + 1) * 4096) →
          read_u8 (mm_mem s') a = read_u8 (mm_mem s) a).
Proof.
  intros Hinv Hav Hm. pose proof Hinv as (Hl & Hc & Hr & He & _).
  destruct (sfa_alloc_room l r _ Hinv (sfa_avail_room _ _ _ Hinv Hav))
    as (x & fa' & Ha & Hinv' & Hdead & Hrange & Hlive).
  unfold frame_alloc. rewrite Ha. unfold FrameTracker_new, set_bytes_array.
  assert (page_addr (MkPhysPageNum x) = x * 4096) as Hpa by (apply page_addr_eq; simpl; lia).
  do 2 eexists. split; [done|]. cbn [mm_mem mm_fa ppn_0]. split; [done|].
  split; [apply write_bytes_wf; [done|apply Forall_replicate; done]|].
  split; [done|]. split; [done|]. split; [done|].
  split; [eapply sfa_alloc_avail; [|done]; lia|]. unfold get_bytes_array. rewrite Hpa. split.
  - apply read_bytes_write_eq. rewrite length_replicate. done.
  - intros a Ha'. apply read_u8_write_bytes_out. rewrite length_replicate. lia.
Qed.

Lemma frame_alloc_none s :
  StackFrameAllocator_alloc (mm_fa s) = None → frame_alloc s = Ok (None, s).
Proof. intros H. unfold frame_alloc. by rewrite H. Qed.

Lemma read_bytes_lookup m a n l :
  read_bytes m a n = l → ∀ x, a ≤ x < a + n → l !! Z.to_nat (x - a) = Some (read_u8 m x).
Proof.
  intros <- x Hx. unfold read_bytes. rewrite list_lookup_fmap, lookup_seqZ_lt by lia. simpl.
  do 2 f_equal. lia.
Qed.

Lemma read_u64_ext m m' a :
  (∀ x, a ≤ x < a + 8 → read_u8 m' x = read_u8 m x) → read_u64 m' a = read_u64 m a.
Proof. intros H. unfold read_u64. by rewrite (read_bytes_ext m m'). Qed.

Lemma read_u64_zero m a : (∀ x, a ≤ x < a + 8 → read_u8 m x = 0) → read_u64 m a = 0.
Proof.
  intros H. rewrite (read_u64_ext ∅ m); [done|]. intros x Hx. by rewrite H.
Qed.
