(* ===== verification/PageTable.v ===== *)
(** SV39 page tables ([os/src/mm/page_table.rs]): page-table entries, the three-level
    walk with and without creation of intermediate tables, mapping, unmapping and
    translation, on the byte-level physical memory of [PhysMem].  The theorems show
    that a page table implements a partial map from virtual page numbers to entries. *)

From S2P Require Import Prelude Config Address Allocator FrameAllocator PhysMem.

(** * Page-table entries *)

(** [PTEFlags] is a set of eight flags stored in a [u8]. *)
Definition PTEFlags := Z.
Definition PTEFlags_V : PTEFlags := Z.shiftl 1 0.
Definition PTEFlags_R : PTEFlags := Z.shiftl 1 1.
Definition PTEFlags_W : PTEFlags := Z.shiftl 1 2.
Definition PTEFlags_X : PTEFlags := Z.shiftl 1 3.
Definition PTEFlags_U : PTEFlags := Z.shiftl 1 4.
Definition PTEFlags_G : PTEFlags := Z.shiftl 1 5.
Definition PTEFlags_A : PTEFlags := Z.shiftl 1 6.
Definition PTEFlags_D : PTEFlags := Z.shiftl 1 7.

(** [from_bits] accepts exactly the defined flags: all eight bits. *)
Definition PTEFlags_from_bits (b : Z) : option PTEFlags :=
  if decide (Z.land b (Z.lnot 255) = 0) then Some b else None.

Record PageTableEntry := MkPTE { pte_bits : Z }.

Definition PageTableEntry_new (ppn : PhysPageNum) (flags : PTEFlags) : PageTableEntry :=
  MkPTE (Z.lor (ppn_0 ppn ≪ 10)%usize flags).
Definition PageTableEntry_empty : PageTableEntry := MkPTE 0.
Definition PageTableEntry_ppn (e : PageTableEntry) : PhysPageNum :=
  PhysPageNum_from (Z.land (Z.shiftr (pte_bits e) 10) (Z.shiftl 1 44 - 1)).
(** [self.bits as u8] keeps the low eight bits, so [from_bits] never fails on it and the
    [unwrap] of the source has no failing branch (see [PageTableEntry_flags_total]). *)
Definition PageTableEntry_flags (e : PageTableEntry) : PTEFlags :=
  default 0 (PTEFlags_from_bits (wrap 8 (pte_bits e))).
Definition PageTableEntry_is_valid (e : PageTableEntry) : bool :=
  negb (bool_decide (Z.land (PageTableEntry_flags e) PTEFlags_V = 0)).
Definition PageTableEntry_readable (e : PageTableEntry) : bool :=
  negb (bool_decide (Z.land (PageTableEntry_flags e) PTEFlags_R = 0)).
Definition PageTableEntry_writable (e : PageTableEntry) : bool :=
  negb (bool_decide (Z.land (PageTableEntry_flags e) PTEFlags_W = 0)).
Definition PageTableEntry_executable (e : PageTableEntry) : bool :=
  negb (bool_decide (Z.land (PageTableEntry_flags e) PTEFlags_X = 0)).

(** * Page tables *)

Record PageTable := MkPageTable { root_ppn : PhysPageNum; frames : list FrameTracker }.

(** [&mut ppn.get_pte_array()[idx]] is a pointer to an entry: its address. *)
Definition pte_ptr (ppn : PhysPageNum) (idx : Z) : Z := page_addr ppn + 8 * idx.
Definition read_pte (m : memory) (ptr : Z) : PageTableEntry := MkPTE (read_u64 m ptr).
Definition write_pte (ptr : Z) (e : PageTableEntry) : M MM unit := λ s,
  Ok ((), MkMM (write_u64 (mm_mem s) ptr (pte_bits e)) (mm_fa s)).

Definition PageTable_new : M MM PageTable :=
  o ← frame_alloc;
  frame ← lift (unwrap o);
  mret (MkPageTable (ft_ppn frame) [frame]).

(** A table that only reads: it owns no frame. *)
Definition PageTable_from_token (satp : Z) : PageTable :=
  MkPageTable (PhysPageNum_from (Z.land satp (Z.shiftl 1 44 - 1))) [].

(** The loop of [find_pte_create] over [idxs.iter().enumerate()]. *)
Fixpoint find_pte_create_loop (i : nat) (idxs : list Z) (ppn : PhysPageNum) (pt : PageTable) :
    M MM (option Z * PageTable) :=
  match idxs with
  | [] => mret (None, pt)
  | idx :: idxs' =>
      let pte := pte_ptr ppn idx in
      if decide (i = 2%nat) then mret (Some pte, pt)
      else
        s ← get_state;
        pt' ← (if PageTableEntry_is_valid (read_pte (mm_mem s) pte) then mret pt
               else
                 o ← frame_alloc;
                 frame ← lift (unwrap o);
                 _ ← write_pte pte (PageTableEntry_new (ft_ppn frame) PTEFlags_V);
                 mret (MkPageTable (root_ppn pt) (vec_push (frames pt) frame)));
        s' ← get_state;
        find_pte_create_loop (S i) idxs' (PageTableEntry_ppn (read_pte (mm_mem s') pte)) pt'
  end.

Definition PageTable_find_pte_create (pt : PageTable) (vpn : VirtPageNum) :
    M MM (option Z * PageTable) :=
  find_pte_create_loop 0 (VirtPageNum_indexes vpn) (root_ppn pt) pt.

Fixpoint find_pte_loop (m : memory) (i : nat) (idxs : list Z) (ppn : PhysPageNum) : option Z :=
  match idxs with
  | [] => None
  | idx :: idxs' =>
      let pte := pte_ptr ppn idx in
      if decide (i = 2%nat) then Some pte
      else if PageTableEntry_is_valid (read_pte m pte)
      then find_pte_loop m (S i) idxs' (PageTableEntry_ppn (read_pte m pte))
      else None
  end.

Definition PageTable_find_pte (m : memory) (pt : PageTable) (vpn : VirtPageNum) : option Z :=
  find_pte_loop m 0 (VirtPageNum_indexes vpn) (root_ppn pt).

Definition PageTable_map (pt : PageTable) (vpn : VirtPageNum) (ppn : PhysPageNum)
    (flags : PTEFlags) : M MM PageTable :=
  '(o, pt') ← PageTable_find_pte_create pt vpn;
  pte ← lift (unwrap o);
  s ← get_state;
  _ ← lift (res_assert (negb (PageTableEntry_is_valid (read_pte (mm_mem s) pte))));
  _ ← write_pte pte (PageTableEntry_new ppn (Z.lor flags PTEFlags_V));
  mret pt'.

Definition PageTable_unmap (pt : PageTable) (vpn : VirtPageNum) : M MM unit :=
  s ← get_state;
  pte ← lift (unwrap (PageTable_find_pte (mm_mem s) pt vpn));
  _ ← lift (res_assert (PageTableEntry_is_valid (read_pte (mm_mem s) pte)));
  write_pte pte PageTableEntry_empty.

Definition PageTable_translate (m : memory) (pt : PageTable) (vpn : VirtPageNum) :
    option PageTableEntry :=
  read_pte m <$> PageTable_find_pte m pt vpn.

Definition PageTable_translate_va (m : memory) (pt : PageTable) (va : VirtAddr) :
    option PhysAddr :=
  (λ pte, PhysAddr_from
            (pa_0 (PhysAddr_from_PhysPageNum (PageTableEntry_ppn (read_pte m pte)))
             + VirtAddr_page_offset va)%usize)
  <$> PageTable_find_pte m pt (VirtAddr_floor va).

Definition PageTable_token (pt : PageTable) : Z :=
  Z.lor (8 ≪ 60)%usize (ppn_0 (root_ppn pt)).

(** * Entries as numbers *)

Definition pte_valid (b : Z) : Prop := b mod 2 = 1.
Definition pte_next (b : Z) : Z := (b / 1024) mod 2 ^ 44.

Lemma PageTableEntry_flags_total e :
  PTEFlags_from_bits (wrap 8 (pte_bits e)) = Some (pte_bits e mod 256).
Proof.
  unfold PTEFlags_from_bits, wrap. change (2 ^ 8) with 256. rewrite decide_True; [done|].
  rewrite <- Z.ldiff_land. change 255 with (Z.ones 8). rewrite Z.ldiff_ones_r by lia.
  rewrite Z.shiftr_div_pow2 by lia. change (2 ^ 8) with 256.
  rewrite (Z.div_small (pte_bits e mod 256)); [done|]. apply Z.mod_pos_bound. lia.
Qed.

Lemma PageTableEntry_flags_eq e : PageTableEntry_flags e = pte_bits e mod 256.
Proof. unfold PageTableEntry_flags. by rewrite PageTableEntry_flags_total. Qed.

Lemma is_valid_spec b : PageTableEntry_is_valid (MkPTE b) = bool_decide (pte_valid b).
Proof.
  unfold PageTableEntry_is_valid. rewrite PageTableEntry_flags_eq. cbn [pte_bits].
  change PTEFlags_V with (2 ^ 1 - 1). rewrite land_low by lia.
  change (2 ^ 1) with 2. unfold pte_valid.
  rewrite Z.mod_mod_divide by (exists 128; lia).
  pose proof (Z.mod_pos_bound b 2).
  repeat case_bool_decide; try done; lia.
Qed.

Lemma is_valid_bits e : PageTableEntry_is_valid e = bool_decide (pte_valid (pte_bits e)).
Proof. destruct e. apply is_valid_spec. Qed.

Lemma PageTableEntry_ppn_eq b : PageTableEntry_ppn (MkPTE b) = MkPhysPageNum (pte_next b).
Proof.
  unfold PageTableEntry_ppn. cbn [pte_bits]. change (Z.shiftl 1 44 - 1) with (2 ^ 44 - 1).
  rewrite land_low, Z.shiftr_div_pow2 by lia. apply PhysPageNum_from_small.
  apply Z.mod_pos_bound. lia.
Qed.

Lemma PageTableEntry_new_bits p flags :
  0 ≤ ppn_0 p < 2 ^ 44 → 0 ≤ flags < 256 →
  pte_bits (PageTableEntry_new p flags) = ppn_0 p * 1024 + flags.
Proof.
  intros Hp Hf. unfold PageTableEntry_new. cbn [pte_bits].
  rewrite shl_w_small by (unfold fits; lia).
  rewrite <- Z.shiftl_mul_pow2 by lia. rewrite lor_shiftl_low; lia.
Qed.

Lemma pte_next_new p flags : 0 ≤ p < 2 ^ 44 → 0 ≤ flags < 256 → pte_next (p * 1024 + flags) = p.
Proof.
  intros. unfold pte_next. rewrite Z.div_add_l, (Z.div_small flags) by lia.
  rewrite Z.add_0_r. by apply Z.mod_small.
Qed.

Lemma lor_V flags : 0 ≤ flags < 256 → 0 ≤ Z.lor flags PTEFlags_V < 256 ∧ Z.lor flags PTEFlags_V mod 2 = 1.
Proof.
  intros Hf. change PTEFlags_V with 1. split.
  - apply (lor_fits 8); done || lia.
  - rewrite <- Z.bit0_mod, Z.lor_spec. by rewrite orb_true_r.
Qed.

(** * Walking the table

    [walk m p q] follows the indexes [q] from the table in frame [p]; it fails at the
    first invalid entry. *)

Definition pte_at (m : memory) (p i : Z) : Z := read_u64 m (p * 4096 + 8 * i).

Fixpoint walk (m : memory) (p : Z) (q : list Z) : option Z :=
  match q with
  | [] => Some p
  | i :: q' => if decide (pte_valid (pte_at m p i)) then walk m (pte_next (pte_at m p i)) q' else None
  end.

Definition idx_ok (i : Z) : Prop := 0 ≤ i < 512.
Definition frame_nums (fs : list FrameTracker) : list Z := (λ f, ppn_0 (ft_ppn f)) <$> fs.
Definition root (pt : PageTable) : Z := ppn_0 (root_ppn pt).

(** The abstract view: the valid leaf entry of a page, as a partial map. *)
Definition leaf (m : memory) (p : Z) (q : list Z) (i : Z) : option Z :=
  t ← walk m p q;
  if decide (pte_valid (pte_at m t i)) then Some (pte_at m t i) else None.

Definition pt_view (m : memory) (pt : PageTable) (vpn : VirtPageNum) : option PageTableEntry :=
  e ← PageTable_translate m pt vpn;
  if PageTableEntry_is_valid e then Some e else None.

Lemma walk_app m p q q' : walk m p (q ++ q') = t ← walk m p q; walk m t q'.
Proof. revert p. induction q as [|i q IH]; intros p; simpl; [done|]. case_decide; [apply IH|done]. Qed.

Lemma walk_range m p q t : 0 ≤ p < 2 ^ 44 → walk m p q = Some t → 0 ≤ t < 2 ^ 44.
Proof.
  revert p. induction q as [|i q IH]; intros p Hp; simpl; [by intros [= <-]|].
  case_decide; [|done]. apply IH. apply Z.mod_pos_bound. lia.
Qed.

(** A walk reads the entries along its path only. *)
Lemma walk_agree m m' q p :
  (∀ q1 j q2 b, q = q1 ++ j :: q2 → walk m p q1 = Some b → pte_at m' b j = pte_at m b j) →
  walk m' p q = walk m p q.
Proof.
  revert p. induction q as [|i q IH]; intros p H; [done|]. cbn [walk].
  rewrite (H [] i q p eq_refl eq_refl). case_decide as Hv; [|done].
  apply IH. intros q1 j q2 b -> Hb. apply (H (i :: q1) j q2 b eq_refl).
  cbn [walk]. by rewrite decide_True.
Qed.

Lemma pte_ptr_eq p i : 0 ≤ ppn_0 p < 2 ^ 44 → pte_ptr p i = ppn_0 p * 4096 + 8 * i.
Proof. intros. unfold pte_ptr. by rewrite page_addr_eq. Qed.

Lemma find_pte_walk m pt vpn :
  0 ≤ root pt < 2 ^ 44 →
  ∃ i0 i1 i2, VirtPageNum_indexes vpn = [i0; i1; i2] ∧ idx_ok i0 ∧ idx_ok i1 ∧ idx_ok i2 ∧
    PageTable_find_pte m pt vpn =
      (λ t, t * 4096 + 8 * i2) <$> walk m (root pt) [i0; i1].
Proof.
  intros Hr. pose proof (VirtPageNum_indexes_range vpn) as Hrange.
  unfold PageTable_find_pte. destruct pt as [[rt] fs]. unfold root in *. cbn [root_ppn ppn_0] in *.
  rewrite VirtPageNum_indexes_eq in *.
  set (i0 := _ mod 512) in *. set (i1 := (_ / 2 ^ 9) mod 512) in *. set (i2 := vpn_0 vpn mod 512) in *.
  exists i0, i1, i2. split; [done|].
  do 3 (split; [apply Hrange; set_solver|]).
  cbn [find_pte_loop walk]. rewrite !decide_False by done. rewrite (decide_True (P := 2%nat = 2%nat)) by done.
  unfold read_pte. rewrite !is_valid_spec, !PageTableEntry_ppn_eq.
  rewrite pte_ptr_eq by done. cbn [ppn_0]. fold (pte_at m rt i0).
  destruct (decide (pte_valid (pte_at m rt i0))) as [Hv|Hv];
    [rewrite bool_decide_eq_true_2 by done|by rewrite bool_decide_eq_false_2 by done].
  rewrite pte_ptr_eq by (cbn [ppn_0]; apply Z.mod_pos_bound; lia). cbn [ppn_0].
  fold (pte_at m (pte_next (pte_at m rt i0)) i1).
  set (t := pte_next (pte_at m rt i0)).
  destruct (decide (pte_valid (pte_at m t i1))) as [Hw|Hw];
    [rewrite bool_decide_eq_true_2 by done|by rewrite bool_decide_eq_false_2 by done].
  rewrite pte_ptr_eq by (cbn [ppn_0]; apply Z.mod_pos_bound; lia). done.
Qed.

Lemma pt_view_leaf m pt vpn :
  0 ≤ root pt < 2 ^ 44 →
  ∃ i0 i1 i2, VirtPageNum_indexes vpn = [i0; i1; i2] ∧ idx_ok i0 ∧ idx_ok i1 ∧ idx_ok i2 ∧
    pt_view m pt vpn = MkPTE <$> leaf m (root pt) [i0; i1] i2.
Proof.
  intros Hr. destruct (find_pte_walk m pt vpn Hr) as (i0 & i1 & i2 & Hi & H0 & H1 & H2 & Hf).
  exists i0, i1, i2. do 4 (split; [done|]). unfold pt_view, PageTable_translate, leaf. rewrite Hf.
  destruct (walk m (root pt) [i0; i1]) as [t|]; [|done]. simpl.
  unfold read_pte. rewrite is_valid_spec. fold (pte_at m t i2).
  case_decide; [by rewrite bool_decide_eq_true_2|by rewrite bool_decide_eq_false_2].
Qed.

(** * Well-formed tables

    The table frames form a tree: distinct paths of length at most two lead to distinct
    frames, all of them owned by the page table. *)
Record pt_tree (m : memory) (rt : Z) (fs : list Z) : Prop := {
  tree_nodup : NoDup fs;
  tree_frames : ∀ x, x ∈ fs → 0 ≤ x < 2 ^ 44;
  tree_root : rt ∈ fs;
  tree_closed q a : (length q ≤ 2)%nat → Forall idx_ok q → walk m rt q = Some a → a ∈ fs;
  tree_inj q q' a : (length q ≤ 2)%nat → (length q' ≤ 2)%nat → Forall idx_ok q → Forall idx_ok q' →
    walk m rt q = Some a → walk m rt q' = Some a → q = q';
}.

Section Tree.
Context (m : memory) (rt : Z) (fs : list Z) (Htree : pt_tree m rt fs).

(** Memory that keeps the entries of the table's frames keeps the table. *)
Lemma tree_agree m' :
  (∀ b j, b ∈ fs → idx_ok j → pte_at m' b j = pte_at m b j) →
  pt_tree m' rt fs ∧ ∀ q i, (length q ≤ 2)%nat → Forall idx_ok q → idx_ok i →
    walk m' rt q = walk m rt q ∧ leaf m' rt q i = leaf m rt q i.
Proof using Htree.
  intros Hag. destruct Htree as [Hnd Hfr Hrt Hcl Hinj].
  assert (∀ q, (length q ≤ 2)%nat → Forall idx_ok q → walk m' rt q = walk m rt q) as Hw.
  { intros q Hl Hq. apply walk_agree. intros q1 j q2 b -> Hb. rewrite length_app in Hl.
    apply Forall_app in Hq as [Hq1 Hq2]. apply Forall_cons in Hq2 as [Hj _].
    apply Hag; [|done]. eapply Hcl; [|done|done]. simpl in Hl. lia. }
  split.
  - split; [done..| |].
    + intros q a Hl Hq. rewrite Hw by done. by apply Hcl.
    + intros q q' a Hl Hl' Hq Hq'. rewrite !Hw by done. by apply Hinj.
  - intros q i Hl Hq Hi. rewrite Hw by done. split; [done|]. unfold leaf. rewrite Hw by done.
    destruct (walk m rt q) as [t|] eqn:Ht; [|done]. simpl. by rewrite Hag by eauto.
Qed.

(** Writing a leaf entry changes that entry of the view and nothing else. *)
Lemma tree_set_leaf m' p t i v :
  length p = 2%nat → Forall idx_ok p → idx_ok i → walk m rt p = Some t →
  pte_at m' t i = v →
  (∀ b j, b ∈ fs → idx_ok j → (b, j) ≠ (t, i) → pte_at m' b j = pte_at m b j) →
  pt_tree m' rt fs ∧
  (∀ q, (length q ≤ 2)%nat → Forall idx_ok q → walk m' rt q = walk m rt q) ∧
  leaf m' rt p i = (if decide (pte_valid v) then Some v else None) ∧
  ∀ q j, length q = 2%nat → Forall idx_ok q → idx_ok j → (q, j) ≠ (p, i) →
    leaf m' rt q j = leaf m rt q j.
Proof using Htree.
  intros Hp Hpi Hi Ht Hv Hag. destruct Htree as [Hnd Hfr Hrt Hcl Hinj].
  assert (∀ q, (length q ≤ 2)%nat → Forall idx_ok q → walk m' rt q = walk m rt q) as Hw.
  { intros q Hl Hq. apply walk_agree. intros q1 j q2 b -> Hb. rewrite length_app in Hl. simpl in Hl.
    apply Forall_app in Hq as [Hq1 Hq2]. apply Forall_cons in Hq2 as [Hj _].
    apply Hag; [eapply Hcl; [|done|done]; lia|done|]. intros [= -> ->].
    assert (q1 = p) as -> by (eapply Hinj; [..|done|done]; done || lia). lia. }
  split; [split; [done..| |]|split; [done|split]].
  - intros q a Hl Hq. rewrite Hw by done. by apply Hcl.
  - intros q q' a Hl Hl' Hq Hq'. rewrite !Hw by done. by apply Hinj.
  - unfold leaf. rewrite Hw by (done || lia). rewrite Ht. simpl. by rewrite Hv.
  - intros q j Hl Hq Hj Hne. unfold leaf. rewrite Hw by (done || lia).
    destruct (walk m rt q) as [t'|] eqn:Ht'; [|done]. simpl.
    rewrite Hag; [done| |done|]; [eapply Hcl; [|done|done]; lia|].
    intros [= -> ->]. apply Hne. f_equal. eapply Hinj; [..|done|done]; done || lia.
Qed.

(** Hanging a cleared frame below an invalid interior entry adds one path. *)
Lemma tree_extend m' p t i f :
  (length p ≤ 1)%nat → Forall idx_ok p → idx_ok i → walk m rt p = Some t →
  ¬ pte_valid (pte_at m t i) → f ∉ fs → 0 ≤ f < 2 ^ 44 →
  (∀ j, idx_ok j → pte_at m' f j = 0) →
  pte_valid (pte_at m' t i) → pte_next (pte_at m' t i) = f →
  (∀ b j, b ∈ fs → idx_ok j → (b, j) ≠ (t, i) → pte_at m' b j = pte_at m b j) →
  pt_tree m' rt (fs ++ [f]) ∧ walk m' rt (p ++ [i]) = Some f ∧
  ∀ q j, length q = 2%nat → Forall idx_ok q → idx_ok j → leaf m' rt q j = leaf m rt q j.
Proof using Htree.
  intros Hp Hpi Hi Ht Hinv Hf Hf44 Hzero Hnv Hnext Hag.
  destruct Htree as [Hnd Hfr Hrt Hcl Hinj].
  assert (∀ q1 j b, (length q1 ≤ 1)%nat → Forall idx_ok q1 → idx_ok j → walk m rt q1 = Some b →
            q1 ++ [j] ≠ p ++ [i] → pte_at m' b j = pte_at m b j) as Hkeep.
  { intros q1 j b Hl Hq Hj Hb Hne. apply Hag; [eapply Hcl; [|done|done]; lia|done|].
    intros [= -> ->]. apply Hne. f_equal. eapply Hinj; [..|done|done]; done || lia. }
  assert (walk m' rt p = Some t) as Ht'.
  { rewrite <- Ht. apply walk_agree. intros q1 j q2 b -> Hb. rewrite length_app in Hp. simpl in Hp.
    apply Forall_app in Hpi as [Hq1 Hq2]. apply Forall_cons in Hq2 as [Hj _].
    apply (Hkeep q1); [lia|done..|]. intros [? ?]%app_inj_tail. 
    apply (f_equal length) in H. rewrite length_app in H. simpl in H. lia. }
  assert (walk m' rt (p ++ [i]) = Some f) as Hpf.
  { rewrite walk_app, Ht'. simpl. rewrite decide_True by done. by rewrite Hnext. }
  assert (walk m rt (p ++ [i]) = None) as Hpn.
  { rewrite walk_app, Ht. simpl. by rewrite decide_False. }
  assert (∀ q, (length q ≤ 2)%nat → Forall idx_ok q → p ++ [i] ≠ q →
            walk m' rt q = walk m rt q) as Hw.
  { intros q Hl Hq Hne. destruct (decide (p ++ [i] `prefix_of` q)) as [[q2 ->]|Hnp].
    - rewrite walk_app, Hpf, walk_app, Hpn. simpl. destruct q2 as [|j q2];
        [by rewrite app_nil_r in Hne|]. cbn [walk].
      rewrite Hzero, decide_False; [done|by unfold pte_valid|].
      apply Forall_app in Hq as [_ Hq]. by apply Forall_cons in Hq as [? _].
    - apply walk_agree. intros q1 j q2 b -> Hb. rewrite length_app in Hl. simpl in Hl.
      apply Forall_app in Hq as [Hq1 Hq2]. apply Forall_cons in Hq2 as [Hj _].
      apply (Hkeep q1); [lia|done..|]. intros Heq. apply Hnp. exists q2. rewrite <- Heq.
      by rewrite <- app_assoc. }
  split; [split|split; [done|]].
  - apply NoDup_app. split; [done|]. split; [set_solver|]. apply NoDup_singleton.
  - intros x [Hx|Hx]%elem_of_app; [by apply Hfr|]. apply list_elem_of_singleton in Hx as ->. done.
  - apply elem_of_app. by left.
  - intros q a Hl Hq Ha. apply elem_of_app. destruct (decide (p ++ [i] = q)) as [<-|Hne].
    + right. rewrite Hpf in Ha. injection Ha as <-. set_solver.
    + left. rewrite Hw in Ha by done. by eapply Hcl.
  - intros q q' a Hl Hl' Hq Hq' Ha Ha'.
    destruct (decide (p ++ [i] = q)) as [<-|Hne], (decide (p ++ [i] = q')) as [<-|Hne']; [done|..].
    + rewrite Hpf in Ha. injection Ha as <-. rewrite Hw in Ha' by done. exfalso. eauto.
    + rewrite Hpf in Ha'. injection Ha' as <-. rewrite Hw in Ha by done. exfalso. eauto.
    + rewrite Hw in Ha, Ha' by done. by eapply Hinj.
  - intros q j Hl Hq Hj. unfold leaf. destruct (decide (p ++ [i] = q)) as [<-|Hne].
    + rewrite Hpf, Hpn. simpl. by rewrite Hzero, decide_False by (done || by unfold pte_valid).
    + rewrite Hw by (done || lia). destruct (walk m rt q) as [t'|] eqn:Hq'; [|done]. simpl.
      rewrite Hag; [done| |done|]; [eapply Hcl; [|done|done]; lia|]. intros [= -> ->].
      assert (q = p) as -> by (eapply Hinj; [..|done|done]; done || lia). lia.
Qed.
End Tree.

(** * The operations on well-formed tables *)

Lemma pte_at_ext m m' b j :
  idx_ok j → (∀ a, b * 4096 ≤ a < (b + 1) * 4096 → read_u8 m' a = read_u8 m a) →
  pte_at m' b j = pte_at m b j.
Proof. unfold idx_ok. intros Hj H. apply read_u64_ext. intros x Hx. apply H. lia. Qed.

Lemma pte_at_write_ne m t i b j v :
  idx_ok i → idx_ok j → (b, j) ≠ (t, i) →
  pte_at (write_u64 m (t * 4096 + 8 * i) v) b j = pte_at m b j.
Proof.
  unfold idx_ok. intros Hi Hj Hne. apply read_u64_write_out.
  destruct (decide (b = t)) as [->|]; [|lia]. destruct (decide (j = i)) as [->|]; [done|lia].
Qed.

Lemma pte_at_write_eq m t i v :
  fits 64 v → pte_at (write_u64 m (t * 4096 + 8 * i) v) t i = v.
Proof. apply read_u64_write_eq. Qed.

Lemma pte_at_cleared m p j :
  0 ≤ ppn_0 p < 2 ^ 44 → get_bytes_array m p = replicate 4096 0 → idx_ok j →
  pte_at m (ppn_0 p) j = 0.
Proof.
  unfold idx_ok. intros Hp Hz Hj. apply read_u64_zero. intros x Hx.
  unfold get_bytes_array in Hz. rewrite page_addr_eq in Hz by done.
  pose proof (read_bytes_lookup _ _ _ _ Hz x ltac:(lia)) as Hl.
  by apply lookup_replicate_1 in Hl as [? _].
Qed.

Definition pt_wf (l r : Z) (s : MM) (pt : PageTable) : Prop :=
  sfa_inv l r (mm_fa s) ∧ mem_wf (mm_mem s) ∧
  pt_tree (mm_mem s) (root pt) (frame_nums (frames pt)) ∧
  ∀ x, x ∈ frame_nums (frames pt) → sfa_live l (mm_fa s) x.

(** [(s', pt')] is [(s, pt)] after an operation that only touched frames of the table,
    the fresh frames [new] included. *)
Record pt_step (l r : Z) (s : MM) (pt : PageTable) (s' : MM) (pt' : PageTable) (new : list Z) :
    Prop := {
  step_wf : pt_wf l r s' pt';
  step_root : root_ppn pt' = root_ppn pt;
  step_frames : frame_nums (frames pt') = frame_nums (frames pt) ++ new;
  step_live y : sfa_live l (mm_fa s') y ↔ y ∈ new ∨ sfa_live l (mm_fa s) y;
  step_fresh x : x ∈ new → ¬ sfa_live l (mm_fa s) x;
  step_avail : sfa_avail (mm_fa s') = sfa_avail (mm_fa s) - Z.of_nat (length new);
  step_mem a : a / 4096 ∉ frame_nums (frames pt') → read_u8 (mm_mem s') a = read_u8 (mm_mem s) a;
}.

Definition same_leaves (s : MM) (pt : PageTable) (s' : MM) : Prop :=
  ∀ q j, length q = 2%nat → Forall idx_ok q → idx_ok j →
    leaf (mm_mem s') (root pt) q j = leaf (mm_mem s) (root pt) q j.

Lemma pt_step_refl l r s pt : pt_wf l r s pt → pt_step l r s pt s pt [].
Proof.
  intros Hwf. split; try done; simpl; [by rewrite app_nil_r|set_solver|set_solver|lia].
Qed.

Lemma pt_step_trans l r s pt s1 pt1 s2 pt2 n1 n2 :
  pt_step l r s pt s1 pt1 n1 → pt_step l r s1 pt1 s2 pt2 n2 →
  pt_step l r s pt s2 pt2 (n1 ++ n2).
Proof.
  intros [W1 R1 F1 L1 X1 A1 M1] [W2 R2 F2 L2 X2 A2 M2]. split; [done|congruence|..].
  - by rewrite F2, F1, app_assoc.
  - intros y. rewrite L2, L1, elem_of_app. tauto.
  - intros x [Hx|Hx]%elem_of_app; [auto|]. intros Hl. apply (X2 x Hx), L1. auto.
  - rewrite A2, A1, length_app. lia.
  - intros a Ha. rewrite M2 by done. apply M1. rewrite F2 in Ha. set_solver.
Qed.

Lemma page_of a p : a / 4096 = p ↔ p * 4096 ≤ a < (p + 1) * 4096.
Proof.
  split; [intros <-; pose proof (Z.div_mod a 4096); pose proof (Z.mod_pos_bound a 4096); lia|].
  intros H. symmetry. apply (Z.div_unique _ _ _ (a - p * 4096)); lia.
Qed.

Lemma frame_nums_snoc fs f : frame_nums (vec_push fs f) = frame_nums fs ++ [ppn_0 (ft_ppn f)].
Proof. unfold vec_push, frame_nums. by rewrite fmap_app. Qed.

(** The body of the creating loop, split into its two branches. *)
Definition create_child (pte : Z) (pt : PageTable) : M MM PageTable :=
  o ← frame_alloc;
  frame ← lift (unwrap o);
  _ ← write_pte pte (PageTableEntry_new (ft_ppn frame) PTEFlags_V);
  mret (MkPageTable (root_ppn pt) (vec_push (frames pt) frame)).

Definition ensure_child (pte : Z) (pt : PageTable) : M MM PageTable :=
  s ← get_state;
  if PageTableEntry_is_valid (read_pte (mm_mem s) pte) then mret pt else create_child pte pt.

Lemma create_child_ok l r s pt p t i :
  pt_wf l r s pt → 0 < sfa_avail (mm_fa s) →
  (length p ≤ 1)%nat → Forall idx_ok p → idx_ok i → walk (mm_mem s) (root pt) p = Some t →
  ¬ pte_valid (pte_at (mm_mem s) t i) →
  ∃ pt' s' f, create_child (t * 4096 + 8 * i) pt s = Ok (pt', s') ∧
    pt_step l r s pt s' pt' [f] ∧ same_leaves s pt s' ∧
    walk (mm_mem s') (root pt) (p ++ [i]) = Some (pte_next (pte_at (mm_mem s') t i)).
Proof.
  intros (Hfa & Hm & Htree & Hlive) Hav Hp Hpi Hi Ht Hv.
  destruct (frame_alloc_ok l r s Hfa Hav Hm)
    as (f & s1 & Hal & Hfa1 & Hm1 & Hrange & Hdead & Hlive1 & Hav1 & Hclear & Hmem1).
  unfold create_child, mbind, M_bind. rewrite Hal.
  unfold lift, unwrap, write_pte, mret, M_ret. cbn beta iota. cbn [ft_ppn].
  assert (0 ≤ ppn_0 f < 2 ^ 44) as Hf44 by (destruct Hfa as (? & _ & ? & _); lia).
  assert (∀ j, idx_ok j → pte_at (mm_mem s1) (ppn_0 f) j = 0) as Hzero by
    (intros; by apply pte_at_cleared). clear Hclear.
  rewrite PageTableEntry_new_bits by done. change PTEFlags_V with 1.
  set (m' := write_u64 (mm_mem s1) (t * 4096 + 8 * i) (ppn_0 f * 1024 + 1)).
  assert (pte_at m' t i = ppn_0 f * 1024 + 1) as Hti by (apply pte_at_write_eq; unfold fits; lia).
  assert (t ∈ frame_nums (frames pt)) as Htin by (eapply tree_closed; [done| |done|done]; lia).
  assert (ppn_0 f ∉ frame_nums (frames pt)) as Hnf by (intros Hin; by apply Hdead, Hlive).
  assert (∀ b j, b ∈ frame_nums (frames pt) → idx_ok j →
    pte_at (mm_mem s1) b j = pte_at (mm_mem s) b j) as Hsame.
  { intros b j Hb Hj. apply pte_at_ext; [done|]. intros a Ha. apply Hmem1.
    assert (b ≠ ppn_0 f) by congruence. lia. }
  destruct (tree_extend _ _ _ Htree m' p t i (ppn_0 f)) as (Htree' & Hwalk & Hleaf); [done..| | | | |].
  { intros j Hj. unfold m'. rewrite pte_at_write_ne; [by apply Hzero|done..|congruence]. }
  { rewrite Hti. unfold pte_valid. rewrite Z.add_comm.
    replace (ppn_0 f * 1024) with ((ppn_0 f * 512) * 2) by lia. by rewrite Z_mod_plus_full. }
  { rewrite Hti. by apply pte_next_new. }
  { intros b j Hb Hj Hne. unfold m'. rewrite pte_at_write_ne by done. by apply Hsame. }
  do 2 eexists. exists (ppn_0 f). split; [done|]. cbn [mm_mem]. fold m'.
  split; [|split; [exact Hleaf|by rewrite Hti, pte_next_new by done]].
  split; unfold pt_wf; cbn [mm_mem mm_fa root_ppn frames]; rewrite ?frame_nums_snoc; try done.
  - split; [done|]. split; [by apply write_u64_wf|]. split; [exact Htree'|].
    intros x Hx. apply Hlive1. set_solver.
  - intros y. rewrite Hlive1. set_solver.
  - by intros x ->%list_elem_of_singleton.
  - intros a Ha. unfold m', write_u64. cbn [ft_ppn] in Ha. rewrite read_u8_write_bytes_out.
    + apply Hmem1. intros Hin%page_of. set_solver.
    + rewrite length_le_bytes. intros Hin. apply Ha, elem_of_app. left. unfold idx_ok in Hi.
      assert (a / 4096 = t) as -> by (apply page_of; lia). done.
Qed.

Lemma ensure_child_ok l r s pt p t i :
  pt_wf l r s pt → 0 < sfa_avail (mm_fa s) →
  (length p ≤ 1)%nat → Forall idx_ok p → idx_ok i → walk (mm_mem s) (root pt) p = Some t →
  ∃ pt' s' new, ensure_child (t * 4096 + 8 * i) pt s = Ok (pt', s') ∧
    pt_step l r s pt s' pt' new ∧ (length new ≤ 1)%nat ∧ same_leaves s pt s' ∧
    walk (mm_mem s') (root pt) (p ++ [i]) = Some (pte_next (pte_at (mm_mem s') t i)).
Proof.
  intros Hwf Hav Hp Hpi Hi Ht.
  unfold ensure_child, get_state, mbind, M_bind, read_pte. rewrite is_valid_spec.
  fold (pte_at (mm_mem s) t i). case_bool_decide as Hv.
  - exists pt, s, []. split; [done|]. split; [by apply pt_step_refl|]. split; [simpl; lia|]. split; [done|].
    rewrite walk_app, Ht. simpl. by rewrite decide_True.
  - destruct (create_child_ok l r s pt p t i) as (pt' & s' & f & ? & ? & ? & ?); [done..|].
    exists pt', s', [f]. split; [done|]. split; [done|]. split; [simpl; lia|done].
Qed.

Lemma find_pte_create_loop_S i idx idxs ppn pt s :
  i ≠ 2%nat →
  find_pte_create_loop i (idx :: idxs) ppn pt s =
    match ensure_child (pte_ptr ppn idx) pt s with
    | Ok (pt', s') => find_pte_create_loop (S i) idxs
        (PageTableEntry_ppn (read_pte (mm_mem s') (pte_ptr ppn idx))) pt' s'
    | Err e => Err e
    end.
Proof.
  intros Hi. cbn [find_pte_create_loop]. rewrite decide_False by done. unfold ensure_child.
  unfold create_child, get_state, mbind, M_bind. by destruct (PageTableEntry_is_valid _).
Qed.

Lemma find_pte_create_ok l r s pt vpn :
  pt_wf l r s pt → 2 ≤ sfa_avail (mm_fa s) →
  ∃ i0 i1 i2 t pt' s' new,
    VirtPageNum_indexes vpn = [i0; i1; i2] ∧ Forall idx_ok [i0; i1] ∧ idx_ok i2 ∧
    PageTable_find_pte_create pt vpn s = Ok ((Some (t * 4096 + 8 * i2), pt'), s') ∧
    pt_step l r s pt s' pt' new ∧ (length new ≤ 2)%nat ∧ same_leaves s pt s' ∧
    walk (mm_mem s') (root pt) [i0; i1] = Some t.
Proof.
  intros Hwf Hav. pose proof (VirtPageNum_indexes_range vpn) as Hrange.
  unfold PageTable_find_pte_create. rewrite VirtPageNum_indexes_eq in *.
  set (i0 := _ mod 512) in *. set (i1 := (_ / 2 ^ 9) mod 512) in *. set (i2 := vpn_0 vpn mod 512) in *.
  assert (idx_ok i0 ∧ idx_ok i1 ∧ idx_ok i2) as (H0 & H1 & H2)
    by (repeat split; apply Hrange; set_solver).
  clearbody i0 i1 i2. clear Hrange.
  assert (0 ≤ ppn_0 (root_ppn pt) < 2 ^ 44) as Hr44
    by (destruct Hwf as (_ & _ & Ht & _); apply (tree_frames _ _ _ Ht), (tree_root _ _ _ Ht)).
  destruct (ensure_child_ok l r s pt [] (root pt) i0)
    as (pt1 & s1 & n1 & E1 & G1 & L1 & S1 & W1); [done|lia|simpl; lia|constructor|done|done|].
  assert (root pt1 = root pt) as Hroot by (unfold root; by rewrite (step_root _ _ _ _ _ _ _ G1)).
  rewrite find_pte_create_loop_S, pte_ptr_eq by done. fold (root pt). rewrite E1.
  unfold read_pte at 1. fold (pte_at (mm_mem s1) (root pt) i0). rewrite PageTableEntry_ppn_eq.
  set (t1 := pte_next _) in *.
  assert (0 ≤ t1 < 2 ^ 44) as Ht1 by (apply Z.mod_pos_bound; lia). clearbody t1.
  destruct (ensure_child_ok l r s1 pt1 [i0] t1 i1)
    as (pt2 & s2 & n2 & E2 & G2 & L2 & S2 & W2);
    [apply G1|rewrite (step_avail _ _ _ _ _ _ _ G1); lia|simpl; lia|by constructor|done|
     by rewrite Hroot|].
  rewrite find_pte_create_loop_S, pte_ptr_eq by done. cbn [ppn_0]. rewrite E2.
  unfold read_pte at 1. fold (pte_at (mm_mem s2) t1 i1). rewrite PageTableEntry_ppn_eq.
  set (t2 := pte_next _) in *.
  assert (0 ≤ t2 < 2 ^ 44) as Ht2 by (apply Z.mod_pos_bound; lia). clearbody t2.
  exists i0, i1, i2, t2, pt2, s2, (n1 ++ n2). split; [done|]. split; [by auto|].
  split; [done|]. cbn [find_pte_create_loop]. rewrite decide_True by done.
  rewrite pte_ptr_eq by done. split; [done|].
  split; [by eapply pt_step_trans|]. split; [rewrite length_app; lia|].
  split; [|by rewrite <- Hroot].
  intros q j Hl Hq Hj. rewrite <- Hroot, S2, Hroot by done. by apply S1.
Qed.

Definition vpn_ok (v : VirtPageNum) : Prop := 0 ≤ vpn_0 v < 2 ^ 27.

Lemma pt_wf_root l r s pt : pt_wf l r s pt → 0 ≤ root pt < 2 ^ 44.
Proof. intros (_ & _ & Ht & _). apply (tree_frames _ _ _ Ht), (tree_root _ _ _ Ht). Qed.

(** Growing a table keeps its view. *)
Lemma same_leaves_view l r s pt s' pt' v :
  pt_wf l r s pt → same_leaves s pt s' → root_ppn pt' = root_ppn pt →
  pt_view (mm_mem s') pt' v = pt_view (mm_mem s) pt v.
Proof.
  intros Hwf Hs Hr. pose proof (pt_wf_root _ _ _ _ Hwf) as H44.
  assert (root pt' = root pt) as Hroot by (unfold root; by rewrite Hr).
  destruct (pt_view_leaf (mm_mem s) pt v H44) as (i0 & i1 & i2 & Hi & ? & ? & ? & ->).
  destruct (pt_view_leaf (mm_mem s') pt' v) as (j0 & j1 & j2 & Hj & _ & _ & _ & ->); [by rewrite Hroot|].
  rewrite Hi in Hj. injection Hj as <- <- <-. rewrite Hroot, Hs; auto.
Qed.

(** Overwriting the leaf entry of one page. *)
Lemma write_leaf_ok l r s pt vpn i0 i1 i2 t e :
  pt_wf l r s pt → vpn_ok vpn → VirtPageNum_indexes vpn = [i0; i1; i2] →
  Forall idx_ok [i0; i1] → idx_ok i2 → walk (mm_mem s) (root pt) [i0; i1] = Some t →
  fits 64 (pte_bits e) →
  ∃ s', write_pte (t * 4096 + 8 * i2) e s = Ok ((), s') ∧ pt_step l r s pt s' pt [] ∧
    PageTable_translate (mm_mem s') pt vpn = Some e ∧
    (∀ v, vpn_ok v → v ≠ vpn → pt_view (mm_mem s') pt v = pt_view (mm_mem s) pt v).
Proof.
  intros Hwf Hvpn Hidx H01 H2 Ht He. pose proof (pt_wf_root _ _ _ _ Hwf) as H44.
  pose proof Hwf as (Hfa & Hm & Htree & Hlive). eexists. split; [done|].
  set (m' := write_u64 (mm_mem s) (t * 4096 + 8 * i2) (pte_bits e)).
  assert (t ∈ frame_nums (frames pt)) as Htin by (eapply tree_closed; [done| |done|done]; simpl; lia).
  destruct (tree_set_leaf _ _ _ Htree m' [i0; i1] t i2 (pte_bits e))
    as (Htree' & Hwalk & Hleaf & Hother); [done..|by apply pte_at_write_eq| |].
  { intros b j Hb Hj Hne. by apply pte_at_write_ne. }
  cbn [mm_mem]. split; [|split].
  - split; cbn [mm_mem mm_fa]; try done; [|by rewrite app_nil_r|set_solver|set_solver|simpl; lia|].
    + split; [done|]. split; [by apply write_u64_wf|]. done.
    + intros a Ha. unfold m', write_u64. apply read_u8_write_bytes_out.
      rewrite length_le_bytes. intros Hin. apply Ha. unfold idx_ok in H2.
      assert (a / 4096 = t) as -> by (apply page_of; lia). done.
  - unfold PageTable_translate.
    destruct (find_pte_walk m' pt vpn H44) as (j0 & j1 & j2 & Hj & _ & _ & _ & ->).
    rewrite Hidx in Hj. injection Hj as <- <- <-. rewrite Hwalk, Ht by (done || simpl; lia). simpl.
    unfold read_pte. destruct e as [b]. do 2 f_equal. by apply pte_at_write_eq.
  - intros v Hv Hne.
    destruct (pt_view_leaf m' pt v H44) as (j0 & j1 & j2 & Hj & ? & ? & ? & ->).
    destruct (pt_view_leaf (mm_mem s) pt v H44) as (k0 & k1 & k2 & Hk & _ & _ & _ & ->).
    rewrite Hj in Hk. injection Hk as <- <- <-. rewrite Hother; auto.
    intros [= -> -> ->]. apply Hne. apply VirtPageNum_indexes_inj; [done..|congruence].
Qed.

Lemma PTE_new_fits ppn flags :
  0 ≤ ppn_0 ppn < 2 ^ 44 → 0 ≤ flags < 256 → fits 64 (pte_bits (PageTableEntry_new ppn flags)).
Proof. intros. rewrite PageTableEntry_new_bits by done. unfold fits. lia. Qed.

Lemma PTE_new_valid ppn flags :
  0 ≤ ppn_0 ppn < 2 ^ 44 → 0 ≤ flags < 256 →
  PageTableEntry_is_valid (PageTableEntry_new ppn (Z.lor flags PTEFlags_V)) = true.
Proof.
  intros Hp Hf. destruct (lor_V flags Hf) as [Hr Ho].
  rewrite is_valid_bits, PageTableEntry_new_bits by done.
  apply bool_decide_eq_true_2. unfold pte_valid.
  replace (ppn_0 ppn * 1024 + Z.lor flags PTEFlags_V)
    with (Z.lor flags PTEFlags_V + ppn_0 ppn * 512 * 2) by lia.
  by rewrite Z_mod_plus_full.
Qed.

Lemma pt_view_translate m pt v e :
  PageTable_translate m pt v = Some e →
  pt_view m pt v = if PageTableEntry_is_valid e then Some e else None.
Proof. intros H. unfold pt_view. by rewrite H. Qed.

Lemma PageTable_map_ok l r s pt vpn ppn flags :
  pt_wf l r s pt → 2 ≤ sfa_avail (mm_fa s) → vpn_ok vpn → 0 ≤ ppn_0 ppn < 2 ^ 44 →
  0 ≤ flags < 256 → pt_view (mm_mem s) pt vpn = None →
  ∃ pt' s' new, PageTable_map pt vpn ppn flags s = Ok (pt', s') ∧
    pt_step l r s pt s' pt' new ∧ (length new ≤ 2)%nat ∧
    pt_view (mm_mem s') pt' vpn = Some (PageTableEntry_new ppn (Z.lor flags PTEFlags_V)) ∧
    (∀ v, vpn_ok v → v ≠ vpn → pt_view (mm_mem s') pt' v = pt_view (mm_mem s) pt v).
Proof.
  intros Hwf Hav Hvpn Hppn Hflags Hnone.
  destruct (find_pte_create_ok l r s pt vpn Hwf Hav)
    as (i0 & i1 & i2 & t & pt1 & s1 & new & Hi & H01 & H2 & Hf & Hstep & Hnew & Hsame & Hw).
  pose proof Hstep as [Hwf1 Hroot1 _ _ _ _ _].
  assert (root pt1 = root pt) as Hroot by (unfold root; by rewrite Hroot1).
  pose proof (pt_wf_root _ _ _ _ Hwf1) as H44.
  assert (∀ v, pt_view (mm_mem s1) pt1 v = pt_view (mm_mem s) pt v) as Hview
    by (intros v; by eapply same_leaves_view).
  set (e := PageTableEntry_new ppn (Z.lor flags PTEFlags_V)).
  destruct (write_leaf_ok l r s1 pt1 vpn i0 i1 i2 t e) as (s2 & Hwr & Hstep2 & Htr & Hoth);
    [done..|by rewrite Hroot|apply PTE_new_fits; [done|by apply lor_V]|].
  exists pt1, s2, new. unfold PageTable_map, mbind, M_bind, get_state. rewrite Hf.
  unfold lift, unwrap, res_assert.
  assert (PageTableEntry_is_valid (read_pte (mm_mem s1) (t * 4096 + 8 * i2)) = false) as ->.
  { rewrite <- (Hview vpn) in Hnone. unfold pt_view, PageTable_translate in Hnone.
    destruct (find_pte_walk (mm_mem s1) pt1 vpn H44) as (j0 & j1 & j2 & Hj & _ & _ & _ & Hfp).
    rewrite Hi in Hj. injection Hj as <- <- <-. rewrite Hfp, Hroot, Hw in Hnone. simpl in Hnone.
    by destruct (PageTableEntry_is_valid _). }
  cbn [negb]. cbn beta iota. fold e. rewrite Hwr. split; [done|]. split.
  { rewrite <- (app_nil_r new). by eapply pt_step_trans. }
  split; [done|]. split.
  - rewrite (pt_view_translate _ _ _ _ Htr). unfold e. by rewrite PTE_new_valid.
  - intros v Hv Hne. rewrite Hoth by done. apply Hview.
Qed.

Lemma pt_view_find l r s pt vpn e :
  pt_wf l r s pt → pt_view (mm_mem s) pt vpn = Some e →
  ∃ i0 i1 i2 t, VirtPageNum_indexes vpn = [i0; i1; i2] ∧ Forall idx_ok [i0; i1] ∧ idx_ok i2 ∧
    walk (mm_mem s) (root pt) [i0; i1] = Some t ∧
    PageTable_find_pte (mm_mem s) pt vpn = Some (t * 4096 + 8 * i2) ∧
    read_pte (mm_mem s) (t * 4096 + 8 * i2) = e ∧ PageTableEntry_is_valid e = true.
Proof.
  intros Hwf Hv. pose proof (pt_wf_root _ _ _ _ Hwf) as H44. unfold pt_view, PageTable_translate in Hv.
  destruct (find_pte_walk (mm_mem s) pt vpn H44) as (i0 & i1 & i2 & Hi & ? & ? & ? & Hf).
  rewrite Hf in Hv. destruct (walk (mm_mem s) (root pt) [i0; i1]) as [t|] eqn:Hw; [|done].
  simpl in Hv. destruct (PageTableEntry_is_valid _) eqn:Hval; [|done]. injection Hv as <-.
  exists i0, i1, i2, t. by rewrite Hf; auto 10.
Qed.

Lemma PageTable_unmap_ok l r s pt vpn e :
  pt_wf l r s pt → vpn_ok vpn → pt_view (mm_mem s) pt vpn = Some e →
  ∃ s', PageTable_unmap pt vpn s = Ok ((), s') ∧ pt_step l r s pt s' pt [] ∧
    PageTable_translate (mm_mem s') pt vpn = Some PageTableEntry_empty ∧
    (∀ v, vpn_ok v → v ≠ vpn → pt_view (mm_mem s') pt v = pt_view (mm_mem s) pt v).
Proof.
  intros Hwf Hvpn Hview.
  destruct (pt_view_find _ _ _ _ _ _ Hwf Hview) as (i0 & i1 & i2 & t & Hi & H01 & H2 & Hw & Hf & He & Hval).
  destruct (write_leaf_ok l r s pt vpn i0 i1 i2 t PageTableEntry_empty)
    as (s2 & Hwr & Hstep2 & Htr & Hoth); [done..|].
  exists s2. unfold PageTable_unmap, mbind, M_bind, get_state. rewrite Hf. cbn beta iota.
  unfold lift, unwrap, res_assert. rewrite He, Hval. by rewrite Hwr.
Qed.

Lemma PageTable_new_ok l r s :
  sfa_inv l r (mm_fa s) → mem_wf (mm_mem s) → 0 < sfa_avail (mm_fa s) →
  ∃ pt s', PageTable_new s = Ok (pt, s') ∧ pt_wf l r s' pt ∧
    frame_nums (frames pt) = [root pt] ∧ ¬ sfa_live l (mm_fa s) (root pt) ∧
    (∀ y, sfa_live l (mm_fa s') y ↔ y = root pt ∨ sfa_live l (mm_fa s) y) ∧
    sfa_avail (mm_fa s') = sfa_avail (mm_fa s) - 1 ∧
    (∀ a, a / 4096 ≠ root pt → read_u8 (mm_mem s') a = read_u8 (mm_mem s) a) ∧
    ∀ v, pt_view (mm_mem s') pt v = None.
Proof.
  intros Hfa Hm Hav.
  destruct (frame_alloc_ok l r s Hfa Hav Hm)
    as (f & s1 & Hal & Hfa1 & Hm1 & Hrange & Hdead & Hlive1 & Hav1 & Hclear & Hmem1).
  assert (0 ≤ ppn_0 f < 2 ^ 44) as Hf44 by (destruct Hfa as (? & _ & ? & _); lia).
  assert (∀ j, idx_ok j → pte_at (mm_mem s1) (ppn_0 f) j = 0) as Hzero by
    (intros; by apply pte_at_cleared). clear Hclear.
  exists (MkPageTable f [MkFrameTracker f]), s1.
  unfold PageTable_new, mbind, M_bind. rewrite Hal. split; [done|].
  unfold root. cbn [root_ppn]. change (frame_nums _) with [ppn_0 f].
  assert (∀ q a, Forall idx_ok q → walk (mm_mem s1) (ppn_0 f) q = Some a → q = [] ∧ a = ppn_0 f) as Hw.
  { intros [|i q] a; simpl; [by intros _ [= <-]|]. intros [Hi _]%Forall_cons.
    by rewrite Hzero, decide_False by (done || by unfold pte_valid). }
  split; [|split; [done|split; [done|split; [done|split; [done|split]]]]].
  - split; [done|]. split; [done|]. unfold root. cbn [root_ppn frames].
    change (frame_nums _) with [ppn_0 f]. split.
    + split; [apply NoDup_singleton|by intros x ->%list_elem_of_singleton|set_solver|..].
      * intros q a _ Hq [-> ->]%Hw; [set_solver|done].
      * intros q q' a _ _ Hq Hq' [-> _]%Hw [-> _]%Hw; done.
    + intros x ->%list_elem_of_singleton. apply Hlive1. by left.
  - intros a Ha. apply Hmem1. intros Hin%page_of. done.
  - intros v. destruct (pt_view_leaf (mm_mem s1) (MkPageTable f [MkFrameTracker f]) v)
      as (i0 & i1 & i2 & _ & H0 & H1 & _ & ->); [done|].
    unfold leaf, root. cbn [root_ppn].
    destruct (walk (mm_mem s1) (ppn_0 f) [i0; i1]) eqn:Hwk; [|done].
    apply Hw in Hwk as [? _]; [done|auto].
Qed.

(** A step of one table leaves every table on other frames alone. *)
Lemma pt_step_other l r s pt s' pt' new pt2 :
  pt_step l r s pt s' pt' new → pt_wf l r s pt2 →
  (∀ x, x ∈ frame_nums (frames pt2) → x ∉ frame_nums (frames pt)) →
  pt_wf l r s' pt2 ∧ ∀ v, pt_view (mm_mem s') pt2 v = pt_view (mm_mem s) pt2 v.
Proof.
  intros [Hwf' _ Hfr Hlv Hfresh _ Hmem] Hwf2 Hdis.
  pose proof Hwf2 as (Hfa2 & Hm2 & Htree2 & Hlive2).
  destruct Hwf' as (Hfa' & Hm' & _ & _).
  assert (∀ b j, b ∈ frame_nums (frames pt2) → idx_ok j →
    pte_at (mm_mem s') b j = pte_at (mm_mem s) b j) as Hsame.
  { intros b j Hb Hj. apply pte_at_ext; [done|]. intros a Ha%page_of. apply Hmem. rewrite Ha, Hfr.
    intros [Hin|Hin]%elem_of_app; [by eapply Hdis|]. by eapply Hfresh, Hlive2. }
  destruct (tree_agree _ _ _ Htree2 (mm_mem s') Hsame) as [Htree' Hag].
  assert (pt_wf l r s' pt2) as Hwf'.
  { split; [done|]. split; [done|]. split; [done|]. intros x Hx. apply Hlv. auto. }
  split; [done|]. intros v. eapply same_leaves_view; [done| |done].
  intros q j Hl Hq Hj. by apply Hag; [lia|..].
Qed.

(** * Refinement

    The abstract state of a page table is a finite map from virtual page numbers to
    entries.  Mapping a mapped page and unmapping an unmapped one panic. *)

Abbreviation page_map := (gmap VirtPageNum PageTableEntry).

Definition page_map_map (σ : page_map) (vpn : VirtPageNum) (ppn : PhysPageNum) (flags : PTEFlags) :
    res page_map :=
  match σ !! vpn with
  | Some _ => Err Panic
  | None => Ok (<[vpn := PageTableEntry_new ppn (Z.lor flags PTEFlags_V)]> σ)
  end.

Definition page_map_unmap (σ : page_map) (vpn : VirtPageNum) : res page_map :=
  match σ !! vpn with
  | Some _ => Ok (delete vpn σ)
  | None => Err Panic
  end.

Definition pt_refines (l r : Z) (s : MM) (pt : PageTable) (σ : page_map) : Prop :=
  pt_wf l r s pt ∧ ∀ v, vpn_ok v → pt_view (mm_mem s) pt v = σ !! v.

Lemma map_refines l r s pt σ vpn ppn flags :
  pt_refines l r s pt σ → 2 ≤ sfa_avail (mm_fa s) → vpn_ok vpn → 0 ≤ ppn_0 ppn < 2 ^ 44 →
  0 ≤ flags < 256 →
  match page_map_map σ vpn ppn flags with
  | Ok σ' => ∃ pt' s' new, PageTable_map pt vpn ppn flags s = Ok (pt', s') ∧
      pt_refines l r s' pt' σ' ∧ pt_step l r s pt s' pt' new ∧ (length new ≤ 2)%nat
  | Err e => PageTable_map pt vpn ppn flags s = Err e
  end.
Proof.
  intros [Hwf Hview] Hav Hvpn Hppn Hfl. unfold page_map_map.
  destruct (σ !! vpn) as [e|] eqn:Hσ; rewrite <- Hview in Hσ by done.
  - destruct (find_pte_create_ok l r s pt vpn Hwf Hav)
      as (i0 & i1 & i2 & t & pt1 & s1 & new & Hi & H01 & H2 & Hf & Hstep & Hnew & Hsame & Hw).
    pose proof Hstep as [Hwf1 Hroot1 _ _ _ _ _].
    rewrite <- (same_leaves_view l r s pt s1 pt1) in Hσ by done.
    destruct (pt_view_find _ _ _ _ _ _ Hwf1 Hσ)
      as (j0 & j1 & j2 & t' & Hj & _ & _ & Hw' & _ & He & Hval).
    rewrite Hi in Hj. injection Hj as <- <- <-.
    assert (root pt1 = root pt) as Hroot by (unfold root; by rewrite Hroot1).
    rewrite Hroot, Hw in Hw'. injection Hw' as <-.
    unfold PageTable_map, mbind, M_bind, get_state. rewrite Hf. unfold lift, unwrap, res_assert.
    by rewrite He, Hval.
  - destruct (PageTable_map_ok l r s pt vpn ppn flags) as (pt' & s' & new & Hm & Hst & Hn & Hv & Ho);
      [done..|].
    exists pt', s', new. split; [done|]. split; [|done]. split; [apply Hst|].
    intros v Hv'. destruct (decide (v = vpn)) as [->|Hne].
    + by rewrite Hv, lookup_insert_eq.
    + by rewrite Ho, lookup_insert_ne, Hview by done.
Qed.

Lemma unmap_refines l r s pt σ vpn :
  pt_refines l r s pt σ → vpn_ok vpn →
  match page_map_unmap σ vpn with
  | Ok σ' => ∃ s', PageTable_unmap pt vpn s = Ok ((), s') ∧
      pt_refines l r s' pt σ' ∧ pt_step l r s pt s' pt []
  | Err e => PageTable_unmap pt vpn s = Err e
  end.
Proof.
  intros [Hwf Hview] Hvpn. unfold page_map_unmap.
  destruct (σ !! vpn) as [e|] eqn:Hσ; rewrite <- Hview in Hσ by done.
  - destruct (PageTable_unmap_ok l r s pt vpn e Hwf Hvpn Hσ) as (s' & Hu & Hst & Htr & Ho).
    exists s'. split; [done|]. split; [|done]. split; [apply Hst|].
    intros v Hv. destruct (decide (v = vpn)) as [->|Hne].
    + rewrite (pt_view_translate _ _ _ _ Htr), lookup_delete_eq. done.
    + by rewrite Ho, lookup_delete_ne, Hview by done.
  - unfold PageTable_unmap, mbind, M_bind, get_state. cbn beta iota.
    unfold pt_view, PageTable_translate in Hσ.
    destruct (PageTable_find_pte (mm_mem s) pt vpn) as [p|]; [|done]. simpl in Hσ.
    unfold lift, unwrap, res_assert. by destruct (PageTableEntry_is_valid _).
Qed.
