(* ===== verification/PageTableSpec.v ===== *)
(** The contract of page tables: any sequence of mappings and unmappings on a fresh
    table behaves as on a finite map, tables on different frames do not interfere,
    and addresses are translated through the entry of their page. *)

From S2P Require Import Prelude Config Address Allocator FrameAllocator PhysMem PageTable.

(** * Sequences of operations *)

Inductive pt_op :=
| OpMap (vpn : VirtPageNum) (ppn : PhysPageNum) (flags : PTEFlags)
| OpUnmap (vpn : VirtPageNum).

Definition pt_op_ok (o : pt_op) : Prop :=
  match o with
  | OpMap vpn ppn flags => vpn_ok vpn ∧ 0 ≤ ppn_0 ppn < 2 ^ 44 ∧ 0 ≤ flags < 256
  | OpUnmap vpn => vpn_ok vpn
  end.

Definition run_op (pt : PageTable) (o : pt_op) : M MM PageTable :=
  match o with
  | OpMap vpn ppn flags => PageTable_map pt vpn ppn flags
  | OpUnmap vpn => _ ← PageTable_unmap pt vpn; mret pt
  end.

Fixpoint run_ops (pt : PageTable) (os : list pt_op) : M MM PageTable :=
  match os with
  | [] => mret pt
  | o :: os' => pt' ← run_op pt o; run_ops pt' os'
  end.

Fixpoint page_map_ops (σ : page_map) (os : list pt_op) : res page_map :=
  match os with
  | [] => Ok σ
  | OpMap vpn ppn flags :: os' => σ' ← page_map_map σ vpn ppn flags; page_map_ops σ' os'
  | OpUnmap vpn :: os' => σ' ← page_map_unmap σ vpn; page_map_ops σ' os'
  end.

Lemma run_ops_refines l r os s pt σ :
  pt_refines l r s pt σ → 2 * Z.of_nat (length os) ≤ sfa_avail (mm_fa s) → Forall pt_op_ok os →
  match page_map_ops σ os with
  | Ok σ' => ∃ pt' s', run_ops pt os s = Ok (pt', s') ∧ pt_refines l r s' pt' σ'
  | Err e => run_ops pt os s = Err e
  end.
Proof.
  revert s pt σ. induction os as [|o os IH]; intros s pt σ Href Hav Hok; [by exists pt, s|].
  apply Forall_cons in Hok as [Ho Hok]. rewrite length_cons in Hav.
  destruct o as [vpn ppn flags|vpn]; cbn [page_map_ops run_ops run_op].
  - destruct Ho as (? & ? & ?).
    pose proof (map_refines l r s pt σ vpn ppn flags Href ltac:(lia) ltac:(done) ltac:(done) ltac:(done)) as Hm.
    destruct (page_map_map σ vpn ppn flags) as [σ'|e]; unfold mbind, M_bind, res_bind.
    + destruct Hm as (pt' & s' & new & -> & Href' & Hst & Hn). apply IH; [done| |done].
      rewrite (step_avail _ _ _ _ _ _ _ Hst). lia.
    + by rewrite Hm.
  - pose proof (unmap_refines l r s pt σ vpn Href Ho) as Hm.
    destruct (page_map_unmap σ vpn) as [σ'|e]; unfold mbind, M_bind, res_bind.
    + destruct Hm as (s' & -> & Href' & Hst). apply IH; [done| |done].
      rewrite (step_avail _ _ _ _ _ _ _ Hst). simpl. lia.
    + by rewrite Hm.
Qed.

(** The frame of the direct use of an entry. *)
Lemma view_find_pte l r s pt σ v e :
  pt_refines l r s pt σ → vpn_ok v → σ !! v = Some e →
  ∃ p, PageTable_find_pte (mm_mem s) pt v = Some p ∧ read_pte (mm_mem s) p = e.
Proof.
  intros [Hwf Hview] Hv He. rewrite <- Hview in He by done.
  destruct (pt_view_find _ _ _ _ _ _ Hwf He) as (? & ? & ? & t & _ & _ & _ & _ & ? & ? & _). eauto.
Qed.

Lemma translate_va_entry p va :
  0 ≤ va_0 va < 2 ^ 39 → 0 ≤ ppn_0 p < 2 ^ 44 →
  PhysAddr_from (pa_0 (PhysAddr_from_PhysPageNum p) + VirtAddr_page_offset va)%usize =
    MkPhysAddr (ppn_0 p * 4096 + va_0 va mod 4096).
Proof.
  intros Hva Hp. change (pa_0 (PhysAddr_from_PhysPageNum p)) with (page_addr p).
  rewrite page_addr_eq by done. unfold VirtAddr_page_offset. rewrite page_offset_mod.
  unfold PAGE_SIZE. change 0x1000 with 4096. pose proof (Z.mod_pos_bound (va_0 va) 4096).
  rewrite add_w_small by (unfold fits; lia). unfold PhysAddr_from. f_equal.
  change (Z.shiftl 1 PA_WIDTH_SV39 - 1) with (2 ^ 56 - 1). rewrite land_low by lia.
  apply Z.mod_small. lia.
Qed.

Lemma VirtAddr_floor_ok va : 0 ≤ va_0 va < 2 ^ 39 → vpn_ok (VirtAddr_floor va).
Proof.
  intros H. unfold vpn_ok, VirtAddr_floor, PAGE_SIZE. cbn [vpn_0].
  split; [apply Z.div_pos; lia|apply Z.div_lt_upper_bound; lia].
Qed.

Lemma pte_next_range b : 0 ≤ pte_next b < 2 ^ 44.
Proof. apply Z.mod_pos_bound. lia. Qed.

(** Creating a table leaves the tables that exist alone. *)
Lemma new_refines l r s :
  sfa_inv l r (mm_fa s) → mem_wf (mm_mem s) → 0 < sfa_avail (mm_fa s) →
  ∃ pt s', PageTable_new s = Ok (pt, s') ∧ pt_refines l r s' pt ∅ ∧
    sfa_avail (mm_fa s') = sfa_avail (mm_fa s) - 1 ∧
    ∀ pt2 σ2, pt_refines l r s pt2 σ2 →
      pt_refines l r s' pt2 σ2 ∧ ∀ x, x ∈ frame_nums (frames pt) → x ∉ frame_nums (frames pt2).
Proof.
  intros Hfa Hm Hav. destruct (PageTable_new_ok l r s Hfa Hm Hav)
    as (pt & s' & Hn & Hwf & Hfr & Hdead & Hl & Hav' & Hmem & Hv).
  exists pt, s'. split; [done|]. split; [split; [done|by intros; rewrite Hv]|]. split; [done|].
  intros pt2 σ2 [Hwf2 Hv2]. pose proof Hwf2 as (_ & _ & Ht2 & Hlive2).
  pose proof Hwf as (Hfa' & Hm' & _).
  destruct (tree_agree _ _ _ Ht2 (mm_mem s')) as [Ht2' Hag].
  { intros b j Hb Hj. apply pte_at_ext; [done|]. intros a Ha%page_of. apply Hmem.
    intros Heq. apply Hdead. rewrite <- Heq, Ha. auto. }
  split; [split|].
  - split; [done|]. split; [done|]. split; [done|]. intros x Hx. apply Hl. auto.
  - intros v Hvok. rewrite <- Hv2 by done. eapply same_leaves_view; [done| |done].
    intros q j ???. by apply Hag; [lia|..].
  - rewrite Hfr. intros x ->%list_elem_of_singleton Hin. by apply Hdead, Hlive2.
Qed.

(** Tokens: the mode in the top bits, the root frame below. *)
Lemma token_value pt : 0 ≤ ppn_0 (root_ppn pt) < 2 ^ 44 → PageTable_token pt = 8 * 2 ^ 60 + ppn_0 (root_ppn pt).
Proof.
  intros Hr. unfold PageTable_token. change (8 ≪ 60)%usize with (Z.shiftl 8 60). apply lor_shiftl_low; lia.
Qed.

Lemma token_root pt :
  0 ≤ ppn_0 (root_ppn pt) < 2 ^ 44 → root_ppn (PageTable_from_token (PageTable_token pt)) = root_ppn pt.
Proof.
  intros Hr. rewrite token_value by done. unfold PageTable_from_token. cbn [root_ppn].
  change (Z.shiftl 1 44 - 1) with (2 ^ 44 - 1). rewrite land_low by lia.
  change (8 * 2 ^ 60) with (2 ^ 19 * 2 ^ 44). rewrite Z.add_comm, Z_mod_plus_full, Z.mod_small by lia.
  destruct (root_ppn pt) as [n]. by apply PhysPageNum_from_small.
Qed.

(** * Properties *)

(** C7: page tables refine finite maps: after [PageTable::new], any sequence of [map]
    and [unmap] calls on the bytes of physical memory succeeds or panics exactly as
    on the finite map, and the final table represents the final map; two frames per
    operation (plus the root) always suffice. *)
Theorem page_table_simulation l r s os :
  sfa_inv l r (mm_fa s) → mem_wf (mm_mem s) → Forall pt_op_ok os →
  1 + 2 * Z.of_nat (length os) ≤ sfa_avail (mm_fa s) →
  match page_map_ops ∅ os with
  | Ok σ => ∃ pt s', (pt0 ← PageTable_new; run_ops pt0 os) s = Ok (pt, s') ∧ pt_refines l r s' pt σ
  | Err e => (pt0 ← PageTable_new; run_ops pt0 os) s = Err e
  end.
Proof.
  intros Hfa Hm Hok Hav.
  destruct (PageTable_new_ok l r s Hfa Hm ltac:(lia)) as (pt & s1 & Hnew & Hwf & _ & _ & _ & Hav1 & _ & Hv).
  unfold mbind, M_bind. rewrite Hnew.
  apply (run_ops_refines l r os s1 pt ∅); [split; [done|by intros; rewrite Hv]|lia|done].
Qed.

Definition demo_mm : MM := MkMM ∅ (MkStackFrameAllocator 0x80300 0x88000 []).
Definition demo_ops : list pt_op :=
  [OpMap (MkVirtPageNum 0x10) (MkPhysPageNum 0x80500) 10; OpMap (MkVirtPageNum 0x7ffffff) (MkPhysPageNum 0x80200) 10;
   OpUnmap (MkVirtPageNum 0x10)].

Lemma demo_mm_ok : sfa_inv 0x80300 0x88000 (mm_fa demo_mm) ∧ mem_wf (mm_mem demo_mm).
Proof.
  split; [|by intros a].
  unfold sfa_inv; simpl. repeat split; try lia; constructor.
Qed.

Lemma page_table_simulation_witness :
  ∃ pt s', (pt0 ← PageTable_new; run_ops pt0 demo_ops) demo_mm = Ok (pt, s') ∧
    pt_refines 0x80300 0x88000 s' pt
      {[ MkVirtPageNum 0x7ffffff := PageTableEntry_new (MkPhysPageNum 0x80200) 11 ]}.
Proof.
  apply (page_table_simulation 0x80300 0x88000 demo_mm demo_ops);
    [apply demo_mm_ok|apply demo_mm_ok| |vm_compute; discriminate].
  repeat constructor; vm_compute; discriminate.
Defined.

(** Page tables of different address spaces are isolated: mapping (or panicking
    while mapping) a page in one table changes neither the translation of any page by,
    nor the well-formedness of, a table on other frames. *)
Theorem page_tables_isolated l r s pt σ pt2 σ2 vpn ppn flags pt' s' :
  pt_refines l r s pt σ → pt_refines l r s pt2 σ2 →
  (∀ x, x ∈ frame_nums (frames pt2) → x ∉ frame_nums (frames pt)) →
  2 ≤ sfa_avail (mm_fa s) → vpn_ok vpn → 0 ≤ ppn_0 ppn < 2 ^ 44 → 0 ≤ flags < 256 →
  PageTable_map pt vpn ppn flags s = Ok (pt', s') →
  pt_refines l r s' pt2 σ2 ∧
  (∀ x, x ∈ frame_nums (frames pt2) → x ∉ frame_nums (frames pt')).
Proof.
  intros H1 [Hwf2 Hv2] Hdis Hav Hvpn Hppn Hfl Hmap.
  pose proof (map_refines l r s pt σ vpn ppn flags H1 Hav Hvpn Hppn Hfl) as Hm.
  destruct (page_map_map σ vpn ppn flags); [|by rewrite Hmap in Hm].
  destruct Hm as (pt1 & s1 & new & Hm & _ & Hst & _). rewrite Hmap in Hm. injection Hm as <- <-.
  destruct (pt_step_other _ _ _ _ _ _ _ _ Hst Hwf2 Hdis) as [Hwf' Hsame]. split.
  - split; [done|]. intros v Hv. rewrite Hsame. by apply Hv2.
  - intros x Hx. rewrite (step_frames _ _ _ _ _ _ _ Hst). intros [Hin|Hin]%elem_of_app.
    + by apply (Hdis x).
    + apply (step_fresh _ _ _ _ _ _ _ Hst x Hin). destruct Hwf2 as (_ & _ & _ & Hl). auto.
Qed.

(** Two fresh tables: mapping in the first leaves the second empty. *)
Lemma page_tables_isolated_witness :
  ∃ s2 pt1 pt2 pt1' s3,
    (a ← PageTable_new; b ← PageTable_new; mret (a, b)) demo_mm = Ok ((pt1, pt2), s2) ∧
    PageTable_map pt1 (MkVirtPageNum 5) (MkPhysPageNum 0x80400) 6 s2 = Ok (pt1', s3) ∧
    pt_refines 0x80300 0x88000 s3 pt2 ∅.
Proof.
  destruct demo_mm_ok as [Hfa Hm].
  destruct (new_refines _ _ _ Hfa Hm) as (pt1 & s1 & Hn1 & Hr1 & Hav1 & _); [vm_compute; reflexivity|].
  change (sfa_avail (mm_fa demo_mm)) with 0x7d00 in Hav1. pose proof Hr1 as [(Hfa1 & Hm1 & _) _].
  destruct (new_refines _ _ _ Hfa1 Hm1) as (pt2 & s2 & Hn2 & Hr2 & Hav2 & Hkeep); [lia|].
  destruct (Hkeep pt1 ∅ Hr1) as [Hr1' Hdis].
  assert (2 ≤ sfa_avail (mm_fa s2)) as Hav by lia.
  destruct (map_refines _ _ _ _ _ (MkVirtPageNum 5) (MkPhysPageNum 0x80400) 6 Hr1' Hav)
    as (pt1' & s3 & new & Hmap & _); [vm_compute; split; [discriminate|done]..|].
  exists s2, pt1, pt2, pt1', s3. unfold mbind, M_bind. rewrite Hn1, Hn2. split; [done|]. split; [done|].
  eapply (page_tables_isolated _ _ s2 pt1 ∅ pt2 ∅ (MkVirtPageNum 5) (MkPhysPageNum 0x80400) 6 pt1' s3);
    [done..| | | |done]; vm_compute; split; discriminate || done.
Defined.

Lemma translate_va_view l r s pt σ va e :
  pt_refines l r s pt σ → 0 ≤ va_0 va < 2 ^ 39 → σ !! VirtAddr_floor va = Some e →
  PageTable_translate_va (mm_mem s) pt va =
    Some (MkPhysAddr (ppn_0 (PageTableEntry_ppn e) * PAGE_SIZE + va_0 va mod PAGE_SIZE)).
Proof.
  intros Href Hva He.
  destruct (view_find_pte _ _ _ _ _ _ _ Href (VirtAddr_floor_ok va Hva) He) as (p & Hp & Hr).
  unfold PageTable_translate_va. rewrite Hp. cbn [fmap option_fmap option_map]. rewrite Hr. f_equal. apply translate_va_entry; [done|].
  destruct e as [b]. rewrite PageTableEntry_ppn_eq. apply pte_next_range.
Qed.

(** An address is translated through the entry of its page: the physical address is
    the entry's frame plus the page offset. *)
Theorem translate_va_offset l r s pt σ va e :
  pt_refines l r s pt σ → 0 ≤ va_0 va < 2 ^ 39 → σ !! VirtAddr_floor va = Some e →
  PageTable_translate_va (mm_mem s) pt va =
    Some (MkPhysAddr (ppn_0 (PageTableEntry_ppn e) * PAGE_SIZE + va_0 va mod PAGE_SIZE)).
Proof. apply translate_va_view. Qed.

Lemma translate_va_offset_witness :
  ∃ pt s', (pt0 ← PageTable_new; run_ops pt0 [OpMap (MkVirtPageNum 0x10) (MkPhysPageNum 0x80500) 22]) demo_mm
      = Ok (pt, s') ∧
    PageTable_translate_va (mm_mem s') pt (MkVirtAddr 0x10abc) = Some (MkPhysAddr 0x80500abc).
Proof.
  destruct demo_mm_ok as [Hfa Hm].
  destruct (new_refines _ _ _ Hfa Hm) as (pt & s1 & Hn & Hr & Hav & _); [vm_compute; reflexivity|].
  change (sfa_avail (mm_fa demo_mm)) with 0x7d00 in Hav.
  pose proof (run_ops_refines 0x80300 0x88000 [OpMap (MkVirtPageNum 0x10) (MkPhysPageNum 0x80500) 22] s1 pt ∅ Hr)
    as Hrun. destruct Hrun as (pt' & s' & Hrun & Hr').
  { simpl; lia. }
  { repeat constructor; vm_compute; discriminate. }
  exists pt', s'. unfold mbind at 1, M_bind at 1. rewrite Hn. split; [done|].
  rewrite (translate_va_offset _ _ _ _ _ (MkVirtAddr 0x10abc) (PageTableEntry_new (MkPhysPageNum 0x80500) 23) Hr');
    [done|simpl; lia|reflexivity].
Defined.

(** C38: [translate] and [translate_va] do not look at the valid bit of the leaf entry:
    right after [unmap] removed a page, [translate_va] still succeeds on every address
    of that page and answers with physical frame 0. *)
Theorem unmapped_page_translates_to_frame_zero l r s pt σ va e s' :
  pt_refines l r s pt σ → 0 ≤ va_0 va < 2 ^ 39 → σ !! VirtAddr_floor va = Some e →
  PageTable_unmap pt (VirtAddr_floor va) s = Ok ((), s') →
  PageTable_translate (mm_mem s') pt (VirtAddr_floor va) = Some PageTableEntry_empty ∧
  PageTable_translate_va (mm_mem s') pt va = Some (MkPhysAddr (va_0 va mod PAGE_SIZE)).
Proof.
  intros [Hwf Hview] Hva He Hu. pose proof (VirtAddr_floor_ok va Hva) as Hok.
  rewrite <- Hview in He by done.
  destruct (PageTable_unmap_ok l r s pt _ e Hwf Hok He) as (s1 & Hu' & _ & Htr & _).
  rewrite Hu in Hu'. injection Hu' as <-. split; [done|].
  unfold PageTable_translate in Htr. unfold PageTable_translate_va.
  destruct (PageTable_find_pte (mm_mem s') pt (VirtAddr_floor va)) as [p|]; [|done].
  cbn [fmap option_fmap option_map] in *. injection Htr as Htr. unfold read_pte. rewrite Htr. f_equal.
  by apply (translate_va_entry (MkPhysPageNum 0)).
Qed.

Lemma unmapped_page_translates_to_frame_zero_witness :
  ∃ pt s s', (pt0 ← PageTable_new; run_ops pt0 [OpMap (MkVirtPageNum 0x10) (MkPhysPageNum 0x80500) 22]) demo_mm
      = Ok (pt, s) ∧ PageTable_unmap pt (MkVirtPageNum 0x10) s = Ok ((), s') ∧
    PageTable_translate_va (mm_mem s') pt (MkVirtAddr 0x10abc) = Some (MkPhysAddr 0xabc).
Proof.
  destruct demo_mm_ok as [Hfa Hm].
  destruct (new_refines _ _ _ Hfa Hm) as (pt & s1 & Hn & Hr & Hav & _); [vm_compute; reflexivity|].
  change (sfa_avail (mm_fa demo_mm)) with 0x7d00 in Hav.
  pose proof (run_ops_refines 0x80300 0x88000 [OpMap (MkVirtPageNum 0x10) (MkPhysPageNum 0x80500) 22] s1 pt ∅ Hr)
    as Hrun. destruct Hrun as (pt' & s & Hrun & Hr').
  { simpl; lia. }
  { repeat constructor; vm_compute; discriminate. }
  destruct (unmap_refines _ _ _ _ _ (MkVirtPageNum 0x10) Hr') as (s' & Hu & _);
    [vm_compute; split; [discriminate|done]|].
  exists pt', s, s'. unfold mbind at 1, M_bind at 1. rewrite Hn. split; [done|]. split; [done|].
  apply (unmapped_page_translates_to_frame_zero _ _ s pt' _ (MkVirtAddr 0x10abc)
    (PageTableEntry_new (MkPhysPageNum 0x80500) 23) s' Hr'); [simpl; lia|reflexivity|exact Hu].
Defined.

(** A table rebuilt from the [satp] token of another one translates every page the
    same way: the mode bits of the token do not leak into the root frame number. *)
Theorem token_roundtrip pt m v :
  0 ≤ ppn_0 (root_ppn pt) < 2 ^ 44 →
  root_ppn (PageTable_from_token (PageTable_token pt)) = root_ppn pt ∧
  PageTable_translate m (PageTable_from_token (PageTable_token pt)) v = PageTable_translate m pt v ∧
  Z.shiftr (PageTable_token pt) 60 = 8.
Proof.
  intros Hr. pose proof (token_root pt Hr) as Hroot. split; [done|]. split.
  - unfold PageTable_translate, PageTable_find_pte. by rewrite Hroot.
  - rewrite token_value, Z.shiftr_div_pow2, Z.div_add_l, Z.div_small by lia. done.
Qed.

Lemma token_roundtrip_witness :
  root_ppn (PageTable_from_token (PageTable_token (MkPageTable (MkPhysPageNum 0x80300) []))) =
    MkPhysPageNum 0x80300.
Proof. apply (token_roundtrip (MkPageTable (MkPhysPageNum 0x80300) []) ∅ (MkVirtPageNum 0)). simpl. lia. Defined.

(** A page-table entry stores its frame number and its flags without loss. *)
Theorem PageTableEntry_roundtrip ppn flags :
  0 ≤ ppn_0 ppn < 2 ^ 44 → 0 ≤ flags < 256 →
  PageTableEntry_ppn (PageTableEntry_new ppn flags) = ppn ∧
  PageTableEntry_flags (PageTableEntry_new ppn flags) = flags ∧
  0 ≤ pte_bits (PageTableEntry_new ppn flags) < 2 ^ 54.
Proof.
  intros Hp Hf. pose proof (PageTableEntry_new_bits ppn flags Hp Hf) as Hb.
  rewrite PageTableEntry_flags_eq. destruct (PageTableEntry_new ppn flags) as [b]. cbn [pte_bits] in *.
  subst b. rewrite PageTableEntry_ppn_eq, pte_next_new by done. split; [by destruct ppn|]. split; [|lia].
  replace (ppn_0 ppn * 1024 + flags) with (flags + ppn_0 ppn * 4 * 256) by lia.
  rewrite Z_mod_plus_full. by apply Z.mod_small.
Qed.

Lemma PageTableEntry_roundtrip_witness :
  PageTableEntry_ppn (PageTableEntry_new (MkPhysPageNum 0x80400) 0xdf) = MkPhysPageNum 0x80400.
Proof. apply (PageTableEntry_roundtrip (MkPhysPageNum 0x80400) 0xdf); simpl; lia. Defined.
