(* ===== verification/UserMem.v ===== *)
(** User memory seen from the kernel ([os/src/mm/page_table.rs]): the translation of user
    buffers, strings and pointers through a page table given by its token, and the
    [UserBuffer] iterator.  A [&'static mut [u8]] into a frame is a physical address
    with a length. *)

From S2P Require Import Prelude Config Address FrameAllocator PhysMem PageTable PageTableSpec.

Record Slice := MkSlice { sl_addr : Z; sl_len : Z }.

(** [&mut ppn.get_bytes_array()[lo..hi]] *)
Definition page_slice (ppn : PhysPageNum) (lo hi : Z) : res Slice :=
  if decide (lo ≤ hi ∧ hi ≤ PAGE_SIZE) then Ok (MkSlice (page_addr ppn + lo) (hi - lo)) else Err Panic.

Definition VirtAddr_min (a b : VirtAddr) : VirtAddr := MkVirtAddr (Z.min (va_0 a) (va_0 b)).

(** The loop of [translated_byte_buffer], at most [n] iterations. *)
Fixpoint translated_loop (n : nat) (m : memory) (page_table : PageTable) (start end_ : Z) (v : list Slice) :
    res (list Slice) :=
  if decide (start < end_) then
    match n with
    | O => Err OutOfFuel
    | S n' =>
        let start_va := VirtAddr_from start in
        let vpn := VirtAddr_floor start_va in
        pte ← unwrap (PageTable_translate m page_table vpn);
        let ppn := PageTableEntry_ppn pte in
        let vpn := VirtPageNum_step vpn in
        let end_va := VirtAddr_from_VirtPageNum vpn in
        let end_va := VirtAddr_min end_va (VirtAddr_from end_) in
        s ← (if decide (VirtAddr_page_offset end_va = 0)
             then page_slice ppn (VirtAddr_page_offset start_va) PAGE_SIZE
             else page_slice ppn (VirtAddr_page_offset start_va) (VirtAddr_page_offset end_va));
        translated_loop n' m page_table (usize_from_VirtAddr end_va) end_ (vec_push v s)
    end
  else Ok v.

(** A range of [len] bytes meets at most [len / PAGE_SIZE + 2] pages. *)
Definition translated_byte_buffer (m : memory) (token ptr len : Z) : res (list Slice) :=
  let page_table := PageTable_from_token token in
  translated_loop (Z.to_nat (len / PAGE_SIZE + 2)) m page_table ptr (ptr + len)%usize [].

(** [ch as char] of a byte is the code point [ch < 256], in UTF-8. *)
Definition char_utf8 (ch : Z) : list Z :=
  if decide (ch < 0x80) then [ch] else [Z.lor 0xC0 (Z.shiftr ch 6); Z.lor 0x80 (Z.land ch 0x3f)].

(** [string.push(ch as char)] *)
Definition push_char (string : list Z) (ch : Z) : list Z := string ++ char_utf8 ch.

(** The loop of [translated_str], which ends at the first zero byte; [n] bounds the
    bytes it reads. *)
Fixpoint translated_str_loop (n : nat) (m : memory) (page_table : PageTable) (va : Z) (string : list Z) :
    res (list Z) :=
  match n with
  | O => Err OutOfFuel
  | S n' =>
      pa ← unwrap (PageTable_translate_va m page_table (VirtAddr_from va));
      let ch := read_u8 m (pa_0 pa) in
      if decide (ch = 0) then Ok string
      else translated_str_loop n' m page_table (va + 1)%usize (push_char string ch)
  end.

Definition translated_str (fuel : nat) (m : memory) (token ptr : Z) : res (list Z) :=
  translated_str_loop fuel m (PageTable_from_token token) ptr [].

(** [translated_ref] and [translated_refmut] give the physical address of the object. *)
Definition translated_ref (m : memory) (token ptr : Z) : res PhysAddr :=
  unwrap (PageTable_translate_va m (PageTable_from_token token) (VirtAddr_from ptr)).
Definition translated_refmut (m : memory) (token ptr : Z) : res PhysAddr :=
  unwrap (PageTable_translate_va m (PageTable_from_token token) (VirtAddr_from ptr)).

(** * [UserBuffer] *)

Record UserBuffer := MkUserBuffer { buffers : list Slice }.
Definition UserBuffer_new (buffers : list Slice) : UserBuffer := MkUserBuffer buffers.

Definition UserBuffer_len (self : UserBuffer) : Z :=
  foldl (λ total b, (total + sl_len b)%usize) 0 (buffers self).

Record UserBufferIterator := MkUserBufferIterator {
  ubi_buffers : list Slice;
  current_buffer : Z;
  current_idx : Z
}.

Definition UserBuffer_into_iter (self : UserBuffer) : UserBufferIterator :=
  MkUserBufferIterator (buffers self) 0 0.

Definition UserBufferIterator_next (self : UserBufferIterator) : res (option Z * UserBufferIterator) :=
  if decide (current_buffer self >= Z.of_nat (length (ubi_buffers self))) then Ok (None, self)
  else
    b ← vec_get (ubi_buffers self) (current_buffer self);
    _ ← res_assert (bool_decide (current_idx self < sl_len b));
    let r := sl_addr b + current_idx self in
    if decide ((current_idx self + 1)%usize = sl_len b)
    then Ok (Some r, MkUserBufferIterator (ubi_buffers self) (current_buffer self + 1)%usize 0)
    else Ok (Some r, MkUserBufferIterator (ubi_buffers self) (current_buffer self) (current_idx self + 1)%usize).

(** [for p in buffer], at most [n] items. *)
Fixpoint UserBufferIterator_collect (n : nat) (it : UserBufferIterator) : res (list Z) :=
  match n with
  | O => Err OutOfFuel
  | S n' =>
      '(o, it') ← UserBufferIterator_next it;
      match o with
      | None => Ok []
      | Some p => rest ← UserBufferIterator_collect n' it'; Ok (p :: rest)
      end
  end.

(** * The bytes of user memory *)

(** The physical address behind user address [a]. *)
Definition user_pa (σ : page_map) (a : Z) : Z :=
  match σ !! MkVirtPageNum (a / 4096) with
  | Some e => ppn_0 (PageTableEntry_ppn e) * 4096 + a mod 4096
  | None => 0
  end.

(** Every page of the [n] bytes at [a] is mapped. *)
Definition user_mapped (σ : page_map) (a n : Z) : Prop :=
  ∀ x, a ≤ x < a + n → is_Some (σ !! MkVirtPageNum (x / 4096)).

Definition slice_addrs (s : Slice) : list Z := seqZ (sl_addr s) (sl_len s).

(** Addresses of the lower half of the address space, where user programs live. *)
Definition user_range (a n : Z) : Prop := 0 ≤ a ∧ 0 ≤ n ∧ a + n < 2 ^ 38.

Lemma VirtAddr_from_small a : 0 ≤ a < 2 ^ 39 → VirtAddr_from a = MkVirtAddr a.
Proof.
  intros Ha. unfold VirtAddr_from. f_equal. change (Z.shiftl 1 VA_WIDTH_SV39 - 1) with (2 ^ 39 - 1).
  rewrite land_low by lia. by apply Z.mod_small.
Qed.

Lemma usize_from_low a : 0 ≤ a < 2 ^ 38 → usize_from_VirtAddr (MkVirtAddr a) = a.
Proof.
  intros Ha. unfold usize_from_VirtAddr. rewrite decide_False; [done|].
  change (Z.shiftl 1 (VA_WIDTH_SV39 - 1)) with (2 ^ 38). cbn [va_0]. lia.
Qed.

Lemma page_offset_eq a : VirtAddr_page_offset (MkVirtAddr a) = a mod 4096.
Proof. apply page_offset_mod. Qed.

Lemma next_page_addr a :
  0 ≤ a < 2 ^ 38 →
  VirtAddr_from_VirtPageNum (VirtPageNum_step (VirtAddr_floor (MkVirtAddr a))) = MkVirtAddr ((a / 4096 + 1) * 4096).
Proof.
  intros Ha. assert (0 ≤ a / 4096 < 2 ^ 26) as Hd
    by (split; [apply Z.div_pos; lia|apply Z.div_lt_upper_bound; lia]).
  unfold VirtPageNum_step, VirtAddr_from_VirtPageNum, VirtAddr_floor, PAGE_SIZE, PAGE_SIZE_BITS. cbn [vpn_0 va_0].
  change 0x1000 with 4096. rewrite add_w_small by (unfold fits; lia).
  rewrite shl_w_small; [done|lia|unfold fits; lia].
Qed.

Lemma translate_page m pt σ l r s a :
  pt_refines l r s pt σ → m = mm_mem s → 0 ≤ a < 2 ^ 38 → is_Some (σ !! MkVirtPageNum (a / 4096)) →
  ∃ e, PageTable_translate m pt (VirtAddr_floor (MkVirtAddr a)) = Some e ∧ σ !! MkVirtPageNum (a / 4096) = Some e ∧
    0 ≤ ppn_0 (PageTableEntry_ppn e) < 2 ^ 44.
Proof.
  intros Href -> Ha [e He]. exists e.
  assert (vpn_ok (MkVirtPageNum (a / 4096))) as Hok.
  { unfold vpn_ok. cbn. split; [apply Z.div_pos; lia|apply Z.div_lt_upper_bound; lia]. }
  destruct (view_find_pte l r s pt σ _ e Href Hok He) as (p & Hp & Hr). split; [|split; [done|]].
  - unfold PageTable_translate. change (VirtAddr_floor (MkVirtAddr a)) with (MkVirtPageNum (a / 4096)).
    rewrite Hp. cbn [fmap option_fmap option_map]. by rewrite Hr.
  - destruct e as [b]. rewrite PageTableEntry_ppn_eq. apply pte_next_range.
Qed.

Ltac Zify.zify_post_hook ::= Z.to_euclidean_division_equations.

(** The end of the first piece of [a, b) and its offset in the page. *)
Lemma piece_bounds a b :
  0 ≤ a < b → b < 2 ^ 38 → let c := Z.min ((a / 4096 + 1) * 4096) b in
  a < c ≤ b ∧ (c mod 4096 = 0 → c - a = 4096 - a mod 4096) ∧
  (c mod 4096 ≠ 0 → c = b ∧ c - a = c mod 4096 - a mod 4096) ∧
  (∀ x, a ≤ x < c → x / 4096 = a / 4096).
Proof. intros Ha Hb c. subst c. split; [lia|]. split; [lia|]. split; [lia|]. intros x Hx. lia. Qed.

Lemma piece_addrs σ e a c :
  σ !! MkVirtPageNum (a / 4096) = Some e → (∀ x, a ≤ x < c → x / 4096 = a / 4096) →
  seqZ (ppn_0 (PageTableEntry_ppn e) * 4096 + a mod 4096) (c - a) = user_pa σ <$> seqZ a (c - a).
Proof.
  intros He Hx. apply list_eq. intros i. rewrite list_lookup_fmap. destruct (decide (Z.of_nat i < c - a)) as [Hi|Hi].
  - rewrite !lookup_seqZ_lt by lia. cbn [fmap option_fmap option_map]. f_equal. unfold user_pa.
    assert ((a + Z.of_nat i) / 4096 = a / 4096) as Heq by (apply Hx; lia). rewrite Heq, He. lia.
  - rewrite !lookup_seqZ_ge by lia. done.
Qed.

Lemma seqZ_split a b c : a ≤ b ≤ c → seqZ a (c - a) = seqZ a (b - a) ++ seqZ b (c - b).
Proof.
  intros H. replace (c - a) with ((b - a) + (c - b)) by lia. rewrite seqZ_app by lia. do 2 f_equal. lia.
Qed.

Lemma page_slice_ok ppn lo hi :
  0 ≤ ppn_0 ppn < 2 ^ 44 → lo ≤ hi ≤ 4096 → page_slice ppn lo hi = Ok (MkSlice (ppn_0 ppn * 4096 + lo) (hi - lo)).
Proof. intros Hp H. unfold page_slice, PAGE_SIZE. rewrite decide_True by lia. by rewrite page_addr_eq. Qed.

Section Translated.
Context (l r : Z) (s : MM) (pt : PageTable) (σ : page_map) (Href : pt_refines l r s pt σ).

Lemma translated_loop_ok n a b v :
  0 ≤ a ≤ b → b < 2 ^ 38 → user_mapped σ a (b - a) → (a < b → (b - 1) / 4096 - a / 4096 < Z.of_nat n) →
  ∃ w, translated_loop n (mm_mem s) pt a b v = Ok (v ++ w) ∧
    w ≫= slice_addrs = user_pa σ <$> seqZ a (b - a) ∧ Forall (λ sl, 0 < sl_len sl ≤ 4096) w.
Proof.
  revert a v. induction n as [|n IH]; intros a v Ha Hb Hmap Hn; cbn [translated_loop];
    (destruct (decide (a < b)) as [Hlt|Hge]; [|exists []; replace (b - a) with 0 by lia; by rewrite app_nil_r]).
  { exfalso. specialize (Hn Hlt). lia. }
  rewrite VirtAddr_from_small by lia.
  destruct (translate_page (mm_mem s) pt σ l r s a Href eq_refl) as (e & -> & He & H44); [lia|apply Hmap; lia|].
  cbn [unwrap mbind res_bind]. rewrite next_page_addr by lia. rewrite VirtAddr_from_small by lia.
  unfold VirtAddr_min. cbn [va_0]. destruct (piece_bounds a b) as (Hc & H0 & H1 & Hx); [lia|lia|].
  set (c := Z.min ((a / 4096 + 1) * 4096) b) in *. rewrite !page_offset_eq.
  assert ((if decide (c mod 4096 = 0) then page_slice (PageTableEntry_ppn e) (a mod 4096) PAGE_SIZE
           else page_slice (PageTableEntry_ppn e) (a mod 4096) (c mod 4096)) =
          Ok (MkSlice (ppn_0 (PageTableEntry_ppn e) * 4096 + a mod 4096) (c - a))) as ->.
  { unfold PAGE_SIZE. case_decide as Hz.
    - rewrite page_slice_ok by lia. by rewrite H0.
    - destruct (H1 Hz) as [_ H1']. rewrite page_slice_ok by lia. by rewrite H1'. }
  cbn [mbind res_bind]. rewrite usize_from_low by lia.
  destruct (IH c (vec_push v (MkSlice (ppn_0 (PageTableEntry_ppn e) * 4096 + a mod 4096) (c - a)))) as (w & Hr & Hw & Hall);
    [lia|lia|intros x Hx'; apply Hmap; lia|lia|].
  exists (MkSlice (ppn_0 (PageTableEntry_ppn e) * 4096 + a mod 4096) (c - a) :: w). split.
  { rewrite Hr. unfold vec_push. by rewrite <- app_assoc. }
  split.
  - rewrite bind_cons. unfold slice_addrs at 1. cbn [sl_addr sl_len].
    rewrite (piece_addrs σ e), Hw, <- fmap_app, <- seqZ_split by (done || lia). done.
  - apply Forall_cons. split; [cbn; lia|done].
Qed.

Lemma translated_byte_buffer_ok ptr len :
  user_range ptr len → user_mapped σ ptr len →
  ∃ bufs, translated_byte_buffer (mm_mem s) (PageTable_token pt) ptr len = Ok bufs ∧
    bufs ≫= slice_addrs = user_pa σ <$> seqZ ptr len ∧ Forall (λ sl, 0 < sl_len sl ≤ 4096) bufs.
Proof.
  intros (Hp & Hl & Hpl) Hmap. unfold translated_byte_buffer. rewrite add_w_small by (unfold fits; lia).
  unfold PAGE_SIZE. destruct (translated_loop_ok (Z.to_nat (len / 0x1000 + 2)) ptr (ptr + len) [])
    as (w & Hr & Hw & Hall); [lia|lia|by replace (ptr + len - ptr) with len by lia|lia|].
  exists w. split; [|split; [|done]].
  - simpl app in Hr. rewrite <- Hr.
    assert (∀ n a b v, translated_loop n (mm_mem s) (PageTable_from_token (PageTable_token pt)) a b v =
                       translated_loop n (mm_mem s) pt a b v) as Heq; [|apply Heq].
    assert (root_ppn (PageTable_from_token (PageTable_token pt)) = root_ppn pt) as Hroot.
    { apply token_root. destruct Href as [Hwf _]. apply (pt_wf_root _ _ _ _ Hwf). }
    induction n as [|n IH]; intros a b v; cbn [translated_loop]; [done|].
    unfold PageTable_translate, PageTable_find_pte. rewrite Hroot. case_decide; [|done].
    destruct (unwrap _) as [pte|]; [|done]. cbn [mbind res_bind]. case_decide; (destruct (page_slice _ _ _); [apply IH|done]).
  - by replace (ptr + len - ptr) with len in Hw by lia.
Qed.
End Translated.

(** * Iterating over a user buffer *)

Section Iterator.
Context (bufs : list Slice).

Lemma collect_done n :
  (0 < n)%nat → UserBufferIterator_collect n (MkUserBufferIterator bufs (Z.of_nat (length bufs)) 0) = Ok [].
Proof.
  destruct n; [lia|]. intros _. cbn [UserBufferIterator_collect]. unfold UserBufferIterator_next.
  cbn [current_buffer ubi_buffers]. by rewrite decide_True by lia.
Qed.

Lemma next_item pre b post idx :
  bufs = pre ++ b :: post → 0 ≤ idx < sl_len b → sl_len b ≤ 4096 → Z.of_nat (length bufs) < 2 ^ 63 →
  UserBufferIterator_next (MkUserBufferIterator bufs (Z.of_nat (length pre)) idx) =
    Ok (Some (sl_addr b + idx),
        if decide (idx + 1 = sl_len b) then MkUserBufferIterator bufs (Z.of_nat (length (pre ++ [b]))) 0
        else MkUserBufferIterator bufs (Z.of_nat (length pre)) (idx + 1)).
Proof.
  intros Hb Hi Hlen Hsz. unfold UserBufferIterator_next. cbn [current_buffer ubi_buffers current_idx].
  assert (length bufs = length pre + S (length post))%nat as Hl by (rewrite Hb, length_app; done).
  rewrite decide_False by lia. unfold vec_get. rewrite Nat2Z.id, Hb at 1.
  rewrite list_lookup_middle by done. cbn [unwrap mbind res_bind]. rewrite bool_decide_true by lia.
  cbn [res_assert]. rewrite !add_w_small by (unfold fits; lia).
  rewrite length_app. cbn [length]. case_decide; [|done].
  by replace (Z.of_nat (length pre + 1)%nat) with (Z.of_nat (length pre) + 1) by lia.
Qed.

Lemma collect_ok n pre b post idx :
  bufs = pre ++ b :: post → 0 ≤ idx < sl_len b →
  Forall (λ sl, 0 < sl_len sl ≤ 4096) bufs → Z.of_nat (length bufs) < 2 ^ 63 →
  (Z.to_nat (sl_len b - idx) + length (post ≫= slice_addrs) < n)%nat →
  UserBufferIterator_collect n (MkUserBufferIterator bufs (Z.of_nat (length pre)) idx) =
    Ok (seqZ (sl_addr b + idx) (sl_len b - idx) ++ (post ≫= slice_addrs)).
Proof.
  revert pre b post idx. induction n as [|n IH]; intros pre b post idx Hb Hi Hall Hsz Hn; [lia|].
  assert (0 < sl_len b ≤ 4096) as Hlb by (rewrite Forall_forall in Hall; apply Hall; rewrite Hb; set_solver).
  cbn [UserBufferIterator_collect]. rewrite (next_item pre b post idx) by (done || lia). cbn [mbind res_bind].
  rewrite (seqZ_cons (sl_addr b + idx)) by lia. case_decide as Hlast.
  - replace (Z.pred (sl_len b - idx)) with 0 by lia. cbn [seqZ app].
    destruct post as [|b' post].
    + rewrite <- Hb, collect_done by lia. done.
    + rewrite bind_cons in *. rewrite length_app in Hn. unfold slice_addrs at 1 in Hn. rewrite length_seqZ in Hn.
      assert (0 < sl_len b' ≤ 4096) as Hlb' by (rewrite Forall_forall in Hall; apply Hall; rewrite Hb; set_solver).
      rewrite (IH (pre ++ [b]) b' post 0); [|by rewrite <- app_assoc|lia|done|done|].
      * rewrite Z.add_0_r, Z.sub_0_r. done.
      * rewrite Z.sub_0_r. lia.
  - rewrite (IH pre b post (idx + 1)) by (done || lia). cbn [mbind res_bind].
    replace (Z.succ (sl_addr b + idx)) with (sl_addr b + (idx + 1)) by lia.
    replace (Z.pred (sl_len b - idx)) with (sl_len b - (idx + 1)) by lia. done.
Qed.

Lemma into_iter_ok n :
  Forall (λ sl, 0 < sl_len sl ≤ 4096) bufs → Z.of_nat (length bufs) < 2 ^ 63 →
  (length (bufs ≫= slice_addrs) < n)%nat →
  UserBufferIterator_collect n (UserBuffer_into_iter (UserBuffer_new bufs)) = Ok (bufs ≫= slice_addrs).
Proof.
  intros Hall Hsz Hn. unfold UserBuffer_into_iter, UserBuffer_new. cbn [buffers].
  destruct bufs as [|b post] eqn:Hb.
  { cbn [mbind list_bind]. destruct n; [lia|done]. }
  rewrite <- Hb in *. rewrite Hb in Hn |- * at 2. rewrite bind_cons in *. rewrite length_app in Hn. unfold slice_addrs at 1 in Hn. rewrite length_seqZ in Hn.
  pose proof (collect_ok n [] b post 0) as Hc. cbn [length Z.of_nat app] in Hc. rewrite Z.sub_0_r, Z.add_0_r in Hc.
  apply Hc; [done| |done|done|lia]. rewrite Forall_forall in Hall. specialize (Hall b). rewrite Hb in Hall.
  split; [lia|]. apply Hall. apply list_elem_of_here.
Qed.
End Iterator.

Lemma UserBuffer_len_eq bufs :
  Forall (λ sl, 0 < sl_len sl ≤ 4096) bufs → Z.of_nat (length (bufs ≫= slice_addrs)) < 2 ^ 64 →
  UserBuffer_len (UserBuffer_new bufs) = Z.of_nat (length (bufs ≫= slice_addrs)).
Proof.
  intros Hall. unfold UserBuffer_len, UserBuffer_new. cbn [buffers].
  assert (∀ t, 0 ≤ t → t + Z.of_nat (length (bufs ≫= slice_addrs)) < 2 ^ 64 →
    foldl (λ total b, (total + sl_len b)%usize) t bufs = t + Z.of_nat (length (bufs ≫= slice_addrs))) as H.
  { induction Hall as [|b bs Hb Hall IH]; intros t Ht Hlt; [simpl; lia|].
    rewrite bind_cons, length_app in *. unfold slice_addrs at 1 in Hlt. unfold slice_addrs at 1.
    rewrite length_seqZ in *. cbn [foldl]. rewrite add_w_small by (unfold fits; lia).
    rewrite IH by lia. lia. }
  intros Hlt. rewrite H by lia. lia.
Qed.

(** * Strings and references *)

Definition user_bytes (m : memory) (σ : page_map) (a n : Z) : list Z := (λ x, read_u8 m (user_pa σ x)) <$> seqZ a n.

Section Pointers.
Context (l r : Z) (s : MM) (pt : PageTable) (σ : page_map) (Href : pt_refines l r s pt σ).

Lemma from_token_translate_va m va :
  PageTable_translate_va m (PageTable_from_token (PageTable_token pt)) va = PageTable_translate_va m pt va.
Proof.
  unfold PageTable_translate_va, PageTable_find_pte. rewrite token_root; [done|].
  destruct Href as [Hwf _]. apply (pt_wf_root _ _ _ _ Hwf).
Qed.

Lemma translate_user_va a :
  0 ≤ a < 2 ^ 38 → is_Some (σ !! MkVirtPageNum (a / 4096)) →
  PageTable_translate_va (mm_mem s) (PageTable_from_token (PageTable_token pt)) (VirtAddr_from a) =
    Some (MkPhysAddr (user_pa σ a)).
Proof.
  intros Ha [e He]. rewrite from_token_translate_va, VirtAddr_from_small by lia.
  assert (vpn_ok (MkVirtPageNum (a / 4096))) as Hok by (unfold vpn_ok; cbn [vpn_0]; lia).
  destruct (view_find_pte l r s pt σ _ e Href Hok He) as (p & Hp & Hr).
  unfold PageTable_translate_va. change (VirtAddr_floor (MkVirtAddr a)) with (MkVirtPageNum (a / 4096)).
  rewrite Hp. cbn [fmap option_fmap option_map]. rewrite Hr. f_equal. rewrite translate_va_entry; cbn [va_0].
  - unfold user_pa. by rewrite He.
  - lia.
  - destruct e as [b]. rewrite PageTableEntry_ppn_eq. apply pte_next_range.
Qed.

Lemma translated_str_loop_ok n fuel a str :
  user_range a (Z.of_nat n + 1) → user_mapped σ a (Z.of_nat n + 1) → (n < fuel)%nat →
  Forall (λ b, b ≠ 0) (user_bytes (mm_mem s) σ a (Z.of_nat n)) → read_u8 (mm_mem s) (user_pa σ (a + Z.of_nat n)) = 0 →
  translated_str_loop fuel (mm_mem s) (PageTable_from_token (PageTable_token pt)) a str =
    Ok (str ++ (user_bytes (mm_mem s) σ a (Z.of_nat n) ≫= char_utf8)).
Proof.
  revert fuel a str. induction n as [|n IH]; intros [|fuel] a str (Ha & _ & Hr) Hmap Hf Hnz Hz; [lia| |lia|];
    cbn [translated_str_loop]; (rewrite translate_user_va; [|lia|apply Hmap; lia]); cbn [unwrap mbind res_bind pa_0].
  - replace (a + Z.of_nat 0) with a in Hz by lia. rewrite Hz. rewrite decide_True by done. cbn. by rewrite app_nil_r.
  - unfold user_bytes in *. rewrite seqZ_cons, fmap_cons in * by lia. apply Forall_cons in Hnz as [Hb Hnz].
    rewrite decide_False by done. rewrite add_w_small by (unfold fits; lia). replace (Z.succ a) with (a + 1) in * by lia.
    replace (Z.pred (Z.of_nat (S n))) with (Z.of_nat n) in * by lia.
    rewrite IH; [| |intros x Hx; apply Hmap; lia|lia|done|by rewrite <- Hz; do 2 f_equal; lia].
    + unfold push_char. by rewrite bind_cons, app_assoc.
    + unfold user_range. lia.
Qed.
End Pointers.

Lemma char_utf8_ascii bs : Forall (λ b, b < 0x80) bs → bs ≫= char_utf8 = bs.
Proof. induction 1 as [|b bs Hb _ IH]; [done|]. rewrite bind_cons, IH. unfold char_utf8. by rewrite decide_True. Qed.

(** * Properties *)


(** C33: [translated_str] reads the string up to its terminating zero byte, whatever page
    boundaries it crosses, and never reads past it; plain ASCII comes out unchanged. *)
Theorem translated_str_reads_string l r s pt σ ptr n fuel :
  pt_refines l r s pt σ → user_range ptr (Z.of_nat n + 1) → user_mapped σ ptr (Z.of_nat n + 1) → (n < fuel)%nat →
  Forall (λ b, b ≠ 0) (user_bytes (mm_mem s) σ ptr (Z.of_nat n)) →
  read_u8 (mm_mem s) (user_pa σ (ptr + Z.of_nat n)) = 0 →
  translated_str fuel (mm_mem s) (PageTable_token pt) ptr = Ok (user_bytes (mm_mem s) σ ptr (Z.of_nat n) ≫= char_utf8) ∧
  (Forall (λ b, b < 0x80) (user_bytes (mm_mem s) σ ptr (Z.of_nat n)) →
    translated_str fuel (mm_mem s) (PageTable_token pt) ptr = Ok (user_bytes (mm_mem s) σ ptr (Z.of_nat n))).
Proof.
  intros Href Hr Hmap Hf Hnz Hz. unfold translated_str. rewrite (translated_str_loop_ok l r s pt σ Href n) by done.
  split; [done|]. intros Ha. simpl. by rewrite char_utf8_ascii.
Qed.


(** One iteration at a fixed point of the loop: a non-canonical end is never reached. *)
Lemma translated_loop_stuck l r s pt σ n c end_ v :
  pt_refines l r s pt σ → 0 ≤ c < 2 ^ 38 → c mod 4096 ≠ 0 → is_Some (σ !! MkVirtPageNum (c / 4096)) →
  c < end_ → VirtAddr_from end_ = MkVirtAddr c →
  translated_loop n (mm_mem s) pt c end_ v = Err OutOfFuel.
Proof.
  intros Href Hc Hm Hmap Hlt Hend. revert v. induction n as [|n IH]; intros v; cbn [translated_loop];
    rewrite decide_True by done; [done|].
  rewrite Hend, VirtAddr_from_small by lia.
  destruct (translate_page (mm_mem s) pt σ l r s c Href eq_refl) as (e & -> & He & H44); [lia|done|].
  cbn [unwrap mbind res_bind]. rewrite next_page_addr by lia. unfold VirtAddr_min. cbn [va_0].
  rewrite Z.min_r by lia. rewrite !page_offset_eq, decide_False by done.
  rewrite page_slice_ok by lia. cbn [mbind res_bind]. rewrite usize_from_low by lia. apply IH.
Qed.


(** * Witnesses *)

(** Two user pages on frames that are not adjacent; the string "ab" crosses the boundary. *)
Definition demo_um : MM :=
  MkMM (write_bytes (write_bytes ∅ 0x80500fff [97]) 0x80600000 [98; 0]) (MkStackFrameAllocator 0x80300 0x88000 []).
Definition demo_um_ops : list pt_op :=
  [OpMap (MkVirtPageNum 0x10) (MkPhysPageNum 0x80500) 0x16; OpMap (MkVirtPageNum 0x11) (MkPhysPageNum 0x80600) 0x16].
Definition demo_um_map : page_map :=
  {[ MkVirtPageNum 0x11 := PageTableEntry_new (MkPhysPageNum 0x80600) 0x17;
     MkVirtPageNum 0x10 := PageTableEntry_new (MkPhysPageNum 0x80500) 0x17 ]}.
Definition demo_um_run : res (PageTable * MM) := (pt0 ← PageTable_new; run_ops pt0 demo_um_ops) demo_um.

Lemma demo_um_ok : ∃ pt s, demo_um_run = Ok (pt, s) ∧ pt_refines 0x80300 0x88000 s pt demo_um_map.
Proof.
  assert (sfa_inv 0x80300 0x88000 (mm_fa demo_um)) as Hfa by (unfold sfa_inv; simpl; repeat split; try lia; constructor).
  assert (mem_wf (mm_mem demo_um)) as Hm
    by (repeat apply write_bytes_wf; [by intros a|repeat constructor; vm_compute; done..]).
  destruct (new_refines _ _ _ Hfa Hm) as (pt & s1 & Hn & Hr & Hav & _); [vm_compute; reflexivity|].
  change (sfa_avail (mm_fa demo_um)) with 0x7d00 in Hav.
  pose proof (run_ops_refines 0x80300 0x88000 demo_um_ops s1 pt ∅ Hr) as Hrun. destruct Hrun as (pt' & s' & Hrun & Hr').
  { simpl; lia. }
  { repeat constructor; vm_compute; discriminate. }
  exists pt', s'. split; [|exact Hr']. unfold demo_um_run, mbind at 1, M_bind at 1. rewrite Hn. exact Hrun.
Qed.

Lemma demo_um_mapped a n : 0x10000 ≤ a → a + n ≤ 0x12000 → user_mapped demo_um_map a n.
Proof.
  intros Ha Hn x Hx. assert (x / 4096 = 0x10 ∨ x / 4096 = 0x11) as [->| ->] by lia; by eexists.
Qed.

Lemma demo_um_byte pt s a b :
  demo_um_run = Ok (pt, s) → match demo_um_run with Ok (_, s) => read_u8 (mm_mem s) a | Err _ => 0 end = b →
  read_u8 (mm_mem s) a = b.
Proof. by intros ->. Qed.


Lemma translated_str_reads_string_witness :
  ∃ pt s, demo_um_run = Ok (pt, s) ∧ translated_str 3 (mm_mem s) (PageTable_token pt) 0x10fff = Ok [97; 98].
Proof.
  destruct demo_um_ok as (pt & s & Hrun & Href). exists pt, s. split; [exact Hrun|].
  assert (read_u8 (mm_mem s) 0x80500fff = 97) as H0 by (apply (demo_um_byte pt); [exact Hrun|vm_compute; reflexivity]).
  assert (read_u8 (mm_mem s) 0x80600000 = 98) as H1 by (apply (demo_um_byte pt); [exact Hrun|vm_compute; reflexivity]).
  assert (read_u8 (mm_mem s) 0x80600001 = 0) as H2 by (apply (demo_um_byte pt); [exact Hrun|vm_compute; reflexivity]).
  assert (user_bytes (mm_mem s) demo_um_map 0x10fff (Z.of_nat 2) = [97; 98]) as Hbytes.
  { rewrite <- H0, <- H1. reflexivity. }
  rewrite <- Hbytes. apply (translated_str_reads_string 0x80300 0x88000 s pt demo_um_map 0x10fff 2 3 Href).
  - unfold user_range. clear. lia.
  - apply demo_um_mapped; clear; lia.
  - clear. lia.
  - rewrite Hbytes. repeat constructor; discriminate.
  - rewrite <- H2. reflexivity.
  - rewrite Hbytes. repeat constructor.
Defined.


