(* ===== verification/BlockDev.v ===== *)
(** Block devices ([easy-fs/src/block_dev.rs]) and the device the image packer uses, a
    host file ([BlockFile] of [easy-fs-fuse/src/main.rs]).  The trait is a class; what
    the file system relies on is the class of its laws, which the host file satisfies.  The
    self test of the kernel's driver ([os/src/drivers/block/mod.rs]) is written against the
    trait. *)

From S2P Require Import Prelude.

Definition BLOCK_SZ : Z := 512.

(** The trait: [read_block] fills a 512-byte buffer, [write_block] stores one.
    A device error makes both implementations panic. *)
Class BlockDevice (D : Type) := {
  read_block : D → Z → res (list Z);
  write_block : D → Z → list Z → res D;
}.

Definition is_block (x : list Z) : Prop := length x = 512%nat.

(** [dev_blocks d] are the blocks the device has.  Block numbers below [2^55] have byte
    offsets that fit a [usize]; all block numbers of easy-fs are 32-bit. *)
Class BlockDeviceLaws (D : Type) `{BlockDevice D} := {
  dev_blocks : D → gmap Z (list Z);
  dev_blocks_block d b x : dev_blocks d !! b = Some x → is_block x;
  read_block_ok d b x : dev_blocks d !! b = Some x → read_block d b = Ok x;
  read_block_err d b : 0 ≤ b < 2 ^ 55 → dev_blocks d !! b = None → read_block d b = Err Panic;
  write_block_ok d b x : is_Some (dev_blocks d !! b) → is_block x →
    ∃ d', write_block d b x = Ok d' ∧ dev_blocks d' = <[b := x]> (dev_blocks d);
}.

(** * The self test of the kernel's driver ([os/src/drivers/block/mod.rs])

    Block [i] is filled with the byte [i as u8] and read back; the test overwrites the
    first 512 blocks. *)
Section SelfTest.
Context {D : Type} `{BlockDevice D}.

Fixpoint block_device_test_loop (is_ : list Z) (block_device : D) : res D :=
  match is_ with
  | [] => mret block_device
  | i :: is' =>
      let write_buffer := replicate 512 (wrap 8 i) in
      block_device ← write_block block_device i write_buffer;
      read_buffer ← read_block block_device i;
      _ ← res_assert (bool_decide (write_buffer = read_buffer));
      block_device_test_loop is' block_device
  end.
Definition block_device_test (block_device : D) : res D := block_device_test_loop (seqZ 0 512) block_device.

(** On a device with these blocks the test passes. *)
Lemma block_device_test_passes `{!BlockDeviceLaws D} d : (∀ b, 0 ≤ b < 512 → is_Some (dev_blocks d !! b)) →
  ∃ d', block_device_test d = Ok d' ∧ ∀ b, b ∉ seqZ 0 512 → dev_blocks d' !! b = dev_blocks d !! b.
Proof.
  intros Hd. unfold block_device_test. assert (∀ b, b ∈ seqZ 0 512 → is_Some (dev_blocks d !! b)) as Hin.
  { intros b Hb%elem_of_seqZ. apply Hd. lia. }
  clear Hd.
  revert d Hin. induction (seqZ 0 512) as [|i is' IH]; intros d Hin; [by exists d|].
  destruct (write_block_ok d i (replicate 512 (wrap 8 i))) as (d1 & Hw & Hb); [apply Hin, list_elem_of_here|apply length_replicate|].
  destruct (IH d1) as (d' & Hrun & Hsame).
  { intros b Hbi. rewrite Hb. destruct (decide (b = i)) as [->|]; [by rewrite lookup_insert_eq|].
    rewrite lookup_insert_ne by done. apply Hin. by apply list_elem_of_further. }
  exists d'. split.
  - cbn [block_device_test_loop]. unfold mbind, res_bind. rewrite Hw. rewrite (read_block_ok d1 i (replicate 512 (wrap 8 i))) by (rewrite Hb; apply lookup_insert_eq).
    rewrite bool_decide_true by done. exact Hrun.
  - intros b [Hbi Hb']%not_elem_of_cons. by rewrite Hsame, Hb, lookup_insert_ne.
Qed.
End SelfTest.

(** * A host file

    Regular-file semantics of the standard library: [read] at a position returns the
    bytes up to the end of the file, at most the buffer's length; [write] overwrites and
    extends the file. *)

Record BlockFile := MkBlockFile { bf_file : list Z }.

Definition file_read (f : list Z) (pos n : Z) : list Z :=
  slice f pos n.

Definition file_write (f : list Z) (pos : Z) (data : list Z) : list Z :=
  splice (f ++ replicate (Z.to_nat pos - length f) 0) pos data.

Definition BlockFile_read_block (d : BlockFile) (block_id : Z) : res (list Z) :=
  let buf := file_read (bf_file d) (block_id * BLOCK_SZ)%usize BLOCK_SZ in
  _ ← res_assert (bool_decide (Z.of_nat (length buf) = BLOCK_SZ));
  mret buf.

Definition BlockFile_write_block (d : BlockFile) (block_id : Z) (buf : list Z) : res BlockFile :=
  let f' := file_write (bf_file d) (block_id * BLOCK_SZ)%usize buf in
  _ ← res_assert (bool_decide (Z.of_nat (length buf) = BLOCK_SZ));
  mret (MkBlockFile f').

#[export] Instance BlockFile_dev : BlockDevice BlockFile := {|
  read_block := BlockFile_read_block;
  write_block := BlockFile_write_block;
|}.

(** * The host file satisfies the laws *)

Definition file_blocks (d : BlockFile) : gmap Z (list Z) :=
  list_to_map ((λ b, (b, file_read (bf_file d) (b * 512) 512)) <$>
    seqZ 0 (Z.min (Z.of_nat (length (bf_file d)) / 512) (2 ^ 55))).

Definition file_has (f : list Z) (b : Z) : Prop :=
  0 ≤ b < 2 ^ 55 ∧ (b + 1) * 512 ≤ Z.of_nat (length f).

Lemma file_blocks_lookup d b x :
  file_blocks d !! b = Some x ↔ file_has (bf_file d) b ∧ x = file_read (bf_file d) (b * 512) 512.
Proof.
  unfold file_blocks. rewrite <- elem_of_list_to_map.
  2: { rewrite <- list_fmap_compose. apply NoDup_fmap_2; [by intros ?? [=]|]. apply NoDup_seqZ. }
  rewrite list_elem_of_fmap. unfold file_has.
  pose proof (Z.div_mod (Z.of_nat (length (bf_file d))) 512).
  pose proof (Z.mod_pos_bound (Z.of_nat (length (bf_file d))) 512).
  split.
  - intros (y & [= -> ->] & Hy%elem_of_seqZ). split; [lia|done].
  - intros [Hb ->]. exists b. split; [done|]. apply elem_of_seqZ. lia.
Qed.

Lemma file_blocks_None d b : file_blocks d !! b = None ↔ ¬ file_has (bf_file d) b.
Proof.
  destruct (file_blocks d !! b) as [x|] eqn:Hx.
  - apply file_blocks_lookup in Hx as [? _]. done.
  - split; [|done]. intros _ Hb.
    assert (file_blocks d !! b = Some (file_read (bf_file d) (b * 512) 512)) as Hs
      by by apply file_blocks_lookup. congruence.
Qed.

Lemma file_write_in f pos data :
  0 ≤ pos → pos + Z.of_nat (length data) ≤ Z.of_nat (length f) →
  file_write f pos data = splice f pos data.
Proof.
  intros Hp Hl. unfold file_write. replace (Z.to_nat pos - length f)%nat with 0%nat by lia.
  by rewrite app_nil_r.
Qed.

#[export, program] Instance BlockFile_laws : BlockDeviceLaws BlockFile := {|
  dev_blocks := file_blocks;
|}.
Next Obligation.
  intros d b x [Hb ->]%file_blocks_lookup. unfold file_has in Hb.
  pose proof (length_slice (bf_file d) (b * 512) 512). unfold is_block, file_read. lia.
Qed.
Next Obligation.
  intros d b x [Hb ->]%file_blocks_lookup. unfold file_has in Hb.
  simpl. unfold BlockFile_read_block, BLOCK_SZ. rewrite mul_w_small by (unfold fits; lia).
  rewrite bool_decide_eq_true_2; [done|]. unfold file_read. rewrite length_slice; lia.
Qed.
Next Obligation.
  intros d b Hb Hn%file_blocks_None. unfold file_has in Hn.
  simpl. unfold BlockFile_read_block, BLOCK_SZ. rewrite mul_w_small by (unfold fits; lia).
  rewrite bool_decide_eq_false_2; [done|]. unfold file_read. rewrite length_slice by lia. lia.
Qed.
Next Obligation.
  intros d b x [y [Hb _]%file_blocks_lookup] Hx. unfold is_block, file_has in *. simpl.
  unfold BlockFile_write_block, BLOCK_SZ. rewrite mul_w_small by (unfold fits; lia).
  rewrite bool_decide_eq_true_2 by lia. rewrite file_write_in by lia. eexists. split; [done|].
  apply map_eq. intros c. rewrite lookup_insert. case_decide as Hc.
  - subst c. apply file_blocks_lookup. simpl. unfold file_has. rewrite length_splice by lia.
    split; [lia|]. unfold file_read. by rewrite slice_splice_eq by lia.
  - destruct (file_blocks d !! c) as [z|] eqn:Hz.
    + apply file_blocks_lookup in Hz as [Hh ->]. apply file_blocks_lookup. simpl. unfold file_has in *.
      rewrite length_splice by lia. split; [done|]. unfold file_read. by rewrite slice_splice_ne by lia.
    + apply file_blocks_None in Hz. apply file_blocks_None. simpl. unfold file_has in *.
      rewrite length_splice by lia. done.
Qed.
