(* ===== verification/BlockCache.v ===== *)
(** The block cache ([easy-fs/src/block_cache.rs]).

    File-system code is written as programs over four block events: taking the lock of a
    block's cache, storing through it, releasing it, and writing all caches back.
    A program is run either by the cached machine, which follows the code of
    [BlockCacheManager] (sixteen buffers, first unused one replaced, write-back of
    modified buffers), or by the flat machine, a plain store of blocks without any
    cache.  The refinement theorem says that no program can tell them apart. *)

From S2P Require Import Prelude BlockDev.

(** * Programs *)

Inductive prog (A : Type) : Type :=
| Ret (a : A)
| Throw (e : fault)
| Lock (b : Z) (k : list Z → prog A)
| Store (b : Z) (data : list Z) (k : prog A)
| Unlock (b : Z) (k : prog A)
| SyncAll (k : prog A).
Arguments Ret {A} a.
Arguments Throw {A} e.
Arguments Lock {A} b k.
Arguments Store {A} b data k.
Arguments Unlock {A} b k.
Arguments SyncAll {A} k.

Fixpoint prog_bind {A B} (f : A → prog B) (p : prog A) : prog B :=
  match p with
  | Ret a => f a
  | Throw e => Throw e
  | Lock b k => Lock b (λ d, prog_bind f (k d))
  | Store b d k => Store b d (prog_bind f k)
  | Unlock b k => Unlock b (prog_bind f k)
  | SyncAll k => SyncAll (prog_bind f k)
  end.

#[export] Instance prog_mret : MRet prog := @Ret.
#[export] Instance prog_mbind : MBind prog := @prog_bind.

Definition prog_lift {A} (r : res A) : prog A :=
  match r with Ok a => Ret a | Err e => Throw e end.

(** * Buffers

    [bc_locked] is the state of the buffer's mutex.  A guard lives exactly as long as the
    extra [Arc] reference it was obtained through, so the buffer is unlocked exactly when
    [Arc::strong_count] is 1. *)
Record BlockCache := MkBlockCache {
  bc_cache : list Z;
  bc_block_id : Z;
  bc_modified : bool;
  bc_locked : bool
}.

Definition BLOCK_CACHE_SIZE : nat := 16.

Section Cached.
Context {D : Type} `{BlockDevice D}.

Definition BlockCache_new (block_id : Z) (dev : D) : res BlockCache :=
  cache ← read_block dev block_id;
  mret (MkBlockCache cache block_id false false).

(** [sync] writes a modified buffer back; dropping a buffer syncs it. *)
Definition BlockCache_sync (dev : D) (c : BlockCache) : res (D * BlockCache) :=
  if bc_modified c then
    dev' ← write_block dev (bc_block_id c) (bc_cache c);
    mret (dev', MkBlockCache (bc_cache c) (bc_block_id c) false (bc_locked c))
  else mret (dev, c).

Definition BlockCache_drop (dev : D) (c : BlockCache) : res D :=
  '(dev', _) ← BlockCache_sync dev c; mret dev'.

(** The manager, with the device its buffers refer to. *)
Record BlockCacheManager := MkBlockCacheManager {
  bm_dev : D;
  bm_queue : list (Z * BlockCache)
}.

Definition BlockCacheManager_new (dev : D) : BlockCacheManager := MkBlockCacheManager dev [].

Fixpoint queue_find (b : Z) (q : list (Z * BlockCache)) : option BlockCache :=
  match q with
  | [] => None
  | (b', c) :: q' => if decide (b' = b) then Some c else queue_find b q'
  end.

(** The first buffer nobody holds, with the rest of the queue. *)
Fixpoint queue_evict (q : list (Z * BlockCache)) : option (BlockCache * list (Z * BlockCache)) :=
  match q with
  | [] => None
  | (b, c) :: q' =>
      if bc_locked c then
        match queue_evict q' with
        | Some (v, rest) => Some (v, (b, c) :: rest)
        | None => None
        end
      else Some (c, q')
  end.

(** Make sure block [block_id] has a buffer in the queue. *)
Definition get_block_cache (block_id : Z) (m : BlockCacheManager) : res BlockCacheManager :=
  match queue_find block_id (bm_queue m) with
  | Some _ => mret m
  | None =>
      m' ← (if decide (length (bm_queue m) = BLOCK_CACHE_SIZE) then
              match queue_evict (bm_queue m) with
              | Some (victim, rest) =>
                  dev' ← BlockCache_drop (bm_dev m) victim;
                  mret (MkBlockCacheManager dev' rest)
              | None => Err Panic
              end
            else mret m);
      block_cache ← BlockCache_new block_id (bm_dev m');
      mret (MkBlockCacheManager (bm_dev m') (bm_queue m' ++ [(block_id, block_cache)]))
  end.

Definition queue_update (b : Z) (f : BlockCache → BlockCache) (q : list (Z * BlockCache)) :
    list (Z * BlockCache) :=
  (λ p, if decide (p.1 = b) then (p.1, f p.2) else p) <$> q.

Definition set_locked (l : bool) (c : BlockCache) : BlockCache :=
  MkBlockCache (bc_cache c) (bc_block_id c) (bc_modified c) l.
(** Mutable access marks the buffer modified. *)
Definition set_cache (data : list Z) (c : BlockCache) : BlockCache :=
  MkBlockCache data (bc_block_id c) true (bc_locked c).

Definition update_queue (b : Z) (f : BlockCache → BlockCache) (m : BlockCacheManager) :
    BlockCacheManager :=
  MkBlockCacheManager (bm_dev m) (queue_update b f (bm_queue m)).

(** [get_block_cache(b, dev).lock()] *)
Definition cached_lock (b : Z) (m : BlockCacheManager) : res (list Z * BlockCacheManager) :=
  m' ← get_block_cache b m;
  match queue_find b (bm_queue m') with
  | None => Err Undefined
  | Some c =>
      if bc_locked c then Err Deadlock
      else mret (bc_cache c, update_queue b (set_locked true) m')
  end.

Definition cached_held (b : Z) (m : BlockCacheManager) : bool :=
  match queue_find b (bm_queue m) with Some c => bc_locked c | None => false end.

(** [for (_, cache) in manager.queue.iter() { cache.lock().sync(); }] *)
Fixpoint sync_queue (dev : D) (q : list (Z * BlockCache)) : res (D * list (Z * BlockCache)) :=
  match q with
  | [] => mret (dev, [])
  | (b, c) :: q' =>
      if bc_locked c then Err Deadlock
      else
        '(dev', c') ← BlockCache_sync dev c;
        '(dev'', q'') ← sync_queue dev' q';
        mret (dev'', (b, c') :: q'')
  end.

Definition block_cache_sync_all (m : BlockCacheManager) : res BlockCacheManager :=
  '(dev, q) ← sync_queue (bm_dev m) (bm_queue m);
  mret (MkBlockCacheManager dev q).

(** Programs only store to and release blocks they hold, with a whole block. *)
Fixpoint run_cached {A} (p : prog A) (m : BlockCacheManager) : res (A * BlockCacheManager) :=
  match p with
  | Ret a => Ok (a, m)
  | Throw e => Err e
  | Lock b k => match cached_lock b m with Ok (d, m') => run_cached (k d) m' | Err e => Err e end
  | Store b d k =>
      if cached_held b m && bool_decide (length d = 512%nat)
      then run_cached k (update_queue b (set_cache d) m) else Err Undefined
  | Unlock b k =>
      if cached_held b m then run_cached k (update_queue b (set_locked false) m) else Err Undefined
  | SyncAll k => match block_cache_sync_all m with Ok m' => run_cached k m' | Err e => Err e end
  end.
End Cached.
Arguments BlockCacheManager : clear implicits.

(** * The flat machine *)

Record Flat := MkFlat { fl_blocks : gmap Z (list Z); fl_held : gset Z }.

Definition flat_lock (b : Z) (f : Flat) : res (list Z * Flat) :=
  if decide (b ∈ fl_held f) then Err Deadlock
  else if decide (BLOCK_CACHE_SIZE ≤ size (fl_held f))%nat then Err Panic
  else match fl_blocks f !! b with
       | Some d => Ok (d, MkFlat (fl_blocks f) ({[b]} ∪ fl_held f))
       | None => if decide (0 ≤ b < 2 ^ 55) then Err Panic else Err Undefined
       end.

Fixpoint run_flat {A} (p : prog A) (f : Flat) : res (A * Flat) :=
  match p with
  | Ret a => Ok (a, f)
  | Throw e => Err e
  | Lock b k => match flat_lock b f with Ok (d, f') => run_flat (k d) f' | Err e => Err e end
  | Store b d k =>
      if bool_decide (b ∈ fl_held f) && bool_decide (length d = 512%nat)
      then run_flat k (MkFlat (<[b := d]> (fl_blocks f)) (fl_held f)) else Err Undefined
  | Unlock b k =>
      if bool_decide (b ∈ fl_held f)
      then run_flat k (MkFlat (fl_blocks f) (fl_held f ∖ {[b]})) else Err Undefined
  | SyncAll k => if decide (fl_held f = ∅) then run_flat k f else Err Deadlock
  end.

(** Whether a run leaves nothing to write back: nothing is stored after the last
    [block_cache_sync_all]; [b] says so of what came before. *)
Fixpoint flat_synced {A} (p : prog A) (f : Flat) (b : bool) : bool :=
  match p with
  | Ret _ | Throw _ => b
  | Lock x k => match flat_lock x f with Ok (d, f') => flat_synced (k d) f' b | Err _ => false end
  | Store x d k => flat_synced k (MkFlat (<[x := d]> (fl_blocks f)) (fl_held f)) false
  | Unlock x k => flat_synced k (MkFlat (fl_blocks f) (fl_held f ∖ {[x]})) b
  | SyncAll k => flat_synced k f true
  end.

(** * Queues as finite maps *)

Abbreviation qmap q := (list_to_map (M := gmap Z BlockCache) q).

Lemma queue_find_map b q : queue_find b q = qmap q !! b.
Proof.
  induction q as [|[b' c] q IH]; [done|]. simpl. rewrite lookup_insert, IH. done.
Qed.

Lemma qmap_fmap (g : BlockCache → BlockCache) q :
  qmap ((λ p, (p.1, g p.2)) <$> q) = g <$> qmap q.
Proof.
  induction q as [|[b c] q IH]; [done|].
  rewrite fmap_cons, !list_to_map_cons, IH. by rewrite fmap_insert.
Qed.

Lemma queue_update_map b f q : qmap (queue_update b f q) = alter f b (qmap q).
Proof.
  induction q as [|[b' c] q IH]; simpl; [by rewrite alter_empty|].
  change (list_fmap _ _ _ q) with (queue_update b f q). case_decide as Hb; simpl in *.
  - subst b'. rewrite IH, alter_insert_eq. apply map_eq. intros i. rewrite !lookup_insert.
    case_decide; [done|]. by rewrite lookup_alter_ne.
  - by rewrite IH, alter_insert_ne by done.
Qed.

Lemma queue_update_keys b f q : (queue_update b f q).*1 = q.*1.
Proof.
  unfold queue_update. rewrite <- list_fmap_compose. apply list_fmap_ext.
  intros i [b' c] _. simpl. by case_decide.
Qed.

Lemma queue_evict_Some q v rest :
  queue_evict q = Some (v, rest) →
  ∃ q1 b q2, q = q1 ++ (b, v) :: q2 ∧ rest = q1 ++ q2 ∧ bc_locked v = false.
Proof.
  revert v rest. induction q as [|[b c] q IH]; intros v rest; simpl; [done|].
  destruct (bc_locked c) eqn:Hl.
  - destruct (queue_evict q) as [[v' rest']|]; [|done]. intros [= <- <-].
    destruct (IH _ _ eq_refl) as (q1 & b' & q2 & -> & -> & ?). by exists ((b, c) :: q1), b', q2.
  - intros [= <- <-]. by exists [], b, q.
Qed.

Lemma queue_evict_None q : queue_evict q = None → ∀ b c, (b, c) ∈ q → bc_locked c = true.
Proof.
  induction q as [|[b c] q IH]; simpl; [set_solver|].
  destruct (bc_locked c) eqn:Hl; [|done]. destruct (queue_evict q) as [[]|]; [done|].
  intros _ b' c' [[= -> ->]|Hin]%elem_of_cons; [done|]. by apply (IH eq_refl b').
Qed.

(** * The refinement relation *)

Section Refinement.
Context {D : Type} `{BlockDevice D, !BlockDeviceLaws D}.
Implicit Types (m : BlockCacheManager D) (f : Flat).

Definition entry_ok (dev : D) (b : Z) (c : BlockCache) : Prop :=
  bc_block_id c = b ∧ is_block (bc_cache c) ∧
  ∃ x, dev_blocks dev !! b = Some x ∧ (bc_modified c = false → bc_cache c = x).

Record cache_rel m f : Prop := {
  rel_nodup : NoDup (bm_queue m).*1;
  rel_len : (length (bm_queue m) ≤ BLOCK_CACHE_SIZE)%nat;
  rel_entry b c : qmap (bm_queue m) !! b = Some c → entry_ok (bm_dev m) b c;
  rel_blocks : fl_blocks f = (bc_cache <$> qmap (bm_queue m)) ∪ dev_blocks (bm_dev m);
  rel_held b : b ∈ fl_held f ↔ ∃ c, qmap (bm_queue m) !! b = Some c ∧ bc_locked c = true;
}.

Lemma cache_rel_init dev : cache_rel (BlockCacheManager_new dev) (MkFlat (dev_blocks dev) ∅).
Proof.
  split; simpl; [constructor|unfold BLOCK_CACHE_SIZE; lia|done| |].
  - by rewrite fmap_empty, map_empty_union.
  - intros b. split; [set_solver|]. by intros (c & ? & _).
Qed.

Lemma rel_lookup m f b :
  cache_rel m f →
  fl_blocks f !! b = match qmap (bm_queue m) !! b with
                     | Some c => Some (bc_cache c)
                     | None => dev_blocks (bm_dev m) !! b
                     end.
Proof.
  intros Hr. rewrite (rel_blocks _ _ Hr), lookup_union, lookup_fmap.
  destruct (qmap (bm_queue m) !! b); simpl; [by rewrite union_Some_l|by rewrite (left_id_L None _)].
Qed.

(** Writing a buffer back does not change what the flat machine sees. *)
Lemma sync_ok dev b c :
  entry_ok dev b c →
  ∃ dev' , BlockCache_sync dev c =
      Ok (dev', MkBlockCache (bc_cache c) (bc_block_id c) false (bc_locked c)) ∧
    dev_blocks dev' = <[b := bc_cache c]> (dev_blocks dev).
Proof.
  intros (Hid & Hlen & x & Hx & Hmod). unfold BlockCache_sync.
  destruct (bc_modified c) eqn:Hm.
  - destruct (write_block_ok dev b (bc_cache c)) as (dev' & Hw & Hd); [eauto|done|].
    rewrite Hid, Hw. simpl. eauto.
  - exists dev. split.
    + destruct c. simpl in *. by subst.
    + rewrite Hmod by done. by rewrite insert_id.
Qed.

Lemma rel_size m f : cache_rel m f → (size (fl_held f) ≤ length (bm_queue m))%nat.
Proof.
  intros Hr. rewrite <- (length_fmap fst), <- (size_list_to_set (C := gset Z)) by apply (rel_nodup _ _ Hr).
  apply subseteq_size. intros b (c & Hc & _)%(rel_held _ _ Hr).
  apply elem_of_list_to_set. apply elem_of_list_to_map_2 in Hc. apply list_elem_of_fmap. by exists (b, c).
Qed.

Lemma rel_size_lt m f b :
  cache_rel m f → b ∈ (bm_queue m).*1 → b ∉ fl_held f → (size (fl_held f) < length (bm_queue m))%nat.
Proof.
  intros Hr Hb Hn. rewrite <- (length_fmap fst), <- (size_list_to_set (C := gset Z)) by apply (rel_nodup _ _ Hr).
  apply subset_size. split.
  - intros b' (c & Hc & _)%(rel_held _ _ Hr).
    apply elem_of_list_to_set. apply elem_of_list_to_map_2 in Hc. apply list_elem_of_fmap. by exists (b', c).
  - intros Hsub. apply Hn, Hsub. by apply elem_of_list_to_set.
Qed.

(** Evicting an unlocked buffer. *)
Lemma evict_ok m f :
  cache_rel m f → (size (fl_held f) < length (bm_queue m))%nat →
  ∃ v rest dev', queue_evict (bm_queue m) = Some (v, rest) ∧
    BlockCache_drop (bm_dev m) v = Ok dev' ∧ cache_rel (MkBlockCacheManager dev' rest) f ∧
    S (length rest) = length (bm_queue m) ∧
    ∀ b, b ∉ (bm_queue m).*1 → b ∉ rest.*1.
Proof.
  intros Hr Hsz. pose proof Hr as [Hnd Hlen Hent Hbl Hheld].
  destruct (queue_evict (bm_queue m)) as [[v rest]|] eqn:Hev.
  2: { exfalso. apply Nat.lt_nge in Hsz. apply Hsz.
       rewrite <- (length_fmap fst), <- (size_list_to_set (C := gset Z)) by done.
       apply subseteq_size. intros b ([b' c] & -> & Hin)%elem_of_list_to_set%list_elem_of_fmap.
       apply Hheld. exists c. split; [by apply elem_of_list_to_map_1|]. by eapply queue_evict_None. }
  apply queue_evict_Some in Hev as (q1 & b & q2 & Hq & -> & Hlock).
  rewrite Hq in Hnd. rewrite fmap_app, fmap_cons in Hnd. simpl in Hnd.
  assert ((b ∉ q1.*1) ∧ (b ∉ q2.*1)) as [Hb1 Hb2] by (apply NoDup_app in Hnd as (? & ? & [? ?]%NoDup_cons); set_solver).
  assert (qmap (bm_queue m) = <[b := v]> (qmap (q1 ++ q2))) as Hqm.
  { rewrite Hq, !list_to_map_app. simpl.
    rewrite insert_union_r; [done|]. by apply not_elem_of_list_to_map_1. }
  assert (qmap (q1 ++ q2) !! b = None) as Hbn
    by (apply not_elem_of_list_to_map_1; rewrite fmap_app; set_solver).
  assert (entry_ok (bm_dev m) b v) as Hev by (apply Hent; by rewrite Hqm, lookup_insert_eq).
  destruct (sync_ok _ _ _ Hev) as (dev' & Hs & Hd).
  exists v, (q1 ++ q2), dev'. split; [done|]. unfold BlockCache_drop. rewrite Hs. split; [done|].
  split; [split; cbn [bm_queue bm_dev]|].
  - rewrite fmap_app. apply NoDup_app in Hnd as (? & ? & [? ?]%NoDup_cons). apply NoDup_app. set_solver.
  - rewrite Hq, length_app, length_cons in Hlen. rewrite length_app. lia.
  - intros b' c' Hc'. assert (b' ≠ b) by congruence.
    destruct (Hent b' c') as (? & ? & x & Hx & ?); [by rewrite Hqm, lookup_insert_ne|].
    split; [done|]. split; [done|]. exists x. by rewrite Hd, lookup_insert_ne.
  - rewrite Hbl, Hqm, Hd, fmap_insert.
    apply map_eq. intros i. rewrite !lookup_union, !lookup_insert, lookup_fmap.
    case_decide as Hi; [|done]. subst i. rewrite Hbn. simpl. by rewrite union_Some_l, (left_id_L None _).
  - intros b'. rewrite Hheld, Hqm. split; intros (c & Hc & Hl); exists c; (split; [|done]).
    + rewrite lookup_insert in Hc. case_decide; [congruence|done].
    + rewrite lookup_insert_ne; [done|congruence].
  - rewrite Hq, !length_app, length_cons. split; [lia|]. intros b'. rewrite !fmap_app, fmap_cons. set_solver.
Qed.

(** Loading a block. *)
Lemma load_ok m f b x :
  cache_rel m f → (length (bm_queue m) < BLOCK_CACHE_SIZE)%nat → b ∉ (bm_queue m).*1 →
  dev_blocks (bm_dev m) !! b = Some x →
  cache_rel (MkBlockCacheManager (bm_dev m)
    (bm_queue m ++ [(b, MkBlockCache x b false false)])) f.
Proof.
  intros [Hnd Hlen Hent Hbl Hheld] Hlt Hb Hx.
  assert (qmap (bm_queue m) !! b = None) as Hbn by by apply not_elem_of_list_to_map_1.
  assert (qmap (bm_queue m ++ [(b, MkBlockCache x b false false)])
          = <[b := MkBlockCache x b false false]> (qmap (bm_queue m))) as Hqm
    by by apply list_to_map_snoc.
  split; cbn [bm_queue bm_dev].
  - rewrite fmap_app. apply NoDup_app. split; [done|]. split; [set_solver|]. apply NoDup_singleton.
  - rewrite length_app. simpl. lia.
  - intros b' c'. rewrite Hqm, lookup_insert. case_decide as Hbb; [|by apply Hent].
    intros [= <-]. subst b'. split; [done|]. split; [by eapply dev_blocks_block|]. by exists x.
  - rewrite Hbl, Hqm, fmap_insert. apply map_eq. intros i.
    rewrite !lookup_union, lookup_insert, lookup_fmap. case_decide as Hi; [|done]. subst i.
    rewrite Hbn, Hx. by rewrite union_Some_l.
  - intros b'. rewrite Hheld, Hqm. split; intros (c & Hc & Hl); exists c; (split; [|done]).
    + rewrite lookup_insert_ne; [done|congruence].
    + rewrite lookup_insert in Hc. case_decide; [|done]. injection Hc as <-. done.
Qed.

(** The end of [get_block_cache] on a miss, once there is room. *)
Lemma load_step m f b :
  cache_rel m f → (length (bm_queue m) < BLOCK_CACHE_SIZE)%nat → b ∉ (bm_queue m).*1 →
  let load := (block_cache ← BlockCache_new b (bm_dev m);
    mret (MkBlockCacheManager (bm_dev m) (bm_queue m ++ [(b, block_cache)]))) in
  match fl_blocks f !! b with
  | Some x => ∃ m' c, load = Ok m' ∧ cache_rel m' f ∧
      qmap (bm_queue m') !! b = Some c ∧ bc_cache c = x
  | None => 0 ≤ b < 2 ^ 55 → load = Err Panic
  end.
Proof.
  intros Hr Hlen Hk. cbv zeta. rewrite (rel_lookup _ _ b Hr).
  rewrite not_elem_of_list_to_map_1 by done. unfold BlockCache_new.
  destruct (dev_blocks (bm_dev m) !! b) as [x|] eqn:Hx.
  - rewrite (read_block_ok _ _ _ Hx). eexists _, _. split; [done|]. split; [by apply load_ok|].
    cbn [bm_queue]. rewrite list_to_map_snoc by done. rewrite lookup_insert_eq. done.
  - intros Hrange. by rewrite (read_block_err _ _ Hrange Hx).
Qed.

(** With every buffer held there is nothing to evict. *)
Lemma evict_full m f :
  cache_rel m f → (length (bm_queue m) ≤ size (fl_held f))%nat → queue_evict (bm_queue m) = None.
Proof.
  intros Hr Hsz. destruct (queue_evict (bm_queue m)) as [[v rest]|] eqn:Hev; [|done]. exfalso.
  apply queue_evict_Some in Hev as (q1 & b' & q2 & Heq & _ & Hl).
  assert (size (fl_held f) < length (bm_queue m))%nat; [|lia].
  apply (rel_size_lt _ _ b' Hr); [rewrite Heq, fmap_app; set_solver|].
  intros (c & Hc & Hlc)%(rel_held _ _ Hr).
  assert (qmap (bm_queue m) !! b' = Some v); [|congruence].
  apply elem_of_list_to_map_1; [apply Hr|]. rewrite Heq. set_solver.
Qed.

(** Obtaining the buffer of a block nobody holds. *)
Lemma get_block_cache_ok m f b :
  cache_rel m f → b ∉ fl_held f →
  if decide (BLOCK_CACHE_SIZE ≤ size (fl_held f))%nat then get_block_cache b m = Err Panic
  else match fl_blocks f !! b with
       | Some x => ∃ m' c, get_block_cache b m = Ok m' ∧ cache_rel m' f ∧
           qmap (bm_queue m') !! b = Some c ∧ bc_cache c = x
       | None => 0 ≤ b < 2 ^ 55 → get_block_cache b m = Err Panic
       end.
Proof.
  intros Hr Hb. unfold get_block_cache. rewrite queue_find_map.
  pose proof (rel_len _ _ Hr) as Hlen. pose proof (rel_size _ _ Hr) as Hsize.
  destruct (qmap (bm_queue m) !! b) as [c|] eqn:Hq.
  { apply elem_of_list_to_map_2 in Hq as Hin.
    assert (b ∈ (bm_queue m).*1) as Hkey by (apply list_elem_of_fmap; by exists (b, c)).
    pose proof (rel_size_lt _ _ _ Hr Hkey Hb). rewrite decide_False by lia.
    rewrite (rel_lookup _ _ _ Hr), Hq. by exists m, c. }
  apply not_elem_of_list_to_map_2 in Hq as Hkey.
  case_decide as Hsz.
  - rewrite decide_True by lia. by rewrite (evict_full m f) by (done || lia).
  - case_decide as Hfull; [|apply (load_step m f b); [done|lia|done]].
    destruct (evict_ok m f Hr ltac:(lia)) as (v & rest & dev' & Hev & Hd & Hr' & Hl' & Hsub).
    rewrite Hev, Hd. apply (load_step (MkBlockCacheManager dev' rest) f b); [done|simpl; lia|by apply Hsub].
Qed.

(** Changing a buffer in place: [g] keeps the block number and the length. *)
Lemma update_ok m f f' b c g :
  cache_rel m f → qmap (bm_queue m) !! b = Some c →
  entry_ok (bm_dev m) b (g c) →
  fl_blocks f' = <[b := bc_cache (g c)]> (fl_blocks f) →
  (∀ b', b' ∈ fl_held f' ↔ if decide (b' = b) then bc_locked (g c) = true else b' ∈ fl_held f) →
  cache_rel (update_queue b g m) f'.
Proof.
  intros [Hnd Hlen Hent Hbl Hheld] Hc He Hb Hh. unfold update_queue.
  split; cbn [bm_queue bm_dev]; rewrite ?queue_update_map.
  - by rewrite queue_update_keys.
  - unfold queue_update. by rewrite length_fmap.
  - intros b' c'. rewrite lookup_alter. case_decide as Hbb; [|by apply Hent].
    subst b'. rewrite Hc. by intros [= <-].
  - rewrite Hb, Hbl. apply map_eq. intros i. rewrite lookup_insert, !lookup_union, !lookup_fmap, lookup_alter.
    case_decide as Hi; [|done]. subst i. rewrite Hc. simpl. by rewrite union_Some_l.
  - intros b'. rewrite Hh, lookup_alter. case_decide as Hbb.
    + subst b'. rewrite decide_True, Hc by done. simpl. split; [eauto|]. by intros (? & [= <-] & ?).
    + rewrite decide_False by done. apply Hheld.
Qed.

Lemma lock_refines m f b :
  cache_rel m f →
  match flat_lock b f with
  | Ok (d, f') => ∃ m', cached_lock b m = Ok (d, m') ∧ cache_rel m' f'
  | Err Undefined => True
  | Err e => cached_lock b m = Err e
  end.
Proof.
  intros Hr. unfold flat_lock, cached_lock. case_decide as Hb.
  - destruct ((proj1 (rel_held _ _ Hr b)) Hb) as (c & Hc & Hl).
    unfold get_block_cache. rewrite queue_find_map, Hc. simpl. by rewrite queue_find_map, Hc, Hl.
  - pose proof (get_block_cache_ok m f b Hr Hb) as Hg. case_decide as Hsz; [by rewrite Hg|].
    destruct (fl_blocks f !! b) as [x|] eqn:Hx; [|case_decide; [by rewrite Hg|done]].
    destruct Hg as (m' & c & -> & Hr' & Hc & Hcx). simpl. rewrite queue_find_map, Hc.
    assert (bc_locked c = false) as Hl.
    { destruct (bc_locked c) eqn:Hl; [|done]. exfalso. apply Hb. apply (rel_held _ _ Hr'). eauto. }
    rewrite Hl, Hcx. eexists. split; [done|]. eapply update_ok; [done|done|..].
    + exact (rel_entry _ _ Hr' b c Hc).
    + simpl. rewrite Hcx. by rewrite insert_id.
    + intros b'. simpl. case_decide; set_solver.
Qed.

Definition mark_clean (c : BlockCache) : BlockCache :=
  MkBlockCache (bc_cache c) (bc_block_id c) false (bc_locked c).

Lemma sync_queue_ok q dev :
  NoDup q.*1 → (∀ b c, (b, c) ∈ q → entry_ok dev b c ∧ bc_locked c = false) →
  ∃ dev', sync_queue dev q = Ok (dev', (λ p, (p.1, mark_clean p.2)) <$> q) ∧
    dev_blocks dev' = (bc_cache <$> qmap q) ∪ dev_blocks dev.
Proof.
  revert dev. induction q as [|[b c] q IH]; intros dev Hnd Hall.
  - exists dev. split; [done|]. simpl. by rewrite fmap_empty, map_empty_union.
  - simpl in Hnd. apply NoDup_cons in Hnd as [Hb Hnd].
    destruct (Hall b c ltac:(set_solver)) as [He Hl]. destruct (sync_ok _ _ _ He) as (dev1 & Hs & Hd1).
    simpl. rewrite Hl, Hs. simpl.
    destruct (IH dev1 Hnd) as (dev2 & -> & Hd2).
    { intros b' c' Hin. destruct (Hall b' c' ltac:(set_solver)) as [(? & ? & x & Hx & ?) ?].
      split; [|done]. split; [done|]. split; [done|]. exists x. rewrite Hd1, lookup_insert_ne; [done|].
      intros <-. apply Hb. apply list_elem_of_fmap. by exists (b, c'). }
    exists dev2. simpl. split; [unfold mark_clean at 2; by rewrite Hl|]. rewrite Hd2, Hd1, fmap_insert. apply map_eq. intros i.
    rewrite !lookup_union, !lookup_insert, !lookup_fmap. case_decide as Hi; [|done]. subst i.
    rewrite not_elem_of_list_to_map_1 by done. simpl. by rewrite union_Some_l, (left_id_L None _).
Qed.

Lemma sync_queue_locked q dev :
  NoDup q.*1 → (∀ b c, (b, c) ∈ q → entry_ok dev b c) →
  (∃ b c, (b, c) ∈ q ∧ bc_locked c = true) → sync_queue dev q = Err Deadlock.
Proof.
  revert dev. induction q as [|[b c] q IH]; intros dev Hnd Hall (b0 & c0 & Hin & Hl); [set_solver|].
  simpl. destruct (bc_locked c) eqn:Hlc; [done|].
  apply elem_of_cons in Hin as [[= -> ->]|Hin]; [congruence|].
  simpl in Hnd. apply NoDup_cons in Hnd as [Hb Hnd].
  destruct (sync_ok _ _ _ (Hall b c ltac:(set_solver))) as (dev1 & Hs & Hd1). rewrite Hs. simpl.
  rewrite IH; [done|done| |eauto].
  intros b' c' Hin'. destruct (Hall b' c' ltac:(set_solver)) as (? & ? & x & Hx & ?).
  split; [done|]. split; [done|]. exists x. rewrite Hd1, lookup_insert_ne; [done|].
  intros <-. apply Hb. apply list_elem_of_fmap. by exists (b, c').
Qed.

Lemma synced_rel q dev f dev' :
  cache_rel (MkBlockCacheManager dev q) f →
  dev_blocks dev' = (bc_cache <$> qmap q) ∪ dev_blocks dev →
  cache_rel (MkBlockCacheManager dev' ((λ p, (p.1, mark_clean p.2)) <$> q)) f ∧
  dev_blocks dev' = fl_blocks f.
Proof.
  intros [Hnd Hlen Hent Hbl Hheld] Hd. cbn [bm_queue bm_dev] in *. split; [|by rewrite Hd, Hbl].
  split; cbn [bm_queue bm_dev]; rewrite ?qmap_fmap.
  - by rewrite <- list_fmap_compose.
  - by rewrite length_fmap.
  - intros b c. rewrite lookup_fmap. destruct (qmap q !! b) as [c0|] eqn:Hc0; [|done].
    intros [= <-]. destruct (Hent b c0 Hc0) as (? & ? & x & Hx & _). split; [done|]. split; [done|].
    exists (bc_cache c0). rewrite Hd, lookup_union, lookup_fmap, Hc0. simpl. by rewrite union_Some_l.
  - rewrite Hd, <- map_fmap_compose, Hbl. apply map_eq. intros i.
    rewrite !lookup_union, !lookup_fmap. by destruct (qmap q !! i), (dev_blocks dev !! i).
  - intros b. rewrite Hheld, lookup_fmap. destruct (qmap q !! b) as [c0|]; simpl; [|naive_solver].
    split; intros (c & [= <-] & ?); eauto.
Qed.

(** After [block_cache_sync_all] the device holds what the flat machine holds. *)
Lemma sync_all_refines m f :
  cache_rel m f →
  if decide (fl_held f = ∅) then
    ∃ m', block_cache_sync_all m = Ok m' ∧ cache_rel m' f ∧ dev_blocks (bm_dev m') = fl_blocks f
  else block_cache_sync_all m = Err Deadlock.
Proof.
  intros Hr. pose proof Hr as [Hnd Hlen Hent Hbl Hheld]. unfold block_cache_sync_all.
  assert (∀ b c, (b, c) ∈ bm_queue m → entry_ok (bm_dev m) b c) as Hall
    by (intros b c Hin; apply Hent; by apply elem_of_list_to_map_1).
  case_decide as He.
  - destruct (sync_queue_ok (bm_queue m) (bm_dev m) Hnd) as (dev' & -> & Hd).
    { intros b c Hin. split; [by apply Hall|]. destruct (bc_locked c) eqn:Hl; [|done]. exfalso.
      assert (b ∈ fl_held f); [|set_solver]. apply Hheld. exists c. split; [by apply elem_of_list_to_map_1|done]. }
    simpl. eexists. split; [done|]. cbn [bm_dev]. destruct m as [dev q]. cbn [bm_dev bm_queue] in *.
    by apply synced_rel with (dev := dev).
  - rewrite sync_queue_locked; [done|done|done|].
    apply set_choose_L in He as [b Hb]. apply Hheld in Hb as (c & Hc & Hl).
    exists b, c. split; [|done]. by apply elem_of_list_to_map_2.
Qed.

Lemma cached_held_spec m f b : cache_rel m f → cached_held b m = bool_decide (b ∈ fl_held f).
Proof.
  intros Hr. unfold cached_held. rewrite queue_find_map.
  destruct (qmap (bm_queue m) !! b) as [c|] eqn:Hc.
  - destruct (bc_locked c) eqn:Hl; symmetry; [apply bool_decide_eq_true_2|apply bool_decide_eq_false_2].
    + apply (rel_held _ _ Hr). eauto.
    + intros (c' & Hc' & ?)%(rel_held _ _ Hr). congruence.
  - symmetry. apply bool_decide_eq_false_2. intros (c' & Hc' & ?)%(rel_held _ _ Hr). congruence.
Qed.

Lemma store_ok m f b d : cache_rel m f → b ∈ fl_held f → length d = 512%nat →
  cache_rel (update_queue b (set_cache d) m) (MkFlat (<[b := d]> (fl_blocks f)) (fl_held f)).
Proof.
  intros Hr Hb Hd. destruct ((proj1 (rel_held _ _ Hr b)) Hb) as (c & Hc & Hl).
  destruct (rel_entry _ _ Hr b c Hc) as (? & ? & x & Hx & _). eapply update_ok; [done|done|..].
  - split; [done|]. split; [done|]. by exists x.
  - done.
  - intros b'. simpl. case_decide as Hbb; [by subst|done].
Qed.

Lemma unlock_ok m f b : cache_rel m f → b ∈ fl_held f →
  cache_rel (update_queue b (set_locked false) m) (MkFlat (fl_blocks f) (fl_held f ∖ {[b]})).
Proof.
  intros Hr Hb. destruct ((proj1 (rel_held _ _ Hr b)) Hb) as (c & Hc & Hl). eapply update_ok; [done|done|..].
  - exact (rel_entry _ _ Hr b c Hc).
  - simpl. rewrite insert_id; [done|]. by rewrite (rel_lookup _ _ _ Hr), Hc.
  - intros b'. simpl. case_decide; set_solver.
Qed.

Lemma run_refines {A} (p : prog A) m f :
  cache_rel m f →
  match run_flat p f with
  | Ok (a, f') => ∃ m', run_cached p m = Ok (a, m') ∧ cache_rel m' f'
  | Err Undefined => True
  | Err e => run_cached p m = Err e
  end.
Proof.
  revert m f. induction p as [a|e|b k IH|b d k IH|b k IH|k IH]; intros m f Hr; cbn [run_flat run_cached].
  - eauto.
  - by destruct e.
  - pose proof (lock_refines m f b Hr) as Hl. destruct (flat_lock b f) as [[d f']|e].
    + destruct Hl as (m' & -> & Hr'). by apply IH.
    + destruct e; by rewrite ?Hl.
  - rewrite (cached_held_spec m f b Hr). case_bool_decide as Hb; [|done].
    case_bool_decide as Hd; [|done]. simpl. by apply IH, store_ok.
  - rewrite (cached_held_spec m f b Hr). case_bool_decide as Hb; [|done]. by apply IH, unlock_ok.
  - pose proof (sync_all_refines m f Hr) as Hs. case_decide as He.
    + destruct Hs as (m' & -> & Hr' & _). by apply IH.
    + by rewrite Hs.
Qed.

(** ** What is on the device *)

(** No buffer has to be written back. *)
Definition clean m : Prop := Forall (λ p, bc_modified p.2 = false) (bm_queue m).

Lemma clean_dev m f : cache_rel m f → clean m → dev_blocks (bm_dev m) = fl_blocks f.
Proof.
  intros Hr Hc. rewrite (rel_blocks _ _ Hr). apply map_eq. intros b. rewrite lookup_union, lookup_fmap.
  destruct (qmap (bm_queue m) !! b) as [c|] eqn:Hb; simpl; [|by rewrite (left_id_L None _)].
  destruct (rel_entry _ _ Hr b c Hb) as (_ & _ & x & Hx & Hcl). apply elem_of_list_to_map_2 in Hb.
  unfold clean in Hc. rewrite Forall_forall in Hc. by rewrite union_Some_l, Hx, Hcl by apply (Hc _ Hb).
Qed.

Lemma clean_update m b g : (∀ c, bc_modified (g c) = bc_modified c) → clean m → clean (update_queue b g m).
Proof.
  intros Hg Hc. unfold clean, update_queue, queue_update. cbn [bm_queue]. apply Forall_fmap. eapply Forall_impl; [exact Hc|].
  intros [b' c] H1. cbn. case_decide; cbn; [by rewrite Hg|done].
Qed.

Lemma clean_lock m b d m' : clean m → cached_lock b m = Ok (d, m') → clean m'.
Proof.
  intros Hc. unfold cached_lock. destruct (get_block_cache b m) as [m1|] eqn:Hg; [|done]. cbn. intros Hl.
  assert (clean m1) as Hc1.
  { unfold get_block_cache in Hg. destruct (queue_find b (bm_queue m)); [by injection Hg as <-|].
    case_decide.
    - destruct (queue_evict (bm_queue m)) as [[v rest]|] eqn:Hev; [|done]. apply queue_evict_Some in Hev as (q1 & b' & q2 & Hq & -> & _).
      destruct (BlockCache_drop (bm_dev m) v) as [dev'|]; [|done]. cbn in Hg.
      destruct (BlockCache_new b dev') as [c|] eqn:Hn; [|done]. injection Hg as <-. unfold clean in *. rewrite Hq in Hc.
      cbn [bm_queue]. unfold BlockCache_new in Hn. destruct (read_block dev' b); [|done]. injection Hn as <-.
      rewrite !Forall_app, Forall_cons in *. naive_solver.
    - cbn in Hg. destruct (BlockCache_new b (bm_dev m)) as [c|] eqn:Hn; [|done]. injection Hg as <-. unfold clean in *.
      unfold BlockCache_new in Hn. destruct (read_block (bm_dev m) b); [|done]. injection Hn as <-.
      cbn [bm_queue]. apply Forall_app. split; [done|]. by apply Forall_singleton. }
  destruct (queue_find b (bm_queue m1)) as [c|]; [|done]. destruct (bc_locked c); [done|]. injection Hl as _ <-.
  by apply clean_update.
Qed.

Lemma clean_sync q : ∀ dev dev' q', sync_queue dev q = Ok (dev', q') → Forall (λ p, bc_modified p.2 = false) q'.
Proof.
  induction q as [|[b c] q IH]; intros dev dev' q'; cbn; [by intros [= _ <-]|].
  destruct (bc_locked c); [done|]. unfold BlockCache_sync. destruct (bc_modified c) eqn:Hm.
  - destruct (write_block _ _ _) as [d1|]; [|done]. cbn. destruct (sync_queue d1 q) as [[d2 q2]|] eqn:Hs; [|done].
    intros [= _ <-]. apply Forall_cons. split; [done|]. by eapply IH.
  - cbn. destruct (sync_queue dev q) as [[d2 q2]|] eqn:Hs; [|done]. intros [= _ <-]. apply Forall_cons.
    split; [done|]. by eapply IH.
Qed.

(** Runs after which nothing has to be written back leave every block on the device. *)
Lemma run_synced {A} (p : prog A) m f b a f' :
  cache_rel m f → (b = true → clean m) → run_flat p f = Ok (a, f') → flat_synced p f b = true →
  ∃ m', run_cached p m = Ok (a, m') ∧ cache_rel m' f' ∧ clean m' ∧ dev_blocks (bm_dev m') = fl_blocks f'.
Proof.
  revert m f b. induction p as [x|e|b0 k IH|b0 d k IH|b0 k IH|k IH]; intros m f b Hr Hb;
    cbn [run_flat run_cached flat_synced].
  - intros [= -> <-] ->. exists m. split; [done|]. split; [done|]. split; [auto|]. by apply clean_dev; auto.
  - done.
  - pose proof (lock_refines m f b0 Hr) as Hl. destruct (flat_lock b0 f) as [[d f0]|e]; [|done].
    destruct Hl as (m' & Hl & Hr'). rewrite Hl. apply IH; [done|]. intros ->. by eapply clean_lock; [auto|].
  - rewrite (cached_held_spec m f b0 Hr). case_bool_decide as Hh; [|done].
    case_bool_decide as Hd; [|done]. simpl. apply IH; [by apply store_ok|done].
  - rewrite (cached_held_spec m f b0 Hr). case_bool_decide as Hh; [|done]. apply IH; [by apply unlock_ok|].
    intros ->. by apply clean_update; auto.
  - pose proof (sync_all_refines m f Hr) as Hs. case_decide as He; [|done].
    destruct Hs as (m' & Hs & Hr' & Hdev). rewrite Hs. apply IH; [done|]. intros _. unfold block_cache_sync_all in Hs.
    destruct (sync_queue (bm_dev m) (bm_queue m)) as [[d1 q1]|] eqn:Hq; [|done]. injection Hs as <-. by eapply clean_sync.
Qed.

(** ** Programs that only read *)

Fixpoint no_store {A} (p : prog A) : Prop :=
  match p with
  | Ret _ | Throw _ => True
  | Lock _ k => ∀ d, no_store (k d)
  | Store _ _ _ => False
  | Unlock _ k | SyncAll k => no_store k
  end.

Lemma no_store_bind {A B} (p : prog A) (g : A → prog B) : no_store p → (∀ a, no_store (g a)) → no_store (p ≫= g).
Proof. intros Hp Hg. unfold mbind, prog_mbind. induction p; simpl in *; auto; try tauto. Qed.

Lemma no_store_synced {A} (p : prog A) : no_store p → ∀ f b r, run_flat p f = Ok r → b = true → flat_synced p f b = true.
Proof.
  induction p as [x|e|b0 k IH|b0 d k IH|b0 k IH|k IH]; simpl; intros Hp f b r Hr ->; [done|done| |done| |].
  - destruct (flat_lock b0 f) as [[d f']|]; [|done]. by eapply IH.
  - destruct (bool_decide _); [|done]. by eapply IH.
  - case_decide; [|done]. by eapply IH.
Qed.
End Refinement.

(** * Properties *)

Section Properties.
Context {D : Type} `{BlockDevice D, !BlockDeviceLaws D}.

(** C8: the cache is transparent.  Any sequence of block operations run through the
    sixteen-buffer cache of a fresh manager, with its replacements and deferred
    write-backs, returns the value (or fails with the fault) that it has on a plain store
    of blocks; the queue never holds more than sixteen buffers nor two for one block, and
    the buffers over the device are exactly the plain store. *)
Theorem block_cache_transparent {A} (p : prog A) (dev : D) :
  match run_flat p (MkFlat (dev_blocks dev) ∅) with
  | Ok (a, f) => ∃ m, run_cached p (BlockCacheManager_new dev) = Ok (a, m) ∧
      (length (bm_queue m) ≤ BLOCK_CACHE_SIZE)%nat ∧ NoDup (bm_queue m).*1 ∧
      fl_blocks f = (bc_cache <$> qmap (bm_queue m)) ∪ dev_blocks (bm_dev m)
  | Err Undefined => True
  | Err e => run_cached p (BlockCacheManager_new dev) = Err e
  end.
Proof.
  pose proof (run_refines p _ _ (cache_rel_init dev)) as Hr.
  destruct (run_flat p _) as [[a f]|e]; [|done].
  destruct Hr as (m & ? & [? ? ? ? ?]). by exists m.
Qed.

(** C30: [block_cache_sync_all] makes data durable.  If a program leaves no block held,
    then after syncing the device itself, without any buffer, holds every block as the
    program left it. *)
Theorem sync_all_durable {A} (p : prog A) (dev : D) (a : A) (f : Flat)
    (Hrun : run_flat p (MkFlat (dev_blocks dev) ∅) = Ok (a, f)) (Hheld : fl_held f = ∅) :
  ∃ m m', run_cached p (BlockCacheManager_new dev) = Ok (a, m) ∧
    block_cache_sync_all m = Ok m' ∧ dev_blocks (bm_dev m') = fl_blocks f.
Proof.
  pose proof (run_refines p _ _ (cache_rel_init dev)) as Hr. rewrite Hrun in Hr.
  destruct Hr as (m & Hm & Hrel). pose proof (sync_all_refines m f Hrel) as Hs.
  rewrite decide_True in Hs by done. destruct Hs as (m' & ? & _ & ?). eauto.
Qed.
End Properties.

(** A two-block host file whose second block is overwritten. *)
Definition demo_file : BlockFile := MkBlockFile (replicate 1024 0).
Definition demo_prog : prog Z :=
  Lock 1 (λ d, Store 1 (replicate 512 7) (Unlock 1 (Ret (Z.of_nat (length d))))).

Lemma sync_all_durable_witness :
  ∃ m m' : BlockCacheManager BlockFile,
    run_cached demo_prog (BlockCacheManager_new demo_file) = Ok (512, m) ∧
    block_cache_sync_all m = Ok m' ∧
    dev_blocks (bm_dev m') = <[1 := replicate 512 7]> (dev_blocks demo_file).
Proof.
  destruct (sync_all_durable demo_prog demo_file 512
    (MkFlat (<[1 := replicate 512 7]> (dev_blocks demo_file)) ∅)) as (m & m' & H1 & H2 & H3).
  - vm_compute. reflexivity.
  - reflexivity.
  - exists m, m'. exact (conj H1 (conj H2 H3)).
Defined.
