(* ===== verification/BlockAccess.v ===== *)
(** Typed access to cached blocks ([get_ref], [get_mut], [read] and [modify] of
    [easy-fs/src/block_cache.rs]): the on-disk representation of the types the file
    system casts block bytes to, [block_read] and [block_modify], and a total-correctness
    program logic for block programs on the flat machine. *)

From S2P Require Import Prelude BlockDev BlockCache.

(** * Arrays of little-endian words *)

Fixpoint words (w n : nat) (bs : list Z) : list Z :=
  match n with
  | O => []
  | S n' => le_value (take w bs) :: words w n' (drop w bs)
  end.

Definition words_bytes (w : nat) (xs : list Z) : list Z := xs ≫= le_bytes w.

Lemma length_words w n bs : length (words w n bs) = n.
Proof. revert bs. induction n; intros; simpl; [done|]. by rewrite IHn. Qed.

Lemma length_words_bytes w xs : length (words_bytes w xs) = (length xs * w)%nat.
Proof.
  induction xs as [|x xs IH]; [done|]. unfold words_bytes in *. rewrite bind_cons, length_app, length_le_bytes, IH.
  simpl. lia.
Qed.

Lemma words_bytes_bytes w xs : Forall is_byte (words_bytes w xs).
Proof.
  induction xs as [|x xs IH]; [constructor|]. unfold words_bytes in *. rewrite bind_cons.
  apply Forall_app. split; [apply le_bytes_bytes|done].
Qed.

Lemma words_fits w n bs :
  Forall is_byte bs → length bs = (n * w)%nat → Forall (fits (8 * Z.of_nat w)) (words w n bs).
Proof.
  revert bs. induction n as [|n IH]; intros bs Hb Hl; simpl; constructor.
  - pose proof (le_value_range (take w bs) (Forall_take _ _ _ Hb)) as Hr.
    rewrite length_take_le in Hr by lia. unfold fits.
    rewrite Z.pow_mul_r by lia. exact Hr.
  - apply IH; [by apply Forall_drop|]. rewrite length_drop. lia.
Qed.

Lemma words_words_bytes w xs :
  Forall (fits (8 * Z.of_nat w)) xs → words w (length xs) (words_bytes w xs) = xs.
Proof.
  induction 1 as [|x xs Hx Hxs IH]; [done|]. unfold words_bytes in *. rewrite bind_cons. simpl.
  rewrite take_app_length', drop_app_length' by (symmetry; apply length_le_bytes).
  rewrite IH, le_value_bytes; [done|]. unfold fits in Hx. by rewrite Z.pow_mul_r in Hx by lia.
Qed.

Lemma words_bytes_words w n bs :
  Forall is_byte bs → length bs = (n * w)%nat → words_bytes w (words w n bs) = bs.
Proof.
  revert bs. induction n as [|n IH]; intros bs Hb Hl; cbn [words].
  - destruct bs; [done|simpl in Hl; lia].
  - unfold words_bytes in *. rewrite bind_cons, IH; [|by apply Forall_drop|rewrite length_drop; lia].
    replace w with (length (take w bs)) at 1 by (rewrite length_take; lia).
    rewrite le_bytes_value by by apply Forall_take. apply take_drop.
Qed.

#[global] Arguments words : simpl never.

(** * Representations

    [encode x old] are the bytes of the value [x] stored over the bytes [old], whose
    padding bytes it keeps; [decode] fails on bytes that are no value of the type. *)
Record Repr (T : Type) := MkRepr {
  size_of : nat;
  decode : list Z → option T;
  encode : T → list Z → list Z;
  repr_valid : T → Prop;
  size_of_pos : (0 < size_of)%nat;
  length_encode x bs : repr_valid x → length bs = size_of → length (encode x bs) = size_of;
  encode_bytes x bs : repr_valid x → Forall is_byte bs → Forall is_byte (encode x bs);
  decode_encode x bs : repr_valid x → length bs = size_of → decode (encode x bs) = Some x;
  decode_valid bs x : Forall is_byte bs → length bs = size_of → decode bs = Some x → repr_valid x;
  encode_decode bs x :
    Forall is_byte bs → length bs = size_of → decode bs = Some x → encode x bs = bs;
}.
Arguments size_of {T} _.
Arguments decode {T} _ _.
Arguments encode {T} _ _ _.
Arguments repr_valid {T} _ _.

(** [[uN; n]] *)
Definition words_valid (w n : nat) (xs : list Z) : Prop :=
  length xs = n ∧ Forall (fits (8 * Z.of_nat w)) xs.

Program Definition words_repr (w n : nat) (Hpos : (0 < n * w)%nat) : Repr (list Z) := {|
  size_of := n * w;
  decode bs := Some (words w n bs);
  encode xs _ := words_bytes w xs;
  repr_valid := words_valid w n;
|}.
Next Obligation. done. Qed.
Next Obligation. intros w n _ x bs [Hx _] _. rewrite length_words_bytes. by rewrite Hx. Qed.
Next Obligation. intros. apply words_bytes_bytes. Qed.
Next Obligation. intros w n _ x bs [<- Hx] _. simpl. f_equal. by apply words_words_bytes. Qed.
Next Obligation.
  intros w n _ bs x Hb Hl [= <-]. split; [apply length_words|by apply words_fits].
Qed.
Next Obligation. intros w n _ bs x Hb Hl [= <-]. by apply words_bytes_words. Qed.

(** [type DataBlock = [u8; BLOCK_SZ]] *)
Program Definition DataBlock : Repr (list Z) := {|
  size_of := 512;
  decode bs := Some bs;
  encode x _ := x;
  repr_valid x := length x = 512%nat ∧ Forall is_byte x;
|}.
Next Obligation. lia. Qed.
Next Obligation. intros x bs [? _] _. done. Qed.
Next Obligation. by intros x bs [_ ?] _. Qed.
Next Obligation. done. Qed.
Next Obligation. by intros bs x Hb Hl [= <-]. Qed.
Next Obligation. by intros bs x Hb Hl [= <-]. Qed.

(** * Reading and modifying a value in a block *)

Definition prog_assert (b : bool) : prog () := if b then Ret tt else Throw Panic.

(** [get_ref] and [get_mut]: the value at [offset], which must lie inside the block. *)
Definition get_ref {T} (R : Repr T) (data : list Z) (offset : Z) : prog T :=
  _ ← prog_assert (bool_decide ((offset + Z.of_nat (size_of R))%usize ≤ BLOCK_SZ));
  match decode R (slice data offset (Z.of_nat (size_of R))) with
  | Some x => mret x
  | None => Throw Undefined
  end.

(** [get_block_cache(b, dev).lock().read(offset, f)] *)
Definition block_read {T V} (R : Repr T) (b offset : Z) (f : T → prog V) : prog V :=
  Lock b (λ data,
    x ← get_ref R data offset;
    v ← f x;
    Unlock b (Ret v)).

(** [get_block_cache(b, dev).lock().modify(offset, f)]; the closure returns its result
    and the value it leaves in the block. *)
Definition block_modify {T V} (R : Repr T) (b offset : Z) (f : T → prog (V * T)) : prog V :=
  Lock b (λ data,
    x ← get_ref R data offset;
    '(v, x') ← f x;
    Store b (splice data offset (encode R x' (slice data offset (Z.of_nat (size_of R)))))
      (Unlock b (Ret v))).

(** * A program logic

    [wp h p bl Q]: with the blocks [h] held and the disk contents [bl], the program [p]
    runs to its end without a fault, holds the same blocks afterwards, and its result and
    the new contents satisfy [Q]. *)
Definition wp {A} (h : gset Z) (p : prog A) (bl : gmap Z (list Z))
    (Q : A → gmap Z (list Z) → Prop) : Prop :=
  ∃ a bl', run_flat p (MkFlat bl h) = Ok (a, MkFlat bl' h) ∧ Q a bl'.

Lemma run_flat_bind {A B} (p : prog A) (f : A → prog B) fl :
  run_flat (p ≫= f) fl =
    match run_flat p fl with Ok (a, fl') => run_flat (f a) fl' | Err e => Err e end.
Proof.
  unfold mbind, prog_mbind. revert fl. induction p as [a|e|b k IH|b d k IH|b k IH|k IH]; intros fl; simpl.
  - done.
  - done.
  - destruct (flat_lock b fl) as [[d fl']|e]; [apply IH|done].
  - destruct (_ && _); [apply IH|done].
  - destruct (bool_decide _); [apply IH|done].
  - case_decide; [apply IH|done].
Qed.

Lemma run_flat_bind_Ok {A B} (p : prog A) (f : A → prog B) fl r :
  run_flat (p ≫= f) fl = Ok r → ∃ r1, run_flat p fl = Ok r1 ∧ run_flat (f r1.1) r1.2 = Ok r.
Proof. rewrite run_flat_bind. destruct (run_flat p fl) as [[a fl']|e]; [|done]. by exists (a, fl'). Qed.

Lemma flat_synced_bind {A B} (p : prog A) (g : A → prog B) fl b a fl' :
  run_flat p fl = Ok (a, fl') → flat_synced (p ≫= g) fl b = flat_synced (g a) fl' (flat_synced p fl b).
Proof.
  unfold mbind, prog_mbind. revert fl b. induction p as [x|e|x k IH|x d k IH|x k IH|k IH]; intros fl b; simpl.
  - by intros [= -> ->].
  - done.
  - destruct (flat_lock x fl) as [[d fl1]|e]; [apply IH|done].
  - destruct (_ && _); [apply IH|done].
  - destruct (bool_decide _); [apply IH|done].
  - case_decide; [apply IH|done].
Qed.

Section Wp.
Implicit Types (h : gset Z) (bl : gmap Z (list Z)).

Lemma wp_ret {A} h (a : A) bl Q : Q a bl → wp h (Ret a) bl Q.
Proof. intros HQ. by exists a, bl. Qed.

Lemma wp_mono {A} h (p : prog A) bl (Q Q' : A → gmap Z (list Z) → Prop) :
  wp h p bl Q → (∀ a bl', Q a bl' → Q' a bl') → wp h p bl Q'.
Proof. intros (a & bl' & ? & ?) HQ. exists a, bl'. split; [done|by apply HQ]. Qed.

Lemma wp_bind {A B} h (p : prog A) (f : A → prog B) bl Q :
  wp h p bl (λ a bl', wp h (f a) bl' Q) → wp h (p ≫= f) bl Q.
Proof.
  intros (a & bl1 & H1 & b & bl2 & H2 & HQ). exists b, bl2. split; [|done].
  by rewrite run_flat_bind, H1.
Qed.

Lemma wp_assert {A} h (b : bool) (k : prog A) bl Q :
  b = true → wp h k bl Q → wp h (_ ← prog_assert b; k) bl Q.
Proof. intros -> Hk. by apply wp_bind, wp_ret. Qed.

Lemma wp_lift {A B} h (r : res A) (a : A) (k : A → prog B) bl Q :
  r = Ok a → wp h (k a) bl Q → wp h (x ← prog_lift r; k x) bl Q.
Proof. intros -> Hk. by apply wp_bind, wp_ret. Qed.

Lemma wp_sync {A} (k : prog A) bl Q : wp ∅ k bl Q → wp ∅ (SyncAll k) bl Q.
Proof. intros (a & bl' & ? & ?). exists a, bl'. split; [|done]. simpl. by rewrite decide_True. Qed.

Definition lockable h bl (b : Z) (d : list Z) : Prop :=
  (b ∉ h) ∧ (size h < BLOCK_CACHE_SIZE)%nat ∧ bl !! b = Some d.

Lemma flat_lock_ok h bl b d :
  lockable h bl b d → flat_lock b (MkFlat bl h) = Ok (d, MkFlat bl ({[b]} ∪ h)).
Proof.
  intros (Hb & Hh & Hd). unfold flat_lock. cbn [fl_held fl_blocks].
  rewrite decide_False by done. rewrite decide_False by lia. by rewrite Hd.
Qed.

Lemma get_ref_ok {T} (R : Repr T) d off x fl :
  0 ≤ off → off + Z.of_nat (size_of R) ≤ 512 →
  decode R (slice d off (Z.of_nat (size_of R))) = Some x →
  run_flat (get_ref R d off) fl = Ok (x, fl).
Proof.
  intros Ho Hs Hx. unfold get_ref. rewrite run_flat_bind, add_w_small by (unfold fits; lia).
  unfold prog_assert, BLOCK_SZ. rewrite bool_decide_eq_true_2 by lia. simpl. by rewrite Hx.
Qed.

Lemma wp_read {T V} (R : Repr T) h b off (f : T → prog V) bl d x Q :
  lockable h bl b d → 0 ≤ off → off + Z.of_nat (size_of R) ≤ 512 →
  decode R (slice d off (Z.of_nat (size_of R))) = Some x →
  wp ({[b]} ∪ h) (f x) bl Q → wp h (block_read R b off f) bl Q.
Proof.
  intros Hl Ho Hs Hx (v & bl' & Hf & HQ). exists v, bl'. split; [|done].
  unfold block_read. cbn [run_flat]. rewrite (flat_lock_ok _ _ _ _ Hl).
  rewrite run_flat_bind, (get_ref_ok _ _ _ _ _ Ho Hs Hx), run_flat_bind, Hf. simpl.
  rewrite bool_decide_eq_true_2 by set_solver.
  replace (({[b]} ∪ h) ∖ {[b]}) with h; [done|]. destruct Hl as [Hb _]. set_solver.
Qed.

Lemma wp_modify {T V} (R : Repr T) h b off (f : T → prog (V * T)) bl d x Q :
  lockable h bl b d → length d = 512%nat → 0 ≤ off → off + Z.of_nat (size_of R) ≤ 512 →
  decode R (slice d off (Z.of_nat (size_of R))) = Some x →
  wp ({[b]} ∪ h) (f x) bl (λ r bl', repr_valid R r.2 ∧
    Q r.1 (<[b := splice d off (encode R r.2 (slice d off (Z.of_nat (size_of R))))]> bl')) →
  wp h (block_modify R b off f) bl Q.
Proof.
  intros Hl Hd Ho Hs Hx ([v x'] & bl' & Hf & Hval & HQ). eexists v, _. split; [|exact HQ].
  unfold block_modify. cbn [run_flat]. rewrite (flat_lock_ok _ _ _ _ Hl).
  rewrite run_flat_bind, (get_ref_ok _ _ _ _ _ Ho Hs Hx), run_flat_bind, Hf. simpl.
  assert (length (slice d off (Z.of_nat (size_of R))) = size_of R) as Hsl.
  { apply Nat2Z.inj. rewrite length_slice by lia. lia. }
  pose proof (length_encode _ R x' _ Hval Hsl) as He.
  rewrite (bool_decide_eq_true_2 (b ∈ _)) by set_solver.
  rewrite (bool_decide_eq_true_2 (length _ = _)) by (rewrite length_splice; lia). simpl.
  replace (({[b]} ∪ h) ∖ {[b]}) with h; [done|]. destruct Hl as [Hb _]. set_solver.
Qed.

Lemma run_modify_err {T V} (R : Repr T) h b off (f : T → prog (V * T)) bl d x e :
  lockable h bl b d → 0 ≤ off → off + Z.of_nat (size_of R) ≤ 512 →
  decode R (slice d off (Z.of_nat (size_of R))) = Some x →
  run_flat (f x) (MkFlat bl ({[b]} ∪ h)) = Err e →
  run_flat (block_modify R b off f) (MkFlat bl h) = Err e.
Proof.
  intros Hl Ho Hs Hx Hf. unfold block_modify. cbn [run_flat]. rewrite (flat_lock_ok _ _ _ _ Hl).
  by rewrite run_flat_bind, (get_ref_ok _ _ _ _ _ Ho Hs Hx), run_flat_bind, Hf.
Qed.
End Wp.

(** * Well-formed disks: every block has 512 bytes *)

Definition block_wf (d : list Z) : Prop := length d = 512%nat ∧ Forall is_byte d.
Definition disk_wf (bl : gmap Z (list Z)) : Prop := map_Forall (λ _ d, block_wf d) bl.

Lemma disk_wf_insert bl b d : disk_wf bl → block_wf d → disk_wf (<[b := d]> bl).
Proof. intros. by apply map_Forall_insert_2. Qed.

Lemma slice_bytes d off n : Forall is_byte d → Forall is_byte (slice d off n).
Proof. intros. by apply Forall_take, Forall_drop. Qed.

Lemma length_slice_in (d : list Z) off (n : nat) :
  0 ≤ off → off + Z.of_nat n ≤ Z.of_nat (length d) → length (slice d off (Z.of_nat n)) = n.
Proof. intros. apply Nat2Z.inj. rewrite length_slice by lia. lia. Qed.

(** A stored value is read back, values elsewhere in the block are unchanged, and the
    block stays well-formed. *)
Lemma splice_block_wf {T} (R : Repr T) d off x :
  block_wf d → 0 ≤ off → off + Z.of_nat (size_of R) ≤ 512 → repr_valid R x →
  block_wf (splice d off (encode R x (slice d off (Z.of_nat (size_of R))))).
Proof.
  intros [Hl Hb] Ho Hs Hx.
  assert (length (slice d off (Z.of_nat (size_of R))) = size_of R) as Hsl by (apply length_slice_in; lia).
  pose proof (length_encode _ R x _ Hx Hsl).
  split; [rewrite length_splice; lia|]. unfold splice. rewrite !Forall_app. split; [by apply Forall_take|].
  split; [|by apply Forall_drop]. apply encode_bytes; [done|]. by apply slice_bytes.
Qed.

Lemma decode_splice_eq {T} (R : Repr T) d off x :
  length d = 512%nat → 0 ≤ off → off + Z.of_nat (size_of R) ≤ 512 → repr_valid R x →
  decode R (slice (splice d off (encode R x (slice d off (Z.of_nat (size_of R)))))
    off (Z.of_nat (size_of R))) = Some x.
Proof.
  intros Hl Ho Hs Hx.
  assert (length (slice d off (Z.of_nat (size_of R))) = size_of R) as Hsl by (apply length_slice_in; lia).
  pose proof (length_encode _ R x _ Hx Hsl).
  rewrite slice_splice_eq by lia. by apply decode_encode.
Qed.

Lemma decode_splice_ne {T U} (R : Repr T) (R' : Repr U) d off off' x :
  length d = 512%nat → 0 ≤ off → off + Z.of_nat (size_of R) ≤ 512 → repr_valid R x → 0 ≤ off' →
  off' + Z.of_nat (size_of R') ≤ off ∨ off + Z.of_nat (size_of R) ≤ off' →
  decode R' (slice (splice d off (encode R x (slice d off (Z.of_nat (size_of R)))))
    off' (Z.of_nat (size_of R'))) = decode R' (slice d off' (Z.of_nat (size_of R'))).
Proof.
  intros Hl Ho Hs Hx Ho' Hd.
  assert (length (slice d off (Z.of_nat (size_of R))) = size_of R) as Hsl by (apply length_slice_in; lia).
  pose proof (length_encode _ R x _ Hx Hsl). by rewrite slice_splice_ne by lia.
Qed.

(** A whole-block value. *)
Lemma splice_whole (d x : list Z) : length d = 512%nat → length x = 512%nat → splice d 0 x = x.
Proof.
  intros Hd Hx. unfold splice. change (Z.to_nat 0) with 0%nat. rewrite take_0, drop_ge by lia. apply app_nil_r.
Qed.

Lemma slice_whole (d : list Z) : length d = 512%nat → slice d 0 512 = d.
Proof. intros Hd. unfold slice. change (Z.to_nat 0) with 0%nat. rewrite drop_0. apply take_ge. lia. Qed.
