(* ===== verification/Bitmap.v ===== *)
(** Allocation bitmaps ([easy-fs/src/bitmap.rs]).  A bitmap region is a range of blocks,
    each an array of 64 words of 64 bits.  The abstract state is the set of allocated
    bit numbers. *)

From S2P Require Import Prelude BlockDev BlockCache BlockAccess.

(** [type BitmapBlock = [u64; 64]] *)
Definition BitmapBlock : Repr (list Z) := words_repr 8 64 ltac:(lia).

Definition BLOCK_BITS : Z := BLOCK_SZ * 8.

Record Bitmap := MkBitmap { bitmap_start_block_id : Z; bitmap_blocks : Z }.

Definition Bitmap_new (start_block_id blocks : Z) : Bitmap := MkBitmap start_block_id blocks.

(** (block_pos, bits64_pos, inner_pos) *)
Definition decomposition (bit : Z) : Z * Z * Z :=
  let block_pos := bit / BLOCK_BITS in
  let bit := bit mod BLOCK_BITS in
  (block_pos, bit / 64, bit mod 64).

Definition u64_MAX : Z := 2 ^ 64 - 1.

(** [u64::trailing_ones] *)
Fixpoint trailing_ones_in (n : nat) (x : Z) : Z :=
  match n with
  | O => 0
  | S n' => if Z.odd x then 1 + trailing_ones_in n' (x / 2) else 0
  end.
Definition trailing_ones (x : Z) : Z := trailing_ones_in 64 x.

(** The closure [alloc] applies to one bitmap block. *)
Definition alloc_in_block (block_id : Z) (bitmap_block : list Z) : option Z * list Z :=
  match list_find (λ bits64, bits64 ≠ u64_MAX) bitmap_block with
  | Some (bits64_pos, bits64) =>
      let inner_pos := trailing_ones bits64 in
      (Some (block_id * BLOCK_BITS + Z.of_nat bits64_pos * 64 + inner_pos)%usize,
       <[bits64_pos := Z.lor bits64 (1 ≪ inner_pos)%usize]> bitmap_block)
  | None => (None, bitmap_block)
  end.

Fixpoint Bitmap_alloc_loop (self : Bitmap) (block_ids : list Z) : prog (option Z) :=
  match block_ids with
  | [] => mret None
  | block_id :: rest =>
      pos ← block_modify BitmapBlock (block_id + bitmap_start_block_id self)%usize 0
              (λ bitmap_block, Ret (alloc_in_block block_id bitmap_block));
      match pos with
      | Some _ => mret pos
      | None => Bitmap_alloc_loop self rest
      end
  end.

Definition Bitmap_alloc (self : Bitmap) : prog (option Z) :=
  Bitmap_alloc_loop self (seqZ 0 (bitmap_blocks self)).

Definition Bitmap_dealloc (self : Bitmap) (bit : Z) : prog () :=
  let '(block_pos, bits64_pos, inner_pos) := decomposition bit in
  block_modify BitmapBlock (block_pos + bitmap_start_block_id self)%usize 0
    (λ bitmap_block,
      bits64 ← prog_lift (vec_get bitmap_block bits64_pos);
      _ ← prog_assert (bool_decide (0 < Z.land bits64 (1 ≪ inner_pos)%usize));
      bitmap_block' ← prog_lift (vec_set bitmap_block bits64_pos (bits64 - (1 ≪ inner_pos))%usize);
      mret (tt, bitmap_block')).

Definition Bitmap_maximum (self : Bitmap) : Z := (bitmap_blocks self * BLOCK_BITS)%usize.

(** * Bits of a block *)

Definition wbit (ws : list Z) (j : Z) : bool :=
  Z.testbit (default 0 (ws !! Z.to_nat (j / 64))) (j mod 64).

Definition block_bit (d : list Z) (j : Z) : bool := wbit (words 8 64 d) j.

Lemma trailing_ones_in_spec n x :
  0 ≤ x < 2 ^ Z.of_nat n → x ≠ 2 ^ Z.of_nat n - 1 →
  0 ≤ trailing_ones_in n x < Z.of_nat n ∧
  Z.testbit x (trailing_ones_in n x) = false ∧
  ∀ i, 0 ≤ i < trailing_ones_in n x → Z.testbit x i = true.
Proof.
  revert x. induction n as [|n IH]; intros x Hx Hne.
  { change (2 ^ Z.of_nat 0) with 1 in *. lia. }
  cbn [trailing_ones_in]. rewrite Nat2Z.inj_succ, Z.pow_succ_r in * by lia.
  destruct (Z.odd x) eqn:Ho.
  - assert (x = 2 * (x / 2) + 1) as Hx2.
    { pose proof (Z.div_mod x 2). pose proof (Zmod_odd x) as Hm. rewrite Ho in Hm. lia. }
    generalize dependent (x / 2). intros y ->.
    destruct (IH y) as ([? ?] & Hf & Ht); [lia..|]. split; [lia|]. split.
    + replace (1 + _) with (Z.succ (trailing_ones_in n y)) by lia.
      by rewrite Z.testbit_odd_succ by lia.
    + intros i Hi. destruct (decide (i = 0)) as [->|Hi0]; [by rewrite Z.testbit_odd_0|].
      replace i with (Z.succ (i - 1)) by lia. rewrite Z.testbit_odd_succ by lia. apply Ht. lia.
  - split; [lia|]. split; [by rewrite Z.bit0_odd|lia].
Qed.

Lemma testbit_pow2 k i : 0 ≤ k → Z.testbit (2 ^ k) i = bool_decide (k = i).
Proof. intros. rewrite Z.pow2_bits_eqb by done. by case_bool_decide; [apply Z.eqb_eq|apply Z.eqb_neq]. Qed.

Lemma shl_1 k : 0 ≤ k < 64 → (1 ≪ k)%usize = 2 ^ k.
Proof.
  intros Hk. rewrite shl_w_small; [lia|lia|]. unfold fits. split; [lia|].
  rewrite Z.mul_1_l. apply Z.pow_lt_mono_r; lia.
Qed.

(** Updating one word changes one bit. *)
Lemma wbit_update ws (i k : Z) (w w' : Z) (v : bool) :
  ws !! Z.to_nat i = Some w → 0 ≤ i → 0 ≤ k < 64 →
  (∀ t, 0 ≤ t → Z.testbit w' t = if decide (t = k) then v else Z.testbit w t) →
  ∀ j, 0 ≤ j →
  wbit (<[Z.to_nat i := w']> ws) j = if decide (j = i * 64 + k) then v else wbit ws j.
Proof.
  intros Hw Hi Hk Hb j Hj. unfold wbit.
  pose proof (Z.div_mod j 64 ltac:(lia)). pose proof (Z.mod_pos_bound j 64 ltac:(lia)).
  pose proof (lookup_lt_Some _ _ _ Hw).
  destruct (decide (j / 64 = i)) as [Hji|Hji].
  - rewrite Hji, list_lookup_insert_eq, Hw by done. simpl. rewrite Hb by lia.
    destruct (decide (j mod 64 = k)); [rewrite decide_True by lia|rewrite decide_False by lia]; done.
  - rewrite list_lookup_insert_ne by lia. by rewrite decide_False by lia.
Qed.

Lemma words_valid_insert w n ws i x :
  words_valid w n ws → fits (8 * Z.of_nat w) x → words_valid w n (<[i := x]> ws).
Proof.
  intros [Hl Hf] Hx. split; [by rewrite length_insert|]. by apply Forall_insert.
Qed.

Lemma wbit_lor w k t : 0 ≤ k < 64 → 0 ≤ t →
  Z.testbit (Z.lor w (2 ^ k)) t = if decide (t = k) then true else Z.testbit w t.
Proof.
  intros. rewrite Z.lor_spec, testbit_pow2 by lia. case_bool_decide; destruct (decide (t = k)); try lia.
  all: by rewrite ?orb_true_r, ?orb_false_r.
Qed.

Lemma land_pow2_pos w k : 0 ≤ k → 0 < Z.land w (2 ^ k) ↔ Z.testbit w k = true.
Proof.
  intros Hk. assert (Z.land w (2 ^ k) = if Z.testbit w k then 2 ^ k else 0) as ->.
  { apply Z.bits_inj'. intros t Ht. rewrite Z.land_spec, testbit_pow2 by done.
    case_bool_decide as Hkt; subst.
    - destruct (Z.testbit w t) eqn:E; [by rewrite testbit_pow2, bool_decide_eq_true_2|by rewrite Z.bits_0].
    - rewrite andb_false_r. destruct (Z.testbit w k); [|by rewrite Z.bits_0].
      by rewrite testbit_pow2, bool_decide_eq_false_2. }
  destruct (Z.testbit w k); [|done]. split; [done|]. lia.
Qed.

Lemma wbit_sub w k t : 0 ≤ k < 64 → 0 ≤ t → fits 64 w → Z.testbit w k = true →
  Z.testbit (w - 2 ^ k)%usize t = (if decide (t = k) then false else Z.testbit w t) ∧
  fits 64 (w - 2 ^ k)%usize.
Proof.
  intros Hk Ht Hw Hb.
  assert (w - 2 ^ k = Z.ldiff w (2 ^ k)) as Hd.
  { apply Z.sub_nocarry_ldiff. apply Z.bits_inj'. intros i Hi.
    rewrite Z.ldiff_spec, testbit_pow2, Z.bits_0 by lia. case_bool_decide; [|done]. subst i. by rewrite Hb. }
  assert (2 ^ k ≤ w).
  { assert (0 ≤ Z.ldiff w (2 ^ k)) by (apply Z.ldiff_nonneg; unfold fits in Hw; lia). lia. }
  assert (0 < 2 ^ k) by lia. unfold fits in Hw.
  rewrite sub_w_small by (unfold fits; lia). split; [|unfold fits; lia].
  rewrite Hd, Z.ldiff_spec, testbit_pow2 by lia. case_bool_decide; destruct (decide (t = k)); try lia.
  all: by rewrite ?andb_false_r, ?andb_true_r.
Qed.

(** A full word. *)
Lemma testbit_max t : 0 ≤ t < 64 → Z.testbit u64_MAX t = true.
Proof.
  intros Ht. change u64_MAX with (Z.ones 64). by apply Z.ones_spec_low.
Qed.

(** The closure of [alloc] takes the lowest clear bit of the block, if there is one. *)
Lemma alloc_in_block_spec k ws :
  words_valid 8 64 ws → 0 ≤ k < 2 ^ 52 - 1 →
  match alloc_in_block k ws with
  | (None, ws') => ws' = ws ∧ ∀ j, 0 ≤ j < 4096 → wbit ws j = true
  | (Some n, ws') => words_valid 8 64 ws' ∧
      ∃ j, n = k * 4096 + j ∧ 0 ≤ j < 4096 ∧ wbit ws j = false ∧
        (∀ i, 0 ≤ i < j → wbit ws i = true) ∧
        ∀ i, 0 ≤ i → wbit ws' i = if decide (i = j) then true else wbit ws i
  end.
Proof.
  intros [Hl Hf] Hk. unfold alloc_in_block.
  assert (∀ (i : nat) w, ws !! i = Some w → fits 64 w) as Hfits
    by (intros i w Hw; exact (proj1 (Forall_lookup _ _) Hf i w Hw)).
  destruct (list_find _ ws) as [[i w]|] eqn:Hfind.
  - apply list_find_Some in Hfind as (Hw & Hne & Hbefore).
    pose proof (lookup_lt_Some _ _ _ Hw) as Hi. pose proof (Hfits _ _ Hw) as Hwf.
    destruct (trailing_ones_in_spec 64 w Hwf Hne) as (Ht & Hbit & Hlow).
    fold (trailing_ones w) in *. set (t := trailing_ones w) in *. change (Z.of_nat 64) with 64 in Ht.
    rewrite shl_1 by done. split.
    + apply words_valid_insert; [done|]. apply lor_fits; [lia|done|].
      split; [lia|]. apply Z.pow_lt_mono_r; lia.
    + exists (Z.of_nat i * 64 + t). unfold BLOCK_BITS, BLOCK_SZ. split.
      { rewrite !mul_w_small, !add_w_small by (rewrite ?mul_w_small, ?add_w_small; unfold fits; lia). lia. }
      split; [lia|]. split; [|split].
      * unfold wbit. rewrite Z.div_add_l, Z.div_small, Z.add_0_r, Nat2Z.id, Hw by lia. simpl.
        by rewrite Z.add_comm, Z_mod_plus_full, Z.mod_small by lia.
      * intros j Hj. unfold wbit. pose proof (Z.div_mod j 64 ltac:(lia)).
        pose proof (Z.mod_pos_bound j 64 ltac:(lia)).
        destruct (decide (j / 64 = Z.of_nat i)) as [Hji|Hji].
        -- rewrite Hji, Nat2Z.id, Hw. simpl. apply Hlow. lia.
        -- destruct (lookup_lt_is_Some_2 ws (Z.to_nat (j / 64))) as [w' Hw']; [lia|].
           rewrite Hw'. simpl. assert (w' = u64_MAX) as ->; [|by apply testbit_max].
           destruct (decide (w' = u64_MAX)); [done|]. exfalso. by apply (Hbefore _ _ Hw'); [lia|].
      * intros j Hj. rewrite <- (Nat2Z.id i) at 1.
        apply (wbit_update ws (Z.of_nat i) t w); [by rewrite Nat2Z.id|lia|lia| |done].
        intros. by apply wbit_lor.
  - apply list_find_None in Hfind. split; [done|]. intros j Hj. unfold wbit.
    destruct (lookup_lt_is_Some_2 ws (Z.to_nat (j / 64))) as [w' Hw'].
    { pose proof (Z.div_lt_upper_bound j 64 64). pose proof (Z.div_pos j 64). lia. }
    rewrite Hw'. simpl. apply (proj1 (Forall_lookup _ _) Hfind) in Hw'.
    destruct (decide (w' = u64_MAX)) as [->|]; [|done]. apply testbit_max. by apply Z.mod_pos_bound.
Qed.

(** * The region as a set of allocated bits *)

Definition bitmap_wf (bm : Bitmap) : Prop :=
  0 ≤ bitmap_start_block_id bm ∧ 0 ≤ bitmap_blocks bm ∧
  bitmap_start_block_id bm + bitmap_blocks bm < 2 ^ 51.

Definition in_bitmap (bm : Bitmap) (b : Z) : Prop :=
  bitmap_start_block_id bm ≤ b < bitmap_start_block_id bm + bitmap_blocks bm.

Record bitmap_is (bm : Bitmap) (bl : gmap Z (list Z)) (s : gset Z) : Prop := {
  bits_range n : n ∈ s → 0 ≤ n < bitmap_blocks bm * 4096;
  bits_block k : 0 ≤ k < bitmap_blocks bm →
    ∃ d, bl !! (bitmap_start_block_id bm + k) = Some d ∧ block_wf d ∧
      ∀ j, 0 ≤ j < 4096 → k * 4096 + j ∈ s ↔ block_bit d j = true;
}.

(** Nothing of the bitmap is held and one more block can be held. *)
Definition bitmap_free (bm : Bitmap) (h : gset Z) : Prop :=
  (size h < BLOCK_CACHE_SIZE)%nat ∧ ∀ b, in_bitmap bm b → b ∉ h.

(** Blocks outside the region are the same. *)
Definition same_outside (P : Z → Prop) (bl bl' : gmap Z (list Z)) : Prop :=
  ∀ b, ¬ P b → bl' !! b = bl !! b.

Section Region.
Context (bm : Bitmap) (Hwf : bitmap_wf bm).
Implicit Types (h : gset Z) (bl : gmap Z (list Z)) (s : gset Z).

Lemma decode_BitmapBlock d :
  block_wf d → decode BitmapBlock (slice d 0 (Z.of_nat (size_of BitmapBlock))) = Some (words 8 64 d).
Proof.
  intros [Hl _]. change (Z.of_nat (size_of BitmapBlock)) with 512. rewrite slice_whole by done.
  reflexivity.
Qed.

Lemma encode_BitmapBlock d ws :
  block_wf d → words_valid 8 64 ws →
  let d' := splice d 0 (encode BitmapBlock ws (slice d 0 (Z.of_nat (size_of BitmapBlock)))) in
  d' = words_bytes 8 ws ∧ block_wf d' ∧ words 8 64 d' = ws.
Proof.
  intros Hd Hws. cbv zeta. simpl encode. simpl size_of. destruct Hws as [Hl Hf].
  assert (length (words_bytes 8 ws) = 512%nat) as Hlen by (rewrite length_words_bytes; lia).
  rewrite splice_whole; [|apply Hd|done]. split; [done|]. split; [split; [done|apply words_bytes_bytes]|].
  rewrite <- Hl. by apply words_words_bytes.
Qed.

Lemma words_valid_block d : block_wf d → words_valid 8 64 (words 8 64 d).
Proof. intros [? ?]. split; [apply length_words|by apply words_fits]. Qed.

(** Replacing one block of the region by one that differs in bit [j]. *)
Lemma bitmap_is_update bl s k d ws j (v : bool) :
  bitmap_is bm bl s → 0 ≤ k < bitmap_blocks bm → 0 ≤ j < 4096 →
  bl !! (bitmap_start_block_id bm + k) = Some d → block_wf d →
  (∀ i, 0 ≤ i → wbit ws i = if decide (i = j) then v else block_bit d i) →
  words_valid 8 64 ws →
  bitmap_is bm (<[bitmap_start_block_id bm + k := words_bytes 8 ws]> bl)
    (if v then {[k * 4096 + j]} ∪ s else s ∖ {[k * 4096 + j]}).
Proof.
  intros [Hr Hb] Hk Hj Hd Hdw Hbits Hws. split.
  - intros n Hn. destruct v; set_unfold; [|naive_solver].
    destruct Hn as [->|Hn]; [nia|by apply Hr].
  - intros k' Hk'. destruct (Hb k' Hk') as (d' & Hd' & Hdw' & Hbit).
    rewrite lookup_insert. case_decide as Hkk.
    + assert (k' = k) as -> by lia. assert (d' = d) as -> by congruence.
      destruct (encode_BitmapBlock d ws Hdw Hws) as (He & Hw' & Hwo). rewrite He in Hw', Hwo.
      exists (words_bytes 8 ws). split; [done|]. split; [done|].
      intros i Hi. unfold block_bit. rewrite Hwo, Hbits by lia. specialize (Hbit i Hi).
      clear -Hbit Hi. destruct v; case_decide; set_unfold.
      * split; [done|]. intros _. left. lia.
      * rewrite Hbit. split; [intros [?|?]; [lia|done]|by right].
      * split; [|done]. intros [_ []]. lia.
      * rewrite Hbit. split; [by intros [? _]|]. intros ?. split; [done|lia].
    + exists d'. split; [done|]. split; [done|]. intros i Hi. specialize (Hbit i Hi).
      destruct v; set_unfold; rewrite <- Hbit; intuition lia.
Qed.

Definition alloc_post bl s (r : option Z) bl' : Prop :=
  match r with
  | None => bl' = bl ∧ ∀ n, 0 ≤ n < bitmap_blocks bm * 4096 → n ∈ s
  | Some n => 0 ≤ n < bitmap_blocks bm * 4096 ∧ (n ∉ s) ∧ (∀ i, 0 ≤ i < n → i ∈ s) ∧
      bitmap_is bm bl' ({[n]} ∪ s) ∧ same_outside (in_bitmap bm) bl bl'
  end.

Lemma Bitmap_alloc_loop_ok h bl s k :
  bitmap_is bm bl s → bitmap_free bm h → 0 ≤ k ≤ bitmap_blocks bm →
  (∀ n, 0 ≤ n < k * 4096 → n ∈ s) →
  wp h (Bitmap_alloc_loop bm (seqZ k (bitmap_blocks bm - k))) bl (alloc_post bl s).
Proof.
  intros Hbm [Hh Hfree] Hk Hbefore.
  remember (Z.to_nat (bitmap_blocks bm - k)) as m eqn:Hm. revert k Hk Hbefore Hm.
  induction m as [|m IH]; intros k Hk Hbefore Hm.
  { rewrite seqZ_nil by lia. apply wp_ret. split; [done|]. intros n Hn. apply Hbefore. lia. }
  rewrite seqZ_cons by lia. cbn [Bitmap_alloc_loop]. apply wp_bind.
  destruct Hwf as (Hw1 & Hw2 & Hw3).
  destruct (bits_block _ _ _ Hbm k ltac:(lia)) as (d & Hd & Hdw & Hbit).
  rewrite add_w_small by (unfold fits; lia). rewrite (Z.add_comm k).
  eapply (wp_modify BitmapBlock _ _ 0 _ bl d).
  { split; [|done]. apply Hfree. unfold in_bitmap. lia. }
  { apply Hdw. } { done. } { done. } { by apply decode_BitmapBlock. }
  apply wp_ret. pose proof (alloc_in_block_spec k (words 8 64 d) (words_valid_block d Hdw) ltac:(lia)) as Hs.
  destruct (alloc_in_block k (words 8 64 d)) as [[n|] ws'].
  - destruct Hs as (Hws & j & -> & Hj & Hjf & Hjl & Hju). split; [done|].
    destruct (encode_BitmapBlock d ws' Hdw Hws) as (He & _). cbn [fst snd]. rewrite He.
    apply wp_ret. split; [nia|]. split; [unfold block_bit in Hbit; by rewrite Hbit, Hjf by done|]. split.
    + intros i Hi. destruct (decide (i < k * 4096)); [apply Hbefore; lia|].
      replace i with (k * 4096 + (i - k * 4096)) by lia. apply Hbit; [lia|]. apply Hjl. lia.
    + split; [apply (bitmap_is_update bl s k d ws' j true); done || lia|].
      intros b Hb. apply lookup_insert_ne. unfold in_bitmap in Hb. lia.
  - destruct Hs as [-> Hall]. split; [by apply words_valid_block|]. cbn [fst snd].
    destruct (encode_BitmapBlock d _ Hdw (words_valid_block d Hdw)) as (He & _). rewrite He.
    rewrite words_bytes_words by apply Hdw. rewrite insert_id by done.
    replace (bitmap_start_block_id bm + k) with (k + bitmap_start_block_id bm) by lia.
    replace (Z.succ k) with (k + 1) by lia. replace (Z.pred _) with (bitmap_blocks bm - (k + 1)) by lia.
    apply IH; [lia| |lia]. intros n Hn. destruct (decide (n < k * 4096)); [apply Hbefore; lia|].
    replace n with (k * 4096 + (n - k * 4096)) by lia. apply Hbit; [lia|]. apply Hall. lia.
Qed.

Lemma Bitmap_alloc_ok h bl s :
  bitmap_is bm bl s → bitmap_free bm h → wp h (Bitmap_alloc bm) bl (alloc_post bl s).
Proof.
  intros Hbm Hh. unfold Bitmap_alloc. replace (bitmap_blocks bm) with (bitmap_blocks bm - 0) at 1 by lia.
  destruct Hwf as (? & ? & ?). apply Bitmap_alloc_loop_ok; [done|done|lia|lia].
Qed.

(** The number of a bit and its position. *)
Lemma decomposition_eq n : 0 ≤ n →
  let '(block_pos, bits64_pos, inner_pos) := decomposition n in
  n = block_pos * 4096 + (bits64_pos * 64 + inner_pos) ∧
  0 ≤ block_pos ∧ 0 ≤ bits64_pos < 64 ∧ 0 ≤ inner_pos < 64.
Proof.
  intros Hn. unfold decomposition, BLOCK_BITS, BLOCK_SZ. change (512 * 8) with 4096.
  pose proof (Z.div_mod n 4096 ltac:(lia)). pose proof (Z.mod_pos_bound n 4096 ltac:(lia)).
  pose proof (Z.div_mod (n mod 4096) 64 ltac:(lia)). pose proof (Z.mod_pos_bound (n mod 4096) 64 ltac:(lia)).
  lia.
Qed.

Lemma Bitmap_dealloc_ok h bl s n :
  bitmap_is bm bl s → bitmap_free bm h → n ∈ s →
  wp h (Bitmap_dealloc bm n) bl (λ _ bl',
    bitmap_is bm bl' (s ∖ {[n]}) ∧ same_outside (in_bitmap bm) bl bl').
Proof.
  intros Hbm [Hh Hfree] Hn. pose proof (bits_range _ _ _ Hbm n Hn) as Hrange.
  unfold Bitmap_dealloc. pose proof (decomposition_eq n ltac:(lia)) as Hdec.
  destruct (decomposition n) as [[k w] t]. destruct Hdec as (Hneq & Hk & Hw & Ht).
  destruct Hwf as (Hw1 & Hw2 & Hw3). assert (k < bitmap_blocks bm) by lia.
  destruct (bits_block _ _ _ Hbm k ltac:(lia)) as (d & Hd & Hdw & Hbit).
  rewrite add_w_small by (unfold fits; lia). rewrite (Z.add_comm k).
  eapply (wp_modify BitmapBlock _ _ 0 _ bl d).
  { split; [|done]. apply Hfree. unfold in_bitmap. lia. }
  { apply Hdw. } { done. } { done. } { by apply decode_BitmapBlock. }
  destruct (words_valid_block d Hdw) as [Hwl Hwf'].
  destruct (lookup_lt_is_Some_2 (words 8 64 d) (Z.to_nat w)) as [x Hx]; [lia|].
  assert (fits 64 x) as Hxf by exact (proj1 (Forall_lookup _ _) Hwf' _ _ Hx).
  assert (Z.testbit x t = true) as Hxt.
  { specialize (Hbit (w * 64 + t) ltac:(lia)). rewrite <- Hneq in Hbit. apply Hbit in Hn.
    unfold block_bit, wbit in Hn. rewrite Z.div_add_l, Z.div_small, Z.add_0_r, Hx in Hn by lia. simpl in Hn.
    by rewrite Z.add_comm, Z_mod_plus_full, Z.mod_small in Hn by lia. }
  rewrite shl_1 by done. apply (wp_lift _ _ x); [by unfold vec_get; rewrite Hx|].
  apply wp_assert; [by apply bool_decide_eq_true_2, land_pow2_pos; [lia|]|].
  eapply wp_lift; [unfold vec_set; by rewrite decide_True by lia|]. apply wp_ret.
  assert (words_valid 8 64 (<[Z.to_nat w := (x - 2 ^ t)%usize]> (words 8 64 d))) as Hws'.
  { apply words_valid_insert; [by apply words_valid_block|]. by apply (wbit_sub x t 0). }
  split; [done|]. cbn [fst snd]. destruct (encode_BitmapBlock d _ Hdw Hws') as (He & _). rewrite He. split.
  - rewrite Hneq. apply (bitmap_is_update bl s k d _ (w * 64 + t) false); [done|lia|lia|done|done| |done].
    apply (wbit_update _ w t x); [done|lia|lia|]. intros. by apply wbit_sub.
  - intros b Hb. apply lookup_insert_ne. unfold in_bitmap in Hb. lia.
Qed.

(** The bits determine the blocks. *)
Lemma block_bit_ext d d' :
  block_wf d → block_wf d' → (∀ j, 0 ≤ j < 4096 → block_bit d j = block_bit d' j) → d = d'.
Proof.
  intros Hd Hd' Hbit. rewrite <- (words_bytes_words 8 64 d), <- (words_bytes_words 8 64 d') by apply Hd || apply Hd'.
  f_equal. apply list_eq_same_length with 64%nat; [by rewrite !length_words..|].
  intros i x y Hi Hx Hy.
  assert (∀ ws z, words_valid 8 64 ws → ws !! i = Some z → fits 64 z) as Hfit
    by (intros ws z [_ Hf] Hz; exact (proj1 (Forall_lookup _ _) Hf _ _ Hz)).
  pose proof (Hfit _ _ (words_valid_block d Hd) Hx). pose proof (Hfit _ _ (words_valid_block d' Hd') Hy).
  rewrite <- (wrap_small 64 x), <- (wrap_small 64 y) by done. unfold wrap.
  apply Z.bits_inj'. intros t Ht. destruct (decide (t < 64)).
  - rewrite !Z.mod_pow2_bits_low by lia. specialize (Hbit (Z.of_nat i * 64 + t) ltac:(lia)).
    unfold block_bit, wbit in Hbit.
    rewrite Z.div_add_l, Z.div_small, Z.add_0_r, Nat2Z.id, Hx, Hy in Hbit by lia.
    by rewrite Z.add_comm, Z_mod_plus_full, Z.mod_small in Hbit by lia.
  - by rewrite !Z.mod_pow2_bits_high by lia.
Qed.

Lemma bitmap_is_ext bl bl' s :
  bitmap_is bm bl s → bitmap_is bm bl' s → same_outside (in_bitmap bm) bl bl' → bl' = bl.
Proof.
  intros [_ Hb] [_ Hb'] Hout. apply map_eq. intros b.
  destruct (decide (bitmap_start_block_id bm ≤ b < bitmap_start_block_id bm + bitmap_blocks bm)) as [Hin|];
    [|by apply Hout].
  replace b with (bitmap_start_block_id bm + (b - bitmap_start_block_id bm)) by lia.
  destruct (Hb (b - bitmap_start_block_id bm)) as (d & Hd & Hw & Hbit); [lia|].
  destruct (Hb' (b - bitmap_start_block_id bm)) as (d' & Hd' & Hw' & Hbit'); [lia|].
  rewrite Hd, Hd'. f_equal. apply block_bit_ext; [done|done|]. intros j Hj.
  specialize (Hbit j Hj). specialize (Hbit' j Hj). rewrite Hbit in Hbit'.
  destruct (block_bit d j), (block_bit d' j); naive_solver.
Qed.

Lemma Bitmap_dealloc_clear h bl s n :
  bitmap_is bm bl s → bitmap_free bm h → 0 ≤ n < bitmap_blocks bm * 4096 → n ∉ s →
  run_flat (Bitmap_dealloc bm n) (MkFlat bl h) = Err Panic.
Proof.
  intros Hbm [Hh Hfree] Hrange Hn.
  unfold Bitmap_dealloc. pose proof (decomposition_eq n ltac:(lia)) as Hdec.
  destruct (decomposition n) as [[k w] t]. destruct Hdec as (Hneq & Hk & Hw & Ht).
  destruct Hwf as (Hw1 & Hw2 & Hw3). assert (k < bitmap_blocks bm) by lia.
  destruct (bits_block _ _ _ Hbm k ltac:(lia)) as (d & Hd & Hdw & Hbit).
  rewrite add_w_small by (unfold fits; lia). rewrite (Z.add_comm k).
  eapply (run_modify_err BitmapBlock _ _ 0 _ bl d).
  { split; [|done]. apply Hfree. unfold in_bitmap. lia. }
  { done. } { done. } { by apply decode_BitmapBlock. }
  destruct (words_valid_block d Hdw) as [Hwl Hwf'].
  destruct (lookup_lt_is_Some_2 (words 8 64 d) (Z.to_nat w)) as [x Hx]; [lia|].
  unfold vec_get. rewrite Hx, shl_1 by done. rewrite run_flat_bind. simpl unwrap. cbn [prog_lift run_flat].
  rewrite run_flat_bind. unfold prog_assert. rewrite bool_decide_eq_false_2; [done|].
  rewrite land_pow2_pos by lia. intros Hxt. apply Hn. rewrite Hneq. apply Hbit; [lia|].
  unfold block_bit, wbit. rewrite Z.div_add_l, Z.div_small, Z.add_0_r, Hx by lia. simpl.
  by rewrite Z.add_comm, Z_mod_plus_full, Z.mod_small by lia.
Qed.
End Region.

(** * Properties *)

(** C39: [Bitmap::alloc] returns the lowest free bit of the region and marks exactly
    that bit, or returns [None] exactly when every bit is taken, changing nothing; blocks
    outside the region are untouched. *)
Theorem bitmap_alloc_lowest (bm : Bitmap) (h s : gset Z) (bl : gmap Z (list Z))
    (Hwf : bitmap_wf bm) (Hbits : bitmap_is bm bl s) (Hfree : bitmap_free bm h) :
  ∃ r bl', run_flat (Bitmap_alloc bm) (MkFlat bl h) = Ok (r, MkFlat bl' h) ∧
    match r with
    | None => bl' = bl ∧ ∀ n, 0 ≤ n < Bitmap_maximum bm → n ∈ s
    | Some n => 0 ≤ n < Bitmap_maximum bm ∧ (n ∉ s) ∧ (∀ i, 0 ≤ i < n → i ∈ s) ∧
        bitmap_is bm bl' ({[n]} ∪ s) ∧ same_outside (in_bitmap bm) bl bl'
    end.
Proof.
  assert (Bitmap_maximum bm = bitmap_blocks bm * 4096) as ->
    by (apply mul_w_small; unfold fits, bitmap_wf in *; change BLOCK_BITS with 4096; lia).
  exact (Bitmap_alloc_ok bm Hwf h bl s Hbits Hfree).
Qed.

(** Deallocating the bit that was just allocated restores the disk, byte for byte. *)
Theorem bitmap_alloc_dealloc (bm : Bitmap) (h s : gset Z) (bl : gmap Z (list Z))
    (Hwf : bitmap_wf bm) (Hbits : bitmap_is bm bl s) (Hfree : bitmap_free bm h)
    (Hroom : ∃ n, 0 ≤ n < bitmap_blocks bm * 4096 ∧ n ∉ s) :
  run_flat (r ← Bitmap_alloc bm; n ← prog_lift (unwrap r); Bitmap_dealloc bm n) (MkFlat bl h)
    = Ok (tt, MkFlat bl h).
Proof.
  rewrite run_flat_bind.
  destruct (Bitmap_alloc_ok bm Hwf h bl s Hbits Hfree) as (r & bl' & -> & Hr).
  destruct r as [n|]; [|destruct Hroom as (n & ? & Hn); exfalso; apply Hn; by apply Hr].
  destruct Hr as (Hn & Hns & _ & Hbm' & Hout). rewrite run_flat_bind. cbn [unwrap prog_lift run_flat].
  destruct (Bitmap_dealloc_ok bm Hwf h bl' _ n Hbm' Hfree) as ([] & bl'' & -> & Hbm'' & Hout'); [set_solver|].
  do 3 f_equal. apply (bitmap_is_ext bm bl bl'' s); [done| |].
  - by replace s with (({[n]} ∪ s) ∖ {[n]}) by set_solver.
  - intros b Hb. by rewrite Hout', Hout.
Qed.

(** Freeing a bit that is not allocated panics. *)
Theorem bitmap_double_free (bm : Bitmap) (h s : gset Z) (bl : gmap Z (list Z)) (n : Z)
    (Hwf : bitmap_wf bm) (Hbits : bitmap_is bm bl s) (Hfree : bitmap_free bm h)
    (Hrange : 0 ≤ n < bitmap_blocks bm * 4096) (Hn : n ∉ s) :
  run_flat (Bitmap_dealloc bm n) (MkFlat bl h) = Err Panic.
Proof. exact (Bitmap_dealloc_clear bm Hwf h bl s n Hbits Hfree Hrange Hn). Qed.

(** A one-block bitmap with the bits 0, 1 and 3 taken. *)
Definition demo_bitmap : Bitmap := MkBitmap 1 1.
Definition demo_bitmap_disk : gmap Z (list Z) := {[1 := 11 :: replicate 511 0]}.
Definition demo_bits : gset Z := {[0; 1; 3]}.

Lemma demo_bitmap_wf : bitmap_wf demo_bitmap.
Proof. unfold bitmap_wf. simpl. lia. Qed.

Lemma demo_bitmap_is : bitmap_is demo_bitmap demo_bitmap_disk demo_bits.
Proof.
  split.
  - intros n Hn. change (bitmap_blocks demo_bitmap * 4096) with 4096. unfold demo_bits in Hn. set_solver by lia.
  - intros k Hk. change (bitmap_blocks demo_bitmap) with 1 in Hk. assert (k = 0) as -> by lia.
    exists (11 :: replicate 511 0). split; [reflexivity|]. split.
    + split; [reflexivity|]. apply (bool_decide_unpack _). vm_compute. done.
    + intros j Hj. rewrite Z.mul_0_l, Z.add_0_l.
      assert (Forall (λ j, bool_decide (j ∈ demo_bits) = block_bit (11 :: replicate 511 0) j) (seqZ 0 4096)) as Hall
        by (apply (bool_decide_unpack _); vm_compute; done).
      rewrite Forall_forall in Hall. rewrite <- Hall by (apply elem_of_seqZ; lia).
      symmetry. apply bool_decide_eq_true.
Qed.

Lemma demo_bitmap_free : bitmap_free demo_bitmap ∅.
Proof. split; [vm_compute; lia|]. set_solver. Qed.

Lemma bitmap_alloc_lowest_witness :
  ∃ r bl', run_flat (Bitmap_alloc demo_bitmap) (MkFlat demo_bitmap_disk ∅) = Ok (r, MkFlat bl' ∅) ∧ r = Some 2.
Proof.
  destruct (bitmap_alloc_lowest demo_bitmap ∅ demo_bits demo_bitmap_disk
    demo_bitmap_wf demo_bitmap_is demo_bitmap_free) as (r & bl' & H & _).
  exists r, bl'. split; [exact H|]. vm_compute in H. congruence.
Defined.

Lemma bitmap_alloc_dealloc_witness :
  run_flat (r ← Bitmap_alloc demo_bitmap; n ← prog_lift (unwrap r); Bitmap_dealloc demo_bitmap n)
    (MkFlat demo_bitmap_disk ∅) = Ok (tt, MkFlat demo_bitmap_disk ∅).
Proof.
  apply (bitmap_alloc_dealloc demo_bitmap ∅ demo_bits demo_bitmap_disk
    demo_bitmap_wf demo_bitmap_is demo_bitmap_free).
  exists 2. split; [vm_compute; split; congruence|]. apply (bool_decide_unpack _). vm_compute. exact I.
Defined.

Lemma bitmap_double_free_witness :
  run_flat (Bitmap_dealloc demo_bitmap 2) (MkFlat demo_bitmap_disk ∅) = Err Panic.
Proof.
  apply (bitmap_double_free demo_bitmap ∅ demo_bits demo_bitmap_disk 2
    demo_bitmap_wf demo_bitmap_is demo_bitmap_free).
  - vm_compute. split; congruence.
  - apply (bool_decide_unpack _). vm_compute. exact I.
Defined.
