(* ===== verification/Layout.v ===== *)
(** On-disk structures ([easy-fs/src/layout.rs]): the super block, disk inodes with their
    direct, indirect and doubly indirect block lists, and directory entries. *)

From S2P Require Import Prelude BlockDev BlockCache BlockAccess.

Definition EFS_MAGIC : Z := 0x3b800001.
Definition INODE_DIRECT_COUNT : Z := 28.
Definition NAME_LENGTH_LIMIT : Z := 27.
Definition INODE_INDIRECT1_COUNT : Z := BLOCK_SZ / 4.
Definition INODE_INDIRECT2_COUNT : Z := INODE_INDIRECT1_COUNT * INODE_INDIRECT1_COUNT.
Definition INDIRECT1_BOUND : Z := INODE_DIRECT_COUNT + INODE_INDIRECT1_COUNT.

(** * The super block *)

Record SuperBlock := MkSuperBlock {
  sb_magic : Z;
  sb_total_blocks : Z;
  sb_inode_bitmap_blocks : Z;
  sb_inode_area_blocks : Z;
  sb_data_bitmap_blocks : Z;
  sb_data_area_blocks : Z
}.

Definition SuperBlock_initialize (total_blocks inode_bitmap_blocks inode_area_blocks
    data_bitmap_blocks data_area_blocks : Z) : SuperBlock :=
  MkSuperBlock EFS_MAGIC total_blocks inode_bitmap_blocks inode_area_blocks
    data_bitmap_blocks data_area_blocks.

Definition SuperBlock_is_valid (self : SuperBlock) : bool := bool_decide (sb_magic self = EFS_MAGIC).

Definition SuperBlock_words (sb : SuperBlock) : list Z :=
  [sb_magic sb; sb_total_blocks sb; sb_inode_bitmap_blocks sb; sb_inode_area_blocks sb;
   sb_data_bitmap_blocks sb; sb_data_area_blocks sb].

Definition SuperBlock_of_words (ws : list Z) : option SuperBlock :=
  match ws with
  | [magic; total; ibitmap; iarea; dbitmap; darea] =>
      Some (MkSuperBlock magic total ibitmap iarea dbitmap darea)
  | _ => None
  end.

(** [#[repr(C)]]: six [u32] fields. *)
Program Definition SuperBlock_repr : Repr SuperBlock := {|
  size_of := 24;
  decode bs := SuperBlock_of_words (words 4 6 bs);
  encode sb _ := words_bytes 4 (SuperBlock_words sb);
  repr_valid sb := Forall (fits 32) (SuperBlock_words sb);
|}.
Next Obligation. lia. Qed.
Next Obligation. intros sb bs _ _. exact (length_words_bytes 4 (SuperBlock_words sb)). Qed.
Next Obligation. intros. apply words_bytes_bytes. Qed.
Next Obligation.
  intros sb bs Hv _. cbn beta. change 6%nat with (length (SuperBlock_words sb)).
  rewrite words_words_bytes by exact Hv. by destruct sb.
Qed.
Next Obligation. intros bs x Hb Hl [= <-]. exact (words_fits 4 6 bs Hb Hl). Qed.
Next Obligation. intros bs x Hb Hl [= <-]. exact (words_bytes_words 4 6 bs Hb Hl). Qed.

(** * Disk inodes *)

Inductive DiskInodeType := File | Directory.
#[export] Instance DiskInodeType_eq_dec : EqDecision DiskInodeType.
Proof. solve_decision. Defined.

Record DiskInode := MkDiskInode {
  di_size : Z;
  di_direct : list Z;
  di_indirect1 : Z;
  di_indirect2 : Z;
  di_type : DiskInodeType
}.

Definition type_byte (t : DiskInodeType) : Z := match t with File => 0 | Directory => 1 end.
Definition byte_type (b : Z) : option DiskInodeType :=
  if decide (b = 0) then Some File else if decide (b = 1) then Some Directory else None.

Definition DiskInode_words (di : DiskInode) : list Z :=
  di_size di :: di_direct di ++ [di_indirect1 di; di_indirect2 di].

Definition DiskInode_of_words (ws : list Z) (t : DiskInodeType) : DiskInode :=
  MkDiskInode (ws !!! 0%nat) (take 28 (drop 1 ws)) (ws !!! 29%nat) (ws !!! 30%nat) t.

Definition DiskInode_valid (di : DiskInode) : Prop :=
  fits 32 (di_size di) ∧ words_valid 4 28 (di_direct di) ∧ fits 32 (di_indirect1 di) ∧
  fits 32 (di_indirect2 di).

Lemma DiskInode_words_of_words ws t :
  length ws = 31%nat → DiskInode_words (DiskInode_of_words ws t) = ws.
Proof. intros Hl. do 31 (destruct ws as [|? ws]; [done|]). by destruct ws. Qed.

Lemma DiskInode_of_words_words di :
  length (di_direct di) = 28%nat → DiskInode_of_words (DiskInode_words di) (di_type di) = di.
Proof.
  destruct di as [size direct i1 i2 t]. simpl. intros Hl.
  do 28 (destruct direct as [|? direct]; [done|]). by destruct direct.
Qed.

Lemma DiskInode_valid_words di :
  DiskInode_valid di ↔ words_valid 4 31 (DiskInode_words di).
Proof.
  unfold DiskInode_valid, words_valid, DiskInode_words.
  rewrite length_cons, length_app, Forall_cons, Forall_app, !Forall_cons. simpl.
  change (8 * Z.of_nat 4) with 32. intuition lia || done || apply Forall_nil.
Qed.

(** [#[repr(C)]]: 31 words, the tag byte and three bytes of padding, which stores keep. *)
Program Definition DiskInode_repr : Repr DiskInode := {|
  size_of := 128;
  decode bs := t ← byte_type (bs !!! 124%nat); Some (DiskInode_of_words (words 4 31 (take 124 bs)) t);
  encode di old := words_bytes 4 (DiskInode_words di) ++ type_byte (di_type di) :: drop 125 old;
  repr_valid := DiskInode_valid;
|}.

Next Obligation. lia. Qed.
Next Obligation.
  intros di bs Hv Hl. cbn beta. apply DiskInode_valid_words in Hv as [Hw _].
  rewrite length_app, length_words_bytes, Hw, length_cons, length_drop, Hl. done.
Qed.
Next Obligation.
  intros di bs Hv Hb. apply Forall_app. split; [apply words_bytes_bytes|]. constructor.
  - by destruct (di_type di).
  - by apply Forall_drop.
Qed.
Next Obligation.
  intros di bs Hv Hl. cbn beta. apply DiskInode_valid_words in Hv as Hw. destruct Hw as [Hlen Hf].
  assert (length (words_bytes 4 (DiskInode_words di)) = 124%nat) as H124
    by (rewrite length_words_bytes; lia).
  rewrite take_app_length' by done. rewrite list_lookup_total_middle by done.
  replace (byte_type (type_byte (di_type di))) with (Some (di_type di)) by by destruct (di_type di).
  cbn [mbind option_bind]. rewrite <- Hlen, words_words_bytes by exact Hf.
  f_equal. apply DiskInode_of_words_words. apply Hv.
Qed.
Next Obligation.
  intros bs x Hb Hl Hx. cbn beta in Hx. apply bind_Some in Hx as (t & _ & Hx). apply (inj Some) in Hx as <-.
  apply DiskInode_valid_words. rewrite DiskInode_words_of_words by apply length_words.
  split; [apply length_words|]. apply words_fits; [by apply Forall_take|]. rewrite length_take. lia.
Qed.
Next Obligation.
  intros bs x Hb Hl Hx. cbn beta in *. apply bind_Some in Hx as (t & Ht & Hx). apply (inj Some) in Hx as <-.
  rewrite DiskInode_words_of_words by apply length_words.
  rewrite words_bytes_words; [|by apply Forall_take|rewrite length_take; lia].
  assert (bs !! 124%nat = Some (type_byte t)) as H124.
  { destruct (lookup_lt_is_Some_2 bs 124) as [y Hy]; [lia|]. rewrite (list_lookup_total_correct _ _ _ Hy) in Ht.
    rewrite Hy. f_equal. unfold byte_type in Ht. repeat case_decide; naive_solver. }
  simpl di_type. rewrite <- (drop_S _ _ _ H124). apply take_drop.
Qed.

(** Assignments to the fields of an inode. *)
Definition set_size (di : DiskInode) (size : Z) : DiskInode :=
  MkDiskInode size (di_direct di) (di_indirect1 di) (di_indirect2 di) (di_type di).
Definition set_direct (di : DiskInode) (direct : list Z) : DiskInode :=
  MkDiskInode (di_size di) direct (di_indirect1 di) (di_indirect2 di) (di_type di).
Definition set_indirect1 (di : DiskInode) (b : Z) : DiskInode :=
  MkDiskInode (di_size di) (di_direct di) b (di_indirect2 di) (di_type di).
Definition set_indirect2 (di : DiskInode) (b : Z) : DiskInode :=
  MkDiskInode (di_size di) (di_direct di) (di_indirect1 di) b (di_type di).

(** [type IndirectBlock = [u32; BLOCK_SZ / 4]] *)
Definition IndirectBlock : Repr (list Z) := words_repr 4 128 ltac:(lia).

Definition DiskInode_initialize (self : DiskInode) (type_ : DiskInodeType) : DiskInode :=
  MkDiskInode 0 ((λ _, 0) <$> di_direct self) 0 0 type_.

Definition DiskInode_is_dir (self : DiskInode) : bool := bool_decide (di_type self = Directory).
Definition DiskInode_is_file (self : DiskInode) : bool := bool_decide (di_type self = File).

Definition data_blocks_of (size : Z) : Z := (size + BLOCK_SZ - 1)%u32 / BLOCK_SZ.
Definition DiskInode_data_blocks (self : DiskInode) : Z := data_blocks_of (di_size self).

Definition DiskInode_total_blocks (size : Z) : Z :=
  let data_blocks := data_blocks_of size in
  let total := data_blocks in
  let total := if decide (data_blocks > INODE_DIRECT_COUNT) then (total + 1)%usize else total in
  let total :=
    if decide (data_blocks > INDIRECT1_BOUND) then
      let total := (total + 1)%usize in
      (total + (data_blocks - INDIRECT1_BOUND + INODE_INDIRECT1_COUNT - 1)%usize
               / INODE_INDIRECT1_COUNT)%usize
    else total in
  wrap 32 total.

Definition DiskInode_blocks_num_needed (self : DiskInode) (new_size : Z) : res Z :=
  _ ← res_assert (bool_decide (new_size >= di_size self));
  mret (DiskInode_total_blocks new_size - DiskInode_total_blocks (di_size self))%u32.

Definition DiskInode_get_block_id (self : DiskInode) (inner_id : Z) : prog Z :=
  if decide (inner_id < INODE_DIRECT_COUNT) then prog_lift (vec_get (di_direct self) inner_id)
  else if decide (inner_id < INDIRECT1_BOUND) then
    block_read IndirectBlock (di_indirect1 self) 0 (λ indirect_block,
      prog_lift (vec_get indirect_block (inner_id - INODE_DIRECT_COUNT)%usize))
  else
    let last := (inner_id - INDIRECT1_BOUND)%usize in
    indirect1 ← block_read IndirectBlock (di_indirect2 self) 0 (λ indirect2,
      prog_lift (vec_get indirect2 (last / INODE_INDIRECT1_COUNT)));
    block_read IndirectBlock indirect1 0 (λ indirect1,
      prog_lift (vec_get indirect1 (last mod INODE_INDIRECT1_COUNT))).

(** [new_blocks.next().unwrap()] on the iterator of the remaining blocks *)
Definition next_block (new_blocks : list Z) : res (Z * list Z) :=
  match new_blocks with
  | [] => Err Panic
  | b :: rest => Ok (b, rest)
  end.

(** [while current < bound { arr[current] = new_blocks.next().unwrap(); current += 1; }],
    which runs [n = bound - current] times. *)
Fixpoint fill_blocks (n : nat) (arr : list Z) (current : Z) (new_blocks : list Z) :
    res (list Z * Z * list Z) :=
  match n with
  | O => mret (arr, current, new_blocks)
  | S n' =>
      '(b, rest) ← next_block new_blocks;
      arr' ← vec_set arr current b;
      fill_blocks n' arr' (current + 1)%u32 rest
  end.

(** The loop that fills the doubly indirect blocks from (a0, b0) to (a1, b1); it makes
    at most [n] iterations. *)
Fixpoint fill_indirect2 (n : nat) (a1 b1 : Z) (indirect2 : list Z) (a0 b0 : Z)
    (new_blocks : list Z) : prog (list Z) :=
  if bool_decide (a0 < a1) || (bool_decide (a0 = a1) && bool_decide (b0 < b1)) then
    match n with
    | O => Throw OutOfFuel
    | S n' =>
        '(indirect2, new_blocks) ←
          (if decide (b0 = 0) then
             '(b, rest) ← prog_lift (next_block new_blocks);
             indirect2 ← prog_lift (vec_set indirect2 a0 b);
             mret (indirect2, rest)
           else mret (indirect2, new_blocks));
        id ← prog_lift (vec_get indirect2 a0);
        new_blocks ← block_modify IndirectBlock id 0 (λ indirect1,
          '(b, rest) ← prog_lift (next_block new_blocks);
          indirect1 ← prog_lift (vec_set indirect1 b0 b);
          mret (rest, indirect1));
        let b0 := (b0 + 1)%usize in
        if decide (b0 = INODE_INDIRECT1_COUNT)
        then fill_indirect2 n' a1 b1 indirect2 (a0 + 1)%usize 0 new_blocks
        else fill_indirect2 n' a1 b1 indirect2 a0 b0 new_blocks
    end
  else mret indirect2.

Definition DiskInode_increase_size (self : DiskInode) (new_size : Z) (new_blocks : list Z) :
    prog DiskInode :=
  let current_blocks := DiskInode_data_blocks self in
  let self := set_size self new_size in
  let total_blocks := DiskInode_data_blocks self in
  (* fill direct *)
  '(direct, current_blocks, new_blocks) ← prog_lift
    (fill_blocks (Z.to_nat (Z.min total_blocks INODE_DIRECT_COUNT - current_blocks))
       (di_direct self) current_blocks new_blocks);
  let self := set_direct self direct in
  (* alloc indirect1 *)
  if negb (bool_decide (total_blocks > INODE_DIRECT_COUNT)) then mret self else
  '(indirect1, new_blocks) ← prog_lift
    (if decide (current_blocks = INODE_DIRECT_COUNT) then next_block new_blocks
     else mret (di_indirect1 self, new_blocks));
  let self := set_indirect1 self indirect1 in
  let current_blocks := (current_blocks - INODE_DIRECT_COUNT)%u32 in
  let total_blocks := (total_blocks - INODE_DIRECT_COUNT)%u32 in
  (* fill indirect1 *)
  '(current_blocks, new_blocks) ← block_modify IndirectBlock (di_indirect1 self) 0 (λ indirect1,
    '(indirect1, current_blocks, new_blocks) ← prog_lift
      (fill_blocks (Z.to_nat (Z.min total_blocks INODE_INDIRECT1_COUNT - current_blocks))
         indirect1 current_blocks new_blocks);
    mret ((current_blocks, new_blocks), indirect1));
  (* alloc indirect2 *)
  if negb (bool_decide (total_blocks > INODE_INDIRECT1_COUNT)) then mret self else
  '(indirect2, new_blocks) ← prog_lift
    (if decide (current_blocks = INODE_INDIRECT1_COUNT) then next_block new_blocks
     else mret (di_indirect2 self, new_blocks));
  let self := set_indirect2 self indirect2 in
  let current_blocks := (current_blocks - INODE_INDIRECT1_COUNT)%u32 in
  let total_blocks := (total_blocks - INODE_INDIRECT1_COUNT)%u32 in
  (* fill indirect2 *)
  _ ← block_modify IndirectBlock (di_indirect2 self) 0 (λ indirect2,
    indirect2 ← fill_indirect2 (Z.to_nat (total_blocks - current_blocks))
      (total_blocks / INODE_INDIRECT1_COUNT) (total_blocks mod INODE_INDIRECT1_COUNT) indirect2
      (current_blocks / INODE_INDIRECT1_COUNT) (current_blocks mod INODE_INDIRECT1_COUNT) new_blocks;
    mret (tt, indirect2));
  mret self.

(** [v.push(arr[i]); arr[i] = 0] for the first [n] entries of the direct list. *)
Fixpoint take_direct (n : nat) (arr : list Z) (current : Z) (v : list Z) : res (list Z * list Z) :=
  match n with
  | O => mret (arr, v)
  | S n' =>
      b ← vec_get arr current;
      arr' ← vec_set arr current 0;
      take_direct n' arr' (current + 1)%usize (vec_push v b)
  end.

(** [v.push(indirect1[i])] for the first [n] entries. *)
Fixpoint take_indirect1 (n : nat) (arr : list Z) (current : Z) (v : list Z) : res (list Z) :=
  match n with
  | O => mret v
  | S n' => b ← vec_get arr current; take_indirect1 n' arr (current + 1)%usize (vec_push v b)
  end.

(** [for entry in indirect2.iter_mut().take(a1) { .. }] *)
Fixpoint take_indirect2 (entries : list Z) (v : list Z) : prog (list Z) :=
  match entries with
  | [] => mret v
  | entry :: rest =>
      let v := vec_push v entry in
      v ← block_modify IndirectBlock entry 0 (λ indirect1, mret (v ++ indirect1, indirect1));
      take_indirect2 rest v
  end.

Definition DiskInode_clear_size (self : DiskInode) : prog (list Z * DiskInode) :=
  let data_blocks := DiskInode_data_blocks self in
  let self := set_size self 0 in
  (* direct *)
  '(direct, v) ← prog_lift
    (take_direct (Z.to_nat (Z.min data_blocks INODE_DIRECT_COUNT)) (di_direct self) 0 []);
  let self := set_direct self direct in
  (* indirect1 block *)
  if negb (bool_decide (data_blocks > INODE_DIRECT_COUNT)) then mret (v, self) else
  let v := vec_push v (di_indirect1 self) in
  let data_blocks := (data_blocks - INODE_DIRECT_COUNT)%usize in
  (* indirect1 *)
  v ← block_modify IndirectBlock (di_indirect1 self) 0 (λ indirect1,
    v ← prog_lift (take_indirect1 (Z.to_nat (Z.min data_blocks INODE_INDIRECT1_COUNT)) indirect1 0 v);
    mret (v, indirect1));
  let self := set_indirect1 self 0 in
  (* indirect2 block *)
  if negb (bool_decide (data_blocks > INODE_INDIRECT1_COUNT)) then mret (v, self) else
  let v := vec_push v (di_indirect2 self) in
  let data_blocks := (data_blocks - INODE_INDIRECT1_COUNT)%usize in
  (* indirect2 *)
  _ ← prog_assert (bool_decide (data_blocks ≤ INODE_INDIRECT2_COUNT));
  let a1 := data_blocks / INODE_INDIRECT1_COUNT in
  let b1 := data_blocks mod INODE_INDIRECT1_COUNT in
  v ← block_modify IndirectBlock (di_indirect2 self) 0 (λ indirect2,
    (* full indirect1 blocks *)
    v ← take_indirect2 (take (Z.to_nat a1) indirect2) v;
    (* last indirect1 block *)
    v ← (if decide (b1 > 0) then
           entry ← prog_lift (vec_get indirect2 a1);
           let v := vec_push v entry in
           block_modify IndirectBlock entry 0 (λ indirect1,
             mret (v ++ take (Z.to_nat b1) indirect1, indirect1))
         else mret v);
    mret (v, indirect2));
  mret (v, set_indirect2 self 0).

(** The loop of [read_at]; [n] bounds the number of blocks it visits. *)
Fixpoint DiskInode_read_loop (n : nat) (self : DiskInode) (start end_ start_block read_size : Z)
    (buf : list Z) : prog (Z * list Z) :=
  match n with
  | O => Throw OutOfFuel
  | S n' =>
      let end_current_block := Z.min ((start / BLOCK_SZ + 1) * BLOCK_SZ)%usize end_ in
      let block_read_size := (end_current_block - start)%usize in
      _ ← prog_lift (vec_slice buf read_size (read_size + block_read_size)%usize);
      id ← DiskInode_get_block_id self (wrap 32 start_block);
      buf ← block_read DataBlock id 0 (λ data_block,
        src ← prog_lift (vec_slice data_block (start mod BLOCK_SZ)
                           (start mod BLOCK_SZ + block_read_size)%usize);
        prog_lift (vec_copy buf read_size (read_size + block_read_size)%usize src));
      let read_size := (read_size + block_read_size)%usize in
      if decide (end_current_block = end_) then mret (read_size, buf)
      else DiskInode_read_loop n' self end_current_block end_ (start_block + 1)%usize read_size buf
  end.

(** [read_at] returns the number of bytes read and the buffer it has filled.  Every
    iteration but the last one advances by at least one byte. *)
Definition DiskInode_read_at (self : DiskInode) (offset : Z) (buf : list Z) : prog (Z * list Z) :=
  let end_ := Z.min (offset + Z.of_nat (length buf))%usize (di_size self) in
  if bool_decide (offset >= end_) then mret (0, buf)
  else DiskInode_read_loop (S (length buf)) self offset end_ (offset / BLOCK_SZ) 0 buf.

Fixpoint DiskInode_write_loop (n : nat) (self : DiskInode) (start end_ start_block write_size : Z)
    (buf : list Z) : prog Z :=
  match n with
  | O => Throw OutOfFuel
  | S n' =>
      let end_current_block := Z.min ((start / BLOCK_SZ + 1) * BLOCK_SZ)%usize end_ in
      let block_write_size := (end_current_block - start)%usize in
      id ← DiskInode_get_block_id self (wrap 32 start_block);
      _ ← block_modify DataBlock id 0 (λ data_block,
        src ← prog_lift (vec_slice buf write_size (write_size + block_write_size)%usize);
        data_block ← prog_lift (vec_copy data_block (start mod BLOCK_SZ)
                           (start mod BLOCK_SZ + block_write_size)%usize src);
        mret (tt, data_block));
      let write_size := (write_size + block_write_size)%usize in
      if decide (end_current_block = end_) then mret write_size
      else DiskInode_write_loop n' self end_current_block end_ (start_block + 1)%usize write_size buf
  end.

Definition DiskInode_write_at (self : DiskInode) (offset : Z) (buf : list Z) : prog Z :=
  let end_ := Z.min (offset + Z.of_nat (length buf))%usize (di_size self) in
  _ ← prog_assert (bool_decide (offset ≤ end_));
  DiskInode_write_loop (S (length buf)) self offset end_ (offset / BLOCK_SZ) 0 buf.

(** * Directory entries *)

Record DirEntry := MkDirEntry { de_name : list Z; de_inode_id : Z }.

Definition DIRENT_SZ : Z := 32.

Definition DirEntry_empty : DirEntry := MkDirEntry (replicate 28 0) 0.

(** [name] is the list of the bytes of the string. *)
Definition DirEntry_new (name : list Z) (inode_id : Z) : res DirEntry :=
  bytes ← vec_copy (replicate 28 0) 0 (Z.of_nat (length name)) name;
  mret (MkDirEntry bytes inode_id).

Definition DirEntry_as_bytes (self : DirEntry) : list Z := de_name self ++ le_bytes 4 (de_inode_id self).

(** The entry after its bytes were overwritten through [as_bytes_mut]. *)
Definition DirEntry_of_bytes (bytes : list Z) : DirEntry :=
  MkDirEntry (take 28 bytes) (le_value (drop 28 bytes)).

(** [core::str::from_utf8(..).is_ok()] *)
Definition utf8_cont (b : Z) : bool := bool_decide (0x80 ≤ b ≤ 0xBF).
Fixpoint utf8_valid_in (n : nat) (s : list Z) : bool :=
  match n, s with
  | _, [] => true
  | O, _ => false
  | S n', b0 :: s1 =>
      if bool_decide (b0 ≤ 0x7F) then utf8_valid_in n' s1
      else match s1 with
      | [] => false
      | b1 :: s2 =>
          if bool_decide (0xC2 ≤ b0 ≤ 0xDF) then utf8_cont b1 && utf8_valid_in n' s2
          else match s2 with
          | [] => false
          | b2 :: s3 =>
              if bool_decide (0xE0 ≤ b0 ≤ 0xEF) then
                utf8_cont b1 && utf8_cont b2 &&
                negb (bool_decide (b0 = 0xE0) && bool_decide (b1 < 0xA0)) &&
                negb (bool_decide (b0 = 0xED) && bool_decide (0xA0 ≤ b1)) && utf8_valid_in n' s3
              else match s3 with
              | [] => false
              | b3 :: s4 =>
                  bool_decide (0xF0 ≤ b0 ≤ 0xF4) && utf8_cont b1 && utf8_cont b2 && utf8_cont b3 &&
                  negb (bool_decide (b0 = 0xF0) && bool_decide (b1 < 0x90)) &&
                  negb (bool_decide (b0 = 0xF4) && bool_decide (0x90 ≤ b1)) && utf8_valid_in n' s4
              end
          end
      end
  end.
Definition utf8_valid (s : list Z) : bool := utf8_valid_in (length s) s.

(** [(0usize..).find(|i| self.name[*i] == 0)]: the search indexes past the array when
    there is no zero byte. *)
Definition DirEntry_name (self : DirEntry) : res (list Z) :=
  match list_find (λ b, b = 0) (de_name self) with
  | Some (len, _) =>
      let name := take len (de_name self) in
      _ ← res_assert (utf8_valid name);
      mret name
  | None => Err Panic
  end.

Definition DirEntry_inode_id (self : DirEntry) : Z := de_inode_id self.
