(* ===== verification/InodeTree.v ===== *)
(** The block tree of a disk inode.  A file's data blocks and index blocks are two lists;
    [inode_rep] says that the direct, indirect and doubly indirect pointers of a disk
    inode spell them.  [get_block_id] looks a block up, [increase_size] extends the
    lists by exactly the blocks it is given, and [clear_size] returns them all. *)

From S2P Require Import Prelude BlockDev BlockCache BlockAccess Bitmap Layout.

Ltac Zify.zify_post_hook ::= Z.to_euclidean_division_equations.

(** * Pointers *)

(** Pointer [j] of the index block [b]. *)
Definition ptr_at (bl : gmap Z (list Z)) (b j : Z) : option Z :=
  d ← bl !! b; words 4 128 d !! Z.to_nat j.

(** The block number of data block [i], as [get_block_id] looks it up. *)
Definition block_id_of (bl : gmap Z (list Z)) (di : DiskInode) (i : Z) : option Z :=
  if decide (i < 28) then di_direct di !! Z.to_nat i
  else if decide (i < 156) then ptr_at bl (di_indirect1 di) (i - 28)
  else sub ← ptr_at bl (di_indirect2 di) ((i - 156) / 128); ptr_at bl sub ((i - 156) mod 128).

(** Index block 0 is the indirect block, 1 the doubly indirect one, the others those it
    points to. *)
Definition idx_id_of (bl : gmap Z (list Z)) (di : DiskInode) (k : Z) : option Z :=
  if decide (k = 0) then Some (di_indirect1 di)
  else if decide (k = 1) then Some (di_indirect2 di)
  else ptr_at bl (di_indirect2 di) (k - 2).

(** The number of index blocks a file of [n] data blocks has. *)
Definition nidx (n : Z) : Z :=
  if decide (n ≤ 28) then 0 else if decide (n ≤ 156) then 1 else 2 + (n - 156 + 127) / 128.


Record inode_rep (bl : gmap Z (list Z)) (di : DiskInode) (ids idx : list Z) : Prop := {
  rep_ids i : 0 ≤ i < len ids → block_id_of bl di i = ids !! Z.to_nat i;
  rep_idx k : 0 ≤ k < len idx → idx_id_of bl di k = idx !! Z.to_nat k;
  rep_enough : nidx (len ids) ≤ len idx;
  rep_nodup : NoDup (ids ++ idx);
  rep_present b : b ∈ ids ++ idx → ∃ d, bl !! b = Some d ∧ block_wf d;
  rep_valid : DiskInode_valid di;
}.

(** Storing a pointer. *)
Definition set_words (bl : gmap Z (list Z)) (b : Z) (ws : list Z) : gmap Z (list Z) :=
  <[b := words_bytes 4 ws]> bl.

Lemma ptr_at_set_eq bl b ws j :
  words_valid 4 128 ws → ptr_at (set_words bl b ws) b j = ws !! Z.to_nat j.
Proof.
  intros [Hl Hf]. unfold ptr_at, set_words. rewrite lookup_insert_eq. simpl.
  rewrite <- Hl, words_words_bytes by exact Hf. done.
Qed.

Lemma ptr_at_set_ne bl b b' ws j : b ≠ b' → ptr_at (set_words bl b ws) b' j = ptr_at bl b' j.
Proof. intros. unfold ptr_at, set_words. by rewrite lookup_insert_ne. Qed.

Lemma words_block_wf ws : words_valid 4 128 ws → block_wf (words_bytes 4 ws).
Proof.
  intros [Hl _]. split; [rewrite length_words_bytes; lia|apply words_bytes_bytes].
Qed.

Lemma words_valid_of_block d : block_wf d → words_valid 4 128 (words 4 128 d).
Proof. intros [? ?]. split; [apply length_words|by apply words_fits]. Qed.

Lemma set_words_id bl b d : bl !! b = Some d → block_wf d → set_words bl b (words 4 128 d) = bl.
Proof.
  intros Hd [? ?]. unfold set_words. rewrite words_bytes_words by done. by apply insert_id.
Qed.

Lemma decode_IndirectBlock d :
  block_wf d → decode IndirectBlock (slice d 0 (Z.of_nat (size_of IndirectBlock))) = Some (words 4 128 d).
Proof.
  intros [Hl _]. change (Z.of_nat (size_of IndirectBlock)) with 512. rewrite slice_whole by done.
  reflexivity.
Qed.

Lemma encode_IndirectBlock d ws :
  block_wf d → words_valid 4 128 ws →
  splice d 0 (encode IndirectBlock ws (slice d 0 (Z.of_nat (size_of IndirectBlock)))) = words_bytes 4 ws.
Proof.
  intros [Hd _] [Hl _]. change (encode IndirectBlock ws _) with (words_bytes 4 ws).
  apply splice_whole; [done|]. rewrite length_words_bytes. lia.
Qed.

(** Access rules for index blocks. *)
Definition idx_lockable (h : gset Z) (bl : gmap Z (list Z)) (b : Z) : Prop :=
  (b ∉ h) ∧ (size h < BLOCK_CACHE_SIZE)%nat ∧ ∃ d, bl !! b = Some d ∧ block_wf d.

Lemma wp_read_idx {V} h bl b (f : list Z → prog V) Q :
  idx_lockable h bl b →
  (∀ ws, words_valid 4 128 ws → (∀ j, ptr_at bl b j = ws !! Z.to_nat j) →
     set_words bl b ws = bl → wp ({[b]} ∪ h) (f ws) bl Q) →
  wp h (block_read IndirectBlock b 0 f) bl Q.
Proof.
  intros (Hb & Hh & d & Hd & Hw) Hf.
  eapply (wp_read IndirectBlock); [by split|done|done|by apply decode_IndirectBlock|].
  apply Hf; [by apply words_valid_of_block| |by apply set_words_id].
  intros j. unfold ptr_at. by rewrite Hd.
Qed.

Lemma wp_modify_idx {V} h bl b (f : list Z → prog (V * list Z)) Q :
  idx_lockable h bl b →
  (∀ ws, words_valid 4 128 ws → (∀ j, ptr_at bl b j = ws !! Z.to_nat j) →
     set_words bl b ws = bl →
     wp ({[b]} ∪ h) (f ws) bl (λ r bl', words_valid 4 128 r.2 ∧ Q r.1 (set_words bl' b r.2))) →
  wp h (block_modify IndirectBlock b 0 f) bl Q.
Proof.
  intros (Hb & Hh & d & Hd & Hw) Hf.
  eapply (wp_modify IndirectBlock); [by split|apply Hw|done|done|by apply decode_IndirectBlock|].
  eapply wp_mono; [apply Hf|].
  - by apply words_valid_of_block.
  - intros j. unfold ptr_at. by rewrite Hd.
  - by apply set_words_id.
  - intros [v ws'] bl' [Hv HQ]. split; [exact Hv|]. cbn [fst snd] in *.
    by rewrite encode_IndirectBlock by done.
Qed.

(** * [get_block_id] *)

(** The tree's index blocks can all be locked on top of [h], two more at a time. *)
Definition tree_free (h : gset Z) (bs : list Z) : Prop :=
  (size h + 2 ≤ BLOCK_CACHE_SIZE)%nat ∧ ∀ b, b ∈ bs → b ∉ h.

Section GetBlockId.
Context (bl : gmap Z (list Z)) (di : DiskInode) (ids idx : list Z).
Context (Hrep : inode_rep bl di ids idx).

Lemma idx_lockable_of h k b :
  tree_free h idx → idx !! k = Some b → idx_lockable h bl b.
Proof.
  intros [Hsz Hf] Hb. apply list_elem_of_lookup_2 in Hb. split; [by apply Hf|]. split; [lia|].
  apply (rep_present _ _ _ _ Hrep). set_solver.
Qed.

Lemma idx_0 : 28 < len ids → idx !! 0%nat = Some (di_indirect1 di).
Proof.
  intros Hn. pose proof (rep_enough _ _ _ _ Hrep) as He. unfold nidx in He.
  rewrite decide_False in He by lia. assert (1 ≤ len idx) by (case_decide; lia).
  symmetry. exact (rep_idx _ _ _ _ Hrep 0 ltac:(lia)).
Qed.

Lemma idx_1 : 156 < len ids → idx !! 1%nat = Some (di_indirect2 di).
Proof.
  intros Hn. pose proof (rep_enough _ _ _ _ Hrep) as He. unfold nidx in He.
  rewrite !decide_False in He by lia. symmetry. exact (rep_idx _ _ _ _ Hrep 1 ltac:(lia)).
Qed.

Lemma idx_sub k : 0 ≤ k → 156 + 128 * k < len ids →
  ∃ sub, idx !! Z.to_nat (2 + k) = Some sub ∧ ptr_at bl (di_indirect2 di) k = Some sub.
Proof.
  intros Hk Hn. pose proof (rep_enough _ _ _ _ Hrep) as He. unfold nidx in He.
  rewrite !decide_False in He by lia.
  destruct (lookup_lt_is_Some_2 idx (Z.to_nat (2 + k))) as [sub Hsub]; [lia|].
  exists sub. split; [done|]. pose proof (rep_idx _ _ _ _ Hrep (2 + k) ltac:(lia)) as Hi.
  unfold idx_id_of in Hi. rewrite !decide_False in Hi by lia. rewrite Hsub in Hi. rewrite <- Hi. f_equal. lia.
Qed.

Lemma get_block_id_ok h i :
  tree_free h idx → 0 ≤ i < len ids → len ids < 2 ^ 32 →
  wp h (DiskInode_get_block_id di i) bl (λ b bl', bl' = bl ∧ ids !! Z.to_nat i = Some b).
Proof.
  intros Hfree Hi Hmax. pose proof (rep_ids _ _ _ _ Hrep i Hi) as Hid.
  unfold DiskInode_get_block_id, block_id_of in *.
  change INODE_DIRECT_COUNT with 28. change INDIRECT1_BOUND with 156. change INODE_INDIRECT1_COUNT with 128.
  destruct (lookup_lt_is_Some_2 ids (Z.to_nat i)) as [b Hb]; [lia|]. rewrite Hb in Hid |- *.
  case_decide; [|case_decide].
  - unfold vec_get. rewrite Hid. by apply wp_ret.
  - apply wp_read_idx; [by apply idx_lockable_of with 0%nat; [|apply idx_0; lia]|].
    intros ws _ Hws _. unfold vec_get. rewrite sub_w_small by (unfold fits; lia).
    rewrite <- Hws, Hid. by apply wp_ret.
  - assert (0 ≤ (i - 156) / 128) by lia.
    destruct (idx_sub ((i - 156) / 128)) as (sub & Hsub & Hptr); [lia|lia|].
    rewrite Hptr in Hid. simpl in Hid. rewrite sub_w_small by (unfold fits; lia).
    apply wp_bind, wp_read_idx; [by apply idx_lockable_of with 1%nat; [|apply idx_1; lia]|].
    intros ws _ Hws _. unfold vec_get. rewrite <- Hws, Hptr. apply wp_ret.
    apply wp_read_idx; [by eapply idx_lockable_of|].
    intros ws' _ Hws' _. rewrite <- Hws', Hid. by apply wp_ret.
Qed.
End GetBlockId.

(** * Appending blocks *)

Definition present (bl : gmap Z (list Z)) (b : Z) : Prop := ∃ d, bl !! b = Some d ∧ block_wf d.

Lemma present_set bl b ws b' : words_valid 4 128 ws → present bl b' → present (set_words bl b ws) b'.
Proof.
  intros Hws (d & Hd & Hw). unfold present, set_words. rewrite lookup_insert.
  case_decide; [|by exists d]. exists (words_bytes 4 ws). split; [done|by apply words_block_wf].
Qed.

Lemma lookup_snoc_lt (l : list Z) y (i : Z) :
  0 ≤ i < len l → (l ++ [y]) !! Z.to_nat i = l !! Z.to_nat i.
Proof. intros. apply lookup_app_l. lia. Qed.

Lemma lookup_snoc_eq (l : list Z) y : (l ++ [y]) !! Z.to_nat (len l) = Some y.
Proof. rewrite Nat2Z.id. by apply list_lookup_middle. Qed.

Lemma len_snoc (l : list Z) y : len (l ++ [y]) = len l + 1.
Proof. rewrite length_app. simpl. lia. Qed.

Section Push.
Context (bl : gmap Z (list Z)) (di : DiskInode) (ids idx : list Z).
Context (Hrep : inode_rep bl di ids idx).
Context (y : Z) (Hy : y ∉ ids ++ idx) (Hfit : fits 32 y).

Lemma push_id bl' di' :
  (∀ b, present bl b → present bl' b) → present bl y → DiskInode_valid di' →
  nidx (len ids + 1) ≤ len idx →
  (∀ i, 0 ≤ i < len ids → block_id_of bl' di' i = block_id_of bl di i) →
  block_id_of bl' di' (len ids) = Some y →
  (∀ k, 0 ≤ k < len idx → idx_id_of bl' di' k = idx_id_of bl di k) →
  inode_rep bl' di' (ids ++ [y]) idx.
Proof.
  intros Hpres Hpy Hval Hn Hids Hnew Hidx. destruct Hrep as [H1 H2 H3 H4 H5 H6]. split.
  - intros i Hi. rewrite len_snoc in Hi. destruct (decide (i = len ids)) as [->|].
    + by rewrite Hnew, lookup_snoc_eq.
    + rewrite Hids, H1 by lia. by rewrite lookup_snoc_lt by lia.
  - intros k Hk. rewrite Hidx by done. by apply H2.
  - by rewrite len_snoc.
  - rewrite <- app_assoc. cbn [app]. rewrite <- Permutation_middle. by apply NoDup_cons.
  - intros b Hb. apply Hpres. assert (b ∈ ids ++ idx ∨ b = y) as [Hin| ->] by set_solver; [by apply H5|done].
  - done.
Qed.

Lemma push_idx bl' di' :
  (∀ b, present bl b → present bl' b) → present bl y → DiskInode_valid di' →
  (∀ i, 0 ≤ i < len ids → block_id_of bl' di' i = block_id_of bl di i) →
  idx_id_of bl' di' (len idx) = Some y →
  (∀ k, 0 ≤ k < len idx → idx_id_of bl' di' k = idx_id_of bl di k) →
  inode_rep bl' di' ids (idx ++ [y]).
Proof.
  intros Hpres Hpy Hval Hids Hnew Hidx. destruct Hrep as [H1 H2 H3 H4 H5 H6]. split.
  - intros i Hi. rewrite Hids by done. by apply H1.
  - intros k Hk. rewrite len_snoc in Hk. destruct (decide (k = len idx)) as [->|].
    + by rewrite Hnew, lookup_snoc_eq.
    + rewrite Hidx, H2 by lia. by rewrite lookup_snoc_lt by lia.
  - rewrite len_snoc. lia.
  - rewrite (app_assoc ids). rewrite <- Permutation_cons_append. apply NoDup_cons. done.
  - intros b Hb. apply Hpres. assert (b ∈ ids ++ idx ∨ b = y) as [Hin| ->] by set_solver; [by apply H5|done].
  - done.
Qed.

(** Two index blocks are different. *)
Lemma idx_inj (i j : Z) b : 0 ≤ i → 0 ≤ j → idx !! Z.to_nat i = Some b → idx !! Z.to_nat j = Some b → i = j.
Proof.
  intros Hi Hj H1 H2. pose proof (rep_nodup _ _ _ _ Hrep) as Hnd. apply NoDup_app in Hnd as (_ & _ & Hnd).
  pose proof (NoDup_lookup _ _ _ _ Hnd H1 H2). lia.
Qed.

Lemma idx_lookup (k : Z) b : 0 ≤ k < len idx → idx_id_of bl di k = Some b → idx !! Z.to_nat k = Some b.
Proof. intros Hk Hb. by rewrite <- (rep_idx _ _ _ _ Hrep k Hk). Qed.

Lemma push_direct :
  len ids < 28 → present bl y →
  inode_rep bl (set_direct di (<[Z.to_nat (len ids) := y]> (di_direct di))) (ids ++ [y]) idx.
Proof.
  intros Hn Hp. destruct (rep_valid _ _ _ _ Hrep) as (Hv1 & Hv2 & Hv3 & Hv4).
  assert (length (di_direct di) = 28%nat) as Hl by apply Hv2.
  apply push_id; [done|done|split; [done|split; [by apply words_valid_insert|done]]| | | |done].
  - unfold nidx. rewrite decide_True by lia. lia.
  - intros i Hi. unfold block_id_of. rewrite !decide_True by lia. simpl.
    by rewrite list_lookup_insert_ne by lia.
  - unfold block_id_of. rewrite decide_True by done. simpl. rewrite list_lookup_insert_eq; [done|lia].
Qed.

Lemma push_indirect1 : len idx = 0 → present bl y → inode_rep bl (set_indirect1 di y) ids (idx ++ [y]).
Proof.
  intros Hn Hp. destruct (rep_valid _ _ _ _ Hrep) as (Hv1 & Hv2 & Hv3 & Hv4).
  pose proof (rep_enough _ _ _ _ Hrep) as He. unfold nidx in He.
  apply push_idx; [done|done|unfold DiskInode_valid; by split_and!| | |lia].
  - assert (len ids ≤ 28) by (repeat case_decide; lia). clear He.
    intros i Hi. unfold block_id_of. by rewrite !decide_True by lia.
  - rewrite Hn. done.
Qed.

Lemma push_indirect2 : len idx = 1 → present bl y → inode_rep bl (set_indirect2 di y) ids (idx ++ [y]).
Proof.
  intros Hn Hp. destruct (rep_valid _ _ _ _ Hrep) as (Hv1 & Hv2 & Hv3 & Hv4).
  pose proof (rep_enough _ _ _ _ Hrep) as He. unfold nidx in He.
  apply push_idx; [done|done|unfold DiskInode_valid; by split_and!| | |].
  - assert (len ids ≤ 156) by (repeat case_decide; lia). clear He.
    intros i Hi. unfold block_id_of. case_decide; [done|]. by rewrite !decide_True by lia.
  - rewrite Hn. done.
  - intros k Hk. by replace k with 0 by lia.
Qed.

Lemma push_ind1_ptr ws :
  28 ≤ len ids < 156 → 1 ≤ len idx → present bl y → words_valid 4 128 ws →
  (∀ j, ptr_at bl (di_indirect1 di) j = ws !! Z.to_nat j) →
  inode_rep (set_words bl (di_indirect1 di) (<[Z.to_nat (len ids - 28) := y]> ws)) di (ids ++ [y]) idx.
Proof.
  intros Hn Hk Hp Hws Hptr.
  assert (words_valid 4 128 (<[Z.to_nat (len ids - 28) := y]> ws)) as Hws' by by apply words_valid_insert.
  destruct Hws as [Hl _].
  assert (idx !! 0%nat = Some (di_indirect1 di)) as Hi1 by (apply (idx_lookup 0); [lia|done]).
  apply push_id; [intros; by apply present_set|done|apply Hrep| | | |].
  - unfold nidx. repeat case_decide; lia.
  - intros i Hi. unfold block_id_of. case_decide; [done|]. rewrite !decide_True by lia.
    rewrite ptr_at_set_eq, Hptr by done. by rewrite list_lookup_insert_ne by lia.
  - unfold block_id_of. rewrite decide_False, decide_True by lia. rewrite ptr_at_set_eq by done.
    rewrite list_lookup_insert_eq; [done|lia].
  - intros k Hk'. unfold idx_id_of. repeat (case_decide; [done|]).
    assert (idx !! 1%nat = Some (di_indirect2 di)) as Hi2 by (apply (idx_lookup 1); [lia|done]).
    rewrite ptr_at_set_ne; [done|]. intros Heq.
    assert (0 = 1); [|done]. apply (idx_inj 0 1 (di_indirect1 di)); [done|done|done|].
    by rewrite Heq.
Qed.

Lemma push_ind2_ptr ws :
  len ids ≤ 156 + 128 * (len idx - 2) → 2 ≤ len idx < 130 → present bl y → words_valid 4 128 ws →
  (∀ j, ptr_at bl (di_indirect2 di) j = ws !! Z.to_nat j) →
  inode_rep (set_words bl (di_indirect2 di) (<[Z.to_nat (len idx - 2) := y]> ws)) di ids (idx ++ [y]).
Proof.
  intros Hn Hk Hp Hws Hptr.
  assert (words_valid 4 128 (<[Z.to_nat (len idx - 2) := y]> ws)) as Hws' by by apply words_valid_insert.
  destruct Hws as [Hl _].
  assert (idx !! 0%nat = Some (di_indirect1 di)) as Hi1 by (apply (idx_lookup 0); [lia|done]).
  assert (idx !! 1%nat = Some (di_indirect2 di)) as Hi2 by (apply (idx_lookup 1); [lia|done]).
  apply push_idx; [intros; by apply present_set|done|apply Hrep| | |].
  - intros i Hi. unfold block_id_of. case_decide; [done|]. case_decide.
    { rewrite ptr_at_set_ne; [done|]. intros Heq.
      assert (1 = 0); [|done]. apply (idx_inj 1 0 (di_indirect2 di)); [done|done|done|by rewrite Heq]. }
    rewrite ptr_at_set_eq, list_lookup_insert_ne, <- Hptr by (done || lia).
    destruct (idx_sub bl di ids idx Hrep ((i - 156) / 128)) as (sub & Hsub & ->); [lia|lia|]. simpl.
    rewrite ptr_at_set_ne; [done|]. intros <-.
    assert (1 = 2 + (i - 156) / 128); [|lia]. by apply (idx_inj _ _ (di_indirect2 di)); [lia|lia| |].
  - unfold idx_id_of. rewrite !decide_False by lia. rewrite ptr_at_set_eq by done.
    rewrite list_lookup_insert_eq; [done|lia].
  - intros k Hk'. unfold idx_id_of. repeat (case_decide; [done|]).
    rewrite ptr_at_set_eq, Hptr by done. by rewrite list_lookup_insert_ne by lia.
Qed.

Lemma push_sub_ptr ws sub :
  156 ≤ len ids → len idx = 2 + (len ids - 156) / 128 + 1 → present bl y → words_valid 4 128 ws →
  idx !! Z.to_nat (2 + (len ids - 156) / 128) = Some sub →
  (∀ j, ptr_at bl sub j = ws !! Z.to_nat j) →
  inode_rep (set_words bl sub (<[Z.to_nat ((len ids - 156) mod 128) := y]> ws)) di (ids ++ [y]) idx.
Proof.
  intros Hn Hk Hp Hws Hsub Hptr.
  assert (words_valid 4 128 (<[Z.to_nat ((len ids - 156) mod 128) := y]> ws)) as Hws' by by apply words_valid_insert.
  destruct Hws as [Hl _].
  assert (idx !! 0%nat = Some (di_indirect1 di)) as Hi1 by (apply (idx_lookup 0); [lia|done]).
  assert (idx !! 1%nat = Some (di_indirect2 di)) as Hi2 by (apply (idx_lookup 1); [lia|done]).
  assert (sub ≠ di_indirect1 di) as Hne1.
  { intros ->. assert (0 = 2 + (len ids - 156) / 128); [|lia]. by apply (idx_inj _ _ (di_indirect1 di)); [lia|lia| |]. }
  assert (sub ≠ di_indirect2 di) as Hne2.
  { intros ->. assert (1 = 2 + (len ids - 156) / 128); [|lia]. by apply (idx_inj _ _ (di_indirect2 di)); [lia|lia| |]. }
  assert (ptr_at bl (di_indirect2 di) ((len ids - 156) / 128) = Some sub) as Hps.
  { rewrite <- (rep_idx _ _ _ _ Hrep) in Hsub by lia. unfold idx_id_of in Hsub.
    rewrite !decide_False in Hsub by lia. rewrite <- Hsub. f_equal. lia. }
  apply push_id; [intros; by apply present_set|done|apply Hrep| | | |].
  - unfold nidx. repeat case_decide; lia.
  - intros i Hi. unfold block_id_of. case_decide; [done|]. case_decide; [by rewrite ptr_at_set_ne|].
    rewrite ptr_at_set_ne by done.
    destruct (idx_sub bl di ids idx Hrep ((i - 156) / 128)) as (sub' & Hsub' & ->); [lia|lia|]. simpl.
    destruct (decide (sub = sub')) as [<-|]; [|by rewrite ptr_at_set_ne].
    assert (2 + (i - 156) / 128 = 2 + (len ids - 156) / 128) by (by apply (idx_inj _ _ sub); [lia|lia| |]).
    rewrite ptr_at_set_eq, Hptr by done. by rewrite list_lookup_insert_ne by lia.
  - unfold block_id_of. rewrite !decide_False by lia. rewrite ptr_at_set_ne, Hps by done. simpl.
    rewrite ptr_at_set_eq by done. rewrite list_lookup_insert_eq; [done|lia].
  - intros k Hk'. unfold idx_id_of. repeat (case_decide; [done|]). by rewrite ptr_at_set_ne.
Qed.
End Push.

(** * [increase_size] *)

(** The blocks [nb] are usable for the file: new to it, on the disk and not held. *)
Definition avail (h : gset Z) (bl : gmap Z (list Z)) (ids idx nb : list Z) : Prop :=
  NoDup (nb ++ ids ++ idx) ∧ Forall (λ b, present bl b ∧ fits 32 b ∧ (b ∉ h)) nb.

Definition keeps (bl bl' : gmap Z (list Z)) : Prop := ∀ b, present bl b → present bl' b.

Lemma keeps_set bl b ws : words_valid 4 128 ws → keeps bl (set_words bl b ws).
Proof. intros Hws b' Hb. by apply present_set. Qed.

Lemma avail_cons h bl ids idx y nb :
  avail h bl ids idx (y :: nb) →
  (y ∉ ids ++ idx) ∧ present bl y ∧ fits 32 y ∧ (y ∉ h) ∧
  avail h bl (ids ++ [y]) idx nb ∧ avail h bl ids (idx ++ [y]) nb.
Proof.
  intros [Hnd Hall]. apply Forall_cons in Hall as ((Hp & Hf & Hh) & Hall).
  simpl in Hnd. pose proof Hnd as [Hy _]%NoDup_cons. split; [set_solver|].
  split; [done|]. split; [done|]. split; [done|]. split; (split; [|done]).
  - replace (nb ++ (ids ++ [y]) ++ idx) with ((nb ++ ids) ++ y :: idx) by by rewrite <- !app_assoc.
    rewrite <- Permutation_middle. by rewrite <- app_assoc.
  - rewrite (app_assoc ids), (app_assoc nb), <- Permutation_cons_append. done.
Qed.

Lemma avail_keeps h bl bl' ids idx nb : keeps bl bl' → avail h bl ids idx nb → avail h bl' ids idx nb.
Proof. intros Hk [Hnd Hall]. split; [done|]. eapply Forall_impl; [done|]. intros b (? & ? & ?). auto. Qed.

Lemma avail_held h b bl ids idx nb :
  (b ∉ nb) → avail h bl ids idx nb → avail ({[b]} ∪ h) bl ids idx nb.
Proof.
  intros Hb [Hnd Hall]. split; [done|]. rewrite Forall_forall in *. intros b' Hb'.
  destruct (Hall b' Hb') as (? & ? & ?). split; [done|]. split; [done|]. set_solver.
Qed.

Lemma avail_not_in h bl ids idx nb b : avail h bl ids idx nb → b ∈ idx → b ∉ nb.
Proof. intros [Hnd _] Hb Hn. apply NoDup_app in Hnd as (_ & Hd & _). apply (Hd b Hn). set_solver. Qed.

Lemma fill_direct_ok bl h n di ids idx nb :
  inode_rep bl di ids idx → avail h bl ids idx nb → len ids + Z.of_nat n ≤ Z.max 28 (len ids) → (n ≤ length nb)%nat →
  ∃ direct, fill_blocks n (di_direct di) (len ids) nb = Ok (direct, len ids + Z.of_nat n, drop n nb) ∧
    inode_rep bl (set_direct di direct) (ids ++ take n nb) idx ∧
    avail h bl (ids ++ take n nb) idx (drop n nb).
Proof.
  revert di ids nb. induction n as [|n IH]; intros di ids nb Hrep Hav Hn Hlen.
  { exists (di_direct di). rewrite Z.add_0_r, drop_0, take_0, app_nil_r. by destruct di. }
  destruct nb as [|y nb]; [simpl in Hlen; lia|].
  destruct (avail_cons _ _ _ _ _ _ Hav) as (Hy & Hp & Hf & _ & Hav' & _).
  assert (length (di_direct di) = 28%nat) as Hl by apply (rep_valid _ _ _ _ Hrep).
  cbn [fill_blocks next_block]. unfold vec_set. cbn [mbind res_bind]. rewrite decide_True by lia. cbn [mbind res_bind].
  rewrite add_w_small by (unfold fits; lia).
  edestruct (IH _ (ids ++ [y]) nb (push_direct _ _ _ _ Hrep y Hy Hf ltac:(lia) Hp) Hav') as (direct & Hfill & Hrep' & Hav'').
  { rewrite len_snoc. lia. } { simpl in Hlen. lia. }
  exists direct. rewrite len_snoc in Hfill. cbn [di_direct set_direct] in Hfill. rewrite Hfill.
  rewrite <- app_assoc in Hrep', Hav''. split; [|done]. do 3 f_equal. lia.
Qed.

Lemma set_words_twice bl b ws ws' : set_words (set_words bl b ws) b ws' = set_words bl b ws'.
Proof. apply insert_insert_eq. Qed.

Lemma set_words_comm bl b b' ws ws' :
  b ≠ b' → set_words (set_words bl b ws) b' ws' = set_words (set_words bl b' ws') b ws.
Proof. intros. by apply insert_insert_ne. Qed.

Lemma fill_ind1_ok bl h di n ws ids idx nb :
  inode_rep (set_words bl (di_indirect1 di) ws) di ids idx → words_valid 4 128 ws →
  avail h bl ids idx nb → 28 ≤ len ids → len ids - 28 + Z.of_nat n ≤ Z.max 128 (len ids - 28) → 1 ≤ len idx →
  (n ≤ length nb)%nat →
  ∃ ws', fill_blocks n ws (len ids - 28) nb = Ok (ws', len ids - 28 + Z.of_nat n, drop n nb) ∧
    words_valid 4 128 ws' ∧
    inode_rep (set_words bl (di_indirect1 di) ws') di (ids ++ take n nb) idx ∧
    avail h bl (ids ++ take n nb) idx (drop n nb).
Proof.
  revert ws ids nb. induction n as [|n IH]; intros ws ids nb Hrep Hws Hav H28 Hn Hidx Hlen.
  { exists ws. by rewrite Z.add_0_r, drop_0, take_0, app_nil_r. }
  destruct nb as [|y nb]; [simpl in Hlen; lia|].
  destruct (avail_cons _ _ _ _ _ _ Hav) as (Hy & Hp & Hf & _ & Hav' & _).
  assert (length ws = 128%nat) as Hl by apply Hws.
  cbn [fill_blocks next_block]. unfold vec_set. cbn [mbind res_bind]. rewrite decide_True by lia. cbn [mbind res_bind].
  rewrite add_w_small by (unfold fits; lia).
  pose proof (push_ind1_ptr _ _ _ _ Hrep y Hy Hf ws) as Hpush. rewrite set_words_twice in Hpush.
  destruct (IH (<[Z.to_nat (len ids - 28) := y]> ws) (ids ++ [y]) nb) as (ws' & Hfill & Hws' & Hrep' & Hav'').
  { apply Hpush; [lia|lia|by apply present_set|done|]. intros j. by apply ptr_at_set_eq. }
  { by apply words_valid_insert. } { done. }
  { rewrite len_snoc. lia. } { rewrite len_snoc. lia. } { lia. } { simpl in Hlen. lia. }
  rewrite len_snoc in Hfill. exists ws'. replace (len ids + 1 - 28) with (len ids - 28 + 1) in Hfill by lia.
  rewrite Hfill. rewrite <- app_assoc in Hrep', Hav''. split; [|done]. do 3 f_equal. lia.
Qed.

(** What a phase of [increase_size] achieves: the lists grow by the blocks taken from the
    iterator, no block disappears and only index blocks are written. *)
Definition grows (bl : gmap Z (list Z)) (ids idx nb : list Z)
    (bl' : gmap Z (list Z)) (ids' idx' : list Z) : Prop :=
  ∃ nd ni, ids' = ids ++ nd ∧ idx' = idx ++ ni ∧ nb ≡ₚ nd ++ ni ∧
    keeps bl bl' ∧ same_outside (λ b, b ∈ idx') bl bl'.

Lemma grows_refl bl ids idx : grows bl ids idx [] bl ids idx.
Proof.
  exists [], []. rewrite !app_nil_r. split; [done|]. split; [done|]. split; [done|].
  split; by intros b.
Qed.

Lemma grows_trans bl1 ids1 idx1 nb1 bl2 ids2 idx2 nb2 bl3 ids3 idx3 :
  grows bl1 ids1 idx1 nb1 bl2 ids2 idx2 → grows bl2 ids2 idx2 nb2 bl3 ids3 idx3 →
  grows bl1 ids1 idx1 (nb1 ++ nb2) bl3 ids3 idx3.
Proof.
  intros (nd1 & ni1 & -> & -> & Hp1 & Hk1 & Ho1) (nd2 & ni2 & -> & -> & Hp2 & Hk2 & Ho2).
  exists (nd1 ++ nd2), (ni1 ++ ni2). rewrite <- !app_assoc. split; [done|]. split; [done|]. split.
  - rewrite Hp1, Hp2. solve_Permutation.
  - split; [by intros b Hb; apply Hk2, Hk1|]. intros b Hb. rewrite Ho2, Ho1; [done|set_solver|].
    by rewrite <- app_assoc.
Qed.

Section FillIndirect2.
Context (h : gset Z) (di : DiskInode) (a1 b1 : Z).
Hypothesis Hb1 : 0 ≤ b1 < 128.
Hypothesis Htotal : 0 ≤ a1 * 128 + b1 ≤ 16384.
Hypothesis Hh : (size h < BLOCK_CACHE_SIZE)%nat.

(** Loop state: [ws2] is the array behind the held doubly indirect block. *)
Record loop_inv (bl : gmap Z (list Z)) (ws2 ids idx nb : list Z) : Prop := {
  li_rep : inode_rep (set_words bl (di_indirect2 di) ws2) di ids idx;
  li_words : words_valid 4 128 ws2;
  li_avail : avail h bl ids idx nb;
  li_free b : b ∈ idx → b ≠ di_indirect2 di → b ∉ h;
  li_present : present bl (di_indirect2 di);
  li_ids : 156 ≤ len ids ≤ 156 + (a1 * 128 + b1);
}.

Lemma keeps_present_other bl ws2 b :
  present (set_words bl (di_indirect2 di) ws2) b → present bl (di_indirect2 di) → present bl b.
Proof.
  intros (d & Hd & Hw) Hp. destruct (decide (b = di_indirect2 di)) as [->|]; [done|].
  exists d. split; [|done]. unfold set_words in Hd. by rewrite lookup_insert_ne in Hd by done.
Qed.

(** Allocating the next singly indirect block. *)
Lemma loop_alloc_sub bl ws2 ids idx x nb :
  loop_inv bl ws2 ids idx (x :: nb) → len idx = 2 + (len ids - 156) / 128 → (len ids - 156) mod 128 = 0 →
  len ids < 156 + (a1 * 128 + b1) →
  loop_inv bl (<[Z.to_nat ((len ids - 156) / 128) := x]> ws2) ids (idx ++ [x]) nb.
Proof.
  intros [Hrep Hws Hav Hfree Hpr Hids] Hidx Hmod Hlt.
  destruct (avail_cons _ _ _ _ _ _ Hav) as (Hx & Hp & Hf & Hxh & _ & Hav').
  split; [|by apply words_valid_insert|done| |done|done].
  - pose proof (push_ind2_ptr _ _ _ _ Hrep x Hx Hf ws2) as Hpush. rewrite set_words_twice in Hpush.
    replace ((len ids - 156) / 128) with (len idx - 2) by lia.
    apply Hpush; [lia|lia|by apply present_set|done|]. intros j. by apply ptr_at_set_eq.
  - intros b Hb Hne. apply elem_of_app in Hb as [Hb|Hb]; [by apply Hfree|]. set_solver.
Qed.

Lemma loop_sub_ne bl ws2 ids idx nb k sub :
  loop_inv bl ws2 ids idx nb → 2 ≤ k < len idx → idx !! Z.to_nat k = Some sub →
  sub ≠ di_indirect2 di ∧ ws2 !! Z.to_nat (k - 2) = Some sub.
Proof.
  intros [Hrep Hws _ _ _ _] Hk Hsub.
  assert (idx !! 1%nat = Some (di_indirect2 di)) as Hi2
    by (symmetry; exact (rep_idx _ _ _ _ Hrep 1 ltac:(lia))).
  split.
  - intros ->. assert (1 = k); [|lia]. by apply (idx_inj _ _ _ _ Hrep _ _ (di_indirect2 di)); [lia|lia| |].
  - rewrite <- (rep_idx _ _ _ _ Hrep k ltac:(lia)) in Hsub. unfold idx_id_of in Hsub.
    rewrite !decide_False in Hsub by lia. by rewrite ptr_at_set_eq in Hsub.
Qed.

(** Filling the next entry of the current singly indirect block. *)
Lemma loop_fill_sub bl ws2 ids idx y nb sub ws :
  loop_inv bl ws2 ids idx (y :: nb) → len idx = 2 + (len ids - 156) / 128 + 1 →
  idx !! Z.to_nat (2 + (len ids - 156) / 128) = Some sub → words_valid 4 128 ws →
  (∀ j, ptr_at bl sub j = ws !! Z.to_nat j) → len ids < 156 + (a1 * 128 + b1) →
  let bl' := set_words bl sub (<[Z.to_nat ((len ids - 156) mod 128) := y]> ws) in
  loop_inv bl' ws2 (ids ++ [y]) idx nb ∧ grows bl ids idx [y] bl' (ids ++ [y]) idx.
Proof.
  intros Hinv Hidx Hsub Hws Hptr Hlt. cbv zeta.
  pose proof (li_ids _ _ _ _ _ Hinv).
  destruct (loop_sub_ne _ _ _ _ _ (2 + (len ids - 156) / 128) _ Hinv ltac:(lia) Hsub) as [Hne _].
  destruct Hinv as [Hrep Hws2 Hav Hfree Hpr Hids].
  destruct (avail_cons _ _ _ _ _ _ Hav) as (Hy & Hp & Hf & Hyh & Hav' & _).
  assert (words_valid 4 128 (<[Z.to_nat ((len ids - 156) mod 128) := y]> ws)) as Hws' by by apply words_valid_insert.
  split; [split|].
  - rewrite set_words_comm by done.
    apply (push_sub_ptr _ _ _ _ Hrep y Hy Hf); [lia|done|by apply present_set|done|done|].
    intros j. by rewrite ptr_at_set_ne by done.
  - done.
  - eapply avail_keeps; [by apply keeps_set|done].
  - done.
  - by apply present_set.
  - rewrite len_snoc. lia.
  - exists [y], []. rewrite app_nil_r. split; [done|]. split; [done|]. split; [done|].
    split; [by apply keeps_set|]. intros b Hb. unfold set_words. rewrite lookup_insert_ne; [done|].
    intros ->. apply Hb. by eapply list_elem_of_lookup_2.
Qed.

Lemma loop_sub_lockable bl ws2 ids idx nb k sub :
  loop_inv bl ws2 ids idx nb → 2 ≤ k < len idx → idx !! Z.to_nat k = Some sub → idx_lockable h bl sub.
Proof.
  intros Hinv Hk Hsub. destruct (loop_sub_ne _ _ _ _ _ _ _ Hinv Hk Hsub) as [Hne _].
  destruct Hinv as [Hrep _ _ Hfree Hpr _]. apply list_elem_of_lookup_2 in Hsub.
  split; [by apply Hfree|]. split; [done|]. eapply keeps_present_other; [|done].
  apply (rep_present _ _ _ _ Hrep). set_solver.
Qed.

Lemma fill_step {A} bl ws2 ids idx y nb (k : list Z → prog A) Q :
  loop_inv bl ws2 ids idx (y :: nb) → len idx = 2 + (len ids - 156) / 128 + 1 →
  len ids < 156 + (a1 * 128 + b1) →
  (∀ bl', loop_inv bl' ws2 (ids ++ [y]) idx nb → grows bl ids idx [y] bl' (ids ++ [y]) idx →
     wp h (k nb) bl' Q) →
  wp h (id ← prog_lift (vec_get ws2 ((len ids - 156) / 128));
        new_blocks ← block_modify IndirectBlock id 0 (λ indirect1,
          '(b, rest) ← prog_lift (next_block (y :: nb));
          indirect1 ← prog_lift (vec_set indirect1 ((len ids - 156) mod 128) b);
          mret (rest, indirect1));
        k new_blocks) bl Q.
Proof.
  intros Hinv Hidx Hlt Hk. pose proof (li_ids _ _ _ _ _ Hinv) as Hids.
  set (a := (len ids - 156) / 128) in *.
  destruct (lookup_lt_is_Some_2 idx (Z.to_nat (2 + a))) as [sub Hsub]; [lia|].
  destruct (loop_sub_ne _ _ _ _ _ (2 + a) _ Hinv ltac:(lia) Hsub) as [Hne Hws2].
  replace (2 + a - 2) with a in Hws2 by lia.
  apply (wp_lift _ _ sub); [by unfold vec_get; rewrite Hws2|].
  apply wp_bind, wp_modify_idx; [by apply (loop_sub_lockable _ _ _ _ _ (2 + a) _ Hinv); [lia|]|].
  intros ws Hws Hptr _. apply (wp_lift _ _ (y, nb)); [done|].
  apply (wp_lift _ _ (<[Z.to_nat ((len ids - 156) mod 128) := y]> ws)).
  { unfold vec_set. rewrite decide_True; [done|]. destruct Hws as [-> _]. lia. }
  apply wp_ret. cbn [fst snd].
  destruct (loop_fill_sub _ _ _ _ _ _ _ ws Hinv Hidx Hsub Hws Hptr Hlt) as [Hinv' Hg].
  split; [|by apply Hk]. apply words_valid_insert; [done|].
  by destruct (avail_cons _ _ _ _ _ _ (li_avail _ _ _ _ _ Hinv)) as (_ & _ & ? & _).
Qed.

Definition fill_post (bl : gmap Z (list Z)) (ids idx nb ws2' : list Z) (bl' : gmap Z (list Z)) : Prop :=
  words_valid 4 128 ws2' ∧ ∃ ids' idx',
    inode_rep (set_words bl' (di_indirect2 di) ws2') di ids' idx' ∧
    grows bl ids idx nb bl' ids' idx' ∧
    len ids' = 156 + (a1 * 128 + b1) ∧ len idx' = 2 + (a1 * 128 + b1 + 127) / 128.

Lemma fill_post_trans bl ids idx nb1 bl0 ids0 idx0 nb2 ws bl' :
  grows bl ids idx nb1 bl0 ids0 idx0 → fill_post bl0 ids0 idx0 nb2 ws bl' →
  fill_post bl ids idx (nb1 ++ nb2) ws bl'.
Proof.
  intros Hg (? & ids' & idx' & ? & Hg' & ?). split; [done|]. exists ids', idx'.
  split; [done|]. split; [by eapply grows_trans|done].
Qed.

(** The step from (a0, b0) to the next position. *)
Lemma next_position n ws2 m nb :
  0 ≤ m ≤ 16384 →
  (if decide ((m mod 128 + 1)%usize = INODE_INDIRECT1_COUNT)
   then fill_indirect2 n a1 b1 ws2 (m / 128 + 1)%usize 0 nb
   else fill_indirect2 n a1 b1 ws2 (m / 128) (m mod 128 + 1)%usize nb) =
  fill_indirect2 n a1 b1 ws2 ((m + 1) / 128) ((m + 1) mod 128) nb.
Proof.
  intros Hm. rewrite !add_w_small by (unfold fits; lia). change INODE_INDIRECT1_COUNT with 128.
  case_decide; f_equal; lia.
Qed.

Lemma loop_guard m :
  (bool_decide (m / 128 < a1) || (bool_decide (m / 128 = a1) && bool_decide (m mod 128 < b1))) =
  bool_decide (m < a1 * 128 + b1).
Proof.
  apply eq_true_iff_eq.
  rewrite orb_true_iff, andb_true_iff, !bool_decide_eq_true. lia.
Qed.

Lemma fill_indirect2_ok n bl ws2 ids idx nb :
  loop_inv bl ws2 ids idx nb →
  a1 * 128 + b1 - (len ids - 156) = Z.of_nat n →
  len idx = 2 + (len ids - 156 + 127) / 128 →
  len nb = Z.of_nat n + ((a1 * 128 + b1 + 127) / 128 - (len ids - 156 + 127) / 128) →
  wp h (fill_indirect2 n a1 b1 ws2 ((len ids - 156) / 128) ((len ids - 156) mod 128) nb) bl
    (fill_post bl ids idx nb).
Proof.
  revert bl ws2 ids idx nb. induction n as [|n IH]; intros bl ws2 ids idx nb Hinv Hn Hidx Hnb;
    pose proof (li_ids _ _ _ _ _ Hinv) as Hids; cbn [fill_indirect2]; rewrite loop_guard.
  { rewrite bool_decide_eq_false_2 by lia. apply wp_ret. split; [apply Hinv|].
    exists ids, idx. split; [apply Hinv|].
    assert (nb = []) as -> by (destruct nb; [done|simpl in Hnb; lia]).
    split; [apply grows_refl|lia]. }
  rewrite bool_decide_eq_true_2 by lia.
  destruct (decide ((len ids - 156) mod 128 = 0)) as [Hm|Hm].
  - destruct nb as [|x [|y nb]]; [simpl in Hnb; lia..|].
    apply wp_bind. apply (wp_lift _ _ (x, y :: nb)); [done|].
    apply (wp_lift _ _ (<[Z.to_nat ((len ids - 156) / 128) := x]> ws2)).
    { unfold vec_set. rewrite decide_True; [done|]. destruct (li_words _ _ _ _ _ Hinv) as [-> _]. lia. }
    apply wp_ret. pose proof (loop_alloc_sub _ _ _ _ _ _ Hinv ltac:(lia) Hm ltac:(lia)) as Hinv1.
    eapply fill_step; [exact Hinv1|rewrite len_snoc; lia|lia|]. intros bl' Hinv2 Hg2.
    rewrite next_position by lia. specialize (IH _ _ _ _ _ Hinv2). rewrite !len_snoc in IH.
    replace (len ids + 1 - 156) with (len ids - 156 + 1) in IH by lia.
    eapply wp_mono; [apply IH; simpl in Hnb; lia|]. intros ws bl'' Hpost.
    apply (fill_post_trans _ _ _ [x] bl ids (idx ++ [x]) (y :: nb)).
    + exists [], [x]. rewrite app_nil_r. split; [done|]. split; [done|]. split; [done|]. split; by intros b.
    + by apply (fill_post_trans _ _ _ [y] bl' (ids ++ [y]) (idx ++ [x]) nb).
  - destruct nb as [|y nb]; [simpl in Hnb; lia|]. apply wp_bind, wp_ret.
    eapply fill_step; [exact Hinv|lia|lia|]. intros bl' Hinv2 Hg2.
    rewrite next_position by lia. specialize (IH _ _ _ _ _ Hinv2). rewrite !len_snoc in IH.
    replace (len ids + 1 - 156) with (len ids - 156 + 1) in IH by lia.
    eapply wp_mono; [apply IH; simpl in Hnb; lia|]. intros ws bl'' Hpost.
    by apply (fill_post_trans _ _ _ [y] bl' (ids ++ [y]) idx nb).
Qed.
End FillIndirect2.

Lemma data_blocks_eq size : 0 ≤ size < 2 ^ 31 → data_blocks_of size = (size + 511) / 512.
Proof.
  intros Hs. unfold data_blocks_of, BLOCK_SZ.
  rewrite (add_w_small 32 size) by (unfold fits; lia). rewrite sub_w_small by (unfold fits; lia).
  f_equal. lia.
Qed.

(** The largest file has all doubly indirect blocks in use. *)
Definition MAX_BLOCKS : Z := 28 + 128 + 128 * 128.

Lemma total_blocks_eq size :
  0 ≤ size ≤ MAX_BLOCKS * 512 →
  DiskInode_total_blocks size = data_blocks_of size + nidx (data_blocks_of size).
Proof.
  unfold MAX_BLOCKS. intros Hs. pose proof (data_blocks_eq size ltac:(lia)) as Hd.
  unfold DiskInode_total_blocks, nidx. change INODE_DIRECT_COUNT with 28.
  change INDIRECT1_BOUND with 156. change INODE_INDIRECT1_COUNT with 128.
  assert (0 ≤ data_blocks_of size ≤ 16540) as Hr by lia. clear Hd. generalize dependent (data_blocks_of size).
  intros n Hn. destruct (decide (n > 28)); [rewrite (decide_False (P := n ≤ 28)) by lia|].
  - rewrite (add_w_small 64 n) by (unfold fits; lia). case_decide.
    + rewrite decide_False by lia. rewrite (sub_w_small 64 n) by (unfold fits; lia).
      rewrite (add_w_small 64 (n - 156)) by (unfold fits; lia). rewrite sub_w_small by (unfold fits; lia).
      rewrite (add_w_small 64 (n + 1)) by (unfold fits; lia). rewrite add_w_small by (unfold fits; lia).
      rewrite wrap_small by (unfold fits; lia). replace (n - 156 + 128 - 1) with (n - 156 + 127) by lia. lia.
    + rewrite decide_True by lia. by rewrite wrap_small by (unfold fits; lia).
  - rewrite (decide_False (P := n > 156)), (decide_True (P := n ≤ 28)) by lia.
    rewrite wrap_small by (unfold fits; lia). lia.
Qed.

Lemma rep_set_size bl di ids idx size :
  inode_rep bl di ids idx → fits 32 size → inode_rep bl (set_size di size) ids idx.
Proof. intros [? ? ? ? ? (? & ? & ? & ?)] Hs. split; try done. Qed.

(** Before the indirect block is filled it is allocated, if the file had none. *)
Lemma alloc_ind1_ok h bl di ids idx nb :
  inode_rep bl di ids idx → avail h bl ids idx nb → 28 ≤ len ids → len idx = nidx (len ids) →
  (len ids = 28 → 1 ≤ len nb) →
  ∃ b used nb' idx',
    (if decide (len ids = INODE_DIRECT_COUNT) then next_block nb else mret (di_indirect1 di, nb)) = Ok (b, nb') ∧
    inode_rep bl (set_indirect1 di b) ids idx' ∧ avail h bl ids idx' nb' ∧ nb = used ++ nb' ∧
    grows bl ids idx used bl ids idx' ∧ len idx' = nidx (Z.max 29 (len ids)).
Proof.
  intros Hrep Hav H28 Hidx Hnb. change INODE_DIRECT_COUNT with 28. unfold nidx in Hidx.
  destruct (decide (len ids = 28)).
  - rewrite decide_True in Hidx by lia. destruct nb as [|y nb]; [simpl in Hnb; lia|].
    destruct (avail_cons _ _ _ _ _ _ Hav) as (Hy & Hp & Hf & _ & _ & Hav').
    exists y, [y], nb, (idx ++ [y]). split; [done|]. split; [by apply push_indirect1|].
    split; [done|]. split; [done|]. split.
    + exists [], [y]. rewrite app_nil_r. split; [done|]. split; [done|]. split; [done|]. split; by intros b.
    + rewrite len_snoc, Hidx. rewrite Z.max_l by lia. done.
  - exists (di_indirect1 di), [], nb, idx. split; [done|]. split; [by destruct di|]. split; [done|].
    split; [done|]. split; [apply grows_refl|]. rewrite Hidx. rewrite Z.max_r by lia. done.
Qed.

Lemma alloc_ind2_ok h bl di ids idx nb :
  inode_rep bl di ids idx → avail h bl ids idx nb → 156 ≤ len ids → len idx = nidx (len ids) →
  (len ids = 156 → 1 ≤ len nb) →
  ∃ b used nb' idx',
    (if decide (len ids - 28 = INODE_INDIRECT1_COUNT) then next_block nb else mret (di_indirect2 di, nb)) = Ok (b, nb') ∧
    inode_rep bl (set_indirect2 di b) ids idx' ∧ avail h bl ids idx' nb' ∧ nb = used ++ nb' ∧
    grows bl ids idx used bl ids idx' ∧ len idx' = 2 + (len ids - 156 + 127) / 128.
Proof.
  intros Hrep Hav H156 Hidx Hnb. change INODE_INDIRECT1_COUNT with 128. unfold nidx in Hidx.
  rewrite decide_False in Hidx by lia. destruct (decide (len ids - 28 = 128)).
  - rewrite decide_True in Hidx by lia. destruct nb as [|y nb]; [simpl in Hnb; lia|].
    destruct (avail_cons _ _ _ _ _ _ Hav) as (Hy & Hp & Hf & _ & _ & Hav').
    exists y, [y], nb, (idx ++ [y]). split; [done|]. split; [by apply push_indirect2|].
    split; [done|]. split; [done|]. split.
    + exists [], [y]. rewrite app_nil_r. split; [done|]. split; [done|]. split; [done|]. split; by intros b.
    + rewrite len_snoc, Hidx. lia.
  - rewrite decide_False in Hidx by lia. exists (di_indirect2 di), [], nb, idx. split; [done|].
    split; [by destruct di|]. split; [done|]. split; [done|]. split; [apply grows_refl|done].
Qed.

Definition increase_post (bl : gmap Z (list Z)) (di : DiskInode) (ids idx nb : list Z) (n : Z)
    (di' : DiskInode) (bl' : gmap Z (list Z)) : Prop :=
  di_size di' = di_size di ∧ di_type di' = di_type di ∧ ∃ ids' idx',
    inode_rep bl' di' ids' idx' ∧ grows bl ids idx nb bl' ids' idx' ∧
    len ids' = n ∧ len idx' = nidx n.

Lemma increase_post_trans bl di ids idx nb1 bl1 di1 ids1 idx1 nb2 n di' bl' :
  di_size di1 = di_size di → di_type di1 = di_type di → grows bl ids idx nb1 bl1 ids1 idx1 →
  increase_post bl1 di1 ids1 idx1 nb2 n di' bl' →
  increase_post bl di ids idx (nb1 ++ nb2) n di' bl'.
Proof.
  intros Hs Ht Hg (Hs' & Ht' & ids' & idx' & Hr & Hg' & Hl). split; [congruence|]. split; [congruence|].
  exists ids', idx'. split; [done|]. split; [by eapply grows_trans|done].
Qed.

(** The last phase: filling the doubly indirect blocks. *)
Lemma fill_phase3 h bl di ids idx nb n :
  inode_rep bl di ids idx → avail h bl ids idx nb → tree_free h idx →
  156 ≤ len ids ≤ n → n ≤ MAX_BLOCKS → 156 < n →
  len idx = 2 + (len ids - 156 + 127) / 128 →
  len nb = (n - len ids) + (nidx n - len idx) →
  wp h (_ ← block_modify IndirectBlock (di_indirect2 di) 0 (λ indirect2,
          indirect2 ← fill_indirect2 (Z.to_nat (n - 156 - (len ids - 156)))
            ((n - 156) / 128) ((n - 156) mod 128) indirect2
            ((len ids - 156) / 128) ((len ids - 156) mod 128) nb;
          mret (tt, indirect2));
        mret di) bl (increase_post bl di ids idx nb n).
Proof.
  unfold MAX_BLOCKS. intros Hrep Hav [Hsz Hfree] Hids Hmax Hn Hidx Hnb. unfold nidx in Hnb. rewrite !decide_False in Hnb by lia.
  assert (idx !! 1%nat = Some (di_indirect2 di)) as Hi2
    by (symmetry; exact (rep_idx _ _ _ _ Hrep 1 ltac:(lia))).
  assert (di_indirect2 di ∈ idx) as Hin by by eapply list_elem_of_lookup_2.
  apply wp_bind, wp_modify_idx; [by apply (idx_lockable_of _ _ _ _ Hrep h 1)|].
  intros ws Hws _ Hset. apply wp_bind.
  pose proof (Z.div_mod (n - 156) 128 ltac:(lia)) as Hdm.
  eapply wp_mono; [eapply (fill_indirect2_ok _ di) with (idx := idx); try lia|].
  - rewrite size_union, size_singleton; [lia|]. pose proof (Hfree _ Hin). set_solver.
  - split; [by rewrite Hset|done|apply avail_held; [by eapply avail_not_in|done]| | |lia].
    + intros b Hb Hne. pose proof (Hfree b Hb). set_solver.
    + apply (rep_present _ _ _ _ Hrep). set_solver.
  - intros ws2 bl' (Hws2 & ids' & idx' & Hrep' & Hg & Hl1 & Hl2). apply wp_ret. split; [done|]. apply wp_ret.
    split; [done|]. split; [done|]. exists ids', idx'. split; [done|]. split; [|unfold nidx; rewrite !decide_False by lia; lia].
    destruct Hg as (nd & ni & -> & -> & Hp & Hk & Ho). exists nd, ni. split; [done|]. split; [done|]. split; [done|].
    split; [intros b Hb; by apply present_set, Hk|].
    intros b Hb. unfold set_words. rewrite lookup_insert_ne; [by apply Ho|set_solver].
Qed.

Lemma grows_len bl ids idx nb bl' ids' idx' :
  grows bl ids idx nb bl' ids' idx' → len nb = (len ids' - len ids) + (len idx' - len idx).
Proof.
  intros (nd & ni & -> & -> & Hp & _). rewrite Hp, !length_app. lia.
Qed.

Lemma grows_tree_free h bl ids idx used nb bl' ids' idx' :
  tree_free h idx → avail h bl ids idx (used ++ nb) → grows bl ids idx used bl' ids' idx' →
  tree_free h idx'.
Proof.
  intros [Hsz Hf] [_ Hall] (nd & ni & -> & -> & Hp & _). split; [done|].
  intros b [Hb|Hb]%elem_of_app; [by apply Hf|]. rewrite Forall_forall in Hall.
  destruct (Hall b) as (_ & _ & ?); [|done]. apply elem_of_app. left. rewrite Hp. set_solver.
Qed.

(** From the allocation of the doubly indirect block on. *)
Lemma fill_tail2 h bl di ids idx nb n :
  inode_rep bl di ids idx → avail h bl ids idx nb → tree_free h idx →
  Z.min n 156 ≤ len ids ≤ n → n ≤ MAX_BLOCKS → 28 < n → 28 < len ids → len idx = nidx (len ids) →
  len nb = (n - len ids) + (nidx n - len idx) →
  wp h (if negb (bool_decide (n - 28 > INODE_INDIRECT1_COUNT)) then mret di else
        '(indirect2, new_blocks) ← prog_lift
          (if decide (len ids - 28 = INODE_INDIRECT1_COUNT) then next_block nb
           else mret (di_indirect2 di, nb));
        let self := set_indirect2 di indirect2 in
        let current_blocks := ((len ids - 28)%Z - INODE_INDIRECT1_COUNT)%u32 in
        let total_blocks := ((n - 28)%Z - INODE_INDIRECT1_COUNT)%u32 in
        _ ← block_modify IndirectBlock (di_indirect2 self) 0 (λ indirect2,
          indirect2 ← fill_indirect2 (Z.to_nat (total_blocks - current_blocks))
            (total_blocks / INODE_INDIRECT1_COUNT) (total_blocks mod INODE_INDIRECT1_COUNT) indirect2
            (current_blocks / INODE_INDIRECT1_COUNT) (current_blocks mod INODE_INDIRECT1_COUNT) new_blocks;
          mret (tt, indirect2));
        mret self) bl (increase_post bl di ids idx nb n).
Proof.
  unfold MAX_BLOCKS. intros Hrep Hav Htree Hids Hmax Hn H28 Hidx Hnb. change INODE_INDIRECT1_COUNT with 128 in *.
  destruct (decide (n - 28 > 128)); [rewrite bool_decide_eq_true_2 by done|rewrite bool_decide_eq_false_2 by done];
    cbn [negb].
  2: { assert (len ids = n) as Hn' by lia. apply wp_ret. split; [done|]. split; [done|].
       exists ids, idx. rewrite Hn' in Hidx. split; [done|]. split; [|done].
       replace nb with (@nil Z) by (destruct nb; [done|simpl in Hnb; lia]). apply grows_refl. }
  destruct (alloc_ind2_ok h bl di ids idx nb) as
    (b & used & nb3 & idx3 & Halloc & Hrep3 & Hav3 & -> & Hg3 & Hidx3);
    [done|done|lia|done|unfold nidx in *; repeat case_decide; lia|].
  eapply wp_lift; [exact Halloc|]. cbv zeta. rewrite !sub_w_small by (unfold fits; lia).
  replace (n - 28 - 128) with (n - 156) by lia. replace (len ids - 28 - 128) with (len ids - 156) by lia.
  pose proof (grows_len _ _ _ _ _ _ _ Hg3) as Hlen. rewrite length_app in Hnb.
  eapply wp_mono; [apply (fill_phase3 h bl (set_indirect2 di b) ids idx3 nb3 n);
    [done|done|by eapply grows_tree_free|lia|unfold MAX_BLOCKS; lia|lia|lia|lia]|].
  intros di' bl' Hpost. by apply (increase_post_trans _ _ _ _ _ bl (set_indirect2 di b) ids idx3).
Qed.

(** From the indirect block on. *)
Lemma fill_phase2 {A} h bl di ids idx nb n (k : Z → list Z → prog A) Q :
  inode_rep bl di ids idx → avail h bl ids idx nb → tree_free h idx →
  28 ≤ len ids ≤ n → 28 < n → len idx = nidx (Z.max 29 (len ids)) →
  len nb = (n - len ids) + (nidx n - len idx) →
  (∀ bl2 ids2 used nb2, inode_rep bl2 di ids2 idx → avail h bl2 ids2 idx nb2 → nb = used ++ nb2 →
     grows bl ids idx used bl2 ids2 idx → len ids2 = Z.max (len ids) (Z.min n 156) →
     wp h (k (len ids2 - 28) nb2) bl2 Q) →
  wp h ('(current_blocks, new_blocks) ← block_modify IndirectBlock (di_indirect1 di) 0 (λ indirect1,
          '(indirect1, current_blocks, new_blocks) ← prog_lift
            (fill_blocks (Z.to_nat (Z.min (n - 28) INODE_INDIRECT1_COUNT - (len ids - 28)))
               indirect1 (len ids - 28) nb);
          mret ((current_blocks, new_blocks), indirect1));
        k current_blocks new_blocks) bl Q.
Proof.
  intros Hrep Hav Htree Hids Hn Hidx Hnb Hk. change INODE_INDIRECT1_COUNT with 128.
  set (c := Z.to_nat (Z.min (n - 28) 128 - (len ids - 28))).
  assert (1 ≤ len idx ∧ Z.of_nat c ≤ len nb) as [Hidx1 Hc] by (unfold nidx in *; repeat case_decide; lia).
  assert (idx !! 0%nat = Some (di_indirect1 di)) as Hi1
    by (symmetry; exact (rep_idx _ _ _ _ Hrep 0 ltac:(lia))).
  apply wp_bind, wp_modify_idx; [by apply (idx_lockable_of _ _ _ _ Hrep h 0)|].
  intros ws Hws _ Hset.
  destruct (fill_ind1_ok bl h di c ws ids idx nb) as (ws' & Hfill & Hws' & Hrep2 & Hav2);
    [by rewrite Hset|done|done|lia|lia|lia|lia|].
  eapply wp_lift; [exact Hfill|]. apply wp_ret. split; [done|]. cbn [fst snd].
  assert (len (ids ++ take c nb) = len ids + Z.of_nat c) as Hlen by (rewrite length_app, length_take; lia).
  replace (len ids - 28 + Z.of_nat c) with (len (ids ++ take c nb) - 28) by lia.
  apply (Hk _ _ (take c nb)); [done| |by rewrite take_drop| |lia].
  - eapply avail_keeps; [by apply keeps_set|done].
  - exists (take c nb), []. rewrite !app_nil_r. split; [done|]. split; [done|]. split; [done|].
    split; [by apply keeps_set|]. intros b Hb. unfold set_words. rewrite lookup_insert_ne; [done|].
    intros <-. apply Hb. by eapply list_elem_of_lookup_2.
Qed.

Lemma nidx_mid n m : 28 ≤ n → 28 < m → nidx (Z.max 29 n) = nidx (Z.max n (Z.min m 156)).
Proof.
  intros. destruct (decide (n ≤ 156)); [|f_equal; lia].
  unfold nidx. repeat case_decide; lia.
Qed.

Lemma increase_size_ok h bl di ids idx nb new_size :
  inode_rep bl di ids idx → avail h bl ids idx nb → tree_free h idx →
  len ids = DiskInode_data_blocks di → len idx = nidx (len ids) →
  di_size di ≤ new_size ≤ MAX_BLOCKS * 512 →
  len nb = DiskInode_total_blocks new_size - DiskInode_total_blocks (di_size di) →
  wp h (DiskInode_increase_size di new_size nb) bl
    (increase_post bl (set_size di new_size) ids idx nb (data_blocks_of new_size)).
Proof.
  intros Hrep Hav Htree Hids Hidx Hsize Hnb.
  assert (fits 32 (di_size di)) as Hf by apply (rep_valid _ _ _ _ Hrep). unfold fits in Hf.
  rewrite !total_blocks_eq in Hnb by lia. unfold DiskInode_data_blocks in Hids. rewrite <- Hids in Hnb.
  unfold MAX_BLOCKS in Hsize. unfold DiskInode_increase_size, DiskInode_data_blocks. cbn [di_size]. cbv zeta.
  pose proof (data_blocks_eq new_size ltac:(lia)) as Hn. rewrite <- Hids.
  rewrite data_blocks_eq in Hids by lia. set (n := data_blocks_of new_size) in *.
  change INODE_DIRECT_COUNT with 28. set (c := Z.to_nat (Z.min n 28 - len ids)).
  assert (Z.of_nat c ≤ len nb) by (unfold nidx in *; repeat case_decide; lia).
  pose proof (rep_set_size _ _ _ _ new_size Hrep ltac:(unfold fits; lia)) as Hrep0.
  set (di0 := set_size di new_size) in *. change (di_size di0) with new_size. fold n c.
  destruct (fill_direct_ok bl h c di0 ids idx nb Hrep0 Hav ltac:(lia) ltac:(lia)) as (direct & Hfill & Hrep1 & Hav1).
  eapply wp_lift; [exact Hfill|]. set (ids1 := ids ++ take c nb) in *.
  assert (len ids1 = len ids + Z.of_nat c) as Hids1 by (unfold ids1; rewrite length_app, length_take; lia).
  assert (grows bl ids idx (take c nb) bl ids1 idx) as Hg1.
  { exists (take c nb), []. rewrite !app_nil_r. split; [done|]. split; [done|]. split; [done|]. split; by intros b. }
  destruct (decide (n > 28)); [rewrite bool_decide_eq_true_2 by done|rewrite bool_decide_eq_false_2 by done];
    cbn [negb].
  2: { apply wp_ret. split; [done|]. split; [done|]. exists ids1, idx. split; [done|].
       rewrite (take_ge nb) in Hg1 by (unfold nidx in *; repeat case_decide; lia).
       split; [done|]. unfold nidx in *. repeat case_decide; lia. }
  rewrite <- Hids1.
  destruct (alloc_ind1_ok h bl (set_direct di0 direct) ids1 idx (drop c nb)) as
    (b & used & nb2 & idx2 & Halloc & Hrep2 & Hav2 & Hused & Hg2 & Hidx2);
    [done|done|lia|unfold nidx in *; repeat case_decide; lia
    |rewrite length_drop; unfold nidx in *; repeat case_decide; lia|].
  eapply wp_lift; [exact Halloc|]. rewrite !(sub_w_small 32 _ 28) by (unfold fits; lia).
  pose proof (grows_len _ _ _ _ _ _ _ Hg2) as Hlen2.
  assert (len nb = Z.of_nat c + len used + len nb2) as Hlen
    by (rewrite <- (take_drop c nb), Hused, !length_app, length_take; lia).
  eapply fill_phase2; [done|done|eapply grows_tree_free; [done| |done]; by rewrite <- Hused|lia|lia|done|lia|].
  intros bl3 ids3 used3 nb3 Hrep3 Hav3 -> Hg3 Hids3.
  pose proof (grows_len _ _ _ _ _ _ _ Hg3) as Hlen3. rewrite length_app in Hlen.
  eapply wp_mono; [apply (fill_tail2 h bl3 (set_indirect1 (set_direct di0 direct) b) ids3 idx2 nb3 n);
    [done|done|eapply grows_tree_free; [done| |done]; by rewrite <- Hused|lia|unfold MAX_BLOCKS; lia|lia|lia
    |rewrite Hidx2, Hids3; apply nidx_mid; lia|lia]|].
  intros di' bl' Hpost. rewrite <- (take_drop c nb), Hused.
  apply (increase_post_trans _ _ _ _ _ bl di0 ids1 idx); [done|done|done|].
  apply (increase_post_trans _ _ _ _ _ bl di0 ids1 idx2); [done|done|done|].
  by apply (increase_post_trans _ _ _ _ _ bl3 (set_indirect1 (set_direct di0 direct) b) ids3 idx2).
Qed.

(** * [clear_size] *)

Lemma take_drop_eq (m off : nat) (l l' : list Z) :
  (∀ j, (j < m)%nat → l !! j = l' !! (off + j)%nat) → take m l = take m (drop off l').
Proof.
  intros Hj. apply list_eq. intros i. destruct (decide (i < m)%nat).
  - rewrite !lookup_take_lt, lookup_drop by done. by apply Hj.
  - by rewrite !lookup_take_ge by lia.
Qed.

Lemma take_direct_ok n arr cur v :
  (cur + n ≤ length arr)%nat → Z.of_nat (length arr) < 2 ^ 32 →
  ∃ arr', take_direct n arr (Z.of_nat cur) v = Ok (arr', v ++ take n (drop cur arr)) ∧
    length arr' = length arr ∧ (Forall (fits 32) arr → Forall (fits 32) arr').
Proof.
  revert arr cur v. induction n as [|n IH]; intros arr cur v Hn Hmax.
  { exists arr. rewrite take_0, app_nil_r. done. }
  destruct (lookup_lt_is_Some_2 arr cur) as [b Hb]; [lia|]. cbn [take_direct].
  unfold vec_get, vec_set. rewrite Nat2Z.id, Hb. cbn [unwrap mbind res_bind]. rewrite decide_True by lia.
  cbn [mbind res_bind]. rewrite add_w_small by (unfold fits; lia).
  replace (Z.of_nat cur + 1) with (Z.of_nat (S cur)) by lia.
  destruct (IH (<[cur := 0]> arr) (S cur) (vec_push v b)) as (arr' & -> & Hl & Hf);
    rewrite ?length_insert in *; [lia|lia|].
  exists arr'. rewrite (drop_S _ _ _ Hb). cbn [take]. unfold vec_push. rewrite <- app_assoc. simpl.
  rewrite drop_insert_lt by lia. split; [done|]. split; [done|]. intros Ha. apply Hf.
  apply Forall_insert; [done|]. unfold fits. lia.
Qed.

Lemma take_indirect1_ok n arr cur v :
  (cur + n ≤ length arr)%nat → Z.of_nat (length arr) < 2 ^ 32 →
  take_indirect1 n arr (Z.of_nat cur) v = Ok (v ++ take n (drop cur arr)).
Proof.
  revert cur v. induction n as [|n IH]; intros cur v Hn Hmax; cbn [take_indirect1].
  { by rewrite take_0, app_nil_r. }
  destruct (lookup_lt_is_Some_2 arr cur) as [b Hb]; [lia|].
  unfold vec_get. rewrite Nat2Z.id, Hb. cbn [unwrap mbind res_bind]. rewrite add_w_small by (unfold fits; lia).
  replace (Z.of_nat cur + 1) with (Z.of_nat (S cur)) by lia. rewrite IH by lia.
  rewrite (drop_S _ _ _ Hb). cbn [take]. unfold vec_push. by rewrite <- app_assoc.
Qed.

Section Clear.
Context (bl : gmap Z (list Z)) (di : DiskInode) (ids idx : list Z).
Context (Hrep : inode_rep bl di ids idx).

Lemma rep_direct_words : take (Z.to_nat (Z.min (len ids) 28)) (di_direct di) = take 28 ids.
Proof.
  assert (length (di_direct di) = 28%nat) by apply (rep_valid _ _ _ _ Hrep).
  rewrite (take_drop_eq _ 0 _ ids).
  - rewrite drop_0. destruct (decide (28 ≤ len ids)); [f_equal; lia|]. rewrite !take_ge by lia. done.
  - intros j Hj. pose proof (rep_ids _ _ _ _ Hrep (Z.of_nat j) ltac:(lia)) as Hi. unfold block_id_of in Hi.
    rewrite decide_True, Nat2Z.id in Hi by lia. done.
Qed.

Lemma rep_ind1_words ws m :
  (∀ j, ptr_at bl (di_indirect1 di) j = ws !! Z.to_nat j) →
  Z.of_nat m ≤ 128 → Z.of_nat m ≤ len ids - 28 → take m ws = take m (drop 28 ids).
Proof.
  intros Hws Hm1 Hm2. apply take_drop_eq. intros j Hj.
  pose proof (rep_ids _ _ _ _ Hrep (28 + Z.of_nat j) ltac:(lia)) as Hi. unfold block_id_of in Hi.
  rewrite decide_False, decide_True, Hws in Hi by lia.
  replace (Z.to_nat (28 + Z.of_nat j - 28)) with j in Hi by lia. rewrite Hi. f_equal. lia.
Qed.

Lemma rep_sub_words ws (k : nat) sub m :
  idx !! (2 + k)%nat = Some sub → (∀ j, ptr_at bl sub j = ws !! Z.to_nat j) →
  Z.of_nat m ≤ 128 → 156 + 128 * Z.of_nat k + Z.of_nat m ≤ len ids →
  take m ws = take m (drop (156 + 128 * k) ids).
Proof.
  intros Hsub Hws Hm1 Hm2. apply take_drop_eq. intros j Hj.
  pose proof (rep_ids _ _ _ _ Hrep (156 + 128 * Z.of_nat k + Z.of_nat j) ltac:(lia)) as Hi.
  unfold block_id_of in Hi. rewrite !decide_False in Hi by lia.
  replace ((_ - 156) / 128) with (Z.of_nat k) in Hi by lia.
  destruct (idx_sub _ _ _ _ Hrep (Z.of_nat k)) as (sub' & Hsub' & Hp); [lia|lia|].
  replace (Z.to_nat (2 + Z.of_nat k)) with (2 + k)%nat in Hsub' by lia.
  assert (sub' = sub) as -> by congruence. rewrite Hp in Hi. simpl in Hi.
  rewrite Hws in Hi. replace (Z.to_nat ((_ - 156) mod 128)) with j in Hi by lia. rewrite Hi. f_equal. lia.
Qed.

Lemma rep_ind2_words ws :
  (∀ j, ptr_at bl (di_indirect2 di) j = ws !! Z.to_nat j) →
  2 ≤ len idx → take (length (drop 2 idx)) ws = drop 2 idx.
Proof.
  intros Hws Hlen. rewrite (take_drop_eq _ 2 _ idx); [by rewrite take_ge|].
  intros j Hj. rewrite length_drop in Hj.
  pose proof (rep_idx _ _ _ _ Hrep (2 + Z.of_nat j) ltac:(lia)) as Hi. unfold idx_id_of in Hi.
  rewrite !decide_False, Hws in Hi by lia.
  replace (Z.to_nat (2 + Z.of_nat j - 2)) with j in Hi by lia. rewrite Hi. f_equal. lia.
Qed.

(** With the doubly indirect block held, the blocks it points to can be locked. *)
Definition subs_free (h : gset Z) : Prop :=
  (size h < BLOCK_CACHE_SIZE)%nat ∧ ∀ b, b ∈ drop 2 idx → b ∉ h.

Lemma sub_lockable h k sub : subs_free h → idx !! (2 + k)%nat = Some sub → idx_lockable h bl sub.
Proof.
  intros [Hsz Hf] Hsub. split; [|split; [done|]].
  - apply Hf. rewrite <- lookup_drop in Hsub. by eapply list_elem_of_lookup_2.
  - apply (rep_present _ _ _ _ Hrep). apply list_elem_of_lookup_2 in Hsub. set_solver.
Qed.

Lemma tree_subs_free h :
  tree_free h idx → idx !! 1%nat = Some (di_indirect2 di) → subs_free ({[di_indirect2 di]} ∪ h).
Proof.
  intros [Hsz Hf] Hi2. pose proof (list_elem_of_lookup_2 _ _ _ Hi2) as Hin. split.
  - rewrite size_union, size_singleton by (pose proof (Hf _ Hin); set_solver). lia.
  - intros b Hb. assert (b ∈ idx) as Hb' by (eapply elem_of_submseteq; [done|]; apply sublist_submseteq, sublist_drop).
    apply list_elem_of_lookup_1 in Hb as [k Hk]. rewrite lookup_drop in Hk. intros [->%elem_of_singleton|Hh]%elem_of_union.
    + assert (1 = Z.of_nat (2 + k)); [|lia].
      apply (idx_inj _ _ _ _ Hrep _ _ (di_indirect2 di)); [lia|lia|done|by rewrite Nat2Z.id].
    + by apply (Hf b).
Qed.

(** The full singly indirect blocks from the [k]-th on. *)
Lemma take_indirect2_ok h k n v :
  subs_free h → (2 + k + n ≤ length idx)%nat → 156 + 128 * Z.of_nat (k + n) ≤ len ids →
  wp h (take_indirect2 (take n (drop (2 + k) idx)) v) bl (λ v' bl', bl' = bl ∧
    v' ≡ₚ v ++ take n (drop (2 + k) idx) ++ take (128 * n) (drop (156 + 128 * k) ids)).
Proof.
  intros Hfree. revert k v. induction n as [|n IH]; intros k v Hn Hids.
  { apply wp_ret. split; [done|]. by rewrite !take_0, app_nil_r. }
  destruct (lookup_lt_is_Some_2 idx (2 + k)) as [sub Hsub]; [lia|].
  rewrite (drop_S _ _ _ Hsub). cbn [take take_indirect2]. apply wp_bind.
  apply wp_modify_idx; [by eapply sub_lockable|]. intros ws Hws Hptr Hset. apply wp_ret.
  cbn [fst snd]. split; [done|]. rewrite Hset.
  pose proof (rep_sub_words ws k sub 128 Hsub Hptr ltac:(lia) ltac:(lia)) as Heq.
  rewrite take_ge in Heq by (destruct Hws; lia).
  eapply wp_mono; [apply (IH (S k)); lia|]. intros v' bl' [-> Hv']. split; [done|]. rewrite Hv'.
  replace (128 * S n)%nat with (128 + 128 * n)%nat by lia.
  rewrite <- (take_take_drop _ 128), <- Heq, drop_drop. unfold vec_push.
  replace (S (2 + k)) with (2 + S k)%nat by lia.
  replace (156 + 128 * k + 128)%nat with (156 + 128 * S k)%nat by lia. solve_Permutation.
Qed.

(** The doubly indirect part. *)
Lemma clear_phase3 h v :
  tree_free h idx → 156 < len ids ≤ MAX_BLOCKS → len idx = nidx (len ids) →
  wp h (block_modify IndirectBlock (di_indirect2 di) 0 (λ indirect2,
    v ← take_indirect2 (take (Z.to_nat ((len ids - 156) / 128)) indirect2) v;
    v ← (if decide ((len ids - 156) mod 128 > 0) then
           entry ← prog_lift (vec_get indirect2 ((len ids - 156) / 128));
           let v := vec_push v entry in
           block_modify IndirectBlock entry 0 (λ indirect1,
             mret (v ++ take (Z.to_nat ((len ids - 156) mod 128)) indirect1, indirect1))
         else mret v);
    mret (v, indirect2))) bl
  (λ v' bl', bl' = bl ∧ v' ≡ₚ v ++ drop 2 idx ++ drop 156 ids).
Proof.
  unfold MAX_BLOCKS. intros Hfree Hn Hidx. unfold nidx in Hidx. rewrite !decide_False in Hidx by lia.
  assert (idx !! 1%nat = Some (di_indirect2 di)) as Hi2 by (apply (idx_1 bl di ids); [done|lia]).
  set (a := (len ids - 156) / 128) in *. set (b := (len ids - 156) mod 128) in *.
  apply wp_modify_idx; [by eapply idx_lockable_of|]. intros ws Hws Hptr Hset.
  pose proof (rep_ind2_words ws Hptr ltac:(lia)) as Hsubs. rewrite length_drop in Hsubs.
  assert (take (Z.to_nat a) ws = take (Z.to_nat a) (drop (2 + 0) idx)) as ->.
  { simpl. rewrite <- Hsubs, take_take. f_equal. lia. }
  pose proof (tree_subs_free h Hfree Hi2) as Hfree2. apply wp_bind.
  eapply wp_mono; [apply take_indirect2_ok; [done|lia|lia]|]. intros v1 bl1 [-> Hv1]. apply wp_bind.
  change (156 + 128 * 0)%nat with 156%nat in Hv1. change (2 + 0)%nat with 2%nat in Hv1.
  destruct (decide (b > 0)) as [Hb|Hb].
  - destruct (lookup_lt_is_Some_2 idx (2 + Z.to_nat a)) as [sub Hsub]; [lia|].
    apply (wp_lift _ _ sub).
    { unfold vec_get. rewrite <- (lookup_take_lt _ (length idx - 2)) by lia. rewrite Hsubs, lookup_drop, Hsub. done. }
    cbv zeta. apply wp_modify_idx; [by eapply sub_lockable|]. intros ws' Hws' Hptr' Hset'.
    apply wp_ret. split; [done|]. cbn [fst snd]. rewrite Hset'. apply wp_ret. split; [done|]. cbn [fst snd].
    rewrite Hset. split; [done|].
    rewrite (rep_sub_words ws' (Z.to_nat a) sub (Z.to_nat b) Hsub Hptr' ltac:(lia) ltac:(lia)).
    rewrite (take_ge (drop (156 + _) ids)) by (rewrite length_drop; lia). unfold vec_push. rewrite Hv1.
    rewrite <- (take_drop (Z.to_nat a) (drop 2 idx)) at 2. rewrite drop_drop, (drop_S _ _ _ Hsub).
    rewrite (drop_ge idx (S (2 + Z.to_nat a))) by lia. rewrite <- (take_drop (128 * Z.to_nat a) (drop 156 ids)) at 2.
    rewrite drop_drop. solve_Permutation.
  - apply wp_ret, wp_ret. split; [done|]. cbn [fst snd]. rewrite Hset. split; [done|].
    rewrite Hv1. rewrite !take_ge by (rewrite length_drop; lia). done.
Qed.

(** The list that [clear_size] returns has every block of the file. *)
Lemma clear_size_ok h :
  tree_free h idx → len ids = DiskInode_data_blocks di → len idx = nidx (len ids) → len ids ≤ MAX_BLOCKS →
  wp h (DiskInode_clear_size di) bl (λ r bl', bl' = bl ∧ r.1 ≡ₚ ids ++ idx ∧
    DiskInode_valid r.2 ∧ di_size r.2 = 0 ∧ di_type r.2 = di_type di).
Proof.
  unfold MAX_BLOCKS. intros Hfree Hids Hidx Hmax. unfold DiskInode_clear_size. rewrite <- Hids.
  destruct (rep_valid _ _ _ _ Hrep) as (Hv1 & (Hdl & Hdf) & Hv3 & Hv4).
  change INODE_DIRECT_COUNT with 28. change INODE_INDIRECT1_COUNT with 128. change INODE_INDIRECT2_COUNT with 16384.
  destruct (take_direct_ok (Z.to_nat (Z.min (len ids) 28)) (di_direct di) 0 []) as (direct & Htake & Hl & Hf); [lia|lia|].
  rewrite drop_0, rep_direct_words in Htake. eapply wp_lift; [exact Htake|].
  assert (∀ i1 i2, fits 32 i1 → fits 32 i2 →
    DiskInode_valid (MkDiskInode 0 direct i1 i2 (di_type di))) as Hval.
  { intros i1 i2 H1 H2. split; [by compute|]. split; [|done]. split; [simpl; lia|by apply Hf]. }
  destruct (decide (len ids > 28)) as [H28|H28];
    [rewrite bool_decide_eq_true_2 by done|rewrite bool_decide_eq_false_2 by done]; cbn [negb].
  2: { apply wp_ret. split; [done|]. split; [|by split; [apply Hval|]]. simpl. rewrite take_ge by lia.
       unfold nidx in Hidx. rewrite decide_True in Hidx by lia. destruct idx; [by rewrite app_nil_r|simpl in Hidx; lia]. }
  rewrite (sub_w_small 64 _ 28) by (unfold fits; lia). cbv zeta. cbn [di_indirect1 set_direct set_size app].
  set (m := Z.to_nat (Z.min (len ids - 28) 128)).
  assert (idx !! 0%nat = Some (di_indirect1 di)) as Hi1 by (apply (idx_0 bl di ids); [done|lia]).
  apply wp_bind, wp_modify_idx; [by eapply idx_lockable_of|]. intros ws Hws Hptr Hset.
  eapply wp_lift; [apply (take_indirect1_ok m ws 0); [destruct Hws; lia|destruct Hws; lia]|].
  apply wp_ret. split; [done|]. cbn [fst snd]. rewrite Hset, drop_0.
  rewrite (rep_ind1_words ws m Hptr) by lia.
  destruct (decide (len ids - 28 > 128)) as [H156|H156];
    [rewrite bool_decide_eq_true_2 by done|rewrite bool_decide_eq_false_2 by done]; cbn [negb].
  2: { apply wp_ret. split; [done|]. split; [|split; [by apply Hval; [unfold fits; lia|]|done]]. cbn [fst].
       assert (len idx = 1) as Hidx1 by (rewrite Hidx; unfold nidx; repeat case_decide; lia).
       destruct idx as [|i1 [|]]; [done| |simpl in Hidx1; lia]. simplify_eq/=.
       rewrite (take_ge (drop 28 ids)) by (rewrite length_drop; lia). unfold vec_push.
       rewrite <- (take_drop 28 ids) at 3. solve_Permutation. }
  rewrite sub_w_small by (unfold fits; lia). rewrite bool_decide_eq_true_2 by lia.
  cbn [prog_assert]. apply wp_bind, wp_ret. replace (len ids - 28 - 128) with (len ids - 156) by lia.
  apply wp_bind. eapply wp_mono; [apply (clear_phase3 h); [done|unfold MAX_BLOCKS; lia|done]|].
  intros v bl' [-> Hv]. apply wp_ret. split; [done|]. split; [|by split; [apply Hval|]]. cbn [fst].
  assert (idx = di_indirect1 di :: di_indirect2 di :: drop 2 idx) as Hidx2.
  { pose proof (idx_1 bl di ids idx Hrep ltac:(lia)) as Hi2. by destruct idx as [|? [|? ?]]; simplify_eq/=. }
  rewrite Hv, Hidx2 at 1. rewrite Hidx2. unfold vec_push.
  replace m with 128%nat by lia. rewrite <- (take_drop 28 ids) at 4. rewrite <- (take_drop 128 (drop 28 ids)) at 2.
  rewrite drop_drop. solve_Permutation.
Qed.
End Clear.

(** * Properties *)

(** A file as the disk has it: its block tree, with as many data and index blocks as its
    size needs. *)
Record file_rep (bl : gmap Z (list Z)) (di : DiskInode) (ids idx : list Z) : Prop := {
  fr_tree : inode_rep bl di ids idx;
  fr_ids : len ids = DiskInode_data_blocks di;
  fr_idx : len idx = nidx (len ids);
  fr_max : di_size di ≤ MAX_BLOCKS * 512;
}.

Lemma empty_file_rep bl di : DiskInode_valid di → di_size di = 0 → file_rep bl di [] [].
Proof.
  intros Hv Hs. split.
  - split; simpl; [lia|lia|done|constructor|by intros b ?%not_elem_of_nil|done].
  - unfold DiskInode_data_blocks. by rewrite Hs.
  - done.
  - rewrite Hs. unfold MAX_BLOCKS. lia.
Qed.

(** C23: [increase_size] given the number of blocks [blocks_num_needed] asks for never
    panics, uses all of them, and extends the file's data blocks: the old ones keep
    their positions, the new ones follow, the rest become index blocks, and only index
    blocks are written. *)
Theorem increase_size_appends (h : gset Z) (bl : gmap Z (list Z)) (di : DiskInode)
    (ids idx nb : list Z) (new_size : Z)
    (Hfile : file_rep bl di ids idx) (Hav : avail h bl ids idx nb) (Hfree : tree_free h idx)
    (Hsize : new_size ≤ MAX_BLOCKS * 512)
    (Hneed : DiskInode_blocks_num_needed di new_size = Ok (len nb)) :
  ∃ di' bl' nd ni,
    run_flat (DiskInode_increase_size di new_size nb) (MkFlat bl h) = Ok (di', MkFlat bl' h) ∧
    di_size di' = new_size ∧ nb ≡ₚ nd ++ ni ∧ file_rep bl' di' (ids ++ nd) (idx ++ ni) ∧
    same_outside (λ b, b ∈ idx ++ ni) bl bl'.
Proof.
  destruct Hfile as [Hrep Hids Hidx Hmax].
  assert (fits 32 (di_size di)) as Hf by apply (rep_valid _ _ _ _ Hrep). unfold fits in Hf.
  unfold DiskInode_blocks_num_needed, res_assert in Hneed. case_bool_decide as Hge; [|done].
  injection Hneed as Hneed.
  assert (0 ≤ nidx (data_blocks_of new_size) ≤ 131 ∧ 0 ≤ nidx (data_blocks_of (di_size di)) ∧
    nidx (data_blocks_of (di_size di)) ≤ nidx (data_blocks_of new_size)) as (Hn1 & Hn2 & Hn3).
  { unfold MAX_BLOCKS in *. rewrite !data_blocks_eq by lia. unfold nidx. repeat case_decide; lia. }
  destruct (increase_size_ok h bl di ids idx nb new_size) as (di' & bl' & Hrun & Hpost); try done.
  { lia. }
  { rewrite <- Hneed. rewrite !total_blocks_eq by lia. unfold MAX_BLOCKS in *.
    rewrite sub_w_small; [lia|]. unfold fits. rewrite !data_blocks_eq in * by lia. lia. }
  destruct Hpost as (Hs & Ht & ids' & idx' & Hrep' & (nd & ni & -> & -> & Hp & _ & Ho) & Hl1 & Hl2).
  exists di', bl', nd, ni. split; [done|]. split; [done|]. split; [done|]. split; [|done].
  split; [done| | |by rewrite Hs].
  - unfold DiskInode_data_blocks. by rewrite Hs.
  - by rewrite Hl1.
Qed.

(** C31: [get_block_id] finds data block [i] of a file through the direct, indirect or
    doubly indirect pointers, without changing anything. *)
Theorem get_block_id_correct (h : gset Z) (bl : gmap Z (list Z)) (di : DiskInode)
    (ids idx : list Z) (i b : Z)
    (Hfile : file_rep bl di ids idx) (Hfree : tree_free h idx)
    (Hi : 0 ≤ i) (Hb : ids !! Z.to_nat i = Some b) :
  run_flat (DiskInode_get_block_id di i) (MkFlat bl h) = Ok (b, MkFlat bl h).
Proof.
  destruct Hfile as [Hrep Hids Hidx Hmax]. pose proof (lookup_lt_Some _ _ _ Hb).
  assert (fits 32 (di_size di)) as Hf by apply (rep_valid _ _ _ _ Hrep). unfold fits, MAX_BLOCKS in *.
  unfold DiskInode_data_blocks in Hids. rewrite data_blocks_eq in Hids by lia.
  destruct (get_block_id_ok bl di ids idx Hrep h i Hfree ltac:(lia) ltac:(lia)) as (b' & bl' & -> & -> & Hb').
  by simplify_eq.
Qed.

(** C32: [clear_size] returns every data and index block of the file exactly once, as many
    as [total_blocks] of its size counts (the assertion of [Inode::clear]), and leaves an
    inode of size zero. *)
Theorem clear_size_returns_all (h : gset Z) (bl : gmap Z (list Z)) (di : DiskInode)
    (ids idx : list Z) (Hfile : file_rep bl di ids idx) (Hfree : tree_free h idx) :
  ∃ v di', run_flat (DiskInode_clear_size di) (MkFlat bl h) = Ok ((v, di'), MkFlat bl h) ∧
    v ≡ₚ ids ++ idx ∧ NoDup v ∧ len v = DiskInode_total_blocks (di_size di) ∧
    file_rep bl di' [] [].
Proof.
  destruct Hfile as [Hrep Hids Hidx Hmax].
  assert (fits 32 (di_size di)) as Hf by apply (rep_valid _ _ _ _ Hrep). unfold fits in Hf.
  assert (len ids ≤ MAX_BLOCKS).
  { rewrite Hids. unfold DiskInode_data_blocks, MAX_BLOCKS in *. rewrite data_blocks_eq by lia. lia. }
  destruct (clear_size_ok bl di ids idx Hrep h Hfree Hids Hidx) as ([v di'] & bl' & -> & -> & Hv & Hval & Hs & Ht); [done|].
  cbn [fst snd] in *. exists v, di'. split; [done|]. split; [done|]. split; [rewrite Hv; apply Hrep|]. split.
  - rewrite Hv, length_app, total_blocks_eq by lia. unfold DiskInode_data_blocks in Hids. rewrite <- Hids. lia.
  - by apply empty_file_rep.
Qed.

(** An empty file on a disk of zero blocks, grown to 176 data blocks: the direct list, the
    indirect block, the doubly indirect block and one block below it are all used. *)
Definition demo_disk : gmap Z (list Z) :=
  list_to_map ((λ b, (b, replicate 512 0)) <$> seqZ 100 200).
Definition demo_inode : DiskInode := MkDiskInode 0 (replicate 28 0) 0 0 File.
Definition demo_new_blocks : list Z := seqZ 100 179.

Lemma zero_block_wf : block_wf (replicate 512 0).
Proof. split; [done|]. apply Forall_replicate. unfold is_byte, fits. lia. Qed.

Lemma demo_disk_present b : 100 ≤ b < 300 → present demo_disk b.
Proof.
  intros Hb. exists (replicate 512 0). split; [|apply zero_block_wf].
  apply elem_of_list_to_map_1.
  - rewrite <- list_fmap_compose. apply NoDup_fmap_2; [by intros ?? [=]|]. apply NoDup_seqZ.
  - apply list_elem_of_fmap. exists b. split; [done|]. apply elem_of_seqZ. lia.
Qed.

Lemma demo_inode_rep : file_rep demo_disk demo_inode [] [].
Proof.
  apply empty_file_rep; [|done]. apply DiskInode_valid_words. split; [done|].
  apply (bool_decide_unpack _). vm_compute. done.
Qed.

Lemma demo_avail h : h = ∅ → avail h demo_disk [] [] demo_new_blocks.
Proof.
  intros ->. split; [rewrite app_nil_r; apply NoDup_seqZ|]. apply Forall_forall.
  intros b Hb%elem_of_seqZ. split; [apply demo_disk_present; lia|]. split; [unfold fits; lia|set_solver].
Qed.

Lemma increase_size_appends_witness :
  ∃ di' bl' nd ni,
    run_flat (DiskInode_increase_size demo_inode 90000 demo_new_blocks) (MkFlat demo_disk ∅)
      = Ok (di', MkFlat bl' ∅) ∧ file_rep bl' di' ([] ++ nd) ([] ++ ni).
Proof.
  destruct (increase_size_appends ∅ demo_disk demo_inode [] [] demo_new_blocks 90000)
    as (di' & bl' & nd & ni & H1 & _ & _ & H2 & _).
  - exact demo_inode_rep.
  - exact (demo_avail ∅ eq_refl).
  - split; [vm_compute; lia|set_solver].
  - unfold MAX_BLOCKS. lia.
  - vm_compute. reflexivity.
  - exists di', bl', nd, ni. exact (conj H1 H2).
Defined.

(** A two-block file. *)
Definition demo_inode2 : DiskInode := MkDiskInode 600 ([101; 102] ++ replicate 26 0) 0 0 File.

Lemma demo_inode2_rep : file_rep demo_disk demo_inode2 [101; 102] [].
Proof.
  split; [split| | |].
  - intros i Hi. simpl in Hi. assert (i = 0 ∨ i = 1) as [->| ->] by lia; reflexivity.
  - simpl. lia.
  - done.
  - apply (bool_decide_unpack _). vm_compute. done.
  - intros b Hb. apply demo_disk_present. set_unfold. lia.
  - apply DiskInode_valid_words. split; [done|]. apply (bool_decide_unpack _). vm_compute. done.
  - reflexivity.
  - reflexivity.
  - unfold MAX_BLOCKS. simpl. lia.
Qed.

Lemma get_block_id_correct_witness :
  run_flat (DiskInode_get_block_id demo_inode2 1) (MkFlat demo_disk ∅) = Ok (102, MkFlat demo_disk ∅).
Proof.
  apply (get_block_id_correct ∅ demo_disk demo_inode2 [101; 102] [] 1 102 demo_inode2_rep).
  - split; [vm_compute; lia|set_solver].
  - lia.
  - reflexivity.
Defined.

Lemma clear_size_returns_all_witness :
  ∃ v di', run_flat (DiskInode_clear_size demo_inode2) (MkFlat demo_disk ∅) = Ok ((v, di'), MkFlat demo_disk ∅) ∧
    v ≡ₚ [101; 102].
Proof.
  destruct (clear_size_returns_all ∅ demo_disk demo_inode2 [101; 102] [] demo_inode2_rep) as (v & di' & H1 & H2 & _).
  - split; [vm_compute; lia|set_solver].
  - exists v, di'. exact (conj H1 H2).
Defined.
