(* ===== verification/InodeData.v ===== *)
(** File contents.  Byte [p] of a file is byte [p mod 512] of its data block [p / 512];
    [read_at] and [write_at] of [easy-fs/src/layout.rs] read and overwrite ranges of
    that byte string. *)

From S2P Require Import Prelude BlockDev BlockCache BlockAccess Bitmap Layout InodeTree.

Ltac Zify.zify_post_hook ::= Z.to_euclidean_division_equations.

Definition file_byte (bl : gmap Z (list Z)) (ids : list Z) (p : Z) : Z :=
  default 0 (b ← ids !! Z.to_nat (p / 512); d ← bl !! b; d !! Z.to_nat (p mod 512)).

Definition content (bl : gmap Z (list Z)) (ids : list Z) (size : Z) : list Z :=
  file_byte bl ids <$> seqZ 0 size.

Lemma length_content bl ids size : 0 ≤ size → len (content bl ids size) = size.
Proof. intros. unfold content. rewrite length_fmap, length_seqZ. lia. Qed.

Lemma content_lookup bl ids size (i : nat) :
  Z.of_nat i < size → content bl ids size !! i = Some (file_byte bl ids (Z.of_nat i)).
Proof. intros Hi. unfold content. rewrite list_lookup_fmap, lookup_seqZ_lt by lia. done. Qed.

Lemma content_lookup_ge bl ids size (i : nat) :
  0 ≤ size ≤ Z.of_nat i → content bl ids size !! i = None.
Proof.
  intros Hi. apply lookup_ge_None. pose proof (length_content bl ids size). lia.
Qed.

(** * Slices *)

Lemma slice_slice_app {A} (l : list A) a n m :
  0 ≤ a → 0 ≤ n → 0 ≤ m → slice l a n ++ slice l (a + n) m = slice l a (n + m).
Proof.
  intros. unfold slice. rewrite !Z2Nat.inj_add, <- drop_drop by lia. apply take_take_drop.
Qed.

Lemma splice_app {A} (l x y : list A) a :
  0 ≤ a → a + len x + len y ≤ len l → splice (splice l a x) (a + len x) y = splice l a (x ++ y).
Proof.
  intros Ha Hl. apply list_eq. intros i.
  assert (length (splice l a x) = length l) as Hlen by (apply length_splice; lia).
  destruct (decide (a + len x ≤ Z.of_nat i < a + len x + len y)).
  - rewrite lookup_splice_in by lia. rewrite lookup_splice_in by (rewrite ?length_app; lia).
    rewrite lookup_app_r by lia. f_equal. lia.
  - rewrite lookup_splice_out by lia. destruct (decide (a ≤ Z.of_nat i < a + len x)).
    + rewrite !lookup_splice_in by (rewrite ?length_app; lia). rewrite lookup_app_l by lia. done.
    + rewrite !lookup_splice_out by (rewrite ?length_app; lia). done.
Qed.

Lemma splice_nil {A} (l : list A) a : 0 ≤ a → splice l a [] = l.
Proof. intros. unfold splice. simpl. rewrite Nat.add_0_r. apply take_drop. Qed.

(** * Reading *)

Section ReadWrite.
Context (di : DiskInode) (ids idx : list Z).
Context (Hsize : 0 ≤ di_size di < 2 ^ 31) (Hlen : len ids = DiskInode_data_blocks di).

Lemma ids_size : len ids = (di_size di + 511) / 512.
Proof. rewrite Hlen. unfold DiskInode_data_blocks. apply data_blocks_eq. lia. Qed.

(** The part of the file inside one block. *)
Lemma slice_block bl d b start n :
  ids !! Z.to_nat (start / 512) = Some b → bl !! b = Some d → block_wf d →
  0 ≤ start → 0 ≤ n → start mod 512 + n ≤ 512 → start + n ≤ di_size di →
  slice (content bl ids (di_size di)) start n = slice d (start mod 512) n.
Proof.
  intros Hb Hd [Hdl _] Hs Hn H512 Hsz. apply list_eq. intros i. destruct (decide (Z.of_nat i < n)).
  - rewrite !lookup_slice by lia. rewrite content_lookup by lia.
    unfold file_byte. replace (Z.of_nat (Z.to_nat start + i)) with (start + Z.of_nat i) by lia.
    replace ((start + Z.of_nat i) / 512) with (start / 512) by lia. rewrite Hb. simpl. rewrite Hd. simpl.
    replace (Z.to_nat ((start + Z.of_nat i) mod 512)) with (Z.to_nat (start mod 512) + i)%nat by lia.
    destruct (lookup_lt_is_Some_2 d (Z.to_nat (start mod 512) + i)) as [x ->]; [lia|done].
  - unfold slice. by rewrite !lookup_take_ge by lia.
Qed.

Lemma block_of bl start :
  inode_rep bl di ids idx → 0 ≤ start < di_size di →
  ∃ b d, ids !! Z.to_nat (start / 512) = Some b ∧ bl !! b = Some d ∧ block_wf d ∧ b ∈ ids.
Proof.
  intros Hrep Hs. pose proof ids_size.
  destruct (lookup_lt_is_Some_2 ids (Z.to_nat (start / 512))) as [b Hb]; [lia|].
  pose proof (list_elem_of_lookup_2 _ _ _ Hb) as Hin.
  destruct (rep_present _ _ _ _ Hrep b) as (d & ? & ?); [set_solver|]. by exists b, d.
Qed.

(** No block of the tree is held. *)
Definition file_free (h : gset Z) : Prop := tree_free h (ids ++ idx).

Lemma file_tree_free h : file_free h → tree_free h idx.
Proof. intros [? Hf]. split; [done|]. intros b Hb. apply Hf. set_solver. Qed.

Lemma read_loop_ok bl h n start end_ rs buf :
  inode_rep bl di ids idx → file_free h →
  0 ≤ start < end_ → end_ ≤ di_size di → end_ - start ≤ Z.of_nat n →
  0 ≤ rs → rs + (end_ - start) ≤ len buf → len buf < 2 ^ 63 →
  wp h (DiskInode_read_loop n di start end_ (start / 512) rs buf) bl
    (λ r bl', bl' = bl ∧ r = (rs + (end_ - start),
       splice buf rs (slice (content bl ids (di_size di)) start (end_ - start)))).
Proof.
  intros Hrep Hfree. revert start rs buf. induction n as [|n IH]; intros start rs buf Hs He Hn Hrs Hbuf Hmax; [lia|].
  cbn [DiskInode_read_loop]. unfold BLOCK_SZ. pose proof ids_size as Hids.
  rewrite (add_w_small 64 (start / 512)), (mul_w_small 64) by (unfold fits; rewrite ?add_w_small; unfold fits; lia).
  set (ecb := Z.min ((start / 512 + 1) * 512) end_).
  rewrite (sub_w_small 64 ecb) by (unfold fits; lia). set (brs := ecb - start).
  rewrite (add_w_small 64 rs) by (unfold fits; lia).
  eapply wp_lift; [unfold vec_slice; by rewrite decide_True by lia|].
  rewrite wrap_small by (unfold fits; lia). apply wp_bind.
  eapply wp_mono; [apply (get_block_id_ok bl di ids idx Hrep); [by apply file_tree_free|lia|lia]|].
  intros b bl' [-> Hb]. destruct (block_of bl start Hrep ltac:(lia)) as (b' & d & Hb' & Hd & Hdw & Hin).
  assert (b' = b) as -> by congruence. apply wp_bind.
  eapply (wp_read DataBlock _ _ 0 _ bl d); [|done|done|simpl; by rewrite slice_whole by apply Hdw|].
  { destruct Hfree as [Hsz Hf]. split; [apply Hf; set_solver|]. split; [lia|done]. }
  rewrite (add_w_small 64 (start mod 512)) by (unfold fits; lia). destruct Hdw as [Hdl Hdb].
  assert (0 ≤ brs ∧ start mod 512 + brs ≤ 512 ∧ start + brs ≤ end_) as (Hb0 & Hb1 & Hb2) by lia.
  assert (len (slice d (start mod 512) brs) = brs) as Hls by (rewrite length_slice; lia).
  eapply wp_lift; [unfold vec_slice; by rewrite decide_True by lia|].
  replace (start mod 512 + brs - start mod 512) with brs by lia.
  unfold vec_copy. rewrite decide_True by lia. apply wp_ret.
  rewrite <- (slice_block bl d b start brs) by (done || lia).
  pose proof (slice_block bl d b start brs Hb Hd ltac:(by split) ltac:(lia) Hb0 Hb1 ltac:(lia)) as Hsl.
  rewrite <- Hsl in Hls. case_decide as Hend.
  { apply wp_ret. split; [done|]. replace (end_ - start) with brs by lia. done. }
  replace (start / 512 + 1) with (ecb / 512) by lia.
  eapply wp_mono; [apply IH; rewrite ?length_splice by lia; lia|].
  intros r bl' [-> ->]. split; [done|]. f_equal; [lia|].
  replace (rs + brs) with (rs + len (slice (content bl ids (di_size di)) start brs)) by lia.
  rewrite splice_app by (rewrite ?length_slice, ?length_content by lia; lia). f_equal.
  replace ecb with (start + brs) at 1 by lia. rewrite slice_slice_app by lia. f_equal. lia.
Qed.

Lemma read_at_ok bl h offset buf :
  inode_rep bl di ids idx → file_free h → 0 ≤ offset → offset + len buf < 2 ^ 63 →
  let n := Z.max 0 (Z.min (len buf) (di_size di - offset)) in
  wp h (DiskInode_read_at di offset buf) bl (λ r bl', bl' = bl ∧
    r = (n, splice buf 0 (slice (content bl ids (di_size di)) offset n))).
Proof.
  intros Hrep Hfree Ho Hmax. cbv zeta. unfold DiskInode_read_at. rewrite add_w_small by (unfold fits; lia).
  case_bool_decide.
  - apply wp_ret. split; [done|]. f_equal; [lia|]. rewrite Z.max_l by lia. symmetry. by apply (splice_nil buf 0).
  - eapply wp_mono; [apply read_loop_ok; (done || lia)|]. intros r bl' [-> ->]. split; [done|].
    rewrite Z.add_0_l. do 2 f_equal; [lia|]. f_equal. lia.
Qed.

(** * Writing *)

(** Writing data blocks does not change the tree. *)
Lemma rep_data_frame bl bl' :
  inode_rep bl di ids idx → same_outside (λ b, b ∈ ids) bl bl' → keeps bl bl' →
  inode_rep bl' di ids idx.
Proof.
  intros Hrep Ho Hk. pose proof Hrep as [H1 H2 H3 H4 H5 H6].
  assert (∀ b j, b ∈ idx → ptr_at bl' b j = ptr_at bl b j) as Hptr.
  { intros b j Hb. unfold ptr_at. rewrite Ho; [done|]. apply NoDup_app in H4 as (_ & Hd & _). intros Hi. by apply (Hd b). }
  split; [| |done|done|by intros b Hb; apply Hk, H5|done].
  - intros i Hi. rewrite <- H1 by done. unfold block_id_of. repeat case_decide; [done| |].
    + apply Hptr. eapply list_elem_of_lookup_2, (idx_0 bl di ids idx Hrep). lia.
    + rewrite Hptr by (eapply list_elem_of_lookup_2, (idx_1 bl di ids idx Hrep); lia).
      destruct (idx_sub bl di ids idx Hrep ((i - 156) / 128)) as (sub & Hsub & ->); [lia|lia|]. simpl.
      apply Hptr. by eapply list_elem_of_lookup_2.
  - intros k Hk'. rewrite <- H2 by done. unfold idx_id_of. repeat case_decide; [done|done|].
    apply Hptr. apply list_elem_of_lookup_2 with 1%nat. symmetry. exact (H2 1 ltac:(lia)).
Qed.

Lemma content_write bl d b start x n :
  NoDup ids → ids !! Z.to_nat (start / 512) = Some b → bl !! b = Some d → block_wf d →
  0 ≤ start → start mod 512 + len x ≤ 512 → start + len x ≤ n →
  content (<[b := splice d (start mod 512) x]> bl) ids n =
    splice (content bl ids n) start x.
Proof.
  intros Hnd Hb Hd [Hdl _] Hs H512 Hsz. apply list_eq. intros i.
  assert (len (content bl ids n) = n) as Hlc by (apply length_content; lia).
  destruct (decide (Z.of_nat i < n)).
  2: { rewrite content_lookup_ge by lia. symmetry. apply lookup_ge_None. rewrite length_splice by lia. lia. }
  rewrite content_lookup by lia. unfold file_byte.
  destruct (decide (Z.of_nat i / 512 = start / 512)) as [Hblk|Hblk].
  - rewrite Hblk, Hb. simpl. rewrite lookup_insert_eq. simpl.
    destruct (decide (start ≤ Z.of_nat i < start + len x)).
    + rewrite !lookup_splice_in by lia.
      replace (Z.to_nat (Z.of_nat i mod 512) - Z.to_nat (start mod 512))%nat with (i - Z.to_nat start)%nat by lia.
      destruct (lookup_lt_is_Some_2 x (i - Z.to_nat start)) as [y ->]; [lia|done].
    + rewrite !lookup_splice_out by lia. rewrite content_lookup by lia. unfold file_byte. rewrite Hblk, Hb. simpl.
      rewrite Hd. done.
  - rewrite lookup_splice_out by lia. rewrite content_lookup by lia. unfold file_byte.
    destruct (ids !! Z.to_nat (Z.of_nat i / 512)) as [b'|] eqn:Hb'; [|done]. simpl.
    rewrite lookup_insert_ne; [done|]. intros <-. apply Hblk.
    pose proof (NoDup_lookup _ _ _ _ Hnd Hb Hb'). lia.
Qed.

Definition write_post (bl : gmap Z (list Z)) (start ws : Z) (data : list Z) (w : Z)
    (bl' : gmap Z (list Z)) : Prop :=
  w = ws + len data ∧ inode_rep bl' di ids idx ∧
  (∀ n, di_size di ≤ n → content bl' ids n = splice (content bl ids n) start data) ∧
  same_outside (λ b, b ∈ ids) bl bl' ∧ keeps bl bl'.

Lemma write_post_trans bl start ws x w bl1 y w' bl2 :
  0 ≤ start → start + len x + len y ≤ di_size di →
  write_post bl start ws x w bl1 → write_post bl1 (start + len x) w y w' bl2 →
  write_post bl start ws (x ++ y) w' bl2.
Proof.
  intros Hs Hsz (-> & _ & Hc1 & Ho1 & Hk1) (-> & Hr2 & Hc2 & Ho2 & Hk2). split; [rewrite length_app; lia|].
  split; [done|]. split; [|split].
  - intros n Hn. rewrite Hc2, Hc1 by done. rewrite splice_app; [done|done|]. rewrite length_content; lia.
  - intros b Hb. by rewrite Ho2, Ho1.
  - intros b Hb. by apply Hk2, Hk1.
Qed.

(** Overwriting part of one data block. *)
Lemma write_block bl d b start ws x :
  inode_rep bl di ids idx → ids !! Z.to_nat (start / 512) = Some b → bl !! b = Some d → block_wf d →
  Forall is_byte x → 0 ≤ start → start mod 512 + len x ≤ 512 → start + len x ≤ di_size di →
  let d' := splice d (start mod 512) x in
  block_wf d' ∧ write_post bl start ws x (ws + len x) (<[b := d']> bl).
Proof.
  intros Hrep Hb Hd [Hdl Hdb] Hx Hs H512 Hsz. cbv zeta.
  assert (block_wf (splice d (start mod 512) x)) as Hd'.
  { split; [rewrite length_splice; lia|]. unfold splice. rewrite !Forall_app.
    split; [by apply Forall_take|]. split; [done|by apply Forall_drop]. }
  assert (same_outside (λ b, b ∈ ids) bl (<[b := splice d (start mod 512) x]> bl)) as Ho.
  { intros b' Hb'. rewrite lookup_insert_ne; [done|]. intros <-. apply Hb'. by eapply list_elem_of_lookup_2. }
  assert (keeps bl (<[b := splice d (start mod 512) x]> bl)) as Hk.
  { intros b' (d0 & Hd0 & Hw). unfold present. rewrite lookup_insert. case_decide; eauto. }
  assert (NoDup ids) as Hnd by (pose proof (rep_nodup _ _ _ _ Hrep) as Hn; by apply NoDup_app in Hn as (? & _)).
  split; [done|]. split; [done|]. split; [by eapply rep_data_frame|]. split; [|done].
  intros n Hn. apply content_write; done || lia.
Qed.

Lemma write_loop_ok bl h n start end_ ws buf :
  inode_rep bl di ids idx → file_free h → Forall is_byte buf →
  0 ≤ start < end_ → end_ ≤ di_size di → end_ - start ≤ Z.of_nat n →
  0 ≤ ws → ws + (end_ - start) ≤ len buf → len buf < 2 ^ 63 →
  wp h (DiskInode_write_loop n di start end_ (start / 512) ws buf) bl
    (write_post bl start ws (slice buf ws (end_ - start))).
Proof.
  intros Hrep Hfree Hbytes. revert bl start ws Hrep.
  induction n as [|n IH]; intros bl start ws Hrep Hs He Hn Hws Hbuf Hmax; [lia|].
  cbn [DiskInode_write_loop]. unfold BLOCK_SZ. pose proof ids_size as Hids.
  rewrite (add_w_small 64 (start / 512)), (mul_w_small 64) by (unfold fits; rewrite ?add_w_small; unfold fits; lia).
  set (ecb := Z.min ((start / 512 + 1) * 512) end_).
  rewrite (sub_w_small 64 ecb) by (unfold fits; lia). set (bws := ecb - start).
  rewrite (add_w_small 64 ws) by (unfold fits; lia). rewrite wrap_small by (unfold fits; lia). apply wp_bind.
  eapply wp_mono; [apply (get_block_id_ok bl di ids idx Hrep); [by apply file_tree_free|lia|lia]|].
  intros b bl' [-> Hb]. destruct (block_of bl start Hrep ltac:(lia)) as (b' & d & Hb' & Hd & Hdw & Hin).
  assert (b' = b) as -> by congruence. pose proof Hdw as [Hdl Hdb]. apply wp_bind.
  eapply (wp_modify DataBlock _ _ 0 _ bl d); [|done|done|done|simpl; by rewrite slice_whole by done|].
  { destruct Hfree as [Hsz Hf]. split; [apply Hf; set_solver|]. split; [lia|done]. }
  assert (0 ≤ bws ∧ start mod 512 + bws ≤ 512 ∧ start + bws ≤ end_) as (Hb0 & Hb1 & Hb2) by lia.
  rewrite (add_w_small 64 (start mod 512)) by (unfold fits; lia).
  eapply wp_lift; [unfold vec_slice; by rewrite decide_True by lia|].
  replace (ws + bws - ws) with bws by lia.
  assert (len (slice buf ws bws) = bws) as Hls by (rewrite length_slice; lia).
  eapply wp_lift; [unfold vec_copy; by rewrite decide_True by lia|].
  apply wp_ret. cbn [fst snd encode DataBlock]. rewrite splice_whole by (rewrite ?length_splice; lia).
  destruct (write_block bl d b start ws (slice buf ws bws)) as [Hd' Hpost];
    [done|done|done|done|by apply slice_bytes|lia|lia|lia|].
  split; [exact Hd'|]. rewrite Hls in Hpost. case_decide as Hend.
  { apply wp_ret. by replace (end_ - start) with bws by lia. }
  replace (start / 512 + 1) with (ecb / 512) by lia.
  eapply wp_mono; [apply IH; [apply Hpost|lia..]|]. intros w bl2 Hpost2.
  replace (slice buf ws (end_ - start)) with (slice buf ws bws ++ slice buf (ws + bws) (end_ - ecb))
    by (rewrite slice_slice_app by lia; f_equal; lia).
  eapply write_post_trans; [lia|rewrite Hls, length_slice by lia; lia|exact Hpost|].
  rewrite Hls. by replace (start + bws) with ecb by lia.
Qed.

Lemma write_at_ok bl h offset buf :
  inode_rep bl di ids idx → file_free h → Forall is_byte buf →
  0 ≤ offset < di_size di → 0 < len buf → offset + len buf < 2 ^ 63 →
  wp h (DiskInode_write_at di offset buf) bl
    (write_post bl offset 0 (slice buf 0 (Z.min (len buf) (di_size di - offset)))).
Proof.
  intros Hrep Hfree Hb Ho Hl Hmax. unfold DiskInode_write_at. rewrite add_w_small by (unfold fits; lia).
  apply wp_assert; [apply bool_decide_eq_true_2; lia|].
  replace (Z.min (len buf) (di_size di - offset)) with (Z.min (offset + len buf) (di_size di) - offset) by lia.
  apply write_loop_ok; done || lia.
Qed.
End ReadWrite.

(** * Properties *)

Section Properties.
Context (h : gset Z) (bl : gmap Z (list Z)) (di : DiskInode) (ids idx : list Z).
Context (Hfile : file_rep bl di ids idx) (Hfree : file_free ids idx h).

Lemma file_size_range : 0 ≤ di_size di < 2 ^ 31.
Proof.
  assert (fits 32 (di_size di)) as Hf by apply (rep_valid _ _ _ _ (fr_tree _ _ _ _ Hfile)).
  pose proof (fr_max _ _ _ _ Hfile). unfold fits, MAX_BLOCKS in *. lia.
Qed.

Lemma read_at_run offset buf :
  0 ≤ offset → offset + len buf < 2 ^ 63 →
  let n := Z.max 0 (Z.min (len buf) (di_size di - offset)) in
  run_flat (DiskInode_read_at di offset buf) (MkFlat bl h) =
    Ok ((n, splice buf 0 (slice (content bl ids (di_size di)) offset n)), MkFlat bl h).
Proof.
  intros Ho Hl. cbv zeta. destruct Hfile as [Hrep Hids _ _].
  destruct (read_at_ok di ids idx file_size_range Hids bl h offset buf Hrep Hfree Ho Hl) as (r & bl' & -> & -> & ->).
  done.
Qed.

Lemma write_at_run offset buf :
  Forall is_byte buf → 0 ≤ offset → 0 < len buf → offset + len buf ≤ di_size di →
  ∃ bl', run_flat (DiskInode_write_at di offset buf) (MkFlat bl h) = Ok (len buf, MkFlat bl' h) ∧
    file_rep bl' di ids idx ∧
    content bl' ids (di_size di) = splice (content bl ids (di_size di)) offset buf ∧
    same_outside (λ b, b ∈ ids) bl bl'.
Proof.
  intros Hb Ho Hl Hs. pose proof file_size_range. destruct Hfile as [Hrep Hids Hidx Hmax].
  destruct (write_at_ok di ids idx file_size_range Hids bl h offset buf Hrep Hfree Hb) as (w & bl' & -> & Hpost); [lia..|].
  rewrite Z.min_l in Hpost by lia. unfold slice in Hpost. rewrite Z2Nat.inj_0, drop_0, take_ge in Hpost by lia.
  destruct Hpost as (-> & Hrep' & Hc & Hout & _). exists bl'. split; [done|]. split; [done|].
  split; [by apply Hc|done].
Qed.
End Properties.

(** [read_at] copies exactly the bytes of the file from [offset] on that exist and
    fit, leaves the rest of the buffer and the disk alone, and returns their number. *)
Theorem read_at_content (h : gset Z) (bl : gmap Z (list Z)) (di : DiskInode) (ids idx : list Z)
    (offset : Z) (buf : list Z)
    (Hfile : file_rep bl di ids idx) (Hfree : file_free ids idx h)
    (Ho : 0 ≤ offset) (Hl : offset + len buf < 2 ^ 63) :
  let n := Z.max 0 (Z.min (len buf) (di_size di - offset)) in
  run_flat (DiskInode_read_at di offset buf) (MkFlat bl h) =
    Ok ((n, splice buf 0 (slice (content bl ids (di_size di)) offset n)), MkFlat bl h).
Proof. exact (read_at_run h bl di ids idx Hfile Hfree offset buf Ho Hl). Qed.

(** [write_at] inside the file overwrites exactly the given range of its contents and
    writes no block that is not one of the file's data blocks. *)
Theorem write_at_content (h : gset Z) (bl : gmap Z (list Z)) (di : DiskInode) (ids idx : list Z)
    (offset : Z) (buf : list Z)
    (Hfile : file_rep bl di ids idx) (Hfree : file_free ids idx h) (Hb : Forall is_byte buf)
    (Ho : 0 ≤ offset) (Hl : 0 < len buf) (Hs : offset + len buf ≤ di_size di) :
  ∃ bl', run_flat (DiskInode_write_at di offset buf) (MkFlat bl h) = Ok (len buf, MkFlat bl' h) ∧
    file_rep bl' di ids idx ∧
    content bl' ids (di_size di) = splice (content bl ids (di_size di)) offset buf ∧
    same_outside (λ b, b ∈ ids) bl bl'.
Proof. exact (write_at_run h bl di ids idx Hfile Hfree offset buf Hb Ho Hl Hs). Qed.

(** C17: what was written is read back. *)
Theorem write_read_roundtrip (h : gset Z) (bl : gmap Z (list Z)) (di : DiskInode) (ids idx : list Z)
    (offset : Z) (buf dst : list Z)
    (Hfile : file_rep bl di ids idx) (Hfree : file_free ids idx h) (Hb : Forall is_byte buf)
    (Ho : 0 ≤ offset) (Hl : 0 < len buf) (Hs : offset + len buf ≤ di_size di)
    (Hdst : length dst = length buf) :
  ∃ fl, run_flat (_ ← DiskInode_write_at di offset buf; DiskInode_read_at di offset dst) (MkFlat bl h)
    = Ok ((len buf, buf), fl).
Proof.
  destruct (write_at_run h bl di ids idx Hfile Hfree offset buf Hb Ho Hl Hs) as (bl' & Hw & Hfile' & Hc & _).
  pose proof (file_size_range bl di ids idx Hfile).
  exists (MkFlat bl' h). rewrite run_flat_bind, Hw.
  rewrite (read_at_run h bl' di ids idx Hfile' Hfree offset dst) by lia. rewrite Hc.
  assert (Z.max 0 (Z.min (len dst) (di_size di - offset)) = len buf) as -> by lia.
  rewrite slice_splice_eq by (rewrite ?length_content by lia; lia).
  do 3 f_equal. unfold splice. rewrite Z2Nat.inj_0, take_0, drop_ge by lia. apply app_nil_r.
Qed.

Definition demo_data : list Z := (λ i, i mod 251) <$> seqZ 1 300.

Lemma demo_data_bytes : Forall is_byte demo_data.
Proof. apply (bool_decide_unpack _). vm_compute. done. Qed.

Lemma demo_free : file_free [101; 102] [] ∅.
Proof. split; [vm_compute; lia|set_solver]. Qed.

Lemma read_at_content_witness :
  ∃ r, run_flat (DiskInode_read_at demo_inode2 500 (replicate 200 9)) (MkFlat demo_disk ∅) = Ok (r, MkFlat demo_disk ∅)
    ∧ r.1 = 100.
Proof.
  eexists. split.
  - apply (read_at_content ∅ demo_disk demo_inode2 [101; 102] [] 500 (replicate 200 9) demo_inode2_rep demo_free).
    + lia.
    + vm_compute. reflexivity.
  - reflexivity.
Defined.

Lemma write_at_content_witness :
  ∃ bl', run_flat (DiskInode_write_at demo_inode2 300 demo_data) (MkFlat demo_disk ∅) = Ok (300, MkFlat bl' ∅).
Proof.
  destruct (write_at_content ∅ demo_disk demo_inode2 [101; 102] [] 300 demo_data demo_inode2_rep demo_free demo_data_bytes)
    as (bl' & H & _).
  - lia.
  - vm_compute. reflexivity.
  - vm_compute. congruence.
  - exists bl'. exact H.
Defined.

Lemma write_read_roundtrip_witness :
  ∃ fl, run_flat (_ ← DiskInode_write_at demo_inode2 300 demo_data;
                  DiskInode_read_at demo_inode2 300 (replicate 300 0)) (MkFlat demo_disk ∅)
    = Ok ((300, demo_data), fl).
Proof.
  apply (write_read_roundtrip ∅ demo_disk demo_inode2 [101; 102] [] 300 demo_data (replicate 300 0)
    demo_inode2_rep demo_free demo_data_bytes).
  - lia.
  - vm_compute. reflexivity.
  - vm_compute. congruence.
  - reflexivity.
Defined.
