(* ===== verification/Efs.v ===== *)
(** The disk layout of easy-fs and its block and inode allocation
    ([easy-fs/src/efs.rs]).  The [EasyFileSystem] value itself never changes; its mutex,
    which every operation takes once for its whole duration, is not modelled. *)

From S2P Require Import Prelude BlockDev BlockCache BlockAccess Bitmap Layout.

Record EasyFileSystem := MkEfs {
  efs_inode_bitmap : Bitmap;
  efs_data_bitmap : Bitmap;
  efs_inode_area_start_block : Z;
  efs_data_area_start_block : Z
}.

Definition inode_size : Z := Z.of_nat (size_of DiskInode_repr).

(** (block id, offset in the block) *)
Definition EasyFileSystem_get_disk_inode_pos (self : EasyFileSystem) (inode_id : Z) : Z * Z :=
  let inodes_per_block := wrap 32 (BLOCK_SZ / inode_size) in
  let block_id := (efs_inode_area_start_block self + inode_id / inodes_per_block)%u32 in
  (block_id, ((inode_id mod inodes_per_block) * inode_size)%usize).

Definition EasyFileSystem_get_data_block_id (self : EasyFileSystem) (data_block_id : Z) : Z :=
  (efs_data_area_start_block self + data_block_id)%u32.

Definition EasyFileSystem_alloc_inode (self : EasyFileSystem) : prog Z :=
  r ← Bitmap_alloc (efs_inode_bitmap self);
  n ← prog_lift (unwrap r);
  mret (wrap 32 n).

Definition EasyFileSystem_alloc_data (self : EasyFileSystem) : prog Z :=
  r ← Bitmap_alloc (efs_data_bitmap self);
  n ← prog_lift (unwrap r);
  mret (wrap 32 n + efs_data_area_start_block self)%u32.

Definition zero_bytes (block : list Z) : list Z := (λ _, 0) <$> block.

Definition EasyFileSystem_dealloc_data (self : EasyFileSystem) (block_id : Z) : prog () :=
  _ ← block_modify DataBlock block_id 0 (λ data_block, mret (tt, zero_bytes data_block));
  Bitmap_dealloc (efs_data_bitmap self) (block_id - efs_data_area_start_block self)%u32.

(** [for i in 0..total_blocks] of [create] *)
Fixpoint clear_blocks (ids : list Z) : prog () :=
  match ids with
  | [] => mret tt
  | i :: rest =>
      _ ← block_modify DataBlock i 0 (λ data_block, mret (tt, zero_bytes data_block));
      clear_blocks rest
  end.

(** The layout [create] computes: the file system, the blocks of the inode area, of the
    data bitmap and of the data area. *)
Definition efs_layout (total_blocks inode_bitmap_blocks : Z) : EasyFileSystem * Z * Z * Z :=
  let inode_bitmap := Bitmap_new 1 inode_bitmap_blocks in
  let inode_num := Bitmap_maximum inode_bitmap in
  let inode_area_blocks := wrap 32 ((inode_num * inode_size + BLOCK_SZ - 1)%usize / BLOCK_SZ) in
  let inode_total_blocks := (inode_bitmap_blocks + inode_area_blocks)%u32 in
  let data_total_blocks := (total_blocks - 1 - inode_total_blocks)%u32 in
  let data_bitmap_blocks := (data_total_blocks + 4096)%u32 / 4097 in
  let data_area_blocks := (data_total_blocks - data_bitmap_blocks)%u32 in
  let data_bitmap := Bitmap_new (1 + inode_bitmap_blocks + inode_area_blocks)%u32 data_bitmap_blocks in
  (MkEfs inode_bitmap data_bitmap (1 + inode_bitmap_blocks)%u32
     (1 + inode_total_blocks + data_bitmap_blocks)%u32,
   inode_area_blocks, data_bitmap_blocks, data_area_blocks).

Definition EasyFileSystem_create (total_blocks inode_bitmap_blocks : Z) : prog EasyFileSystem :=
  let '(efs, inode_area_blocks, data_bitmap_blocks, data_area_blocks) :=
    efs_layout total_blocks inode_bitmap_blocks in
  (* clear all blocks *)
  _ ← clear_blocks (seqZ 0 total_blocks);
  (* initialize SuperBlock *)
  _ ← block_modify SuperBlock_repr 0 0 (λ _,
    mret (tt, SuperBlock_initialize total_blocks inode_bitmap_blocks inode_area_blocks
                data_bitmap_blocks data_area_blocks));
  (* create a inode for root node "/" *)
  id ← EasyFileSystem_alloc_inode efs;
  _ ← prog_assert (bool_decide (id = 0));
  let '(root_inode_block_id, root_inode_offset) := EasyFileSystem_get_disk_inode_pos efs 0 in
  _ ← block_modify DiskInode_repr root_inode_block_id root_inode_offset (λ disk_inode,
    mret (tt, DiskInode_initialize disk_inode Directory));
  SyncAll (mret efs).

(** The file system a superblock describes. *)
Definition efs_of_super (super_block : SuperBlock) : EasyFileSystem :=
  let inode_total_blocks :=
    (sb_inode_bitmap_blocks super_block + sb_inode_area_blocks super_block)%u32 in
  MkEfs (Bitmap_new 1 (sb_inode_bitmap_blocks super_block))
    (Bitmap_new (1 + inode_total_blocks)%u32 (sb_data_bitmap_blocks super_block))
    (1 + sb_inode_bitmap_blocks super_block)%u32
    (1 + inode_total_blocks + sb_data_bitmap_blocks super_block)%u32.

Definition EasyFileSystem_open : prog EasyFileSystem :=
  block_read SuperBlock_repr 0 0 (λ super_block,
    _ ← prog_assert (SuperBlock_is_valid super_block);
    mret (efs_of_super super_block)).
