(* ===== verification/Vfs.v ===== *)
(** The virtual file system layer ([easy-fs/src/vfs.rs]): inodes as positions of disk
    inodes, and the directory and file operations on them.  A name is the list of the
    bytes of the string. *)

From S2P Require Import Prelude BlockDev BlockCache BlockAccess Bitmap Layout Efs.

Record Inode := MkInode { ino_block_id : Z; ino_block_offset : Z }.

#[export] Instance Inode_eq_dec : EqDecision Inode.
Proof. solve_decision. Defined.

Definition Inode_new (pos : Z * Z) : Inode := MkInode pos.1 pos.2.

Definition EasyFileSystem_root_inode (efs : EasyFileSystem) : Inode :=
  Inode_new (EasyFileSystem_get_disk_inode_pos efs 0).

Section Vfs.
Context (fs : EasyFileSystem) (self : Inode).

Definition read_disk_inode {V} (f : DiskInode → prog V) : prog V :=
  block_read DiskInode_repr (ino_block_id self) (ino_block_offset self) f.

Definition modify_disk_inode {V} (f : DiskInode → prog (V * DiskInode)) : prog V :=
  block_modify DiskInode_repr (ino_block_id self) (ino_block_offset self) f.

(** Read directory entry [i] into the buffer [dirent]. *)
Definition read_dirent (disk_inode : DiskInode) (i : Z) (dirent : list Z) : prog (Z * list Z) :=
  DiskInode_read_at disk_inode (DIRENT_SZ * i)%usize dirent.

Fixpoint find_loop (name : list Z) (disk_inode : DiskInode) (ixs : list Z) (dirent : list Z) :
    prog (option Z) :=
  match ixs with
  | [] => mret None
  | i :: rest =>
      '(n, dirent) ← read_dirent disk_inode i dirent;
      _ ← prog_assert (bool_decide (n = DIRENT_SZ));
      dname ← prog_lift (DirEntry_name (DirEntry_of_bytes dirent));
      if decide (dname = name) then mret (Some (DirEntry_inode_id (DirEntry_of_bytes dirent)))
      else find_loop name disk_inode rest dirent
  end.

Definition find_inode_id (name : list Z) (disk_inode : DiskInode) : prog (option Z) :=
  _ ← prog_assert (DiskInode_is_dir disk_inode);
  let file_count := di_size disk_inode / DIRENT_SZ in
  find_loop name disk_inode (seqZ 0 file_count) (DirEntry_as_bytes DirEntry_empty).

Definition Inode_find (name : list Z) : prog (option Inode) :=
  read_disk_inode (λ disk_inode,
    r ← find_inode_id name disk_inode;
    mret (option_map (λ inode_id, Inode_new (EasyFileSystem_get_disk_inode_pos fs inode_id)) r)).

Fixpoint alloc_blocks (n : nat) (v : list Z) : prog (list Z) :=
  match n with
  | O => mret v
  | S n' => b ← EasyFileSystem_alloc_data fs; alloc_blocks n' (vec_push v b)
  end.

Definition Inode_increase_size (new_size : Z) (disk_inode : DiskInode) : prog DiskInode :=
  if bool_decide (new_size < di_size disk_inode) then mret disk_inode
  else
    blocks_needed ← prog_lift (DiskInode_blocks_num_needed disk_inode new_size);
    v ← alloc_blocks (Z.to_nat blocks_needed) [];
    DiskInode_increase_size disk_inode new_size v.

(** Append the entry [name] for inode [inode_id] to the directory. *)
Definition append_dirent (name : list Z) (inode_id : Z) : prog () :=
  modify_disk_inode (λ root_inode,
    let file_count := di_size root_inode / DIRENT_SZ in
    let new_size := ((file_count + 1) * DIRENT_SZ)%usize in
    root_inode ← Inode_increase_size (wrap 32 new_size) root_inode;
    dirent ← prog_lift (DirEntry_new name inode_id);
    _ ← DiskInode_write_at root_inode (file_count * DIRENT_SZ)%usize (DirEntry_as_bytes dirent);
    mret (tt, root_inode)).

(** The closure [op] of [create], [link] and [unlink] *)
Definition find_op (name : list Z) (root_inode : DiskInode) : prog (option Z) :=
  _ ← prog_assert (DiskInode_is_dir root_inode);
  find_inode_id name root_inode.

Definition Inode_create (name : list Z) : prog (option Inode) :=
  r ← read_disk_inode (find_op name);
  if decide (r ≠ None) then mret None
  else
    new_inode_id ← EasyFileSystem_alloc_inode fs;
    let '(new_inode_block_id, new_inode_block_offset) :=
      EasyFileSystem_get_disk_inode_pos fs new_inode_id in
    _ ← block_modify DiskInode_repr new_inode_block_id new_inode_block_offset (λ new_inode,
      mret (tt, DiskInode_initialize new_inode File));
    _ ← append_dirent name new_inode_id;
    SyncAll (mret (Some (Inode_new (EasyFileSystem_get_disk_inode_pos fs new_inode_id)))).

Fixpoint ls_loop (disk_inode : DiskInode) (ixs : list Z) (v : list (list Z)) : prog (list (list Z)) :=
  match ixs with
  | [] => mret v
  | i :: rest =>
      '(n, dirent) ← read_dirent disk_inode i (DirEntry_as_bytes DirEntry_empty);
      _ ← prog_assert (bool_decide (n = DIRENT_SZ));
      dname ← prog_lift (DirEntry_name (DirEntry_of_bytes dirent));
      ls_loop disk_inode rest (vec_push v dname)
  end.

Definition Inode_ls : prog (list (list Z)) :=
  read_disk_inode (λ disk_inode,
    let file_count := di_size disk_inode / DIRENT_SZ in
    ls_loop disk_inode (seqZ 0 file_count) []).

Definition Inode_read_at (offset : Z) (buf : list Z) : prog (Z * list Z) :=
  read_disk_inode (λ disk_inode, DiskInode_read_at disk_inode offset buf).

Definition Inode_write_at (offset : Z) (buf : list Z) : prog Z :=
  size ← modify_disk_inode (λ disk_inode,
    disk_inode ← Inode_increase_size (wrap 32 (offset + Z.of_nat (length buf))%usize) disk_inode;
    n ← DiskInode_write_at disk_inode offset buf;
    mret (n, disk_inode));
  SyncAll (mret size).

Fixpoint dealloc_blocks (blocks : list Z) : prog () :=
  match blocks with
  | [] => mret tt
  | b :: rest => _ ← EasyFileSystem_dealloc_data fs b; dealloc_blocks rest
  end.

Definition Inode_clear : prog () :=
  _ ← modify_disk_inode (λ disk_inode,
    let size := di_size disk_inode in
    '(data_blocks_dealloc, disk_inode) ← DiskInode_clear_size disk_inode;
    _ ← prog_assert (bool_decide (Z.of_nat (length data_blocks_dealloc) = DiskInode_total_blocks size));
    _ ← dealloc_blocks data_blocks_dealloc;
    mret (tt, disk_inode));
  SyncAll (mret tt).

Definition Inode_link (old new : list Z) : prog (option Inode) :=
  r ← read_disk_inode (find_op old);
  match r with
  | Some old_inode_id =>
      let new_inode_id := old_inode_id in
      _ ← append_dirent new new_inode_id;
      mret (Some (Inode_new (EasyFileSystem_get_disk_inode_pos fs new_inode_id)))
  | None => mret None
  end.

(** The search loop of [unlink]: the entry found is overwritten by the last one and the
    directory shrinks by one entry. *)
Fixpoint unlink_loop (name : list Z) (file_count : Z) (root_inode : DiskInode) (ixs : list Z)
    (buf swap : list Z) : prog DiskInode :=
  match ixs with
  | [] => mret root_inode
  | i :: rest =>
      '(n, buf) ← read_dirent root_inode i buf;
      if decide (n = DIRENT_SZ) then
        bname ← prog_lift (DirEntry_name (DirEntry_of_bytes buf));
        if decide (bname = name) then
          '(_, swap) ← read_dirent root_inode (file_count - 1)%usize swap;
          _ ← DiskInode_write_at root_inode (DIRENT_SZ * i)%usize swap;
          mret (set_size root_inode (di_size root_inode - DIRENT_SZ)%u32)
        else unlink_loop name file_count root_inode rest buf swap
      else unlink_loop name file_count root_inode rest buf swap
  end.

Definition Inode_unlink (name : list Z) : prog Z :=
  r ← read_disk_inode (find_op name);
  match r with
  | Some _ =>
      _ ← modify_disk_inode (λ root_inode,
        let file_count := di_size root_inode / DIRENT_SZ in
        root_inode ← unlink_loop name file_count root_inode (seqZ 0 file_count)
          (DirEntry_as_bytes DirEntry_empty) (DirEntry_as_bytes DirEntry_empty);
        mret (tt, root_inode));
      mret 0
  | None => mret (-1)
  end.

Fixpoint link_num_loop (block_id block_offset : Z) (root_inode : DiskInode) (ixs : list Z)
    (buf : list Z) (count : Z) : prog Z :=
  match ixs with
  | [] => mret count
  | i :: rest =>
      '(n, buf) ← read_dirent root_inode i buf;
      _ ← prog_assert (bool_decide (n = DIRENT_SZ));
      let '(this_inode_block_id, this_inode_block_offset) :=
        EasyFileSystem_get_disk_inode_pos fs (DirEntry_inode_id (DirEntry_of_bytes buf)) in
      let count :=
        if decide (this_inode_block_id = block_id ∧ this_inode_block_offset = block_offset)
        then (count + 1)%u32 else count in
      link_num_loop block_id block_offset root_inode rest buf count
  end.

Definition Inode_get_link_num (block_id block_offset : Z) : prog Z :=
  read_disk_inode (λ root_inode,
    let file_count := di_size root_inode / DIRENT_SZ in
    link_num_loop block_id block_offset root_inode (seqZ 0 file_count)
      (DirEntry_as_bytes DirEntry_empty) 0).
End Vfs.
