(* ===== verification/FsRep.v ===== *)
(** A file system on a disk.  [efs_wf] is the layout of the regions; [fs_ok] says that the
    disk holds a set of inodes ([nodes]) with their block trees, that the inode bitmap
    marks exactly these inodes, that every block of a tree is marked in the data bitmap
    and belongs to one inode only, and that unmarked data blocks are zero.  Allocation,
    deallocation and the update of one inode preserve it. *)

From S2P Require Import Prelude BlockDev BlockCache BlockAccess Bitmap Layout InodeTree InodeData Efs Vfs.

Ltac Zify.zify_post_hook ::= Z.to_euclidean_division_equations.

(** * Layout *)

(** The regions in order, [N] blocks in the data area. *)
Record efs_wf (efs : EasyFileSystem) (N : Z) : Prop := {
  ew_start : 1 ≤ bitmap_start_block_id (efs_inode_bitmap efs);
  ew_ib : 0 ≤ bitmap_blocks (efs_inode_bitmap efs) ≤ 2 ^ 20;
  ew_ia : bitmap_start_block_id (efs_inode_bitmap efs) + bitmap_blocks (efs_inode_bitmap efs)
            ≤ efs_inode_area_start_block efs;
  ew_db : efs_inode_area_start_block efs + bitmap_blocks (efs_inode_bitmap efs) * 1024
            ≤ bitmap_start_block_id (efs_data_bitmap efs);
  ew_dbb : 0 ≤ bitmap_blocks (efs_data_bitmap efs);
  ew_da : bitmap_start_block_id (efs_data_bitmap efs) + bitmap_blocks (efs_data_bitmap efs)
            ≤ efs_data_area_start_block efs;
  ew_N : 0 ≤ N ≤ bitmap_blocks (efs_data_bitmap efs) * 4096;
  ew_max : efs_data_area_start_block efs + N ≤ 2 ^ 32
}.

(** An inode with its data and index blocks. *)
Record node := MkNode { nd_inode : DiskInode; nd_ids : list Z; nd_idx : list Z }.
Definition nd_blocks (nd : node) : list Z := nd_ids nd ++ nd_idx nd.

Definition zero_block : list Z := replicate 512 0.

Section FsRep.
Context (efs : EasyFileSystem) (N : Z) (Hgeo : efs_wf efs N).
Implicit Types (h : gset Z) (bl : gmap Z (list Z)).

Abbreviation ib := (efs_inode_bitmap efs).
Abbreviation db := (efs_data_bitmap efs).
Abbreviation ia := (efs_inode_area_start_block efs).
Abbreviation da := (efs_data_area_start_block efs).

(** ** Inode slots *)

Definition inode_range (i : Z) : Prop := 0 ≤ i < bitmap_blocks ib * 4096.
Definition iblk (i : Z) : Z := ia + i / 4.
Definition ioff (i : Z) : Z := (i mod 4) * 128.
Definition in_iarea (b : Z) : Prop := ia ≤ b < ia + bitmap_blocks ib * 1024.

Definition disk_inode bl (i : Z) : option DiskInode :=
  d ← bl !! iblk i; decode DiskInode_repr (slice d (ioff i) 128).

(** The positions of inode [i]; distinct inodes have distinct ones. *)
Lemma inode_pos i : inode_range i → EasyFileSystem_get_disk_inode_pos efs i = (iblk i, ioff i).
Proof.
  intros [Hi1 Hi2]. destruct Hgeo. unfold EasyFileSystem_get_disk_inode_pos, inode_size, BLOCK_SZ, iblk, ioff.
  change (Z.of_nat (size_of DiskInode_repr)) with 128. change (wrap 32 (512 / 128)) with 4.
  rewrite add_w_small by (unfold fits; lia). rewrite mul_w_small by (unfold fits; lia). done.
Qed.

Lemma iblk_in i : inode_range i → in_iarea (iblk i).
Proof. unfold inode_range, in_iarea, iblk. lia. Qed.

Lemma ioff_range i : 0 ≤ ioff i ∧ ioff i + 128 ≤ 512.
Proof. unfold ioff. lia. Qed.

Lemma slots_disjoint i j : i ≠ j → iblk i = iblk j → ioff j + 128 ≤ ioff i ∨ ioff i + 128 ≤ ioff j.
Proof. unfold iblk, ioff. lia. Qed.

(** Regions do not overlap. *)
Definition in_data (b : Z) : Prop := da ≤ b < da + N.

Lemma regions b :
  (in_bitmap ib b → ¬ in_iarea b ∧ ¬ in_bitmap db b ∧ ¬ in_data b) ∧
  (in_iarea b → ¬ in_bitmap db b ∧ ¬ in_data b) ∧ (in_bitmap db b → ¬ in_data b).
Proof. destruct Hgeo. unfold in_bitmap, in_iarea, in_data. lia. Qed.

Lemma ib_wf : bitmap_wf ib.
Proof. destruct Hgeo. unfold bitmap_wf. lia. Qed.
Lemma db_wf : bitmap_wf db.
Proof. destruct Hgeo. unfold bitmap_wf. lia. Qed.

(** ** The invariant *)

(** Bytes of the last block beyond the size of a regular file are zero. *)
Definition tail_zero bl (nd : node) : Prop :=
  di_type (nd_inode nd) = File → ∀ p, di_size (nd_inode nd) ≤ p → file_byte bl (nd_ids nd) p = 0.

(** Block 0 describes the layout. *)
Definition super_ok bl : Prop :=
  ∃ d sb, bl !! 0 = Some d ∧ block_wf d ∧ decode SuperBlock_repr (slice d 0 24) = Some sb ∧
    SuperBlock_is_valid sb = true ∧ efs_of_super sb = efs.

Lemma super_frame bl bl' : super_ok bl → bl' !! 0 = bl !! 0 → super_ok bl'.
Proof. intros (d & sb & Hd & Hs) E. exists d, sb. by rewrite E. Qed.

Lemma super_outside : ¬ in_bitmap ib 0 ∧ ¬ in_bitmap db 0 ∧ ¬ in_iarea 0 ∧ ¬ in_data 0.
Proof. destruct Hgeo. unfold in_bitmap, in_iarea, in_data. lia. Qed.

(** A block of the inode area: four inodes. *)
Definition slots_ok (d : list Z) : Prop :=
  block_wf d ∧ ∀ k, 0 ≤ k < 4 → is_Some (decode DiskInode_repr (slice d (k * 128) 128)).

Record node_ok bl (used : gset Z) (i : Z) (nd : node) : Prop := {
  no_slot : disk_inode bl i = Some (nd_inode nd);
  no_file : file_rep bl (nd_inode nd) (nd_ids nd) (nd_idx nd);
  no_used b : b ∈ nd_blocks nd → b - da ∈ used;
  no_tail : tail_zero bl nd
}.

Record fs_ok bl (nodes : gmap Z node) (used : gset Z) : Prop := {
  ok_ibits : bitmap_is ib bl (dom nodes);
  ok_dbits : bitmap_is db bl used;
  ok_used n : n ∈ used → 0 ≤ n < N;
  ok_iarea b : in_iarea b → ∃ d, bl !! b = Some d ∧ slots_ok d;
  ok_data b : in_data b → present bl b;
  ok_free n : 0 ≤ n < N → n ∉ used → bl !! (da + n) = Some zero_block;
  ok_node i nd : nodes !! i = Some nd → node_ok bl used i nd;
  ok_disj i j ndi ndj b : nodes !! i = Some ndi → nodes !! j = Some ndj →
    b ∈ nd_blocks ndi → b ∈ nd_blocks ndj → i = j;
  ok_super : super_ok bl
}.

Lemma node_range bl nodes used i nd : fs_ok bl nodes used → nodes !! i = Some nd → inode_range i.
Proof. intros Hok Hi. apply (bits_range _ _ _ (ok_ibits _ _ _ Hok)). by eapply elem_of_dom_2. Qed.

Lemma node_in_data bl nodes used i nd b :
  fs_ok bl nodes used → nodes !! i = Some nd → b ∈ nd_blocks nd → in_data b.
Proof.
  intros Hok Hi Hb. pose proof (no_used _ _ _ _ (ok_node _ _ _ Hok i nd Hi) b Hb) as Hu.
  apply (ok_used _ _ _ Hok) in Hu. unfold in_data. lia.
Qed.

(** ** Frame lemmas *)

Lemma bitmap_is_frame bm bl bl' s :
  bitmap_is bm bl s → (∀ b, in_bitmap bm b → bl' !! b = bl !! b) → bitmap_is bm bl' s.
Proof.
  intros [Hr Hb] Hsame. split; [done|]. intros k Hk. destruct (Hb k Hk) as (d & Hd & ?). exists d.
  split; [|done]. rewrite Hsame; [done|]. unfold in_bitmap. lia.
Qed.

Lemma file_rep_frame bl bl' di ids idx :
  file_rep bl di ids idx → (∀ b, b ∈ ids ++ idx → bl' !! b = bl !! b) → file_rep bl' di ids idx.
Proof.
  intros [Hrep Hids Hidx Hmax] Hsame. split; [|done..]. pose proof Hrep as [H1 H2 H3 H4 H5 H6].
  assert (Hptr : ∀ b j, b ∈ idx → ptr_at bl' b j = ptr_at bl b j).
  { intros b j Hb. unfold ptr_at. by rewrite Hsame by set_solver. }
  split; [| |done|done| |done].
  - intros i Hi. rewrite <- H1 by done. unfold block_id_of. repeat case_decide; [done| |].
    + apply Hptr. eapply list_elem_of_lookup_2, (idx_0 bl di ids idx Hrep). lia.
    + rewrite Hptr by (eapply list_elem_of_lookup_2, (idx_1 bl di ids idx Hrep); lia).
      destruct (idx_sub bl di ids idx Hrep ((i - 156) / 128)) as (sub & Hsub & ->); [lia|lia|]. simpl.
      apply Hptr. by eapply list_elem_of_lookup_2.
  - intros k Hk'. rewrite <- H2 by done. unfold idx_id_of. repeat case_decide; [done|done|].
    apply Hptr. apply list_elem_of_lookup_2 with 1%nat. symmetry. exact (H2 1 ltac:(lia)).
  - intros b Hb. destruct (H5 b Hb) as (d & ? & ?). exists d. by rewrite Hsame.
Qed.

Lemma file_byte_frame bl bl' ids p :
  (∀ b, b ∈ ids → bl' !! b = bl !! b) → file_byte bl' ids p = file_byte bl ids p.
Proof.
  intros Hsame. unfold file_byte. destruct (ids !! Z.to_nat (p / 512)) as [b|] eqn:Hb; [|done]. simpl.
  rewrite Hsame; [done|]. by eapply list_elem_of_lookup_2.
Qed.

Lemma content_frame bl bl' ids size :
  (∀ b, b ∈ ids → bl' !! b = bl !! b) → content bl' ids size = content bl ids size.
Proof. intros Hsame. unfold content. apply list_fmap_ext. intros. by apply file_byte_frame. Qed.

Lemma node_ok_frame bl bl' used used' i nd :
  node_ok bl used i nd → disk_inode bl' i = disk_inode bl i → (∀ b, b ∈ nd_blocks nd → bl' !! b = bl !! b) →
  (∀ b, b ∈ nd_blocks nd → b - da ∈ used') → node_ok bl' used' i nd.
Proof.
  intros [Hs Hf Hu Ht] Hdi Hsame Hu'. split; [by rewrite Hdi|by eapply file_rep_frame|done|].
  intros Htype p Hp. rewrite (file_byte_frame bl); [by apply Ht|]. intros b Hb. apply Hsame. unfold nd_blocks. set_solver.
Qed.

(** ** Storing an inode *)

Definition store_inode bl (i : Z) (d : list Z) (di : DiskInode) : gmap Z (list Z) :=
  <[iblk i := splice d (ioff i) (encode DiskInode_repr di (slice d (ioff i) 128))]> bl.

Lemma disk_inode_store bl i d di j :
  bl !! iblk i = Some d → block_wf d → DiskInode_valid di →
  disk_inode (store_inode bl i d di) j = if decide (j = i) then Some di else disk_inode bl j.
Proof.
  intros Hd [Hl Hb] Hv. unfold disk_inode, store_inode. pose proof (ioff_range i) as [Ho1 Ho2].
  destruct (decide (iblk j = iblk i)) as [Hji|Hji].
  - rewrite Hji, lookup_insert_eq, Hd. simpl mbind. destruct (decide (j = i)) as [->|Hne].
    + apply (decode_splice_eq DiskInode_repr); done.
    + apply (decode_splice_ne DiskInode_repr DiskInode_repr); [done..|apply ioff_range|].
      change (Z.of_nat (size_of DiskInode_repr)) with 128. apply slots_disjoint; [done|]. congruence.
  - rewrite lookup_insert_ne by congruence. rewrite decide_False; [done|]. congruence.
Qed.

Lemma slots_store d i di :
  slots_ok d → DiskInode_valid di →
  slots_ok (splice d (ioff i) (encode DiskInode_repr di (slice d (ioff i) 128))).
Proof.
  intros [Hw Hs] Hv. pose proof (ioff_range i) as [Ho1 Ho2].
  split; [by apply (splice_block_wf DiskInode_repr)|]. intros k Hk. destruct (decide (k * 128 = ioff i)) as [->|].
  - rewrite (decode_splice_eq DiskInode_repr); [eauto|apply Hw|done..].
  - rewrite (decode_splice_ne DiskInode_repr DiskInode_repr); [by apply Hs|apply Hw|done..|lia|].
    change (Z.of_nat (size_of DiskInode_repr)) with 128. unfold ioff in *. lia.
Qed.

(** ** Changing one tree

    What a computation on the inode of [nd] may change before the inode itself is stored:
    the data bitmap, its own blocks and free blocks. *)
Record tree_step bl (used : gset Z) (nd : node) bl1 (used1 : gset Z) (nd1 : node) : Prop := {
  ts_outside b : ¬ in_bitmap db b → ¬ (in_data b ∧ (b ∈ nd_blocks nd ∨ b - da ∉ used)) → bl1 !! b = bl !! b;
  ts_dbits : bitmap_is db bl1 used1;
  ts_used n : n ∈ used1 → 0 ≤ n < N;
  ts_keep n : n ∈ used → da + n ∉ nd_blocks nd → n ∈ used1;
  ts_data b : in_data b → present bl1 b;
  ts_free n : 0 ≤ n < N → n ∉ used1 → bl1 !! (da + n) = Some zero_block;
  ts_file : file_rep bl1 (nd_inode nd1) (nd_ids nd1) (nd_idx nd1);
  ts_own b : b ∈ nd_blocks nd1 → b - da ∈ used1 ∧ (b ∈ nd_blocks nd ∨ b - da ∉ used);
  ts_tail : tail_zero bl1 nd1
}.

Lemma tree_step_trans bl used nd bl1 used1 nd1 bl2 used2 nd2 :
  tree_step bl used nd bl1 used1 nd1 → tree_step bl1 used1 nd1 bl2 used2 nd2 → tree_step bl used nd bl2 used2 nd2.
Proof.
  intros [O1 B1 U1 K1 D1 F1 R1 W1 T1] [O2 B2 U2 K2 D2 F2 R2 W2 T2].
  assert (Hback : ∀ b, b ∈ nd_blocks nd1 ∨ b - da ∉ used1 → b ∈ nd_blocks nd ∨ b - da ∉ used).
  { intros b [Hb|Hb]; [by apply W1|]. destruct (decide (b ∈ nd_blocks nd)) as [|Hnb]; [by left|]. right. intros Hu.
    apply Hb, K1; [done|]. by replace (da + (b - da)) with b by lia. }
  split; try done.
  - intros b Hdb Hb. rewrite O2, O1; [done|done|done|done|]. intros [Hin Hor]. apply Hb. split; [done|]. by apply Hback.
  - intros n Hn Hnb. apply K2; [by apply K1|]. intros Hb1. destruct (W1 _ Hb1) as [_ [?|Hu]]; [done|].
    apply Hu. by replace (da + n - da) with n by lia.
  - intros b Hb. destruct (W2 b Hb) as [? Hor]. split; [done|]. by apply Hback.
Qed.

Lemma block_used_data b (used : gset Z) : (∀ n, n ∈ used → 0 ≤ n < N) → b - da ∈ used → in_data b.
Proof. intros Hu Hb. apply Hu in Hb. unfold in_data. lia. Qed.

(** *** Storing the changed inode completes the change *)

Section Commit.
Context bl nodes used i nd d bl1 used1 nd1 (Hok : fs_ok bl nodes used) (Hi : nodes !! i = Some nd)
  (Hd : bl !! iblk i = Some d) (Hts : tree_step bl used nd bl1 used1 nd1).

Abbreviation bl2 := (store_inode bl1 i d (nd_inode nd1)).

Lemma commit_out b : ¬ in_bitmap db b → ¬ in_data b → bl1 !! b = bl !! b.
Proof. intros H1 H2. apply (ts_outside _ _ _ _ _ _ Hts); [done|]. by intros [? _]. Qed.

Lemma commit_block : ¬ in_bitmap ib (iblk i) ∧ ¬ in_bitmap db (iblk i) ∧ ¬ in_data (iblk i) ∧
  bl1 !! iblk i = Some d ∧ slots_ok d.
Proof.
  pose proof (iblk_in i (node_range _ _ _ _ _ Hok Hi)) as Hib. destruct (regions (iblk i)) as (Hr1 & Hr2 & _).
  destruct (ok_iarea _ _ _ Hok _ Hib) as (d' & Hd' & Hslots). destruct (Hr2 Hib) as [H1 H2].
  split; [intros H3; by destruct (Hr1 H3)|]. split; [done|]. split; [done|]. rewrite commit_out by done. by simplify_eq.
Qed.

Lemma commit_store b : b ≠ iblk i → bl2 !! b = bl1 !! b.
Proof. intros Hb. unfold store_inode. by rewrite lookup_insert_ne. Qed.

Lemma commit_other j ndj b : j ≠ i → nodes !! j = Some ndj → b ∈ nd_blocks ndj →
  (b ∉ nd_blocks nd) ∧ b - da ∈ used ∧ in_data b.
Proof.
  intros Hj Hnj Hb. split; [intros Hb'; apply Hj; by eapply (ok_disj _ _ _ Hok)|].
  split; [by apply (no_used _ _ _ _ (ok_node _ _ _ Hok j ndj Hnj))|by eapply node_in_data].
Qed.

Lemma commit_slot j : inode_range j → disk_inode bl2 j = if decide (j = i) then Some (nd_inode nd1) else disk_inode bl j.
Proof.
  intros Hj. destruct commit_block as (_ & _ & _ & Hb1 & Hslots).
  assert (Hv : DiskInode_valid (nd_inode nd1)) by apply (rep_valid _ _ _ _ (fr_tree _ _ _ _ (ts_file _ _ _ _ _ _ Hts))).
  rewrite (disk_inode_store bl1 i d) by (done || apply Hslots). case_decide; [done|]. unfold disk_inode.
  destruct (regions (iblk j)) as (_ & Hr & _). destruct (Hr (iblk_in j Hj)). by rewrite commit_out.
Qed.

(** The changed inode. *)
Lemma commit_self : node_ok bl2 used1 i nd1.
Proof.
  destruct commit_block as (_ & _ & Hnda & _).
  assert (Hblk : ∀ b, b ∈ nd_blocks nd1 → bl2 !! b = bl1 !! b).
  { intros b Hb. apply commit_store. intros ->. apply Hnda.
    eapply block_used_data; [apply (ts_used _ _ _ _ _ _ Hts)|]. by apply (ts_own _ _ _ _ _ _ Hts). }
  split.
  - rewrite commit_slot by (by eapply node_range). by rewrite decide_True.
  - eapply file_rep_frame; [apply (ts_file _ _ _ _ _ _ Hts)|done].
  - intros b Hb. by apply (ts_own _ _ _ _ _ _ Hts).
  - intros Ht p Hp. rewrite (file_byte_frame bl1); [by apply (ts_tail _ _ _ _ _ _ Hts)|].
    intros b Hb. apply Hblk. unfold nd_blocks. set_solver.
Qed.

(** The others. *)
Lemma commit_node j ndj : j ≠ i → nodes !! j = Some ndj → node_ok bl2 used1 j ndj.
Proof.
  intros Hne Hj. destruct commit_block as (_ & _ & Hnda & _).
  eapply node_ok_frame; [exact (ok_node _ _ _ Hok j ndj Hj)|..].
  - rewrite commit_slot by (by eapply node_range). by rewrite decide_False.
  - intros b Hb. destruct (commit_other j ndj b) as (H1 & H2 & H3); [done..|]. rewrite commit_store by (by intros ->).
    apply (ts_outside _ _ _ _ _ _ Hts); [|tauto]. intros Hdb. destruct (regions b) as (_ & _ & Hr). by apply Hr.
  - intros b Hb. destruct (commit_other j ndj b) as (H1 & H2 & H3); [done..|].
    apply (ts_keep _ _ _ _ _ _ Hts); [done|]. by replace (da + (b - da)) with b by lia.
Qed.

Lemma commit_disj j ndj b : j ≠ i → nodes !! j = Some ndj → b ∈ nd_blocks nd1 → b ∈ nd_blocks ndj → False.
Proof.
  intros Hj Hnj H1 H2. destruct (commit_other j ndj b) as (H3 & H4 & _); [done..|].
  destruct (ts_own _ _ _ _ _ _ Hts b H1) as [_ [?|?]]; done.
Qed.

Lemma fs_commit : fs_ok bl2 (<[i := nd1]> nodes) used1.
Proof.
  destruct commit_block as (Hnib & Hndb & Hnda & Hb1 & Hslots).
  assert (Hv : DiskInode_valid (nd_inode nd1)) by apply (rep_valid _ _ _ _ (fr_tree _ _ _ _ (ts_file _ _ _ _ _ _ Hts))).
  split.
  - rewrite dom_insert_L. rewrite (subseteq_union_1_L {[i]} (dom nodes)) by (apply singleton_subseteq_l; by eapply elem_of_dom_2).
    eapply bitmap_is_frame; [apply (ok_ibits _ _ _ Hok)|]. intros b Hb. destruct (regions b) as (Hr & _).
    destruct (Hr Hb) as (? & ? & ?). rewrite commit_store by congruence. by apply commit_out.
  - eapply bitmap_is_frame; [apply (ts_dbits _ _ _ _ _ _ Hts)|]. intros b Hb. apply commit_store. by intros ->.
  - apply (ts_used _ _ _ _ _ _ Hts).
  - intros b Hb. destruct (decide (b = iblk i)) as [->|Hne].
    + unfold store_inode. rewrite lookup_insert_eq. eexists. split; [done|]. by apply slots_store.
    + rewrite commit_store by done. destruct (regions b) as (_ & Hr & _). destruct (Hr Hb). rewrite commit_out by done.
      by apply (ok_iarea _ _ _ Hok).
  - intros b Hb. unfold present. rewrite commit_store by (by intros ->). by apply (ts_data _ _ _ _ _ _ Hts).
  - intros n Hn Hnu. rewrite commit_store; [by apply (ts_free _ _ _ _ _ _ Hts)|]. intros E. apply Hnda. rewrite <- E.
    unfold in_data. lia.
  - intros j ndj Hj. apply lookup_insert_Some in Hj as [[<- <-]|[Hne Hj]]; [apply commit_self|by apply commit_node].
  - intros j k ndj ndk b Hj Hk H1 H2.
    apply lookup_insert_Some in Hj as [[<- <-]|[Hne Hj]]; apply lookup_insert_Some in Hk as [[<- <-]|[Hne' Hk]]; try done.
    + exfalso. by eapply (commit_disj k ndk b).
    + exfalso. by eapply (commit_disj j ndj b).
    + by eapply (ok_disj _ _ _ Hok).
  - destruct super_outside as (_ & ? & ? & ?). eapply super_frame; [apply Hok|].
    rewrite commit_store; [by apply commit_out|]. intros E. pose proof (iblk_in i (node_range _ _ _ _ _ Hok Hi)). congruence.
Qed.
End Commit.

(** ** Allocating data blocks *)

Lemma free_bit (used : gset Z) : Z.of_nat (size used) < N → ∃ n, 0 ≤ n < N ∧ n ∉ used.
Proof.
  intros Hsz. destruct (decide (Exists (λ n, n ∉ used) (seqZ 0 N))) as [(n & Hn & ?)%Exists_exists|Hno].
  { apply elem_of_seqZ in Hn. exists n. split; [lia|done]. }
  exfalso. assert (list_to_set (C := gset Z) (seqZ 0 N) ⊆ used) as Hsub.
  { intros n Hn. apply elem_of_list_to_set in Hn. destruct (decide (n ∈ used)); [done|]. exfalso. apply Hno, Exists_exists. eauto. }
  apply subseteq_size in Hsub. rewrite size_list_to_set in Hsub by apply NoDup_seqZ. rewrite length_seqZ in Hsub. lia.
Qed.

Lemma alloc_data_ok h bl (used : gset Z) :
  bitmap_is db bl used → bitmap_free db h → Z.of_nat (size used) < N →
  wp h (EasyFileSystem_alloc_data efs) bl (λ b bl', in_data b ∧ (b - da ∉ used) ∧
    bitmap_is db bl' ({[b - da]} ∪ used) ∧ same_outside (in_bitmap db) bl bl').
Proof.
  intros Hbm Hfree Hsz. unfold EasyFileSystem_alloc_data. apply wp_bind.
  eapply wp_mono; [apply (Bitmap_alloc_ok db db_wf h bl used Hbm Hfree)|]. intros r bl' Hpost.
  destruct (free_bit used Hsz) as (m & Hm & Hmu). destruct Hgeo.
  destruct r as [n|]; simpl in Hpost.
  - destruct Hpost as (Hn & Hnu & Hlow & Hbm' & Hout). eapply wp_lift; [done|]. apply wp_ret.
    assert (n ≤ m). { destruct (decide (m < n)); [|lia]. exfalso. apply Hmu, Hlow. lia. }
    rewrite wrap_small by (unfold fits; lia). rewrite add_w_small by (unfold fits; lia).
    replace (n + da - da) with n by lia. unfold in_data. split; [lia|done].
  - destruct Hpost as [-> Hall]. exfalso. apply Hmu, Hall. lia.
Qed.

(** The bits of a list of data blocks. *)
Definition bits_of (bs : list Z) : gset Z := list_to_set ((λ b, b - da) <$> bs).

Lemma elem_of_bits n bs : n ∈ bits_of bs ↔ da + n ∈ bs.
Proof.
  unfold bits_of. rewrite elem_of_list_to_set, list_elem_of_fmap. split.
  - intros (b & -> & Hb). by replace (da + (b - da)) with b by lia.
  - intros Hb. exists (da + n). split; [lia|done].
Qed.

Lemma alloc_blocks_ok h k : ∀ bl (used : gset Z) v,
  bitmap_is db bl used → bitmap_free db h → Z.of_nat (size used) + Z.of_nat k ≤ N →
  wp h (alloc_blocks efs k v) bl (λ v' bl', ∃ nb, v' = v ++ nb ∧ length nb = k ∧ NoDup nb ∧
    (∀ b, b ∈ nb → in_data b ∧ b - da ∉ used) ∧
    bitmap_is db bl' (bits_of nb ∪ used) ∧ same_outside (in_bitmap db) bl bl').
Proof.
  induction k as [|k IH]; intros bl used v Hbm Hfree Hsz; simpl.
  - apply wp_ret. exists []. rewrite app_nil_r. split; [done|]. split; [done|]. split; [constructor|].
    split; [set_solver|]. split; [|done]. unfold bits_of. simpl. by rewrite union_empty_l_L.
  - apply wp_bind. eapply wp_mono; [apply (alloc_data_ok h bl used Hbm Hfree)|]; [lia|].
    intros b bl1 (Hb & Hbu & Hbm1 & Ho1). eapply wp_mono; [apply (IH bl1 ({[b - da]} ∪ used) (vec_push v b) Hbm1 Hfree)|].
    { rewrite size_union by (clear -Hbu; set_solver). rewrite size_singleton. lia. }
    intros v' bl2 (nb & -> & Hlen & Hnd & Hnb & Hbm2 & Ho2). exists (b :: nb). unfold vec_push.
    split; [by rewrite <- app_assoc|]. split; [simpl; lia|]. split.
    { constructor; [|done]. intros Hin. destruct (Hnb b Hin) as [_ Hx]. clear -Hx. set_solver. }
    split; [intros b' [->|Hb']%elem_of_cons; [done|destruct (Hnb b' Hb') as [? Hx]; split; [done|clear -Hx; set_solver]]|]. split.
    + replace (bits_of (b :: nb) ∪ used) with (bits_of nb ∪ ({[b - da]} ∪ used)); [done|].
      clear. unfold bits_of. simpl. set_solver.
    + intros b' Hb'. by rewrite Ho2, Ho1.
Qed.

(** ** Growing a file *)

(** A tree in a consistent disk. *)
Definition tree_ok bl (used : gset Z) (nd : node) : Prop := tree_step bl used nd bl used nd.

Lemma tree_ok_node bl nodes used i nd : fs_ok bl nodes used → nodes !! i = Some nd → tree_ok bl used nd.
Proof.
  intros Hok Hi. destruct (ok_node _ _ _ Hok i nd Hi) as [Hs Hf Hu Ht]. split; try done; try apply Hok.
  intros b Hb. split; [by apply Hu|by left].
Qed.

Lemma tree_step_ok bl used nd bl1 used1 nd1 : tree_step bl used nd bl1 used1 nd1 → tree_ok bl1 used1 nd1.
Proof. intros []. split; try done. intros b Hb. split; [naive_solver|by left]. Qed.

(** Bitmap and data blocks can be locked, two at a time. *)
Definition fs_free h : Prop :=
  (size h + 2 ≤ BLOCK_CACHE_SIZE)%nat ∧ ∀ b, in_bitmap db b ∨ in_data b → b ∉ h.

Lemma fs_free_bitmap h : fs_free h → bitmap_free db h.
Proof. intros [? Hf]. split; [lia|]. intros b Hb. apply Hf. by left. Qed.

Lemma fs_free_tree h bl used nd : fs_free h → tree_ok bl used nd → file_free (nd_ids nd) (nd_idx nd) h.
Proof.
  intros [? Hf] Hok. split; [done|]. intros b Hb. apply Hf. right.
  eapply block_used_data; [apply (ts_used _ _ _ _ _ _ Hok)|]. by apply (ts_own _ _ _ _ _ _ Hok).
Qed.

(** The blocks a file of [new_size] bytes needs on top of those of [size] bytes. *)
Definition growth (size new_size : Z) : Z := DiskInode_total_blocks new_size - DiskInode_total_blocks size.

Lemma growth_needed di new_size :
  0 ≤ di_size di ≤ new_size → new_size ≤ MAX_BLOCKS * 512 →
  DiskInode_blocks_num_needed di new_size = Ok (growth (di_size di) new_size) ∧ 0 ≤ growth (di_size di) new_size.
Proof.
  unfold MAX_BLOCKS. intros Hs Hm. unfold DiskInode_blocks_num_needed, res_assert, growth.
  rewrite bool_decide_eq_true_2 by lia. rewrite !total_blocks_eq by (unfold MAX_BLOCKS; lia).
  rewrite !data_blocks_eq by lia. unfold nidx.
  assert (0 ≤ (new_size + 511) / 512 ≤ 16540 ∧ (di_size di + 511) / 512 ≤ (new_size + 511) / 512 ∧ 0 ≤ (di_size di + 511) / 512)
    as (Ha & Hb & Hc) by lia.
  generalize dependent ((new_size + 511) / 512). intros x Ha Hb. generalize dependent ((di_size di + 511) / 512). intros y Hb Hc.
  simpl. split; [|repeat case_decide; lia]. unfold mret, res_ret. f_equal. rewrite sub_w_small; [done|].
  unfold fits. repeat case_decide; lia.
Qed.

(** Freshly allocated data blocks extend a regular file with zeros. *)
Lemma file_byte_grown bl used nd bl1 news p :
  tree_ok bl used nd → (∀ b, b ∈ nd_ids nd ++ news → bl1 !! b = bl !! b) →
  (∀ b, b ∈ news → bl !! b = Some zero_block) → di_type (nd_inode nd) = File → di_size (nd_inode nd) ≤ p →
  file_byte bl1 (nd_ids nd ++ news) p = 0.
Proof.
  intros Hok Hsame Hnew Ht Hp. rewrite (file_byte_frame bl) by done.
  destruct (decide (Z.to_nat (p / 512) < length (nd_ids nd))%nat) as [Hlt|Hge].
  - rewrite <- (ts_tail _ _ _ _ _ _ Hok Ht p Hp). unfold file_byte. by rewrite lookup_app_l.
  - unfold file_byte. rewrite lookup_app_r by lia. destruct (news !! _) as [b|] eqn:Hb; [|done]. simpl.
    rewrite (Hnew b) by (by eapply list_elem_of_lookup_2). simpl. unfold zero_block.
    rewrite lookup_replicate_2 by lia. done.
Qed.

Lemma content_app_zeros bl bl1 ids news size n :
  0 ≤ size ≤ n → (∀ p, 0 ≤ p < size → file_byte bl1 (ids ++ news) p = file_byte bl ids p) →
  (∀ p, size ≤ p → file_byte bl1 (ids ++ news) p = 0) →
  content bl1 (ids ++ news) n = content bl ids size ++ replicate (Z.to_nat (n - size)) 0.
Proof.
  intros Hs Hlow Hhigh. pose proof (length_content bl ids size ltac:(lia)). apply list_eq. intros j.
  destruct (decide (Z.of_nat j < n)).
  - rewrite content_lookup by lia. destruct (decide (Z.of_nat j < size)).
    + rewrite lookup_app_l by lia. rewrite content_lookup by lia. rewrite Hlow by lia. done.
    + rewrite lookup_app_r by lia. rewrite lookup_replicate_2 by lia. rewrite Hhigh by lia. done.
  - rewrite content_lookup_ge by lia. symmetry. apply lookup_ge_None. rewrite length_app, length_replicate. lia.
Qed.

(** What growing a tree does to the disk. *)
Record grown bl (used : gset Z) (nd : node) (new_size : Z) bl1 (used1 : gset Z) (nd1 : node) : Prop := {
  gr_step : tree_step bl used nd bl1 used1 nd1;
  gr_size : di_size (nd_inode nd1) = new_size;
  gr_type : di_type (nd_inode nd1) = di_type (nd_inode nd);
  gr_used : Z.of_nat (size used1) = Z.of_nat (size used) + growth (di_size (nd_inode nd)) new_size;
  gr_old p : 0 ≤ p < di_size (nd_inode nd) → file_byte bl1 (nd_ids nd1) p = file_byte bl (nd_ids nd) p;
  gr_content : di_type (nd_inode nd) = File →
    content bl1 (nd_ids nd1) new_size =
      content bl (nd_ids nd) (di_size (nd_inode nd)) ++ replicate (Z.to_nat (new_size - di_size (nd_inode nd))) 0
}.

Lemma tree_size_range bl used nd : tree_ok bl used nd → 0 ≤ di_size (nd_inode nd) < 2 ^ 31.
Proof. intros Hok. eapply file_size_range. apply (ts_file _ _ _ _ _ _ Hok). Qed.

(** From the blocks taken out of the bitmap and the tree extended by them. *)
Lemma grown_intro bl used nd new_size nb bl1 bl2 di' news ni :
  tree_ok bl used nd → di_size (nd_inode nd) ≤ new_size →
  length nb = Z.to_nat (growth (di_size (nd_inode nd)) new_size) → 0 ≤ growth (di_size (nd_inode nd)) new_size →
  NoDup nb → (∀ b, b ∈ nb → in_data b ∧ b - da ∉ used) →
  bitmap_is db bl1 (bits_of nb ∪ used) → same_outside (in_bitmap db) bl bl1 →
  nb ≡ₚ news ++ ni → keeps bl1 bl2 → same_outside (λ b, b ∈ nd_idx nd ++ ni) bl1 bl2 →
  di_size di' = new_size → di_type di' = di_type (nd_inode nd) →
  file_rep bl2 di' (nd_ids nd ++ news) (nd_idx nd ++ ni) →
  grown bl used nd new_size bl2 (bits_of nb ∪ used) (MkNode di' (nd_ids nd ++ news) (nd_idx nd ++ ni)).
Proof.
  intros Hok Hle Hlen Hg Hnd Hnb Hbm Ho1 Hperm Hk Ho2 Hsz Hty Hfile.
  pose proof (tree_size_range _ _ _ Hok) as Hrng. pose proof (rep_nodup _ _ _ _ (fr_tree _ _ _ _ Hfile)) as Hndall.
  assert (Hown : ∀ b, b ∈ nd_blocks nd → in_data b ∧ b - da ∈ used).
  { intros b Hb. destruct (ts_own _ _ _ _ _ _ Hok b Hb) as [Hu _]. split; [|done].
    by eapply block_used_data; [apply (ts_used _ _ _ _ _ _ Hok)|]. }
  assert (Hin : ∀ b, b ∈ news ++ ni → in_data b ∧ b - da ∉ used) by (intros b; rewrite <- Hperm; apply Hnb).
  assert (Hndb : ∀ b, in_data b → bl1 !! b = bl !! b).
  { intros b Hb. apply Ho1. intros Hbb. destruct (regions b) as (_ & _ & Hr). by apply Hr. }
  assert (Hdat : ∀ b, b ∈ nd_ids nd ++ news → bl2 !! b = bl !! b).
  { intros b Hb. rewrite Ho2.
    - apply Hndb. apply elem_of_app in Hb as [Hb|Hb]; [apply Hown|apply Hin]; unfold nd_blocks; clear -Hb; set_solver.
    - apply NoDup_app in Hndall as (_ & Hdis & _). by apply Hdis. }
  assert (Hzero : ∀ b, b ∈ news → bl !! b = Some zero_block).
  { intros b Hb. destruct (Hin b) as [Hb1 Hb2]; [clear -Hb; set_solver|]. unfold in_data in Hb1.
    replace b with (da + (b - da)) by lia. apply (ts_free _ _ _ _ _ _ Hok); [lia|done]. }
  split; cbn; [|done|done| | |].
  - split; cbn.
    + intros b Hdb Hb. rewrite Ho2, Ho1; [done|done|]. intros Hbi. apply Hb.
      apply elem_of_app in Hbi as [Hbi|Hbi].
      * destruct (Hown b) as [? _]; [unfold nd_blocks; clear -Hbi; set_solver|]. split; [done|]. left.
        unfold nd_blocks. clear -Hbi. set_solver.
      * destruct (Hin b) as [? ?]; [clear -Hbi; set_solver|]. split; [done|by right].
    + eapply bitmap_is_frame; [done|]. intros b Hb. apply Ho2. intros Hbi. destruct (regions b) as (_ & _ & Hr). apply (Hr Hb).
      apply elem_of_app in Hbi as [Hbi|Hbi]; [apply Hown|apply Hin]; unfold nd_blocks; clear -Hbi; set_solver.
    + intros n [Hn|Hn]%elem_of_union; [|by apply (ts_used _ _ _ _ _ _ Hok)].
      apply elem_of_bits in Hn. destruct (Hnb _ Hn) as [Hd _]. unfold in_data in Hd. lia.
    + intros n Hn _. clear -Hn. set_solver.
    + intros b Hb. apply Hk. unfold present. rewrite Hndb by done. by apply (ts_data _ _ _ _ _ _ Hok).
    + intros n Hn Hnu. assert (da + n ∉ nb) as Hnn by (rewrite <- elem_of_bits; clear -Hnu; set_solver).
      assert (n ∉ used) as Hnu' by (clear -Hnu; set_solver).
      rewrite Ho2, Hndb; [by apply (ts_free _ _ _ _ _ _ Hok)|unfold in_data; lia|].
      intros [Hx|Hx]%elem_of_app; [|apply Hnn; rewrite Hperm; clear -Hx; set_solver].
      destruct (Hown (da + n)) as [_ Hx']; [unfold nd_blocks; clear -Hx; set_solver|]. apply Hnu'.
      by replace (da + n - da) with n in Hx' by lia.
    + done.
    + intros b Hb. unfold nd_blocks in Hb. cbn in Hb.
      assert (b ∈ nd_blocks nd ∨ b ∈ news ++ ni) as [Hb'|Hb'] by (unfold nd_blocks; clear -Hb; set_solver).
      * destruct (Hown b Hb'). split; [set_solver|by left].
      * destruct (Hin b Hb'). split; [|by right]. apply elem_of_union_l, elem_of_bits.
        replace (da + (b - da)) with b by lia. by rewrite Hperm.
    + intros Hf p Hp. cbn in *. rewrite Hty in Hf. rewrite Hsz in Hp. eapply file_byte_grown; eauto. lia.
  - rewrite size_union by (clear -Hnb; intros x Hx Hu; apply elem_of_bits in Hx; destruct (Hnb _ Hx) as [_ Hy]; apply Hy;
      by replace (da + x - da) with x by lia).
    unfold bits_of. rewrite size_list_to_set; [rewrite length_fmap; lia|]. apply NoDup_fmap_2; [|done]. intros x y ?. lia.
  - intros p Hp. rewrite (file_byte_frame bl) by done. unfold file_byte.
    rewrite lookup_app_l; [done|]. pose proof (fr_ids _ _ _ _ (ts_file _ _ _ _ _ _ Hok)) as Hl.
    unfold DiskInode_data_blocks in Hl. rewrite data_blocks_eq in Hl by lia. lia.
  - intros Hf. apply content_app_zeros; [lia| |].
    + intros p Hp. rewrite (file_byte_frame bl) by done. unfold file_byte.
      rewrite lookup_app_l; [done|]. pose proof (fr_ids _ _ _ _ (ts_file _ _ _ _ _ _ Hok)) as Hl.
      unfold DiskInode_data_blocks in Hl. rewrite data_blocks_eq in Hl by lia. lia.
    + intros p Hp. eapply file_byte_grown; eauto.
Qed.

Lemma increase_ok h bl used nd new_size :
  tree_ok bl used nd → fs_free h →
  di_size (nd_inode nd) ≤ new_size ≤ MAX_BLOCKS * 512 →
  Z.of_nat (size used) + growth (di_size (nd_inode nd)) new_size ≤ N →
  wp h (Inode_increase_size efs new_size (nd_inode nd)) bl (λ di1 bl1, ∃ used1 nd1,
    nd_inode nd1 = di1 ∧ grown bl used nd new_size bl1 used1 nd1).
Proof.
  intros Hok Hfree Hsz Hroom. pose proof (tree_size_range _ _ _ Hok) as Hrng.
  destruct (growth_needed (nd_inode nd) new_size ltac:(lia) ltac:(lia)) as [Hneed Hg].
  unfold Inode_increase_size. rewrite bool_decide_eq_false_2 by lia.
  eapply wp_lift; [exact Hneed|]. apply wp_bind.
  eapply wp_mono; [apply (alloc_blocks_ok h _ bl used []); [apply (ts_dbits _ _ _ _ _ _ Hok)|by apply fs_free_bitmap|lia]|].
  intros v bl1 (nb & -> & Hlen & Hnd & Hnb & Hbm & Ho). simpl.
  assert (Hown : ∀ b, b ∈ nd_blocks nd → in_data b ∧ b - da ∈ used).
  { intros b Hb. destruct (ts_own _ _ _ _ _ _ Hok b Hb) as [Hu _]. split; [|done].
    by eapply block_used_data; [apply (ts_used _ _ _ _ _ _ Hok)|]. }
  assert (Hndb : ∀ b, in_data b → bl1 !! b = bl !! b).
  { intros b Hb. apply Ho. intros Hbb. destruct (regions b) as (_ & _ & Hr). by apply Hr. }
  assert (Hf1 : file_rep bl1 (nd_inode nd) (nd_ids nd) (nd_idx nd)).
  { eapply file_rep_frame; [apply (ts_file _ _ _ _ _ _ Hok)|]. intros b Hb. apply Hndb. by apply Hown. }
  destruct Hf1 as [Hrep Hids Hidx Hmax].
  eapply wp_mono; [apply (increase_size_ok h bl1 (nd_inode nd) (nd_ids nd) (nd_idx nd) nb new_size Hrep)|].
  - split.
    + apply NoDup_app. split; [done|]. split; [|apply Hrep]. intros b Hb Hb'. destruct (Hnb b Hb) as [_ Hu].
      apply Hu. by apply Hown.
    + apply Forall_forall. intros b Hb. destruct (Hnb b Hb) as [Hd _]. split.
      * unfold present. rewrite Hndb by done. by apply (ts_data _ _ _ _ _ _ Hok).
      * split; [|apply Hfree; by right]. unfold in_data in Hd. destruct Hgeo. unfold fits. lia.
  - eapply file_tree_free, fs_free_tree; done.
  - done.
  - done.
  - lia.
  - unfold growth in *. lia.
  - intros di1 bl2 (Hs1 & Ht1 & ids' & idx' & Hrep' & (news & ni & -> & -> & Hp & Hk & Ho2) & Hl1 & Hl2).
    exists (bits_of nb ∪ used), (MkNode di1 (nd_ids nd ++ news) (nd_idx nd ++ ni)). split; [done|].
    eapply grown_intro; try done; [lia|]. split; [done| | |rewrite Hs1; cbn; lia].
    + unfold DiskInode_data_blocks. by rewrite Hs1.
    + by rewrite Hl1.
Qed.

(** ** Freeing a file *)

(** Zeroing one block. *)
Lemma wp_zero h bl b d (Q : () → gmap Z (list Z) → Prop) :
  lockable h bl b d → length d = 512%nat → Q tt (<[b := zero_block]> bl) →
  wp h (block_modify DataBlock b 0 (λ data_block, mret (tt, zero_bytes data_block))) bl Q.
Proof.
  intros Hl Hd HQ. assert (Hz : zero_bytes d = zero_block).
  { unfold zero_bytes, zero_block. rewrite <- Hd. clear. induction d; simpl; [done|]. by f_equal. }
  eapply (wp_modify DataBlock _ _ 0 _ bl d d); [done|done|done|done| |].
  { simpl. by rewrite slice_whole. }
  apply wp_ret. cbn [fst snd]. split; [rewrite Hz; split; [done|apply Forall_replicate; unfold is_byte, fits; lia]|].
  simpl encode. rewrite splice_whole; [|done|by rewrite Hz]. by rewrite Hz.
Qed.

Lemma dealloc_data_ok h bl (used : gset Z) b :
  bitmap_is db bl used → fs_free h → in_data b → present bl b → b - da ∈ used →
  wp h (EasyFileSystem_dealloc_data efs b) bl (λ _ bl',
    bitmap_is db bl' (used ∖ {[b - da]}) ∧ bl' !! b = Some zero_block ∧
    same_outside (λ b', in_bitmap db b' ∨ b' = b) bl bl').
Proof.
  intros Hbm [Hh Hfree] Hb (d & Hd & Hw) Hu. destruct (regions b) as (_ & _ & Hr).
  assert (Hnb : ¬ in_bitmap db b) by (intros ?; by apply Hr).
  unfold EasyFileSystem_dealloc_data. apply wp_bind.
  apply (wp_zero _ _ _ d); [|apply Hw|].
  { split; [apply Hfree; by right|]. split; [lia|done]. }
  destruct Hgeo. unfold in_data in Hb. rewrite sub_w_small by (unfold fits; lia).
  eapply wp_mono; [apply (Bitmap_dealloc_ok db db_wf h _ used)|].
  - eapply bitmap_is_frame; [done|]. intros b' Hb'. rewrite lookup_insert_ne; [done|]. by intros ->.
  - apply fs_free_bitmap. by split.
  - done.
  - intros [] bl' [Hbm' Ho]. split; [done|]. split.
    + rewrite Ho by done. by rewrite lookup_insert_eq.
    + intros b' Hb'. rewrite Ho by tauto. rewrite lookup_insert_ne; [done|]. intros <-. tauto.
Qed.

Lemma dealloc_blocks_ok h bs : ∀ bl (used : gset Z),
  bitmap_is db bl used → fs_free h → NoDup bs →
  (∀ b, b ∈ bs → in_data b ∧ present bl b ∧ b - da ∈ used) →
  wp h (dealloc_blocks efs bs) bl (λ _ bl',
    bitmap_is db bl' (used ∖ bits_of bs) ∧ (∀ b, b ∈ bs → bl' !! b = Some zero_block) ∧
    same_outside (λ b', in_bitmap db b' ∨ b' ∈ bs) bl bl').
Proof.
  induction bs as [|b bs IH]; intros bl used Hbm Hfree Hnd Hbs; cbn [dealloc_blocks].
  - apply wp_ret. split; [|split; [set_solver|done]]. unfold bits_of. simpl. by rewrite difference_empty_L.
  - apply NoDup_cons in Hnd as [Hb Hnd]. destruct (Hbs b) as (Hd & Hp & Hu); [clear; set_solver|].
    apply wp_bind. eapply wp_mono; [by apply dealloc_data_ok|]. intros [] bl1 (Hbm1 & Hz1 & Ho1).
    assert (Hstay : ∀ b', b' ∈ bs → bl1 !! b' = bl !! b').
    { intros b' Hb'. apply Ho1. intros [Hx| ->]; [|done]. destruct (Hbs b') as (Hd' & _); [clear -Hb'; set_solver|].
      destruct (regions b') as (_ & _ & Hr). by apply Hr. }
    eapply wp_mono; [apply (IH bl1 (used ∖ {[b - da]}) Hbm1 Hfree Hnd)|].
    + intros b' Hb'. destruct (Hbs b') as (Hd' & Hp' & Hu'); [clear -Hb'; set_solver|]. split; [done|].
      split; [unfold present; by rewrite Hstay|]. apply elem_of_difference. split; [done|].
      intros Hx%elem_of_singleton. assert (b' = b) as -> by lia. done.
    + intros [] bl2 (Hbm2 & Hz2 & Ho2). split; [|split].
      * replace (used ∖ bits_of (b :: bs)) with (used ∖ {[b - da]} ∖ bits_of bs); [done|]. clear. unfold bits_of. simpl.
        set_solver.
      * intros b' [->|Hb']%elem_of_cons; [|by apply Hz2]. rewrite Ho2; [done|]. intros [Hx|Hx]; [|done].
        destruct (regions b) as (_ & _ & Hr). by apply Hr.
      * intros b' Hb'. rewrite Ho2, Ho1; [done|clear -Hb'; set_solver|clear -Hb'; set_solver].
Qed.
End FsRep.
