(* ===== verification/VfsSpec.v ===== *)
(** The operations of [easy-fs/src/vfs.rs] on a consistent disk, against an abstract file
    system: a directory is a list of names with inode numbers, a file is a byte string. *)

From S2P Require Import Prelude BlockDev BlockCache BlockAccess Bitmap Layout InodeTree InodeData Efs Vfs FsRep.

Ltac Zify.zify_post_hook ::= Z.to_euclidean_division_equations.

(** * Directory entries *)

Abbreviation entry := (list Z * Z)%type.

(** Names the kernel can store and read back. *)
Definition name_ok (name : list Z) : Prop :=
  (length name ≤ 27)%nat ∧ Forall is_byte name ∧ (0 ∉ name) ∧ utf8_valid name = true.
Definition entry_ok (e : entry) : Prop := name_ok e.1 ∧ fits 32 e.2.
Definition entry_bytes (e : entry) : list Z := e.1 ++ replicate (28 - length e.1) 0 ++ le_bytes 4 e.2.
Definition dir_bytes (es : list entry) : list Z := es ≫= entry_bytes.

Fixpoint dir_find (name : list Z) (es : list entry) : option Z :=
  match es with
  | [] => None
  | e :: es => if decide (e.1 = name) then Some e.2 else dir_find name es
  end.

Lemma length_entry e : entry_ok e → length (entry_bytes e) = 32%nat.
Proof.
  intros [[Hl _] _]. unfold entry_bytes. rewrite !length_app, length_replicate, length_le_bytes. lia.
Qed.

Lemma entry_is_bytes e : entry_ok e → Forall is_byte (entry_bytes e).
Proof.
  intros [(_ & Hb & _) _]. unfold entry_bytes. apply Forall_app. split; [done|]. apply Forall_app.
  split; [|apply le_bytes_bytes]. apply Forall_replicate. unfold is_byte, fits. lia.
Qed.

Lemma length_dir es : Forall entry_ok es → len (dir_bytes es) = 32 * len es.
Proof.
  induction 1 as [|e es He Hes IH]; [done|]. unfold dir_bytes in *. rewrite bind_cons, length_app, length_entry by done.
  simpl. lia.
Qed.

Lemma dir_bytes_app es es' : dir_bytes (es ++ es') = dir_bytes es ++ dir_bytes es'.
Proof. apply bind_app. Qed.

Lemma dir_slice es (k : nat) e :
  Forall entry_ok es → es !! k = Some e → slice (dir_bytes es) (32 * Z.of_nat k) 32 = entry_bytes e.
Proof.
  intros Hes Hk. pose proof (take_drop_middle es k e Hk) as E. rewrite <- E.
  assert (He : entry_ok e) by (by eapply Forall_lookup_1).
  rewrite dir_bytes_app. unfold dir_bytes at 2. rewrite bind_cons. unfold slice.
  pose proof (length_dir (take k es) (Forall_take _ _ _ Hes)) as Hl. pose proof (lookup_lt_Some _ _ _ Hk).
  rewrite length_take_le in Hl by lia. rewrite drop_app_length' by lia.
  rewrite take_app_length'; [done|]. rewrite length_entry by done. done.
Qed.

Lemma dir_splice es (k : nat) e :
  Forall entry_ok es → entry_ok e → (k < length es)%nat →
  splice (dir_bytes es) (32 * Z.of_nat k) (entry_bytes e) = dir_bytes (<[k := e]> es).
Proof.
  intros Hes He Hk. destruct (lookup_lt_is_Some_2 es k Hk) as [e0 Hk0].
  rewrite insert_take_drop by done. pose proof (take_drop_middle es k e0 Hk0) as E. rewrite <- E at 1.
  rewrite !dir_bytes_app. unfold dir_bytes at 2 4. rewrite !bind_cons. fold (dir_bytes (drop (S k) es)).
  pose proof (length_dir (take k es) (Forall_take _ _ _ Hes)) as Hl. rewrite length_take_le in Hl by lia.
  assert (length (entry_bytes e0) = 32%nat) by (apply length_entry; by eapply Forall_lookup_1).
  unfold splice. rewrite take_app_length' by lia. f_equal. f_equal. rewrite length_entry by done.
  rewrite app_assoc, drop_app_length'; [done|]. rewrite length_app. lia.
Qed.

Lemma dir_take es (k : nat) : Forall entry_ok es → (k ≤ length es)%nat → take (32 * k) (dir_bytes es) = dir_bytes (take k es).
Proof.
  intros Hes Hk. rewrite <- (take_drop k es) at 1. rewrite dir_bytes_app. apply take_app_length'.
  pose proof (length_dir (take k es) (Forall_take _ _ _ Hes)) as Hl. rewrite length_take_le in Hl by lia. lia.
Qed.

(** ** The code's view of an entry *)

Lemma list_find_zero name n :
  0 ∉ name → (0 < n)%nat → list_find (λ b, b = 0) (name ++ replicate n 0) = Some (length name, 0).
Proof.
  intros Hz Hn. apply list_find_Some. split; [|split; [done|]].
  - rewrite lookup_app_r, Nat.sub_diag by lia. by apply lookup_replicate_2.
  - intros j y Hj Hlt ->. rewrite lookup_app_l in Hj by done. apply Hz. by eapply list_elem_of_lookup_2.
Qed.

Lemma entry_decode e : entry_ok e →
  DirEntry_name (DirEntry_of_bytes (entry_bytes e)) = Ok e.1 ∧
  DirEntry_inode_id (DirEntry_of_bytes (entry_bytes e)) = e.2.
Proof.
  intros [(Hl & _ & Hz & Hu) Hf]. unfold DirEntry_of_bytes, DirEntry_inode_id, DirEntry_name, entry_bytes. cbn [de_name de_inode_id].
  assert (length (e.1 ++ replicate (28 - length e.1) 0) = 28%nat) as H28 by (rewrite length_app, length_replicate; lia).
  rewrite app_assoc, take_app_length' by done. rewrite drop_app_length' by done. split.
  - rewrite list_find_zero by (done || lia). rewrite take_app_length. unfold res_assert. by rewrite Hu.
  - apply le_value_bytes. unfold fits in Hf. done.
Qed.

Lemma entry_encode name id : entry_ok (name, id) →
  ∃ d, DirEntry_new name id = Ok d ∧ DirEntry_as_bytes d = entry_bytes (name, id).
Proof.
  intros [(Hl & _ & _) _]. cbn [fst] in Hl. unfold DirEntry_new, vec_copy. rewrite length_replicate.
  rewrite decide_True by lia. eexists. split; [done|]. unfold DirEntry_as_bytes, entry_bytes. cbn [de_name de_inode_id fst snd].
  rewrite app_assoc. f_equal. unfold splice. rewrite take_0. cbn [app]. f_equal. rewrite drop_replicate. f_equal.
Qed.

Section VfsSpec.
Context (efs : EasyFileSystem) (N : Z) (Hgeo : efs_wf efs N).
Implicit Types (h : gset Z) (bl : gmap Z (list Z)) (used : gset Z) (nodes : gmap Z node).

Abbreviation iblk := (iblk efs).
Abbreviation ioff := (ioff efs).
Abbreviation da := (efs_data_area_start_block efs).
Abbreviation fs_ok := (fs_ok efs N).
Abbreviation tree_ok := (tree_ok efs N).
Abbreviation tree_step := (tree_step efs N).
Abbreviation fs_free := (fs_free efs N).
Abbreviation in_data := (in_data efs N).

Definition inode_at (i : Z) : Inode := MkInode (iblk i) (FsRep.ioff i).

Lemma inode_at_pos i : inode_range efs i → Inode_new (EasyFileSystem_get_disk_inode_pos efs i) = inode_at i.
Proof. intros Hi. by rewrite (inode_pos efs N Hgeo). Qed.

Definition node_content bl (nd : node) : list Z := content bl (nd_ids nd) (di_size (nd_inode nd)).

Lemma length_node_content bl used nd : tree_ok bl used nd → len (node_content bl nd) = di_size (nd_inode nd).
Proof. intros Hok. apply length_content. apply (tree_size_range efs N) in Hok. lia. Qed.

(** * Access to one inode *)

Lemma slot_free h i : inode_range efs i → (size h + 3 ≤ BLOCK_CACHE_SIZE)%nat → fs_free h → fs_free ({[iblk i]} ∪ h).
Proof.
  intros Hi Hh [_ Hf]. split.
  - pose proof (size_union_alt {[iblk i]} h) as Hs. rewrite size_union_alt, size_singleton.
    pose proof (subseteq_size (h ∖ {[iblk i]}) h ltac:(set_solver)). lia.
  - intros b Hb [->%elem_of_singleton|Hx]%elem_of_union; [|by apply (Hf b)].
    destruct (regions efs N Hgeo (iblk i)) as (_ & Hr & _). destruct (Hr (iblk_in efs i Hi)). tauto.
Qed.

Lemma free_empty : fs_free ∅.
Proof. split; [rewrite size_empty; unfold BLOCK_CACHE_SIZE; lia|set_solver]. Qed.

Lemma wp_read_node {V} i nd (f : DiskInode → prog V) bl nodes used Q :
  fs_ok bl nodes used → nodes !! i = Some nd →
  wp {[iblk i]} (f (nd_inode nd)) bl Q → wp ∅ (read_disk_inode (inode_at i) f) bl Q.
Proof.
  intros Hok Hi Hf. pose proof (node_range _ _ _ _ _ _ _ Hok Hi) as Hir.
  destruct (ok_iarea _ _ _ _ _ Hok _ (iblk_in efs i Hir)) as (d & Hd & Hw & _).
  pose proof (no_slot _ _ _ _ _ (ok_node _ _ _ _ _ Hok i nd Hi)) as Hs. unfold disk_inode in Hs. rewrite Hd in Hs.
  pose proof (ioff_range i) as [Ho1 Ho2].
  eapply (wp_read DiskInode_repr); [split; [set_solver|]; split; [rewrite size_empty; unfold BLOCK_CACHE_SIZE; lia|done]|done..| |].
  - exact Hs.
  - by rewrite union_empty_r_L.
Qed.

(** Blocks of the other trees are not touched. *)
Definition others_same bl nodes i bl' : Prop :=
  ∀ j ndj b, j ≠ i → nodes !! j = Some ndj → b ∈ nd_blocks ndj → bl' !! b = bl !! b.

Lemma wp_modify_node {V} i nd (f : DiskInode → prog (V * DiskInode)) bl nodes used
    (P : V → gmap Z (list Z) → gset Z → node → Prop) :
  fs_ok bl nodes used → nodes !! i = Some nd →
  wp {[iblk i]} (f (nd_inode nd)) bl (λ r bl1, ∃ used1 nd1, nd_inode nd1 = r.2 ∧
    tree_step bl used nd bl1 used1 nd1 ∧ P r.1 bl1 used1 nd1) →
  wp ∅ (modify_disk_inode (inode_at i) f) bl (λ v bl', ∃ bl1 used1 nd1, P v bl1 used1 nd1 ∧
    fs_ok bl' (<[i := nd1]> nodes) used1 ∧ (∀ b, b ∈ nd_blocks nd1 → bl' !! b = bl1 !! b) ∧
    others_same bl nodes i bl').
Proof.
  intros Hok Hi Hf. pose proof (node_range _ _ _ _ _ _ _ Hok Hi) as Hir.
  destruct (ok_iarea _ _ _ _ _ Hok _ (iblk_in efs i Hir)) as (d & Hd & Hw & _).
  pose proof (no_slot _ _ _ _ _ (ok_node _ _ _ _ _ Hok i nd Hi)) as Hs. unfold disk_inode in Hs. rewrite Hd in Hs.
  pose proof (ioff_range i) as [Ho1 Ho2].
  eapply (wp_modify DiskInode_repr); [split; [set_solver|]; split; [rewrite size_empty; unfold BLOCK_CACHE_SIZE; lia|done]|apply Hw|done..| |].
  { exact Hs. }
  rewrite union_empty_r_L. eapply wp_mono; [exact Hf|]. intros [v di1] bl1 (used1 & nd1 & <- & Hts & HP). cbn [fst snd] in *.
  split; [apply (rep_valid _ _ _ _ (fr_tree _ _ _ _ (ts_file _ _ _ _ _ _ _ _ Hts)))|].
  exists bl1, used1, nd1. split; [done|]. pose proof (fs_commit efs N Hgeo _ _ _ _ _ _ _ _ _ Hok Hi Hd Hts) as Hok'.
  split; [exact Hok'|]. destruct (regions efs N Hgeo (iblk i)) as (_ & Hr & _). destruct (Hr (iblk_in efs i Hir)) as [Hnb Hnd].
  split.
  - intros b Hb. rewrite lookup_insert_ne; [done|]. intros <-. apply Hnd.
    eapply (block_used_data efs N); [apply (ts_used _ _ _ _ _ _ _ _ Hts)|]. by apply (ts_own _ _ _ _ _ _ _ _ Hts).
  - intros j ndj b Hj Hnj Hb. pose proof (node_in_data _ _ _ _ _ _ _ _ Hok Hnj Hb) as Hbd.
    rewrite lookup_insert_ne by (by intros <-). apply (ts_outside _ _ _ _ _ _ _ _ Hts).
    + intros Hx. destruct (regions efs N Hgeo b) as (_ & _ & Hr'). by apply Hr'.
    + intros [_ [Hx|Hx]]; [apply Hj; by eapply (ok_disj _ _ _ _ _ Hok)|].
      apply Hx. by apply (no_used _ _ _ _ _ (ok_node _ _ _ _ _ Hok j ndj Hnj)).
Qed.

(** * Reading and writing a node *)

Lemma read_node i nd bl nodes used offset buf :
  fs_ok bl nodes used → nodes !! i = Some nd → 0 ≤ offset → offset + len buf < 2 ^ 63 →
  let n := Z.max 0 (Z.min (len buf) (di_size (nd_inode nd) - offset)) in
  wp ∅ (Inode_read_at (inode_at i) offset buf) bl (λ r bl', bl' = bl ∧
    r = (n, splice buf 0 (slice (node_content bl nd) offset n))).
Proof.
  intros Hok Hi Ho Hl n. pose proof (tree_ok_node efs N _ _ _ _ _ Hok Hi) as Htree.
  pose proof (tree_size_range efs N _ _ _ Htree) as Hsz. pose proof (node_range _ _ _ _ _ _ _ Hok Hi) as Hir.
  destruct (ts_file _ _ _ _ _ _ _ _ Htree) as [Hrep Hids _ _].
  eapply wp_read_node; [done|done|]. apply read_at_ok with (idx := nd_idx nd); try done.
  eapply (fs_free_tree efs N); [|done]. rewrite <- (union_empty_r_L {[iblk i]}).
  apply slot_free; [done|rewrite size_empty; unfold BLOCK_CACHE_SIZE; lia|apply free_empty].
Qed.

Lemma slot_only_free i : inode_range efs i → fs_free {[iblk i]}.
Proof.
  intros Hi. rewrite <- (union_empty_r_L {[iblk i]}).
  apply slot_free; [done|rewrite size_empty; unfold BLOCK_CACHE_SIZE; lia|apply free_empty].
Qed.

(** Overwriting data blocks of a tree. *)
Lemma write_step bl used nd start ws data w bl' :
  tree_ok bl used nd → 0 ≤ start → start + len data ≤ di_size (nd_inode nd) →
  write_post (nd_inode nd) (nd_ids nd) (nd_idx nd) bl start ws data w bl' → tree_step bl used nd bl' used nd.
Proof.
  intros Htree Hs Hle (-> & Hrep' & Hc & Ho & Hk).
  assert (Hown : ∀ b, b ∈ nd_ids nd → in_data b ∧ b - da ∈ used ∧ b ∈ nd_blocks nd).
  { intros b Hb. assert (b ∈ nd_blocks nd) as Hb' by (unfold nd_blocks; set_solver).
    destruct (ts_own _ _ _ _ _ _ _ _ Htree b Hb') as [Hu _]. split; [|done].
    by eapply (block_used_data efs N); [apply (ts_used _ _ _ _ _ _ _ _ Htree)|]. }
  destruct Htree as [O B U K D F R W T]. split; try done.
  - intros b Hdb Hb. apply Ho. intros Hin. apply Hb. destruct (Hown b Hin) as (? & _ & ?). tauto.
  - eapply bitmap_is_frame; [done|]. intros b Hb. apply Ho. intros Hin. destruct (Hown b Hin) as (Hd & _).
    destruct (regions efs N Hgeo b) as (_ & _ & Hr). by apply Hr.
  - intros b Hb. by apply Hk, D.
  - intros n Hn Hnu. rewrite Ho; [by apply F|]. intros Hin. destruct (Hown _ Hin) as (_ & Hu & _). apply Hnu.
    by replace (da + n - da) with n in Hu by lia.
  - destruct R as [_ R2 R3 R4]. split; done.
  - intros Hf p Hp. pose proof (tree_size_range efs N bl used nd) as Hrng.
    specialize (Hc (p + 1) ltac:(lia)). apply (f_equal (λ l, l !! Z.to_nat p)) in Hc.
    assert (0 ≤ p) by (assert (fits 32 (di_size (nd_inode nd))) by apply (rep_valid _ _ _ _ Hrep'); unfold fits in *; lia).
    pose proof (length_content bl (nd_ids nd) (p + 1) ltac:(lia)).
    rewrite content_lookup in Hc by lia. rewrite lookup_splice_out in Hc by lia. rewrite content_lookup in Hc by lia.
    injection Hc as Hc. rewrite Z2Nat.id in Hc by lia. rewrite Hc. by apply T.
Qed.

(** The contents after a write: zeros fill a gap between the old end and [offset]. *)
Definition write_content (c : list Z) (offset : Z) (buf : list Z) : list Z :=
  splice (c ++ replicate (Z.to_nat (offset + len buf - len c)) 0) offset buf.

(** The size of a file after a write. *)
Definition grown_size (nd : node) (offset : Z) (buf : list Z) : Z := Z.max (di_size (nd_inode nd)) (offset + len buf).

(** Writing into a tree that is large enough. *)
Lemma write_tree i nd bl used offset buf :
  tree_ok bl used nd → inode_range efs i → Forall is_byte buf → 0 < len buf → 0 ≤ offset →
  offset + len buf ≤ di_size (nd_inode nd) →
  wp {[iblk i]} (DiskInode_write_at (nd_inode nd) offset buf) bl (λ w bl', w = len buf ∧
    tree_step bl used nd bl' used nd ∧ node_content bl' nd = splice (node_content bl nd) offset buf).
Proof.
  intros Htree Hir Hb Hl Ho Hle. pose proof (tree_size_range efs N _ _ _ Htree) as Hsz.
  destruct (ts_file _ _ _ _ _ _ _ _ Htree) as [Hrep Hids _ _].
  eapply wp_mono; [apply (write_at_ok (nd_inode nd) (nd_ids nd) (nd_idx nd)); try done; [|lia|lia]|].
  { eapply (fs_free_tree efs N); [by apply slot_only_free|done]. }
  intros w bl' Hpost. rewrite Z.min_l in Hpost by lia. unfold slice in Hpost.
  rewrite Z2Nat.inj_0, drop_0, take_ge in Hpost by lia. pose proof Hpost as (-> & _ & Hc & _).
  split; [lia|]. split; [eapply write_step; [done..|exact Hpost]|]. by apply Hc.
Qed.

Lemma write_node i nd bl nodes used offset buf :
  fs_ok bl nodes used → nodes !! i = Some nd → Forall is_byte buf → 0 < len buf → 0 ≤ offset →
  offset + len buf ≤ MAX_BLOCKS * 512 →
  Z.of_nat (size used) + growth (di_size (nd_inode nd)) (grown_size nd offset buf) ≤ N →
  wp ∅ (Inode_write_at efs (inode_at i) offset buf) bl (λ r bl', r = len buf ∧ ∃ used1 nd1,
    fs_ok bl' (<[i := nd1]> nodes) used1 ∧ others_same bl nodes i bl' ∧
    di_type (nd_inode nd1) = di_type (nd_inode nd) ∧
    Z.of_nat (size used1) = Z.of_nat (size used) + growth (di_size (nd_inode nd)) (grown_size nd offset buf) ∧
    (di_type (nd_inode nd) = File → node_content bl' nd1 = write_content (node_content bl nd) offset buf)).
Proof.
  intros Hok Hi Hb Hl Ho Hmax Hroom. pose proof (tree_ok_node efs N _ _ _ _ _ Hok Hi) as Htree.
  pose proof (node_range _ _ _ _ _ _ _ Hok Hi) as Hir. pose proof (tree_size_range efs N _ _ _ Htree) as Hsz.
  pose proof (length_node_content _ _ _ Htree) as Hlc. unfold grown_size in *.
  unfold Inode_write_at. apply wp_bind. eapply wp_mono.
  - apply (wp_modify_node i nd _ bl nodes used (λ v bl1 used1 nd1, v = len buf ∧
      di_type (nd_inode nd1) = di_type (nd_inode nd) ∧
      Z.of_nat (size used1) = Z.of_nat (size used) + growth (di_size (nd_inode nd)) (Z.max (di_size (nd_inode nd)) (offset + len buf)) ∧
      (di_type (nd_inode nd) = File → node_content bl1 nd1 = write_content (node_content bl nd) offset buf)) Hok Hi).
    unfold MAX_BLOCKS in Hmax. rewrite add_w_small by (unfold fits; lia). rewrite wrap_small by (unfold fits; lia).
    apply wp_bind. destruct (decide (offset + len buf < di_size (nd_inode nd))) as [Hin|Hout].
    + unfold Inode_increase_size. rewrite bool_decide_eq_true_2 by done. apply wp_ret. apply wp_bind.
      eapply wp_mono; [apply (write_tree i nd bl used); done || lia|]. intros w bl1 (-> & Hts & Hc). apply wp_ret.
      exists used, nd. split; [done|]. split; [done|]. split; [done|]. split; [done|]. split.
      * rewrite Z.max_l by lia. unfold growth. lia.
      * intros _. rewrite Hc. unfold write_content. rewrite Hlc. replace (Z.to_nat (offset + len buf - di_size (nd_inode nd))) with 0%nat by lia. cbn [replicate].
        by rewrite app_nil_r.
    + rewrite Z.max_r in * by lia.
      eapply wp_mono; [apply (increase_ok efs N Hgeo _ bl used nd); [done|by apply slot_only_free|unfold MAX_BLOCKS; lia|done]|].
      intros di1 bl1 (used1 & nd1 & <- & Hgr). pose proof (tree_step_ok _ _ _ _ _ _ _ _ (gr_step _ _ _ _ _ _ _ _ _ Hgr)) as Htree1.
      apply wp_bind. eapply wp_mono; [apply (write_tree i nd1 bl1 used1); try done; rewrite (gr_size _ _ _ _ _ _ _ _ _ Hgr); lia|].
      intros w bl2 (-> & Hts & Hc). apply wp_ret. exists used1, nd1. split; [done|].
      split; [eapply (tree_step_trans efs N); [apply (gr_step _ _ _ _ _ _ _ _ _ Hgr)|done]|]. split; [done|].
      split; [apply (gr_type _ _ _ _ _ _ _ _ _ Hgr)|]. split; [apply (gr_used _ _ _ _ _ _ _ _ _ Hgr)|].
      intros Hf. rewrite Hc. unfold write_content, node_content. rewrite (gr_size _ _ _ _ _ _ _ _ _ Hgr).
      rewrite (gr_content _ _ _ _ _ _ _ _ _ Hgr Hf). rewrite Hlc at 1. done.
  - intros v bl' (bl1 & used1 & nd1 & (-> & Ht & Hu & Hc) & Hok' & Hsame & Hoth).
    apply wp_sync, wp_ret. split; [done|]. exists used1, nd1. split; [done|]. split; [done|]. split; [done|].
    split; [done|]. intros Hf. rewrite <- Hc by done. unfold node_content. apply content_frame.
    intros b Hbb. apply Hsame. unfold nd_blocks. set_solver.
Qed.

(** * Clearing a node *)

Lemma cleared_step bl used nd v di' bl' :
  tree_ok bl used nd → v ≡ₚ nd_blocks nd → DiskInode_valid di' → di_size di' = 0 →
  bitmap_is (efs_data_bitmap efs) bl' (used ∖ bits_of efs v) → (∀ b, b ∈ v → bl' !! b = Some zero_block) →
  same_outside (λ b', in_bitmap (efs_data_bitmap efs) b' ∨ b' ∈ v) bl bl' →
  tree_step bl used nd bl' (used ∖ bits_of efs v) (MkNode di' [] []).
Proof.
  intros Htree Hv Hval Hsz Hbm Hz Ho.
  assert (Hin : ∀ b, b ∈ v ↔ b ∈ nd_blocks nd) by (intros b; by rewrite Hv).
  assert (Hown : ∀ b, b ∈ nd_blocks nd → in_data b ∧ b - da ∈ used).
  { intros b Hb. destruct (ts_own _ _ _ _ _ _ _ _ Htree b Hb) as [Hu _]. split; [|done].
    by eapply (block_used_data efs N); [apply (ts_used _ _ _ _ _ _ _ _ Htree)|]. }
  destruct Htree as [O B U K D F R W T]. split; cbn; try done.
  - intros b Hdb Hb. apply Ho. intros [?|Hx]; [done|]. apply Hb. apply Hin in Hx. destruct (Hown b Hx). tauto.
  - intros n Hn. apply U. set_solver.
  - intros n Hn Hnb. apply elem_of_difference. split; [done|]. rewrite elem_of_bits. by rewrite Hin.
  - intros b Hb. destruct (decide (b ∈ v)) as [Hx|Hx].
    + exists zero_block. split; [by apply Hz|]. split; [done|]. apply Forall_replicate. unfold is_byte, fits. lia.
    + unfold present. rewrite Ho; [by apply D|]. intros [Hy|?]; [|done].
      destruct (regions efs N Hgeo b) as (_ & _ & Hr). by apply Hr.
  - intros n Hn Hnu. destruct (decide (da + n ∈ v)) as [Hx|Hx]; [by apply Hz|].
    rewrite Ho.
    + apply F; [done|]. intros Hu. apply Hnu, elem_of_difference. split; [done|]. by rewrite elem_of_bits.
    + intros [Hy|?]; [|done]. destruct (regions efs N Hgeo (da + n)) as (_ & _ & Hr). apply (Hr Hy).
      unfold FsRep.in_data. lia.
  - by apply empty_file_rep.
  - intros b Hb. unfold nd_blocks in Hb. cbn in Hb. set_solver.
Qed.

Lemma clear_node i nd bl nodes used :
  fs_ok bl nodes used → nodes !! i = Some nd →
  wp ∅ (Inode_clear efs (inode_at i)) bl (λ _ bl', ∃ nd1,
    fs_ok bl' (<[i := nd1]> nodes) (used ∖ bits_of efs (nd_blocks nd)) ∧ others_same bl nodes i bl' ∧
    di_type (nd_inode nd1) = di_type (nd_inode nd) ∧ node_content bl' nd1 = []).
Proof.
  intros Hok Hi. pose proof (tree_ok_node efs N _ _ _ _ _ Hok Hi) as Htree.
  pose proof (node_range _ _ _ _ _ _ _ Hok Hi) as Hir. pose proof (tree_size_range efs N _ _ _ Htree) as Hsz.
  pose proof (slot_only_free i Hir) as Hfree.
  destruct (ts_file _ _ _ _ _ _ _ _ Htree) as [Hrep Hids Hidx Hmax].
  unfold Inode_clear. apply wp_bind. eapply wp_mono.
  - apply (wp_modify_node i nd _ bl nodes used (λ v bl1 used1 nd1, used1 = used ∖ bits_of efs (nd_blocks nd) ∧
      di_type (nd_inode nd1) = di_type (nd_inode nd) ∧ di_size (nd_inode nd1) = 0) Hok Hi).
    apply wp_bind. eapply wp_mono; [apply (clear_size_ok bl (nd_inode nd) (nd_ids nd) (nd_idx nd) Hrep)|].
    + eapply file_tree_free, (fs_free_tree efs N); done.
    + done.
    + done.
    + rewrite Hids. unfold DiskInode_data_blocks. rewrite data_blocks_eq by lia. unfold MAX_BLOCKS in *. lia.
    + intros [v di'] bl' (-> & Hv & Hval & Hs0 & Hty). cbn [fst snd] in *. apply wp_assert.
      { apply bool_decide_eq_true_2. rewrite Hv, length_app, total_blocks_eq by lia.
        unfold DiskInode_data_blocks in Hids. rewrite <- Hids. lia. }
      assert (Hin : ∀ b, b ∈ v → b ∈ nd_blocks nd) by (intros b; by rewrite Hv).
      apply wp_bind. eapply wp_mono; [apply (dealloc_blocks_ok efs N Hgeo _ v bl used)|].
      * apply (ts_dbits _ _ _ _ _ _ _ _ Htree).
      * done.
      * rewrite Hv. apply Hrep.
      * intros b Hb. destruct (ts_own _ _ _ _ _ _ _ _ Htree b (Hin b Hb)) as [Hu _].
        assert (in_data b) by (by eapply (block_used_data efs N); [apply (ts_used _ _ _ _ _ _ _ _ Htree)|]).
        split; [done|]. split; [by apply (ts_data _ _ _ _ _ _ _ _ Htree)|done].
      * intros [] bl1 (Hbm & Hz & Ho). apply wp_ret.
        assert (bits_of efs v = bits_of efs (nd_blocks nd)) as Eb.
        { apply set_eq. intros n. rewrite !elem_of_bits. unfold nd_blocks. by rewrite Hv. }
        exists (used ∖ bits_of efs v), (MkNode di' [] []). split; [done|]. split; [by apply cleared_step|].
        cbn [fst snd nd_inode]. by rewrite Eb.
  - intros [] bl' (bl1 & used1 & nd1 & (-> & Ht & Hs0) & Hok' & Hsame & Hoth). apply wp_sync, wp_ret.
    exists nd1. split; [done|]. split; [done|]. split; [done|]. unfold node_content. by rewrite Hs0.
Qed.

(** * Directories *)

Record dir_node bl used (nd : node) (es : list entry) : Prop := {
  dn_tree : tree_ok bl used nd;
  dn_type : di_type (nd_inode nd) = Directory;
  dn_content : node_content bl nd = dir_bytes es;
  dn_entries : Forall entry_ok es
}.

Lemma dir_size bl used nd es : dir_node bl used nd es → di_size (nd_inode nd) = 32 * len es.
Proof. intros [Ht _ Hc He]. rewrite <- (length_node_content bl used) by done. rewrite Hc. by apply length_dir. Qed.

Lemma dir_count bl used nd es : dir_node bl used nd es → di_size (nd_inode nd) / DIRENT_SZ = len es.
Proof. intros Hd. rewrite (dir_size bl used nd es Hd). unfold DIRENT_SZ. lia. Qed.

Lemma read_dirent_ok i bl used nd es (k : nat) e buf :
  dir_node bl used nd es → inode_range efs i → es !! k = Some e → length buf = 32%nat →
  wp {[iblk i]} (read_dirent (nd_inode nd) (Z.of_nat k) buf) bl (λ r bl', bl' = bl ∧ r = (32, entry_bytes e)).
Proof.
  intros Hd Hir Hk Hb. pose proof (dir_size bl used nd es Hd) as Hs. destruct Hd as [Ht _ Hc He].
  pose proof (tree_size_range efs N _ _ _ Ht) as Hsz. pose proof (lookup_lt_Some _ _ _ Hk) as Hlt.
  destruct (ts_file _ _ _ _ _ _ _ _ Ht) as [Hrep Hids _ _]. unfold read_dirent, DIRENT_SZ.
  rewrite mul_w_small by (unfold fits; lia).
  eapply wp_mono; [apply (read_at_ok (nd_inode nd) (nd_ids nd) (nd_idx nd)); try done; [|lia|lia]|].
  { eapply (fs_free_tree efs N); [by apply slot_only_free|done]. }
  intros r bl' [-> ->]. split; [done|]. rewrite Hb. replace (Z.max 0 _) with 32 by lia. f_equal.
  fold (node_content bl nd). rewrite Hc, (dir_slice es k e) by done. unfold splice.
  rewrite take_0, drop_ge, app_nil_r by (rewrite length_entry by (by eapply Forall_lookup_1); lia). done.
Qed.

Lemma entry_lookup es (k : nat) e : Forall entry_ok es → es !! k = Some e → entry_ok e.
Proof. intros Hes Hk. by eapply Forall_lookup_1. Qed.

Lemma seqZ_step k n : Z.of_nat k < n → seqZ (Z.of_nat k) (n - Z.of_nat k) = Z.of_nat k :: seqZ (Z.of_nat (S k)) (n - Z.of_nat (S k)).
Proof. intros H. rewrite seqZ_cons by lia. do 2 f_equal; lia. Qed.

Lemma find_loop_ok i bl used nd es name (k : nat) buf :
  dir_node bl used nd es → inode_range efs i → (k ≤ length es)%nat → length buf = 32%nat →
  wp {[iblk i]} (find_loop name (nd_inode nd) (seqZ (Z.of_nat k) (len es - Z.of_nat k)) buf) bl
    (λ r bl', bl' = bl ∧ r = dir_find name (drop k es)).
Proof.
  intros Hd Hir. remember (length es - k)%nat as m eqn:Hm. revert k buf Hm. induction m as [|m IH]; intros k buf Hm Hk Hb.
  - replace (len es - Z.of_nat k) with 0 by lia. rewrite drop_ge by lia. by apply wp_ret.
  - destruct (lookup_lt_is_Some_2 es k) as [e He]; [lia|]. rewrite seqZ_step by lia. cbn [find_loop].
    pose proof (entry_lookup _ _ _ (dn_entries _ _ _ _ Hd) He) as Heo. destruct (entry_decode e Heo) as [Hn Hid].
    apply wp_bind. eapply wp_mono; [by eapply read_dirent_ok|]. intros r bl' [-> ->].
    apply wp_assert; [done|]. eapply wp_lift; [exact Hn|]. rewrite (drop_S _ _ _ He). cbn [dir_find].
    destruct (decide (e.1 = name)); [by apply wp_ret; rewrite Hid|]. apply IH; [lia|lia|by apply length_entry].
Qed.

Lemma find_inode_id_ok i bl used nd es name :
  dir_node bl used nd es → inode_range efs i →
  wp {[iblk i]} (find_inode_id name (nd_inode nd)) bl (λ r bl', bl' = bl ∧ r = dir_find name es).
Proof.
  intros Hd Hir. unfold find_inode_id. apply wp_assert; [by apply bool_decide_eq_true_2, (dn_type _ _ _ _ Hd)|].
  rewrite (dir_count bl used nd es Hd). replace (len es) with (len es - Z.of_nat 0) by lia.
  change 0 with (Z.of_nat 0). eapply wp_mono; [apply (find_loop_ok i bl used nd es name 0); [done|done|lia|done]|]. intros r bl' [-> ->].
  by rewrite drop_0.
Qed.

Lemma ls_loop_ok i bl used nd es (k : nat) v :
  dir_node bl used nd es → inode_range efs i → (k ≤ length es)%nat →
  wp {[iblk i]} (ls_loop (nd_inode nd) (seqZ (Z.of_nat k) (len es - Z.of_nat k)) v) bl
    (λ r bl', bl' = bl ∧ r = v ++ (drop k es).*1).
Proof.
  intros Hd Hir. remember (length es - k)%nat as m eqn:Hm. revert k v Hm. induction m as [|m IH]; intros k v Hm Hk.
  - replace (len es - Z.of_nat k) with 0 by lia. rewrite drop_ge by lia. apply wp_ret. by rewrite app_nil_r.
  - destruct (lookup_lt_is_Some_2 es k) as [e He]; [lia|]. rewrite seqZ_step by lia. cbn [ls_loop].
    pose proof (entry_lookup _ _ _ (dn_entries _ _ _ _ Hd) He) as Heo. destruct (entry_decode e Heo) as [Hn Hid].
    apply wp_bind. eapply wp_mono; [by eapply read_dirent_ok|]. intros r bl' [-> ->].
    apply wp_assert; [done|]. eapply wp_lift; [exact Hn|]. rewrite (drop_S _ _ _ He).
    eapply wp_mono; [apply IH; lia|]. intros r bl' [-> ->]. split; [done|]. unfold vec_push. by rewrite <- app_assoc.
Qed.

(** The number of entries for inode [id]. *)
Definition dir_links (id : Z) (es : list entry) : Z := len (filter (λ e : entry, e.2 = id) es).

Lemma link_num_loop_ok i bl used nd es id (k : nat) buf count :
  dir_node bl used nd es → inode_range efs i → (k ≤ length es)%nat → length buf = 32%nat → inode_range efs id →
  Forall (λ e : entry, inode_range efs e.2) es → 0 ≤ count → count + Z.of_nat (length es - k) < 2 ^ 32 →
  wp {[iblk i]} (link_num_loop efs (iblk id) (FsRep.ioff id) (nd_inode nd) (seqZ (Z.of_nat k) (len es - Z.of_nat k)) buf count) bl
    (λ r bl', bl' = bl ∧ r = count + dir_links id (drop k es)).
Proof.
  intros Hd Hir. remember (length es - k)%nat as m eqn:Hm. revert k buf count Hm.
  induction m as [|m IH]; intros k buf count Hm Hk Hb Hid Hes Hc0 Hc.
  - replace (len es - Z.of_nat k) with 0 by lia. rewrite drop_ge by lia. apply wp_ret. split; [done|].
    unfold dir_links. simpl. lia.
  - destruct (lookup_lt_is_Some_2 es k) as [e He]; [lia|]. rewrite seqZ_step by lia. cbn [link_num_loop].
    pose proof (entry_lookup _ _ _ (dn_entries _ _ _ _ Hd) He) as Heo. destruct (entry_decode e Heo) as [Hn Heid].
    apply wp_bind. eapply wp_mono; [by eapply read_dirent_ok|]. intros r bl' [-> ->].
    apply wp_assert; [done|]. rewrite Heid. assert (inode_range efs e.2) as Her by (by eapply Forall_lookup_1 in Hes).
    rewrite (inode_pos efs N Hgeo) by done. rewrite (drop_S _ _ _ He). unfold dir_links in *.
    assert (iblk e.2 = iblk id ∧ FsRep.ioff e.2 = FsRep.ioff id ↔ e.2 = id) as Hiff.
    { unfold FsRep.iblk, FsRep.ioff. lia. }
    destruct (decide (e.2 = id)) as [Hyes|Hno].
    + rewrite decide_True by (by apply Hiff). rewrite filter_cons_True by done.
      rewrite add_w_small by (unfold fits; lia).
      eapply wp_mono; [apply IH; try done; [lia|lia|by apply length_entry|lia|lia]|]. intros r bl' [-> ->]. split; [done|].
      cbn [length]. lia.
    + rewrite decide_False by (by rewrite Hiff). rewrite filter_cons_False by done.
      apply IH; try done; [lia|lia|by apply length_entry|lia].
Qed.

(** ** Appending an entry *)

Lemma take_content bl ids n m : 0 ≤ n ≤ m → take (Z.to_nat n) (content bl ids m) = content bl ids n.
Proof.
  intros H. unfold content. rewrite <- fmap_take. f_equal. replace m with (n + (m - n)) by lia.
  rewrite seqZ_app by lia. apply take_app_length'. by rewrite length_seqZ.
Qed.

Lemma content_ext bl bl' ids ids' n :
  (∀ p, 0 ≤ p < n → file_byte bl' ids' p = file_byte bl ids p) → content bl' ids' n = content bl ids n.
Proof.
  intros H. unfold content. apply list_fmap_ext. intros k x Hk. apply lookup_seqZ in Hk as [-> Hk]. apply H. lia.
Qed.

(** Overwriting the end of a byte string. *)
Lemma splice_end (c x : list Z) off : 0 ≤ off → len c = off + len x → splice c off x = take (Z.to_nat off) c ++ x.
Proof. intros Ho Hl. unfold splice. rewrite (drop_ge c) by lia. by rewrite app_nil_r. Qed.

Lemma append_ok nd bl nodes used es name id :
  fs_ok bl nodes used → nodes !! 0 = Some nd → dir_node bl used nd es → entry_ok (name, id) →
  32 * (len es + 1) ≤ MAX_BLOCKS * 512 →
  Z.of_nat (size used) + growth (32 * len es) (32 * (len es + 1)) ≤ N →
  wp ∅ (append_dirent efs (inode_at 0) name id) bl (λ _ bl', ∃ used1 nd1,
    fs_ok bl' (<[0 := nd1]> nodes) used1 ∧ others_same bl nodes 0 bl' ∧
    di_type (nd_inode nd1) = Directory ∧ node_content bl' nd1 = dir_bytes (es ++ [(name, id)]) ∧
    Z.of_nat (size used1) = Z.of_nat (size used) + growth (32 * len es) (32 * (len es + 1))).
Proof.
  intros Hok Hi Hd He Hmax Hroom. pose proof (node_range _ _ _ _ _ _ _ Hok Hi) as Hir.
  pose proof (dir_size bl used nd es Hd) as Hs. pose proof (length_entry _ He) as Hle.
  destruct (entry_encode name id He) as (d & Hnew & Hbytes). unfold append_dirent. eapply wp_mono.
  - apply (wp_modify_node 0 nd _ bl nodes used (λ v bl1 used1 nd1, di_type (nd_inode nd1) = Directory ∧
      node_content bl1 nd1 = dir_bytes (es ++ [(name, id)]) ∧
      Z.of_nat (size used1) = Z.of_nat (size used) + growth (32 * len es) (32 * (len es + 1))) Hok Hi).
    rewrite (dir_count bl used nd es Hd). unfold DIRENT_SZ, MAX_BLOCKS in *.
    rewrite (add_w_small 64 (len es)) by (unfold fits; lia). rewrite !mul_w_small by (unfold fits; lia).
    rewrite wrap_small by (unfold fits; lia). replace ((len es + 1) * 32) with (32 * (len es + 1)) by lia.
    apply wp_bind. eapply wp_mono; [apply (increase_ok efs N Hgeo _ bl used nd)|].
    + apply Hd.
    + by apply slot_only_free.
    + unfold MAX_BLOCKS. lia.
    + by rewrite Hs.
    + intros di1 bl1 (used1 & nd1 & <- & Hgr). destruct Hgr as [Hts Hs1 Ht1 Hu1 Hold _].
      pose proof (tree_step_ok _ _ _ _ _ _ _ _ Hts) as Htree1. eapply wp_lift; [exact Hnew|]. rewrite Hbytes.
      apply wp_bind. eapply wp_mono; [apply (write_tree 0 nd1 bl1 used1); try done; [by apply entry_is_bytes|lia..]|].
      intros w bl2 (-> & Hts2 & Hc). apply wp_ret. exists used1, nd1. split; [done|].
      split; [by eapply (tree_step_trans efs N)|]. cbn [fst snd]. split; [rewrite Ht1; apply Hd|].
      split; [|rewrite <- Hs; exact Hu1]. rewrite Hc. unfold node_content. rewrite Hs1.
      rewrite splice_end; [|lia|rewrite length_content; lia]. rewrite take_content by lia.
      rewrite (content_ext bl bl1 (nd_ids nd)) by (intros p Hp; apply Hold; lia).
      rewrite dir_bytes_app. unfold dir_bytes at 2. rewrite bind_cons. cbn [mbind list_bind]. rewrite app_nil_r.
      f_equal. rewrite <- (dn_content _ _ _ _ Hd). unfold node_content. f_equal. lia.
  - intros [] bl' (bl1 & used1 & nd1 & (Ht & Hc & Hu) & Hok' & Hsame & Hoth). exists used1, nd1. split; [done|].
    split; [done|]. split; [done|]. split; [|done]. rewrite <- Hc. unfold node_content. apply content_frame.
    intros b Hb. apply Hsame. unfold nd_blocks. set_solver.
Qed.

(** ** Removing an entry *)

(** A tree seen through a smaller size; the blocks beyond stay allocated. *)
Definition truncate_node (nd : node) (s : Z) : node :=
  MkNode (set_size (nd_inode nd) s) (take (Z.to_nat (data_blocks_of s)) (nd_ids nd))
    (take (Z.to_nat (nidx (data_blocks_of s))) (nd_idx nd)).

Lemma nidx_mono n m : 0 ≤ n ≤ m → 0 ≤ nidx n ≤ nidx m.
Proof. intros H. unfold nidx. repeat case_decide; lia. Qed.

Lemma file_rep_truncate bl nd s :
  file_rep bl (nd_inode nd) (nd_ids nd) (nd_idx nd) → 0 ≤ s ≤ di_size (nd_inode nd) →
  file_rep bl (nd_inode (truncate_node nd s)) (nd_ids (truncate_node nd s)) (nd_idx (truncate_node nd s)).
Proof.
  intros Hf Hs. pose proof (file_size_range bl _ _ _ Hf) as Hrng. destruct Hf as [[H1 H2 H3 H4 H5 H6] Hids Hidx Hmax]. cbn.
  pose proof (data_blocks_eq s ltac:(lia)) as Eb. unfold DiskInode_data_blocks in Hids.
  rewrite data_blocks_eq in Hids by lia. set (n := data_blocks_of s) in *.
  assert (Hn : 0 ≤ n ≤ len (nd_ids nd)) by lia. pose proof (nidx_mono n (len (nd_ids nd)) Hn) as Hx.
  assert (Hl1 : len (take (Z.to_nat n) (nd_ids nd)) = n) by (rewrite length_take_le; lia).
  assert (Hl2 : len (take (Z.to_nat (nidx n)) (nd_idx nd)) = nidx n) by (rewrite length_take_le; lia).
  split.
  - split.
    + intros i Hi. rewrite lookup_take_lt by lia. rewrite <- H1 by lia. done.
    + intros k Hk. rewrite lookup_take_lt by lia. rewrite <- H2 by lia. done.
    + rewrite Hl1, Hl2. lia.
    + eapply sublist_NoDup; [exact H4|]. apply sublist_app; apply sublist_take.
    + intros b [Hb|Hb]%elem_of_app; apply H5; apply elem_of_app; [left|right]; (eapply elem_of_sublist; [done|apply sublist_take]).
    + destruct H6 as (? & ? & ? & ?). unfold DiskInode_valid. cbn. split; [unfold fits; lia|done].
  - unfold DiskInode_data_blocks. cbn. by rewrite Hl1.
  - by rewrite Hl1, Hl2.
  - cbn. lia.
Qed.

Lemma truncate_step bl used nd s :
  tree_ok bl used nd → di_type (nd_inode nd) = Directory → 0 ≤ s ≤ di_size (nd_inode nd) →
  tree_step bl used nd bl used (truncate_node nd s).
Proof.
  intros Htree Ht Hs. pose proof (ts_file _ _ _ _ _ _ _ _ Htree) as Hf. destruct Htree as [O B U K D F R W T].
  split; try done.
  - by apply file_rep_truncate.
  - intros b Hb. apply W. unfold nd_blocks in *. cbn in Hb.
    apply elem_of_app in Hb as [Hb|Hb]; apply elem_of_app; [left|right]; (eapply elem_of_sublist; [done|apply sublist_take]).
  - intros Hx. cbn in Hx. congruence.
Qed.

Lemma truncate_content bl nd s :
  file_rep bl (nd_inode nd) (nd_ids nd) (nd_idx nd) → 0 ≤ s ≤ di_size (nd_inode nd) →
  node_content bl (truncate_node nd s) = take (Z.to_nat s) (node_content bl nd).
Proof.
  intros Hf Hs. pose proof (file_size_range bl _ _ _ Hf) as Hrng.
  unfold node_content. rewrite take_content by lia. apply content_ext. intros p Hp. cbn. unfold file_byte.
  rewrite lookup_take_lt; [done|]. rewrite data_blocks_eq by lia. lia.
Qed.

(** The first entry for [name] is replaced by the last entry, which goes away. *)
Fixpoint dir_index (name : list Z) (es : list entry) : option nat :=
  match es with
  | [] => None
  | e :: es => if decide (e.1 = name) then Some 0%nat else S <$> dir_index name es
  end.
Definition dir_remove (name : list Z) (es : list entry) : list entry :=
  match dir_index name es, last es with
  | Some k, Some e => take (length es - 1) (<[k := e]> es)
  | _, _ => es
  end.

Lemma dir_index_Some name es k :
  dir_index name es = Some k → ∃ e, es !! k = Some e ∧ e.1 = name ∧ ∀ j x, (j < k)%nat → es !! j = Some x → x.1 ≠ name.
Proof.
  revert k. induction es as [|e es IH]; intros k Hk; cbn in Hk; [done|]. case_decide as He.
  - injection Hk as <-. exists e. split; [done|]. split; [done|]. lia.
  - apply fmap_Some in Hk as (k0 & Hk0 & ->). destruct (IH k0 Hk0) as (e0 & ? & ? & Hbefore). exists e0.
    split; [done|]. split; [done|]. intros [|j] x Hj Hx; [by injection Hx as <-|]. apply (Hbefore j); [lia|done].
Qed.

Lemma dir_index_find name es : is_Some (dir_find name es) → ∃ k, dir_index name es = Some k.
Proof.
  induction es as [|e es IH]; cbn; [by intros [? ?]|]. case_decide; [eauto|]. intros Hs. destruct (IH Hs) as [k ->]. by eexists.
Qed.

Lemma unlink_loop_ok i bl used nd es name (j k : nat) buf e e' :
  dir_node bl used nd es → inode_range efs i → es !! k = Some e → e.1 = name → last es = Some e' →
  (∀ x y, (x < k)%nat → es !! x = Some y → y.1 ≠ name) → (j ≤ k)%nat → length buf = 32%nat →
  wp {[iblk i]} (unlink_loop name (len es) (nd_inode nd) (seqZ (Z.of_nat j) (len es - Z.of_nat j)) buf
                   (DirEntry_as_bytes DirEntry_empty)) bl
    (λ di bl', di = set_size (nd_inode nd) (32 * (len es - 1)) ∧ tree_step bl used nd bl' used nd ∧
       node_content bl' nd = dir_bytes (<[k := e']> es)).
Proof.
  intros Hd Hir Hk Hname Hlast Hbefore. pose proof (dir_size bl used nd es Hd) as Hs.
  pose proof (tree_size_range efs N _ _ _ (dn_tree _ _ _ _ Hd)) as Hsz. pose proof (lookup_lt_Some _ _ _ Hk) as Hkl.
  remember (k - j)%nat as m eqn:Hm. revert j buf Hm. induction m as [|m IH]; intros j buf Hm Hj Hb.
  - assert (j = k) as -> by lia. rewrite seqZ_step by lia. cbn [unlink_loop].
    destruct (entry_decode e (entry_lookup _ _ _ (dn_entries _ _ _ _ Hd) Hk)) as [Hn _].
    apply wp_bind. eapply wp_mono; [by eapply read_dirent_ok|]. intros r bl' [-> ->]. rewrite decide_True by done.
    eapply wp_lift; [exact Hn|]. rewrite decide_True by done.
    assert (Hl : es !! (length es - 1)%nat = Some e') by (rewrite <- Hlast, last_lookup; f_equal; lia).
    pose proof (entry_lookup _ _ _ (dn_entries _ _ _ _ Hd) Hl) as Heo'.
    rewrite (sub_w_small 64) by (unfold fits; lia). replace (len es - 1) with (Z.of_nat (length es - 1)) at 1 by lia.
    apply wp_bind. eapply wp_mono; [by eapply read_dirent_ok|]. intros r bl' [-> ->]. unfold DIRENT_SZ.
    rewrite mul_w_small by (unfold fits; lia). pose proof (length_entry _ Heo') as Hle.
    apply wp_bind. eapply wp_mono; [apply (write_tree i nd bl used); [apply Hd|done|by apply entry_is_bytes|lia..]|].
    intros w bl1 (-> & Hts & Hc). apply wp_ret. rewrite sub_w_small by (unfold fits; lia). split; [f_equal; lia|].
    split; [done|]. rewrite Hc, (dn_content _ _ _ _ Hd). apply dir_splice; [apply Hd|done|done].
  - destruct (lookup_lt_is_Some_2 es j) as [x Hx]; [lia|]. rewrite seqZ_step by lia. cbn [unlink_loop].
    pose proof (entry_lookup _ _ _ (dn_entries _ _ _ _ Hd) Hx) as Hxo. destruct (entry_decode x Hxo) as [Hn _].
    apply wp_bind. eapply wp_mono; [by eapply read_dirent_ok|]. intros r bl' [-> ->]. rewrite decide_True by done.
    eapply wp_lift; [exact Hn|]. rewrite decide_False by (apply (Hbefore j); [lia|done]).
    apply IH; [lia|lia|by apply length_entry].
Qed.

Lemma find_op_ok nd bl nodes used es name :
  fs_ok bl nodes used → nodes !! 0 = Some nd → dir_node bl used nd es →
  wp ∅ (read_disk_inode (inode_at 0) (find_op name)) bl (λ r bl', bl' = bl ∧ r = dir_find name es).
Proof.
  intros Hok Hi Hd. pose proof (node_range _ _ _ _ _ _ _ Hok Hi) as Hir. eapply wp_read_node; [done|done|].
  unfold find_op. apply wp_assert; [by apply bool_decide_eq_true_2, (dn_type _ _ _ _ Hd)|]. by eapply find_inode_id_ok.
Qed.

Lemma unlink_ok nd bl nodes used es name :
  fs_ok bl nodes used → nodes !! 0 = Some nd → dir_node bl used nd es → is_Some (dir_find name es) →
  wp ∅ (Inode_unlink (inode_at 0) name) bl (λ r bl', r = 0 ∧ ∃ nd1,
    fs_ok bl' (<[0 := nd1]> nodes) used ∧ others_same bl nodes 0 bl' ∧
    di_type (nd_inode nd1) = Directory ∧ node_content bl' nd1 = dir_bytes (dir_remove name es)).
Proof.
  intros Hok Hi Hd Hfind. pose proof (node_range _ _ _ _ _ _ _ Hok Hi) as Hir.
  pose proof (dir_size bl used nd es Hd) as Hs. unfold Inode_unlink.
  apply wp_bind. eapply wp_mono; [by eapply find_op_ok|]. intros r bl' [-> ->]. destruct Hfind as [id0 Hfind]. rewrite Hfind.
  destruct (dir_index_find name es) as [k Hk]; [eauto|]. destruct (dir_index_Some _ _ _ Hk) as (e & Hek & Hname & Hbefore).
  pose proof (lookup_lt_Some _ _ _ Hek) as Hkl.
  destruct (last es) as [e'|] eqn:Hlast; [|apply last_None in Hlast; subst; cbn in Hkl; lia].
  assert (He' : entry_ok e').
  { apply (entry_lookup es (length es - 1)); [apply Hd|]. rewrite <- Hlast, last_lookup. f_equal. lia. }
  assert (Hes' : Forall entry_ok (<[k := e']> es)) by (apply Forall_insert; [apply Hd|done]).
  apply wp_bind. eapply wp_mono.
  - apply (wp_modify_node 0 nd _ bl nodes used (λ v bl1 used1 nd1, used1 = used ∧
      di_type (nd_inode nd1) = Directory ∧ node_content bl1 nd1 = dir_bytes (dir_remove name es)) Hok Hi).
    rewrite (dir_count bl used nd es Hd). apply wp_bind.
    replace (len es) with (len es - Z.of_nat 0) at 2 by lia. change 0 with (Z.of_nat 0) at 1.
    eapply wp_mono; [by eapply (unlink_loop_ok 0 bl used nd es name 0 k); [..|lia|]|].
    intros di bl1 (-> & Hts & Hc). apply wp_ret. exists used, (truncate_node nd (32 * (len es - 1))).
    pose proof (tree_step_ok _ _ _ _ _ _ _ _ Hts) as Htree1. split; [done|].
    split; [eapply (tree_step_trans efs N); [done|]; apply truncate_step; [done|apply Hd|lia]|].
    cbn [fst snd]. split; [done|]. split; [apply Hd|].
    rewrite truncate_content; [|apply (ts_file _ _ _ _ _ _ _ _ Htree1)|lia]. rewrite Hc. unfold dir_remove. rewrite Hk, Hlast.
    rewrite <- dir_take; [f_equal; lia|done|rewrite length_insert; lia].
  - intros [] bl' (bl1 & used1 & nd1 & (-> & Ht & Hc) & Hok' & Hsame & Hoth). apply wp_ret. split; [done|].
    exists nd1. split; [done|]. split; [done|]. split; [done|]. rewrite <- Hc. unfold node_content. apply content_frame.
    intros b Hb. apply Hsame. unfold nd_blocks. set_solver.
Qed.

(** * New inodes *)

Lemma fs_new_node bl nodes used id bl1 d di :
  fs_ok bl nodes used → nodes !! id = None → inode_range efs id →
  bitmap_is (efs_inode_bitmap efs) bl1 ({[id]} ∪ dom nodes) → same_outside (in_bitmap (efs_inode_bitmap efs)) bl bl1 →
  bl1 !! iblk id = Some d → DiskInode_valid di → di_size di = 0 →
  fs_ok (store_inode efs bl1 id d di) (<[id := MkNode di [] []]> nodes) used ∧
  ∀ b, in_data b → store_inode efs bl1 id d di !! b = bl !! b.
Proof.
  intros Hok Hid Hir Hbm Ho Hd Hv Hsz. pose proof (iblk_in efs id Hir) as Hib.
  destruct (regions efs N Hgeo (iblk id)) as (_ & Hri & _). destruct (Hri Hib) as [Hndb Hnda].
  assert (Hnib : ¬ in_bitmap (efs_inode_bitmap efs) (iblk id)).
  { intros Hb. destruct (regions efs N Hgeo (iblk id)) as (Hr & _). by destruct (Hr Hb). }
  destruct (ok_iarea _ _ _ _ _ Hok _ Hib) as (d' & Hd' & Hslots). rewrite Ho in Hd by done. simplify_eq.
  assert (Hst : ∀ b, b ≠ iblk id → ¬ in_bitmap (efs_inode_bitmap efs) b → store_inode efs bl1 id d di !! b = bl !! b).
  { intros b Hb Hb'. unfold store_inode. rewrite lookup_insert_ne by done. by apply Ho. }
  assert (Hdata : ∀ b, in_data b → store_inode efs bl1 id d di !! b = bl !! b).
  { intros b Hb. apply Hst; [by intros ->|]. intros Hb'. destruct (regions efs N Hgeo b) as (Hr & _). by destruct (Hr Hb') as (_ & _ & ?). }
  assert (Hb1 : bl1 !! iblk id = Some d) by (by rewrite Ho).
  split; [|done]. split.
  - rewrite dom_insert_L. eapply bitmap_is_frame; [done|]. intros b Hb. unfold store_inode. rewrite lookup_insert_ne; [done|].
    by intros <-.
  - eapply bitmap_is_frame; [apply (ok_dbits _ _ _ _ _ Hok)|]. intros b Hb. apply Hst; [by intros ->|].
    intros Hb'. destruct (regions efs N Hgeo b) as (Hr & _). by destruct (Hr Hb') as (_ & ? & _).
  - apply (ok_used _ _ _ _ _ Hok).
  - intros b Hb. destruct (decide (b = iblk id)) as [->|Hne].
    + unfold store_inode. rewrite lookup_insert_eq. eexists. split; [done|]. by apply slots_store.
    + rewrite Hst; [by apply (ok_iarea _ _ _ _ _ Hok)|done|]. intros Hb'. destruct (regions efs N Hgeo b) as (Hr & _).
      by destruct (Hr Hb').
  - intros b Hb. unfold present. rewrite Hdata by done. by apply (ok_data _ _ _ _ _ Hok).
  - intros n Hn Hnu. rewrite Hdata by (unfold FsRep.in_data; lia). by apply (ok_free _ _ _ _ _ Hok).
  - intros j ndj Hj. apply lookup_insert_Some in Hj as [[<- <-]|[Hne Hj]].
    + split; cbn.
      * rewrite (disk_inode_store efs bl1 id d) by (done || apply Hslots). by rewrite decide_True.
      * by apply empty_file_rep.
      * intros b Hb. unfold nd_blocks in Hb. cbn in Hb. set_solver.
      * intros _ p Hp. done.
    + pose proof (node_range _ _ _ _ _ _ _ Hok Hj) as Hjr. eapply (node_ok_frame efs N Hgeo); [exact (ok_node _ _ _ _ _ Hok j ndj Hj)|..].
      * rewrite (disk_inode_store efs bl1 id d) by (done || apply Hslots). rewrite decide_False by done.
        unfold disk_inode. rewrite Ho; [done|]. intros Hb'. destruct (regions efs N Hgeo (FsRep.iblk efs j)) as (Hr & _).
        destruct (Hr Hb') as (Hx & _). apply Hx. by apply iblk_in.
      * intros b Hb. apply Hdata. by eapply node_in_data.
      * by apply (no_used _ _ _ _ _ (ok_node _ _ _ _ _ Hok j ndj Hj)).
  - intros j k ndj ndk b Hj Hk H1 H2.
    apply lookup_insert_Some in Hj as [[<- <-]|[Hne Hj]]; [unfold nd_blocks in H1; cbn in H1; set_solver|].
    apply lookup_insert_Some in Hk as [[<- <-]|[Hne' Hk]]; [unfold nd_blocks in H2; cbn in H2; set_solver|].
    by eapply (ok_disj _ _ _ _ _ Hok).
  - destruct (super_outside efs N Hgeo) as (? & _ & ? & _). eapply super_frame; [apply Hok|]. apply Hst; congruence.
Qed.

(** The inode number that an allocation finds. *)
Definition next_inode nodes (id : Z) : Prop :=
  inode_range efs id ∧ nodes !! id = None ∧ ∀ j, 0 ≤ j < id → is_Some (nodes !! j).

Lemma alloc_inode_ok bl nodes used id :
  fs_ok bl nodes used → next_inode nodes id →
  wp ∅ (EasyFileSystem_alloc_inode efs) bl (λ r bl', r = id ∧
    bitmap_is (efs_inode_bitmap efs) bl' ({[id]} ∪ dom nodes) ∧ same_outside (in_bitmap (efs_inode_bitmap efs)) bl bl').
Proof.
  intros Hok ((Hi1 & Hi2) & Hnone & Hlow). unfold EasyFileSystem_alloc_inode. apply wp_bind. eapply wp_mono.
  - apply (Bitmap_alloc_ok _ (ib_wf efs N Hgeo) ∅ bl (dom nodes)); [apply Hok|].
    split; [rewrite size_empty; unfold BLOCK_CACHE_SIZE; lia|set_solver].
  - intros r bl' Hpost. apply not_elem_of_dom in Hnone. destruct r as [n|]; simpl in Hpost.
    + destruct Hpost as (Hn & Hnu & Hbelow & Hbm & Ho). assert (n = id) as ->.
      { destruct (decide (n < id)); [exfalso; apply Hnu, elem_of_dom, Hlow; lia|].
        destruct (decide (id < n)); [exfalso; apply Hnone, Hbelow; lia|lia]. }
      eapply wp_lift; [done|]. apply wp_ret. destruct Hgeo. rewrite wrap_small by (unfold fits; lia). done.
    + destruct Hpost as [_ Hall]. exfalso. apply Hnone, Hall. lia.
Qed.

(** Initialising an allocated inode. *)
Lemma init_inode_ok bl nodes used id bl1 ty :
  fs_ok bl nodes used → nodes !! id = None → inode_range efs id →
  bitmap_is (efs_inode_bitmap efs) bl1 ({[id]} ∪ dom nodes) → same_outside (in_bitmap (efs_inode_bitmap efs)) bl bl1 →
  wp ∅ (block_modify DiskInode_repr (iblk id) (FsRep.ioff id) (λ x, mret (tt, DiskInode_initialize x ty))) bl1
    (λ _ bl2, ∃ di, di_size di = 0 ∧ di_type di = ty ∧ fs_ok bl2 (<[id := MkNode di [] []]> nodes) used ∧
      ∀ b, in_data b → bl2 !! b = bl !! b).
Proof.
  intros Hok Hnone Hir Hbm Ho. pose proof (iblk_in efs id Hir) as Hib.
  destruct (ok_iarea _ _ _ _ _ Hok _ Hib) as (d & Hdb & Hslots).
  assert (Hd1 : bl1 !! iblk id = Some d).
  { rewrite Ho; [done|]. intros Hb. destruct (regions efs N Hgeo (iblk id)) as (Hr & _). by destruct (Hr Hb). }
  pose proof Hslots as [Hw Hdec]. destruct (Hdec (id mod 4)) as [di0 Hdi0]; [lia|]. pose proof (ioff_range id) as [Ho1 Ho2].
  set (di := DiskInode_initialize di0 ty).
  assert (Hv : DiskInode_valid di).
  { pose proof (decode_valid _ DiskInode_repr (slice d (FsRep.ioff id) 128) di0 (slice_bytes _ _ _ (proj2 Hw))
      (length_slice_in d (FsRep.ioff id) 128 Ho1 ltac:(destruct Hw; lia)) Hdi0) as Hdv.
    destruct Hdv as (_ & [Hl _] & _). unfold di, DiskInode_initialize, DiskInode_valid. cbn. split; [by compute|].
    split; [split; [by rewrite length_fmap|]|split; by compute]. apply Forall_fmap, Forall_forall. intros x _. by compute. }
  eapply (wp_modify DiskInode_repr); [split; [set_solver|]; split; [rewrite size_empty; unfold BLOCK_CACHE_SIZE; lia|done]|apply Hw|done..| |].
  { exact Hdi0. }
  apply wp_ret. cbn [fst snd]. split; [exact Hv|]. exists di. split; [done|]. split; [done|].
  exact (fs_new_node bl nodes used id bl1 d di Hok Hnone Hir Hbm Ho Hd1 Hv eq_refl).
Qed.

Lemma create_ok nd bl nodes used es name id :
  fs_ok bl nodes used → nodes !! 0 = Some nd → dir_node bl used nd es →
  dir_find name es = None → name_ok name → next_inode nodes id →
  32 * (len es + 1) ≤ MAX_BLOCKS * 512 →
  Z.of_nat (size used) + growth (32 * len es) (32 * (len es + 1)) ≤ N →
  wp ∅ (Inode_create efs (inode_at 0) name) bl (λ r bl', r = Some (inode_at id) ∧ ∃ used1 nd1 di,
    fs_ok bl' (<[0 := nd1]> (<[id := MkNode di [] []]> nodes)) used1 ∧ di_size di = 0 ∧ di_type di = File ∧
    (∀ j ndj b, j ≠ 0 → nodes !! j = Some ndj → b ∈ nd_blocks ndj → bl' !! b = bl !! b) ∧
    di_type (nd_inode nd1) = Directory ∧ node_content bl' nd1 = dir_bytes (es ++ [(name, id)]) ∧
    Z.of_nat (size used1) = Z.of_nat (size used) + growth (32 * len es) (32 * (len es + 1))).
Proof.
  intros Hok Hi Hd Hfind Hname Hnext Hmax Hroom. pose proof Hnext as (Hir & Hnone & _). unfold Inode_create.
  apply wp_bind. eapply wp_mono; [by eapply find_op_ok|]. intros r bl' [-> ->]. rewrite Hfind, decide_False by tauto.
  apply wp_bind. eapply wp_mono; [by eapply alloc_inode_ok|]. intros r bl1 (-> & Hbm & Ho).
  rewrite (inode_pos efs N Hgeo id Hir). apply wp_bind. eapply wp_mono; [by apply (init_inode_ok bl nodes used)|].
  intros _ bl2 (di & Hsz & Hft & Hok2 & Hdata).
  assert (Hid0 : id ≠ 0) by congruence.
  assert (Hi2 : <[id := MkNode di [] []]> nodes !! 0 = Some nd) by (by rewrite lookup_insert_ne).
  assert (Hd2 : dir_node bl2 used nd es).
  { destruct Hd as [_ Ht Hc He]. split; [by eapply tree_ok_node|done| |done]. rewrite <- Hc. unfold node_content.
    apply content_frame. intros b Hb. apply Hdata. eapply (node_in_data efs N bl); [done..|]. unfold nd_blocks. set_solver. }
  apply wp_bind. eapply wp_mono; [apply (append_ok nd bl2 _ used es name id Hok2 Hi2 Hd2)|].
  - split; [done|]. destruct Hgeo, Hir. unfold fits. cbn. lia.
  - done.
  - done.
  - intros [] bl3 (used1 & nd1 & Hok3 & Hoth & Ht & Hc & Hu). apply wp_sync, wp_ret. split; [done|].
    exists used1, nd1, di. split; [done|]. split; [done|]. split; [done|]. split; [|done].
    intros j ndj b Hj Hnj Hb. rewrite (Hoth j ndj b); [|done| |done].
    + apply Hdata. exact (node_in_data _ _ _ _ _ _ _ _ Hok Hnj Hb).
    + rewrite lookup_insert_ne; [done|]. congruence.
Qed.
End VfsSpec.
