(* ===== verification/FsModel.v ===== *)
(** An abstract file system and the refinement: every operation of the virtual file system
    on a consistent disk returns what the abstract operation returns and leaves a disk
    that represents the abstract result. *)

From S2P Require Import Prelude BlockDev BlockCache BlockAccess Bitmap Layout InodeTree InodeData Efs Vfs FsRep VfsSpec.

Ltac Zify.zify_post_hook ::= Z.to_euclidean_division_equations.

(** * The abstract file system *)

(** The root directory and the contents of the files by inode number. *)
Record afs := MkAfs { a_dir : list entry; a_files : gmap Z (list Z) }.

(** Operations; files are named by inode numbers. *)
Inductive vop :=
| VFind (name : list Z)
| VLs
| VCreate (name : list Z)
| VLink (old new : list Z)
| VUnlink (name : list Z)
| VLinks (id : Z)
| VRead (id offset : Z) (buf : list Z)
| VWrite (id offset : Z) (buf : list Z)
| VClear (id : Z).

Inductive vres :=
| RInode (o : option Inode)
| RNames (l : list (list Z))
| RNum (n : Z)
| RRead (n : Z) (buf : list Z)
| RUnit.

(** One step of a run that is known to succeed. *)
Ltac synced_step H :=
  let x := fresh "x" in let f := fresh "f" in let H1 := fresh in
  apply run_flat_bind_Ok in H as ((x & f) & H1 & H); rewrite (flat_synced_bind _ _ _ _ x f H1); clear H1; cbn [fst snd] in H.

(** ** Operations that only read *)

Lemma no_store_lift {A} (r : res A) : no_store (prog_lift r).
Proof. by destruct r. Qed.
Lemma no_store_assert b : no_store (prog_assert b).
Proof. by destruct b. Qed.

Lemma no_store_read {T V} (R : Repr T) b o (f : T → prog V) : (∀ x, no_store (f x)) → no_store (block_read R b o f).
Proof.
  intros Hf. unfold block_read, get_ref. intros d. apply no_store_bind; [|intros x; by apply no_store_bind; [|done]].
  apply no_store_bind; [apply no_store_assert|intros []]. by destruct (decode R _).
Qed.

Create HintDb no_store.
#[local] Hint Resolve no_store_lift no_store_assert no_store_read : no_store.
(** Descend through the binds, reads and branches of a program. *)
Ltac only_reads :=
  repeat (intros; cbv zeta; match goal with
    | |- no_store (_ ≫= _) => apply no_store_bind
    | |- no_store (if ?b then _ else _) => destruct b
    | |- no_store (let '(_, _) := ?x in _) => destruct x
    | |- no_store (mret _) => exact I
    | |- no_store _ => solve [auto with no_store]
    | |- no_store (block_read _ _ _ _) => apply no_store_read
    end).

Lemma get_block_id_reads di i : no_store (DiskInode_get_block_id di i).
Proof. unfold DiskInode_get_block_id. only_reads. Qed.
#[local] Hint Resolve get_block_id_reads : no_store.

Lemma read_loop_reads di n : ∀ start end_ sb rs buf, no_store (DiskInode_read_loop n di start end_ sb rs buf).
Proof. induction n as [|n IH]; intros; cbn [DiskInode_read_loop]; [exact I|]. only_reads. Qed.
Lemma read_at_reads di o buf : no_store (DiskInode_read_at di o buf).
Proof. unfold DiskInode_read_at. case_bool_decide; [exact I|apply read_loop_reads]. Qed.
#[local] Hint Resolve read_at_reads : no_store.

Lemma find_loop_reads name di ixs : ∀ buf, no_store (find_loop name di ixs buf).
Proof. induction ixs as [|i ixs IH]; intros; cbn [find_loop]; unfold read_dirent; only_reads. Qed.
Lemma ls_loop_reads di ixs : ∀ v, no_store (ls_loop di ixs v).
Proof. induction ixs as [|i ixs IH]; intros; cbn [ls_loop]; unfold read_dirent; only_reads. Qed.
Lemma link_num_loop_reads fs b o di ixs : ∀ buf c, no_store (link_num_loop fs b o di ixs buf c).
Proof. induction ixs as [|i ixs IH]; intros; cbn [link_num_loop]; unfold read_dirent; only_reads. Qed.
#[local] Hint Resolve find_loop_reads ls_loop_reads link_num_loop_reads : no_store.

Lemma find_reads fs ino name : no_store (Inode_find fs ino name).
Proof. unfold Inode_find, read_disk_inode, find_inode_id. only_reads. Qed.
Lemma ls_reads ino : no_store (Inode_ls ino).
Proof. unfold Inode_ls, read_disk_inode. only_reads. Qed.
Lemma link_num_reads fs ino b o : no_store (Inode_get_link_num fs ino b o).
Proof. unfold Inode_get_link_num, read_disk_inode. only_reads. Qed.
Lemma inode_read_reads ino o buf : no_store (Inode_read_at ino o buf).
Proof. unfold Inode_read_at, read_disk_inode. only_reads. Qed.
#[local] Hint Resolve find_reads ls_reads link_num_reads inode_read_reads : no_store.

Section FsModel.
Context (efs : EasyFileSystem) (N : Z) (Hgeo : efs_wf efs N).
Implicit Types (bl : gmap Z (list Z)) (a : afs) (op : vop).

Abbreviation inode_at := (inode_at efs).

(** The lowest free inode number; number 0 is the root directory. *)
Fixpoint fresh_from (files : gmap Z (list Z)) (n : nat) (i : Z) : Z :=
  match n with
  | O => 0
  | S n' => match files !! i with None => i | Some _ => fresh_from files n' (i + 1) end
  end.
Definition fresh a : Z :=
  fresh_from (a_files a) (Z.to_nat (bitmap_blocks (efs_inode_bitmap efs) * 4096 - 1)) 1.

Definition abs_vop op a : vres * afs :=
  match op with
  | VFind name => (RInode (inode_at <$> dir_find name (a_dir a)), a)
  | VLs => (RNames (a_dir a).*1, a)
  | VCreate name =>
      match dir_find name (a_dir a) with
      | Some _ => (RInode None, a)
      | None =>
          let id := fresh a in
          (RInode (Some (inode_at id)), MkAfs (a_dir a ++ [(name, id)]) (<[id := []]> (a_files a)))
      end
  | VLink old new =>
      match dir_find old (a_dir a) with
      | Some id => (RInode (Some (inode_at id)), MkAfs (a_dir a ++ [(new, id)]) (a_files a))
      | None => (RInode None, a)
      end
  | VUnlink name =>
      match dir_find name (a_dir a) with
      | Some _ => (RNum 0, MkAfs (dir_remove name (a_dir a)) (a_files a))
      | None => (RNum (-1), a)
      end
  | VLinks id => (RNum (dir_links id (a_dir a)), a)
  | VRead id offset buf =>
      let c := default [] (a_files a !! id) in
      let n := Z.max 0 (Z.min (len buf) (len c - offset)) in
      (RRead n (splice buf 0 (slice c offset n)), a)
  | VWrite id offset buf =>
      let c := default [] (a_files a !! id) in
      (RNum (len buf), MkAfs (a_dir a) (<[id := write_content c offset buf]> (a_files a)))
  | VClear id => (RUnit, MkAfs (a_dir a) (<[id := []]> (a_files a)))
  end.

(** The code of an operation, on the root inode or the inode of the file. *)
Definition run_vop op : prog vres :=
  let root := EasyFileSystem_root_inode efs in
  match op with
  | VFind name => r ← Inode_find efs root name; mret (RInode r)
  | VLs => r ← Inode_ls root; mret (RNames r)
  | VCreate name => r ← Inode_create efs root name; mret (RInode r)
  | VLink old new => r ← Inode_link efs root old new; mret (RInode r)
  | VUnlink name => r ← Inode_unlink root name; mret (RNum r)
  | VLinks id =>
      r ← Inode_get_link_num efs root (ino_block_id (inode_at id)) (ino_block_offset (inode_at id)); mret (RNum r)
  | VRead id offset buf => '(n, b) ← Inode_read_at (inode_at id) offset buf; mret (RRead n b)
  | VWrite id offset buf => r ← Inode_write_at efs (inode_at id) offset buf; mret (RNum r)
  | VClear id => _ ← Inode_clear efs (inode_at id); mret RUnit
  end.

(** Data blocks an operation takes (or, negative, gives back). *)
Definition dir_growth (es : list entry) : Z := growth (32 * len es) (32 * (len es + 1)).
Definition vop_cost op a : Z :=
  match op with
  | VCreate name => match dir_find name (a_dir a) with Some _ => 0 | None => dir_growth (a_dir a) end
  | VLink old _ => match dir_find old (a_dir a) with Some _ => dir_growth (a_dir a) | None => 0 end
  | VWrite id offset buf =>
      let c := default [] (a_files a !! id) in growth (len c) (Z.max (len c) (offset + len buf))
  | VClear id => - DiskInode_total_blocks (len (default [] (a_files a !! id)))
  | _ => 0
  end.

(** What an operation needs: valid names and ranges, and room on the disk. *)
Definition vop_ok (u : Z) op a : Prop :=
  u + vop_cost op a ≤ N ∧
  match op with
  | VFind _ | VLs | VUnlink _ => True
  | VCreate name => dir_find name (a_dir a) = None →
      name_ok name ∧ fresh a ≠ 0 ∧ 32 * (len (a_dir a) + 1) ≤ MAX_BLOCKS * 512
  | VLink old new => is_Some (dir_find old (a_dir a)) → name_ok new ∧ 32 * (len (a_dir a) + 1) ≤ MAX_BLOCKS * 512
  | VLinks id | VClear id => is_Some (a_files a !! id)
  | VRead id offset buf => is_Some (a_files a !! id) ∧ 0 ≤ offset ∧ offset + len buf < 2 ^ 63
  | VWrite id offset buf => is_Some (a_files a !! id) ∧ Forall is_byte buf ∧ 0 < len buf ∧ 0 ≤ offset ∧
      offset + len buf ≤ MAX_BLOCKS * 512
  end.

#[global] Instance vop_ok_dec u op a : Decision (vop_ok u op a).
Proof. unfold vop_ok, name_ok. apply and_dec; [apply _|]. destruct op; apply _. Defined.

(** * Representation *)

(** The disk [bl] holds the abstract file system [a], with [u] data blocks in use. *)
Record fs_rep_nodes bl (u : Z) a (nodes : gmap Z node) (used : gset Z) (nd0 : node) : Prop := {
  fr_ok : fs_ok efs N bl nodes used;
  fr_u : u = Z.of_nat (size used);
  fr_root : nodes !! 0 = Some nd0;
  fr_type : di_type (nd_inode nd0) = Directory;
  fr_dir : node_content bl nd0 = dir_bytes (a_dir a);
  fr_entries : Forall entry_ok (a_dir a);
  fr_files i : i ≠ 0 →
    (λ nd, (di_type (nd_inode nd), node_content bl nd)) <$> nodes !! i = (λ c, (File, c)) <$> a_files a !! i;
  fr_no_root : a_files a !! 0 = None;
  fr_closed e : e ∈ a_dir a → is_Some (a_files a !! e.2)
}.
Definition fs_rep bl (u : Z) a : Prop := ∃ nodes used nd0, fs_rep_nodes bl u a nodes used nd0.

Lemma root_inode_at : inode_range efs 0 → EasyFileSystem_root_inode efs = inode_at 0.
Proof. intros H. unfold EasyFileSystem_root_inode. by apply (inode_at_pos efs N Hgeo). Qed.

Section Nodes.
Context bl u a nodes used nd0 (Hr : fs_rep_nodes bl u a nodes used nd0).

Lemma rep_root_range : inode_range efs 0.
Proof. by eapply node_range; [apply Hr|apply Hr]. Qed.

Lemma rep_dir_node : dir_node efs N bl used nd0 (a_dir a).
Proof. split; [by eapply tree_ok_node; apply Hr|apply Hr..]. Qed.

Lemma rep_file i c : a_files a !! i = Some c → ∃ nd, nodes !! i = Some nd ∧ di_type (nd_inode nd) = File ∧
  node_content bl nd = c ∧ i ≠ 0 ∧ inode_range efs i ∧ di_size (nd_inode nd) = len c.
Proof.
  intros Hc. assert (i ≠ 0) as Hi by (intros ->; rewrite (fr_no_root _ _ _ _ _ _ Hr) in Hc; done).
  pose proof (fr_files _ _ _ _ _ _ Hr i Hi) as E. rewrite Hc in E. destruct (nodes !! i) as [nd|] eqn:Hnd; [|done].
  cbn in E. injection E as E1 E2. exists nd. split; [done|]. split; [done|]. split; [done|]. split; [done|].
  split; [by eapply node_range; [apply Hr|]|]. rewrite <- E2. symmetry. eapply (length_node_content efs N).
  by eapply tree_ok_node; [apply Hr|].
Qed.

Lemma rep_files_node i : i ≠ 0 → is_Some (a_files a !! i) ↔ is_Some (nodes !! i).
Proof.
  intros Hi. pose proof (fr_files _ _ _ _ _ _ Hr i Hi) as E.
  destruct (nodes !! i), (a_files a !! i); try done; split; intros [? ?]; done.
Qed.

(** Other files keep their contents. *)
Lemma others_content bl' i j ndj :
  others_same bl nodes i bl' → j ≠ i → nodes !! j = Some ndj → node_content bl' ndj = node_content bl ndj.
Proof.
  intros Hoth Hj Hnj. unfold node_content. apply content_frame. intros b Hb. apply (Hoth j ndj b Hj Hnj).
  unfold nd_blocks. set_solver.
Qed.

(** A change of one file. *)
Lemma rep_update_file bl' i nd1 used1 c1 :
  is_Some (a_files a !! i) → fs_ok efs N bl' (<[i := nd1]> nodes) used1 → others_same bl nodes i bl' →
  di_type (nd_inode nd1) = File → node_content bl' nd1 = c1 →
  fs_rep bl' (Z.of_nat (size used1)) (MkAfs (a_dir a) (<[i := c1]> (a_files a))).
Proof.
  intros [c Hc] Hok Hoth Ht Hc1. destruct (rep_file i c Hc) as (nd & Hnd & _ & _ & Hi & _).
  exists (<[i := nd1]> nodes), used1, nd0. split; cbn; try done.
  - rewrite lookup_insert_ne by done. apply Hr.
  - apply Hr.
  - rewrite (others_content bl' i 0) by (done || apply Hr). apply Hr.
  - apply Hr.
  - intros j Hj. destruct (decide (j = i)) as [->|Hne].
    + rewrite !lookup_insert_eq. cbn. by rewrite Ht, Hc1.
    + rewrite !lookup_insert_ne by done. rewrite <- (fr_files _ _ _ _ _ _ Hr j Hj).
      destruct (nodes !! j) as [ndj|] eqn:Hndj; [|done]. cbn. by rewrite (others_content bl' i j).
  - rewrite lookup_insert_ne by done. apply Hr.
  - intros e He. apply lookup_insert_is_Some'. right. by apply (fr_closed _ _ _ _ _ _ Hr).
Qed.

(** A change of the directory. *)
Lemma rep_update_dir bl' nd1 used1 es1 :
  fs_ok efs N bl' (<[0 := nd1]> nodes) used1 → others_same bl nodes 0 bl' →
  di_type (nd_inode nd1) = Directory → node_content bl' nd1 = dir_bytes es1 → Forall entry_ok es1 →
  (∀ e, e ∈ es1 → is_Some (a_files a !! e.2)) →
  fs_rep bl' (Z.of_nat (size used1)) (MkAfs es1 (a_files a)).
Proof.
  intros Hok Hoth Ht Hc Hes Hcl. exists (<[0 := nd1]> nodes), used1, nd1. split; cbn; try done.
  - by rewrite lookup_insert_eq.
  - intros j Hj. rewrite lookup_insert_ne by done. rewrite <- (fr_files _ _ _ _ _ _ Hr j Hj).
    destruct (nodes !! j) as [ndj|] eqn:Hndj; [|done]. cbn. by rewrite (others_content bl' 0 j).
  - apply Hr.
Qed.
(** What the directory names. *)
Lemma dir_find_elem name es id : dir_find name es = Some id → (name, id) ∈ es.
Proof.
  induction es as [|[n i] es IH]; cbn; [done|]. case_decide as Hn; [cbn in Hn; subst; intros [= ->]; left|intros Hf; right; auto].
Qed.

Lemma rep_find_file name id : dir_find name (a_dir a) = Some id →
  is_Some (a_files a !! id) ∧ inode_range efs id ∧ fits 32 id.
Proof.
  intros Hf%dir_find_elem. destruct (fr_closed _ _ _ _ _ _ Hr _ Hf) as [c Hc]. split; [by eexists|].
  apply rep_file in Hc as (_ & _ & _ & _ & _ & Hir & _). split; [done|].
  pose proof (fr_entries _ _ _ _ _ _ Hr) as He. rewrite Forall_forall in He. by apply He in Hf as [_ ?].
Qed.

Lemma rep_find_range name id : dir_find name (a_dir a) = Some id → inode_range efs id.
Proof. by intros (_ & ? & _)%rep_find_file. Qed.

Lemma dir_remove_elem name es e : e ∈ dir_remove name es → e ∈ es.
Proof.
  unfold dir_remove. destruct (dir_index name es) as [k|]; [|done]. destruct (last es) as [x|] eqn:Hl; [|done].
  intros (j & Hj)%list_elem_of_lookup. apply lookup_take_Some in Hj as [Hj _].
  apply list_lookup_insert_Some in Hj as [(_ & <- & _)|[_ Hj]]; [by apply last_Some_elem_of|by eapply list_elem_of_lookup_2].
Qed.

Lemma dir_remove_ok name es : Forall entry_ok es → Forall entry_ok (dir_remove name es).
Proof. rewrite !Forall_forall. intros He e ?%dir_remove_elem. auto. Qed.

(** The blocks of a file are all distinct bits of the data bitmap. *)
Lemma rep_freed i nd : nodes !! i = Some nd →
  Z.of_nat (size (used ∖ bits_of efs (nd_blocks nd))) =
    Z.of_nat (size used) + - DiskInode_total_blocks (di_size (nd_inode nd)).
Proof.
  intros Hnd. pose proof (tree_ok_node efs N _ _ _ _ _ (fr_ok _ _ _ _ _ _ Hr) Hnd) as Htree.
  pose proof (no_used _ _ _ _ _ (ok_node _ _ _ _ _ (fr_ok _ _ _ _ _ _ Hr) i nd Hnd)) as Hu.
  assert (bits_of efs (nd_blocks nd) ⊆ used) as Hsub.
  { intros n Hn%elem_of_bits. apply Hu in Hn. by replace (efs_data_area_start_block efs + n - efs_data_area_start_block efs) with n in Hn by lia. }
  pose proof (subseteq_size _ _ Hsub). rewrite size_difference by done.
  pose proof (tree_size_range efs N _ _ _ Htree) as Hsz. destruct (ts_file _ _ _ _ _ _ _ _ Htree) as [Hrep Hids Hidx Hmax].
  rewrite total_blocks_eq by lia.
  assert (size (bits_of efs (nd_blocks nd)) = length (nd_blocks nd)) as E.
  { unfold bits_of. rewrite size_list_to_set; [by rewrite length_fmap|]. apply NoDup_fmap_2; [intros x y ?; lia|].
    apply Hrep. }
  unfold DiskInode_data_blocks in Hids. rewrite <- Hids, <- Hidx. unfold nd_blocks in *. rewrite length_app in E. lia.
Qed.

(** Reading the directory. *)
Lemma rep_find_pos name : inode_at <$> dir_find name (a_dir a) =
  option_map (λ id, Inode_new (EasyFileSystem_get_disk_inode_pos efs id)) (dir_find name (a_dir a)).
Proof.
  destruct (dir_find name (a_dir a)) as [id|] eqn:Hf; [|done]. cbn. f_equal. symmetry.
  apply (inode_at_pos efs N Hgeo). by apply (rep_find_range name).
Qed.

Abbreviation refines op := (wp ∅ (run_vop op) bl (λ r bl',
  r = (abs_vop op a).1 ∧ fs_rep bl' (u + vop_cost op a) (abs_vop op a).2)).

Lemma rep_same : fs_rep bl (u + 0) a.
Proof. rewrite Z.add_0_r. by eexists _, _, _. Qed.

Lemma refines_find name : refines (VFind name).
Proof.
  unfold run_vop. rewrite (root_inode_at rep_root_range). apply wp_bind.
  apply (wp_mono _ _ _ (λ r bl', bl' = bl ∧ r = inode_at <$> dir_find name (a_dir a))).
  - unfold Inode_find. eapply (wp_read_node efs N Hgeo); [apply Hr|apply Hr|]. apply wp_bind.
    eapply wp_mono; [eapply (find_inode_id_ok efs N Hgeo 0); [apply rep_dir_node|apply rep_root_range]|].
    intros r bl' [-> ->]. apply wp_ret. split; [done|]. by rewrite rep_find_pos.
  - intros r bl' [-> ->]. apply wp_ret. split; [done|]. apply rep_same.
Qed.

Lemma refines_ls : refines VLs.
Proof.
  unfold run_vop. rewrite (root_inode_at rep_root_range). apply wp_bind. eapply wp_mono.
  - unfold Inode_ls. eapply (wp_read_node efs N Hgeo); [apply Hr|apply Hr|].
    rewrite (dir_count efs N _ _ _ _ rep_dir_node). replace (len (a_dir a)) with (len (a_dir a) - Z.of_nat 0) by lia.
    change 0 with (Z.of_nat 0). apply (ls_loop_ok efs N Hgeo 0 bl used nd0); [apply rep_dir_node|apply rep_root_range|lia].
  - intros r bl' [-> ->]. rewrite drop_0. apply wp_ret. split; [done|]. apply rep_same.
Qed.

Lemma refines_links id : is_Some (a_files a !! id) → refines (VLinks id).
Proof.
  intros [c Hc]. destruct (rep_file _ _ Hc) as (nd & _ & _ & _ & _ & Hid & _).
  unfold run_vop. rewrite (root_inode_at rep_root_range). apply wp_bind. eapply wp_mono.
  - unfold Inode_get_link_num. eapply (wp_read_node efs N Hgeo); [apply Hr|apply Hr|].
    rewrite (dir_count efs N _ _ _ _ rep_dir_node). replace (len (a_dir a)) with (len (a_dir a) - Z.of_nat 0) by lia.
    pose proof (dir_size efs N _ _ _ _ rep_dir_node) as Hs. pose proof (tree_size_range efs N _ _ _ (dn_tree _ _ _ _ _ _ rep_dir_node)).
    change (seqZ 0) with (seqZ (Z.of_nat 0)). apply (link_num_loop_ok efs N Hgeo 0 bl used nd0 (a_dir a) id 0%nat);
      [apply rep_dir_node|apply rep_root_range|lia|done|done| |lia|lia].
    apply Forall_forall. intros e He. destruct (fr_closed _ _ _ _ _ _ Hr e He) as [ce Hce]. by apply rep_file in Hce as (?&?&?&?&?&?&?).
  - intros r bl' [-> ->]. rewrite drop_0. apply wp_ret. split; [done|]. apply rep_same.
Qed.

Lemma refines_read id offset buf :
  is_Some (a_files a !! id) → 0 ≤ offset → offset + len buf < 2 ^ 63 → refines (VRead id offset buf).
Proof.
  intros [c Hc] Ho Hl. destruct (rep_file _ _ Hc) as (nd & Hnd & Ht & Hnc & Hi & Hid & Hs).
  unfold run_vop. apply wp_bind. eapply wp_mono; [by apply (read_node efs N Hgeo id nd bl nodes used offset buf); [apply Hr|..]|].
  intros r bl' [-> ->]. apply wp_ret. rewrite Hs, Hnc. cbn. rewrite Hc. split; [done|]. apply rep_same.
Qed.

Lemma refines_write id offset buf : is_Some (a_files a !! id) → Forall is_byte buf → 0 < len buf → 0 ≤ offset →
  offset + len buf ≤ MAX_BLOCKS * 512 → u + vop_cost (VWrite id offset buf) a ≤ N → refines (VWrite id offset buf).
Proof.
  intros Hex Hb Hl Ho Hm Hroom. pose proof Hex as [c Hc]. destruct (rep_file _ _ Hc) as (nd & Hnd & Ht & Hnc & Hi & Hid & Hs).
  cbn [vop_cost abs_vop fst snd] in *. rewrite Hc in *. change (default [] (Some c)) with c in *. rewrite (fr_u _ _ _ _ _ _ Hr) in *. unfold run_vop. apply wp_bind. eapply wp_mono.
  - apply (write_node efs N Hgeo id nd bl nodes used offset buf); try done; [apply Hr|]. unfold grown_size. by rewrite Hs.
  - intros r bl' (-> & used1 & nd1 & Hok & Hoth & Ht1 & Hsz & Hcont). apply wp_ret. split; [done|].
    unfold grown_size in Hsz. rewrite Hs in Hsz. rewrite <- Hsz.
    apply (rep_update_file bl' id nd1); try done; [congruence|]. rewrite <- Hnc. auto.
Qed.

Lemma refines_clear id : is_Some (a_files a !! id) → refines (VClear id).
Proof.
  intros Hex. pose proof Hex as [c Hc]. destruct (rep_file _ _ Hc) as (nd & Hnd & Ht & Hnc & Hi & Hid & Hs).
  cbn [vop_cost abs_vop fst snd]. rewrite Hc. change (default [] (Some c)) with c. rewrite (fr_u _ _ _ _ _ _ Hr). unfold run_vop. apply wp_bind. eapply wp_mono.
  - apply (clear_node efs N Hgeo id nd bl nodes used); [apply Hr|done].
  - intros r bl' (nd1 & Hok & Hoth & Ht1 & Hcont). apply wp_ret. split; [done|].
    rewrite <- Hs, <- (rep_freed id nd) by done. apply rep_update_file with (nd1 := nd1); try done; congruence.
Qed.

Lemma refines_unlink name : refines (VUnlink name).
Proof.
  unfold run_vop. rewrite (root_inode_at rep_root_range). cbn [vop_cost abs_vop fst snd]. destruct (dir_find name (a_dir a)) as [id|] eqn:Hf.
  - apply wp_bind. eapply wp_mono; [eapply (unlink_ok efs N Hgeo nd0); [apply Hr|apply Hr|apply rep_dir_node|eauto]|].
    intros r bl' (-> & nd1 & Hok & Hoth & Ht1 & Hcont). apply wp_ret. split; [done|]. rewrite Z.add_0_r, (fr_u _ _ _ _ _ _ Hr).
    apply rep_update_dir with (nd1 := nd1); try done; [apply dir_remove_ok, Hr|].
    intros e He. apply (fr_closed _ _ _ _ _ _ Hr). by apply (dir_remove_elem name).
  - unfold Inode_unlink. apply wp_bind. apply wp_bind. eapply wp_mono; [eapply (find_op_ok efs N Hgeo nd0); [apply Hr|apply Hr|apply rep_dir_node]|].
    intros r bl' [-> ->]. rewrite Hf. apply wp_ret, wp_ret. split; [done|]. apply rep_same.
Qed.

Lemma rep_link_dir bl' nd1 used1 new id :
  is_Some (a_files a !! id) → name_ok new → fits 32 id →
  fs_ok efs N bl' (<[0 := nd1]> nodes) used1 → others_same bl nodes 0 bl' →
  di_type (nd_inode nd1) = Directory → node_content bl' nd1 = dir_bytes (a_dir a ++ [(new, id)]) →
  fs_rep bl' (Z.of_nat (size used1)) (MkAfs (a_dir a ++ [(new, id)]) (a_files a)).
Proof.
  intros Hid Hn Hfit Hok Hoth Ht Hc. apply rep_update_dir with (nd1 := nd1); try done.
  - apply Forall_app. split; [apply Hr|]. apply Forall_singleton. done.
  - intros e [He| ->%list_elem_of_singleton]%elem_of_app; [by apply (fr_closed _ _ _ _ _ _ Hr)|done].
Qed.

Lemma refines_link old new :
  (is_Some (dir_find old (a_dir a)) → name_ok new ∧ 32 * (len (a_dir a) + 1) ≤ MAX_BLOCKS * 512) →
  u + vop_cost (VLink old new) a ≤ N → refines (VLink old new).
Proof.
  intros Hpre Hroom. unfold run_vop. rewrite (root_inode_at rep_root_range). unfold Inode_link. apply wp_bind, wp_bind.
  eapply wp_mono; [eapply (find_op_ok efs N Hgeo nd0); [apply Hr|apply Hr|apply rep_dir_node]|].
  intros r bl' [-> ->]. cbn [vop_cost abs_vop fst snd] in *. destruct (dir_find old (a_dir a)) as [id|] eqn:Hf.
  - destruct (rep_find_file old id Hf) as (Hid & Hrange & Hfit). destruct Hpre as [Hname Hmax]; [done|].
    rewrite (inode_at_pos efs N Hgeo id) by done. rewrite (fr_u _ _ _ _ _ _ Hr) in *. apply wp_bind. eapply wp_mono.
    + apply (append_ok efs N Hgeo nd0 bl nodes used (a_dir a) new id); try done; [apply Hr|apply Hr|apply rep_dir_node].
    + intros ? bl' (used1 & nd1 & Hok & Hoth & Ht1 & Hcont & Hsz). apply wp_ret, wp_ret. split; [done|].
      unfold dir_growth. rewrite <- Hsz. by apply rep_link_dir with (nd1 := nd1).
  - apply wp_ret, wp_ret. split; [done|]. apply rep_same.
Qed.

(** Creating a file. *)
Lemma fresh_from_ok files n : ∀ i, 0 < i → fresh_from files n i ≠ 0 →
  i ≤ fresh_from files n i < i + Z.of_nat n ∧ files !! fresh_from files n i = None ∧
  ∀ j, i ≤ j < fresh_from files n i → is_Some (files !! j).
Proof.
  induction n as [|n IH]; intros i Hi; cbn [fresh_from]; [done|]. destruct (files !! i) as [c|] eqn:Hf; intros Hne.
  - destruct (IH (i + 1)) as (Hrg & Hnone & Hlow); [lia|done|]. split; [lia|]. split; [done|]. intros j Hj.
    destruct (decide (j = i)) as [->|]; [by rewrite Hf|]. apply Hlow. lia.
  - split; [lia|]. split; [done|]. lia.
Qed.

Lemma rep_fresh : fresh a ≠ 0 → next_inode efs nodes (fresh a) ∧ a_files a !! fresh a = None.
Proof.
  intros Hne. destruct (fresh_from_ok _ _ _ Z.lt_0_1 Hne) as (Hrange & Hnone & Hlow). split; [|done].
  fold (fresh a) in *. split; [unfold inode_range; lia|]. split.
  - apply eq_None_not_Some. rewrite <- rep_files_node by done. by rewrite Hnone; intros [].
  - intros j Hj. destruct (decide (j = 0)) as [->|Hj0]; [by rewrite (fr_root _ _ _ _ _ _ Hr)|].
    apply rep_files_node; [done|]. apply Hlow. lia.
Qed.

Lemma rep_new_file bl' nd1 used1 di name :
  fresh a ≠ 0 → name_ok name → di_size di = 0 → di_type di = File →
  fs_ok efs N bl' (<[0 := nd1]> (<[fresh a := MkNode di [] []]> nodes)) used1 → others_same bl nodes 0 bl' →
  di_type (nd_inode nd1) = Directory → node_content bl' nd1 = dir_bytes (a_dir a ++ [(name, fresh a)]) →
  fs_rep bl' (Z.of_nat (size used1)) (MkAfs (a_dir a ++ [(name, fresh a)]) (<[fresh a := []]> (a_files a))).
Proof.
  intros Hne Hname Hsz Hft Hok Hoth Ht Hc. destruct (rep_fresh Hne) as [(Hir & Hnone & _) Hfn].
  eexists _, _, nd1. split; cbn; try done.
  - by rewrite lookup_insert_eq.
  - apply Forall_app. split; [apply Hr|]. apply Forall_singleton. split; [done|]. cbn. destruct Hgeo.
    unfold inode_range in Hir. unfold fits. lia.
  - intros j Hj. rewrite lookup_insert_ne by done. destruct (decide (j = fresh a)) as [->|Hjf].
    + rewrite !lookup_insert_eq. cbn. rewrite Hft. unfold node_content. cbn. by rewrite Hsz.
    + rewrite !lookup_insert_ne by done. rewrite <- (fr_files _ _ _ _ _ _ Hr j Hj).
      destruct (nodes !! j) as [ndj|] eqn:Hndj; [|done]. cbn. by rewrite (others_content bl' 0 j).
  - rewrite lookup_insert_ne by done. apply Hr.
  - intros e [He| ->%list_elem_of_singleton]%elem_of_app; apply lookup_insert_is_Some'; [|by left].
    right. by apply (fr_closed _ _ _ _ _ _ Hr).
Qed.

Lemma refines_create name :
  (dir_find name (a_dir a) = None → name_ok name ∧ fresh a ≠ 0 ∧ 32 * (len (a_dir a) + 1) ≤ MAX_BLOCKS * 512) →
  u + vop_cost (VCreate name) a ≤ N → refines (VCreate name).
Proof.
  intros Hpre Hroom. unfold run_vop. rewrite (root_inode_at rep_root_range).
  cbn [vop_cost abs_vop] in *. destruct (dir_find name (a_dir a)) as [id|] eqn:Hf.
  - unfold Inode_create. apply wp_bind, wp_bind. eapply wp_mono; [eapply (find_op_ok efs N Hgeo nd0); [apply Hr|apply Hr|apply rep_dir_node]|].
    intros r bl' [-> ->]. rewrite Hf, decide_True by done. apply wp_ret, wp_ret. split; [done|]. apply rep_same.
  - destruct Hpre as (Hname & Hne & Hmax); [done|]. rewrite (fr_u _ _ _ _ _ _ Hr) in *. apply wp_bind. eapply wp_mono.
    + apply (create_ok efs N Hgeo nd0 bl nodes used (a_dir a) name (fresh a)); try done;
        [apply Hr|apply Hr|apply rep_dir_node|by apply rep_fresh].
    + intros r bl' (-> & used1 & nd1 & di & Hok & Hsz & Hft & Hoth & Ht1 & Hcont & Hu). apply wp_ret. split; [done|].
      cbn [snd]. unfold dir_growth. rewrite <- Hu. by apply rep_new_file with (nd1 := nd1) (di := di).
Qed.

Lemma refines_vop op : vop_ok u op a → refines op.
Proof.
  intros [Hroom Hpre]. destruct op.
  - apply refines_find.
  - apply refines_ls.
  - by apply refines_create.
  - by apply refines_link.
  - apply refines_unlink.
  - by apply refines_links.
  - by apply refines_read; apply Hpre.
  - by apply refines_write; try apply Hpre.
  - by apply refines_clear.
Qed.

End Nodes.

(** * Sequences of operations *)

Fixpoint abs_vops (ops : list vop) a : list vres * afs :=
  match ops with
  | [] => ([], a)
  | op :: rest =>
      let '(r, a1) := abs_vop op a in
      let '(rs, a2) := abs_vops rest a1 in
      (r :: rs, a2)
  end.

Fixpoint run_vops (ops : list vop) : prog (list vres) :=
  match ops with
  | [] => mret []
  | op :: rest => r ← run_vop op; rs ← run_vops rest; mret (r :: rs)
  end.

Fixpoint vops_cost (ops : list vop) a : Z :=
  match ops with
  | [] => 0
  | op :: rest => vop_cost op a + vops_cost rest (abs_vop op a).2
  end.

Fixpoint vops_ok (u : Z) (ops : list vop) a : Prop :=
  match ops with
  | [] => True
  | op :: rest => vop_ok u op a ∧ vops_ok (u + vop_cost op a) rest (abs_vop op a).2
  end.

#[global] Instance vops_ok_dec u ops a : Decision (vops_ok u ops a).
Proof. revert u a. induction ops as [|op ops IH]; intros u a; cbn [vops_ok]; apply _. Defined.

(** Whether everything is on the device after an operation, if it was before ([b]): some
    operations end in [block_cache_sync_all], some only read. *)
Definition syncs (b : bool) op a : bool :=
  match op with
  | VCreate name => bool_decide (dir_find name (a_dir a) = None)
  | VWrite _ _ _ | VClear _ => true
  | VFind _ | VLs | VLinks _ | VRead _ _ _ => b
  | VLink _ _ | VUnlink _ => false
  end.

Fixpoint vops_synced (b : bool) (ops : list vop) a : bool :=
  match ops with
  | [] => b
  | op :: rest => vops_synced (syncs b op a) rest (abs_vop op a).2
  end.

Lemma rep_vop bl u a op : fs_rep bl u a → vop_ok u op a →
  wp ∅ (run_vop op) bl (λ r bl', r = (abs_vop op a).1 ∧ fs_rep bl' (u + vop_cost op a) (abs_vop op a).2).
Proof. intros (nodes & used & nd0 & Hr) Hok. by eapply refines_vop. Qed.

Lemma abs_vops_cons op ops a :
  abs_vops (op :: ops) a = ((abs_vop op a).1 :: (abs_vops ops (abs_vop op a).2).1, (abs_vops ops (abs_vop op a).2).2).
Proof. cbn [abs_vops]. destruct (abs_vop op a) as [r a1]. cbn [fst snd]. by destruct (abs_vops ops a1). Qed.

Lemma rep_vops ops : ∀ bl u a, fs_rep bl u a → vops_ok u ops a →
  wp ∅ (run_vops ops) bl (λ rs bl', rs = (abs_vops ops a).1 ∧ fs_rep bl' (u + vops_cost ops a) (abs_vops ops a).2).
Proof.
  induction ops as [|op ops IH]; intros bl u a Hr Hok; cbn [run_vops vops_cost vops_ok] in *.
  - apply wp_ret. split; [done|]. by rewrite Z.add_0_r.
  - destruct Hok as [Hop Hok]. apply wp_bind. eapply wp_mono; [by apply rep_vop|]. intros r bl1 [-> Hr1].
    apply wp_bind. eapply wp_mono; [by apply IH|]. intros rs bl2 [-> Hr2]. apply wp_ret.
    rewrite abs_vops_cons, Z.add_assoc. done.
Qed.

(** ** What reaches the device *)

Lemma modify_synced {A B C} (p : prog A) (g : A → B) (h : B → C) f b x f' :
  run_flat (r ← (v ← p; SyncAll (mret (g v))); mret (h r)) f = Ok (x, f') →
  flat_synced (r ← (v ← p; SyncAll (mret (g v))); mret (h r)) f b = true.
Proof.
  intros ((y & f1) & H1 & _)%run_flat_bind_Ok. rewrite (flat_synced_bind _ _ _ _ y f1 H1).
  apply run_flat_bind_Ok in H1 as ((z & f2) & H2 & _). by rewrite (flat_synced_bind _ _ _ _ z f2 H2).
Qed.

Lemma vop_synced bl u a op b : fs_rep bl u a → vop_ok u op a → syncs b op a = true →
  flat_synced (run_vop op) (MkFlat bl ∅) b = true.
Proof.
  intros Hr Hok Hs. destruct (rep_vop bl u a op Hr Hok) as (x & bl' & Hrun & _).
  destruct op; cbn [run_vop syncs] in *; try discriminate Hs;
    try (eapply no_store_synced; [|exact Hrun|exact Hs]; only_reads).
  - apply bool_decide_eq_true in Hs. destruct Hr as (nodes & used & nd0 & Hr).
    assert (root_inode_at' := root_inode_at (rep_root_range _ _ _ _ _ _ Hr)). rewrite root_inode_at' in *.
    apply run_flat_bind_Ok in Hrun as ((y & f1) & H1 & _). rewrite (flat_synced_bind _ _ _ _ y f1 H1).
    destruct (find_op_ok efs N Hgeo nd0 bl nodes used (a_dir a) name) as (r & bl1 & Hfind & -> & ->);
      [apply Hr|apply Hr|by eapply rep_dir_node|].
    unfold Inode_create in *. rewrite (flat_synced_bind _ _ _ _ _ _ Hfind). rewrite run_flat_bind, Hfind in H1.
    rewrite Hs in *. rewrite decide_False in * by tauto.
    synced_step H1. destruct (EasyFileSystem_get_disk_inode_pos efs _) as [b0 o0]. synced_step H1. by synced_step H1.
  - by eapply modify_synced.
  - by eapply (modify_synced _ (λ _, tt) (λ _, RUnit)).
Qed.

Lemma vops_synced_flat ops : ∀ bl u a b0 b, fs_rep bl u a → vops_ok u ops a → (b0 = true → b = true) →
  vops_synced b0 ops a = true → flat_synced (run_vops ops) (MkFlat bl ∅) b = true.
Proof.
  induction ops as [|op ops IH]; intros bl u a b0 b Hr Hok Hb Hs; cbn [run_vops vops_ok vops_synced] in *; [by apply Hb|].
  destruct Hok as [Hop Hok]. destruct (rep_vop bl u a op Hr Hop) as (r & bl1 & H1 & -> & Hr1).
  rewrite (flat_synced_bind _ _ _ _ _ _ H1). destruct (rep_vops ops bl1 _ _ Hr1 Hok) as (rs & bl2 & H2 & -> & Hr2).
  rewrite (flat_synced_bind _ _ _ _ _ _ H2). eapply (IH bl1); [done|done| |done].
  intros Hsy. eapply vop_synced; [done..|]. revert Hsy. destruct op, b0; cbn [syncs]; auto; intros; by rewrite Hb.
Qed.

(** ** Opening *)

Lemma rep_open bl u a : fs_rep bl u a → wp ∅ EasyFileSystem_open bl (λ r bl', r = efs ∧ bl' = bl).
Proof.
  intros (nodes & used & nd0 & Hr). destruct (ok_super _ _ _ _ _ (fr_ok _ _ _ _ _ _ Hr)) as (d & sb & Hd & [Hl _] & Hdec & Hv & He).
  unfold EasyFileSystem_open. apply (wp_read SuperBlock_repr) with (d := d) (x := sb); [|done..|].
  - split; [set_solver|]. split; [rewrite size_empty; unfold BLOCK_CACHE_SIZE; lia|done].
  - apply wp_assert; [done|]. by apply wp_ret.
Qed.
End FsModel.
