(* ===== verification/FsBoot.v ===== *)
(** Making and opening a file system ([easy-fs/src/efs.rs]): [EasyFileSystem::create] lays
    out an empty file system on a device, and what was written and synced is there after
    the cache is lost and [EasyFileSystem::open] reads the superblock again. *)

From S2P Require Import Prelude BlockDev BlockCache BlockAccess Bitmap Layout InodeTree InodeData Efs Vfs FsRep VfsSpec FsModel.

Ltac Zify.zify_post_hook ::= Z.to_euclidean_division_equations.

(** * The layout *)

Section Create.
Context (T IB : Z) (HIB : 1 ≤ IB) (HT : 1 + 1025 * IB ≤ T ≤ 2 ^ 30).

(** Blocks after the inode area, of the data bitmap and of the data area. *)
Definition mk_total : Z := T - 1 - 1025 * IB.
Definition mk_bitmap : Z := (mk_total + 4096) / 4097.
Definition mk_data : Z := mk_total - mk_bitmap.
Definition mk_efs : EasyFileSystem :=
  MkEfs (MkBitmap 1 IB) (MkBitmap (1 + 1025 * IB) mk_bitmap) (1 + IB) (1 + 1025 * IB + mk_bitmap).

Lemma efs_layout_eq : efs_layout T IB = (mk_efs, 1024 * IB, mk_bitmap, mk_data).
Proof.
  unfold efs_layout, Bitmap_maximum, Bitmap_new, inode_size, BLOCK_BITS, BLOCK_SZ. cbn [bitmap_blocks].
  change (Z.of_nat (size_of DiskInode_repr)) with 128.
  assert (mul_w 64 IB (512 * 8) = 4096 * IB) as -> by (rewrite mul_w_small; unfold fits; lia).
  assert (wrap 32 (sub_w 64 (add_w 64 (mul_w 64 (4096 * IB) 128) 512) 1 / 512) = 1024 * IB) as ->.
  { rewrite mul_w_small by (unfold fits; lia). rewrite add_w_small by (unfold fits; lia).
    rewrite sub_w_small by (unfold fits; lia). rewrite wrap_small by (unfold fits; lia). lia. }
  assert (add_w 32 IB (1024 * IB) = 1025 * IB) as -> by (rewrite add_w_small; unfold fits; lia).
  assert (sub_w 32 (sub_w 32 T 1) (1025 * IB) = mk_total) as ->.
  { unfold mk_total. rewrite (sub_w_small _ T) by (unfold fits; lia). rewrite sub_w_small by (unfold fits; lia). done. }
  assert (0 ≤ mk_total ≤ 2 ^ 30) as Ht by (unfold mk_total; lia).
  assert ((mk_total + 4096)%u32 / 4097 = mk_bitmap) as -> by (rewrite add_w_small; [done|unfold fits; lia]).
  assert (0 ≤ mk_bitmap ≤ mk_total) as Hb by (unfold mk_bitmap; lia).
  assert ((mk_total - mk_bitmap)%u32 = mk_data) as -> by (rewrite sub_w_small; [done|unfold fits; lia]).
  assert ((1 + IB)%u32 = 1 + IB) as -> by (rewrite add_w_small; [done|unfold fits; lia]).
  assert (add_w 32 (1 + IB) (1024 * IB) = 1 + 1025 * IB) as ->.
  { rewrite add_w_small by (unfold fits; lia). lia. }
  rewrite (add_w_small _ 1 (1025 * IB)) by (unfold fits; lia). rewrite add_w_small by (unfold fits, mk_total in *; lia). done.
Qed.

Lemma mk_efs_wf : efs_wf mk_efs mk_data.
Proof.
  unfold mk_efs, mk_data. assert (0 ≤ mk_total ≤ 2 ^ 30) by (unfold mk_total; lia).
  assert (mk_total ≤ 4097 * mk_bitmap ∧ 0 ≤ mk_bitmap ≤ mk_total) by (unfold mk_bitmap; lia).
  split; cbn; unfold mk_total in *; lia.
Qed.

Lemma mk_end : efs_data_area_start_block mk_efs + mk_data = T.
Proof. unfold mk_efs, mk_data, mk_total. cbn. lia. Qed.

(** * Creating *)

Lemma clear_blocks_ok ids : ∀ bl, (∀ b, b ∈ ids → ∃ d, bl !! b = Some d ∧ length d = 512%nat) →
  wp ∅ (clear_blocks ids) bl (λ _ bl', (∀ b, b ∈ ids → bl' !! b = Some zero_block) ∧ same_outside (.∈ ids) bl bl').
Proof.
  induction ids as [|i ids IH]; intros bl Hp; cbn [clear_blocks].
  - apply wp_ret. split; [intros b Hb; by apply not_elem_of_nil in Hb|done].
  - destruct (Hp i) as (d & Hd & Hl); [set_solver|]. apply wp_bind. apply (wp_zero _ _ _ d); [|done|].
    { split; [set_solver|]. split; [rewrite size_empty; unfold BLOCK_CACHE_SIZE; lia|done]. }
    eapply wp_mono; [apply IH|].
    + intros b Hb. rewrite lookup_insert. case_decide; [by eexists|]. apply Hp. set_solver.
    + intros [] bl' [Hz Ho]. split.
      * intros b Hb. destruct (decide (b ∈ ids)) as [|Hn]; [by apply Hz|]. rewrite Ho by done.
        assert (b = i) as -> by set_solver. by rewrite lookup_insert_eq.
      * intros b Hb. rewrite Ho by set_solver. rewrite lookup_insert_ne; [done|]. set_solver.
Qed.

Lemma zero_block_bit j : 0 ≤ j < 4096 → block_bit zero_block j = false.
Proof.
  intros Hj. unfold block_bit, wbit. replace (words 8 64 zero_block) with (replicate 64 0) by (vm_compute; reflexivity).
  rewrite lookup_replicate_2 by lia. apply Z.testbit_0_l.
Qed.

Lemma zero_bitmap bm bl : (∀ b, in_bitmap bm b → bl !! b = Some zero_block) → bitmap_is bm bl ∅.
Proof.
  intros Hz. split; [set_solver|]. intros k Hk. exists zero_block. split; [apply Hz; unfold in_bitmap; lia|].
  split; [apply zero_block_wf|]. intros j Hj. rewrite zero_block_bit by done. set_solver.
Qed.

Lemma zero_slots : slots_ok zero_block.
Proof.
  split; [apply zero_block_wf|]. intros k Hk. assert (k = 0 ∨ k = 1 ∨ k = 2 ∨ k = 3) as [->|[->|[->| ->]]] by lia;
    (eexists; vm_compute; reflexivity).
Qed.

(** A blank disk with a superblock holds no inode. *)
Lemma blank_ok bl : (∀ b, 1 ≤ b < T → bl !! b = Some zero_block) → super_ok mk_efs bl → fs_ok mk_efs mk_data bl ∅ ∅.
Proof.
  intros Hz Hs. pose proof mk_efs_wf as Hgeo. pose proof mk_end as He. destruct Hgeo. split.
  - rewrite dom_empty_L. apply zero_bitmap. intros b Hb. apply Hz. unfold in_bitmap in Hb. lia.
  - apply zero_bitmap. intros b Hb. apply Hz. unfold in_bitmap in Hb. lia.
  - set_solver.
  - intros b Hb. exists zero_block. split; [apply Hz; unfold in_iarea in Hb; lia|apply zero_slots].
  - intros b Hb. exists zero_block. split; [apply Hz; unfold in_data in Hb; lia|apply zero_block_wf].
  - intros n Hn _. apply Hz. lia.
  - intros i nd Hi. by rewrite lookup_empty in Hi.
  - intros i j ndi ndj b Hi. by rewrite lookup_empty in Hi.
  - done.
Qed.

Abbreviation mk_super := (SuperBlock_initialize T IB (1024 * IB) mk_bitmap mk_data).

Lemma mk_super_valid : repr_valid SuperBlock_repr mk_super.
Proof.
  assert (0 ≤ mk_total ≤ 2 ^ 30) by (unfold mk_total; lia). assert (0 ≤ mk_bitmap ≤ mk_total) by (unfold mk_bitmap; lia).
  cbn [repr_valid SuperBlock_repr]. unfold SuperBlock_words. cbn. repeat (apply Forall_cons; split; [unfold fits, mk_data, EFS_MAGIC in *; lia|]). by apply Forall_nil.
Qed.

Lemma mk_super_efs : efs_of_super mk_super = mk_efs.
Proof.
  unfold efs_of_super, mk_efs, Bitmap_new. cbn.
  assert (0 ≤ mk_total ≤ 2 ^ 30) by (unfold mk_total; lia). assert (0 ≤ mk_bitmap ≤ mk_total) by (unfold mk_bitmap; lia).
  rewrite (add_w_small 32 IB (1024 * IB)) by (unfold fits; lia). replace (IB + 1024 * IB) with (1025 * IB) by lia.
  rewrite (add_w_small _ 1 (1025 * IB)) by (unfold fits; lia). rewrite (add_w_small _ 1 IB) by (unfold fits; lia).
  rewrite add_w_small by (unfold fits, mk_total in *; lia). done.
Qed.

Lemma mk_super_ok bl d : block_wf d →
  super_ok mk_efs (<[0 := splice d 0 (encode SuperBlock_repr mk_super (slice d 0 24))]> bl).
Proof.
  intros Hd. pose proof mk_super_valid as Hv. eexists _, mk_super. split; [apply lookup_insert_eq|].
  split; [by apply (splice_block_wf SuperBlock_repr)|].
  split; [apply (decode_splice_eq SuperBlock_repr); [apply Hd|done..]|]. split; [done|apply mk_super_efs].
Qed.

Definition empty_fs : afs := MkAfs [] ∅.

Lemma efs_create_ok bl : (∀ b, 0 ≤ b < T → ∃ d, bl !! b = Some d ∧ length d = 512%nat) →
  wp ∅ (EasyFileSystem_create T IB) bl (λ r bl', r = mk_efs ∧ fs_rep mk_efs mk_data bl' 0 empty_fs).
Proof.
  intros Hp. pose proof mk_efs_wf as Hgeo. unfold EasyFileSystem_create. rewrite efs_layout_eq.
  apply wp_bind. eapply wp_mono; [apply clear_blocks_ok|].
  { intros b Hb%elem_of_seqZ. apply Hp. lia. }
  intros [] bl0 [Hz _]. assert (∀ b, 0 ≤ b < T → bl0 !! b = Some zero_block) as Hz0.
  { intros b Hb. apply Hz, elem_of_seqZ. lia. }
  apply wp_bind. destruct (decode SuperBlock_repr (slice zero_block 0 24)) as [sb0|] eqn:Hsb0; [|vm_compute in Hsb0; done].
  apply (wp_modify SuperBlock_repr) with (d := zero_block) (x := sb0); [|done..|].
  { split; [set_solver|]. split; [rewrite size_empty; unfold BLOCK_CACHE_SIZE; lia|]. apply Hz0. lia. }
  apply wp_ret. cbn [fst snd]. split; [apply mk_super_valid|]. change (Z.of_nat (size_of SuperBlock_repr)) with 24.
  set (bl1 := <[0 := _]> bl0). assert (fs_ok mk_efs mk_data bl1 ∅ ∅) as Hok.
  { apply blank_ok; [|apply mk_super_ok, zero_block_wf]. intros b Hb. unfold bl1. rewrite lookup_insert_ne by lia. apply Hz0. lia. }
  assert (inode_range mk_efs 0) as Hir by (unfold inode_range, mk_efs; cbn; lia).
  apply wp_bind. eapply wp_mono; [apply (alloc_inode_ok mk_efs mk_data Hgeo bl1 ∅ ∅ 0 Hok)|].
  { split; [done|]. split; [done|lia]. }
  intros r bl2 (-> & Hbm & Ho). apply wp_assert; [done|]. rewrite (inode_pos mk_efs mk_data Hgeo 0 Hir).
  apply wp_bind. eapply wp_mono; [by apply (init_inode_ok mk_efs mk_data Hgeo bl1 ∅ ∅ 0)|].
  intros _ bl3 (di & Hsz & Hty & Hok3 & _). apply wp_sync, wp_ret. split; [done|].
  eexists _, ∅, _. split; [done|done|by apply lookup_insert_eq|done| |by apply Forall_nil| |done|].
  - unfold node_content. cbn. by rewrite Hsz.
  - intros i Hi. by rewrite lookup_insert_ne.
  - intros e He. by apply not_elem_of_nil in He.
Qed.

Lemma efs_create_synced f b r : run_flat (EasyFileSystem_create T IB) f = Ok r →
  flat_synced (EasyFileSystem_create T IB) f b = true.
Proof.
  unfold EasyFileSystem_create. rewrite efs_layout_eq. intros H. do 4 synced_step H.
  destruct (EasyFileSystem_get_disk_inode_pos mk_efs 0). by synced_step H.
Qed.
End Create.

(** * Properties *)

Section Properties.
Context {D : Type} `{BlockDevice D, !BlockDeviceLaws D}.

(** C3: the virtual file system refines the abstract one.  Through the block cache, a
    sequence of [find], [ls], [create], [link], [unlink], [get_link_num], [read_at],
    [write_at] and [clear] on a disk that represents an abstract file system returns
    exactly the abstract results, leaves a disk that represents the abstract outcome,
    and takes exactly the computed number of data blocks; after [create], [write_at] and
    [clear] the device itself holds that disk. *)
Theorem vfs_refines_model (efs : EasyFileSystem) (N : Z) (m : BlockCacheManager D) (bl : gmap Z (list Z))
    (u : Z) (a : afs) (ops : list vop)
    (Hgeo : efs_wf efs N) (Hm : cache_rel m (MkFlat bl ∅)) (Hrep : fs_rep efs N bl u a)
    (Hops : vops_ok efs N u ops a) :
  ∃ m' bl', run_cached (run_vops efs ops) m = Ok ((abs_vops efs ops a).1, m') ∧
    cache_rel m' (MkFlat bl' ∅) ∧ fs_rep efs N bl' (u + vops_cost efs ops a) (abs_vops efs ops a).2 ∧
    (vops_synced efs false ops a = true → dev_blocks (bm_dev m') = bl').
Proof.
  destruct (rep_vops efs N Hgeo ops bl u a Hrep Hops) as (rs & bl' & Hrun & -> & Hrep').
  destruct (vops_synced efs false ops a) eqn:Hs.
  - pose proof (vops_synced_flat efs N Hgeo ops bl u a false false Hrep Hops ltac:(done) Hs) as Hf.
    destruct (run_synced _ m _ false _ _ Hm ltac:(done) Hrun Hf) as (m' & ? & ? & _ & ?). by exists m', bl'.
  - pose proof (run_refines (run_vops efs ops) m _ Hm) as Hr. rewrite Hrun in Hr.
    destruct Hr as (m' & ? & ?). by exists m', bl'.
Qed.

(** C4: files survive a restart.  On any device with at least the blocks asked for,
    [EasyFileSystem::create] followed by operations of which the last one syncs leaves a
    device from which, with a new cache, [EasyFileSystem::open] recovers the same file
    system: later operations see every file as it was left. *)
Theorem files_survive_restart (T IB : Z) (dev : D) (ops1 ops2 : list vop)
    (HIB : 1 ≤ IB) (HT : 1 + 1025 * IB ≤ T ≤ 2 ^ 30)
    (Hdev : ∀ b, 0 ≤ b < T → is_Some (dev_blocks dev !! b))
    (Hops1 : vops_ok (mk_efs T IB) (mk_data T IB) 0 ops1 empty_fs)
    (Hsync : vops_synced (mk_efs T IB) true ops1 empty_fs = true)
    (Hops2 : vops_ok (mk_efs T IB) (mk_data T IB) (vops_cost (mk_efs T IB) ops1 empty_fs) ops2
               (abs_vops (mk_efs T IB) ops1 empty_fs).2) :
  ∃ m1 m2 : BlockCacheManager D,
    run_cached (efs ← EasyFileSystem_create T IB; run_vops efs ops1) (BlockCacheManager_new dev) =
      Ok ((abs_vops (mk_efs T IB) ops1 empty_fs).1, m1) ∧
    run_cached (efs ← EasyFileSystem_open; run_vops efs ops2) (BlockCacheManager_new (bm_dev m1)) =
      Ok ((abs_vops (mk_efs T IB) ops2 (abs_vops (mk_efs T IB) ops1 empty_fs).2).1, m2).
Proof.
  pose proof (mk_efs_wf T IB HIB HT) as Hgeo.
  destruct (efs_create_ok T IB HIB HT (dev_blocks dev)) as (efs & bl0 & Hcr & -> & Hrep0).
  { intros b [d Hd]%Hdev. exists d. split; [done|]. by apply (dev_blocks_block dev b). }
  destruct (rep_vops _ _ Hgeo ops1 bl0 0 _ Hrep0 Hops1) as (rs & bl1 & Hrun1 & -> & Hrep1).
  assert (Hrun : run_flat (efs ← EasyFileSystem_create T IB; run_vops efs ops1) (MkFlat (dev_blocks dev) ∅) =
            Ok ((abs_vops (mk_efs T IB) ops1 empty_fs).1, MkFlat bl1 ∅)) by (by rewrite run_flat_bind, Hcr).
  destruct (run_synced _ (BlockCacheManager_new dev) _ false _ _ (cache_rel_init dev) ltac:(done) Hrun) as (m1 & Hm1 & _ & _ & Hd1).
  { rewrite (flat_synced_bind _ _ _ _ _ _ Hcr), (efs_create_synced T IB HIB HT _ _ _ Hcr).
    by apply (vops_synced_flat _ _ Hgeo ops1 bl0 0 empty_fs true). }
  exists m1. cbn [fl_blocks] in Hd1. rewrite Z.add_0_l in Hrep1.
  destruct (rep_open _ _ Hgeo bl1 _ _ Hrep1) as (efs & bl2 & Hop & -> & ->).
  destruct (rep_vops _ _ Hgeo ops2 bl1 _ _ Hrep1 Hops2) as (rs2 & bl3 & Hrun2 & -> & _).
  pose proof (run_refines (efs ← EasyFileSystem_open; run_vops efs ops2) _ _ (cache_rel_init (bm_dev m1))) as Hr.
  rewrite Hd1, run_flat_bind, Hop, Hrun2 in Hr. destruct Hr as (m2 & Hm2 & _). by exists m2.
Qed.
End Properties.

(** * Witnesses

    A blank host file of 1040 blocks with one block of inode bitmap; a file ["a"] is
    written, linked as ["b"], and the original name is removed. *)

Definition blank_file : BlockFile := MkBlockFile (replicate (1040 * 512) 0).
Definition demo_ops1 : list vop :=
  [VCreate [97]; VLink [97] [98]; VWrite 1 0 [104; 105]].
Definition demo_ops2 : list vop :=
  [VLs; VFind [98]; VLinks 1; VRead 1 0 [0; 0; 0; 0]; VUnlink [97]; VLs; VClear 1; VRead 1 0 [0]].

Lemma blank_file_blocks b : 0 ≤ b < 1040 → is_Some (dev_blocks blank_file !! b).
Proof.
  intros Hb. eexists. apply file_blocks_lookup. split; [|reflexivity]. unfold file_has, blank_file. cbn [bf_file].
  rewrite length_replicate. lia.
Qed.

Abbreviation demo_efs := (mk_efs 1040 1).
Definition demo_fs1 : afs := MkAfs [([97], 1); ([98], 1)] (<[1 := [104; 105]]> (<[1 := []]> ∅)).
Definition demo_fs2 : afs := MkAfs [([98], 1)] (<[1 := []]> (a_files demo_fs1)).

Lemma demo_fresh : fresh demo_efs empty_fs = 1.
Proof.
  unfold fresh. replace (Z.to_nat _) with (S (Z.to_nat 4094)) by (cbn; lia). cbn [fresh_from empty_fs a_files]. by rewrite lookup_empty.
Qed.

Lemma demo_finds : dir_find [97] [([97], 1)] = Some 1 ∧ dir_find [98] [([97], 1); ([98], 1)] = Some 1 ∧
  dir_find [97] [([97], 1); ([98], 1)] = Some 1 ∧ dir_remove [97] [([97], 1); ([98], 1)] = [([98], 1)] ∧
  dir_links 1 [([97], 1); ([98], 1)] = 2.
Proof. vm_compute. done. Qed.

(** One operation after the other. *)
Ltac demo_cbn :=
  cbn -[dir_find dir_links dir_remove lookup insert write_content splice slice Z.max Z.min inode_at mk_efs].
Ltac demo_step :=
  destruct demo_finds as (F1 & F2 & F3 & F4 & F5);
  repeat (demo_cbn; rewrite ?F1, ?F2, ?F3, ?F4, ?F5, ?lookup_insert_eq).

Lemma demo_run1 : abs_vops demo_efs demo_ops1 empty_fs =
  ([RInode (Some (inode_at demo_efs 1)); RInode (Some (inode_at demo_efs 1)); RNum 2], demo_fs1).
Proof.
  unfold demo_ops1. rewrite abs_vops_cons. cbn [abs_vop dir_find empty_fs a_dir]. rewrite demo_fresh. cbn [fst snd].
  demo_step. reflexivity.
Qed.

Lemma demo_run2 : abs_vops demo_efs demo_ops2 demo_fs1 =
  ([RNames [[97]; [98]]; RInode (Some (inode_at demo_efs 1)); RNum 2; RRead 2 [104; 105; 0; 0];
    RNum 0; RNames [[98]]; RUnit; RRead 0 [0]], demo_fs2).
Proof. unfold demo_ops2, demo_fs1. demo_step. reflexivity. Qed.

(** The side conditions of the concrete operations. *)
Ltac demo_ok :=
  repeat match goal with
  | |- _ ∧ _ => split
  | |- _ → _ => intros _
  | |- is_Some (_ !! _) => eexists; apply lookup_insert_eq
  | |- is_Some (Some _) => by eexists
  | |- True => exact I
  | |- vop_ok _ _ _ _ _ => unfold vop_ok, vop_cost; cbn [a_dir a_files]; rewrite ?lookup_insert_eq
  | |- fresh _ _ ≠ 0 => by rewrite demo_fresh
  | |- name_ok _ => apply (bool_decide_unpack _); vm_compute; exact I
  | |- Forall _ _ => apply (bool_decide_unpack _); vm_compute; exact I
  end; try (vm_compute; done).

#[local] Instance name_ok_dec name : Decision (name_ok name).
Proof. unfold name_ok. apply _. Defined.

Lemma demo_ok1 : vops_ok demo_efs (mk_data 1040 1) 0 demo_ops1 empty_fs.
Proof.
  unfold demo_ops1. cbn [vops_ok abs_vop vop_ok vop_cost dir_find empty_fs a_dir]. rewrite demo_fresh.
  demo_step. demo_ok.
Qed.

Lemma demo_ok2 : vops_ok demo_efs (mk_data 1040 1) 2 demo_ops2 demo_fs1.
Proof. unfold demo_ops2, demo_fs1. unfold vop_ok. demo_step. demo_ok. Qed.

Lemma demo_cost1 : vops_cost demo_efs demo_ops1 empty_fs = 2.
Proof.
  unfold demo_ops1. cbn [vops_cost abs_vop vop_cost dir_find empty_fs a_dir]. rewrite demo_fresh.
  demo_step. reflexivity.
Qed.

Lemma files_survive_restart_witness : ∃ m1 m2 : BlockCacheManager BlockFile,
  run_cached (efs ← EasyFileSystem_create 1040 1; run_vops efs demo_ops1) (BlockCacheManager_new blank_file) =
    Ok ([RInode (Some (inode_at demo_efs 1)); RInode (Some (inode_at demo_efs 1)); RNum 2], m1) ∧
  run_cached (efs ← EasyFileSystem_open; run_vops efs demo_ops2) (BlockCacheManager_new (bm_dev m1)) =
    Ok ([RNames [[97]; [98]]; RInode (Some (inode_at demo_efs 1)); RNum 2; RRead 2 [104; 105; 0; 0];
         RNum 0; RNames [[98]]; RUnit; RRead 0 [0]], m2).
Proof.
  destruct (files_survive_restart 1040 1 blank_file demo_ops1 demo_ops2) as (m1 & m2 & H1 & H2).
  - lia.
  - lia.
  - exact blank_file_blocks.
  - exact demo_ok1.
  - unfold demo_ops1. cbn [vops_synced syncs]. reflexivity.
  - rewrite demo_run1, demo_cost1. exact demo_ok2.
  - exists m1, m2. rewrite demo_run1 in H1, H2. cbn [fst snd] in H1, H2. rewrite demo_run2 in H2. exact (conj H1 H2).
Defined.

Lemma demo_fs : ∃ (m : BlockCacheManager BlockFile) bl, cache_rel m (MkFlat bl ∅) ∧
  fs_rep demo_efs (mk_data 1040 1) bl 0 empty_fs.
Proof.
  destruct (efs_create_ok 1040 1 ltac:(lia) ltac:(lia) (dev_blocks blank_file)) as (efs & bl & Hcr & -> & Hrep).
  { intros b [d Hd]%blank_file_blocks. exists d. split; [done|]. by apply (dev_blocks_block blank_file b). }
  pose proof (run_refines (EasyFileSystem_create 1040 1) _ _ (cache_rel_init blank_file)) as Hr. rewrite Hcr in Hr.
  destruct Hr as (m & _ & Hm). exact (ex_intro _ m (ex_intro _ bl (conj Hm Hrep))).
Qed.

Lemma vfs_refines_model_witness : ∃ (m m' : BlockCacheManager BlockFile) (bl' : gmap Z (list Z)),
  run_cached (run_vops demo_efs demo_ops1) m =
    Ok ([RInode (Some (inode_at demo_efs 1)); RInode (Some (inode_at demo_efs 1)); RNum 2], m') ∧
  fs_rep demo_efs (mk_data 1040 1) bl' 2 demo_fs1 ∧ dev_blocks (bm_dev m') = bl'.
Proof.
  destruct demo_fs as (m & bl & Hm & Hrep).
  destruct (vfs_refines_model demo_efs (mk_data 1040 1) m bl 0 empty_fs demo_ops1) as (m' & bl' & H1 & _ & H2 & H3).
  - apply mk_efs_wf; lia.
  - exact Hm.
  - exact Hrep.
  - exact demo_ok1.
  - rewrite demo_run1 in H1, H2. rewrite demo_cost1 in H2. exists m, m', bl'. split; [exact H1|].
    split; [exact H2|]. apply H3. unfold demo_ops1. cbn [vops_synced syncs]. reflexivity.
Defined.

(** The file system after the first operations. *)
Lemma demo_fs1_rep : ∃ (m : BlockCacheManager BlockFile) bl, cache_rel m (MkFlat bl ∅) ∧
  fs_rep demo_efs (mk_data 1040 1) bl 2 demo_fs1.
Proof.
  destruct demo_fs as (m & bl & Hm & Hrep).
  destruct (rep_vops demo_efs _ (mk_efs_wf 1040 1 ltac:(lia) ltac:(lia)) demo_ops1 bl 0 _ Hrep demo_ok1)
    as (rs & bl' & Hrun & _ & Hrep'). rewrite demo_run1, demo_cost1 in Hrep'.
  pose proof (run_refines (run_vops demo_efs demo_ops1) m _ Hm) as Hr. rewrite Hrun in Hr.
  destruct Hr as (m' & _ & Hm'). exact (ex_intro _ m' (ex_intro _ bl' (conj Hm' Hrep'))).
Qed.
