(* ===== verification/MemorySet.v ===== *)
(** Address spaces ([os/src/mm/memory_set.rs]): map areas, which own the frames behind
    their pages, and memory sets, a page table with its areas.  The linker symbols of the
    kernel image and the ELF reader ([xmas_elf]) are parameters. *)

From stdpp Require Import sorting.
From S2P Require Import Prelude Config Address Allocator FrameAllocator PhysMem PageTable.

Inductive MapType := Identical | Framed.
#[export] Instance MapType_eq_dec : EqDecision MapType.
Proof. solve_decision. Defined.

Definition MapPermission := Z.
Definition MapPermission_R : MapPermission := Z.shiftl 1 1.
Definition MapPermission_W : MapPermission := Z.shiftl 1 2.
Definition MapPermission_X : MapPermission := Z.shiftl 1 3.
Definition MapPermission_U : MapPermission := Z.shiftl 1 4.

(** [data_frames] is a [BTreeMap] from pages to the frames behind them. *)
Record MapArea := MkMapArea {
  ma_vpn_range : VPNRange;
  ma_data_frames : gmap VirtPageNum FrameTracker;
  ma_map_type : MapType;
  ma_map_perm : MapPermission
}.

Definition MapArea_new (start_va end_va : VirtAddr) (map_type : MapType) (map_perm : MapPermission) :
    res MapArea :=
  let start_vpn := VirtAddr_floor start_va in
  let end_vpn := VirtAddr_ceil end_va in
  vpn_range ← SimpleRange_new start_vpn end_vpn;
  mret (MkMapArea vpn_range ∅ map_type map_perm).

Definition MapArea_from_another (another : MapArea) : res MapArea :=
  vpn_range ← SimpleRange_new (get_start (ma_vpn_range another)) (get_end (ma_vpn_range another));
  mret (MkMapArea vpn_range ∅ (ma_map_type another) (ma_map_perm another)).

Definition set_data_frames (area : MapArea) (fs : gmap VirtPageNum FrameTracker) : MapArea :=
  MkMapArea (ma_vpn_range area) fs (ma_map_type area) (ma_map_perm area).
Definition set_vpn_range (area : MapArea) (r : VPNRange) : MapArea :=
  MkMapArea r (ma_data_frames area) (ma_map_type area) (ma_map_perm area).

(** Dropping an [Option<FrameTracker>]. *)
Definition drop_option (o : option FrameTracker) : M MM unit :=
  match o with Some f => FrameTracker_drop f | None => mret () end.

(** The frames of a [BTreeMap] in the order of its keys, the order in which they are dropped. *)
Definition key_le (a b : VirtPageNum * FrameTracker) : Prop := vpn_0 a.1 ≤ vpn_0 b.1.
#[export] Instance key_le_dec a b : Decision (key_le a b).
Proof. unfold key_le. apply _. Defined.
Definition btree_values (m : gmap VirtPageNum FrameTracker) : list FrameTracker :=
  (merge_sort key_le (map_to_list m)).*2.

Definition MapArea_drop (area : MapArea) : M MM unit :=
  for_each FrameTracker_drop (btree_values (ma_data_frames area)).

Definition MapArea_map_one (area : MapArea) (pt : PageTable) (vpn : VirtPageNum) :
    M MM (MapArea * PageTable) :=
  '(ppn, area) ←
    match ma_map_type area with
    | Identical => mret (MkPhysPageNum (vpn_0 vpn), area)
    | Framed =>
        o ← frame_alloc;
        frame ← lift (unwrap o);
        _ ← drop_option (ma_data_frames area !! vpn);
        mret (ft_ppn frame, set_data_frames area (<[vpn := frame]> (ma_data_frames area)))
    end;
  pte_flags ← lift (unwrap (PTEFlags_from_bits (ma_map_perm area)));
  pt ← PageTable_map pt vpn ppn pte_flags;
  mret (area, pt).

Definition MapArea_unmap_one (area : MapArea) (pt : PageTable) (vpn : VirtPageNum) : M MM MapArea :=
  area ← (if decide (ma_map_type area = Framed) then
            _ ← drop_option (ma_data_frames area !! vpn);
            mret (set_data_frames area (delete vpn (ma_data_frames area)))
          else mret area);
  _ ← PageTable_unmap pt vpn;
  mret area.

(** [for vpn in vpns { self.map_one(page_table, vpn) }] and the same for [unmap_one] *)
Fixpoint MapArea_map_vpns (area : MapArea) (pt : PageTable) (vpns : list VirtPageNum) :
    M MM (MapArea * PageTable) :=
  match vpns with
  | [] => mret (area, pt)
  | vpn :: vpns' =>
      '(area, pt) ← MapArea_map_one area pt vpn;
      MapArea_map_vpns area pt vpns'
  end.

Fixpoint MapArea_unmap_vpns (area : MapArea) (pt : PageTable) (vpns : list VirtPageNum) :
    M MM MapArea :=
  match vpns with
  | [] => mret area
  | vpn :: vpns' =>
      area ← MapArea_unmap_one area pt vpn;
      MapArea_unmap_vpns area pt vpns'
  end.

Definition MapArea_map (area : MapArea) (pt : PageTable) : M MM (MapArea * PageTable) :=
  MapArea_map_vpns area pt (VPNRange_vpns (ma_vpn_range area)).

Definition MapArea_unmap (area : MapArea) (pt : PageTable) : M MM MapArea :=
  MapArea_unmap_vpns area pt (VPNRange_vpns (ma_vpn_range area)).

Definition MapArea_shrink_to (area : MapArea) (pt : PageTable) (new_end : VirtPageNum) :
    M MM MapArea :=
  range ← lift (SimpleRange_new new_end (get_end (ma_vpn_range area)));
  area ← MapArea_unmap_vpns area pt (VPNRange_vpns range);
  vpn_range ← lift (SimpleRange_new (get_start (ma_vpn_range area)) new_end);
  mret (set_vpn_range area vpn_range).

Definition MapArea_append_to (area : MapArea) (pt : PageTable) (new_end : VirtPageNum) :
    M MM (MapArea * PageTable) :=
  range ← lift (SimpleRange_new (get_end (ma_vpn_range area)) new_end);
  '(area, pt) ← MapArea_map_vpns area pt (VPNRange_vpns range);
  vpn_range ← lift (SimpleRange_new (get_start (ma_vpn_range area)) new_end);
  mret (set_vpn_range area vpn_range, pt).

(** [ppn.get_bytes_array()[..src.len()].copy_from_slice(src)] *)
Definition copy_to_page (ppn : PhysPageNum) (src : list Z) : M MM unit := λ s,
  page' ← vec_copy (get_bytes_array (mm_mem s) ppn) 0 (Z.of_nat (length src)) src;
  Ok ((), MkMM (set_bytes_array (mm_mem s) ppn page') (mm_fa s)).

(** The loop of [copy_data]; [n] bounds the number of pages. *)
Fixpoint copy_data_loop (n : nat) (pt : PageTable) (data : list Z) (start : Z) (current_vpn : VirtPageNum) :
    M MM unit :=
  match n with
  | O => lift (Err OutOfFuel)
  | S n' =>
      let len := Z.of_nat (length data) in
      src ← lift (vec_slice data start (Z.min len (start + PAGE_SIZE)%usize));
      s ← get_state;
      e ← lift (unwrap (PageTable_translate (mm_mem s) pt current_vpn));
      _ ← copy_to_page (PageTableEntry_ppn e) src;
      let start := (start + PAGE_SIZE)%usize in
      if bool_decide (start >= len) then mret ()
      else copy_data_loop n' pt data start (VirtPageNum_step current_vpn)
  end.

Definition MapArea_copy_data (area : MapArea) (pt : PageTable) (data : list Z) : M MM unit :=
  _ ← lift (res_assert (bool_decide (ma_map_type area = Framed)));
  copy_data_loop (S (length data / 4096)) pt data 0 (get_start (ma_vpn_range area)).

(** * Memory sets *)

Record MemorySet := MkMemorySet { ms_page_table : PageTable; ms_areas : list MapArea }.

Definition MemorySet_new_bare : M MM MemorySet :=
  pt ← PageTable_new;
  mret (MkMemorySet pt []).

Definition MemorySet_token (self : MemorySet) : Z := PageTable_token (ms_page_table self).

Definition MemorySet_push (self : MemorySet) (map_area : MapArea) (data : option (list Z)) :
    M MM MemorySet :=
  '(map_area, pt) ← MapArea_map map_area (ms_page_table self);
  _ ← match data with
      | Some data => MapArea_copy_data map_area pt data
      | None => mret ()
      end;
  mret (MkMemorySet pt (vec_push (ms_areas self) map_area)).

Definition MemorySet_insert_framed_area (self : MemorySet) (start_va end_va : VirtAddr)
    (permission : MapPermission) : M MM MemorySet :=
  area ← lift (MapArea_new start_va end_va Framed permission);
  MemorySet_push self area None.

(** [area.unmap(..); self.areas.remove(index)]: the removed area is dropped. *)
Definition remove_area (self : MemorySet) (before : list MapArea) (area : MapArea) (after : list MapArea) :
    M MM MemorySet :=
  area ← MapArea_unmap area (ms_page_table self);
  _ ← MapArea_drop area;
  mret (MkMemorySet (ms_page_table self) (before ++ after)).

Fixpoint remove_framed_loop (self : MemorySet) (start_va end_va : VirtAddr)
    (before areas : list MapArea) : M MM (Z * MemorySet) :=
  match areas with
  | [] => mret (-1, self)
  | area :: after =>
      if decide (get_start (ma_vpn_range area) = VirtAddr_floor start_va ∧
                 get_end (ma_vpn_range area) = VirtAddr_ceil end_va)
      then self ← remove_area self before area after; mret (0, self)
      else remove_framed_loop self start_va end_va (before ++ [area]) after
  end.

Definition MemorySet_remove_framed_area (self : MemorySet) (start_va end_va : VirtAddr) :
    M MM (Z * MemorySet) :=
  remove_framed_loop self start_va end_va [] (ms_areas self).

Fixpoint remove_start_loop (self : MemorySet) (start_vpn : VirtPageNum)
    (before areas : list MapArea) : M MM MemorySet :=
  match areas with
  | [] => mret self
  | area :: after =>
      if decide (get_start (ma_vpn_range area) = start_vpn) then remove_area self before area after
      else remove_start_loop self start_vpn (before ++ [area]) after
  end.

Definition MemorySet_remove_area_with_start_vpn (self : MemorySet) (start_vpn : VirtPageNum) :
    M MM MemorySet :=
  remove_start_loop self start_vpn [] (ms_areas self).

Definition MemorySet_translate (m : memory) (self : MemorySet) (vpn : VirtPageNum) :
    option PageTableEntry :=
  PageTable_translate m (ms_page_table self) vpn.

Definition MemorySet_recycle_data_pages (self : MemorySet) : M MM MemorySet :=
  _ ← for_each MapArea_drop (ms_areas self);
  mret (MkMemorySet (ms_page_table self) []).

(** Dropping a memory set drops the frames of its page table, then its areas. *)
Definition MemorySet_drop (self : MemorySet) : M MM unit :=
  _ ← for_each FrameTracker_drop (frames (ms_page_table self));
  for_each MapArea_drop (ms_areas self).

(** The first area that starts at [start], with the areas around it. *)
Fixpoint find_area (start : VirtPageNum) (before areas : list MapArea) :
    option (list MapArea * MapArea * list MapArea) :=
  match areas with
  | [] => None
  | area :: after =>
      if decide (get_start (ma_vpn_range area) = start) then Some (before, area, after)
      else find_area start (before ++ [area]) after
  end.

Definition MemorySet_shrink_to (self : MemorySet) (start new_end : VirtAddr) :
    M MM (bool * MemorySet) :=
  match find_area (VirtAddr_floor start) [] (ms_areas self) with
  | Some (before, area, after) =>
      area ← MapArea_shrink_to area (ms_page_table self) (VirtAddr_ceil new_end);
      mret (true, MkMemorySet (ms_page_table self) (before ++ area :: after))
  | None => mret (false, self)
  end.

Definition MemorySet_append_to (self : MemorySet) (start new_end : VirtAddr) :
    M MM (bool * MemorySet) :=
  match find_area (VirtAddr_floor start) [] (ms_areas self) with
  | Some (before, area, after) =>
      '(area, pt) ← MapArea_append_to area (ms_page_table self) (VirtAddr_ceil new_end);
      mret (true, MkMemorySet pt (before ++ area :: after))
  | None => mret (false, self)
  end.

Definition area_conflict (start end_ : VirtAddr) (area : MapArea) : bool :=
  let area_start := vpn_0 (get_start (ma_vpn_range area)) in
  let area_end := vpn_0 (get_end (ma_vpn_range area)) in
  let s := vpn_0 (VirtAddr_floor start) in
  let e := vpn_0 (VirtAddr_ceil end_) in
  (bool_decide (s >= area_start) && bool_decide (s < area_end)) ||
  (bool_decide (e > area_start) && bool_decide (e <= area_end)).

Definition MemorySet_check_conflict (self : MemorySet) (start end_ : VirtAddr) : bool :=
  existsb (area_conflict start end_) (ms_areas self).

(** * Address spaces built from the kernel image, a program or another space *)

(** The addresses of the symbols the linker script defines. *)
Record KernelSymbols := MkKernelSymbols {
  stext : Z; etext : Z; srodata : Z; erodata : Z; sdata : Z; edata : Z;
  sbss_with_stack : Z; ebss : Z; ekernel : Z; strampoline : Z
}.

(** What the kernel reads of an ELF file through [xmas_elf]; accessors that return a
    [Result] the kernel unwraps are options. *)
Record ProgramHeader := MkProgramHeader {
  ph_is_load : option bool;
  ph_virtual_addr : Z; ph_mem_size : Z; ph_offset : Z; ph_file_size : Z;
  ph_is_read : bool; ph_is_write : bool; ph_is_execute : bool
}.
Record ElfFile := MkElfFile {
  elf_magic : list Z;
  elf_program_headers : list (option ProgramHeader);
  elf_entry_point : Z
}.

Section Image.
Context (ks : KernelSymbols).

Definition MemorySet_map_trampoline (self : MemorySet) : M MM MemorySet :=
  vpn ← lift (VirtPageNum_from_VirtAddr (VirtAddr_from TRAMPOLINE));
  ppn ← lift (PhysPageNum_from_PhysAddr (PhysAddr_from (strampoline ks)));
  pt ← PageTable_map (ms_page_table self) vpn ppn (Z.lor PTEFlags_R PTEFlags_X);
  mret (MkMemorySet pt (ms_areas self)).

(** [memory_set.push(MapArea::new(start.into(), end.into(), type, perm), None)] *)
Definition push_area (self : MemorySet) (start end_ : Z) (map_type : MapType) (perm : MapPermission) :
    M MM MemorySet :=
  area ← lift (MapArea_new (VirtAddr_from start) (VirtAddr_from end_) map_type perm);
  MemorySet_push self area None.

Fixpoint push_mmio (self : MemorySet) (pairs : list (Z * Z)) : M MM MemorySet :=
  match pairs with
  | [] => mret self
  | (base, size) :: rest =>
      self ← push_area self base (base + size)%usize Identical (Z.lor MapPermission_R MapPermission_W);
      push_mmio self rest
  end.

Definition MemorySet_new_kernel : M MM MemorySet :=
  ms ← MemorySet_new_bare;
  ms ← MemorySet_map_trampoline ms;
  ms ← push_area ms (stext ks) (etext ks) Identical (Z.lor MapPermission_R MapPermission_X);
  ms ← push_area ms (srodata ks) (erodata ks) Identical MapPermission_R;
  ms ← push_area ms (sdata ks) (edata ks) Identical (Z.lor MapPermission_R MapPermission_W);
  ms ← push_area ms (sbss_with_stack ks) (ebss ks) Identical (Z.lor MapPermission_R MapPermission_W);
  ms ← push_area ms (ekernel ks) MEMORY_END Identical (Z.lor MapPermission_R MapPermission_W);
  push_mmio ms MMIO.

Definition ph_perm (ph : ProgramHeader) : MapPermission :=
  let map_perm := MapPermission_U in
  let map_perm := if ph_is_read ph then Z.lor map_perm MapPermission_R else map_perm in
  let map_perm := if ph_is_write ph then Z.lor map_perm MapPermission_W else map_perm in
  if ph_is_execute ph then Z.lor map_perm MapPermission_X else map_perm.

(** The loop over the program headers; [elf_data] is [elf.input]. *)
Fixpoint load_segments (elf_data : list Z) (phs : list (option ProgramHeader)) (ms : MemorySet)
    (max_end_vpn : VirtPageNum) : M MM (MemorySet * VirtPageNum) :=
  match phs with
  | [] => mret (ms, max_end_vpn)
  | oph :: rest =>
      ph ← lift (unwrap oph);
      is_load ← lift (unwrap (ph_is_load ph));
      if (is_load : bool) then
        let start_va := VirtAddr_from (ph_virtual_addr ph) in
        let end_va := VirtAddr_from (ph_virtual_addr ph + ph_mem_size ph)%usize in
        map_area ← lift (MapArea_new start_va end_va Framed (ph_perm ph));
        let max_end_vpn := get_end (ma_vpn_range map_area) in
        data ← lift (vec_slice elf_data (ph_offset ph) (ph_offset ph + ph_file_size ph)%usize);
        ms ← MemorySet_push ms map_area (Some data);
        load_segments elf_data rest ms max_end_vpn
      else load_segments elf_data rest ms max_end_vpn
  end.

(** [from_elf] returns the address space, the user stack pointer and the entry point.
    [elf_new] is [xmas_elf::ElfFile::new]. *)
Definition MemorySet_from_elf (elf_new : list Z → option ElfFile) (elf_data : list Z) :
    M MM (MemorySet * Z * Z) :=
  ms ← MemorySet_new_bare;
  ms ← MemorySet_map_trampoline ms;
  elf ← lift (unwrap (elf_new elf_data));
  _ ← lift (res_assert (bool_decide (elf_magic elf = [0x7f; 0x45; 0x4c; 0x46])));
  '(ms, max_end_vpn) ← load_segments elf_data (elf_program_headers elf) ms (MkVirtPageNum 0);
  let max_end_va := VirtAddr_from_VirtPageNum max_end_vpn in
  let user_stack_bottom := (usize_from_VirtAddr max_end_va + PAGE_SIZE)%usize in
  let user_stack_top := (user_stack_bottom + USER_STACK_SIZE)%usize in
  let perm_rwu := Z.lor (Z.lor MapPermission_R MapPermission_W) MapPermission_U in
  ms ← push_area ms user_stack_bottom user_stack_top Framed perm_rwu;
  ms ← push_area ms user_stack_top user_stack_top Framed perm_rwu;
  ms ← push_area ms TRAP_CONTEXT_BASE TRAMPOLINE Framed (Z.lor MapPermission_R MapPermission_W);
  mret (ms, user_stack_top, elf_entry_point elf).

(** Copy the pages [vpns] from one space to the other. *)
Fixpoint copy_pages (src dst : MemorySet) (vpns : list VirtPageNum) : M MM unit :=
  match vpns with
  | [] => mret ()
  | vpn :: rest =>
      s ← get_state;
      se ← lift (unwrap (MemorySet_translate (mm_mem s) src vpn));
      de ← lift (unwrap (MemorySet_translate (mm_mem s) dst vpn));
      _ ← put_state (MkMM (set_bytes_array (mm_mem s) (PageTableEntry_ppn de)
                             (get_bytes_array (mm_mem s) (PageTableEntry_ppn se))) (mm_fa s));
      copy_pages src dst rest
  end.

Fixpoint copy_areas (user_space ms : MemorySet) (areas : list MapArea) : M MM MemorySet :=
  match areas with
  | [] => mret ms
  | area :: rest =>
      new_area ← lift (MapArea_from_another area);
      ms ← MemorySet_push ms new_area None;
      _ ← copy_pages user_space ms (VPNRange_vpns (ma_vpn_range area));
      copy_areas user_space ms rest
  end.

Definition MemorySet_from_existed_user (user_space : MemorySet) : M MM MemorySet :=
  ms ← MemorySet_new_bare;
  ms ← MemorySet_map_trampoline ms;
  copy_areas user_space ms (ms_areas user_space).
End Image.
