(* ===== verification/MemorySetSpec.v ===== *)
(** Correctness of address spaces.  A memory set refines a finite map from pages to
    entries; its areas own distinct live frames, and mapping, unmapping, copying and
    dropping areas keep that invariant and account for every frame. *)

From stdpp Require Import sorting.
From S2P Require Import Prelude Config Address Allocator FrameAllocator PhysMem PageTable MemorySet.

(** * Effects on memory and the allocator *)

(** [s'] is [s] after allocating the frames [new] and writing at most the pages [dirty]. *)
Record mm_step (l r : Z) (s s' : MM) (new dirty : list Z) : Prop := {
  mm_inv : sfa_inv l r (mm_fa s');
  mm_wf : mem_wf (mm_mem s');
  mm_live y : sfa_live l (mm_fa s') y ↔ y ∈ new ∨ sfa_live l (mm_fa s) y;
  mm_fresh x : x ∈ new → ¬ sfa_live l (mm_fa s) x;
  mm_nodup : NoDup new;
  mm_avail : sfa_avail (mm_fa s') = sfa_avail (mm_fa s) - Z.of_nat (length new);
  mm_same a : a / 4096 ∉ dirty → read_u8 (mm_mem s') a = read_u8 (mm_mem s) a;
}.

Definition mm_ok (l r : Z) (s : MM) : Prop := sfa_inv l r (mm_fa s) ∧ mem_wf (mm_mem s).

Lemma mm_step_ok l r s s' new dirty : mm_step l r s s' new dirty → mm_ok l r s'.
Proof. intros [? ? _ _ _ _ _]. done. Qed.

Lemma mm_step_refl l r s : mm_ok l r s → mm_step l r s s [] [].
Proof. intros [? ?]. split; try done; [set_solver|set_solver|constructor|simpl; lia]. Qed.

Lemma mm_step_trans l r s1 s2 s3 n1 d1 n2 d2 :
  mm_step l r s1 s2 n1 d1 → mm_step l r s2 s3 n2 d2 → mm_step l r s1 s3 (n1 ++ n2) (d1 ++ d2).
Proof.
  intros [_ _ L1 X1 N1 A1 M1] [I2 W2 L2 X2 N2 A2 M2]. split; [done|done|..].
  - intros y. rewrite L2, L1, elem_of_app. tauto.
  - intros x [Hx|Hx]%elem_of_app; [auto|]. intros Hl. apply (X2 x Hx), L1. auto.
  - apply NoDup_app. split; [done|]. split; [|done]. intros x Hx Hx2. apply (X2 x Hx2), L1. auto.
  - rewrite A2, A1, length_app. lia.
  - intros a Ha. rewrite M2, M1; [done|set_solver|set_solver].
Qed.

Lemma mm_step_weaken l r s s' new d d' :
  mm_step l r s s' new d → (∀ x, x ∈ d → x ∈ d') → mm_step l r s s' new d'.
Proof. intros [? ? ? ? ? ? M] Hd. split; try done. intros a Ha. apply M. auto. Qed.

Lemma mm_step_perm l r s s' new new' d :
  mm_step l r s s' new d → new ≡ₚ new' → mm_step l r s s' new' d.
Proof.
  intros [I W L X N A M] Hp. split; try done.
  - intros y. by rewrite L, Hp.
  - intros x. rewrite <- Hp. apply X.
  - by rewrite <- Hp.
  - by rewrite A, Hp.
Qed.

(** A table whose frames are untouched keeps its view. *)
Lemma pt_refines_frame l r s s' new d pt σ :
  pt_refines l r s pt σ → mm_step l r s s' new d →
  (∀ x, x ∈ frame_nums (frames pt) → x ∉ d) → pt_refines l r s' pt σ.
Proof.
  intros [Hwf Hview] [Hi Hw Hl _ _ _ Hm] Hdis. pose proof Hwf as (Hfa & Hmw & Htree & Hlive).
  destruct (tree_agree _ _ _ Htree (mm_mem s')) as [Htree' Hag].
  { intros b j Hb Hj. apply pte_at_ext; [done|]. intros a Ha%page_of. apply Hm. rewrite Ha. auto. }
  assert (pt_wf l r s' pt) as Hwf'.
  { split; [done|]. split; [done|]. split; [done|]. intros x Hx. apply Hl. auto. }
  split; [done|]. intros v Hv. rewrite <- Hview by done. eapply same_leaves_view; [done| |done].
  intros q j Hq1 Hq2 Hj. by apply Hag; [lia|..].
Qed.

Lemma pt_step_mm l r s pt s' pt' new :
  pt_step l r s pt s' pt' new → mm_step l r s s' new (frame_nums (frames pt')).
Proof.
  intros [(? & ? & Ht & _) Hr Hf Hl Hx Ha Hm]. split; try done.
  pose proof (tree_nodup _ _ _ Ht) as Hnd. rewrite Hf in Hnd. by apply NoDup_app in Hnd as (_ & _ & ?).
Qed.

Definition zeroed (m : memory) (p : PhysPageNum) : Prop := get_bytes_array m p = replicate 4096 0.

Lemma frame_alloc_step l r s :
  mm_ok l r s → 0 < sfa_avail (mm_fa s) →
  ∃ p s', frame_alloc s = Ok (Some (MkFrameTracker p), s') ∧ 0 ≤ ppn_0 p < 2 ^ 44 ∧
    mm_step l r s s' [ppn_0 p] [ppn_0 p] ∧ zeroed (mm_mem s') p.
Proof.
  intros [Hfa Hm] Hav. destruct (frame_alloc_ok l r s Hfa Hav Hm)
    as (p & s' & Hal & Hfa1 & Hm1 & Hrange & Hdead & Hlive1 & Hav1 & Hclear & Hmem1).
  exists p, s'. split; [done|]. split; [destruct Hfa as (? & _ & ? & _); lia|]. split; [|exact Hclear].
  clear Hclear.
  split; [done|done| |by intros x ->%list_elem_of_singleton|apply NoDup_singleton|done|].
  - intros y. rewrite Hlive1, list_elem_of_singleton. done.
  - intros a Ha. apply Hmem1. intros Hin%page_of. set_solver.
Qed.

(** The contents of a page. *)
Lemma page_same l r s s' new d p :
  mm_step l r s s' new d → 0 ≤ ppn_0 p < 2 ^ 44 → ppn_0 p ∉ d →
  get_bytes_array (mm_mem s') p = get_bytes_array (mm_mem s) p.
Proof.
  intros Hs Hp Hd. unfold get_bytes_array. rewrite page_addr_eq by done. apply read_bytes_ext.
  intros a Ha. apply (mm_same _ _ _ _ _ _ Hs). replace (a / 4096) with (ppn_0 p); [done|].
  symmetry. apply page_of. lia.
Qed.

(** * Mapping pages *)

Definition area_entry (perm : MapPermission) (f : FrameTracker) : PageTableEntry :=
  PageTableEntry_new (ft_ppn f) (Z.lor perm PTEFlags_V).

Definition frame_num (f : FrameTracker) : Z := ppn_0 (ft_ppn f).

Definition perm_ok (perm : MapPermission) : Prop := 0 ≤ perm < 256.

Lemma from_bits_ok perm : perm_ok perm → PTEFlags_from_bits perm = Some perm.
Proof.
  intros Hp. unfold perm_ok in Hp. unfold PTEFlags_from_bits. rewrite decide_True; [done|].
  rewrite <- Z.ldiff_land. change 255 with (Z.ones 8). rewrite Z.ldiff_ones_r by lia.
  rewrite Z.shiftr_div_pow2 by lia. change (2 ^ 8) with 256. by rewrite Z.div_small.
Qed.

Abbreviation vpn_map vs xs := (list_to_map (M := gmap VirtPageNum _) (zip vs xs)).

Lemma vpn_map_None {A} v vs (xs : list A) : v ∉ vs → vpn_map vs xs !! v = None.
Proof.
  intros Hv. apply not_elem_of_list_to_map_1. intros ([w x] & -> & Hin)%list_elem_of_fmap.
  apply Hv. by apply elem_of_zip_l in Hin.
Qed.

Lemma vpn_map_insert {A} v vs (x : A) xs (m : gmap VirtPageNum A) :
  v ∉ vs → vpn_map vs xs ∪ <[v := x]> m = vpn_map (v :: vs) (x :: xs) ∪ m.
Proof.
  intros Hv. cbn [zip zip_with]. rewrite list_to_map_cons, <- insert_union_l, insert_union_r; [done|].
  by apply vpn_map_None.
Qed.

Section MapOne.
Context (l r : Z).

Lemma map_one_framed s area pt σ vpn :
  pt_refines l r s pt σ → vpn_ok vpn → perm_ok (ma_map_perm area) → ma_map_type area = Framed →
  σ !! vpn = None → ma_data_frames area !! vpn = None → 3 ≤ sfa_avail (mm_fa s) →
  ∃ f pt' s' new, MapArea_map_one area pt vpn s =
      Ok ((set_data_frames area (<[vpn := f]> (ma_data_frames area)), pt'), s') ∧
    pt_refines l r s' pt' (<[vpn := area_entry (ma_map_perm area) f]> σ) ∧
    frame_nums (frames pt') = frame_nums (frames pt) ++ new ∧ (length new ≤ 2)%nat ∧
    mm_step l r s s' (frame_num f :: new) (frame_num f :: frame_nums (frames pt')) ∧
    0 ≤ frame_num f < 2 ^ 44 ∧ zeroed (mm_mem s') (ft_ppn f).
Proof.
  intros Href Hv Hperm Htype Hσ Hdf Hav. pose proof Href as [(Hfa & Hmw & Htree & Hlive) _].
  destruct (frame_alloc_step l r s) as (p & s1 & Hal & Hp & Hst1 & Hz); [done|lia|].
  assert (pt_refines l r s1 pt σ) as Href1.
  { eapply pt_refines_frame; [done|done|]. intros x Hx Hin%list_elem_of_singleton. subst x.
    apply (mm_fresh _ _ _ _ _ _ Hst1 (ppn_0 p)); [set_solver|auto]. }
  pose proof (map_refines l r s1 pt σ vpn p (ma_map_perm area) Href1) as Hmap.
  unfold page_map_map in Hmap. rewrite Hσ in Hmap.
  destruct Hmap as (pt' & s' & new & Hm & Href' & Hstep & Hnew); [|done|done|done|].
  { rewrite (mm_avail _ _ _ _ _ _ Hst1). simpl. lia. }
  exists (MkFrameTracker p), pt', s', new. split.
  { unfold MapArea_map_one, mbind, M_bind. rewrite Htype, Hal. cbn [lift unwrap]. rewrite Hdf.
    cbn [drop_option mret M_ret]. rewrite from_bits_ok by done. cbn [unwrap ft_ppn].
    unfold lift. simpl ma_map_perm. by rewrite Hm. }
  split; [done|]. split; [apply Hstep|]. split; [done|].
  pose proof (pt_step_mm _ _ _ _ _ _ _ Hstep) as Hst2. split; [|split; [done|]].
  - exact (mm_step_trans _ _ _ _ _ _ _ _ _ Hst1 Hst2).
  - unfold zeroed. rewrite <- Hz. clear Hz. eapply page_same; [exact Hst2|done|].
    rewrite (step_frames _ _ _ _ _ _ _ Hstep). intros [Hin|Hin]%elem_of_app.
    + apply (mm_fresh _ _ _ _ _ _ Hst1 (ppn_0 p)); [set_solver|]. by apply Hlive.
    + apply (mm_fresh _ _ _ _ _ _ Hst2 (ppn_0 p) Hin). apply (mm_live _ _ _ _ _ _ Hst1). set_solver.
Qed.

(** Mapping a list of unmapped pages: every page gets a fresh zeroed frame. *)
Lemma map_vpns_framed vpns s area pt σ :
  pt_refines l r s pt σ → perm_ok (ma_map_perm area) → ma_map_type area = Framed →
  NoDup vpns → Forall vpn_ok vpns → (∀ v, v ∈ vpns → σ !! v = None) →
  (∀ v, v ∈ vpns → ma_data_frames area !! v = None) →
  3 * Z.of_nat (length vpns) ≤ sfa_avail (mm_fa s) →
  ∃ fs pt' s' new, MapArea_map_vpns area pt vpns s =
      Ok ((set_data_frames area (list_to_map (zip vpns fs) ∪ ma_data_frames area), pt'), s') ∧
    length fs = length vpns ∧
    pt_refines l r s' pt' (list_to_map (zip vpns (area_entry (ma_map_perm area) <$> fs)) ∪ σ) ∧
    frame_nums (frames pt') = frame_nums (frames pt) ++ new ∧ (length new ≤ 2 * length vpns)%nat ∧
    mm_step l r s s' ((frame_num <$> fs) ++ new) ((frame_num <$> fs) ++ frame_nums (frames pt')) ∧
    Forall (λ f, 0 ≤ frame_num f < 2 ^ 44 ∧ zeroed (mm_mem s') (ft_ppn f)) fs.
Proof.
  revert s area pt σ. induction vpns as [|v vpns IH]; intros s area pt σ Href Hperm Htype Hnd Hok Hσ Hdf Hav.
  { exists [], pt, s, []. cbn [zip zip_with list_to_map foldr fmap list_fmap]. rewrite !map_empty_union, app_nil_r.
    split; [by destruct area|]. split; [done|]. split; [done|]. split; [done|]. split; [simpl; lia|].
    split; [|constructor]. eapply mm_step_weaken; [apply mm_step_refl|set_solver].
    by destruct Href as [(? & ? & _) _]. }
  apply NoDup_cons in Hnd as [Hvn Hnd]. apply Forall_cons in Hok as [Hv Hok].
  rewrite length_cons in Hav.
  destruct (map_one_framed s area pt σ v) as (f & pt1 & s1 & new1 & Hm1 & Href1 & Hfr1 & Hn1 & Hst1 & Hf44 & Hz1);
    [done..|apply Hσ; set_solver|apply Hdf; set_solver|lia|].
  destruct (IH s1 (set_data_frames area (<[v := f]> (ma_data_frames area))) pt1
    (<[v := area_entry (ma_map_perm area) f]> σ)) as (fs & pt2 & s2 & new2 & Hm2 & Hlen & Href2 & Hfr2 & Hn2 & Hst2 & Hall);
    [done..| | | |].
  { intros w Hw. rewrite lookup_insert_ne by set_solver. apply Hσ. set_solver. }
  { intros w Hw. simpl. rewrite lookup_insert_ne by set_solver. apply Hdf. set_solver. }
  { rewrite (mm_avail _ _ _ _ _ _ Hst1), length_cons. lia. }
  exists (f :: fs), pt2, s2, (new1 ++ new2). split.
  { cbn [MapArea_map_vpns]. unfold mbind, M_bind. rewrite Hm1, Hm2. do 3 f_equal.
    by rewrite <- vpn_map_insert. }
  split; [simpl; lia|]. split; [rewrite fmap_cons, <- vpn_map_insert; done|].
  split; [by rewrite Hfr2, Hfr1, app_assoc|]. split; [rewrite length_app; simpl; lia|].
  split.
  - eapply mm_step_perm; [eapply mm_step_weaken; [exact (mm_step_trans _ _ _ _ _ _ _ _ _ Hst1 Hst2)|]|].
    + intros x. rewrite Hfr2, fmap_cons. clear. set_solver.
    + rewrite fmap_cons. simpl. apply perm_skip. rewrite !(app_assoc _ _ new2). apply Permutation_app_tail, Permutation_app_comm.
  - apply Forall_cons. split; [|done]. split; [done|]. unfold zeroed. rewrite <- Hz1.
    eapply page_same; [exact Hst2|done|]. clear Hz1 Hall.
    assert (frame_num f ∉ frame_nums (frames pt)) as Hf1.
    { intros Hin. destruct Href as [(_ & _ & _ & Hlive) _].
      apply (mm_fresh _ _ _ _ _ _ Hst1 (frame_num f)); [apply list_elem_of_here|by apply Hlive]. }
    assert (sfa_live l (mm_fa s1) (frame_num f)) as Hlv
      by (apply (mm_live _ _ _ _ _ _ Hst1); left; apply list_elem_of_here).
    pose proof (mm_nodup _ _ _ _ _ _ Hst1) as [Hf2 _]%NoDup_cons.
    pose proof (λ Hin, mm_fresh _ _ _ _ _ _ Hst2 (frame_num f) Hin Hlv) as Hf3.
    rewrite Hfr2, Hfr1. clear -Hf1 Hf2 Hf3. unfold frame_num in *. set_solver.
Qed.
End MapOne.

(** * The invariant of a memory set *)

Definition area_vpns (area : MapArea) : list VirtPageNum := VPNRange_vpns (ma_vpn_range area).

Definition area_frames (area : MapArea) : list Z := frame_num <$> (map_to_list (ma_data_frames area)).*2.

Definition range_ok (rg : VPNRange) : Prop :=
  0 ≤ vpn_0 (get_start rg) ≤ vpn_0 (get_end rg) ∧ vpn_0 (get_end rg) ≤ 2 ^ 27.

Definition identical_entry (perm : MapPermission) (v : VirtPageNum) : PageTableEntry :=
  PageTableEntry_new (MkPhysPageNum (vpn_0 v)) (Z.lor perm PTEFlags_V).

(** The entries the pages of an area have. *)
Definition area_pages (area : MapArea) : page_map :=
  match ma_map_type area with
  | Framed => area_entry (ma_map_perm area) <$> ma_data_frames area
  | Identical => list_to_map ((λ v, (v, identical_entry (ma_map_perm area) v)) <$> area_vpns area)
  end.

Definition area_ok (area : MapArea) : Prop :=
  range_ok (ma_vpn_range area) ∧ perm_ok (ma_map_perm area) ∧
  match ma_map_type area with
  | Framed => dom (ma_data_frames area) = list_to_set (area_vpns area) ∧
      map_Forall (λ _ f, 0 ≤ frame_num f < 2 ^ 44) (ma_data_frames area)
  | Identical => ma_data_frames area = ∅
  end.

Definition ms_vpns (ms : MemorySet) : list VirtPageNum := ms_areas ms ≫= area_vpns.
Definition ms_frames (ms : MemorySet) : list Z :=
  frame_nums (frames (ms_page_table ms)) ++ (ms_areas ms ≫= area_frames).

(** [σ] is the page map of the set; [σ0] the pages outside all areas (the trampoline). *)
Record ms_inv (l r : Z) (s : MM) (ms : MemorySet) (σ0 σ : page_map) : Prop := {
  mi_pt : pt_refines l r s (ms_page_table ms) σ;
  mi_view v e : σ !! v = Some e ↔
    σ0 !! v = Some e ∨ ∃ area, area ∈ ms_areas ms ∧ area_pages area !! v = Some e;
  mi_areas : Forall area_ok (ms_areas ms);
  mi_vpns : NoDup (ms_vpns ms);
  mi_fixed v : v ∈ ms_vpns ms → σ0 !! v = None;
  mi_nodup : NoDup (ms_frames ms);
  mi_live x : x ∈ ms_frames ms → sfa_live l (mm_fa s) x;
}.

Lemma area_vpns_ok area :
  range_ok (ma_vpn_range area) → NoDup (area_vpns area) ∧ Forall vpn_ok (area_vpns area) ∧
    length (area_vpns area) = Z.to_nat (vpn_0 (get_end (ma_vpn_range area)) - vpn_0 (get_start (ma_vpn_range area))).
Proof.
  destruct area as [[[a] [b]] fs t p]. unfold range_ok, area_vpns. cbn [ma_vpn_range get_start get_end vpn_0].
  intros [Ha Hb]. split; [apply NoDup_VPNRange_vpns; lia|]. split.
  - apply Forall_forall. intros v Hv%elem_of_VPNRange_vpns; [|lia..]. unfold vpn_ok. lia.
  - rewrite VPNRange_vpns_eq by lia. rewrite length_fmap, length_seqZ. done.
Qed.

Lemma area_pages_dom area v :
  area_ok area → v ∈ area_vpns area ↔ is_Some (area_pages area !! v).
Proof.
  intros (Hr & _ & Ht). unfold area_pages. destruct (ma_map_type area).
  - destruct (area_vpns_ok area Hr) as (Hnd & _ & _). split.
    + intros Hv. eexists. apply elem_of_list_to_map_1; [by rewrite <- list_fmap_compose, list_fmap_id|].
      apply list_elem_of_fmap. by exists v.
    + intros [e He]. apply elem_of_list_to_map_2 in He. apply list_elem_of_fmap in He as (w & [= -> ->] & Hw). done.
  - destruct Ht as [Hd _]. rewrite lookup_fmap, fmap_is_Some, <- elem_of_dom, Hd. by rewrite elem_of_list_to_set.
Qed.

Lemma ms_vpns_pages ms v :
  Forall area_ok (ms_areas ms) →
  v ∈ ms_vpns ms ↔ ∃ area e, area ∈ ms_areas ms ∧ area_pages area !! v = Some e.
Proof.
  intros Hok. unfold ms_vpns. rewrite list_elem_of_bind. rewrite Forall_forall in Hok. split.
  - intros (area & Hv & Ha). apply area_pages_dom in Hv as [e He]; [|by apply Hok]. eauto.
  - intros (area & e & Ha & He). exists area. split; [|done]. apply area_pages_dom; eauto.
Qed.

Definition same_shape (a b : MapArea) : Prop :=
  ma_vpn_range a = ma_vpn_range b ∧ ma_map_type a = ma_map_type b ∧ ma_map_perm a = ma_map_perm b.

Section Push.
Context (l r : Z).

(** The map of a freshly mapped area. *)
Lemma fresh_area_frames area (fs : list FrameTracker) :
  range_ok (ma_vpn_range area) → length fs = length (area_vpns area) →
  area_frames (set_data_frames area (vpn_map (area_vpns area) fs)) ≡ₚ frame_num <$> fs.
Proof.
  intros Hr Hl. destruct (area_vpns_ok area Hr) as (Hnd & _ & _). unfold area_frames. cbn [ma_data_frames set_data_frames].
  rewrite map_to_list_to_map; [by rewrite snd_zip by lia|by rewrite fst_zip by lia].
Qed.

Lemma zip_fmap_r {A B} (f : A → B) (vs : list VirtPageNum) xs :
  vpn_map vs (f <$> xs) = f <$> vpn_map vs xs.
Proof.
  revert xs. induction vs as [|v vs IH]; intros [|x xs]; simpl; [by rewrite fmap_empty..|].
  rewrite fmap_insert. f_equal. apply IH.
Qed.

(** An area with one frame of its own per page. *)
Lemma fresh_area_ok area (fs : list FrameTracker) (P : FrameTracker → Prop) :
  ma_map_type area = Framed → range_ok (ma_vpn_range area) → perm_ok (ma_map_perm area) → length fs = length (area_vpns area) →
  Forall (λ f, 0 ≤ frame_num f < 2 ^ 44 ∧ P f) fs →
  let area' := set_data_frames area (vpn_map (area_vpns area) fs) in
  area_ok area' ∧ area_pages area' = vpn_map (area_vpns area) (area_entry (ma_map_perm area) <$> fs) ∧
  area_frames area' ≡ₚ frame_num <$> fs ∧ map_Forall (λ _ f, P f) (ma_data_frames area').
Proof.
  intros Htype Hr Hp Hlen Hall. cbv zeta. rewrite Forall_forall in Hall. split; [|split; [|split; [by apply fresh_area_frames|]]].
  - split; [done|]. split; [done|]. cbn [ma_map_type ma_data_frames set_data_frames]. rewrite Htype. split.
    + rewrite dom_list_to_map_L, fst_zip by lia. done.
    + intros v f Hf. apply elem_of_list_to_map_2, elem_of_zip_r in Hf. by apply Hall.
  - unfold area_pages. cbn [ma_map_type ma_data_frames ma_map_perm set_data_frames]. by rewrite Htype, zip_fmap_r.
  - intros v f Hf. apply elem_of_list_to_map_2, elem_of_zip_r in Hf. by apply Hall.
Qed.

(** Adding an area whose pages were unmapped and whose frames are new. *)
Lemma ms_inv_add s ms σ0 σ s' pt' area' new d :
  ms_inv l r s ms σ0 σ → area_ok area' → (∀ v, v ∈ area_vpns area' → σ !! v = None) →
  pt_refines l r s' pt' (area_pages area' ∪ σ) →
  frame_nums (frames pt') = frame_nums (frames (ms_page_table ms)) ++ new →
  mm_step l r s s' (area_frames area' ++ new) d →
  ms_inv l r s' (MkMemorySet pt' (vec_push (ms_areas ms) area')) σ0 (area_pages area' ∪ σ).
Proof.
  intros [Hpt Hview Hareas Hvpns Hfixed Hnodup Hlive] Hok Hnone Href Hfr Hst.
  assert (area_pages area' ##ₘ σ) as Hdisj.
  { apply map_disjoint_spec. intros v e1 e2 H1 H2. rewrite (Hnone v) in H2; [done|].
    apply area_pages_dom; [done|eauto]. }
  assert (ms_frames (MkMemorySet pt' (vec_push (ms_areas ms) area')) ≡ₚ
    ms_frames ms ++ (area_frames area' ++ new)) as Hperm.
  { unfold ms_frames, vec_push. cbn [ms_page_table ms_areas]. rewrite Hfr, bind_app. simpl.
    rewrite app_nil_r. solve_Permutation. }
  split; cbn [ms_page_table ms_areas]; unfold vec_push.
  - done.
  - intros v e. rewrite lookup_union_Some, Hview by done. split.
    + intros [He|[He|(a & Ha & He)]]; [right; exists area'|by left|right; exists a]; set_solver.
    + intros [He|(a & [Ha|Ha%list_elem_of_singleton]%elem_of_app & He)];
        [right; by left|right; right; by exists a|left; by subst].
  - apply Forall_app. split; [done|]. by apply Forall_singleton.
  - unfold ms_vpns in *. cbn [ms_areas]. rewrite bind_app. simpl. rewrite app_nil_r.
    apply NoDup_app. split; [done|]. split; [|by apply area_vpns_ok, Hok].
    intros v Hv Hv'. apply ms_vpns_pages in Hv as (a & e & Ha & He); [|done].
    assert (σ !! v = Some e) as Hs by (apply Hview; eauto). rewrite (Hnone v Hv') in Hs. done.
  - intros v. unfold ms_vpns. cbn [ms_areas]. rewrite bind_app. simpl. rewrite app_nil_r.
    intros [Hv|Hv]%elem_of_app; [by apply Hfixed|]. destruct (σ0 !! v) as [e|] eqn:He; [|done].
    assert (σ !! v = Some e) as Hs by (apply Hview; eauto). rewrite (Hnone v Hv) in Hs. done.
  - rewrite Hperm. apply NoDup_app. split; [done|]. split; [|apply Hst].
    intros x Hx Hx'. by apply (mm_fresh _ _ _ _ _ _ Hst x Hx'), Hlive.
  - intros x. rewrite Hperm. intros [Hx|Hx]%elem_of_app; apply (mm_live _ _ _ _ _ _ Hst); auto.
Qed.

Lemma push_framed_ok s ms σ0 σ area :
  ms_inv l r s ms σ0 σ → ma_map_type area = Framed → ma_data_frames area = ∅ →
  range_ok (ma_vpn_range area) → perm_ok (ma_map_perm area) →
  (∀ v, v ∈ area_vpns area → σ !! v = None) →
  3 * Z.of_nat (length (area_vpns area)) ≤ sfa_avail (mm_fa s) →
  ∃ area' ms' s' new, MemorySet_push ms area None s = Ok (ms', s') ∧
    ms_areas ms' = ms_areas ms ++ [area'] ∧ same_shape area' area ∧
    ms_inv l r s' ms' σ0 (area_pages area' ∪ σ) ∧
    mm_step l r s s' (area_frames area' ++ new) (area_frames area' ++ frame_nums (frames (ms_page_table ms'))) ∧
    frame_nums (frames (ms_page_table ms')) = frame_nums (frames (ms_page_table ms)) ++ new ∧
    (length new ≤ 2 * length (area_vpns area))%nat ∧
    map_Forall (λ _ f, zeroed (mm_mem s') (ft_ppn f)) (ma_data_frames area').
Proof.
  intros [Hpt Hview Hareas Hvpns Hfixed Hnodup Hlive] Htype Hempty Hr Hp Hnone Hav.
  destruct (area_vpns_ok area Hr) as (Hnd & Hvok & _).
  destruct (map_vpns_framed l r (area_vpns area) s area (ms_page_table ms) σ)
    as (fs & pt' & s' & new & Hm & Hlen & Href' & Hfr & Hnew & Hst & Hall); [done..| |done|].
  { intros v _. by rewrite Hempty. }
  rewrite Hempty, map_union_empty in Hm.
  destruct (fresh_area_ok area fs (λ f, zeroed (mm_mem s') (ft_ppn f)) Htype Hr Hp Hlen Hall) as (Hok' & Hpages & Hfs & Hz).
  set (area' := set_data_frames area (vpn_map (area_vpns area) fs)) in *.
  assert (mm_step l r s s' (area_frames area' ++ new) (area_frames area' ++ frame_nums (frames pt'))) as Hst'.
  { eapply mm_step_weaken; [eapply mm_step_perm; [done|by rewrite Hfs]|].
    intros x. by rewrite !elem_of_app, Hfs. }
  exists area', (MkMemorySet pt' (vec_push (ms_areas ms) area')), s', new. split.
  { unfold MemorySet_push, MapArea_map, mbind, M_bind. fold (area_vpns area). by rewrite Hm. }
  split; [done|]. split; [done|]. split.
  { eapply ms_inv_add; [by split|done|done|by rewrite Hpages|done|done]. }
  by do 3 (split; [done|]).
Qed.
End Push.

(** * Giving frames back *)

(** [s'] is [s] after freeing the frames [gone] and writing at most the pages [dirty]. *)
Record mm_free (l r : Z) (s s' : MM) (gone dirty : list Z) : Prop := {
  mf_inv : sfa_inv l r (mm_fa s');
  mf_wf : mem_wf (mm_mem s');
  mf_live y : sfa_live l (mm_fa s') y ↔ sfa_live l (mm_fa s) y ∧ y ∉ gone;
  mf_avail : sfa_avail (mm_fa s') = sfa_avail (mm_fa s) + Z.of_nat (length gone);
  mf_same a : a / 4096 ∉ dirty → read_u8 (mm_mem s') a = read_u8 (mm_mem s) a;
}.

Lemma mm_free_refl l r s : mm_ok l r s → mm_free l r s s [] [].
Proof. intros [? ?]. split; try done; [set_solver|simpl; lia]. Qed.

Lemma mm_free_trans l r s1 s2 s3 g1 d1 g2 d2 :
  mm_free l r s1 s2 g1 d1 → mm_free l r s2 s3 g2 d2 → mm_free l r s1 s3 (g1 ++ g2) (d1 ++ d2).
Proof.
  intros [_ _ L1 A1 M1] [I2 W2 L2 A2 M2]. split; [done|done|..].
  - intros y. rewrite L2, L1, elem_of_app. tauto.
  - rewrite A2, A1, length_app. lia.
  - intros a Ha. rewrite M2, M1; [done|set_solver|set_solver].
Qed.

Lemma mm_free_weaken l r s s' g d d' :
  mm_free l r s s' g d → (∀ x, x ∈ d → x ∈ d') → mm_free l r s s' g d'.
Proof. intros [? ? ? ? M] Hd. split; try done. intros a Ha. apply M. auto. Qed.

Lemma mm_free_perm l r s s' g g' d : mm_free l r s s' g d → g ≡ₚ g' → mm_free l r s s' g' d.
Proof.
  intros [I W L A M] Hp. split; try done.
  - intros y. by rewrite L, Hp.
  - by rewrite A, Hp.
Qed.

Lemma pt_refines_free l r s s' gone d pt σ :
  pt_refines l r s pt σ → mm_free l r s s' gone d →
  (∀ x, x ∈ frame_nums (frames pt) → (x ∉ gone) ∧ (x ∉ d)) → pt_refines l r s' pt σ.
Proof.
  intros [Hwf Hview] [Hi Hw Hl _ Hm] Hdis. pose proof Hwf as (Hfa & Hmw & Htree & Hlive).
  destruct (tree_agree _ _ _ Htree (mm_mem s')) as [Htree' Hag].
  { intros b j Hb Hj. apply pte_at_ext; [done|]. intros a Ha%page_of. apply Hm. rewrite Ha. by apply Hdis. }
  assert (pt_wf l r s' pt) as Hwf'.
  { split; [done|]. split; [done|]. split; [done|]. intros x Hx. apply Hl. split; [auto|by apply Hdis]. }
  split; [done|]. intros v Hv. rewrite <- Hview by done. eapply same_leaves_view; [done| |done].
  intros q j Hq1 Hq2 Hj. by apply Hag; [lia|..].
Qed.

Lemma frame_drop_ok l r s f :
  mm_ok l r s → sfa_live l (mm_fa s) (frame_num f) →
  ∃ s', FrameTracker_drop f s = Ok ((), s') ∧ mm_free l r s s' [frame_num f] [].
Proof.
  intros [Hfa Hm] Hl. destruct (sfa_dealloc_live l r _ _ Hfa Hl) as (fa' & Hd & Hfa' & Hlive & _).
  exists (MkMM (mm_mem s) fa'). unfold FrameTracker_drop, frame_dealloc. destruct f as [[p]]. cbn [ft_ppn frame_num ppn_0] in *.
  rewrite Hd. split; [done|]. split; cbn [mm_fa mm_mem]; try done.
  - intros y. rewrite Hlive, list_elem_of_singleton. done.
  - unfold StackFrameAllocator_dealloc in Hd. destruct (mm_fa s) as [c e rc].
    cbn [sfa_current sfa_recycled] in Hd. repeat case_decide; try done. injection Hd as <-.
    unfold sfa_avail, vec_push. cbn [sfa_recycled sfa_end sfa_current]. rewrite length_app. simpl. lia.
Qed.

Lemma drop_frames_ok l r fs s :
  mm_ok l r s → NoDup (frame_num <$> fs) → (∀ x, x ∈ frame_num <$> fs → sfa_live l (mm_fa s) x) →
  ∃ s', for_each FrameTracker_drop fs s = Ok ((), s') ∧ mm_free l r s s' (frame_num <$> fs) [].
Proof.
  revert s. induction fs as [|f fs IH]; intros s Hok Hnd Hlive.
  { exists s. split; [done|by apply mm_free_refl]. }
  rewrite fmap_cons in *. apply NoDup_cons in Hnd as [Hf Hnd].
  destruct (frame_drop_ok l r s f Hok) as (s1 & Hd & Hfree1); [apply Hlive, list_elem_of_here|].
  destruct (IH s1) as (s2 & Hd2 & Hfree2); [by destruct Hfree1|done| |].
  { intros x Hx. apply (mf_live _ _ _ _ _ _ Hfree1). split; [by apply Hlive, list_elem_of_further|].
    rewrite list_elem_of_singleton. by intros ->. }
  exists s2. split; [cbn [for_each]; unfold mbind, M_bind; by rewrite Hd, Hd2|].
  exact (mm_free_trans _ _ _ _ _ _ _ _ _ Hfree1 Hfree2).
Qed.

Lemma pt_step_free l r s pt s' :
  pt_step l r s pt s' pt [] → mm_free l r s s' [] (frame_nums (frames pt)).
Proof.
  intros [(? & ? & _) Hr Hf Hl Hx Ha Hm]. split; [done|done| |rewrite Ha; simpl; lia|done].
  intros y. rewrite Hl. set_solver.
Qed.

Section Unmap.
Context (l r : Z).

(** What an area and its page table own. *)
Definition owns (s : MM) (pt : PageTable) (area : MapArea) : Prop :=
  NoDup (frame_nums (frames pt) ++ area_frames area) ∧
  ∀ x, x ∈ frame_nums (frames pt) ++ area_frames area → sfa_live l (mm_fa s) x.

Lemma unmap_one_framed s area pt σ vpn f :
  pt_refines l r s pt σ → vpn_ok vpn → ma_map_type area = Framed → is_Some (σ !! vpn) →
  ma_data_frames area !! vpn = Some f → owns s pt area →
  let area' := set_data_frames area (delete vpn (ma_data_frames area)) in
  ∃ s', MapArea_unmap_one area pt vpn s = Ok (area', s') ∧
    pt_refines l r s' pt (delete vpn σ) ∧ owns s' pt area' ∧
    area_frames area ≡ₚ frame_num f :: area_frames area' ∧
    mm_free l r s s' [frame_num f] (frame_nums (frames pt)).
Proof.
  intros Href Hv Htype [e He] Hf [Hnd Hlive]. cbv zeta.
  set (area' := set_data_frames area (delete vpn (ma_data_frames area))).
  assert (area_frames area ≡ₚ frame_num f :: area_frames area') as Hperm.
  { unfold area_frames, area'. cbn [ma_data_frames set_data_frames]. by rewrite <- (map_to_list_delete _ _ _ Hf). }
  rewrite Hperm in Hnd.
  assert (frame_num f ∉ frame_nums (frames pt)) as Hfn.
  { apply NoDup_app in Hnd as (_ & Hd & _). intros Hin. apply (Hd _ Hin), list_elem_of_here. }
  destruct (frame_drop_ok l r s f) as (s1 & Hd & Hfree1).
  { by destruct Href as [(? & ? & _) _]. }
  { apply Hlive. rewrite Hperm. apply elem_of_app. right. apply list_elem_of_here. }
  assert (pt_refines l r s1 pt σ) as Href1.
  { eapply pt_refines_free; [done|done|]. intros x Hx. split; [|set_solver].
    rewrite list_elem_of_singleton. by intros ->. }
  pose proof (unmap_refines l r s1 pt σ vpn Href1 Hv) as Hun. unfold page_map_unmap in Hun. rewrite He in Hun.
  destruct Hun as (s2 & Hu & Href2 & Hstep). pose proof (pt_step_free _ _ _ _ _ Hstep) as Hfree2.
  pose proof (mm_free_trans _ _ _ _ _ _ _ _ _ Hfree1 Hfree2) as Hfree.
  exists s2. split.
  { unfold MapArea_unmap_one, mbind, M_bind. rewrite decide_True, Hf by done. cbn [drop_option]. rewrite Hd.
    cbn [mret M_ret]. by rewrite Hu. }
  split; [done|]. split; [|split; [done|by rewrite app_nil_r in Hfree]].
  rewrite <- Permutation_middle in Hnd. apply NoDup_cons in Hnd as [Hf' Hnd]. split; [done|].
  intros x Hx. apply (mf_live _ _ _ _ _ _ Hfree). split.
  - apply Hlive. rewrite Hperm. set_solver.
  - rewrite app_nil_r, list_elem_of_singleton. by intros ->.
Qed.

Lemma unmap_vpns_framed vpns s area pt σ :
  pt_refines l r s pt σ → Forall vpn_ok vpns → NoDup vpns → ma_map_type area = Framed →
  (∀ v, v ∈ vpns → is_Some (σ !! v)) → (∀ v, v ∈ vpns → v ∈ dom (ma_data_frames area)) →
  owns s pt area →
  ∃ area' s' σ' gone, MapArea_unmap_vpns area pt vpns s = Ok (area', s') ∧ same_shape area' area ∧
    (∀ v, ma_data_frames area' !! v = if decide (v ∈ vpns) then None else ma_data_frames area !! v) ∧
    (∀ v, σ' !! v = if decide (v ∈ vpns) then None else σ !! v) ∧
    pt_refines l r s' pt σ' ∧ owns s' pt area' ∧
    area_frames area ≡ₚ gone ++ area_frames area' ∧
    mm_free l r s s' gone (frame_nums (frames pt)).
Proof.
  revert s area σ. induction vpns as [|v vpns IH]; intros s area σ Href Hok Hnd Htype Hσ Hdf Hown.
  { exists area, s, σ, []. split; [done|]. split; [done|].
    split; [intros v; by rewrite decide_False by set_solver|].
    split; [intros v; by rewrite decide_False by set_solver|].
    split; [done|]. split; [done|]. split; [done|]. eapply mm_free_weaken; [apply mm_free_refl|set_solver].
    by destruct Href as [(? & ? & _) _]. }
  apply NoDup_cons in Hnd as [Hvn Hnd]. apply Forall_cons in Hok as [Hv Hok].
  assert (v ∈ dom (ma_data_frames area)) as [f Hf]%elem_of_dom by (apply Hdf, list_elem_of_here).
  destruct (unmap_one_framed s area pt σ v f) as (s1 & Hu & Href1 & Hown1 & Hp1 & Hfree1);
    [done..|apply Hσ; set_solver|done|done|].
  set (area1 := set_data_frames area (delete v (ma_data_frames area))) in *.
  destruct (IH s1 area1 (delete v σ)) as (area2 & s2 & σ2 & gone & Hu2 & Hsh & Hd2 & Hs2 & Href2 & Hown2 & Hp2 & Hfree2);
    [done..| | |done|].
  { intros w Hw. rewrite lookup_delete_ne by set_solver. apply Hσ. set_solver. }
  { intros w Hw. simpl. rewrite dom_delete_L. specialize (Hdf w). set_solver. }
  assert (∀ A (m1 m2 : gmap VirtPageNum A), (∀ w, m2 !! w = if decide (w ∈ vpns) then None else delete v m1 !! w) →
    ∀ w, m2 !! w = if decide (w ∈ v :: vpns) then None else m1 !! w) as Hcons.
  { intros A m1 m2 Hm w. rewrite Hm. destruct (decide (w = v)) as [->|Hne].
    - rewrite lookup_delete_eq, (decide_True (P := v ∈ v :: vpns)) by set_solver. by case_decide.
    - rewrite lookup_delete_ne by done. repeat case_decide; set_solver. }
  exists area2, s2, σ2, (frame_num f :: gone). split.
  { cbn [MapArea_unmap_vpns]. unfold mbind, M_bind. by rewrite Hu, Hu2. }
  split; [done|]. split; [by apply Hcons|]. split; [by apply Hcons|]. split; [done|]. split; [done|].
  split; [rewrite Hp1; simpl; by rewrite Hp2|].
  eapply mm_free_weaken; [exact (mm_free_trans _ _ _ _ _ _ _ _ _ Hfree1 Hfree2)|set_solver].
Qed.
End Unmap.

(** * Removing an area *)

Lemma btree_values_empty : btree_values ∅ = [].
Proof. done. Qed.

Section Remove.
Context (l r : Z).

Lemma ms_owns s ms σ0 σ area :
  ms_inv l r s ms σ0 σ → area ∈ ms_areas ms → owns l s (ms_page_table ms) area.
Proof.
  intros Hinv Ha. pose proof (mi_nodup _ _ _ _ _ _ Hinv) as Hnd. pose proof (mi_live _ _ _ _ _ _ Hinv) as Hl.
  apply list_elem_of_split in Ha as (a1 & a2 & Heq). unfold ms_frames in *. rewrite Heq, bind_app, bind_cons in *. split.
  - rewrite (Permutation_app_swap_app (a1 ≫= area_frames)) in Hnd. rewrite app_assoc in Hnd.
    by apply NoDup_app in Hnd as (? & _).
  - intros x Hx. apply Hl. set_solver.
Qed.

Lemma area_pages_σ s ms σ0 σ area v :
  ms_inv l r s ms σ0 σ → area ∈ ms_areas ms → v ∈ area_vpns area → is_Some (σ !! v).
Proof.
  intros Hinv Ha Hv. pose proof (mi_areas _ _ _ _ _ _ Hinv) as Hok. rewrite Forall_forall in Hok.
  apply area_pages_dom in Hv as [e He]; [|by apply Hok]. exists e. apply (mi_view _ _ _ _ _ _ Hinv). eauto.
Qed.

(** The remaining areas after one is gone. *)
Lemma ms_inv_remove s ms σ0 σ before area after s' σ' :
  ms_inv l r s ms σ0 σ → ms_areas ms = before ++ area :: after →
  (∀ v, σ' !! v = if decide (v ∈ area_vpns area) then None else σ !! v) →
  pt_refines l r s' (ms_page_table ms) σ' →
  mm_free l r s s' (area_frames area) (frame_nums (frames (ms_page_table ms))) →
  ms_inv l r s' (MkMemorySet (ms_page_table ms) (before ++ after)) σ0 σ'.
Proof.
  intros [Hpt Hview Hareas Hvpns Hfixed Hnodup Hlive] Heq Hσ' Href Hfree.
  assert (area ∈ ms_areas ms) as Hin by (rewrite Heq; set_solver).
  assert (∀ v, v ∈ area_vpns area → v ∉ (before ++ after) ≫= area_vpns) as Hdis.
  { unfold ms_vpns in Hvpns. rewrite Heq, bind_app, bind_cons in Hvpns.
    rewrite (Permutation_app_swap_app (before ≫= area_vpns)), <- bind_app in Hvpns.
    apply NoDup_app in Hvpns as (_ & Hd & _). done. }
  assert (Forall area_ok (before ++ after)) as Hok.
  { rewrite Heq in Hareas. apply Forall_app in Hareas as [? [? ?]%Forall_cons]. by apply Forall_app. }
  assert (ms_frames ms ≡ₚ area_frames area ++ ms_frames (MkMemorySet (ms_page_table ms) (before ++ after))) as Hperm.
  { unfold ms_frames. cbn [ms_page_table ms_areas]. rewrite Heq, !bind_app, bind_cons. solve_Permutation. }
  split; cbn [ms_page_table ms_areas].
  - done.
  - intros v e. rewrite Hσ'. case_decide as Hv.
    + split; [done|]. intros [He|(a & Ha & He)].
      * rewrite Hfixed in He; [done|]. unfold ms_vpns. rewrite list_elem_of_bind. eauto.
      * exfalso. apply (Hdis v Hv). rewrite list_elem_of_bind. exists a. split; [|done].
        apply area_pages_dom; [by rewrite Forall_forall in Hok; apply Hok|eauto].
    + rewrite Hview, Heq. split; [|set_solver]. intros [He|(a & Ha & He)]; [by left|]. right.
      exists a. split; [|done]. apply elem_of_app in Ha as [Ha|[->|Ha]%elem_of_cons]; [set_solver| |set_solver].
      exfalso. apply Hv. apply area_pages_dom; [by rewrite Forall_forall in Hareas; apply Hareas|eauto].
  - done.
  - unfold ms_vpns in *. rewrite Heq, bind_app, bind_cons in Hvpns.
    rewrite (Permutation_app_swap_app (before ≫= area_vpns)), <- bind_app in Hvpns.
    by apply NoDup_app in Hvpns as (_ & _ & ?).
  - intros v Hv. apply Hfixed. unfold ms_vpns in *. rewrite Heq. cbn [ms_areas] in Hv.
    rewrite bind_app in *. rewrite bind_cons. set_solver.
  - rewrite Hperm in Hnodup. by apply NoDup_app in Hnodup as (_ & _ & ?).
  - intros x Hx. apply (mf_live _ _ _ _ _ _ Hfree). split; [apply Hlive; rewrite Hperm; set_solver|].
    rewrite Hperm in Hnodup. apply NoDup_app in Hnodup as (_ & Hd & _). intros Hx'. by apply (Hd x Hx').
Qed.

Lemma remove_area_ok s ms σ0 σ before area after :
  ms_inv l r s ms σ0 σ → ms_areas ms = before ++ area :: after → ma_map_type area = Framed →
  ∃ s' σ', remove_area ms before area after s = Ok (MkMemorySet (ms_page_table ms) (before ++ after), s') ∧
    (∀ v, σ' !! v = if decide (v ∈ area_vpns area) then None else σ !! v) ∧
    ms_inv l r s' (MkMemorySet (ms_page_table ms) (before ++ after)) σ0 σ' ∧
    mm_free l r s s' (area_frames area) (frame_nums (frames (ms_page_table ms))).
Proof.
  intros Hinv Heq Htype. assert (area ∈ ms_areas ms) as Hin by (rewrite Heq; set_solver).
  pose proof (mi_areas _ _ _ _ _ _ Hinv) as Hareas. rewrite Forall_forall in Hareas.
  destruct (Hareas area Hin) as (Hr & Hp & Ht). rewrite Htype in Ht. destruct Ht as [Hdom _].
  destruct (area_vpns_ok area Hr) as (Hnd & Hvok & _).
  destruct (unmap_vpns_framed l r (area_vpns area) s area (ms_page_table ms) σ)
    as (area' & s' & σ' & gone & Hu & Hsh & Hdf & Hσ' & Href & _ & Hperm & Hfree); [apply Hinv|done..| | |by eapply ms_owns|].
  { intros v Hv. by eapply area_pages_σ. }
  { intros v Hv. rewrite Hdom. by apply elem_of_list_to_set. }
  assert (ma_data_frames area' = ∅) as Hempty.
  { apply map_empty. intros v. rewrite Hdf. case_decide as Hv; [done|]. apply not_elem_of_dom.
    rewrite Hdom. by rewrite elem_of_list_to_set. }
  assert (area_frames area ≡ₚ gone) as Hg.
  { rewrite Hperm. unfold area_frames. rewrite Hempty. by rewrite map_to_list_empty, app_nil_r. }
  exists s', σ'. split.
  { unfold remove_area, mbind, M_bind, MapArea_unmap. fold (area_vpns area). rewrite Hu.
    unfold MapArea_drop. by rewrite Hempty. }
  split; [done|]. assert (mm_free l r s s' (area_frames area) (frame_nums (frames (ms_page_table ms)))) as Hfree'
    by (eapply mm_free_perm; [done|by rewrite Hg]).
  split; [|done]. by eapply ms_inv_remove.
Qed.

Definition area_is (start_va end_va : VirtAddr) (area : MapArea) : Prop :=
  get_start (ma_vpn_range area) = VirtAddr_floor start_va ∧ get_end (ma_vpn_range area) = VirtAddr_ceil end_va.

Lemma remove_framed_loop_ok ms start_va end_va before areas s :
  (∀ a, a ∈ before → ¬ area_is start_va end_va a) →
  (remove_framed_loop ms start_va end_va before areas s = Ok ((-1, ms), s) ∧
    ∀ a, a ∈ before ++ areas → ¬ area_is start_va end_va a) ∨
  ∃ b area after, before ++ areas = b ++ area :: after ∧ area_is start_va end_va area ∧
    remove_framed_loop ms start_va end_va before areas s =
      match remove_area ms b area after s with Ok (ms', s') => Ok ((0, ms'), s') | Err e => Err e end.
Proof.
  revert before. induction areas as [|a areas IH]; intros before Hb; cbn [remove_framed_loop].
  { left. split; [done|]. by rewrite app_nil_r. }
  case_decide as Ha; [right; by exists before, a, areas|].
  destruct (IH (before ++ [a])) as [[-> Hn]|(b & area & after & Heq & Hm & ->)].
  - intros a' [?|?%list_elem_of_singleton]%elem_of_app; [auto|by subst].
  - left. split; [done|]. intros a' Ha'. apply Hn. by rewrite <- app_assoc.
  - right. exists b, area, after. by rewrite <- app_assoc in Heq.
Qed.
End Remove.

(** * Dropping areas and whole spaces *)

Lemma btree_values_perm m : btree_values m ≡ₚ (map_to_list m).*2.
Proof. unfold btree_values. by rewrite merge_sort_Permutation. Qed.

Lemma MapArea_drop_ok l r s area :
  mm_ok l r s → NoDup (area_frames area) → (∀ x, x ∈ area_frames area → sfa_live l (mm_fa s) x) →
  ∃ s', MapArea_drop area s = Ok ((), s') ∧ mm_free l r s s' (area_frames area) [].
Proof.
  intros Hok Hnd Hl. unfold MapArea_drop.
  assert (frame_num <$> btree_values (ma_data_frames area) ≡ₚ area_frames area) as Hp
    by (unfold area_frames; by rewrite btree_values_perm).
  destruct (drop_frames_ok l r (btree_values (ma_data_frames area)) s) as (s' & Hd & Hf); [done|by rewrite Hp|..].
  { intros x. rewrite Hp. apply Hl. }
  exists s'. split; [done|]. by eapply mm_free_perm.
Qed.

Lemma drop_areas_ok l r areas s :
  mm_ok l r s → NoDup (areas ≫= area_frames) →
  (∀ x, x ∈ areas ≫= area_frames → sfa_live l (mm_fa s) x) →
  ∃ s', for_each MapArea_drop areas s = Ok ((), s') ∧ mm_free l r s s' (areas ≫= area_frames) [].
Proof.
  revert s. induction areas as [|a areas IH]; intros s Hok Hnd Hl.
  { exists s. split; [done|by apply mm_free_refl]. }
  rewrite bind_cons in *. apply NoDup_app in Hnd as (Hnd1 & Hdis & Hnd2).
  destruct (MapArea_drop_ok l r s a Hok Hnd1) as (s1 & Hd & Hfree1); [set_solver|].
  destruct (IH s1) as (s2 & Hd2 & Hfree2); [by destruct Hfree1|done| |].
  { intros x Hx. apply (mf_live _ _ _ _ _ _ Hfree1). split; [set_solver|]. intros Hx'. by apply (Hdis x). }
  exists s2. split; [cbn [for_each]; unfold mbind, M_bind; by rewrite Hd, Hd2|].
  exact (mm_free_trans _ _ _ _ _ _ _ _ _ Hfree1 Hfree2).
Qed.

Lemma MemorySet_drop_ok l r s ms σ0 σ :
  ms_inv l r s ms σ0 σ →
  ∃ s', MemorySet_drop ms s = Ok ((), s') ∧ mm_free l r s s' (ms_frames ms) [].
Proof.
  intros Hinv. pose proof (mi_nodup _ _ _ _ _ _ Hinv) as (Hnd1 & Hdis & Hnd2)%NoDup_app.
  pose proof (mi_live _ _ _ _ _ _ Hinv) as Hl. unfold ms_frames in *.
  destruct (drop_frames_ok l r (frames (ms_page_table ms)) s) as (s1 & Hd1 & Hfree1).
  { by destruct (mi_pt _ _ _ _ _ _ Hinv) as [(? & ? & _) _]. }
  { done. }
  { intros x Hx. apply Hl. apply elem_of_app. by left. }
  destruct (drop_areas_ok l r (ms_areas ms) s1) as (s2 & Hd2 & Hfree2); [by destruct Hfree1|done|..].
  { intros x Hx. apply (mf_live _ _ _ _ _ _ Hfree1). split; [apply Hl; set_solver|]. intros Hx'. by apply (Hdis x). }
  exists s2. split; [unfold MemorySet_drop, mbind, M_bind; by rewrite Hd1, Hd2|].
  exact (mm_free_trans _ _ _ _ _ _ _ _ _ Hfree1 Hfree2).
Qed.

Lemma recycle_data_pages_ok l r s ms σ0 σ :
  ms_inv l r s ms σ0 σ →
  ∃ s', MemorySet_recycle_data_pages ms s = Ok (MkMemorySet (ms_page_table ms) [], s') ∧
    mm_free l r s s' (ms_areas ms ≫= area_frames) [] ∧
    pt_refines l r s' (ms_page_table ms) σ.
Proof.
  intros Hinv. pose proof (mi_nodup _ _ _ _ _ _ Hinv) as (Hnd1 & Hdis & Hnd2)%NoDup_app.
  pose proof (mi_live _ _ _ _ _ _ Hinv) as Hl. unfold ms_frames in *.
  destruct (drop_areas_ok l r (ms_areas ms) s) as (s2 & Hd2 & Hfree2).
  { by destruct (mi_pt _ _ _ _ _ _ Hinv) as [(? & ? & _) _]. }
  { done. }
  { intros x Hx. apply Hl. set_solver. }
  exists s2. split; [unfold MemorySet_recycle_data_pages, mbind, M_bind; by rewrite Hd2|]. split; [done|].
  eapply pt_refines_free; [apply Hinv|done|]. intros x Hx. split; [by apply Hdis|set_solver].
Qed.

(** A space whose frames are neither freed nor written keeps its invariant. *)
Lemma ms_inv_frame l r s s' new d ms σ0 σ :
  ms_inv l r s ms σ0 σ → mm_step l r s s' new d →
  (∀ x, x ∈ frame_nums (frames (ms_page_table ms)) → x ∉ d) → ms_inv l r s' ms σ0 σ.
Proof.
  intros [Hpt Hview Hareas Hvpns Hfixed Hnodup Hlive] Hst Hd. split; try done.
  - by eapply pt_refines_frame.
  - intros x Hx. apply (mm_live _ _ _ _ _ _ Hst). auto.
Qed.

Lemma ms_inv_free l r s s' gone d ms σ0 σ :
  ms_inv l r s ms σ0 σ → mm_free l r s s' gone d →
  (∀ x, x ∈ ms_frames ms → x ∉ gone) →
  (∀ x, x ∈ frame_nums (frames (ms_page_table ms)) → x ∉ d) → ms_inv l r s' ms σ0 σ.
Proof.
  intros [Hpt Hview Hareas Hvpns Hfixed Hnodup Hlive] Hst Hg Hd. split; try done.
  - eapply pt_refines_free; [done|done|]. intros x Hx. split; [|auto]. apply Hg. unfold ms_frames. set_solver.
  - intros x Hx. apply (mf_live _ _ _ _ _ _ Hst). auto.
Qed.
