(* ===== verification/AddressSpace.v ===== *)
(** Contracts of the address spaces of [os/src/mm/memory_set.rs]: what mapping, unmapping
    and dropping areas does to the pages a program sees and to the frames it owns, and
    the copy [fork] makes of an address space. *)

From S2P Require Import Prelude Config Address Allocator FrameAllocator PhysMem PageTable PageTableSpec MemorySet MemorySetSpec.

(** * What a program sees *)

(** The bytes and the flags of a page, through the page table. *)
Definition user_page (m : memory) (ms : MemorySet) (v : VirtPageNum) : option (list Z) :=
  (λ e, get_bytes_array m (PageTableEntry_ppn e)) <$> MemorySet_translate m ms v.
Definition user_flags (m : memory) (ms : MemorySet) (v : VirtPageNum) : option PTEFlags :=
  PageTableEntry_flags <$> MemorySet_translate m ms v.

Lemma area_entry_fields perm f :
  perm_ok perm → 0 ≤ frame_num f < 2 ^ 44 →
  PageTableEntry_ppn (area_entry perm f) = ft_ppn f ∧
  PageTableEntry_flags (area_entry perm f) = Z.lor perm PTEFlags_V.
Proof.
  intros Hp Hf. unfold area_entry. destruct (lor_V perm Hp) as [Hfl _]. unfold frame_num in Hf.
  pose proof (PageTableEntry_new_bits (ft_ppn f) _ Hf Hfl) as Hb. rewrite PageTableEntry_flags_eq.
  destruct (PageTableEntry_new _ _) as [b]. cbn [pte_bits] in *. subst b.
  rewrite PageTableEntry_ppn_eq, pte_next_new by done. split; [by destruct (ft_ppn f)|].
  replace (ppn_0 (ft_ppn f) * 1024 + Z.lor perm PTEFlags_V)
    with (Z.lor perm PTEFlags_V + ppn_0 (ft_ppn f) * 4 * 256) by lia.
  rewrite Z_mod_plus_full. by apply Z.mod_small.
Qed.

Lemma area_frames_elem area v f : ma_data_frames area !! v = Some f → frame_num f ∈ area_frames area.
Proof.
  intros Hf. unfold area_frames. apply list_elem_of_fmap. exists f. split; [done|].
  apply list_elem_of_fmap. exists (v, f). split; [done|]. by apply elem_of_map_to_list.
Qed.

Lemma area_frames_inj area v w f g :
  NoDup (area_frames area) → ma_data_frames area !! v = Some f → ma_data_frames area !! w = Some g →
  frame_num f = frame_num g → v = w.
Proof.
  intros Hnd Hf Hg Heq. destruct (decide (v = w)) as [|Hne]; [done|]. exfalso.
  unfold area_frames in Hnd. rewrite <- (map_to_list_delete _ _ _ Hf), !fmap_cons in Hnd.
  apply NoDup_cons in Hnd as [Hn _]. apply Hn. cbn [snd]. rewrite Heq.
  assert (delete v (ma_data_frames area) !! w = Some g) as Hg' by (by rewrite lookup_delete_ne).
  apply list_elem_of_fmap. exists g. split; [done|]. apply list_elem_of_fmap.
  exists (w, g). split; [done|]. by apply elem_of_map_to_list.
Qed.

Lemma translate_view m pt v e : pt_view m pt v = Some e → PageTable_translate m pt v = Some e.
Proof.
  unfold pt_view. destruct (PageTable_translate m pt v) as [e'|]; [|done]. simpl.
  destruct (PageTableEntry_is_valid e'); [|done]. by intros [= ->].
Qed.

Section Views.
Context (l r : Z).

Lemma ms_area_nodup s ms σ0 σ area :
  ms_inv l r s ms σ0 σ → area ∈ ms_areas ms → NoDup (area_frames area).
Proof. intros Hinv Ha. by destruct (ms_owns l r _ _ _ _ _ Hinv Ha) as [(_ & _ & ?)%NoDup_app _]. Qed.

Lemma area_frames_ms ms area x : area ∈ ms_areas ms → x ∈ area_frames area → x ∈ ms_frames ms.
Proof. intros Ha Hx. unfold ms_frames. rewrite elem_of_app, list_elem_of_bind. eauto. Qed.

Lemma area_not_pt s ms σ0 σ area x :
  ms_inv l r s ms σ0 σ → area ∈ ms_areas ms → x ∈ area_frames area →
  x ∉ frame_nums (frames (ms_page_table ms)).
Proof.
  intros Hinv Ha Hx Hpt. destruct (ms_owns l r _ _ _ _ _ Hinv Ha) as [(_ & Hd & _)%NoDup_app _].
  by apply (Hd x).
Qed.

(** A page of a framed area: the entry, the frame and what the program sees. *)
Lemma framed_page s ms σ0 σ area v :
  ms_inv l r s ms σ0 σ → area ∈ ms_areas ms → ma_map_type area = Framed → v ∈ area_vpns area →
  ∃ f, ma_data_frames area !! v = Some f ∧ 0 ≤ frame_num f < 2 ^ 44 ∧
    σ !! v = Some (area_entry (ma_map_perm area) f) ∧
    MemorySet_translate (mm_mem s) ms v = Some (area_entry (ma_map_perm area) f) ∧
    PageTableEntry_ppn (area_entry (ma_map_perm area) f) = ft_ppn f ∧
    user_page (mm_mem s) ms v = Some (get_bytes_array (mm_mem s) (ft_ppn f)) ∧
    user_flags (mm_mem s) ms v = Some (Z.lor (ma_map_perm area) PTEFlags_V).
Proof.
  intros Hinv Ha Ht Hv. pose proof (mi_areas _ _ _ _ _ _ Hinv) as Hok. rewrite Forall_forall in Hok.
  destruct (Hok _ Ha) as (Hr & Hp & Hf). rewrite Ht in Hf. destruct Hf as [Hdom Hall].
  assert (is_Some (ma_data_frames area !! v)) as [f Hf].
  { apply elem_of_dom. rewrite Hdom. by apply elem_of_list_to_set. }
  assert (σ !! v = Some (area_entry (ma_map_perm area) f)) as Hσ.
  { apply (mi_view _ _ _ _ _ _ Hinv). right. exists area. split; [done|]. unfold area_pages.
    by rewrite Ht, lookup_fmap, Hf. }
  assert (vpn_ok v) as Hvok.
  { destruct (area_vpns_ok area Hr) as (_ & Hvs & _). rewrite Forall_forall in Hvs. auto. }
  destruct (mi_pt _ _ _ _ _ _ Hinv) as [_ Hview].
  assert (MemorySet_translate (mm_mem s) ms v = Some (area_entry (ma_map_perm area) f)) as Htr.
  { apply translate_view. by rewrite Hview. }
  destruct (area_entry_fields (ma_map_perm area) f Hp (Hall _ _ Hf)) as [Hppn Hfl].
  exists f. split; [done|]. split; [by eapply Hall|]. split; [done|]. split; [done|]. split; [done|].
  unfold user_page, user_flags. rewrite Htr. simpl. by rewrite Hppn, Hfl.
Qed.

(** The pages of a space survive steps that do not write its frames. *)
Lemma user_page_step s s' new d ms σ0 σ area v :
  ms_inv l r s ms σ0 σ → area ∈ ms_areas ms → ma_map_type area = Framed → v ∈ area_vpns area →
  mm_step l r s s' new d → (∀ x, x ∈ ms_frames ms → x ∉ d) →
  user_page (mm_mem s') ms v = user_page (mm_mem s) ms v.
Proof.
  intros Hinv Ha Ht Hv Hst Hd.
  assert (ms_inv l r s' ms σ0 σ) as Hinv'.
  { eapply ms_inv_frame; [done|done|]. intros x Hx. apply Hd. unfold ms_frames. apply elem_of_app. by left. }
  destruct (framed_page _ _ _ _ _ _ Hinv Ha Ht Hv) as (f & Hf & H44 & Hσ & _ & _ & -> & _).
  destruct (framed_page _ _ _ _ _ _ Hinv' Ha Ht Hv) as (f' & Hf' & _ & _ & _ & _ & -> & _).
  rewrite Hf in Hf'. injection Hf' as <-. f_equal. eapply page_same; [done|done|].
  apply Hd. eapply area_frames_ms; [done|]. by eapply area_frames_elem.
Qed.

(** A page keeps its frame, so also its contents, while the table grows around it. *)
Lemma kept_page s1 s2 new d ms1 σ01 σ1 ms2 σ02 σ2 a v :
  ms_inv l r s1 ms1 σ01 σ1 → ms_inv l r s2 ms2 σ02 σ2 → mm_step l r s1 s2 new d →
  (∀ x, x ∈ d → x ∈ new ∨ x ∈ frame_nums (frames (ms_page_table ms1))) →
  a ∈ ms_areas ms1 → a ∈ ms_areas ms2 → ma_map_type a = Framed → v ∈ area_vpns a →
  user_page (mm_mem s2) ms2 v = user_page (mm_mem s1) ms1 v ∧
  user_flags (mm_mem s2) ms2 v = user_flags (mm_mem s1) ms1 v.
Proof.
  intros H1 H2 Hst Hdirty Ha Ha2 Ht Hv.
  destruct (framed_page _ _ _ _ _ _ H1 Ha Ht Hv) as (f & Hf & H44 & _ & _ & _ & -> & ->).
  destruct (framed_page _ _ _ _ a v H2) as (g & Hg & _ & _ & _ & _ & -> & ->); [done..|].
  rewrite Hf in Hg. injection Hg as <-. split; [|done]. f_equal. eapply page_same; [done|done|].
  pose proof (area_frames_elem _ _ _ Hf) as Hin. intros [Hx|Hx]%Hdirty.
  - apply (mm_fresh _ _ _ _ _ _ Hst _ Hx), (mi_live _ _ _ _ _ _ H1). by eapply area_frames_ms.
  - by eapply (area_not_pt s1 ms1 σ01 σ1 a).
Qed.

(** [dst.copy_from_slice(src)] on whole pages *)
Lemma copy_page_step s p bytes :
  mm_ok l r s → 0 ≤ ppn_0 p < 2 ^ 44 → length bytes = Z.to_nat 4096 → Forall is_byte bytes →
  let s' := MkMM (set_bytes_array (mm_mem s) p bytes) (mm_fa s) in
  mm_step l r s s' [] [ppn_0 p] ∧ get_bytes_array (mm_mem s') p = bytes.
Proof.
  intros [Hfa Hm] Hp Hlen Hb. cbv zeta. unfold set_bytes_array, get_bytes_array. cbn [mm_mem].
  rewrite page_addr_eq by done. split; [|apply read_bytes_write_eq; lia].
  split; cbn [mm_mem mm_fa]; [done|by apply write_bytes_wf|set_solver|set_solver|constructor|simpl; lia|].
  intros a Ha. apply read_u8_write_bytes_out. intros Hin. apply Ha, list_elem_of_singleton, page_of. lia.
Qed.
End Views.

(** * The copy of an address space *)

Section Fork.
Context (l r : Z).

(** The frames of the pages [vpns] of an area. *)
Definition frames_of (area : MapArea) (vpns : list VirtPageNum) (d : list Z) : Prop :=
  ∀ x, x ∈ d → ∃ w f, w ∈ vpns ∧ ma_data_frames area !! w = Some f ∧ x = frame_num f.

Lemma copy_page_ok s src σs0 σs a dst σd0 σd a' v :
  ms_inv l r s src σs0 σs → ms_inv l r s dst σd0 σd →
  a ∈ ms_areas src → ma_map_type a = Framed → v ∈ area_vpns a →
  a' ∈ ms_areas dst → ma_map_type a' = Framed → v ∈ area_vpns a' →
  ∃ s' f', copy_pages src dst [v] s = Ok ((), s') ∧ ma_data_frames a' !! v = Some f' ∧
    mm_step l r s s' [] [frame_num f'] ∧
    user_page (mm_mem s') dst v = user_page (mm_mem s) src v.
Proof.
  intros Hs Hd Ha Ht Hv Ha' Ht' Hv'.
  destruct (framed_page l r _ _ _ _ _ _ Hs Ha Ht Hv) as (f & Hf & H44 & _ & Htr & Hppn & Hpage & _).
  destruct (framed_page l r _ _ _ _ _ _ Hd Ha' Ht' Hv') as (f' & Hf' & H44' & _ & Htr' & Hppn' & _ & _).
  assert (mm_ok l r s) as Hok by (by destruct (mi_pt _ _ _ _ _ _ Hs) as [(? & ? & _) _]).
  destruct (copy_page_step l r s (ft_ppn f') (get_bytes_array (mm_mem s) (ft_ppn f)) Hok H44') as [Hst Hget].
  { unfold get_bytes_array, read_bytes. by rewrite length_fmap, length_seqZ. }
  { apply read_bytes_wf, Hok. }
  eexists _, f'. split.
  { cbn [copy_pages]. unfold mbind, M_bind, get_state, lift, put_state. rewrite Htr, Htr'. cbn [unwrap].
    by rewrite Hppn, Hppn'. }
  split; [done|]. split; [done|].
  assert (ms_inv l r (MkMM (set_bytes_array (mm_mem s) (ft_ppn f') (get_bytes_array (mm_mem s) (ft_ppn f))) (mm_fa s))
            dst σd0 σd) as Hd'.
  { eapply ms_inv_frame; [done|done|]. intros x Hx ->%list_elem_of_singleton.
    eapply area_not_pt; [exact Hd|exact Ha'|by eapply area_frames_elem|done]. }
  destruct (framed_page l r _ _ _ _ _ _ Hd' Ha' Ht' Hv') as (g & Hg & _ & _ & _ & _ & -> & _).
  rewrite Hf' in Hg. injection Hg as <-. by rewrite Hget, Hpage.
Qed.

Lemma copy_pages_ok vpns s src σs0 σs a dst σd0 σd a' :
  ms_inv l r s src σs0 σs → ms_inv l r s dst σd0 σd →
  a ∈ ms_areas src → ma_map_type a = Framed → a' ∈ ms_areas dst → ma_map_type a' = Framed →
  (∀ x, x ∈ ms_frames src → x ∉ area_frames a') →
  NoDup vpns → (∀ v, v ∈ vpns → v ∈ area_vpns a ∧ v ∈ area_vpns a') →
  ∃ s' d, copy_pages src dst vpns s = Ok ((), s') ∧ mm_step l r s s' [] d ∧ frames_of a' vpns d ∧
    ∀ v, v ∈ vpns → user_page (mm_mem s') dst v = user_page (mm_mem s) src v.
Proof.
  intros Hs Hd Ha Ht Ha' Ht' Hdis. revert s Hs Hd. induction vpns as [|v vpns IH]; intros s Hs Hd Hnd Hin.
  { exists s, []. split; [done|]. split; [|split; [by intros x Hx%not_elem_of_nil|by intros x Hx%not_elem_of_nil]].
    apply mm_step_refl. by destruct (mi_pt _ _ _ _ _ _ Hs) as [(? & ? & _) _]. }
  apply NoDup_cons in Hnd as [Hvn Hnd].
  destruct (Hin v (list_elem_of_here _ _)) as [Hv Hv'].
  destruct (copy_page_ok s src σs0 σs a dst σd0 σd a' v) as (s1 & f' & Hc & Hf' & Hst1 & Hpage); [done..|].
  pose proof (area_frames_elem _ _ _ Hf') as Hfin.
  assert (∀ x, x ∈ ms_frames src → x ∉ [frame_num f']) as Hsrc.
  { intros x Hx ->%list_elem_of_singleton. by apply (Hdis _ Hx). }
  assert (ms_inv l r s1 src σs0 σs) as Hs1.
  { eapply ms_inv_frame; [done|done|]. intros x Hx. apply Hsrc. apply elem_of_app. by left. }
  assert (ms_inv l r s1 dst σd0 σd) as Hd1.
  { eapply ms_inv_frame; [done|done|]. intros x Hx ->%list_elem_of_singleton.
    by eapply (area_not_pt l r s dst σd0 σd a'). }
  destruct (IH s1 Hs1 Hd1 Hnd) as (s2 & d & Hc2 & Hst2 & Hfr & Hpages).
  { intros w Hw. apply Hin. by apply list_elem_of_further. }
  exists s2, (frame_num f' :: d). split.
  { cbn [copy_pages] in *. revert Hc. unfold mbind, M_bind, get_state, lift, put_state.
    destruct (unwrap _) as [se|]; [|done]. destruct (unwrap _) as [de|]; [|done]. simpl.
    intros [= <-]. exact Hc2. }
  split; [exact (mm_step_trans _ _ _ _ _ _ _ _ _ Hst1 Hst2)|]. split.
  { intros x [->|Hx]%elem_of_cons; [exists v, f'; split; [apply list_elem_of_here|done]|].
    destruct (Hfr x Hx) as (w & f & Hw & ?). exists w, f. split; [by apply list_elem_of_further|done]. }
  intros w [->|Hw]%elem_of_cons.
  - rewrite <- Hpage. destruct (framed_page l r _ _ _ _ _ _ Hd1 Ha' Ht' Hv') as (g & Hg & H44 & _ & _ & _ & -> & _).
    rewrite Hf' in Hg. injection Hg as <-.
    assert (∀ x, x ∈ d → x ≠ frame_num f') as Hd_ne.
    { intros x Hx ->. destruct (Hfr _ Hx) as (w & f & Hw & Hwf & Heq).
      by rewrite (area_frames_inj a' v w f' f (ms_area_nodup l r _ _ _ _ _ Hd Ha') Hf' Hwf Heq) in Hvn. }
    assert (ms_inv l r s2 dst σd0 σd) as Hd2.
    { eapply ms_inv_frame; [done|done|]. intros x Hx Hxd. destruct (Hfr _ Hxd) as (w & f & _ & Hwf & ->).
      eapply (area_not_pt l r s dst σd0 σd a'); [done|done|by eapply area_frames_elem|done]. }
    destruct (framed_page l r _ _ _ _ _ _ Hd2 Ha' Ht' Hv') as (g & Hg & _ & _ & _ & _ & -> & _).
    rewrite Hf' in Hg. injection Hg as <-. f_equal. eapply page_same; [done|done|].
    intros Hx. by apply (Hd_ne _ Hx).
  - rewrite Hpages by done. apply (user_page_step l r s s1 [] [frame_num f'] src σs0 σs a w); try done.
    apply Hin. by apply list_elem_of_further.
Qed.

Lemma length_area_frames area :
  area_ok area → ma_map_type area = Framed → length (area_frames area) = length (area_vpns area).
Proof.
  intros (Hr & _ & Ht) Hfr. rewrite Hfr in Ht. destruct Ht as [Hdom _].
  destruct (area_vpns_ok area Hr) as (Hnd & _ & _). unfold area_frames.
  rewrite !length_fmap, length_map_to_list, <- size_dom, Hdom. by apply size_list_to_set.
Qed.

Lemma from_another_ok area :
  range_ok (ma_vpn_range area) →
  MapArea_from_another area = Ok (MkMapArea (ma_vpn_range area) ∅ (ma_map_type area) (ma_map_perm area)).
Proof.
  intros [Hr _]. unfold MapArea_from_another, SimpleRange_new, mbind, res_bind, le_b, VirtPageNum_ord. simpl.
  rewrite bool_decide_true by lia. by destruct (ma_vpn_range area).
Qed.

(** The effect of copying some areas of [src] into [dst]. *)
Record copied (s : MM) (src dst : MemorySet) (todo : list MapArea) (s' : MM) (dst' : MemorySet)
    (as' : list MapArea) (new d : list Z) : Prop := {
  cp_areas : ms_areas dst' = ms_areas dst ++ as';
  cp_shape : Forall2 same_shape as' todo;
  cp_step : mm_step l r s s' new d;
  cp_dirty x : x ∈ d → x ∈ new ∨ x ∈ frame_nums (frames (ms_page_table dst));
  cp_frames : ms_frames dst' ≡ₚ ms_frames dst ++ new;
  cp_pages v : v ∈ todo ≫= area_vpns →
    user_page (mm_mem s') dst' v = user_page (mm_mem s) src v ∧
    user_flags (mm_mem s') dst' v = user_flags (mm_mem s) src v;
}.

(** One area: map fresh frames and copy the pages. *)
Lemma copy_area_ok s src σs0 σs dst σd0 σd area :
  ms_inv l r s src σs0 σs → ms_inv l r s dst σd0 σd →
  (∀ x, x ∈ ms_frames src → x ∉ ms_frames dst) →
  area ∈ ms_areas src → ma_map_type area = Framed →
  (∀ v, v ∈ area_vpns area → σd !! v = None) →
  3 * Z.of_nat (length (area_vpns area)) ≤ sfa_avail (mm_fa s) →
  ∃ s1 s2 dst' area' new d,
    MemorySet_push dst (MkMapArea (ma_vpn_range area) ∅ (ma_map_type area) (ma_map_perm area)) None s = Ok (dst', s1) ∧
    copy_pages src dst' (VPNRange_vpns (ma_vpn_range area)) s1 = Ok ((), s2) ∧
    ms_inv l r s2 src σs0 σs ∧ ms_inv l r s2 dst' σd0 (area_pages area' ∪ σd) ∧
    copied s src dst [area] s2 dst' [area'] new d ∧
    (length new ≤ 3 * length (area_vpns area))%nat.
Proof.
  intros Hs Hd Hdis Ha Ht Hnone Hav. pose proof (mi_areas _ _ _ _ _ _ Hs) as Hok. rewrite Forall_forall in Hok.
  pose proof (Hok _ Ha) as (Hr & Hp & _). set (na := MkMapArea _ _ _ _).
  destruct (push_framed_ok l r s dst σd0 σd na) as (area' & dst' & s1 & new & Hpush & Has & Hsh & Hd1 & Hst1 & Hfr & Hnew & _);
    [done..|]. change (area_vpns na) with (area_vpns area) in *.
  assert (area' ∈ ms_areas dst') as Ha' by (rewrite Has; set_solver).
  destruct Hsh as (Hsr & Hst & Hsp). cbn in Hsr, Hst, Hsp. assert (ma_map_type area' = Framed) as Ht' by congruence.
  assert (area_vpns area' = area_vpns area) as Hvp by (unfold area_vpns; by rewrite Hsr).
  assert (∀ x, x ∈ ms_frames src → x ∉ area_frames area' ++ frame_nums (frames (ms_page_table dst'))) as Hsd.
  { intros x Hx Hx'. assert (x ∈ (area_frames area' ++ new) ++ ms_frames dst) as Hx2.
    { rewrite Hfr in Hx'. unfold ms_frames. clear -Hx'. set_solver. }
    apply elem_of_app in Hx2 as [Hx2|Hx2]; [|by apply (Hdis x)].
    by apply (mm_fresh _ _ _ _ _ _ Hst1 x Hx2), (mi_live _ _ _ _ _ _ Hs). }
  assert (ms_inv l r s1 src σs0 σs) as Hs1.
  { eapply ms_inv_frame; [done|done|]. intros x Hx. apply Hsd. apply elem_of_app. by left. }
  destruct (area_vpns_ok area Hr) as (Hnd & _ & _).
  destruct (copy_pages_ok (area_vpns area) s1 src σs0 σs area dst' σd0 _ area' Hs1 Hd1)
    as (s2 & d & Hcp & Hst2 & Hof & Hpages); [done..| |done|by rewrite Hvp|].
  { intros x Hx Hx'. apply (Hsd x Hx). apply elem_of_app. by left. }
  assert (∀ x, x ∈ d → x ∈ area_frames area') as Hdin.
  { intros x Hx. destruct (Hof _ Hx) as (w & f & _ & Hf & ->). by eapply area_frames_elem. }
  assert (ms_inv l r s2 dst' σd0 (area_pages area' ∪ σd)) as Hd2.
  { eapply ms_inv_frame; [done|done|]. intros x Hx Hxd. eapply area_not_pt; [exact Hd1|exact Ha'|by apply Hdin|done]. }
  exists s1, s2, dst', area', (area_frames area' ++ new), ((area_frames area' ++ frame_nums (frames (ms_page_table dst'))) ++ d).
  split; [done|]. split; [done|]. split.
  { eapply ms_inv_frame; [done|done|]. intros x Hx Hxd. apply (Hsd x).
    { apply elem_of_app. by left. } apply elem_of_app. left. auto. }
  split; [done|]. split; [split|].
  - done.
  - by repeat constructor.
  - rewrite <- (app_nil_r (area_frames area' ++ new)). exact (mm_step_trans _ _ _ _ _ _ _ _ _ Hst1 Hst2).
  - intros x. rewrite Hfr. clear -Hdin. set_solver.
  - unfold ms_frames. rewrite Hfr, Has, bind_app. simpl. rewrite app_nil_r. solve_Permutation.
  - intros v. simpl. rewrite app_nil_r. intros Hv. rewrite Hpages by done.
    destruct (framed_page l r _ _ _ _ _ _ Hs Ha Ht Hv) as (_ & _ & _ & _ & _ & _ & _ & ->).
    destruct (framed_page l r _ _ _ _ _ v Hd2 Ha' Ht') as (_ & _ & _ & _ & _ & _ & _ & ->); [by rewrite Hvp|].
    split; [|by rewrite Hsp].
    eapply user_page_step; [exact Hs|exact Ha|exact Ht|exact Hv|exact Hst1|exact Hsd].
  - assert (area_ok area') as Hok'.
    { pose proof (mi_areas _ _ _ _ _ _ Hd2) as Hall. rewrite Forall_forall in Hall. auto. }
    rewrite length_app, length_area_frames, Hvp by done. lia.
Qed.

(** Later copies leave the pages copied before alone. *)
Lemma copied_keeps s1 src dst1 σ0 σ1 todo s2 dst2 σ2 as2 new d a' v :
  copied s1 src dst1 todo s2 dst2 as2 new d → ms_inv l r s1 dst1 σ0 σ1 → ms_inv l r s2 dst2 σ0 σ2 →
  a' ∈ ms_areas dst1 → ma_map_type a' = Framed → v ∈ area_vpns a' →
  user_page (mm_mem s2) dst2 v = user_page (mm_mem s1) dst1 v ∧
  user_flags (mm_mem s2) dst2 v = user_flags (mm_mem s1) dst1 v.
Proof.
  intros [Has _ Hst Hdirty _ _] H1 H2 Ha Ht Hv.
  apply (kept_page l r s1 s2 new d dst1 σ0 σ1 dst2 σ0 σ2 a' v); try done. rewrite Has. apply elem_of_app. by left.
Qed.

Lemma src_keeps s src σs0 σs dst todo s1 dst1 as1 new d a v :
  copied s src dst todo s1 dst1 as1 new d → ms_inv l r s src σs0 σs → ms_inv l r s1 src σs0 σs →
  (∀ x, x ∈ ms_frames src → x ∉ ms_frames dst) →
  a ∈ ms_areas src → ma_map_type a = Framed → v ∈ area_vpns a →
  user_page (mm_mem s1) src v = user_page (mm_mem s) src v ∧
  user_flags (mm_mem s1) src v = user_flags (mm_mem s) src v.
Proof.
  intros [_ _ Hst Hdirty _ _] Hs Hs1 Hdis Ha Ht Hv. split.
  - eapply user_page_step; [exact Hs|exact Ha|exact Ht|exact Hv|exact Hst|]. intros x Hx [Hx'|Hx']%Hdirty.
    + by apply (mm_fresh _ _ _ _ _ _ Hst _ Hx'), (mi_live _ _ _ _ _ _ Hs).
    + apply (Hdis x Hx). apply elem_of_app. by left.
  - destruct (framed_page l r _ _ _ _ _ _ Hs Ha Ht Hv) as (_ & _ & _ & _ & _ & _ & _ & ->).
    by destruct (framed_page l r _ _ _ _ _ _ Hs1 Ha Ht Hv) as (_ & _ & _ & _ & _ & _ & _ & ->).
Qed.

Lemma copied_trans s src σs0 σs dst t1 s1 dst1 σ0 σ1 as1 n1 d1 t2 s2 dst2 σ2 as2 n2 d2 :
  ms_inv l r s src σs0 σs → ms_inv l r s1 src σs0 σs →
  ms_inv l r s1 dst1 σ0 σ1 → ms_inv l r s2 dst2 σ0 σ2 →
  (∀ x, x ∈ ms_frames src → x ∉ ms_frames dst) →
  Forall (λ a, a ∈ ms_areas src ∧ ma_map_type a = Framed) (t1 ++ t2) →
  copied s src dst t1 s1 dst1 as1 n1 d1 → copied s1 src dst1 t2 s2 dst2 as2 n2 d2 →
  copied s src dst (t1 ++ t2) s2 dst2 (as1 ++ as2) (n1 ++ n2) (d1 ++ d2).
Proof.
  intros Hs Hs1 Hd1 Hd2 Hdis Hall H1 H2. rewrite Forall_forall in Hall.
  pose proof H1 as [Has1 Hsh1 Hst1 Hdi1 Hfr1 Hpg1]. pose proof H2 as [Has2 Hsh2 Hst2 Hdi2 Hfr2 Hpg2]. split.
  - by rewrite Has2, Has1, app_assoc.
  - by apply Forall2_app.
  - exact (mm_step_trans _ _ _ _ _ _ _ _ _ Hst1 Hst2).
  - intros x [Hx|Hx]%elem_of_app; [destruct (Hdi1 x Hx); set_solver|].
    destruct (Hdi2 x Hx) as [?|Hpt]; [set_solver|].
    assert (x ∈ ms_frames dst ++ n1) as [Hx'|?]%elem_of_app; [|..|set_solver].
    { rewrite <- Hfr1. unfold ms_frames. set_solver. }
    apply elem_of_app in Hx' as [?|Hx']; [by right|]. exfalso.
    apply list_elem_of_bind in Hx' as (a & Hxa & Ha).
    eapply (area_not_pt l r s1 dst1 σ0 σ1 a x Hd1); [rewrite Has1; set_solver|done|done].
  - rewrite Hfr2, Hfr1. by rewrite app_assoc.
  - intros v. rewrite bind_app, elem_of_app. intros [Hv|Hv].
    + destruct (Hpg1 v Hv) as [<- <-]. apply list_elem_of_bind in Hv as (a & Hva & Ha).
      apply list_elem_of_lookup in Ha as [i Hi]. destruct (Forall2_lookup_r _ _ _ _ _ Hsh1 Hi) as (a' & Hi' & Hr & Ht & _).
      destruct (Hall a) as [_ HtF]; [apply elem_of_app; left; by eapply list_elem_of_lookup_2|].
      apply (copied_keeps s1 src dst1 σ0 σ1 t2 s2 dst2 σ2 as2 n2 d2 a' v); [done|done|done| |by rewrite Ht|].
      * rewrite Has1. apply elem_of_app. right. by eapply list_elem_of_lookup_2.
      * unfold area_vpns. by rewrite Hr.
    + destruct (Hpg2 v Hv) as [-> ->]. apply list_elem_of_bind in Hv as (a & Hva & Ha).
      destruct (Hall a) as [? ?]; [apply elem_of_app; by right|]. by eapply src_keeps.
Qed.

Lemma copy_areas_ok src σs0 σs σd0 todo s dst σd :
  ms_inv l r s src σs0 σs → ms_inv l r s dst σd0 σd →
  (∀ x, x ∈ ms_frames src → x ∉ ms_frames dst) →
  Forall (λ a, a ∈ ms_areas src ∧ ma_map_type a = Framed) todo → NoDup (todo ≫= area_vpns) →
  (∀ v, v ∈ todo ≫= area_vpns → σd !! v = None) →
  3 * Z.of_nat (length (todo ≫= area_vpns)) ≤ sfa_avail (mm_fa s) →
  ∃ s' dst' σd' as' new d, copy_areas src dst todo s = Ok (dst', s') ∧
    ms_inv l r s' src σs0 σs ∧ ms_inv l r s' dst' σd0 σd' ∧ copied s src dst todo s' dst' as' new d ∧
    (length new ≤ 3 * length (todo ≫= area_vpns))%nat.
Proof.
  revert s dst σd. induction todo as [|area todo IH]; intros s dst σd Hs Hd Hdis Hall Hnd Hnone Hav.
  { exists s, dst, σd, [], [], []. split; [done|]. split; [done|]. split; [done|].
    split; [|done]. split; [by rewrite app_nil_r|constructor| |set_solver|by rewrite app_nil_r|by intros v Hv%not_elem_of_nil].
    apply mm_step_refl. by destruct (mi_pt _ _ _ _ _ _ Hs) as [(? & ? & _) _]. }
  pose proof Hall as [[Ha Ht] Hall']%Forall_cons. rewrite bind_cons in *. rewrite length_app in Hav.
  apply NoDup_app in Hnd as (_ & Hvd & Hnd).
  destruct (copy_area_ok s src σs0 σs dst σd0 σd area) as (s1 & s2 & dst1 & area' & n1 & d1 & Hpush & Hcp & Hs2 & Hd2 & Hc1 & Hn1);
    [done..|set_solver|lia|].
  pose proof (cp_step _ _ _ _ _ _ _ _ _ Hc1) as Hst1. pose proof (cp_frames _ _ _ _ _ _ _ _ _ Hc1) as Hfr1.
  destruct (IH s2 dst1 _ Hs2 Hd2) as (s3 & dst3 & σd3 & as3 & n2 & d2 & Hrun & Hs3 & Hd3 & Hc2 & Hn2); [| done|done| | |].
  { intros x Hx. rewrite Hfr1. intros [?|Hn]%elem_of_app; [by apply (Hdis x)|].
    by apply (mm_fresh _ _ _ _ _ _ Hst1 x Hn), (mi_live _ _ _ _ _ _ Hs). }
  { intros v Hv. apply lookup_union_None. split; [|apply Hnone; set_solver].
    apply eq_None_not_Some. intros Hsome. apply (Hvd v); [|done].
    pose proof (cp_shape _ _ _ _ _ _ _ _ _ Hc1) as Hsh. apply Forall2_cons in Hsh as [(Hr & _) _].
    replace (area_vpns area) with (area_vpns area') by (unfold area_vpns; by rewrite Hr).
    apply area_pages_dom; [|done]. pose proof (mi_areas _ _ _ _ _ _ Hd2) as Hok. rewrite Forall_forall in Hok.
    apply Hok. rewrite (cp_areas _ _ _ _ _ _ _ _ _ Hc1). set_solver. }
  { rewrite (mm_avail _ _ _ _ _ _ Hst1). lia. }
  exists s3, dst3, σd3, ([area'] ++ as3), (n1 ++ n2), (d1 ++ d2). split.
  { cbn [copy_areas]. unfold mbind, M_bind, lift. rewrite from_another_ok; [|].
    - by rewrite Hpush, Hcp.
    - pose proof (mi_areas _ _ _ _ _ _ Hs) as Hok. rewrite Forall_forall in Hok. by apply Hok. }
  split; [done|]. split; [done|]. split; [by eapply (copied_trans s src σs0 σs dst [area] s2 dst1)|].
  rewrite !length_app. lia.
Qed.

(** * Building a space *)

Lemma new_bare_ok s :
  mm_ok l r s → 0 < sfa_avail (mm_fa s) →
  ∃ ms s', MemorySet_new_bare s = Ok (ms, s') ∧ ms_areas ms = [] ∧ ms_inv l r s' ms ∅ ∅ ∧
    mm_step l r s s' (ms_frames ms) (ms_frames ms) ∧ length (ms_frames ms) = 1%nat.
Proof.
  intros [Hfa Hm] Hav. destruct (PageTable_new_ok l r s Hfa Hm Hav)
    as (pt & s' & Hn & Hwf & Hfr & Hdead & Hl & Hav' & Hmem & Hv).
  exists (MkMemorySet pt []), s'. split; [unfold MemorySet_new_bare, mbind, M_bind; by rewrite Hn|].
  assert (ms_frames (MkMemorySet pt []) = [root pt]) as Hms
    by (unfold ms_frames; cbn; by rewrite app_nil_r, Hfr).
  pose proof Hwf as (Hfa' & Hm' & _). split; [done|]. rewrite Hms. split; [|split; [|done]].
  - split; cbn [ms_page_table ms_areas]; [split; [done|by intros; rewrite Hv]|set_solver|constructor|constructor|done| |].
    + rewrite Hms. apply NoDup_singleton.
    + intros x. rewrite Hms. intros ->%list_elem_of_singleton. apply Hl. by left.
  - split; [done|done| |by intros x ->%list_elem_of_singleton|apply NoDup_singleton|by rewrite Hav'|].
    + intros y. rewrite Hl, list_elem_of_singleton. done.
    + intros a Ha. apply Hmem. set_solver.
Qed.

Definition trampoline_vpn : VirtPageNum := MkVirtPageNum 0x7ffffff.
Definition trampoline_entry (ks : KernelSymbols) : PageTableEntry :=
  PageTableEntry_new (MkPhysPageNum (strampoline ks / PAGE_SIZE)) (Z.lor (Z.lor PTEFlags_R PTEFlags_X) PTEFlags_V).

(** The linker script puts the trampoline on a page of its own. *)
Definition strampoline_ok (ks : KernelSymbols) : Prop :=
  strampoline ks mod PAGE_SIZE = 0 ∧ 0 ≤ strampoline ks < 2 ^ 56.

Lemma strampoline_ppn ks :
  strampoline_ok ks →
  PhysPageNum_from_PhysAddr (PhysAddr_from (strampoline ks)) = Ok (MkPhysPageNum (strampoline ks / PAGE_SIZE)) ∧
  0 ≤ strampoline ks / PAGE_SIZE < 2 ^ 44.
Proof.
  intros [Ha Hr]. assert (PhysAddr_from (strampoline ks) = MkPhysAddr (strampoline ks)) as ->.
  { unfold PhysAddr_from. f_equal. change (Z.shiftl 1 PA_WIDTH_SV39 - 1) with (2 ^ 56 - 1).
    rewrite land_low by lia. by apply Z.mod_small. }
  unfold PhysPageNum_from_PhysAddr, PhysAddr_page_offset. cbn [pa_0]. rewrite page_offset_mod, Ha.
  split; [done|]. unfold PAGE_SIZE in *. split; [apply Z.div_pos; lia|apply Z.div_lt_upper_bound; lia].
Qed.

Lemma map_trampoline_ok ks s ms :
  strampoline_ok ks → ms_inv l r s ms ∅ ∅ → ms_areas ms = [] → 2 ≤ sfa_avail (mm_fa s) →
  ∃ ms' s' new, MemorySet_map_trampoline ks ms s = Ok (ms', s') ∧ ms_areas ms' = [] ∧
    ms_inv l r s' ms' {[ trampoline_vpn := trampoline_entry ks ]} {[ trampoline_vpn := trampoline_entry ks ]} ∧
    ms_frames ms' = ms_frames ms ++ new ∧ mm_step l r s s' new (ms_frames ms') ∧ (length new ≤ 2)%nat.
Proof.
  intros Hks Hinv Has Hav. destruct (strampoline_ppn ks Hks) as [Hppn H44].
  pose proof (map_refines l r s (ms_page_table ms) ∅ trampoline_vpn (MkPhysPageNum (strampoline ks / PAGE_SIZE))
    (Z.lor PTEFlags_R PTEFlags_X) (mi_pt _ _ _ _ _ _ Hinv) Hav) as Hm.
  destruct Hm as (pt' & s' & new & Hm & Href & Hst & Hn); [by vm_compute|done|by vm_compute|].
  exists (MkMemorySet pt' (ms_areas ms)), s', new. split.
  { unfold MemorySet_map_trampoline, mbind, M_bind, lift. rewrite Hppn.
    replace (VirtPageNum_from_VirtAddr (VirtAddr_from TRAMPOLINE)) with (Ok trampoline_vpn) by reflexivity.
    by rewrite Hm. }
  pose proof (step_frames _ _ _ _ _ _ _ Hst) as Hfr. pose proof (pt_step_mm _ _ _ _ _ _ _ Hst) as Hmm.
  assert (ms_frames (MkMemorySet pt' (ms_areas ms)) = frame_nums (frames pt')) as Hms
    by (unfold ms_frames; rewrite Has; cbn; by rewrite app_nil_r).
  assert (ms_frames ms = frame_nums (frames (ms_page_table ms))) as Hms0
    by (unfold ms_frames; rewrite Has; cbn; by rewrite app_nil_r).
  split; [done|]. split; [|by rewrite Hms, Hms0].
  split; rewrite ?Hms; unfold ms_vpns; cbn [ms_page_table ms_areas]; rewrite ?Has; cbn.
  - by rewrite insert_empty in Href.
  - intros v e. split; [by left|]. intros [?|(a & Ha%not_elem_of_nil & _)]; done.
  - constructor.
  - constructor.
  - by intros v Hv%not_elem_of_nil.
  - destruct Href as [(_ & _ & Ht & _) _]. by apply tree_nodup in Ht.
  - by destruct Href as [(_ & _ & _ & ?) _].
Qed.
End Fork.

(** * Mapping conflicts *)

Section Conflict.
Context (l r : Z).

Lemma map_one_conflict s area pt σ vpn :
  pt_refines l r s pt σ → vpn_ok vpn → perm_ok (ma_map_perm area) → ma_map_type area = Framed →
  is_Some (σ !! vpn) → ma_data_frames area !! vpn = None → 3 ≤ sfa_avail (mm_fa s) →
  MapArea_map_one area pt vpn s = Err Panic.
Proof.
  intros Href Hv Hperm Htype [e He] Hdf Hav. pose proof Href as [(Hfa & Hmw & Htree & Hlive) _].
  destruct (frame_alloc_step l r s) as (p & s1 & Hal & Hp & Hst1 & Hz); [done|lia|]. clear Hz.
  assert (pt_refines l r s1 pt σ) as Href1.
  { eapply pt_refines_frame; [done|done|]. intros x Hx Hin%list_elem_of_singleton. subst x.
    apply (mm_fresh _ _ _ _ _ _ Hst1 (ppn_0 p)); [apply list_elem_of_here|auto]. }
  pose proof (map_refines l r s1 pt σ vpn p (ma_map_perm area) Href1) as Hmap.
  unfold page_map_map in Hmap. rewrite He in Hmap.
  unfold MapArea_map_one, mbind, M_bind. rewrite Htype, Hal. cbn [lift unwrap]. rewrite Hdf.
  cbn [drop_option mret M_ret]. rewrite from_bits_ok by done. cbn [unwrap ft_ppn]. unfold lift. simpl ma_map_perm.
  rewrite Hmap; [done| |done..]. rewrite (mm_avail _ _ _ _ _ _ Hst1). simpl. lia.
Qed.

Lemma map_vpns_conflict vpns s area pt σ v :
  pt_refines l r s pt σ → perm_ok (ma_map_perm area) → ma_map_type area = Framed →
  NoDup vpns → Forall vpn_ok vpns → v ∈ vpns → is_Some (σ !! v) →
  (∀ w, w ∈ vpns → ma_data_frames area !! w = None) →
  3 * Z.of_nat (length vpns) ≤ sfa_avail (mm_fa s) → MapArea_map_vpns area pt vpns s = Err Panic.
Proof.
  revert s area pt σ. induction vpns as [|w vpns IH]; intros s area pt σ Href Hperm Htype Hnd Hok Hv He Hdf Hav.
  { by apply not_elem_of_nil in Hv. }
  apply NoDup_cons in Hnd as [Hwn Hnd]. apply Forall_cons in Hok as [Hw Hok]. rewrite length_cons in Hav.
  assert (ma_data_frames area !! w = None) as Hdw by (apply Hdf, list_elem_of_here).
  cbn [MapArea_map_vpns]. unfold mbind, M_bind. destruct (σ !! w) as [e|] eqn:Hσw.
  { rewrite (map_one_conflict s area pt σ w); [done..| |done|lia]. by eexists. }
  destruct (map_one_framed l r s area pt σ w) as (f & pt1 & s1 & new1 & Hm1 & Href1 & _ & Hn1 & Hst1 & _ & Hz);
    [done..|lia|]. clear Hz. rewrite Hm1.
  apply elem_of_cons in Hv as [->|Hv]; [by rewrite Hσw in He; destruct He|].
  apply (IH s1 _ pt1 (<[w := area_entry (ma_map_perm area) f]> σ)); try done.
  - rewrite lookup_insert_ne; [done|]. by intros ->.
  - intros u Hu. cbn. rewrite lookup_insert_ne; [|by intros ->]. apply Hdf. by apply list_elem_of_further.
  - rewrite (mm_avail _ _ _ _ _ _ Hst1), length_cons. lia.
Qed.
End Conflict.

(** The pages of a range of virtual addresses. *)
Definition pages_of (start_va end_va : VirtAddr) : list VirtPageNum :=
  MkVirtPageNum <$> seqZ (va_0 start_va / 4096) ((va_0 end_va + 4095) / 4096 - va_0 start_va / 4096).

Definition range_va_ok (start_va end_va : VirtAddr) : Prop := 0 ≤ va_0 start_va ≤ va_0 end_va ∧ va_0 end_va ≤ 2 ^ 39.

Lemma VirtAddr_from_low x : 0 ≤ x < 2 ^ 39 → VirtAddr_from x = MkVirtAddr x.
Proof.
  intros Hx. unfold VirtAddr_from. f_equal. change (Z.shiftl 1 VA_WIDTH_SV39 - 1) with (Z.ones 39).
  rewrite Z.land_ones by lia. by apply Z.mod_small.
Qed.

Lemma MapArea_new_range start_va end_va ty perm :
  range_va_ok start_va end_va →
  ∃ rg, MapArea_new start_va end_va ty perm = Ok (MkMapArea rg ∅ ty perm) ∧ range_ok rg ∧
    VPNRange_vpns rg = pages_of start_va end_va ∧
    get_start rg = VirtAddr_floor start_va ∧ get_end rg = VirtAddr_ceil end_va.
Proof.
  destruct start_va as [a], end_va as [b]. unfold range_va_ok, pages_of. cbn [va_0]. intros Hab.
  assert (0 ≤ a / 4096 ≤ (b + 4095) / 4096 ∧ (b + 4095) / 4096 ≤ 2 ^ 27) as Hd.
  { pose proof (Z.div_mod a 4096). pose proof (Z.mod_pos_bound a 4096).
    pose proof (Z.div_mod (b + 4095) 4096). pose proof (Z.mod_pos_bound (b + 4095) 4096). lia. }
  exists (MkSimpleRange (MkVirtPageNum (a / 4096)) (MkVirtPageNum ((b + 4095) / 4096))).
  unfold MapArea_new. rewrite VirtAddr_ceil_eq by lia. split; [|split; [done|split; [by apply VPNRange_vpns_eq; lia|done]]].
  unfold SimpleRange_new, mbind, res_bind, le_b, VirtPageNum_ord, VirtAddr_floor, PAGE_SIZE. cbn [vpn_0 va_0].
  change 0x1000 with 4096. by rewrite bool_decide_true by lia.
Qed.

Lemma MapArea_new_ok start_va end_va perm :
  range_va_ok start_va end_va →
  ∃ rg, MapArea_new start_va end_va Framed perm = Ok (MkMapArea rg ∅ Framed perm) ∧ range_ok rg ∧
    VPNRange_vpns rg = pages_of start_va end_va ∧
    get_start rg = VirtAddr_floor start_va ∧ get_end rg = VirtAddr_ceil end_va.
Proof. apply MapArea_new_range. Qed.

Lemma insert_framed_ok l r s ms σ0 σ start_va end_va perm :
  ms_inv l r s ms σ0 σ → range_va_ok start_va end_va → perm_ok perm →
  (∀ v, v ∈ pages_of start_va end_va → σ !! v = None) →
  3 * Z.of_nat (length (pages_of start_va end_va)) ≤ sfa_avail (mm_fa s) →
  ∃ area ms' s' new d, MemorySet_insert_framed_area ms start_va end_va perm s = Ok (ms', s') ∧
    ms_areas ms' = ms_areas ms ++ [area] ∧ area_is start_va end_va area ∧
    area_vpns area = pages_of start_va end_va ∧ ma_map_type area = Framed ∧ ma_map_perm area = perm ∧
    ms_inv l r s' ms' σ0 (area_pages area ∪ σ) ∧
    mm_step l r s s' (area_frames area ++ new) d ∧
    (∀ x, x ∈ d → x ∈ area_frames area ++ new ∨ x ∈ frame_nums (frames (ms_page_table ms))) ∧
    (length new ≤ 2 * length (area_vpns area))%nat ∧
    map_Forall (λ _ f, zeroed (mm_mem s') (ft_ppn f)) (ma_data_frames area).
Proof.
  intros Hinv Hrg Hp Hnone Hav. destruct (MapArea_new_ok start_va end_va perm Hrg) as (rg & Hnew & Hok & Hvs & Hst & Hen).
  set (na := MkMapArea rg ∅ Framed perm) in *.
  assert (area_vpns na = pages_of start_va end_va) as Hvn by done.
  destruct (push_framed_ok l r s ms σ0 σ na) as (area & ms' & s' & new & Hpush & Has & (Hr & Ht & Hpm) & Hinv' & Hstep & Hfr & Hn & Hz);
    [done..|by rewrite Hvn|by rewrite Hvn|].
  exists area, ms', s', new, (area_frames area ++ frame_nums (frames (ms_page_table ms'))).
  assert (area_vpns area = area_vpns na) as Hv by (unfold area_vpns; by rewrite Hr).
  split; [unfold MemorySet_insert_framed_area, mbind, M_bind, lift; by rewrite Hnew|].
  split; [done|]. split; [unfold area_is; by rewrite Hr|]. rewrite Hv. do 5 (split; [done|]).
  split; [|done]. intros x. rewrite Hfr. clear. set_solver.
Qed.

(** * Properties *)

Lemma user_page_fresh l r s ms σ0 σ area v :
  ms_inv l r s ms σ0 σ → area ∈ ms_areas ms → ma_map_type area = Framed → v ∈ area_vpns area →
  map_Forall (λ _ f, zeroed (mm_mem s) (ft_ppn f)) (ma_data_frames area) →
  user_page (mm_mem s) ms v = Some (replicate 4096 0) ∧
  user_flags (mm_mem s) ms v = Some (Z.lor (ma_map_perm area) PTEFlags_V).
Proof.
  intros Hinv Ha Ht Hv Hz. destruct (framed_page l r _ _ _ _ _ _ Hinv Ha Ht Hv) as (f & Hf & _ & _ & _ & _ & -> & ->).
  split; [|done]. f_equal. by apply (Hz v f).
Qed.

Lemma from_existed_user_ok l r ks s src σ0 σ :
  ms_inv l r s src σ0 σ → strampoline_ok ks → Forall (λ a, ma_map_type a = Framed) (ms_areas src) →
  is_Some (σ0 !! trampoline_vpn) →
  3 + 3 * Z.of_nat (length (ms_vpns src)) ≤ sfa_avail (mm_fa s) →
  ∃ dst s' σ' new d, MemorySet_from_existed_user ks src s = Ok (dst, s') ∧
    ms_inv l r s' src σ0 σ ∧ ms_inv l r s' dst {[ trampoline_vpn := trampoline_entry ks ]} σ' ∧
    Forall2 same_shape (ms_areas dst) (ms_areas src) ∧
    mm_step l r s s' new d ∧ (∀ x, x ∈ d → x ∈ new) ∧ (∀ x, x ∈ ms_frames dst → x ∈ new) ∧
    Z.of_nat (length new) ≤ 3 + 3 * Z.of_nat (length (ms_vpns src)) ∧
    ∀ v, v ∈ ms_vpns src →
      user_page (mm_mem s') dst v = user_page (mm_mem s) src v ∧
      user_flags (mm_mem s') dst v = user_flags (mm_mem s) src v ∧
      user_page (mm_mem s') src v = user_page (mm_mem s) src v.
Proof.
  intros Hs Hks Hall Htr Hav.
  assert (mm_ok l r s) as Hok by (by destruct (mi_pt _ _ _ _ _ _ Hs) as [(? & ? & _) _]).
  destruct (new_bare_ok l r s Hok) as (d1 & s1 & Hn & Ha1 & Hi1 & Hst1 & Hl1); [lia|].
  destruct (map_trampoline_ok l r ks s1 d1) as (d2 & s2 & n2 & Hm & Ha2 & Hi2 & Hf2 & Hst2 & Hn2); [done..| |].
  { rewrite (mm_avail _ _ _ _ _ _ Hst1). lia. }
  pose proof (mm_step_trans _ _ _ _ _ _ _ _ _ Hst1 Hst2) as Hst. rewrite <- Hf2 in Hst.
  assert (∀ x, x ∈ ms_frames src → x ∉ ms_frames d1 ++ ms_frames d2) as Hdis.
  { intros x Hx Hx'. apply (mm_fresh _ _ _ _ _ _ Hst x); [|by apply (mi_live _ _ _ _ _ _ Hs)].
    rewrite Hf2 in *. clear -Hx'. set_solver. }
  assert (ms_inv l r s2 src σ0 σ) as Hs2.
  { eapply ms_inv_frame; [exact Hs|exact Hst|]. intros x Hx. apply Hdis. apply elem_of_app. by left. }
  destruct (copy_areas_ok l r src σ0 σ {[ trampoline_vpn := trampoline_entry ks ]} (ms_areas src) s2 d2
    {[ trampoline_vpn := trampoline_entry ks ]})
    as (s3 & d3 & σ3 & as3 & n3 & dd & Hrun & Hs3 & Hd3 & Hcp & Hl3); [done|done| | |apply Hs| | |].
  { intros x Hx Hx'. apply (Hdis x Hx). apply elem_of_app. by right. }
  { rewrite Forall_forall in *. auto. }
  { intros v Hv. apply lookup_singleton_None. intros <-. rewrite (mi_fixed _ _ _ _ _ _ Hs) in Htr; [|done]. by destruct Htr. }
  { fold (ms_vpns src). rewrite (mm_avail _ _ _ _ _ _ Hst), Hf2, length_app. lia. }
  pose proof Hcp as [Has Hsh Hst3 Hdd Hfr3 Hpages].
  assert (∀ x, x ∈ ms_frames d1 ++ ms_frames d2 → x ∈ ms_frames d2) as Hin2 by (intros x; rewrite Hf2; clear; set_solver).
  exists d3, s3, σ3, (ms_frames d2 ++ n3), ((ms_frames d1 ++ ms_frames d2) ++ dd).
  split; [unfold MemorySet_from_existed_user, mbind, M_bind; by rewrite Hn, Hm|].
  split; [done|]. split; [done|]. split; [rewrite Has, Ha2; exact Hsh|]. split; [by eapply mm_step_trans|]. split.
  { intros x. rewrite (elem_of_app _ dd), (elem_of_app _ n3). intros [Hx%Hin2|[Hx|Hx]%Hdd]; [by left|by right|]. left. apply elem_of_app. by left. }
  split; [intros x; by rewrite Hfr3|]. split; [fold (ms_vpns src) in Hl3; rewrite length_app, Hf2, length_app; lia|].
  intros v Hv. pose proof Hv as (a & Hva & Ha)%list_elem_of_bind. rewrite Forall_forall in Hall.
  assert (user_page (mm_mem s2) src v = user_page (mm_mem s) src v ∧
          user_flags (mm_mem s2) src v = user_flags (mm_mem s) src v) as [Hp2 Hfl2].
  { apply (kept_page l r s s2 (ms_frames d2) (ms_frames d1 ++ ms_frames d2) src σ0 σ src σ0 σ a v); auto. }
  destruct (Hpages v Hv) as [-> ->]. split; [done|]. split; [done|]. rewrite <- Hp2.
  eapply (src_keeps l r s2 src σ0 σ d2); [done|done|done| |done|by apply Hall|done].
  intros x Hx Hx'. apply (Hdis x Hx). apply elem_of_app. by right.
Qed.

(** C13: [fork] copies an address space: [from_existed_user] succeeds when three frames per
    page plus three are free, the copy has the same areas, every page of the copy shows
    the bytes and the flags of the same page of the original, the two spaces share no
    frame, and the original keeps its invariant and all its bytes. *)
Theorem fork_copies_address_space l r ks s src σ0 σ :
  ms_inv l r s src σ0 σ → strampoline_ok ks → Forall (λ a, ma_map_type a = Framed) (ms_areas src) →
  is_Some (σ0 !! trampoline_vpn) →
  3 + 3 * Z.of_nat (length (ms_vpns src)) ≤ sfa_avail (mm_fa s) →
  ∃ dst s' σ', MemorySet_from_existed_user ks src s = Ok (dst, s') ∧
    ms_inv l r s' src σ0 σ ∧ ms_inv l r s' dst {[ trampoline_vpn := trampoline_entry ks ]} σ' ∧
    Forall2 same_shape (ms_areas dst) (ms_areas src) ∧
    (∀ x, x ∈ ms_frames dst → ¬ sfa_live l (mm_fa s) x) ∧
    ∀ v, v ∈ ms_vpns src →
      user_page (mm_mem s') dst v = user_page (mm_mem s) src v ∧
      user_flags (mm_mem s') dst v = user_flags (mm_mem s) src v ∧
      user_page (mm_mem s') src v = user_page (mm_mem s) src v.
Proof.
  intros Hs Hks Hall Htr Hav.
  destruct (from_existed_user_ok l r ks s src σ0 σ Hs Hks Hall Htr Hav) as (dst & s' & σ' & new & d & Hrun & Hs' & Hd' & Hsh & Hst & _ & Hfr & _ & Hpages).
  exists dst, s', σ'. do 4 (split; [done|]). split; [|done]. intros x Hx. by apply (mm_fresh _ _ _ _ _ _ Hst), Hfr.
Qed.

(** A space with the trampoline and two user pages. *)
Definition demo_ks : KernelSymbols :=
  MkKernelSymbols 0x80200000 0x80210000 0x80210000 0x80220000 0x80220000 0x80230000 0x80230000 0x80300000
    0x80300000 0x80200000.
Definition demo_space : M MM MemorySet :=
  ms ← MemorySet_new_bare;
  ms ← MemorySet_map_trampoline demo_ks ms;
  MemorySet_insert_framed_area ms (MkVirtAddr 0x10000) (MkVirtAddr 0x12000) 0x16.

Lemma demo_ks_ok : strampoline_ok demo_ks.
Proof. by vm_compute. Qed.

Lemma demo_space_ok :
  ∃ ms s area σ, demo_space demo_mm = Ok (ms, s) ∧ ms_areas ms = [area] ∧
    ms_inv 0x80300 0x88000 s ms {[ trampoline_vpn := trampoline_entry demo_ks ]} σ ∧
    area_is (MkVirtAddr 0x10000) (MkVirtAddr 0x12000) area ∧
    area_vpns area = [MkVirtPageNum 0x10; MkVirtPageNum 0x11] ∧ ma_map_type area = Framed ∧
    σ = area_pages area ∪ {[ trampoline_vpn := trampoline_entry demo_ks ]} ∧
    user_page (mm_mem s) ms (MkVirtPageNum 0x10) = Some (replicate 4096 0) ∧
    100 ≤ sfa_avail (mm_fa s).
Proof.
  assert (sfa_avail (mm_fa demo_mm) = 0x7d00) as Hav by reflexivity.
  destruct (new_bare_ok 0x80300 0x88000 demo_mm demo_mm_ok) as (d1 & s1 & Hn & Ha1 & Hi1 & Hst1 & Hl1); [lia|].
  pose proof (mm_avail _ _ _ _ _ _ Hst1) as Hav1.
  destruct (map_trampoline_ok 0x80300 0x88000 demo_ks s1 d1 demo_ks_ok)
    as (d2 & s2 & n2 & Hm & Ha2 & Hi2 & Hf2 & Hst2 & Hn2); [done|done|lia|].
  pose proof (mm_avail _ _ _ _ _ _ Hst2) as Hav2.
  destruct (insert_framed_ok 0x80300 0x88000 s2 d2 _ _ (MkVirtAddr 0x10000) (MkVirtAddr 0x12000) 0x16 Hi2)
    as (area & ms & s & new & d & Hins & Has & Har & Hvs & Ht & Hp & Hinv & Hst & _ & Hlen & Hz).
  { vm_compute. repeat split; discriminate. }
  { vm_compute. split; [discriminate|reflexivity]. }
  { intros v Hv. apply lookup_singleton_None. intros <-. revert Hv. change (pages_of _ _) with
      [MkVirtPageNum 0x10; MkVirtPageNum 0x11]. unfold trampoline_vpn. set_solver. }
  { change (pages_of _ _) with [MkVirtPageNum 0x10; MkVirtPageNum 0x11]. simpl. lia. }
  change (pages_of _ _) with [MkVirtPageNum 0x10; MkVirtPageNum 0x11] in Hvs.
  rewrite Ha2 in Has. exists ms, s, area, (area_pages area ∪ {[ trampoline_vpn := trampoline_entry demo_ks ]}).
  assert (area ∈ ms_areas ms) as Hin by (rewrite Has; apply list_elem_of_here).
  split; [unfold demo_space, mbind, M_bind; rewrite Hn, Hm; exact Hins|]. split; [exact Has|]. split; [exact Hinv|].
  split; [exact Har|]. split; [exact Hvs|]. split; [exact Ht|]. split; [reflexivity|]. split.
  - eapply user_page_fresh; [exact Hinv|exact Hin|exact Ht|rewrite Hvs; apply list_elem_of_here|exact Hz].
  - pose proof (mi_areas _ _ _ _ _ _ Hinv) as Hok. rewrite Forall_forall in Hok.
    pose proof (length_area_frames area (Hok _ Hin) Ht) as Hlf. rewrite Hvs in Hlf, Hlen. simpl in Hlf, Hlen.
    rewrite (mm_avail _ _ _ _ _ _ Hst), length_app. lia.
Qed.

Lemma fork_copies_address_space_witness :
  ∃ ms s dst s', demo_space demo_mm = Ok (ms, s) ∧ MemorySet_from_existed_user demo_ks ms s = Ok (dst, s') ∧
    user_page (mm_mem s') dst (MkVirtPageNum 0x10) = Some (replicate 4096 0).
Proof.
  destruct demo_space_ok as (ms & s & area & σ & Hrun & Has & Hinv & _ & Hvs & Ht & _ & Hpage & Hav).
  assert (ms_vpns ms = [MkVirtPageNum 0x10; MkVirtPageNum 0x11]) as Hms.
  { unfold ms_vpns. rewrite Has. simpl. by rewrite Hvs, app_nil_r. }
  destruct (fork_copies_address_space 0x80300 0x88000 demo_ks s ms _ σ Hinv demo_ks_ok)
    as (dst & s' & σ' & Hf & _ & _ & _ & _ & Hpages).
  { rewrite Has. by constructor. }
  { rewrite lookup_singleton_eq. by eexists. }
  { rewrite Hms. simpl. lia. }
  exists ms, s, dst, s'. split; [exact Hrun|]. split; [exact Hf|]. rewrite <- Hpage.
  refine (proj1 (Hpages (MkVirtPageNum 0x10) _)). rewrite Hms. apply list_elem_of_here.
Defined.

(** C27: [insert_framed_area] maps exactly the pages that meet the address range: each gets
    a zeroed frame of its own with the permission asked for, the space keeps its
    invariant (so no frame is shared), and the pages of the other areas keep their
    bytes and flags. *)
Theorem insert_framed_area_maps_range l r s ms σ0 σ start_va end_va perm :
  ms_inv l r s ms σ0 σ → range_va_ok start_va end_va → perm_ok perm →
  (∀ v, v ∈ pages_of start_va end_va → σ !! v = None) →
  3 * Z.of_nat (length (pages_of start_va end_va)) ≤ sfa_avail (mm_fa s) →
  ∃ area ms' s', MemorySet_insert_framed_area ms start_va end_va perm s = Ok (ms', s') ∧
    ms_areas ms' = ms_areas ms ++ [area] ∧ area_is start_va end_va area ∧
    ms_inv l r s' ms' σ0 (area_pages area ∪ σ) ∧
    (∀ v, v ∈ pages_of start_va end_va →
      user_page (mm_mem s') ms' v = Some (replicate 4096 0) ∧
      user_flags (mm_mem s') ms' v = Some (Z.lor perm PTEFlags_V)) ∧
    ∀ a v, a ∈ ms_areas ms → ma_map_type a = Framed → v ∈ area_vpns a →
      user_page (mm_mem s') ms' v = user_page (mm_mem s) ms v ∧
      user_flags (mm_mem s') ms' v = user_flags (mm_mem s) ms v.
Proof.
  intros Hinv Hrg Hp Hnone Hav.
  destruct (insert_framed_ok l r s ms σ0 σ start_va end_va perm Hinv Hrg Hp Hnone Hav)
    as (area & ms' & s' & new & d & Hins & Has & Har & Hvs & Ht & Hpm & Hinv' & Hst & Hd & _ & Hz).
  exists area, ms', s'. do 4 (split; [done|]). split.
  - rewrite <- Hvs, <- Hpm. intros v Hv. eapply user_page_fresh; [exact Hinv'| |exact Ht|exact Hv|exact Hz].
    rewrite Has. apply elem_of_app. right. apply list_elem_of_here.
  - intros a v Ha Hta Hv. clear Hz.
    apply (kept_page l r s s' (area_frames area ++ new) d ms σ0 σ ms' σ0 (area_pages area ∪ σ) a v); auto.
    rewrite Has. apply elem_of_app. by left.
Qed.

Lemma pages_0x20 : pages_of (MkVirtAddr 0x20000) (MkVirtAddr 0x20001) = [MkVirtPageNum 0x20].
Proof. reflexivity. Qed.

(** The page of the demonstration space that is free. *)
Lemma demo_free_page ms s area σ v :
  ms_inv 0x80300 0x88000 s ms {[ trampoline_vpn := trampoline_entry demo_ks ]} σ → ms_areas ms = [area] →
  area_vpns area = [MkVirtPageNum 0x10; MkVirtPageNum 0x11] →
  σ = area_pages area ∪ {[ trampoline_vpn := trampoline_entry demo_ks ]} →
  v ∈ pages_of (MkVirtAddr 0x20000) (MkVirtAddr 0x20001) → σ !! v = None.
Proof.
  intros Hinv Has Hvs ->. rewrite pages_0x20. intros ->%list_elem_of_singleton.
  apply lookup_union_None. split; [|reflexivity]. apply eq_None_not_Some. intros Hs. apply area_pages_dom in Hs.
  - rewrite Hvs in Hs. clear -Hs. set_solver.
  - pose proof (mi_areas _ _ _ _ _ _ Hinv) as Hok. rewrite Has in Hok. exact (Forall_inv Hok).
Qed.

Lemma insert_framed_area_maps_range_witness :
  ∃ ms s area ms' s', demo_space demo_mm = Ok (ms, s) ∧
    MemorySet_insert_framed_area ms (MkVirtAddr 0x20000) (MkVirtAddr 0x20001) 0x12 s = Ok (ms', s') ∧
    ms_areas ms' = ms_areas ms ++ [area] ∧
    user_page (mm_mem s') ms' (MkVirtPageNum 0x20) = Some (replicate 4096 0) ∧
    user_flags (mm_mem s') ms' (MkVirtPageNum 0x20) = Some 0x13.
Proof.
  destruct demo_space_ok as (ms & s & area & σ & Hrun & Has & Hinv & _ & Hvs & Ht & Hσ & _ & Hav).
  destruct (insert_framed_area_maps_range 0x80300 0x88000 s ms _ σ (MkVirtAddr 0x20000) (MkVirtAddr 0x20001) 0x12 Hinv)
    as (area' & ms' & s' & Hins & Has' & _ & _ & Hpages & _).
  { vm_compute. repeat split; discriminate. }
  { vm_compute. split; [discriminate|reflexivity]. }
  { intros v. exact (demo_free_page ms s area σ v Hinv Has Hvs Hσ). }
  { rewrite pages_0x20. simpl. lia. }
  exists ms, s, area', ms', s'. split; [exact Hrun|]. split; [exact Hins|]. split; [exact Has'|].
  refine (Hpages (MkVirtPageNum 0x20) _). rewrite pages_0x20. apply list_elem_of_here.
Defined.
