(* ===== verification/ElfLoad.v ===== *)
(** Loading a program ([MemorySet::from_elf], [MemorySet::push] with data and
    [MapArea::copy_data] of [os/src/mm/memory_set.rs]): the address space a program starts
    in, page by page. *)

From S2P Require Import Prelude Config Address Allocator FrameAllocator PhysMem PageTable PageTableSpec MemorySet MemorySetSpec AddressSpace.

Ltac Zify.zify_post_hook ::= Z.to_euclidean_division_equations.

Section Load.
Context (l r : Z).

(** * Writing pages *)

(** Writing the page [v] of a framed area. *)
Lemma write_page s ms σ0 σ a v f bytes :
  ms_inv l r s ms σ0 σ → a ∈ ms_areas ms → ma_map_type a = Framed → v ∈ area_vpns a →
  ma_data_frames a !! v = Some f → length bytes = Z.to_nat 4096 → Forall is_byte bytes →
  let s' := MkMM (set_bytes_array (mm_mem s) (ft_ppn f) bytes) (mm_fa s) in
  ms_inv l r s' ms σ0 σ ∧ mm_step l r s s' [] [frame_num f] ∧ user_page (mm_mem s') ms v = Some bytes ∧
  ∀ w, w ∈ area_vpns a → w ≠ v → user_page (mm_mem s') ms w = user_page (mm_mem s) ms w.
Proof.
  intros Hi Ha Ht Hv Hf Hl Hb s'.
  destruct (framed_page l r _ _ _ _ _ _ Hi Ha Ht Hv) as (f0 & Hf0 & H44 & _). rewrite Hf in Hf0. injection Hf0 as <-.
  assert (mm_ok l r s) as Hok by (by destruct (mi_pt _ _ _ _ _ _ Hi) as [(? & ? & _) _]).
  destruct (copy_page_step l r s (ft_ppn f) bytes Hok H44 Hl Hb) as [Hst Hget]. fold s' in Hst, Hget.
  assert (ms_inv l r s' ms σ0 σ) as Hi'.
  { eapply ms_inv_frame; [done|done|]. intros x Hx ->%list_elem_of_singleton.
    eapply area_not_pt; [exact Hi|exact Ha|by eapply area_frames_elem|done]. }
  split; [done|]. split; [done|]. split.
  - destruct (framed_page l r _ _ _ _ _ _ Hi' Ha Ht Hv) as (g & Hg & _ & _ & _ & _ & -> & _).
    rewrite Hf in Hg. injection Hg as <-. by rewrite Hget.
  - intros w Hw Hne. destruct (framed_page l r _ _ _ _ _ _ Hi' Ha Ht Hw) as (g & Hg & Hg44 & _ & _ & _ & -> & _).
    destruct (framed_page l r _ _ _ _ _ _ Hi Ha Ht Hw) as (g' & Hg' & _ & _ & _ & _ & -> & _).
    rewrite Hg in Hg'. injection Hg' as <-. f_equal. eapply page_same; [done|done|]. intros Hin%list_elem_of_singleton.
    apply Hne. by apply (area_frames_inj a w v g f (ms_area_nodup l r _ _ _ _ _ Hi Ha) Hg Hf).
Qed.

Lemma copy_to_page_eq s p src : len src ≤ 4096 →
  copy_to_page p src s =
    Ok ((), MkMM (set_bytes_array (mm_mem s) p (splice (get_bytes_array (mm_mem s) p) 0 src)) (mm_fa s)).
Proof.
  intros Hl. unfold copy_to_page, vec_copy. rewrite decide_True; [done|].
  unfold get_bytes_array, read_bytes. rewrite length_fmap, length_seqZ. lia.
Qed.

(** Page [k] of a segment with the file bytes [data] over the old page [p]. *)
Definition seg_page (data : list Z) (k : Z) (p : list Z) : list Z := splice p 0 (slice data (4096 * k) 4096).

Lemma seg_page_beyond data k p : len data ≤ 4096 * k → seg_page data k p = p.
Proof.
  intros Hk. unfold seg_page, slice. rewrite drop_ge, take_nil by lia. unfold splice. simpl. by rewrite drop_0.
Qed.

Section CopyData.
Context (ms : MemorySet) (σ0 σ : page_map) (a : MapArea) (Ha : a ∈ ms_areas ms) (Ht : ma_map_type a = Framed) (b c : Z) (data : list Z).
Context (Hb : 0 ≤ b) (Hc : b + c ≤ 2 ^ 27) (Hvs : ∀ k, 0 ≤ k < c → MkVirtPageNum (b + k) ∈ area_vpns a).
Context (Hbytes : Forall is_byte data) (Hlen : len data ≤ 4096 * c).

Lemma copy_data_loop_ok n : ∀ i s, ms_inv l r s ms σ0 σ → 0 ≤ i < c → i = 0 ∨ 4096 * i < len data →
  len data < 4096 * (i + Z.of_nat n) →
  ∃ s' d, copy_data_loop n (ms_page_table ms) data (4096 * i) (MkVirtPageNum (b + i)) s = Ok ((), s') ∧
    ms_inv l r s' ms σ0 σ ∧ mm_step l r s s' [] d ∧ (∀ x, x ∈ d → x ∈ area_frames a) ∧
    (∀ k, 0 ≤ k < i → user_page (mm_mem s') ms (MkVirtPageNum (b + k)) = user_page (mm_mem s) ms (MkVirtPageNum (b + k))) ∧
    ∀ k, i ≤ k < c → user_page (mm_mem s') ms (MkVirtPageNum (b + k)) =
      seg_page data k <$> user_page (mm_mem s) ms (MkVirtPageNum (b + k)).
Proof using All.
  induction n as [|n IH]; intros i s Hi Hic Hor Hn; [lia|]. cbn [copy_data_loop]. unfold PAGE_SIZE.
  rewrite !add_w_small by (unfold fits; lia).
  assert (Z.min (len data) (4096 * i + 4096) - 4096 * i ≤ 4096) by lia.
  assert (vec_slice data (4096 * i) (Z.min (len data) (4096 * i + 4096)) = Ok (slice data (4096 * i) 4096)) as Hsl.
  { unfold vec_slice. rewrite decide_True by lia. f_equal. unfold slice.
    destruct (decide (len data ≤ 4096 * i + 4096)); [|f_equal; lia].
    rewrite !take_ge; [done|rewrite length_drop; lia..]. }
  erewrite bind_Ok by (unfold lift; by rewrite Hsl). erewrite bind_Ok by reflexivity.
  destruct (framed_page l r _ _ _ _ _ _ Hi Ha Ht (Hvs i ltac:(lia))) as (f & Hf & H44 & _ & Htr & Hppn & Hup & _).
  erewrite bind_Ok by (unfold lift; change (PageTable_translate (mm_mem s) (ms_page_table ms)) with (MemorySet_translate (mm_mem s) ms); by rewrite Htr).
  set (page := get_bytes_array (mm_mem s) (ft_ppn f)) in *.
  assert (length page = Z.to_nat 4096) as Hpl by (unfold page, get_bytes_array, read_bytes; by rewrite length_fmap, length_seqZ).
  assert (len (slice data (4096 * i) 4096) ≤ 4096) as Hsl4 by (unfold slice; rewrite length_take; lia).
  assert (length (seg_page data i page) = Z.to_nat 4096) as Hpl' by (unfold seg_page; rewrite length_splice; lia).
  assert (Forall is_byte (seg_page data i page)) as Hpb.
  { unfold seg_page, splice. apply Forall_app. split; [apply Forall_take, read_bytes_wf, (mi_pt _ _ _ _ _ _ Hi)|].
    apply Forall_app. split; [by apply Forall_take, Forall_drop|]. apply Forall_drop, read_bytes_wf, (mi_pt _ _ _ _ _ _ Hi). }
  destruct (write_page s ms σ0 σ a _ f (seg_page data i page) Hi Ha Ht (Hvs i ltac:(lia)) Hf Hpl' Hpb) as (Hi1 & Hst & Hpg & Hoth).
  set (s1 := MkMM _ _) in *.
  pose proof (copy_to_page_eq s (ft_ppn f) _ Hsl4) as Hcp. fold page in Hcp. fold (seg_page data i page) in Hcp. fold s1 in Hcp.
  rewrite Hppn. erewrite bind_Ok by exact Hcp. case_bool_decide as Hend.
  - exists s1, [frame_num f]. split; [done|]. split; [done|]. split; [done|].
    split; [by intros x ->%list_elem_of_singleton; eapply area_frames_elem|]. split.
    + intros k Hk. apply Hoth; [apply Hvs; lia|]. intros [= ?]. lia.
    + intros k Hk. destruct (decide (k = i)) as [->|Hne].
      * rewrite Hpg, Hup. done.
      * rewrite Hoth; [|apply Hvs; lia|intros [= ?]; lia].
        destruct (user_page (mm_mem s) ms (MkVirtPageNum (b + k))); [|done]. cbn. by rewrite seg_page_beyond by lia.
  - destruct (IH (i + 1) s1 Hi1) as (s2 & d & Hrun & Hi2 & Hst2 & Hd & Hlow & Hhigh); [lia|lia|lia|].
    exists s2, (frame_num f :: d). split.
    { replace (4096 * i + 4096) with (4096 * (i + 1)) by lia.
      replace (VirtPageNum_step (MkVirtPageNum (b + i))) with (MkVirtPageNum (b + (i + 1))); [exact Hrun|].
      unfold VirtPageNum_step. cbn [vpn_0]. rewrite add_w_small by (unfold fits; lia). by rewrite Z.add_assoc. }
    split; [done|]. split; [exact (mm_step_trans _ _ _ _ _ _ _ _ _ Hst Hst2)|].
    split; [intros x [->|Hx]%elem_of_cons; [by eapply area_frames_elem|auto]|]. split.
    + intros k Hk. rewrite Hlow by lia. apply Hoth; [apply Hvs; lia|]. intros [= ?]. lia.
    + intros k Hk. destruct (decide (k = i)) as [->|Hne].
      * rewrite Hlow by lia. by rewrite Hpg, Hup.
      * rewrite Hhigh by lia. by rewrite Hoth; [|apply Hvs; lia|intros [= ?]; lia].
Qed.
End CopyData.

(** * Adding areas *)

(** [ms'] in [s'] is [ms] in [s] with the framed areas [as'] added, on fresh frames only. *)
Record grown (s : MM) (ms : MemorySet) (σ0 σ : page_map) (s' : MM) (ms' : MemorySet) (σ' : page_map)
    (as' : list MapArea) : Prop := {
  gr_inv : ms_inv l r s' ms' σ0 σ';
  gr_areas : ms_areas ms' = ms_areas ms ++ as';
  gr_framed : Forall (λ a, ma_map_type a = Framed) as';
  gr_dom v : is_Some (σ' !! v) ↔ v ∈ as' ≫= area_vpns ∨ is_Some (σ !! v);
  gr_fixed v e : σ0 !! v = Some e → σ !! v = Some e → σ' !! v = Some e;
  gr_step : ∃ new d, mm_step l r s s' new d ∧
    (∀ x, x ∈ d → x ∈ new ∨ x ∈ frame_nums (frames (ms_page_table ms))) ∧
    (∀ x, x ∈ frame_nums (frames (ms_page_table ms')) → x ∈ new ∨ x ∈ frame_nums (frames (ms_page_table ms))) ∧
    (∀ x, x ∈ ms_frames ms' → x ∈ new ∨ x ∈ ms_frames ms) ∧ (length new ≤ 3 * length (as' ≫= area_vpns))%nat
}.

Lemma grown_refl s ms σ0 σ : ms_inv l r s ms σ0 σ → grown s ms σ0 σ s ms σ [].
Proof.
  intros Hi. split; [done|by rewrite app_nil_r|done|set_solver|done|]. exists [], [].
  split; [apply mm_step_refl; by destruct (mi_pt _ _ _ _ _ _ Hi) as [(? & ? & _) _]|]. split; [set_solver|]. split; [set_solver|]. split; [set_solver|done].
Qed.

Lemma grown_trans s ms σ0 σ s1 ms1 σ1 as1 s2 ms2 σ2 as2 :
  grown s ms σ0 σ s1 ms1 σ1 as1 → grown s1 ms1 σ0 σ1 s2 ms2 σ2 as2 → grown s ms σ0 σ s2 ms2 σ2 (as1 ++ as2).
Proof.
  intros [I1 A1 F1 D1 X1 (n1 & d1 & S1 & Y1 & P1 & M1 & L1)] [I2 A2 F2 D2 X2 (n2 & d2 & S2 & Y2 & P2 & M2 & L2)]. split.
  - done.
  - by rewrite A2, A1, app_assoc.
  - by apply Forall_app.
  - intros v. rewrite D2, D1, bind_app, elem_of_app. tauto.
  - auto.
  - exists (n1 ++ n2), (d1 ++ d2). split; [by eapply mm_step_trans|].
    split; [intros x; rewrite !elem_of_app; specialize (Y1 x); specialize (Y2 x); specialize (P1 x); tauto|].
    split; [intros x Hx%P2; rewrite elem_of_app; specialize (P1 x); tauto|].
    split; [intros x Hx%M2; rewrite elem_of_app; specialize (M1 x); tauto|]. rewrite bind_app, !length_app. lia.
Qed.

(** The pages there were keep their bytes and flags. *)
Lemma grown_keeps s ms σ0 σ s' ms' σ' as' a v :
  grown s ms σ0 σ s' ms' σ' as' → ms_inv l r s ms σ0 σ → a ∈ ms_areas ms → ma_map_type a = Framed → v ∈ area_vpns a →
  user_page (mm_mem s') ms' v = user_page (mm_mem s) ms v ∧ user_flags (mm_mem s') ms' v = user_flags (mm_mem s) ms v.
Proof.
  intros [I A _ _ _ (new & d & S & Y & _)] Hi Ha Ht Hv.
  eapply (kept_page l r s s' new d ms σ0 σ ms' σ0 σ' a v); try done. rewrite A. apply elem_of_app. by left.
Qed.

Lemma grown_avail s ms σ0 σ s' ms' σ' as' : grown s ms σ0 σ s' ms' σ' as' →
  sfa_avail (mm_fa s) - 3 * len (as' ≫= area_vpns) ≤ sfa_avail (mm_fa s').
Proof. intros [_ _ _ _ _ (new & d & S & _ & _ & _ & L)]. rewrite (mm_avail _ _ _ _ _ _ S). lia. Qed.

(** The new pages are zero. *)
Definition zero_pages s ms (a : MapArea) : Prop :=
  ∀ v, v ∈ area_vpns a → user_page (mm_mem s) ms v = Some (replicate 4096 0) ∧
    user_flags (mm_mem s) ms v = Some (Z.lor (ma_map_perm a) PTEFlags_V).

Lemma push_grown s ms σ0 σ area :
  ms_inv l r s ms σ0 σ → ma_map_type area = Framed → ma_data_frames area = ∅ →
  range_ok (ma_vpn_range area) → perm_ok (ma_map_perm area) → (∀ v, v ∈ area_vpns area → σ !! v = None) →
  3 * len (area_vpns area) ≤ sfa_avail (mm_fa s) →
  ∃ area' ms' s' σ', MemorySet_push ms area None s = Ok (ms', s') ∧ same_shape area' area ∧
    grown s ms σ0 σ s' ms' σ' [area'] ∧ zero_pages s' ms' area' ∧
    ∃ new, mm_step l r s s' (area_frames area' ++ new) (area_frames area' ++ frame_nums (frames (ms_page_table ms'))) ∧
      frame_nums (frames (ms_page_table ms')) = frame_nums (frames (ms_page_table ms)) ++ new ∧
      (length new ≤ 2 * length (area_vpns area))%nat.
Proof.
  intros Hi Ht He Hr Hp Hn Hav.
  destruct (push_framed_ok l r s ms σ0 σ area) as (area' & ms' & s' & new & Hpush & Has & Hsh & Hi' & Hst & Hfr & Hl & Hz); [done..|].
  exists area', ms', s', (area_pages area' ∪ σ). split; [done|]. split; [done|]. destruct Hsh as (Hrg & Ht' & Hpm).
  assert (ma_map_type area' = Framed) as Htf by (by rewrite Ht', Ht).
  assert (area' ∈ ms_areas ms') as Hin by (rewrite Has; set_solver).
  pose proof (mi_areas _ _ _ _ _ _ Hi') as Hok. rewrite Forall_forall in Hok. specialize (Hok _ Hin).
  assert (area_vpns area' = area_vpns area) as Hv by (unfold area_vpns; by rewrite Hrg).
  split; [|split; [intros v Hvv; by eapply user_page_fresh|by exists new]]. split; [done|done|by apply Forall_singleton| | |].
  - intros v. cbn [mbind list_bind]. rewrite app_nil_r, area_pages_dom by done. rewrite lookup_union_is_Some. tauto.
  - intros v e H0 Hs. rewrite lookup_union_r; [done|]. destruct (area_pages area' !! v) eqn:E; [|done].
    assert (v ∈ area_vpns area) as Hvv by (rewrite <- Hv; by apply area_pages_dom; [|eexists]).
    by rewrite (Hn v Hvv) in Hs.
  - exists (area_frames area' ++ new), (area_frames area' ++ frame_nums (frames (ms_page_table ms'))). split; [done|].
    split; [rewrite Hfr; clear; set_solver|]. split; [rewrite Hfr; clear; set_solver|].
    split; [unfold ms_frames; rewrite Hfr, Has, bind_app; cbn [mbind list_bind]; clear; set_solver|].
    cbn [mbind list_bind]. rewrite app_nil_r, length_app, length_area_frames, Hv by done. lia.
Qed.

Lemma push_split ms area data s ms' s' a :
  MemorySet_push ms area None s = Ok (ms', s') → ms_areas ms' = ms_areas ms ++ [a] →
  MemorySet_push ms area (Some data) s =
    match MapArea_copy_data a (ms_page_table ms') data s' with Ok (_, s2) => Ok (ms', s2) | Err e => Err e end.
Proof.
  unfold MemorySet_push, mbind, M_bind. destruct (MapArea_map area (ms_page_table ms) s) as [[[a1 pt] s1]|e]; [|done].
  cbn. intros [= <- <-] Ha. apply app_inj_tail in Ha as [_ ->].
  cbn [ms_page_table]. destruct (MapArea_copy_data a pt data s1) as [[[] s2]|e]; reflexivity.
Qed.

(** * Segments *)

Definition seg_first (ph : ProgramHeader) : Z := ph_virtual_addr ph / 4096.
Definition seg_end (ph : ProgramHeader) : Z := (ph_virtual_addr ph + ph_mem_size ph + 4095) / 4096.
Definition seg_pages (ph : ProgramHeader) : list VirtPageNum :=
  MkVirtPageNum <$> seqZ (seg_first ph) (seg_end ph - seg_first ph).
Definition seg_data (elf_data : list Z) (ph : ProgramHeader) : list Z := slice elf_data (ph_offset ph) (ph_file_size ph).

(** A segment in the lower half of the address space, with room for the stack above it,
    whose bytes are in the file. *)
Definition seg_ok (elf_data : list Z) (ph : ProgramHeader) : Prop :=
  0 ≤ ph_virtual_addr ph ∧ 0 < ph_mem_size ph ∧ ph_virtual_addr ph + ph_mem_size ph ≤ 2 ^ 38 - 0x4000 ∧
  0 ≤ ph_file_size ph ≤ ph_mem_size ph ∧ 0 ≤ ph_offset ph ∧ ph_offset ph + ph_file_size ph ≤ len elf_data ∧
  ph_offset ph + ph_file_size ph < 2 ^ 64.

(** The pages of the segment show its file bytes, then zeros, with its permissions. *)
Definition seg_loaded (elf_data : list Z) (m : memory) (ms : MemorySet) (ph : ProgramHeader) : Prop :=
  ∀ k, 0 ≤ k < seg_end ph - seg_first ph →
    user_page m ms (MkVirtPageNum (seg_first ph + k)) = Some (seg_page (seg_data elf_data ph) k (replicate 4096 0)) ∧
    user_flags m ms (MkVirtPageNum (seg_first ph + k)) = Some (Z.lor (ph_perm ph) PTEFlags_V).

Lemma ph_perm_ok ph : perm_ok (ph_perm ph).
Proof. unfold perm_ok, ph_perm. destruct (ph_is_read ph), (ph_is_write ph), (ph_is_execute ph); by compute. Qed.

Lemma seg_pages_of ph : seg_pages ph = pages_of (MkVirtAddr (ph_virtual_addr ph)) (MkVirtAddr (ph_virtual_addr ph + ph_mem_size ph)).
Proof. done. Qed.

Lemma elem_seg_pages ph v : v ∈ seg_pages ph ↔ seg_first ph ≤ vpn_0 v < seg_end ph.
Proof.
  unfold seg_pages. rewrite list_elem_of_fmap. setoid_rewrite elem_of_seqZ. destruct v as [v]. cbn. split.
  - intros (y & [= ->] & Hy). lia.
  - intros Hv. exists v. split; [done|lia].
Qed.

Lemma push_segment_ok elf_data s ms σ0 σ ph :
  ms_inv l r s ms σ0 σ → Forall is_byte elf_data → seg_ok elf_data ph → (∀ v, v ∈ seg_pages ph → σ !! v = None) →
  3 * len (seg_pages ph) ≤ sfa_avail (mm_fa s) →
  ∃ na ms' s' σ' a, MapArea_new (VirtAddr_from (ph_virtual_addr ph))
      (VirtAddr_from (ph_virtual_addr ph + ph_mem_size ph)%usize) Framed (ph_perm ph) = Ok na ∧
    get_end (ma_vpn_range na) = MkVirtPageNum (seg_end ph) ∧
    vec_slice elf_data (ph_offset ph) (ph_offset ph + ph_file_size ph)%usize = Ok (seg_data elf_data ph) ∧
    MemorySet_push ms na (Some (seg_data elf_data ph)) s = Ok (ms', s') ∧
    grown s ms σ0 σ s' ms' σ' [a] ∧ area_vpns a = seg_pages ph ∧ seg_loaded elf_data (mm_mem s') ms' ph.
Proof.
  intros Hi Hb (Hv & Hm & Hend & Hf & Ho & Hlen & H64) Hn Hav.
  assert (0 ≤ seg_first ph < seg_end ph ∧ seg_end ph ≤ 2 ^ 26) as Hse by (unfold seg_first, seg_end; lia).
  destruct (MapArea_new_ok (MkVirtAddr (ph_virtual_addr ph)) (MkVirtAddr (ph_virtual_addr ph + ph_mem_size ph)) (ph_perm ph))
    as (rg & Hnew & Hrg & Hvs & Hst & Hge); [unfold range_va_ok; cbn; lia|].
  set (na := MkMapArea rg ∅ Framed (ph_perm ph)) in *. assert (area_vpns na = seg_pages ph) as Hvn by exact Hvs.
  destruct (push_grown s ms σ0 σ na) as (a & ms1 & s1 & σ' & Hpush & (Hra & Hta & Hpa) & Hgr & Hz & new & Hst1 & Hfr & Hln);
    [done|done|done|done|apply ph_perm_ok|by rewrite Hvn|by rewrite Hvn|].
  assert (area_vpns a = seg_pages ph) as Hva by (rewrite <- Hvn; unfold area_vpns; by rewrite Hra).
  assert (a ∈ ms_areas ms1) as Hain by (rewrite (gr_areas _ _ _ _ _ _ _ _ Hgr); clear; set_solver).
  assert (len (seg_data elf_data ph) = ph_file_size ph) as Hld by (unfold seg_data; rewrite length_slice; lia).
  destruct (copy_data_loop_ok ms1 σ0 σ' a Hain Hta (seg_first ph) (seg_end ph - seg_first ph) (seg_data elf_data ph)
    ltac:(lia) ltac:(lia)) with (n := S (length (seg_data elf_data ph) / 4096)) (i := 0) (s := s1)
    as (s2 & d & Hcopy & Hi2 & Hst2 & Hd & _ & Hpages).
  { intros k Hk. rewrite Hva. apply elem_seg_pages. cbn. lia. }
  { by apply Forall_take, Forall_drop. }
  { rewrite Hld. unfold seg_first, seg_end. lia. }
  { apply Hgr. }
  { lia. }
  { by left. }
  { rewrite Nat2Z.inj_succ, Nat2Z.inj_div. lia. }
  exists na, ms1, s2, σ', a. rewrite !VirtAddr_from_low, !add_w_small by (rewrite ?add_w_small; unfold fits; lia).
  split; [done|]. split; [cbn [na ma_vpn_range]; by rewrite Hge, VirtAddr_ceil_eq by lia|].
  split; [unfold vec_slice; rewrite decide_True by lia; unfold seg_data; do 2 f_equal; lia|]. split.
  { rewrite (push_split _ _ _ _ _ _ _ Hpush (gr_areas _ _ _ _ _ _ _ _ Hgr)). unfold MapArea_copy_data. rewrite Hta.
    erewrite bind_Ok by reflexivity. rewrite Hra. cbn [na ma_vpn_range]. rewrite Hst. unfold VirtAddr_floor, PAGE_SIZE. cbn [va_0].
    rewrite Z.mul_0_r, Z.add_0_r in Hcopy. unfold seg_first in Hcopy. by rewrite Hcopy. }
  pose proof (mi_areas _ _ _ _ _ _ Hi2) as Hok. rewrite Forall_forall in Hok. specialize (Hok _ Hain).
  split; [|split; [done|]].
  - split; [done|apply Hgr..|]. exists (area_frames a ++ new ++ []), ((area_frames a ++ frame_nums (frames (ms_page_table ms1))) ++ d).
    split; [rewrite app_assoc; exact (mm_step_trans _ _ _ _ _ _ _ _ _ Hst1 Hst2)|].
    split; [rewrite Hfr; clear -Hd; set_solver|]. split; [rewrite Hfr; clear; set_solver|].
    split; [unfold ms_frames; rewrite Hfr, (gr_areas _ _ _ _ _ _ _ _ Hgr), bind_app; cbn [mbind list_bind]; clear; set_solver|].
    cbn [mbind list_bind]. rewrite !app_nil_r, length_app, length_area_frames, Hva by done. rewrite Hvn in Hln. lia.
  - intros k Hk. assert (MkVirtPageNum (seg_first ph + k) ∈ area_vpns a) as Hin by (rewrite Hva; apply elem_seg_pages; cbn; lia).
    rewrite Hpages by lia. destruct (Hz _ Hin) as [-> _]. split; [done|].
    destruct (framed_page l r _ _ _ _ _ _ Hi2 Hain Hta Hin) as (f & _ & _ & _ & _ & _ & _ & ->). by rewrite Hpa.
Qed.

Lemma seg_loaded_keeps elf_data s ms σ0 σ s' ms' σ' as' a ph :
  grown s ms σ0 σ s' ms' σ' as' → ms_inv l r s ms σ0 σ → a ∈ ms_areas ms → ma_map_type a = Framed → area_vpns a = seg_pages ph →
  seg_loaded elf_data (mm_mem s) ms ph → seg_loaded elf_data (mm_mem s') ms' ph.
Proof.
  intros Hgr Hi Ha Ht Hv Hl k Hk.
  destruct (grown_keeps s ms σ0 σ s' ms' σ' as' a (MkVirtPageNum (seg_first ph + k))) as [-> ->]; [done..| |by apply Hl].
  rewrite Hv. apply elem_seg_pages. cbn. lia.
Qed.

Definition is_load (ph : ProgramHeader) : Prop := ph_is_load ph = Some true.
#[global] Instance is_load_dec ph : Decision (is_load ph).
Proof. unfold is_load. apply _. Defined.

(** The segments to load, and the page after the last of them. *)
Definition loads (phs : list ProgramHeader) : list ProgramHeader := filter is_load phs.
Definition last_end (m0 : Z) (phs : list ProgramHeader) : Z := foldl (λ _ ph, seg_end ph) m0 phs.

Lemma segs_pages as' phs : Forall2 (λ a ph, area_vpns a = seg_pages ph) as' phs → as' ≫= area_vpns = phs ≫= seg_pages.
Proof. induction 1 as [|a ph as' phs Ha _ IH]; [done|]. cbn [mbind list_bind]. by f_equal. Qed.

Lemma load_segments_ok elf_data σ0 phs : ∀ s ms σ m0,
  ms_inv l r s ms σ0 σ → Forall is_byte elf_data → Forall (λ ph, is_Some (ph_is_load ph)) phs →
  Forall (seg_ok elf_data) (loads phs) → NoDup (loads phs ≫= seg_pages) →
  (∀ v, v ∈ loads phs ≫= seg_pages → σ !! v = None) → 3 * len (loads phs ≫= seg_pages) ≤ sfa_avail (mm_fa s) →
  ∃ ms' s' σ' as', load_segments elf_data (Some <$> phs) ms (MkVirtPageNum m0) s =
      Ok ((ms', MkVirtPageNum (last_end m0 (loads phs))), s') ∧
    grown s ms σ0 σ s' ms' σ' as' ∧ Forall2 (λ a ph, area_vpns a = seg_pages ph) as' (loads phs) ∧
    ∀ ph, ph ∈ loads phs → seg_loaded elf_data (mm_mem s') ms' ph.
Proof.
  induction phs as [|ph phs IH]; intros s ms σ m0 Hi Hb Hs Hok Hnd Hn Hav.
  { exists ms, s, σ, []. split; [done|]. split; [by apply grown_refl|]. split; [by constructor|]. by intros ph ?%not_elem_of_nil. }
  apply Forall_cons in Hs as [[b Hl] Hs]. cbn [load_segments fmap list_fmap]. erewrite bind_Ok by reflexivity.
  erewrite bind_Ok by (unfold lift; by rewrite Hl). unfold loads in *. destruct b.
  2: { rewrite filter_cons_False in * by (unfold is_load; congruence). by apply IH. }
  rewrite filter_cons_True in * by done. set (lds := filter is_load phs) in *. cbn [mbind list_bind] in *.
  apply Forall_cons in Hok as [Hok1 Hok]. apply NoDup_app in Hnd as (Hnd1 & Hdis & Hnd2).
  rewrite length_app, Nat2Z.inj_add in Hav.
  destruct (push_segment_ok elf_data s ms σ0 σ ph) as (na & ms1 & s1 & σ1 & a & Hnew & Hend & Hdata & Hpush & Hgr & Hva & Hld);
    [done|done|done|intros v Hv; apply Hn, elem_of_app; by left|lia|].
  erewrite bind_Ok by (unfold lift; by rewrite Hnew). cbn zeta. rewrite Hend. erewrite bind_Ok by (unfold lift; by rewrite Hdata).
  erewrite bind_Ok by exact Hpush.
  pose proof (grown_avail _ _ _ _ _ _ _ _ Hgr) as Hav1. cbn [mbind list_bind] in Hav1. rewrite app_nil_r, Hva in Hav1.
  destruct (IH s1 ms1 σ1 (seg_end ph)) as (ms2 & s2 & σ2 & as2 & Hrun & Hgr2 & Has2 & Hall).
  { apply Hgr. }
  { done. }
  { done. }
  { done. }
  { done. }
  { intros v Hv. destruct (σ1 !! v) eqn:E; [|done]. exfalso.
    assert (is_Some (σ1 !! v)) as [Hin|Hin]%(gr_dom _ _ _ _ _ _ _ _ Hgr) by (by eexists).
    - cbn [mbind list_bind] in Hin. rewrite app_nil_r, Hva in Hin. by apply (Hdis v).
    - rewrite Hn in Hin; [by destruct Hin|]. apply elem_of_app. by right. }
  { lia. }
  exists ms2, s2, σ2, ([a] ++ as2). split; [exact Hrun|]. split; [by eapply grown_trans|].
  split; [by constructor|].
  intros ph' [->|Hin]%elem_of_cons; [|by apply Hall].
  assert (a ∈ ms_areas ms1) as Hain by (rewrite (gr_areas _ _ _ _ _ _ _ _ Hgr); clear; set_solver).
  eapply (seg_loaded_keeps elf_data s1 ms1 σ0 σ1); [exact Hgr2|apply Hgr|exact Hain| |done|done].
  pose proof (gr_framed _ _ _ _ _ _ _ _ Hgr) as Hfr. rewrite Forall_singleton in Hfr. exact Hfr.
Qed.

(** * The rest of the space *)

Lemma push_area_grown s ms σ0 σ start end_ a b perm :
  ms_inv l r s ms σ0 σ → VirtAddr_from start = MkVirtAddr a → VirtAddr_from end_ = MkVirtAddr b →
  range_va_ok (MkVirtAddr a) (MkVirtAddr b) → perm_ok perm →
  (∀ v, v ∈ pages_of (MkVirtAddr a) (MkVirtAddr b) → σ !! v = None) →
  3 * len (pages_of (MkVirtAddr a) (MkVirtAddr b)) ≤ sfa_avail (mm_fa s) →
  ∃ area ms' s' σ', push_area ms start end_ Framed perm s = Ok (ms', s') ∧ grown s ms σ0 σ s' ms' σ' [area] ∧
    area_vpns area = pages_of (MkVirtAddr a) (MkVirtAddr b) ∧ ma_map_perm area = perm ∧ zero_pages s' ms' area ∧
    area_is (MkVirtAddr a) (MkVirtAddr b) area.
Proof.
  intros Hi Ha Hb Hr Hp Hn Hav. destruct (MapArea_new_ok (MkVirtAddr a) (MkVirtAddr b) perm Hr) as (rg & Hnew & Hrg & Hvs & Hai).
  destruct (push_grown s ms σ0 σ (MkMapArea rg ∅ Framed perm)) as (area & ms' & s' & σ' & Hpush & (Hra & _ & Hpa) & Hgr & Hz & _);
    [done..|unfold area_vpns; cbn [ma_vpn_range]; by rewrite Hvs|unfold area_vpns; cbn [ma_vpn_range]; by rewrite Hvs|].
  exists area, ms', s', σ'. unfold push_area. rewrite Ha, Hb. erewrite bind_Ok by (unfold lift; by rewrite Hnew).
  split; [done|]. split; [done|]. unfold area_is, area_vpns. rewrite Hra. done.
Qed.

Lemma zero_pages_keeps s ms σ0 σ s' ms' σ' as' a :
  grown s ms σ0 σ s' ms' σ' as' → ms_inv l r s ms σ0 σ → a ∈ ms_areas ms → ma_map_type a = Framed →
  zero_pages s ms a → zero_pages s' ms' a.
Proof. intros Hgr Hi Ha Ht Hz v Hv. destruct (grown_keeps s ms σ0 σ s' ms' σ' as' a v) as [-> ->]; [done..|by apply Hz]. Qed.

(** An empty space with the trampoline. *)
Lemma bare_trampoline_ok ks s : mm_ok l r s → strampoline_ok ks → 3 ≤ sfa_avail (mm_fa s) →
  ∃ ms0 s0 ms s' new d, MemorySet_new_bare s = Ok (ms0, s0) ∧ MemorySet_map_trampoline ks ms0 s0 = Ok (ms, s') ∧
    ms_areas ms = [] ∧
    ms_inv l r s' ms {[ trampoline_vpn := trampoline_entry ks ]} {[ trampoline_vpn := trampoline_entry ks ]} ∧
    mm_step l r s s' new d ∧ (∀ x, x ∈ d → x ∈ new) ∧ (∀ x, x ∈ ms_frames ms → x ∈ new) ∧ (length new ≤ 3)%nat.
Proof.
  intros Hok Hks Hav. destruct (new_bare_ok l r s Hok ltac:(lia)) as (ms0 & s0 & H0 & Ha0 & Hi0 & Hst0 & Hl0).
  destruct (map_trampoline_ok l r ks s0 ms0 Hks Hi0 Ha0) as (ms & s' & new & H1 & Ha & Hi & Hfr & Hst & Hl).
  { rewrite (mm_avail _ _ _ _ _ _ Hst0). lia. }
  exists ms0, s0, ms, s', (ms_frames ms0 ++ new), (ms_frames ms0 ++ ms_frames ms).
  do 4 (split; [done|]). split; [by eapply mm_step_trans|]. rewrite Hfr, length_app.
  split; [clear; set_solver|]. split; [done|]. lia.
Qed.

(** The pages of the user stack above the guard page, and the page of the trap context. *)
Definition stack_pages (phs : list ProgramHeader) : list VirtPageNum :=
  MkVirtPageNum <$> seqZ (last_end 0 (loads phs) + 1) 2.
Definition trap_page : VirtPageNum := MkVirtPageNum 0x7fffffe.

(** A program the loader accepts: segments in the lower half that share no page, none of
    them above the end of the last one. *)
Record elf_ok (elf_data : list Z) (elf : ElfFile) (phs : list ProgramHeader) : Prop := {
  eo_bytes : Forall is_byte elf_data;
  eo_magic : elf_magic elf = [0x7f; 0x45; 0x4c; 0x46];
  eo_headers : elf_program_headers elf = Some <$> phs;
  eo_types : Forall (λ ph, is_Some (ph_is_load ph)) phs;
  eo_segs : Forall (seg_ok elf_data) (loads phs);
  eo_pages : NoDup (loads phs ≫= seg_pages);
  eo_last : Forall (λ ph, seg_end ph ≤ last_end 0 (loads phs)) (loads phs)
}.

Lemma last_end_range elf_data segs : Forall (seg_ok elf_data) segs → 0 ≤ last_end 0 segs ≤ 2 ^ 26 - 4.
Proof.
  unfold last_end. destruct segs as [|ph segs _] using rev_ind; [done|]. intros [_ Hs]%Forall_app.
  rewrite Forall_singleton in Hs. rewrite foldl_app. cbn [foldl]. unfold seg_end. unfold seg_ok in Hs. lia.
Qed.

Lemma seg_below elf_data elf phs v : elf_ok elf_data elf phs → v ∈ loads phs ≫= seg_pages →
  0 ≤ vpn_0 v < last_end 0 (loads phs).
Proof.
  intros He (ph & Hv & Hph)%list_elem_of_bind. apply elem_seg_pages in Hv.
  pose proof (proj1 (Forall_forall _ _) (eo_last _ _ _ He) ph Hph). pose proof (proj1 (Forall_forall _ _) (eo_segs _ _ _ He) ph Hph) as Hs.
  unfold seg_ok, seg_first in *. lia.
Qed.

Lemma VirtAddr_from_high k : 0 < k ≤ 2 ^ 38 → VirtAddr_from (2 ^ 64 - k) = MkVirtAddr (2 ^ 39 - k).
Proof.
  intros Hk. unfold VirtAddr_from. f_equal. change (Z.shiftl 1 VA_WIDTH_SV39 - 1) with (Z.ones 39).
  rewrite Z.land_ones by lia. replace (2 ^ 64 - k) with (2 ^ 39 - k + (2 ^ 25 - 1) * 2 ^ 39) by lia.
  rewrite Z_mod_plus_full. apply Z.mod_small. lia.
Qed.

Lemma elem_pages x n v : 0 ≤ x → 0 ≤ n →
  v ∈ pages_of (MkVirtAddr (4096 * x)) (MkVirtAddr (4096 * (x + n))) ↔ x ≤ vpn_0 v < x + n.
Proof.
  intros Hx Hn. unfold pages_of. cbn [va_0]. rewrite list_elem_of_fmap. setoid_rewrite elem_of_seqZ. destruct v as [v]. cbn. split.
  - intros (y & [= ->] & Hy). lia.
  - intros Hv. exists v. split; [done|lia].
Qed.

Lemma stack_addr E : 0 ≤ E ≤ 2 ^ 26 - 4 →
  usize_from_VirtAddr (VirtAddr_from_VirtPageNum (MkVirtPageNum E)) = 4096 * E.
Proof.
  intros HE. unfold VirtAddr_from_VirtPageNum, usize_from_VirtAddr. cbn [va_0 vpn_0].
  rewrite shl_w_small by (unfold fits, PAGE_SIZE_BITS; lia). unfold PAGE_SIZE_BITS.
  change (Z.shiftl 1 (VA_WIDTH_SV39 - 1)) with (2 ^ 38). rewrite decide_False by lia. lia.
Qed.

(** The user stack, the empty heap area and the trap context above the segments. *)
Definition push_user_areas (ms : MemorySet) (E : Z) : M MM MemorySet :=
  let perm_rwu := Z.lor (Z.lor MapPermission_R MapPermission_W) MapPermission_U in
  ms ← push_area ms (4096 * (E + 1)) (4096 * (E + 1 + 2)) Framed perm_rwu;
  ms ← push_area ms (4096 * (E + 1 + 2)) (4096 * (E + 1 + 2)) Framed perm_rwu;
  push_area ms TRAP_CONTEXT_BASE TRAMPOLINE Framed (Z.lor MapPermission_R MapPermission_W).

Lemma push_user_areas_ok s ms σ0 σ E : ms_inv l r s ms σ0 σ → 0 ≤ E ≤ 2 ^ 26 - 4 →
  (∀ v, is_Some (σ !! v) → vpn_0 v < E ∨ v = trampoline_vpn) → 9 ≤ sfa_avail (mm_fa s) →
  ∃ stack heap trap ms' s' σ', push_user_areas ms E s = Ok (ms', s') ∧ grown s ms σ0 σ s' ms' σ' [stack; heap; trap] ∧
    (∀ v, v ∈ area_vpns stack ↔ E + 1 ≤ vpn_0 v < E + 3) ∧ area_vpns heap = [] ∧ (∀ v, v ∈ area_vpns trap ↔ v = trap_page) ∧
    zero_pages s' ms' stack ∧ zero_pages s' ms' trap ∧ ma_map_perm stack = 0x16 ∧ ma_map_perm trap = 0x6 ∧
    len ([stack; heap; trap] ≫= area_vpns) = 3 ∧
    ma_map_perm heap = 0x16 ∧ ma_vpn_range heap = MkSimpleRange (MkVirtPageNum (E + 3)) (MkVirtPageNum (E + 3)).
Proof.
  intros Hi HE Hσ Hav. unfold push_user_areas. cbv zeta.
  assert (∀ x n, 0 ≤ x → 0 ≤ n → len (pages_of (MkVirtAddr (4096 * x)) (MkVirtAddr (4096 * (x + n)))) = n) as Hlen.
  { intros x n Hx Hn. unfold pages_of. cbn [va_0]. rewrite length_fmap, length_seqZ. lia. }
  destruct (push_area_grown s ms σ0 σ (4096 * (E + 1)) (4096 * (E + 1 + 2)) (4096 * (E + 1)) (4096 * (E + 1 + 2)) 0x16)
    as (stack & ms1 & s1 & σ1 & H1 & G1 & V1 & P1 & Z1 & _);
    [done|apply VirtAddr_from_low; lia..|unfold range_va_ok; cbn; lia|done| |rewrite Hlen; lia|].
  { intros v [Hv1 Hv2]%elem_pages; [|lia..]. destruct (σ !! v) eqn:Hs; [|done]. destruct (Hσ v ltac:(by eexists)) as [?| ->]; [lia|].
    unfold trampoline_vpn in *. cbn in *. lia. }
  erewrite bind_Ok by exact H1.
  assert (∀ v, is_Some (σ1 !! v) → vpn_0 v < E + 3 ∨ v = trampoline_vpn) as Hσ1.
  { intros v [Hv|Hv]%(gr_dom _ _ _ _ _ _ _ _ G1); [|apply Hσ in Hv; intuition lia]. left. cbn [mbind list_bind] in Hv.
    rewrite app_nil_r, V1 in Hv. apply elem_pages in Hv; lia. }
  pose proof (grown_avail _ _ _ _ _ _ _ _ G1) as Hav1. cbn [mbind list_bind] in Hav1. rewrite app_nil_r, V1, Hlen in Hav1 by lia.
  destruct (push_area_grown s1 ms1 σ0 σ1 (4096 * (E + 1 + 2)) (4096 * (E + 1 + 2)) (4096 * (E + 1 + 2)) (4096 * (E + 1 + 2 + 0)) 0x16)
    as (heap & ms2 & s2 & σ2 & H2 & G2 & V2 & P2 & Z2 & [S2 E2]);
    [apply G1|apply VirtAddr_from_low; lia|rewrite Z.add_0_r; apply VirtAddr_from_low; lia|unfold range_va_ok; cbn; lia|done|
     intros v Hv%elem_pages; lia|rewrite Hlen; lia|].
  erewrite bind_Ok by exact H2.
  assert (area_vpns heap = []) as Vh. { apply nil_length_inv. apply Nat2Z.inj. rewrite V2, Hlen by lia. done. }
  pose proof (grown_avail _ _ _ _ _ _ _ _ G2) as Hav2. cbn [mbind list_bind] in Hav2. rewrite app_nil_r, Vh in Hav2. cbn [length] in Hav2.
  assert (∀ v, v ∈ pages_of (MkVirtAddr (4096 * 0x7fffffe)) (MkVirtAddr (4096 * (0x7fffffe + 1))) ↔ v = trap_page) as Htp.
  { intros v. rewrite elem_pages by lia. destruct v as [v]. unfold trap_page. cbn. split; [intros; f_equal; lia|intros [= ->]; lia]. }
  destruct (push_area_grown s2 ms2 σ0 σ2 TRAP_CONTEXT_BASE TRAMPOLINE (4096 * 0x7fffffe) (4096 * (0x7fffffe + 1)) 0x6)
    as (trap & ms3 & s3 & σ3 & H3 & G3 & V3 & P3 & Z3 & _);
    [apply G2|exact (VirtAddr_from_high 8192 ltac:(lia))|exact (VirtAddr_from_high 4096 ltac:(lia))|unfold range_va_ok; cbn; lia|done| |rewrite Hlen; lia|].
  { intros v ->%Htp. destruct (σ2 !! trap_page) eqn:Hs; [|done]. exfalso.
    assert (is_Some (σ2 !! trap_page)) as [Hv|Hv]%(gr_dom _ _ _ _ _ _ _ _ G2) by (by eexists).
    - cbn [mbind list_bind] in Hv. rewrite app_nil_r, Vh in Hv. by apply not_elem_of_nil in Hv.
    - destruct (Hσ1 _ Hv) as [?|[= ?]]. unfold trap_page in *. cbn in *. lia. }
  exists stack, heap, trap, ms3, s3, σ3. split; [exact H3|].
  pose proof (grown_trans _ _ _ _ _ _ _ _ _ _ _ _ G2 G3) as G23.
  split; [exact (grown_trans _ _ _ _ _ _ _ _ _ _ _ _ G1 G23)|].
  split; [intros v; rewrite V1, elem_pages by lia; lia|]. split; [done|]. split; [intros v; by rewrite V3|].
  assert (len ([stack; heap; trap] ≫= area_vpns) = 3) as Hlen3.
  { cbn [mbind list_bind]. rewrite app_nil_r, !length_app, V1, Vh, V3, !Nat2Z.inj_add, !Hlen by lia. done. }
  assert (ma_vpn_range heap = MkSimpleRange (MkVirtPageNum (E + 3)) (MkVirtPageNum (E + 3))) as Hrh.
  { destruct heap as [[x y] fs ty pm]. cbn in S2, E2 |- *. rewrite S2, E2, VirtAddr_ceil_eq by lia. unfold VirtAddr_floor, PAGE_SIZE.
    cbn [va_0]. do 2 f_equal; lia. }
  split; [|done]. eapply (zero_pages_keeps s1 ms1 σ0 σ1); [exact G23|apply G1| | |exact Z1].
  - rewrite (gr_areas _ _ _ _ _ _ _ _ G1). clear. set_solver.
  - pose proof (gr_framed _ _ _ _ _ _ _ _ G1) as Hfr. rewrite Forall_singleton in Hfr. exact Hfr.
Qed.

(** The pages of a program. *)
Definition program_page (phs : list ProgramHeader) (v : VirtPageNum) : Prop :=
  v ∈ loads phs ≫= seg_pages ∨ v ∈ stack_pages phs ∨ v = trap_page ∨ v = trampoline_vpn.

Lemma elem_stack_pages phs v :
  v ∈ stack_pages phs ↔ last_end 0 (loads phs) + 1 ≤ vpn_0 v < last_end 0 (loads phs) + 3.
Proof.
  unfold stack_pages. rewrite list_elem_of_fmap. setoid_rewrite elem_of_seqZ. destruct v as [v]. cbn [vpn_0]. split.
  - intros (y & [= ->] & Hy). lia.
  - intros Hv. exists v. split; [done|lia].
Qed.
End Load.

Lemma from_elf_run ks elf_new elf_data elf s ms0 s0 ms1 s1 ms2 s2 E ms3 s3 :
  0 ≤ E ≤ 2 ^ 26 - 4 → MemorySet_new_bare s = Ok (ms0, s0) → MemorySet_map_trampoline ks ms0 s0 = Ok (ms1, s1) →
  elf_new elf_data = Some elf → elf_magic elf = [0x7f; 0x45; 0x4c; 0x46] →
  load_segments elf_data (elf_program_headers elf) ms1 (MkVirtPageNum 0) s1 = Ok ((ms2, MkVirtPageNum E), s2) →
  push_user_areas ms2 E s2 = Ok (ms3, s3) →
  MemorySet_from_elf ks elf_new elf_data s = Ok ((ms3, 4096 * (E + 3), elf_entry_point elf), s3).
Proof.
  intros HE H0 H1 Hnew Hmagic H2 H3.
  unfold MemorySet_from_elf. erewrite bind_Ok by exact H0. erewrite bind_Ok by exact H1.
  erewrite bind_Ok by (unfold lift; by rewrite Hnew). erewrite bind_Ok by (unfold lift; by rewrite Hmagic).
  erewrite bind_Ok by exact H2. cbn beta iota zeta. rewrite stack_addr by done. unfold PAGE_SIZE, USER_STACK_SIZE.
  rewrite (add_w_small _ (4096 * E) 0x1000) by (unfold fits; lia). rewrite add_w_small by (unfold fits; lia).
  replace (4096 * E + 0x1000) with (4096 * (E + 1)) by lia. replace (4096 * (E + 1) + 4096 * 2) with (4096 * (E + 1 + 2)) by lia.
  unfold push_user_areas in H3. cbv zeta in H3.
  apply bind_inv in H3 as (msa & sa & Ha & H3). apply bind_inv in H3 as (msb & sb & Hb & H3).
  erewrite bind_Ok by exact Ha. erewrite bind_Ok by exact Hb. erewrite bind_Ok by exact H3.
  by replace (4096 * (E + 1 + 2)) with (4096 * (E + 3)) by lia.
Qed.

(** Looking an area up by its first page. *)
Lemma find_area_at b : ∀ acc start area after, get_start (ma_vpn_range area) = start →
  Forall (λ a, get_start (ma_vpn_range a) ≠ start) b → find_area start acc (b ++ area :: after) = Some (acc ++ b, area, after).
Proof.
  induction b as [|x b IH]; intros acc start area after Hs Hb; cbn [app find_area].
  - by rewrite decide_True, app_nil_r.
  - apply Forall_cons in Hb as [Hx Hb]. rewrite decide_False by done. rewrite IH by done. by rewrite <- app_assoc.
Qed.

Lemma seg_pages_nonempty elf_data ph : seg_ok elf_data ph → seg_pages ph ≠ [].
Proof.
  intros (Hv & Hm & _) Hnil. assert (MkVirtPageNum (seg_first ph) ∈ seg_pages ph) as Hin.
  { apply elem_seg_pages. unfold seg_first, seg_end. cbn. lia. }
  rewrite Hnil in Hin. by apply not_elem_of_nil in Hin.
Qed.

Lemma areas_below_start l r s ms σ0 σ b E : ms_inv l r s ms σ0 σ → (∀ a, a ∈ b → a ∈ ms_areas ms) →
  Forall (λ a, area_vpns a ≠ [] ∧ ∀ v, v ∈ area_vpns a → vpn_0 v < E) b →
  Forall (λ a, get_start (ma_vpn_range a) ≠ MkVirtPageNum E) b.
Proof.
  intros Hi Hsub. rewrite !Forall_forall. intros Hb a Ha. destruct (Hb a Ha) as [Hne Hlt].
  pose proof (mi_areas _ _ _ _ _ _ Hi) as Hok. rewrite Forall_forall in Hok. destruct (Hok a (Hsub a Ha)) as (Hr & _).
  destruct a as [[[x] [y]] fs ty pm]. unfold area_vpns, range_ok in *. cbn [ma_vpn_range get_start get_end vpn_0] in *. intros [= ->].
  destruct (decide (E < y)) as [Hy|Hy].
  - assert (MkVirtPageNum E ∈ VPNRange_vpns (MkSimpleRange (MkVirtPageNum E) (MkVirtPageNum y))) as Hin by (apply elem_of_VPNRange_vpns; cbn; lia).
    specialize (Hlt _ Hin). cbn in Hlt. lia.
  - apply Hne. rewrite VPNRange_vpns_eq by lia. rewrite seqZ_nil by lia. done.
Qed.

(** The heap is the first area at its page: the segments and the stack are below. *)
Lemma heap_found l r s ms σ0 σ elf elf_data phs as' stack heap after : ms_inv l r s ms σ0 σ → ms_areas ms = as' ++ stack :: heap :: after →
  elf_ok elf_data elf phs → Forall2 (λ a ph, area_vpns a = seg_pages ph) as' (loads phs) →
  (∀ v, v ∈ area_vpns stack ↔ last_end 0 (loads phs) + 1 ≤ vpn_0 v < last_end 0 (loads phs) + 3) →
  get_start (ma_vpn_range heap) = MkVirtPageNum (last_end 0 (loads phs) + 3) →
  find_area (MkVirtPageNum (last_end 0 (loads phs) + 3)) [] (ms_areas ms) = Some (as' ++ [stack], heap, after).
Proof.
  intros Hi Has He Hasg Vs Hh. rewrite Has. change (as' ++ stack :: heap :: after) with (as' ++ [stack] ++ heap :: after). rewrite app_assoc.
  apply (find_area_at (as' ++ [stack]) []); [done|]. apply (areas_below_start l r s ms σ0 σ); [done| |].
  { rewrite Has. clear. set_solver. }
  apply Forall_app. split; [|apply Forall_singleton].
  - apply Forall_forall. intros a [i Hia]%list_elem_of_lookup. destruct (Forall2_lookup_l _ _ _ _ _ Hasg Hia) as (ph & Hph%list_elem_of_lookup_2 & Hv).
    split; [rewrite Hv; by eapply seg_pages_nonempty, (proj1 (Forall_forall _ _) (eo_segs _ _ _ He))|].
    intros v Hvv. rewrite Hv in Hvv. assert (v ∈ loads phs ≫= seg_pages) as Hb%(seg_below _ _ _ _ He) by (apply list_elem_of_bind; eauto). lia.
  - split; [|by intros v ?%Vs; lia]. intros Hnil.
    assert (MkVirtPageNum (last_end 0 (loads phs) + 1) ∈ area_vpns stack) as Hin by (apply Vs; cbn; lia). rewrite Hnil in Hin. by apply not_elem_of_nil in Hin.
Qed.

(** What [from_elf] leaves: the space [ms] with the entries [σ] in the state [s'], made from
    free memory of the state [s]. *)
Record program_space (l r : Z) (ks : KernelSymbols) (elf_data : list Z) (phs : list ProgramHeader) (s s' : MM) (ms : MemorySet)
    (σ : page_map) : Prop := {
  ps_inv : ms_inv l r s' ms {[ trampoline_vpn := trampoline_entry ks ]} σ;
  ps_segs : ∀ ph, ph ∈ loads phs → seg_loaded elf_data (mm_mem s') ms ph;
  ps_areas : ∀ ph, ph ∈ loads phs → ∃ a, a ∈ ms_areas ms ∧ ma_map_type a = Framed ∧ area_vpns a = seg_pages ph;
  ps_framed : Forall (λ a, ma_map_type a = Framed) (ms_areas ms);
  ps_stack : ∀ v, v ∈ stack_pages phs →
    user_page (mm_mem s') ms v = Some (replicate 4096 0) ∧ user_flags (mm_mem s') ms v = Some 0x17;
  ps_stack_area : ∃ a, a ∈ ms_areas ms ∧ ma_map_type a = Framed ∧ ∀ v, v ∈ area_vpns a ↔ v ∈ stack_pages phs;
  ps_trap : ∃ a, a ∈ ms_areas ms ∧ ma_map_type a = Framed ∧ ma_map_perm a = 0x6 ∧ trap_page ∈ area_vpns a;
  ps_trap_zero : user_page (mm_mem s') ms trap_page = Some (replicate 4096 0) ∧ user_flags (mm_mem s') ms trap_page = Some 0x7;
  ps_heap : ∃ before heap after, find_area (MkVirtPageNum (last_end 0 (loads phs) + 3)) [] (ms_areas ms) = Some (before, heap, after) ∧
    ma_map_type heap = Framed ∧ ma_map_perm heap = 0x16 ∧ get_end (ma_vpn_range heap) = MkVirtPageNum (last_end 0 (loads phs) + 3);
  ps_trampoline : σ !! trampoline_vpn = Some (trampoline_entry ks);
  ps_pages : ∀ v, vpn_ok v → is_Some (σ !! v) ↔ program_page phs v;
  ps_step : ∃ new d, mm_step l r s s' new d ∧ (∀ x, x ∈ d → x ∈ new) ∧ (∀ x, x ∈ ms_frames ms → x ∈ new) ∧
    len new ≤ 3 * len (loads phs ≫= seg_pages) + 12
}.

Lemma trampoline_only ks v : is_Some (({[ trampoline_vpn := trampoline_entry ks ]} : page_map) !! v) ↔ v = trampoline_vpn.
Proof.
  destruct (decide (v = trampoline_vpn)) as [->|Hne].
  - rewrite lookup_singleton_eq. split; [done|by eexists].
  - rewrite lookup_singleton_ne by done. split; [by intros []|done].
Qed.

(** The parts put together: the trampoline, the segments [as2], the areas above them. *)
Lemma program_space_intro l r ks elf_data elf phs s s1 ms1 n1 d1 s2 ms2 σ2 as2 s3 ms3 σ3 stack heap trap :
  let σ1 : page_map := {[ trampoline_vpn := trampoline_entry ks ]} in let E := last_end 0 (loads phs) in
  elf_ok elf_data elf phs → ms_areas ms1 = [] → mm_step l r s s1 n1 d1 → (∀ x, x ∈ d1 → x ∈ n1) → (∀ x, x ∈ ms_frames ms1 → x ∈ n1) → (length n1 ≤ 3)%nat →
  grown l r s1 ms1 σ1 σ1 s2 ms2 σ2 as2 → Forall2 (λ a ph, area_vpns a = seg_pages ph) as2 (loads phs) →
  (∀ ph, ph ∈ loads phs → seg_loaded elf_data (mm_mem s2) ms2 ph) →
  grown l r s2 ms2 σ1 σ2 s3 ms3 σ3 [stack; heap; trap] → (∀ v, v ∈ area_vpns stack ↔ E + 1 ≤ vpn_0 v < E + 3) → area_vpns heap = [] →
  (∀ v, v ∈ area_vpns trap ↔ v = trap_page) → zero_pages s3 ms3 stack → zero_pages s3 ms3 trap → ma_map_perm stack = 0x16 → ma_map_perm trap = 0x6 →
  len ([stack; heap; trap] ≫= area_vpns) = 3 → ma_map_perm heap = 0x16 → ma_vpn_range heap = MkSimpleRange (MkVirtPageNum (E + 3)) (MkVirtPageNum (E + 3)) →
  program_space l r ks elf_data phs s s3 ms3 σ3.
Proof.
  intros σ1 E He Ha1 Hst1 Hd1 Hf1 Hl1 G2 Hasg Hseg G3 Vs Vh Vt Zs Zt Ps Pt Hlen3 Ph Rh. pose proof (segs_pages _ _ Hasg) as Has2.
  pose proof (grown_trans _ _ _ _ _ _ _ _ _ _ _ _ _ _ G2 G3) as G. destruct (gr_step _ _ _ _ _ _ _ _ _ _ G) as (n3 & d3 & Hst3 & Hd3 & _ & Hf3 & Hl3).
  pose proof (mm_step_trans _ _ _ _ _ _ _ _ _ Hst1 Hst3) as Hst.
  assert (∀ x, x ∈ d1 ++ d3 → x ∈ n1 ++ n3) as Hd.
  { assert (∀ x, x ∈ frame_nums (frames (ms_page_table ms1)) → x ∈ n1) as Hp1 by (intros x Hx; apply Hf1, elem_of_app; by left).
    clear -Hd1 Hd3 Hp1. set_solver. }
  split; [apply G|..].
  - intros ph Hph. pose proof Hph as [i Hi]%list_elem_of_lookup. destruct (Forall2_lookup_r _ _ _ _ _ Hasg Hi) as (a & Ha%list_elem_of_lookup_2 & Hv).
    eapply (seg_loaded_keeps l r elf_data s2 ms2 σ1 σ2); [exact G3|apply G2| | |exact Hv|by apply Hseg].
    + rewrite (gr_areas _ _ _ _ _ _ _ _ _ _ G2). apply elem_of_app. by right.
    + exact (proj1 (Forall_forall _ _) (gr_framed _ _ _ _ _ _ _ _ _ _ G2) a Ha).
  - intros ph [i Hi]%list_elem_of_lookup. destruct (Forall2_lookup_r _ _ _ _ _ Hasg Hi) as (a & Ha%list_elem_of_lookup_2 & Hv).
    exists a. rewrite (gr_areas _ _ _ _ _ _ _ _ _ _ G). split; [by apply elem_of_app; right; apply elem_of_app; left|]. split; [|done].
    exact (proj1 (Forall_forall _ _) (gr_framed _ _ _ _ _ _ _ _ _ _ G2) a Ha).
  - rewrite (gr_areas _ _ _ _ _ _ _ _ _ _ G), Ha1. exact (gr_framed _ _ _ _ _ _ _ _ _ _ G).
  - intros v Hv%elem_stack_pages%Vs. destruct (Zs v Hv) as [-> ->]. by rewrite Ps.
  - exists stack. rewrite (gr_areas _ _ _ _ _ _ _ _ _ _ G3). pose proof (gr_framed _ _ _ _ _ _ _ _ _ _ G3) as Hfr.
    rewrite !Forall_cons in Hfr. split; [|split; [apply Hfr|intros v; by rewrite Vs, elem_stack_pages]].
    apply elem_of_app. right. apply list_elem_of_here.
  - exists trap. rewrite (gr_areas _ _ _ _ _ _ _ _ _ _ G3). pose proof (gr_framed _ _ _ _ _ _ _ _ _ _ G3) as Hfr.
    rewrite !Forall_cons in Hfr. split; [|split; [apply Hfr|split; [exact Pt|by apply Vt]]].
    apply elem_of_app. right. apply list_elem_of_further, list_elem_of_further, list_elem_of_here.
  - destruct (Zt trap_page (proj2 (Vt _) eq_refl)) as [-> ->]. by rewrite Pt.
  - pose proof (gr_framed _ _ _ _ _ _ _ _ _ _ G3) as Hfr. rewrite !Forall_cons in Hfr.
    exists (as2 ++ [stack]), heap, [trap]. rewrite Rh. split; [|by split; [apply Hfr|]].
    eapply (heap_found l r s3 ms3 σ1 σ3); [apply G|by rewrite (gr_areas _ _ _ _ _ _ _ _ _ _ G), Ha1|exact He|exact Hasg|exact Vs|by rewrite Rh].
  - apply (gr_fixed _ _ _ _ _ _ _ _ _ _ G); apply lookup_singleton_eq.
  - intros v Hv. rewrite (gr_dom _ _ _ _ _ _ _ _ _ _ G), bind_app, elem_of_app, Has2. unfold σ1. rewrite trampoline_only. cbn [mbind list_bind].
    rewrite Vh, !elem_of_app, Vs, Vt, !elem_of_nil. unfold program_page. rewrite elem_stack_pages. fold E. tauto.
  - exists (n1 ++ n3), (d1 ++ d3). split; [done|]. split; [done|]. split.
    + intros x Hx. apply elem_of_app. destruct (Hf3 x Hx); auto.
    + rewrite bind_app, length_app, Has2 in Hl3. rewrite length_app. lia.
Qed.

Lemma from_elf_ok (l r : Z) (ks : KernelSymbols) (elf_new : list Z → option ElfFile) (elf_data : list Z)
    (elf : ElfFile) (phs : list ProgramHeader) (s : MM) :
  mm_ok l r s → strampoline_ok ks → elf_new elf_data = Some elf → elf_ok elf_data elf phs →
  3 * len (loads phs ≫= seg_pages) + 12 ≤ sfa_avail (mm_fa s) →
  ∃ ms s' σ, MemorySet_from_elf ks elf_new elf_data s =
      Ok ((ms, 4096 * (last_end 0 (loads phs) + 3), elf_entry_point elf), s') ∧
    program_space l r ks elf_data phs s s' ms σ.
Proof.
  intros Hok Hks Hnew He Hav.
  destruct (bare_trampoline_ok l r ks s Hok Hks ltac:(lia)) as (ms0 & s0 & ms1 & s1 & n1 & d1 & H0 & H1 & Ha1 & Hi1 & Hst1 & Hd1 & Hf1 & Hl1).
  pose proof (mm_avail _ _ _ _ _ _ Hst1) as Hav1. set (σ1 := {[ trampoline_vpn := trampoline_entry ks ]} : page_map) in *.
  pose proof (last_end_range _ _ (eo_segs _ _ _ He)) as HE. set (E := last_end 0 (loads phs)) in *.
  pose proof (trampoline_only ks : ∀ v, is_Some (σ1 !! v) ↔ v = trampoline_vpn) as Hσ1.
  destruct (load_segments_ok l r elf_data σ1 phs s1 ms1 σ1 0) as (ms2 & s2 & σ2 & as2 & H2 & G2 & Hasg & Hseg); [done|apply He..| |lia|].
  { intros v Hv%(seg_below _ _ _ _ He). fold E in Hv. destruct (σ1 !! v) eqn:Hs; [|done].
    assert (v = trampoline_vpn) as -> by (apply Hσ1; by eexists). unfold trampoline_vpn in Hv. cbn in Hv. lia. }
  pose proof (segs_pages _ _ Hasg) as Has2. pose proof (grown_avail _ _ _ _ _ _ _ _ _ _ G2) as Hav2. rewrite Has2 in Hav2. fold E in H2.
  destruct (push_user_areas_ok l r s2 ms2 σ1 σ2 E) as (stack & heap & trap & ms3 & s3 & σ3 & H3 & G3 & Vs & Vh & Vt & Zs & Zt & Ps & Pt & Hlen3 & Ph & Rh);
    [apply G2|done| |lia|].
  { intros v [Hv|Hv]%(gr_dom _ _ _ _ _ _ _ _ _ _ G2); [rewrite Has2 in Hv; apply (seg_below _ _ _ _ He) in Hv; left; apply Hv|].
    right. by apply Hσ1. }
  exists ms3, s3, σ3. split; [eapply from_elf_run; [done..|apply He|by rewrite (eo_headers _ _ _ He)|done]|].
  by eapply (program_space_intro l r ks elf_data elf phs s s1 ms1 n1 d1 s2 ms2 σ2 as2 s3 ms3 σ3 stack heap trap).
Qed.

(** * Properties *)

(** C10: [from_elf] builds the address space of a program.  With three frames per page and
    twelve more it succeeds and returns the top of the user stack and the entry point.
    Every page of every segment shows the file bytes of the segment followed by zeros,
    with the permissions of its header and [U]; the two stack pages above the guard page
    and the trap context are zero; the trampoline is mapped; nothing else is, the guard
    page included.  All frames of the new space are fresh, and the memory in use before
    is untouched. *)
Theorem from_elf_builds_space (l r : Z) (ks : KernelSymbols) (elf_new : list Z → option ElfFile) (elf_data : list Z)
    (elf : ElfFile) (phs : list ProgramHeader) (s : MM)
    (Hok : mm_ok l r s) (Hks : strampoline_ok ks) (Hnew : elf_new elf_data = Some elf) (He : elf_ok elf_data elf phs)
    (Hav : 3 * len (loads phs ≫= seg_pages) + 12 ≤ sfa_avail (mm_fa s)) :
  ∃ ms s' σ, MemorySet_from_elf ks elf_new elf_data s =
      Ok ((ms, 4096 * (last_end 0 (loads phs) + 3), elf_entry_point elf), s') ∧
    ms_inv l r s' ms {[ trampoline_vpn := trampoline_entry ks ]} σ ∧
    (∀ ph, ph ∈ loads phs → seg_loaded elf_data (mm_mem s') ms ph) ∧
    (∀ v, v ∈ stack_pages phs → user_page (mm_mem s') ms v = Some (replicate 4096 0) ∧ user_flags (mm_mem s') ms v = Some 0x17) ∧
    user_page (mm_mem s') ms trap_page = Some (replicate 4096 0) ∧ user_flags (mm_mem s') ms trap_page = Some 0x7 ∧
    pt_view (mm_mem s') (ms_page_table ms) trampoline_vpn = Some (trampoline_entry ks) ∧
    (∀ v, vpn_ok v → is_Some (pt_view (mm_mem s') (ms_page_table ms) v) ↔ program_page phs v) ∧
    (∀ x, x ∈ ms_frames ms → ¬ sfa_live l (mm_fa s) x) ∧
    ∀ y, sfa_live l (mm_fa s) (y / 4096) → read_u8 (mm_mem s') y = read_u8 (mm_mem s) y.
Proof.
  destruct (from_elf_ok l r ks elf_new elf_data elf phs s Hok Hks Hnew He Hav) as (ms & s' & σ & Hrun & [Hi Hsegs _ _ Hstack _ _ [Hz Hfl] _ Htr Hpg (new & d & Hst & Hd & Hfr & _)]).
  destruct (mi_pt _ _ _ _ _ _ Hi) as [_ Hview]. exists ms, s', σ. do 6 (split; [done|]).
  split; [by rewrite Hview by (unfold vpn_ok, trampoline_vpn; cbn; lia)|]. split; [intros v Hv; rewrite Hview by done; by apply Hpg|].
  split; [intros x Hx; by apply (mm_fresh _ _ _ _ _ _ Hst), Hfr|].
  intros y Hy. apply (mm_same _ _ _ _ _ _ Hst). intros Hin. by apply (mm_fresh _ _ _ _ _ _ Hst (y / 4096) (Hd _ Hin)).
Qed.

(** * Bytes of a segment *)

(** The byte at a virtual address. *)
Definition user_byte (m : memory) (ms : MemorySet) (va : Z) : option Z :=
  p ← user_page m ms (MkVirtPageNum (va / 4096)); p !! Z.to_nat (va mod 4096).

(** The bytes of the file follow from the start of the first page of the segment, so at
    [p_vaddr] only when that is page aligned. *)
Lemma segment_byte elf_data m ms ph j : seg_loaded elf_data m ms ph → 0 ≤ j < 4096 * (seg_end ph - seg_first ph) →
  user_byte m ms (4096 * seg_first ph + j) = Some (nth (Z.to_nat j) (seg_data elf_data ph) 0).
Proof.
  intros Hl Hj. unfold user_byte. replace ((4096 * seg_first ph + j) / 4096) with (seg_first ph + j / 4096) by lia.
  destruct (Hl (j / 4096) ltac:(lia)) as [-> _]. cbn [mbind option_bind]. replace ((4096 * seg_first ph + j) mod 4096) with (j mod 4096) by lia.
  set (data := seg_data elf_data ph). unfold seg_page. set (x := slice data (4096 * (j / 4096)) 4096).
  assert (length x ≤ 4096)%nat as Hx by (unfold x, slice; rewrite length_take; lia).
  assert (∀ i : nat, (i < 4096)%nat → x !! i = data !! (Z.to_nat (4096 * (j / 4096)) + i)%nat) as Hlk.
  { intros i Hi. unfold x, slice. rewrite lookup_take_lt by lia. by rewrite lookup_drop. }
  replace (Z.to_nat j) with (Z.to_nat (4096 * (j / 4096)) + Z.to_nat (j mod 4096))%nat by lia.
  rewrite nth_lookup, <- Hlk by lia. unfold splice. change (Z.to_nat 0) with 0%nat. rewrite take_0, app_nil_l, Nat.add_0_l.
  destruct (decide (Z.to_nat (j mod 4096) < length x)%nat) as [Hlt|Hge].
  - rewrite lookup_app_l by done. destruct (lookup_lt_is_Some_2 x _ Hlt) as [b ->]. done.
  - rewrite lookup_app_r, lookup_drop, lookup_replicate_2 by lia. by rewrite lookup_ge_None_2 by lia.
Qed.

(** * Witnesses

    A program with one executable segment of two pages, of which four bytes are in the
    file, and a header that is not loaded. *)

Definition demo_phs : list ProgramHeader :=
  [MkProgramHeader (Some false) 0 0 0 0 false false false; MkProgramHeader (Some true) 0x10000 5000 0 4 true false true].
Definition demo_elf : ElfFile := MkElfFile [0x7f; 0x45; 0x4c; 0x46] (Some <$> demo_phs) 0x10000.
Definition demo_elf_data : list Z := [1; 2; 3; 4].

Lemma demo_loads : loads demo_phs = [MkProgramHeader (Some true) 0x10000 5000 0 4 true false true].
Proof. reflexivity. Qed.

Lemma demo_elf_ok : elf_ok demo_elf_data demo_elf demo_phs.
Proof.
  split; rewrite ?demo_loads.
  - apply (bool_decide_unpack _). vm_compute. exact I.
  - reflexivity.
  - reflexivity.
  - repeat (apply Forall_cons; split; [by eexists|]). by apply Forall_nil.
  - apply Forall_singleton. unfold seg_ok. cbn. lia.
  - apply (bool_decide_unpack _). vm_compute. exact I.
  - apply Forall_singleton. vm_compute. discriminate.
Qed.

Lemma from_elf_builds_space_witness : ∃ ms s',
  MemorySet_from_elf demo_ks (λ _, Some demo_elf) demo_elf_data demo_mm = Ok ((ms, 0x15000, 0x10000), s') ∧
  user_byte (mm_mem s') ms 0x10002 = Some 3 ∧ user_byte (mm_mem s') ms 0x10004 = Some 0 ∧
  user_flags (mm_mem s') ms (MkVirtPageNum 0x11) = Some 0x1b.
Proof.
  destruct (from_elf_builds_space 0x80300 0x88000 demo_ks (λ _, Some demo_elf) demo_elf_data demo_elf demo_phs demo_mm)
    as (ms & s' & σ & Hrun & _ & Hseg & _).
  - exact demo_mm_ok.
  - exact demo_ks_ok.
  - reflexivity.
  - exact demo_elf_ok.
  - rewrite demo_loads. vm_compute. discriminate.
  - rewrite demo_loads in Hrun, Hseg. specialize (Hseg _ (list_elem_of_here _ _)). exists ms, s'. split; [exact Hrun|].
    split; [exact (segment_byte _ _ _ _ 2 Hseg ltac:(vm_compute; split; [discriminate|reflexivity]))|]. split; [exact (segment_byte _ _ _ _ 4 Hseg ltac:(vm_compute; split; [discriminate|reflexivity]))|].
    exact (proj2 (Hseg 1 ltac:(vm_compute; split; [discriminate|reflexivity]))).
Defined.
