(* ===== verification/KernelSpace.v ===== *)
(** The address space of the kernel ([MemorySet::new_kernel] and [remap_test] of
    [os/src/mm/memory_set.rs], [VirtioHal] of [os/src/drivers/block/virtio_blk.rs]): identity-mapped sections with their
    permissions, the check the kernel makes of them, and the address translation the
    block driver relies on. *)

From S2P Require Import Prelude Config Address Allocator FrameAllocator PhysMem PageTable PageTableSpec MemorySet MemorySetSpec AddressSpace.

Ltac Zify.zify_post_hook ::= Z.to_euclidean_division_equations.

(** * Mapping where the table already reaches *)

Lemma find_pte_create_found m pte idxs : ∀ i ppn pt s, mm_mem s = m →
  find_pte_loop m i idxs ppn = Some pte → find_pte_create_loop i idxs ppn pt s = Ok ((Some pte, pt), s).
Proof.
  induction idxs as [|idx idxs IH]; intros i ppn pt s Hm; cbn [find_pte_loop find_pte_create_loop]; [done|].
  case_decide; [by intros [= ->]|]. destruct (PageTableEntry_is_valid _) eqn:Hv; [|done]. intros Hf.
  unfold mbind, M_bind, get_state. rewrite Hm, Hv. cbn. rewrite Hm. by apply IH.
Qed.

(** The pages with the same upper two indexes share their last-level table. *)
Lemma same_block_find l r s pt v w e : pt_wf l r s pt → vpn_0 v / 512 = vpn_0 w / 512 →
  pt_view (mm_mem s) pt w = Some e → is_Some (PageTable_find_pte (mm_mem s) pt v).
Proof.
  intros Hwf Hvw Hw. destruct (pt_view_find _ _ _ _ _ _ Hwf Hw) as (i0 & i1 & i2 & t & Hi & _ & _ & Hwk & _).
  destruct (find_pte_walk (mm_mem s) pt v (pt_wf_root _ _ _ _ Hwf)) as (j0 & j1 & j2 & Hj & _ & _ & _ & ->).
  rewrite VirtPageNum_indexes_eq in Hi, Hj. injection Hi as <- <- <-. injection Hj as <- <- <-.
  replace (vpn_0 v / 2 ^ 18) with (vpn_0 w / 2 ^ 18) by lia. replace (vpn_0 v / 2 ^ 9) with (vpn_0 w / 2 ^ 9) by lia.
  rewrite Hwk. by eexists.
Qed.

Lemma map_found_fa pt vpn ppn flags s pt' s' : is_Some (PageTable_find_pte (mm_mem s) pt vpn) →
  PageTable_map pt vpn ppn flags s = Ok (pt', s') → mm_fa s' = mm_fa s.
Proof.
  intros [pte Hp] Hm. unfold PageTable_map, PageTable_find_pte_create in Hm.
  erewrite bind_Ok in Hm by by apply (find_pte_create_found (mm_mem s) pte).
  cbn beta iota in Hm. apply bind_inv in Hm as (p & s1 & [= <- <-] & Hm). apply bind_inv in Hm as (s2 & s3 & [= <- <-] & Hm).
  apply bind_inv in Hm as ([] & s1 & Ha & Hm). unfold lift in Ha. destruct (res_assert _) as [[]|]; [|done]. injection Ha as <-.
  by injection Hm as _ <-.
Qed.

(** * Identity maps *)

(** The blocks of 512 pages the pages from [a] to [b] meet. *)
Definition blocks (a b : Z) : Z := if decide (a < b) then (b - 1) / 512 - a / 512 + 1 else 0.

Lemma blocks_le a b : a ≤ b → blocks a b ≤ b / 512 - a / 512 + 1.
Proof. intros H. unfold blocks. case_decide; lia. Qed.

Section Identical.
Context (l r : Z).

Lemma map_one_identical s area pt σ v :
  pt_refines l r s pt σ → vpn_ok v → perm_ok (ma_map_perm area) → ma_map_type area = Identical → σ !! v = None →
  2 ≤ sfa_avail (mm_fa s) →
  ∃ pt' s' new, MapArea_map_one area pt v s = Ok ((area, pt'), s') ∧
    pt_refines l r s' pt' (<[v := identical_entry (ma_map_perm area) v]> σ) ∧ pt_step l r s pt s' pt' new ∧
    (length new ≤ 2)%nat ∧ ((∃ w, vpn_ok w ∧ vpn_0 w / 512 = vpn_0 v / 512 ∧ is_Some (σ !! w)) → new = []).
Proof.
  intros Href Hv Hp Ht Hn Hav.
  pose proof (map_refines l r s pt σ v (MkPhysPageNum (vpn_0 v)) (ma_map_perm area) Href Hav Hv) as Hm.
  unfold page_map_map in Hm. rewrite Hn in Hm. destruct Hm as (pt' & s' & new & Hm & Href' & Hst & Hl);
    [unfold vpn_ok in Hv; cbn; lia|exact Hp|].
  exists pt', s', new. split; [|split; [done|split; [done|split; [done|]]]].
  - unfold MapArea_map_one. rewrite Ht. erewrite bind_Ok by reflexivity. cbn beta iota.
    erewrite bind_Ok by (unfold lift; by rewrite from_bits_ok). by erewrite bind_Ok by exact Hm.
  - intros (w & Hw & Hblk & e & He). destruct Href as [Hwf Hview]. rewrite <- Hview in He by done.
    pose proof (map_found_fa _ _ _ _ _ _ _ (same_block_find l r s pt v w e Hwf ltac:(lia) He) Hm) as Hfa.
    pose proof (step_avail _ _ _ _ _ _ _ Hst) as Ha. rewrite Hfa in Ha. apply nil_length_inv. lia.
Qed.

Abbreviation pages a n := (MkVirtPageNum <$> seqZ a n).
Abbreviation id_map perm vs := (list_to_map (M := gmap VirtPageNum _) ((λ v, (v, identical_entry perm v)) <$> vs)).

(** [c] is 1 when the table already reaches the block of the first page. *)
Lemma map_vpns_identical area n : ∀ a s pt σ c,
  pt_refines l r s pt σ → 0 ≤ a → a + Z.of_nat n ≤ 2 ^ 27 → perm_ok (ma_map_perm area) → ma_map_type area = Identical →
  (∀ v, v ∈ pages a (Z.of_nat n) → σ !! v = None) →
  c = 0 ∨ c = 1 ∧ (0 < n)%nat ∧ (∃ w, vpn_ok w ∧ vpn_0 w / 512 = a / 512 ∧ is_Some (σ !! w)) →
  2 * (blocks a (a + Z.of_nat n) - c) + 2 ≤ sfa_avail (mm_fa s) →
  ∃ pt' s' new, MapArea_map_vpns area pt (pages a (Z.of_nat n)) s = Ok ((area, pt'), s') ∧
    pt_refines l r s' pt' (id_map (ma_map_perm area) (pages a (Z.of_nat n)) ∪ σ) ∧ pt_step l r s pt s' pt' new ∧
    Z.of_nat (length new) ≤ 2 * (blocks a (a + Z.of_nat n) - c).
Proof.
  induction n as [|n IH]; intros a s pt σ c Href Ha Hb Hp Ht Hn Hc Hav.
  { exists pt, s, []. assert (c = 0) as -> by lia. unfold blocks in *. rewrite decide_False in * by lia.
    split; [done|]. assert (id_map (ma_map_perm area) (pages a (Z.of_nat 0)) = ∅) as -> by reflexivity.
    split; [by rewrite (left_id_L ∅ (∪))|]. split; [apply pt_step_refl, Href|done]. }
  replace (Z.of_nat (S n)) with (Z.succ (Z.of_nat n)) in * by lia. rewrite seqZ_cons in * by lia. rewrite Z.pred_succ in *.
  rewrite fmap_cons in *. cbn [MapArea_map_vpns].
  assert (blocks a (a + Z.succ (Z.of_nat n)) = (a + Z.of_nat n) / 512 - a / 512 + 1) as Hblk
    by (unfold blocks; rewrite decide_True by lia; f_equal; f_equal; f_equal; lia).
  destruct (map_one_identical s area pt σ (MkVirtPageNum a)) as (pt1 & s1 & n1 & H1 & Href1 & Hst1 & Hl1 & Hz1);
    [done|unfold vpn_ok; cbn; lia|done|done|apply Hn, list_elem_of_here|lia|].
  erewrite bind_Ok by exact H1. cbn beta iota.
  assert (Z.of_nat (length n1) ≤ 2 * (1 - c)) as Hl1'.
  { destruct Hc as [->|(-> & _ & Hw)]; [lia|]. by rewrite Hz1. }
  set (σ1 := <[MkVirtPageNum a := _]> σ) in *. pose proof (step_avail _ _ _ _ _ _ _ Hst1) as Hav1.
  set (c' := if decide ((0 < n)%nat ∧ (a + 1) / 512 = a / 512) then 1 else 0).
  assert (blocks (Z.succ a) (Z.succ a + Z.of_nat n) - c' = (a + Z.of_nat n) / 512 - a / 512) as Hblk'.
  { unfold blocks, c'. case_decide; case_decide; lia. }
  destruct (IH (Z.succ a) s1 pt1 σ1 c') as (pt2 & s2 & n2 & H2 & Href2 & Hst2 & Hl2); [done|lia|lia|done|done| | |lia|].
  { intros v Hv. unfold σ1. rewrite lookup_insert_ne; [apply Hn; by right|]. intros <-.
    apply list_elem_of_fmap in Hv as (x & [= ->] & Hx%elem_of_seqZ). lia. }
  { unfold c'. case_decide as Hd; [|by left]. right. split; [done|]. split; [lia|]. exists (MkVirtPageNum a).
    split; [unfold vpn_ok; cbn; lia|]. cbn. split; [lia|]. unfold σ1. rewrite lookup_insert_eq. by eexists. }
  exists pt2, s2, (n1 ++ n2). split; [exact H2|]. split.
  - replace (id_map _ _ ∪ σ) with (id_map (ma_map_perm area) (pages (Z.succ a) (Z.of_nat n)) ∪ σ1); [done|].
    unfold σ1. cbn [fmap list_fmap list_to_map foldr uncurry]. rewrite <- insert_union_l, <- insert_union_r; [done|].
    apply not_elem_of_list_to_map. rewrite <- list_fmap_compose. intros (x & Ex & Hx)%list_elem_of_fmap. cbn in Ex.
    apply list_elem_of_fmap in Hx as (y & -> & Hy%elem_of_seqZ). injection Ex as ->. lia.
  - split; [by eapply pt_step_trans|]. rewrite length_app. lia.
Qed.

(** A region of the address space: the addresses from [rg_start] to [rg_end]. *)
Record region := MkRegion { rg_start : Z; rg_end : Z; rg_perm : MapPermission }.

Definition region_pages (g : region) : list VirtPageNum := pages (rg_start g / 4096) (rg_end g / 4096 - rg_start g / 4096).
Definition region_ok (g : region) : Prop :=
  0 ≤ rg_start g ≤ rg_end g ∧ rg_end g ≤ 2 ^ 38 ∧ rg_start g mod 4096 = 0 ∧ rg_end g mod 4096 = 0 ∧ perm_ok (rg_perm g).
Definition region_blocks (g : region) : Z := blocks (rg_start g / 4096) (rg_end g / 4096).

Lemma elem_region_pages g v : v ∈ region_pages g ↔ rg_start g / 4096 ≤ vpn_0 v < rg_end g / 4096.
Proof.
  unfold region_pages. rewrite list_elem_of_fmap. setoid_rewrite elem_of_seqZ. destruct v as [v]. cbn [vpn_0]. split.
  - intros (y & [= ->] & Hy). lia.
  - intros Hv. exists v. split; [done|lia].
Qed.

(** Membership is decided by the bounds, so that it evaluates on the large regions. *)
#[global] Instance region_pages_dec g v : Decision (v ∈ region_pages g) :=
  match decide (rg_start g / 4096 ≤ vpn_0 v < rg_end g / 4096) with
  | left H => left (proj2 (elem_region_pages g v) H)
  | right H => right (λ Hin, H (proj1 (elem_region_pages g v) Hin))
  end.

Lemma lookup_id_map perm vs v : (id_map perm vs : page_map) !! v = if decide (v ∈ vs) then Some (identical_entry perm v) else None.
Proof.
  induction vs as [|w vs IH]; [rewrite decide_False by apply not_elem_of_nil; apply lookup_empty|]. cbn [fmap list_fmap list_to_map foldr uncurry].
  destruct (decide (w = v)) as [->|Hne].
  - rewrite lookup_insert_eq, decide_True by apply list_elem_of_here. done.
  - rewrite lookup_insert_ne, IH by done. case_decide as H1; case_decide as H2; try done; set_solver.
Qed.

Lemma push_region_ok s ms σ0 σ g :
  ms_inv l r s ms σ0 σ → region_ok g → (∀ v, v ∈ region_pages g → σ !! v = None) →
  2 * region_blocks g + 2 ≤ sfa_avail (mm_fa s) →
  ∃ ms' s' σ' new, push_area ms (rg_start g) (rg_end g) Identical (rg_perm g) s = Ok (ms', s') ∧
    ms_inv l r s' ms' σ0 σ' ∧ sfa_avail (mm_fa s') = sfa_avail (mm_fa s) - len new ∧ len new ≤ 2 * region_blocks g ∧
    mm_step l r s s' new (frame_nums (frames (ms_page_table ms'))) ∧
    frame_nums (frames (ms_page_table ms')) = frame_nums (frames (ms_page_table ms)) ++ new ∧
    ∀ v, σ' !! v = if decide (v ∈ region_pages g) then Some (identical_entry (rg_perm g) v) else σ !! v.
Proof.
  intros Hi (Hse & He & Hsa & Hea & Hp) Hn Hav. unfold region_pages, region_blocks in *.
  set (a := rg_start g / 4096) in *. set (b := rg_end g / 4096) in *.
  assert (rg_start g = 4096 * a ∧ rg_end g = 4096 * b) as [Ea Eb] by lia.
  destruct (MapArea_new_range (MkVirtAddr (rg_start g)) (MkVirtAddr (rg_end g)) Identical (rg_perm g)) as (rg & Hnew & Hrg & Hvs & _);
    [unfold range_va_ok; cbn; lia|]. set (area := MkMapArea rg ∅ Identical (rg_perm g)) in *.
  assert (area_vpns area = pages a (b - a)) as Hv.
  { unfold area_vpns. cbn [area ma_vpn_range]. rewrite Hvs. unfold pages_of. cbn [va_0]. do 2 f_equal; lia. }
  destruct (map_vpns_identical area (Z.to_nat (b - a)) a s (ms_page_table ms) σ 0) as (pt' & s' & new & Hm & Href & Hst & Hl);
    rewrite ?Z2Nat.id in * by lia; [apply Hi|lia..|done|done|done|by left|replace (a + (b - a)) with b by lia; lia|].
  replace (a + (b - a)) with b in Hl by lia. rewrite Z.sub_0_r in Hl.
  assert (area_pages area = id_map (rg_perm g) (pages a (b - a))) as Hpg by (unfold area_pages; cbn [area ma_map_type ma_map_perm]; by rewrite Hv).
  exists (MkMemorySet pt' (vec_push (ms_areas ms) area)), s', (area_pages area ∪ σ), new.
  split.
  { unfold push_area. rewrite !VirtAddr_from_low by lia. erewrite bind_Ok by (unfold lift; by rewrite Hnew).
    unfold MemorySet_push, MapArea_map. fold (area_vpns area). rewrite Hv. by erewrite bind_Ok by exact Hm. }
  pose proof (pt_step_mm _ _ _ _ _ _ _ Hst) as Hmm. pose proof (step_frames _ _ _ _ _ _ _ Hst) as Hfr.
  split.
  { eapply ms_inv_add; [done|..|exact Hfr|]; rewrite ?Hpg; [by split|by rewrite Hv|done|].
    replace (area_frames area) with (@nil Z) by reflexivity. exact Hmm. }
  split; [apply (mm_avail _ _ _ _ _ _ Hmm)|]. split; [done|]. split; [done|]. split; [done|].
  intros v. rewrite lookup_union, Hpg, lookup_id_map.
  repeat case_decide; try contradiction; [by destruct (σ !! v)|by rewrite (left_id_L None _)].
Qed.
End Identical.

(** * The kernel's regions *)

Definition kernel_regions (ks : KernelSymbols) : list region :=
  [MkRegion (stext ks) (etext ks) (Z.lor MapPermission_R MapPermission_X);
   MkRegion (srodata ks) (erodata ks) MapPermission_R;
   MkRegion (sdata ks) (edata ks) (Z.lor MapPermission_R MapPermission_W);
   MkRegion (sbss_with_stack ks) (ebss ks) (Z.lor MapPermission_R MapPermission_W);
   MkRegion (ekernel ks) MEMORY_END (Z.lor MapPermission_R MapPermission_W);
   MkRegion 0x10001000 0x10002000 (Z.lor MapPermission_R MapPermission_W)].

(** The linker script [linker.ld]: the sections follow each other on page boundaries from
    [BASE_ADDRESS], the trampoline is a page of the text; the image fits the memory. *)
Record symbols_ok (ks : KernelSymbols) : Prop := {
  so_stext : stext ks = 0x80200000;
  so_order : stext ks ≤ strampoline ks ∧ strampoline ks + 4096 ≤ etext ks ∧ etext ks = srodata ks ∧ srodata ks ≤ erodata ks ∧
    erodata ks = sdata ks ∧ sdata ks ≤ edata ks ∧ edata ks = sbss_with_stack ks ∧ sbss_with_stack ks ≤ ebss ks ∧
    ebss ks = ekernel ks ∧ ekernel ks ≤ MEMORY_END;
  so_align : strampoline ks mod 4096 = 0 ∧ etext ks mod 4096 = 0 ∧ erodata ks mod 4096 = 0 ∧ edata ks mod 4096 = 0 ∧
    ekernel ks mod 4096 = 0
}.

(** The permission of a page of the kernel space. *)
Fixpoint region_perm (gs : list region) (v : VirtPageNum) : option MapPermission :=
  match gs with
  | [] => None
  | g :: gs' => if decide (v ∈ region_pages g) then Some (rg_perm g) else region_perm gs' v
  end.

Fixpoint push_regions (ms : MemorySet) (gs : list region) : M MM MemorySet :=
  match gs with
  | [] => mret ms
  | g :: gs' => ms ← push_area ms (rg_start g) (rg_end g) Identical (rg_perm g); push_regions ms gs'
  end.

Section Kernel.
Context (l r : Z).

Fixpoint disjoint_regions (gs : list region) : Prop :=
  match gs with
  | [] => True
  | g :: gs' => (∀ v g', g' ∈ gs' → v ∈ region_pages g → v ∉ region_pages g') ∧ disjoint_regions gs'
  end.

Lemma push_regions_ok σ0 gs : ∀ s ms σ,
  ms_inv l r s ms σ0 σ → Forall region_ok gs → disjoint_regions gs →
  (∀ v g, g ∈ gs → v ∈ region_pages g → σ !! v = None) →
  2 * foldr (λ g, Z.add (region_blocks g)) 0 gs + 2 ≤ sfa_avail (mm_fa s) →
  ∃ ms' s' σ' new d, push_regions ms gs s = Ok (ms', s') ∧ ms_inv l r s' ms' σ0 σ' ∧ mm_step l r s s' new d ∧
    (∀ x, x ∈ d → x ∈ new ∨ x ∈ frame_nums (frames (ms_page_table ms))) ∧
    len new ≤ 2 * foldr (λ g, Z.add (region_blocks g)) 0 gs ∧
    ∀ v, σ' !! v = match region_perm gs v with Some p => Some (identical_entry p v) | None => σ !! v end.
Proof.
  induction gs as [|g gs IH]; intros s ms σ Hi Hok Hdis Hn Hav; cbn [push_regions foldr region_perm] in *.
  { exists ms, s, σ, [], []. split; [done|]. split; [done|].
    split; [apply mm_step_refl; by destruct (mi_pt _ _ _ _ _ _ Hi) as [(? & ? & _) _]|]. split; [set_solver|done]. }
  apply Forall_cons in Hok as [Hok1 Hok]. destruct Hdis as [Hd1 Hd].
  assert (∀ gs, 0 ≤ foldr (λ g, Z.add (region_blocks g)) 0 gs) as Hpos.
  { intros gs'. induction gs' as [|g' gs' IHg]; [done|]. cbn [foldr]. unfold region_blocks at 1, blocks. case_decide; lia. }
  destruct (push_region_ok l r s ms σ0 σ g) as (ms1 & s1 & σ1 & n1 & H1 & Hi1 & Hav1 & Hl1 & Hst1 & Hfr1 & Hv1);
    [done|done|intros v Hv; apply (Hn v g); [apply list_elem_of_here|done]|pose proof (Hpos gs); lia|].
  erewrite bind_Ok by exact H1.
  destruct (IH s1 ms1 σ1) as (ms2 & s2 & σ2 & n2 & d2 & H2 & Hi2 & Hst2 & Hd2 & Hl2 & Hv2); [done|done|done| |lia|].
  { intros v g' Hg' Hv. rewrite Hv1, decide_False by (intros Hin; by apply (Hd1 v g')).
    apply (Hn v g'); [by apply list_elem_of_further|done]. }
  exists ms2, s2, σ2, (n1 ++ n2), (frame_nums (frames (ms_page_table ms1)) ++ d2). split; [exact H2|]. split; [done|].
  split; [by eapply mm_step_trans|]. split.
  { intros x. rewrite Hfr1 in *. rewrite !elem_of_app. intros [Hx|Hx%Hd2]; [tauto|]. rewrite elem_of_app in Hx. tauto. }
  rewrite length_app. split; [lia|]. intros v. rewrite Hv2, Hv1. case_decide as Hin; [|done].
  assert (region_perm gs v = None) as ->; [|done]. clear -Hd1 Hin. induction gs as [|g' gs IH]; [done|]. cbn.
  rewrite decide_False by (apply Hd1; [apply list_elem_of_here|done]). apply IH. intros w g'' Hg''. apply Hd1. by apply list_elem_of_further.
Qed.

Lemma kernel_regions_ok ks : symbols_ok ks → Forall region_ok (kernel_regions ks) ∧ disjoint_regions (kernel_regions ks) ∧
  foldr (λ g, Z.add (region_blocks g)) 0 (kernel_regions ks) ≤ 70.
Proof.
  intros [H1 H2 H3]. unfold MEMORY_END in *. split; [|split].
  - unfold kernel_regions, MEMORY_END. repeat (apply Forall_cons; split); [..|by apply Forall_nil].
    all: unfold region_ok; cbn [rg_start rg_end rg_perm]; repeat split; try lia; by compute.
  - unfold kernel_regions, MEMORY_END. cbn [disjoint_regions]. repeat split.
    all: intros v g Hg Hv; rewrite elem_region_pages in Hv |- *; cbn [rg_start rg_end] in Hv.
    all: rewrite ?elem_of_cons in Hg; destruct_or?; try (by apply not_elem_of_nil in Hg); subst g; cbn [rg_start rg_end]; lia.
  - unfold kernel_regions, MEMORY_END, region_blocks. cbn [foldr rg_start rg_end].
    pose proof (blocks_le (stext ks / 4096) (etext ks / 4096)). pose proof (blocks_le (srodata ks / 4096) (erodata ks / 4096)).
    pose proof (blocks_le (sdata ks / 4096) (edata ks / 4096)). pose proof (blocks_le (sbss_with_stack ks / 4096) (ebss ks / 4096)).
    pose proof (blocks_le (ekernel ks / 4096) (0x88000000 / 4096)). pose proof (blocks_le (0x10001000 / 4096) (0x10002000 / 4096)). lia.
Qed.

Lemma region_perm_Some gs v p : region_perm gs v = Some p → ∃ g, g ∈ gs ∧ v ∈ region_pages g ∧ p = rg_perm g.
Proof.
  induction gs as [|g gs IH]; cbn; [done|]. case_decide.
  - intros [= <-]. exists g. split; [apply list_elem_of_here|done].
  - intros (g' & ? & ?)%IH. exists g'. split; [by apply list_elem_of_further|done].
Qed.

(** The kernel's page map: the regions on their own frames, and the trampoline. *)
Definition kernel_entry (ks : KernelSymbols) (v : VirtPageNum) : option PageTableEntry :=
  match region_perm (kernel_regions ks) v with
  | Some p => Some (identical_entry p v)
  | None => if decide (v = trampoline_vpn) then Some (trampoline_entry ks) else None
  end.

Lemma symbols_trampoline ks : symbols_ok ks → strampoline_ok ks.
Proof. intros [H1 H2 H3]. unfold strampoline_ok, PAGE_SIZE, MEMORY_END in *. lia. Qed.

Lemma kernel_region_low ks v g : symbols_ok ks → g ∈ kernel_regions ks → v ∈ region_pages g → 0 ≤ vpn_0 v < 0x88000.
Proof.
  intros [H1 H2 H3] Hg Hv. unfold kernel_regions, MEMORY_END in *. rewrite elem_region_pages in Hv.
  rewrite !elem_of_cons in Hg. destruct_or?; try (by apply not_elem_of_nil in Hg); subst g; cbn [rg_start rg_end] in Hv; lia.
Qed.

Lemma new_kernel_ok ks s : mm_ok l r s → symbols_ok ks → 150 ≤ sfa_avail (mm_fa s) →
  ∃ ms s' σ new d, MemorySet_new_kernel ks s = Ok (ms, s') ∧
    ms_inv l r s' ms {[ trampoline_vpn := trampoline_entry ks ]} σ ∧ (∀ v, σ !! v = kernel_entry ks v) ∧
    mm_step l r s s' new d ∧ (∀ x, x ∈ d → x ∈ new) ∧ len new ≤ 143.
Proof.
  intros Hok Hks Hav. destruct (new_bare_ok l r s Hok ltac:(lia)) as (ms0 & s0 & H0 & Ha0 & Hi0 & Hst0 & Hl0).
  pose proof (mm_avail _ _ _ _ _ _ Hst0) as Hav0.
  destruct (map_trampoline_ok l r ks s0 ms0 (symbols_trampoline ks Hks) Hi0 Ha0 ltac:(lia)) as (ms1 & s1 & n1 & H1 & Ha1 & Hi1 & Hfr1 & Hst1 & Hl1).
  pose proof (mm_avail _ _ _ _ _ _ Hst1) as Hav1. destruct (kernel_regions_ok ks Hks) as (Hrok & Hdis & Hsum).
  destruct (push_regions_ok {[ trampoline_vpn := trampoline_entry ks ]} (kernel_regions ks) s1 ms1 {[ trampoline_vpn := trampoline_entry ks ]})
    as (ms2 & s2 & σ & n2 & d2 & H2 & Hi2 & Hst2 & Hd2 & Hl2 & Hv2); [done|done|done| |lia|].
  { intros v g Hg Hv. apply lookup_singleton_ne. intros <-. pose proof (kernel_region_low _ _ _ Hks Hg Hv) as Hlow.
    unfold trampoline_vpn in Hlow. cbn in Hlow. lia. }
  exists ms2, s2, σ, (ms_frames ms0 ++ n1 ++ n2), (ms_frames ms0 ++ ms_frames ms1 ++ d2). split.
  { unfold MemorySet_new_kernel. erewrite bind_Ok by exact H0. erewrite bind_Ok by exact H1. exact H2. }
  split; [done|]. split.
  { intros v. rewrite Hv2. unfold kernel_entry. destruct (region_perm _ v); [done|]. case_decide as Ht.
    - subst v. apply lookup_singleton_eq.
    - by apply lookup_singleton_ne. }
  split; [exact (mm_step_trans _ _ _ _ _ _ _ _ _ Hst0 (mm_step_trans _ _ _ _ _ _ _ _ _ Hst1 Hst2))|]. split; [|rewrite !length_app; lia].
  intros x. rewrite Hfr1, !elem_of_app. intros [Hx|[Hx|Hx%Hd2]]; [tauto|tauto|].
  destruct Hx as [Hx|Hx]; [tauto|]. assert (x ∈ ms_frames ms1) as Hx1 by (apply elem_of_app; by left). rewrite Hfr1, elem_of_app in Hx1. tauto.
Qed.
End Kernel.

(** * Operations on the kernel space *)

(** The asserted entry of the page in the middle of a section. *)
Definition mid_entry (m : memory) (kernel_space : MemorySet) (start end_ : Z) : res PageTableEntry :=
  let mid := VirtAddr_from ((start + end_)%usize / 2) in
  unwrap (PageTable_translate m (ms_page_table kernel_space) (VirtAddr_floor mid)).

Definition remap_test (ks : KernelSymbols) (m : memory) (kernel_space : MemorySet) : res unit :=
  e ← mid_entry m kernel_space (stext ks) (etext ks);
  _ ← res_assert (negb (PageTableEntry_writable e));
  e ← mid_entry m kernel_space (srodata ks) (erodata ks);
  _ ← res_assert (negb (PageTableEntry_writable e));
  e ← mid_entry m kernel_space (sdata ks) (edata ks);
  res_assert (negb (PageTableEntry_executable e)).

(** ** The hardware abstraction of the block driver

    [QUEUE_FRAMES] keeps the frames of the device's queues. *)

(** The loop of [dma_alloc] over [0..pages]; [n] pages are left. *)
Fixpoint dma_alloc_loop (n : nat) (i : Z) (ppn_base : PhysPageNum) (queue : list FrameTracker) :
    M MM (PhysPageNum * list FrameTracker) :=
  match n with
  | O => mret (ppn_base, queue)
  | S n' =>
      o ← frame_alloc;
      frame ← lift (unwrap o);
      let ppn_base := if decide (i = 0) then ft_ppn frame else ppn_base in
      _ ← lift (res_assert (bool_decide (ppn_0 (ft_ppn frame) = (ppn_0 ppn_base + i)%usize)));
      dma_alloc_loop n' (i + 1) ppn_base (vec_push queue frame)
  end.

Definition dma_alloc (pages : Z) (queue : list FrameTracker) : M MM (Z * list FrameTracker) :=
  '(ppn_base, queue) ← dma_alloc_loop (Z.to_nat pages) 0 (MkPhysPageNum 0) queue;
  mret (pa_0 (PhysAddr_from_PhysPageNum ppn_base), queue).

Fixpoint dma_dealloc_loop (n : nat) (ppn_base : PhysPageNum) : M MM unit :=
  match n with
  | O => mret ()
  | S n' =>
      _ ← frame_dealloc ppn_base;
      dma_dealloc_loop n' (PhysPageNum_step ppn_base)
  end.

Definition dma_dealloc (pa pages : Z) : M MM Z :=
  ppn_base ← lift (PhysPageNum_from_PhysAddr (PhysAddr_from pa));
  _ ← dma_dealloc_loop (Z.to_nat pages) ppn_base;
  mret 0.

Definition phys_to_virt (addr : Z) : Z := addr.

Definition virt_to_phys (m : memory) (kernel_space : MemorySet) (vaddr : Z) : res Z :=
  pa ← unwrap (PageTable_translate_va m (PageTable_from_token (MemorySet_token kernel_space)) (VirtAddr_from vaddr));
  mret (pa_0 pa).

(** * Lemmas *)

Lemma identical_entry_fields p v : perm_ok p → 0 ≤ vpn_0 v < 2 ^ 44 →
  PageTableEntry_ppn (identical_entry p v) = MkPhysPageNum (vpn_0 v) ∧
  PageTableEntry_flags (identical_entry p v) = Z.lor p PTEFlags_V.
Proof. intros Hp Hv. exact (area_entry_fields p (MkFrameTracker (MkPhysPageNum (vpn_0 v))) Hp Hv). Qed.

Lemma kernel_translate l r ks s ms σ0 σ g v : symbols_ok ks → ms_inv l r s ms σ0 σ → (∀ v, σ !! v = kernel_entry ks v) →
  region_perm (kernel_regions ks) v = Some (rg_perm g) → 0 ≤ vpn_0 v < 0x88000 →
  PageTable_translate (mm_mem s) (ms_page_table ms) v = Some (identical_entry (rg_perm g) v).
Proof.
  intros Hks Hi Hσ Hp Hv. destruct (mi_pt _ _ _ _ _ _ Hi) as [_ Hview]. apply translate_view.
  rewrite Hview by (unfold vpn_ok; lia). rewrite Hσ. unfold kernel_entry. by rewrite Hp.
Qed.

(** A page between the bounds of a region. *)
Lemma kernel_region_perm ks g v : symbols_ok ks → g ∈ kernel_regions ks → v ∈ region_pages g →
  region_perm (kernel_regions ks) v = Some (rg_perm g).
Proof.
  intros Hks. destruct (kernel_regions_ok ks Hks) as (_ & Hdis & _). revert Hdis. generalize (kernel_regions ks). intros gs.
  induction gs as [|g' gs IH]; [by intros _ ?%not_elem_of_nil|]. intros [Hd Hdis] [->|Hg]%elem_of_cons Hv; cbn [region_perm].
  - by rewrite decide_True.
  - rewrite decide_False; [by apply IH|]. intros Hv'. by apply (Hd v g).
Qed.

Section Checks.
Context (l r : Z) (ks : KernelSymbols) (s : MM) (ms : MemorySet) (σ0 σ : page_map).
Context (Hks : symbols_ok ks) (Hi : ms_inv l r s ms σ0 σ) (Hσ : ∀ v, σ !! v = kernel_entry ks v).

Lemma mid_entry_ok g : g ∈ kernel_regions ks → rg_start g < rg_end g →
  ∃ v, mid_entry (mm_mem s) ms (rg_start g) (rg_end g) = Ok (identical_entry (rg_perm g) v) ∧ 0 ≤ vpn_0 v < 0x88000.
Proof using All.
  intros Hg Hlt. pose proof (kernel_regions_ok ks Hks) as (Hok & _ & _).
  destruct (proj1 (Forall_forall _ _) Hok g Hg) as (Hse & He & Ha & Hb & _).
  set (v := MkVirtPageNum ((rg_start g + rg_end g) / 2 / 4096)). assert (v ∈ region_pages g) as Hv.
  { apply elem_region_pages. unfold v. cbn [vpn_0]. lia. }
  pose proof (kernel_region_low ks v g Hks Hg Hv) as Hlow. exists v. split; [|done].
  unfold mid_entry. rewrite add_w_small by (unfold fits; lia). rewrite VirtAddr_from_low by lia.
  unfold VirtAddr_floor, PAGE_SIZE. cbn [va_0]. fold v.
  by rewrite (kernel_translate l r ks s ms σ0 σ g v Hks Hi Hσ (kernel_region_perm ks g v Hks Hg Hv) Hlow).
Qed.

Lemma remap_test_ok : srodata ks < erodata ks → sdata ks < edata ks → remap_test ks (mm_mem s) ms = Ok ().
Proof using All.
  intros Hro Hd. pose proof Hks as [Hst Ho _].
  destruct (mid_entry_ok (MkRegion (stext ks) (etext ks) (Z.lor MapPermission_R MapPermission_X))) as (v1 & H1 & L1);
    [unfold kernel_regions; set_solver|cbn; lia|].
  destruct (mid_entry_ok (MkRegion (srodata ks) (erodata ks) MapPermission_R)) as (v2 & H2 & L2);
    [unfold kernel_regions; set_solver|cbn; lia|].
  destruct (mid_entry_ok (MkRegion (sdata ks) (edata ks) (Z.lor MapPermission_R MapPermission_W))) as (v3 & H3 & L3);
    [unfold kernel_regions; set_solver|cbn; lia|].
  unfold remap_test. cbn [rg_start rg_end rg_perm] in *. rewrite H1, H2, H3. cbn [mbind res_bind].
  unfold PageTableEntry_writable, PageTableEntry_executable.
  destruct (identical_entry_fields (Z.lor MapPermission_R MapPermission_X) v1) as [_ ->]; [by compute|lia|].
  destruct (identical_entry_fields MapPermission_R v2) as [_ ->]; [by compute|lia|].
  destruct (identical_entry_fields (Z.lor MapPermission_R MapPermission_W) v3) as [_ ->]; [by compute|lia|]. reflexivity.
Qed.

Lemma virt_to_phys_ok g x : g ∈ kernel_regions ks → rg_start g ≤ x < rg_end g → virt_to_phys (mm_mem s) ms x = Ok x.
Proof using All.
  intros Hg Hx. pose proof (kernel_regions_ok ks Hks) as (Hok & _ & _).
  destruct (proj1 (Forall_forall _ _) Hok g Hg) as (Hse & He & Ha & Hb & Hp).
  set (v := MkVirtPageNum (x / 4096)). assert (v ∈ region_pages g) as Hv by (apply elem_region_pages; unfold v; cbn [vpn_0]; lia).
  pose proof (kernel_region_low ks v g Hks Hg Hv) as Hlow. pose proof (mi_pt _ _ _ _ _ _ Hi) as Href.
  unfold virt_to_phys. rewrite VirtAddr_from_low by lia.
  assert (PageTable_translate_va (mm_mem s) (PageTable_from_token (MemorySet_token ms)) (MkVirtAddr x) =
          PageTable_translate_va (mm_mem s) (ms_page_table ms) (MkVirtAddr x)) as ->.
  { unfold PageTable_translate_va, PageTable_find_pte, MemorySet_token. rewrite token_root; [done|]. apply (pt_wf_root l r s), Href. }
  rewrite (translate_va_view l r s _ σ (MkVirtAddr x) (identical_entry (rg_perm g) v) Href).
  - destruct (identical_entry_fields (rg_perm g) v Hp ltac:(lia)) as [-> _]. unfold PAGE_SIZE, v. cbn. f_equal. lia.
  - cbn. lia.
  - rewrite Hσ. unfold kernel_entry. change (VirtAddr_floor (MkVirtAddr x)) with v. by rewrite (kernel_region_perm ks g v Hks Hg Hv).
Qed.
End Checks.

(** ** Frames for the device *)

(** With no recycled frame the frames come in order. *)
Lemma frame_alloc_next l r s : mm_ok l r s → sfa_recycled (mm_fa s) = [] → 0 < sfa_avail (mm_fa s) →
  ∃ s', frame_alloc s = Ok (Some (MkFrameTracker (MkPhysPageNum (sfa_current (mm_fa s)))), s') ∧
    sfa_recycled (mm_fa s') = [] ∧ sfa_current (mm_fa s') = sfa_current (mm_fa s) + 1 ∧
    mm_step l r s s' [sfa_current (mm_fa s)] [sfa_current (mm_fa s)] ∧ zeroed (mm_mem s') (MkPhysPageNum (sfa_current (mm_fa s))).
Proof.
  intros Hok Hrec Hav. destruct (frame_alloc_step l r s Hok Hav) as (p & s' & Hal & Hp & Hst & Hz). exists s'.
  assert (p = MkPhysPageNum (sfa_current (mm_fa s)) ∧ sfa_recycled (mm_fa s') = [] ∧ sfa_current (mm_fa s') = sfa_current (mm_fa s) + 1)
    as (-> & ? & ?); [|repeat (split; [assumption|]); assumption].
  destruct Hok as [(Hl & Hc & Hr & He & _) _]. unfold frame_alloc, StackFrameAllocator_alloc in Hal. rewrite Hrec in Hal.
  assert (vec_pop (@nil Z) = None) as E by reflexivity. rewrite E in Hal. case_decide; [done|].
  rewrite add_w_small, sub_w_small in Hal by (unfold fits; lia). cbn [FrameTracker_new] in Hal. injection Hal as <- <-.
  clear Hst Hz. cbn [mm_fa sfa_recycled sfa_current]. split; [|split; [reflexivity|reflexivity]].
  unfold PhysPageNum_from. f_equal. change (Z.shiftl 1 PPN_WIDTH_SV39 - 1) with (Z.ones 44).
  rewrite Z.land_ones, Z.mod_small by lia. lia.
Qed.

Lemma dma_alloc_loop_ok l r n : ∀ s i base queue,
  mm_ok l r s → sfa_recycled (mm_fa s) = [] → Z.of_nat n ≤ sfa_avail (mm_fa s) → 0 ≤ i →
  i = 0 ∨ ppn_0 base + i = sfa_current (mm_fa s) ∧ 0 ≤ ppn_0 base →
  let c := sfa_current (mm_fa s) in
  ∃ s' base', dma_alloc_loop n i base queue s =
      Ok ((base', queue ++ ((λ x, MkFrameTracker (MkPhysPageNum x)) <$> seqZ c (Z.of_nat n))), s') ∧
    ((0 < n)%nat → i = 0 → ppn_0 base' = c) ∧ (0 < i → base' = base) ∧
    mm_step l r s s' (seqZ c (Z.of_nat n)) (seqZ c (Z.of_nat n)) ∧ sfa_recycled (mm_fa s') = [] ∧
    ∀ x, c ≤ x < c + Z.of_nat n → zeroed (mm_mem s') (MkPhysPageNum x).
Proof.
  induction n as [|n IH]; intros s i base queue Hok Hrec Hav Hi Hb c.
  { exists s, base. cbn. rewrite app_nil_r. split; [done|]. split; [lia|]. split; [done|].
    split; [by apply mm_step_refl|]. split; [done|]. lia. }
  destruct (frame_alloc_next l r s Hok Hrec ltac:(lia)) as (s1 & Hal & Hrec1 & Hc1 & Hst1 & Hz1). fold c in Hal, Hc1, Hst1, Hz1.
  pose proof Hok as [(Hl & Hcr & Hr & _) _]. fold c in Hl, Hcr. destruct (mm_inv _ _ _ _ _ _ Hst1) as (_ & Hc1r & _).
  cbn [dma_alloc_loop]. erewrite bind_Ok by exact Hal. erewrite bind_Ok by reflexivity. cbn [ft_ppn]. cbv zeta.
  set (base1 := if decide (i = 0) then MkPhysPageNum c else base).
  assert (ppn_0 base1 + i = c ∧ 0 ≤ ppn_0 base1) as [Hb1 Hb2] by (unfold base1; case_decide; cbn; lia).
  rewrite add_w_small by (unfold fits; lia). rewrite bool_decide_eq_true_2 by (cbn; lia). erewrite bind_Ok by reflexivity.
  pose proof (mm_avail _ _ _ _ _ _ Hst1) as Hav1. cbn [length] in Hav1.
  destruct (IH s1 (i + 1) base1 (vec_push queue (MkFrameTracker (MkPhysPageNum c)))) as (s2 & base2 & Hrun & _ & Hbase & Hst2 & Hrec2 & Hz2);
    [by eapply mm_step_ok|done|lia|lia|right; lia|].
  rewrite Hc1 in Hrun, Hst2, Hz2. exists s2, base2. rewrite Hrun.
  replace (Z.of_nat (S n)) with (Z.succ (Z.of_nat n)) by lia. rewrite (seqZ_cons c), Z.pred_succ by lia. replace (Z.succ c) with (c + 1) by lia.
  split; [unfold vec_push; rewrite <- app_assoc; done|]. rewrite Hbase by lia.
  split; [intros _ ->; unfold base1; by rewrite decide_True|]. split; [intros; unfold base1; by rewrite decide_False by lia|].
  split; [exact (mm_step_trans _ _ _ _ _ _ _ _ _ Hst1 Hst2)|]. split; [done|]. intros x Hx. destruct (decide (x = c)) as [->|Hne].
  - unfold zeroed. rewrite (page_same _ _ _ _ _ _ _ Hst2); [done|cbn; lia|]. cbn. rewrite elem_of_seqZ. lia.
  - apply Hz2. lia.
Qed.

Lemma dma_dealloc_loop_ok l r n : ∀ s p, mm_ok l r s → 0 ≤ p → p + Z.of_nat n ≤ 2 ^ 44 →
  (∀ x, p ≤ x < p + Z.of_nat n → sfa_live l (mm_fa s) x) →
  ∃ s', dma_dealloc_loop n (MkPhysPageNum p) s = Ok ((), s') ∧ mm_free l r s s' (seqZ p (Z.of_nat n)) [].
Proof.
  induction n as [|n IH]; intros s p Hok Hp Hr Hl.
  { exists s. split; [done|]. by apply mm_free_refl. }
  destruct (frame_drop_ok l r s (MkFrameTracker (MkPhysPageNum p)) Hok (Hl p ltac:(lia))) as (s1 & Hd & Hf1).
  cbn [dma_dealloc_loop]. erewrite bind_Ok by exact Hd. unfold PhysPageNum_step. cbn [ppn_0]. rewrite add_w_small by (unfold fits; lia).
  destruct (IH s1 (p + 1)) as (s2 & Hrun & Hf2); [split; apply Hf1|lia|lia| |].
  { intros x Hx. apply (mf_live _ _ _ _ _ _ Hf1). split; [apply Hl; lia|]. unfold frame_num. cbn. intros Hin%list_elem_of_singleton. lia. }
  exists s2. split; [exact Hrun|]. replace (Z.of_nat (S n)) with (Z.succ (Z.of_nat n)) by lia.
  rewrite seqZ_cons, Z.pred_succ by lia. exact (mm_free_trans _ _ _ _ _ _ _ _ _ Hf1 Hf2).
Qed.

(** * Properties *)

(** C15: the kernel's address space is the identity on the sections of the kernel image,
    the rest of the memory and the device registers.  [new_kernel] succeeds with 150 free
    frames; exactly these pages are mapped, on their own frames, with the permission of
    their section (and the trampoline a second time at the top of the address space); no
    page is both writable and executable; [remap_test] passes; the block driver's
    [virt_to_phys] is the identity on them; no memory in use is changed. *)
Theorem kernel_space_identity (l r : Z) (ks : KernelSymbols) (s : MM)
    (Hok : mm_ok l r s) (Hks : symbols_ok ks) (Hav : 150 ≤ sfa_avail (mm_fa s)) :
  ∃ ms s', MemorySet_new_kernel ks s = Ok (ms, s') ∧
    (∀ v, vpn_ok v → pt_view (mm_mem s') (ms_page_table ms) v = kernel_entry ks v) ∧
    (∀ v e, vpn_ok v → pt_view (mm_mem s') (ms_page_table ms) v = Some e →
      PageTableEntry_writable e = true → PageTableEntry_executable e = false) ∧
    (srodata ks < erodata ks → sdata ks < edata ks → remap_test ks (mm_mem s') ms = Ok ()) ∧
    (∀ g x, g ∈ kernel_regions ks → rg_start g ≤ x < rg_end g → virt_to_phys (mm_mem s') ms x = Ok x) ∧
    ∀ y, sfa_live l (mm_fa s) (y / 4096) → read_u8 (mm_mem s') y = read_u8 (mm_mem s) y.
Proof.
  destruct (new_kernel_ok l r ks s Hok Hks Hav) as (ms & s' & σ & new & d & Hrun & Hi & Hσ & Hst & Hd & _).
  destruct (mi_pt _ _ _ _ _ _ Hi) as [_ Hview]. exists ms, s'. split; [done|].
  assert (∀ v, vpn_ok v → pt_view (mm_mem s') (ms_page_table ms) v = kernel_entry ks v) as Hv by (intros v Hv; by rewrite Hview).
  split; [done|]. split; [|split; [|split]].
  - intros v e Hvo He. rewrite Hv in He by done. unfold kernel_entry in He. destruct (region_perm _ v) as [p|] eqn:Hp.
    + apply region_perm_Some in Hp as (g & Hg & Hvg & ->). injection He as <-. unfold PageTableEntry_writable, PageTableEntry_executable.
      pose proof (kernel_regions_ok ks Hks) as (Hrok & _ & _). destruct (proj1 (Forall_forall _ _) Hrok g Hg) as (_ & _ & _ & _ & Hp).
      destruct (identical_entry_fields (rg_perm g) v Hp) as [_ ->]; [unfold vpn_ok in Hvo; lia|].
      unfold kernel_regions in Hg. rewrite !elem_of_cons in Hg. destruct_or?; try (by apply not_elem_of_nil in Hg); by subst g.
    + case_decide; [|done]. injection He as <-. unfold trampoline_entry, PageTableEntry_writable, PageTableEntry_executable.
      pose proof (strampoline_ppn ks (symbols_trampoline ks Hks)) as [_ H44].
      destruct (area_entry_fields (Z.lor PTEFlags_R PTEFlags_X) (MkFrameTracker (MkPhysPageNum (strampoline ks / PAGE_SIZE)))) as [_ Hf];
        [by compute|exact H44|]. unfold area_entry in Hf. cbn [ft_ppn] in Hf. rewrite Hf. done.
  - by eapply remap_test_ok.
  - intros g x. by eapply virt_to_phys_ok.
  - intros y Hy. apply (mm_same _ _ _ _ _ _ Hst). intros Hin. by apply (mm_fresh _ _ _ _ _ _ Hst (y / 4096) (Hd _ Hin)).
Qed.

(** [dma_alloc] gives the block device contiguous zeroed frames.  As long as no frame
    was ever recycled, it returns the address of the first of [pages] consecutive frames
    that were free, keeps their trackers in the queue list, and changes no other memory;
    [dma_dealloc] of the same range then answers 0 and makes exactly these frames free
    again. *)
Theorem dma_alloc_contiguous (l r pages : Z) (queue : list FrameTracker) (s : MM)
    (Hok : mm_ok l r s) (Hrec : sfa_recycled (mm_fa s) = []) (Hpages : 0 < pages ≤ sfa_avail (mm_fa s)) :
  let base := sfa_current (mm_fa s) in
  ∃ s' s'', dma_alloc pages queue s = Ok ((4096 * base, queue ++ ((λ x, MkFrameTracker (MkPhysPageNum x)) <$> seqZ base pages)), s') ∧
    mm_step l r s s' (seqZ base pages) (seqZ base pages) ∧
    (∀ x, base ≤ x < base + pages → zeroed (mm_mem s') (MkPhysPageNum x)) ∧
    dma_dealloc (4096 * base) pages s' = Ok (0, s'') ∧ (∀ y, read_u8 (mm_mem s'') y = read_u8 (mm_mem s') y) ∧
    ∀ x, sfa_live l (mm_fa s'') x ↔ sfa_live l (mm_fa s) x.
Proof.
  intros base. destruct (dma_alloc_loop_ok l r (Z.to_nat pages) s 0 (MkPhysPageNum 0) queue Hok Hrec) as
    (s1 & [b] & Hrun & Hb & _ & Hst & _ & Hz); [lia|lia|by left|]. rewrite Z2Nat.id in * by lia. fold base in Hrun, Hb, Hst, Hz.
  cbn [ppn_0] in Hb. rewrite Hb in Hrun by lia. pose proof Hok as [(Hl & _) _]. fold base in Hl.
  destruct (mm_inv _ _ _ _ _ _ Hst) as (_ & Hc1 & Hr & _).
  assert (∀ x, base ≤ x < base + pages → sfa_live l (mm_fa s1) x) as Hlive.
  { intros x Hx. apply (mm_live _ _ _ _ _ _ Hst). left. by apply elem_of_seqZ. }
  pose proof (Hlive (base + pages - 1) ltac:(lia)) as [Hlast _].
  destruct (dma_dealloc_loop_ok l r (Z.to_nat pages) s1 base) as (s2 & Hd & Hf); rewrite ?Z2Nat.id in * by lia;
    [by eapply mm_step_ok|lia|lia|done|].
  assert (PhysAddr_from_PhysPageNum (MkPhysPageNum base) = MkPhysAddr (4096 * base)) as Hpa.
  { unfold PhysAddr_from_PhysPageNum, PAGE_SIZE_BITS. cbn [ppn_0]. rewrite shl_w_small by (unfold fits; lia). f_equal. lia. }
  exists s1, s2. split; [unfold dma_alloc; erewrite bind_Ok by exact Hrun; cbn beta iota; by rewrite Hpa|].
  split; [done|]. split; [done|]. split.
  { unfold dma_dealloc. erewrite bind_Ok; [by erewrite bind_Ok by exact Hd|]. unfold lift, PhysAddr_from.
    change (Z.shiftl 1 PA_WIDTH_SV39 - 1) with (Z.ones 56). rewrite Z.land_ones, Z.mod_small by lia.
    unfold PhysPageNum_from_PhysAddr, PhysAddr_page_offset, PhysAddr_floor, PAGE_SIZE. cbn [pa_0].
    change (0x1000 - 1) with (Z.ones 12). rewrite Z.land_ones by lia. rewrite bool_decide_eq_true_2 by lia. cbn.
    replace (4096 * base / 4096) with base by lia. done. }
  split; [intros y; apply (mf_same _ _ _ _ _ _ Hf); set_solver|]. intros x.
  rewrite (mf_live _ _ _ _ _ _ Hf), (mm_live _ _ _ _ _ _ Hst). pose proof (mm_fresh _ _ _ _ _ _ Hst x). tauto.
Qed.

(** * Witnesses *)

Lemma demo_symbols_ok : symbols_ok demo_ks.
Proof. split; cbn; unfold MEMORY_END; lia. Qed.

Lemma mmio_region ks : MkRegion 0x10001000 0x10002000 (Z.lor MapPermission_R MapPermission_W) ∈ kernel_regions ks.
Proof. unfold kernel_regions. do 5 apply list_elem_of_further. apply list_elem_of_here. Qed.

Lemma kernel_space_identity_witness : ∃ ms s', MemorySet_new_kernel demo_ks demo_mm = Ok (ms, s') ∧
  pt_view (mm_mem s') (ms_page_table ms) (MkVirtPageNum 0x80215) = Some (identical_entry MapPermission_R (MkVirtPageNum 0x80215)) ∧
  pt_view (mm_mem s') (ms_page_table ms) (MkVirtPageNum 0x80100) = None ∧
  remap_test demo_ks (mm_mem s') ms = Ok () ∧ virt_to_phys (mm_mem s') ms 0x10001008 = Ok 0x10001008.
Proof.
  destruct (kernel_space_identity 0x80300 0x88000 demo_ks demo_mm demo_mm_ok demo_symbols_ok) as (ms & s' & Hrun & Hview & _ & Hremap & Hphys & _).
  - vm_compute. discriminate.
  - exists ms, s'. split; [exact Hrun|]. split; [|split; [|split]].
    + rewrite Hview by (split; vm_compute; done). vm_compute. reflexivity.
    + rewrite Hview by (split; vm_compute; done). vm_compute. reflexivity.
    + apply Hremap; reflexivity.
    + refine (Hphys _ 0x10001008 (mmio_region demo_ks) _). split; vm_compute; [discriminate|reflexivity].
Defined.

Lemma dma_alloc_contiguous_witness : ∃ s' s'',
  dma_alloc 2 [] demo_mm = Ok ((0x80300000, [MkFrameTracker (MkPhysPageNum 0x80300); MkFrameTracker (MkPhysPageNum 0x80301)]), s') ∧
  dma_dealloc 0x80300000 2 s' = Ok (0, s'').
Proof.
  assert (sfa_current (mm_fa demo_mm) = 0x80300) as Hbase by (vm_compute; reflexivity).
  destruct (dma_alloc_contiguous 0x80300 0x88000 2 [] demo_mm demo_mm_ok eq_refl) as (s' & s'' & H1 & _ & _ & H2 & _).
  - split; [lia|]. vm_compute. discriminate.
  - exists s', s''. rewrite Hbase in H1, H2. split; [exact H1|exact H2].
Defined.
