(* ===== verification/MmapSpec.v ===== *)
(** Contracts of the operations behind [mmap], [munmap] and process exit
    ([os/src/mm/memory_set.rs]): removing areas, dropping whole spaces, the conflict
    check, and what happens when the check misses a conflict. *)

From S2P Require Import Prelude Config Address Allocator FrameAllocator PhysMem PageTable PageTableSpec MemorySet MemorySetSpec AddressSpace.

Section Removal.
Context (l r : Z).

(** Pages outside the freed frames keep their contents. *)
Lemma kept_page_free s1 s2 gone ms1 σ01 σ1 ms2 σ02 σ2 a v :
  ms_inv l r s1 ms1 σ01 σ1 → ms_inv l r s2 ms2 σ02 σ2 →
  mm_free l r s1 s2 gone (frame_nums (frames (ms_page_table ms1))) →
  a ∈ ms_areas ms1 → a ∈ ms_areas ms2 → ma_map_type a = Framed → v ∈ area_vpns a →
  user_page (mm_mem s2) ms2 v = user_page (mm_mem s1) ms1 v.
Proof.
  intros H1 H2 Hf Ha Ha2 Ht Hv.
  destruct (framed_page l r _ _ _ _ _ _ H1 Ha Ht Hv) as (f & Hfr & H44 & _ & _ & _ & -> & _).
  destruct (framed_page l r _ _ _ _ a v H2) as (g & Hg & _ & _ & _ & _ & -> & _); [done..|].
  rewrite Hfr in Hg. injection Hg as <-. f_equal. unfold get_bytes_array. rewrite page_addr_eq by done.
  apply read_bytes_ext. intros x Hx. apply (mf_same _ _ _ _ _ _ Hf).
  replace (x / 4096) with (frame_num f) by (symmetry; apply page_of; unfold frame_num in *; lia).
  eapply (area_not_pt l r s1 ms1 σ01 σ1 a); [done|done|]. by eapply area_frames_elem.
Qed.

Lemma remove_framed_area_cases s ms σ0 σ start_va end_va :
  ms_inv l r s ms σ0 σ → Forall (λ a, ma_map_type a = Framed) (ms_areas ms) →
  (MemorySet_remove_framed_area ms start_va end_va s = Ok ((-1, ms), s) ∧
    ∀ a, a ∈ ms_areas ms → ¬ area_is start_va end_va a) ∨
  ∃ before area after ms' s' σ', ms_areas ms = before ++ area :: after ∧ area_is start_va end_va area ∧
    MemorySet_remove_framed_area ms start_va end_va s = Ok ((0, ms'), s') ∧
    ms' = MkMemorySet (ms_page_table ms) (before ++ after) ∧
    (∀ v, σ' !! v = if decide (v ∈ area_vpns area) then None else σ !! v) ∧
    ms_inv l r s' ms' σ0 σ' ∧
    mm_free l r s s' (area_frames area) (frame_nums (frames (ms_page_table ms))).
Proof.
  intros Hinv Hall. unfold MemorySet_remove_framed_area.
  destruct (remove_framed_loop_ok ms start_va end_va [] (ms_areas ms) s)
    as [[Hrun Hno]|(b & area & after & Heq & Har & Hrun)]; [set_solver|by left|right].
  simpl in Heq. rewrite Forall_forall in Hall.
  destruct (remove_area_ok l r s ms σ0 σ b area after Hinv Heq) as (s' & σ' & Hrm & Hσ' & Hinv' & Hfree).
  { apply Hall. rewrite Heq. set_solver. }
  exists b, area, after, (MkMemorySet (ms_page_table ms) (b ++ after)), s', σ'. rewrite Hrun, Hrm. split; [done|]. split; [done|].
  split; [reflexivity|]. split; [reflexivity|]. done.
Qed.
End Removal.

(** [remove_framed_area] answers 0 exactly when some area has the given bounds; it then
    unmaps the pages of that area and no others, returns exactly its frames to the
    allocator and leaves every other page of the space as it was; otherwise it answers
    -1 and changes nothing. *)
Theorem remove_framed_area_exact l r s ms σ0 σ start_va end_va :
  ms_inv l r s ms σ0 σ → Forall (λ a, ma_map_type a = Framed) (ms_areas ms) →
  (MemorySet_remove_framed_area ms start_va end_va s = Ok ((-1, ms), s) ∧
    ∀ a, a ∈ ms_areas ms → ¬ area_is start_va end_va a) ∨
  ∃ before area after ms' s' σ', ms_areas ms = before ++ area :: after ∧ area_is start_va end_va area ∧
    MemorySet_remove_framed_area ms start_va end_va s = Ok ((0, ms'), s') ∧
    ms_areas ms' = before ++ after ∧ ms_inv l r s' ms' σ0 σ' ∧
    (∀ v, σ' !! v = if decide (v ∈ area_vpns area) then None else σ !! v) ∧
    (∀ y, sfa_live l (mm_fa s') y ↔ sfa_live l (mm_fa s) y ∧ y ∉ area_frames area) ∧
    ∀ a v, a ∈ before ++ after → v ∈ area_vpns a →
      user_page (mm_mem s') ms' v = user_page (mm_mem s) ms v.
Proof.
  intros Hinv Hall. destruct (remove_framed_area_cases l r s ms σ0 σ start_va end_va Hinv Hall)
    as [?|(b & area & after & ms' & s' & σ' & Heq & Har & Hrun & -> & Hσ' & Hinv' & Hfree)]; [by left|right].
  exists b, area, after, (MkMemorySet (ms_page_table ms) (b ++ after)), s', σ'. do 6 (split; [done|]).
  split; [apply Hfree|]. intros a v Ha Hv. rewrite Forall_forall in Hall.
  assert (a ∈ ms_areas ms) as Ha' by (rewrite Heq; clear -Ha; set_solver).
  eapply (kept_page_free l r s s' (area_frames area) ms σ0 σ _ σ0 σ' a v); auto.
Qed.

Lemma remove_framed_area_exact_witness :
  ∃ ms s ms' s', demo_space demo_mm = Ok (ms, s) ∧
    MemorySet_remove_framed_area ms (MkVirtAddr 0x10000) (MkVirtAddr 0x12000) s = Ok ((0, ms'), s') ∧
    ms_areas ms' = [].
Proof.
  destruct demo_space_ok as (ms & s & area & σ & Hrun & Has & Hinv & Har & Hvs & Ht & Hσ & _ & Hav).
  destruct (remove_framed_area_exact 0x80300 0x88000 s ms _ σ (MkVirtAddr 0x10000) (MkVirtAddr 0x12000) Hinv)
    as [[_ Hno]|(b & a & c & ms' & s' & σ' & Heq & _ & Hrm & Has' & _)].
  - rewrite Has. constructor; [exact Ht|constructor].
  - exfalso. apply (Hno area); [rewrite Has; apply list_elem_of_here|exact Har].
  - exists ms, s, ms', s'. split; [exact Hrun|]. split; [exact Hrm|]. rewrite Has', Has in *.
    destruct b as [|? b]; [by injection Heq as _ <-|]. injection Heq as _ Heq. by destruct b.
Defined.

(** C28: dropping an address space (process reaped) returns every frame it owned, those of
    its pages and those of its page table, to the allocator, each exactly once, writes no
    memory, and leaves the other address spaces intact. *)
Theorem drop_returns_all_frames l r s ms σ0 σ :
  ms_inv l r s ms σ0 σ →
  ∃ s', MemorySet_drop ms s = Ok ((), s') ∧ sfa_inv l r (mm_fa s') ∧
    (∀ y, sfa_live l (mm_fa s') y ↔ sfa_live l (mm_fa s) y ∧ y ∉ ms_frames ms) ∧
    sfa_avail (mm_fa s') = sfa_avail (mm_fa s) + Z.of_nat (length (ms_frames ms)) ∧
    (∀ a, read_u8 (mm_mem s') a = read_u8 (mm_mem s) a) ∧
    ∀ ms2 σ02 σ2, ms_inv l r s ms2 σ02 σ2 → (∀ x, x ∈ ms_frames ms2 → x ∉ ms_frames ms) →
      ms_inv l r s' ms2 σ02 σ2.
Proof.
  intros Hinv. destruct (MemorySet_drop_ok l r s ms σ0 σ Hinv) as (s' & Hd & Hf). exists s'.
  pose proof Hf as [Hi _ Hl Ha Hm]. split; [done|]. split; [done|]. split; [done|]. split; [done|]. split.
  - intros a. apply Hm, not_elem_of_nil.
  - intros ms2 σ02 σ2 H2 Hdis. eapply ms_inv_free; [exact H2|exact Hf|exact Hdis|].
    intros x _. apply not_elem_of_nil.
Qed.

Lemma drop_returns_all_frames_witness :
  ∃ ms s s', demo_space demo_mm = Ok (ms, s) ∧ MemorySet_drop ms s = Ok ((), s') ∧
    sfa_avail (mm_fa s') = sfa_avail (mm_fa s) + Z.of_nat (length (ms_frames ms)).
Proof.
  destruct demo_space_ok as (ms & s & area & σ & Hrun & _ & Hinv & _).
  destruct (drop_returns_all_frames 0x80300 0x88000 s ms _ σ Hinv) as (s' & Hd & _ & _ & Ha & _).
  exists ms, s, s'. split; [exact Hrun|]. split; [exact Hd|exact Ha].
Defined.

(** * Mapping and unmapping the same range *)

Lemma area_is_vpns start_va end_va area :
  range_va_ok start_va end_va → area_is start_va end_va area → area_vpns area = pages_of start_va end_va.
Proof.
  intros Hr [Hs He]. destruct (MapArea_new_ok start_va end_va 0 Hr) as (rg & _ & _ & Hvs & Hs' & He').
  rewrite <- Hvs. unfold area_vpns. f_equal. destruct (ma_vpn_range area), rg. cbn in *. congruence.
Qed.

Lemma pages_of_nonempty start_va end_va :
  range_va_ok start_va end_va → va_0 start_va < va_0 end_va →
  MkVirtPageNum (va_0 start_va / 4096) ∈ pages_of start_va end_va.
Proof.
  unfold range_va_ok, pages_of. intros Hr Hlt. apply list_elem_of_fmap. eexists. split; [done|].
  apply elem_of_seqZ. pose proof (Z.div_mod (va_0 start_va) 4096). pose proof (Z.mod_pos_bound (va_0 start_va) 4096).
  pose proof (Z.div_mod (va_0 end_va + 4095) 4096). pose proof (Z.mod_pos_bound (va_0 end_va + 4095) 4096). lia.
Qed.

(** The area just mapped is the one the bounds find. *)
Lemma last_area_found l r s ms σ0 σ start_va end_va area b area2 after :
  ms_inv l r s ms σ0 σ → range_va_ok start_va end_va → va_0 start_va < va_0 end_va →
  (∀ v, v ∈ pages_of start_va end_va → σ !! v = None) →
  ms_areas ms ++ [area] = b ++ area2 :: after → area_is start_va end_va area2 →
  b = ms_areas ms ∧ area2 = area ∧ after = [].
Proof.
  intros Hinv Hr Hlt Hnone Heq Har. destruct after as [|x after _] using rev_ind.
  { by apply app_inj_tail in Heq as [-> ->]. }
  exfalso. rewrite app_comm_cons, app_assoc in Heq. apply app_inj_tail in Heq as [Heq _].
  pose proof (pages_of_nonempty start_va end_va Hr Hlt) as Hp.
  destruct (area_pages_σ l r s ms σ0 σ area2 (MkVirtPageNum (va_0 start_va / 4096)) Hinv) as [e He].
  { rewrite Heq. set_solver. }
  { by rewrite (area_is_vpns start_va end_va area2). }
  by rewrite (Hnone _ Hp) in He.
Qed.

(** C26: [munmap] undoes [mmap]: removing the range just inserted answers 0, restores the
    areas and the page map of the space, and gives back every data frame, so that only
    the new page-table frames (at most two per page) stay allocated. *)
Theorem mmap_munmap_roundtrip l r s ms σ0 σ start_va end_va perm :
  ms_inv l r s ms σ0 σ → Forall (λ a, ma_map_type a = Framed) (ms_areas ms) →
  range_va_ok start_va end_va → va_0 start_va < va_0 end_va → perm_ok perm →
  (∀ v, v ∈ pages_of start_va end_va → σ !! v = None) →
  3 * Z.of_nat (length (pages_of start_va end_va)) ≤ sfa_avail (mm_fa s) →
  ∃ ms1 s1 ms2 s2 tables, MemorySet_insert_framed_area ms start_va end_va perm s = Ok (ms1, s1) ∧
    MemorySet_remove_framed_area ms1 start_va end_va s1 = Ok ((0, ms2), s2) ∧
    ms_areas ms2 = ms_areas ms ∧ ms_inv l r s2 ms2 σ0 σ ∧
    (∀ y, sfa_live l (mm_fa s2) y ↔ y ∈ tables ∨ sfa_live l (mm_fa s) y) ∧
    (length tables ≤ 2 * length (pages_of start_va end_va))%nat.
Proof.
  intros Hinv Hall Hr Hlt Hp Hnone Hav.
  destruct (insert_framed_ok l r s ms σ0 σ start_va end_va perm Hinv Hr Hp Hnone Hav)
    as (area & ms1 & s1 & new & d & Hins & Has & Har & Hvs & Ht & _ & Hinv1 & Hst & _ & Hlen & Hz). clear Hz.
  assert (Forall (λ a, ma_map_type a = Framed) (ms_areas ms1)) as Hall1.
  { rewrite Has. apply Forall_app. split; [done|]. by constructor. }
  destruct (remove_framed_area_cases l r s1 ms1 σ0 _ start_va end_va Hinv1 Hall1)
    as [[_ Hno]|(b & area2 & after & ms2 & s2 & σ2 & Heq & Har2 & Hrm & Hms2 & Hσ2 & Hinv2 & Hfree)].
  { exfalso. apply (Hno area); [|done]. rewrite Has. set_solver. }
  rewrite Has in Heq.
  destruct (last_area_found l r s ms σ0 σ start_va end_va area b area2 after Hinv Hr Hlt Hnone Heq Har2) as (-> & -> & ->).
  assert (σ2 = σ) as Hσ.
  { apply map_eq. intros v. rewrite Hσ2, Hvs. case_decide as Hv; [by rewrite Hnone|].
    rewrite lookup_union_r; [done|]. apply eq_None_not_Some. intros Hs. apply Hv. rewrite <- Hvs.
    apply area_pages_dom; [|done]. pose proof (mi_areas _ _ _ _ _ _ Hinv1) as Hok. rewrite Forall_forall in Hok.
    apply Hok. rewrite Has. set_solver. }
  subst σ2. exists ms1, s1, ms2, s2, new. split; [done|]. split; [done|].
  split; [rewrite Hms2; cbn [ms_areas]; apply app_nil_r|]. split; [done|]. split; [|by rewrite <- Hvs].
  intros y. rewrite (mf_live _ _ _ _ _ _ Hfree), (mm_live _ _ _ _ _ _ Hst), elem_of_app.
  pose proof (mm_nodup _ _ _ _ _ _ Hst) as (_ & Hd & _)%NoDup_app.
  pose proof (λ Hy, mm_fresh _ _ _ _ _ _ Hst y (proj2 (elem_of_app _ _ _) (or_introl Hy))) as Hf.
  split; [tauto|]. intros [Hy|Hy]; [|tauto]. split; [tauto|]. intros Hy'. by apply (Hd y).
Qed.

Lemma mmap_munmap_roundtrip_witness :
  ∃ ms s ms1 s1 ms2 s2, demo_space demo_mm = Ok (ms, s) ∧
    MemorySet_insert_framed_area ms (MkVirtAddr 0x20000) (MkVirtAddr 0x20001) 0x12 s = Ok (ms1, s1) ∧
    MemorySet_remove_framed_area ms1 (MkVirtAddr 0x20000) (MkVirtAddr 0x20001) s1 = Ok ((0, ms2), s2) ∧
    ms_areas ms2 = ms_areas ms.
Proof.
  destruct demo_space_ok as (ms & s & area & σ & Hrun & Has & Hinv & _ & Hvs & Ht & Hσ & _ & Hav).
  destruct (mmap_munmap_roundtrip 0x80300 0x88000 s ms _ σ (MkVirtAddr 0x20000) (MkVirtAddr 0x20001) 0x12 Hinv)
    as (ms1 & s1 & ms2 & s2 & t & H1 & H2 & H3 & _).
  { rewrite Has. constructor; [exact Ht|constructor]. }
  { vm_compute. repeat split; discriminate. }
  { reflexivity. }
  { vm_compute. split; [discriminate|reflexivity]. }
  { intros v. exact (demo_free_page ms s area σ v Hinv Has Hvs Hσ). }
  { rewrite pages_0x20. simpl. lia. }
  exists ms, s, ms1, s1, ms2, s2. split; [exact Hrun|]. split; [exact H1|]. split; [exact H2|exact H3].
Defined.

(** * The conflict check *)

(** The page ranges of the request and of an area meet. *)
Definition overlaps (start_va end_va : VirtAddr) (area : MapArea) : Prop :=
  vpn_0 (VirtAddr_floor start_va) < vpn_0 (get_end (ma_vpn_range area)) ∧
  vpn_0 (get_start (ma_vpn_range area)) < vpn_0 (VirtAddr_ceil end_va).

(** The area lies inside the request with a free page on each side. *)
Definition strictly_inside (start_va end_va : VirtAddr) (area : MapArea) : Prop :=
  vpn_0 (VirtAddr_floor start_va) < vpn_0 (get_start (ma_vpn_range area)) ∧
  vpn_0 (get_end (ma_vpn_range area)) < vpn_0 (VirtAddr_ceil end_va).

Lemma area_conflict_iff start_va end_va area :
  vpn_0 (VirtAddr_floor start_va) < vpn_0 (VirtAddr_ceil end_va) →
  area_conflict start_va end_va area = true ↔
    overlaps start_va end_va area ∧ ¬ strictly_inside start_va end_va area.
Proof.
  unfold area_conflict, overlaps, strictly_inside. intros Hlt.
  rewrite orb_true_iff, !andb_true_iff, !bool_decide_eq_true. lia.
Qed.

(** [check_conflict] reports exactly the areas that overlap the requested pages without
    lying strictly inside them. *)
Theorem check_conflict_characterised ms start_va end_va :
  vpn_0 (VirtAddr_floor start_va) < vpn_0 (VirtAddr_ceil end_va) →
  MemorySet_check_conflict ms start_va end_va = true ↔
    ∃ area, area ∈ ms_areas ms ∧ overlaps start_va end_va area ∧ ¬ strictly_inside start_va end_va area.
Proof.
  intros Hlt. unfold MemorySet_check_conflict. rewrite existsb_exists.
  split; intros (area & Hin & H); exists area.
  - split; [by apply list_elem_of_In|by apply area_conflict_iff].
  - split; [by apply list_elem_of_In|by apply area_conflict_iff].
Qed.

Lemma insert_conflict l r s ms σ0 σ start_va end_va perm v :
  ms_inv l r s ms σ0 σ → range_va_ok start_va end_va → perm_ok perm →
  v ∈ pages_of start_va end_va → is_Some (σ !! v) →
  3 * Z.of_nat (length (pages_of start_va end_va)) ≤ sfa_avail (mm_fa s) →
  MemorySet_insert_framed_area ms start_va end_va perm s = Err Panic.
Proof.
  intros Hinv Hrg Hp Hv Hσ Hav. destruct (MapArea_new_ok start_va end_va perm Hrg) as (rg & Hnew & Hok & Hvs & _).
  unfold MemorySet_insert_framed_area, mbind, M_bind, lift. rewrite Hnew.
  unfold MemorySet_push, MapArea_map, mbind, M_bind. cbn [ma_vpn_range]. rewrite Hvs.
  destruct (area_vpns_ok (MkMapArea rg ∅ Framed perm) Hok) as (Hnd & Hvok & _).
  unfold area_vpns in Hnd, Hvok. cbn [ma_vpn_range] in Hnd, Hvok. rewrite Hvs in Hnd, Hvok.
  by rewrite (map_vpns_conflict l r _ s _ (ms_page_table ms) σ v) by (done || apply Hinv).
Qed.

Lemma check_conflict_characterised_witness :
  MemorySet_check_conflict
    (MkMemorySet (MkPageTable (MkPhysPageNum 0) [])
       [MkMapArea (MkSimpleRange (MkVirtPageNum 16) (MkVirtPageNum 18)) ∅ Framed 0x16])
    (MkVirtAddr 0x11000) (MkVirtAddr 0x14000) = true.
Proof.
  apply check_conflict_characterised; [reflexivity|]. eexists. split; [apply list_elem_of_here|].
  vm_compute. split; [split; reflexivity|]. intros [? _]. discriminate.
Defined.

(** C36: the check is not enough for [mmap]: when an existing area lies strictly inside the
    requested range the check does not report it, and mapping the range after the check
    passed makes the kernel panic. *)
Theorem contained_area_defeats_check l r s ms σ0 σ start_va end_va perm area :
  ms_inv l r s ms σ0 σ → range_va_ok start_va end_va → perm_ok perm →
  area ∈ ms_areas ms → area_vpns area ≠ [] → strictly_inside start_va end_va area →
  3 * Z.of_nat (length (pages_of start_va end_va)) ≤ sfa_avail (mm_fa s) →
  area_conflict start_va end_va area = false ∧
  MemorySet_insert_framed_area ms start_va end_va perm s = Err Panic.
Proof.
  intros Hinv Hr Hp Ha Hne [Hs He] Hav. pose proof (mi_areas _ _ _ _ _ _ Hinv) as Hok. rewrite Forall_forall in Hok.
  pose proof (Hok _ Ha) as ((Hr0 & Hr1) & _). split.
  { apply not_true_is_false. intros [_ Hn]%area_conflict_iff; [by apply Hn|lia]. }
  destruct (area_vpns area) as [|v vs] eqn:Hvs; [done|]. assert (v ∈ area_vpns area) as Hv by (rewrite Hvs; set_solver).
  eapply insert_conflict; [exact Hinv|exact Hr|exact Hp| |by eapply area_pages_σ|exact Hav].
  destruct (MapArea_new_ok start_va end_va perm Hr) as ([[a] [b]] & _ & [Hab1 Hab2] & Hpg & Hs' & He').
  rewrite <- Hpg. cbn in Hab1, Hab2, Hs', He'. rewrite <- Hs', <- He' in *. cbn [vpn_0] in *.
  apply elem_of_VPNRange_vpns; [lia|lia|]. unfold area_vpns in Hv.
  destruct (ma_vpn_range area) as [[c] [d]]. cbn in *. apply elem_of_VPNRange_vpns in Hv; lia.
Qed.

Lemma contained_area_defeats_check_witness :
  ∃ ms s, demo_space demo_mm = Ok (ms, s) ∧
    MemorySet_check_conflict ms (MkVirtAddr 0xf000) (MkVirtAddr 0x13000) = false ∧
    MemorySet_insert_framed_area ms (MkVirtAddr 0xf000) (MkVirtAddr 0x13000) 0x12 s = Err Panic.
Proof.
  destruct demo_space_ok as (ms & s & area & σ & Hrun & Has & Hinv & [Hs He] & Hvs & Ht & Hσ & _ & Hav).
  destruct (contained_area_defeats_check 0x80300 0x88000 s ms _ σ (MkVirtAddr 0xf000) (MkVirtAddr 0x13000) 0x12 area Hinv)
    as [Hc Hi].
  { vm_compute. repeat split; discriminate. }
  { vm_compute. split; [discriminate|reflexivity]. }
  { rewrite Has. apply list_elem_of_here. }
  { rewrite Hvs. discriminate. }
  { unfold strictly_inside. rewrite Hs, He. vm_compute. split; reflexivity. }
  { change (length (pages_of _ _)) with 4%nat. lia. }
  exists ms, s. split; [exact Hrun|]. split; [|exact Hi].
  unfold MemorySet_check_conflict. rewrite Has. simpl. rewrite Hc. reflexivity.
Defined.
