(* ===== verification/Kernel.v ===== *)
(** The state of the kernel and the data of its tasks: trap contexts
    ([os/src/trap/context.rs]), task contexts ([os/src/task/context.rs]), task control
    blocks ([os/src/task/task.rs]), the task manager and the processor
    ([os/src/task/manager.rs], [processor.rs]), open files ([os/src/fs]) and the timer
    ([os/src/timer.rs]).

    An [Arc<TaskControlBlock>] is the key of its control block in the store [k_tcbs], a
    [Weak] pointer is a key as well; an [Arc<OSInode>] is a key of [k_files].  Sharing is
    sharing of keys.  What a suspended task still has to do inside the kernel, which the
    code keeps on the task's kernel stack, is a value of [Kont]. *)

From S2P Require Import Prelude Config Address FrameAllocator TaskId PhysMem PageTable UserMem MemorySet.
From S2P Require Import BlockDev BlockCache BlockAccess Bitmap Layout Efs Vfs.

(** * Task information *)

Inductive TaskStatus := UnInit | Ready | Running | Zombie.
#[export] Instance TaskStatus_eq_dec : EqDecision TaskStatus.
Proof. solve_decision. Defined.

Record TaskInfo := MkTaskInfo { ti_status : TaskStatus; ti_syscall_times : list Z; ti_time : Z }.

(** * What the kernel takes from its surroundings *)

(** [env_fuel] bounds the two loops whose length only the data determines; the theorems
    about them hold for every sufficient bound. *)
Record Env := MkEnv {
  env_symbols : KernelSymbols;              (* linker symbols *)
  env_elf_new : list Z → option ElfFile;    (* [xmas_elf::ElfFile::new] *)
  env_sstatus : Z;                          (* [sstatus::read()] after [set_spp(SPP::User)] *)
  env_trap_handler : Z;                     (* address of [trap_handler] *)
  env_trap_return : Z;                      (* address of [trap_return] *)
  env_time : nat → Z;                       (* successive values of [time::read()] *)
  env_getchar : nat → Z;                    (* successive values of [console_getchar()] *)
  env_task_info_bytes : TaskInfo → list Z;  (* the layout the compiler gives [TaskInfo] *)
  env_fuel : nat                            (* bound for the loops over strings and files *)
}.

(** * Contexts *)

Record TrapContext := MkTrapContext {
  tc_x : list Z;
  tc_sstatus : Z;
  tc_sepc : Z;
  tc_kernel_satp : Z;
  tc_kernel_sp : Z;
  tc_trap_handler : Z
}.

(** [#[repr(C)]]: 37 words of 8 bytes. *)
Definition TrapContext_words (cx : TrapContext) : list Z :=
  tc_x cx ++ [tc_sstatus cx; tc_sepc cx; tc_kernel_satp cx; tc_kernel_sp cx; tc_trap_handler cx].

Definition TrapContext_set_sp (cx : TrapContext) (sp : Z) : TrapContext :=
  MkTrapContext (<[2%nat := sp]> (tc_x cx)) (tc_sstatus cx) (tc_sepc cx) (tc_kernel_satp cx)
    (tc_kernel_sp cx) (tc_trap_handler cx).

Definition TrapContext_app_init_context (sstatus entry sp kernel_satp kernel_sp trap_handler : Z) : TrapContext :=
  let cx := MkTrapContext (replicate 32 0) sstatus entry kernel_satp kernel_sp trap_handler in
  TrapContext_set_sp cx sp.

(** Words of a trap context in memory: [x[i]] is word [i]. *)
Definition CX_SEPC : Z := 33.
Definition CX_KERNEL_SP : Z := 35.
Definition cx_word (m : memory) (ppn : PhysPageNum) (i : Z) : Z := read_u64 m (page_addr ppn + 8 * i).
Definition set_cx_word (m : memory) (ppn : PhysPageNum) (i v : Z) : memory := write_u64 m (page_addr ppn + 8 * i) v.
Definition set_trap_cx (m : memory) (ppn : PhysPageNum) (cx : TrapContext) : memory :=
  write_bytes m (page_addr ppn) (words_bytes 8 (TrapContext_words cx)).

Record TaskContext := MkTaskContext { cx_ra : Z; cx_sp : Z; cx_s : list Z }.
Definition TaskContext_zero_init : TaskContext := MkTaskContext 0 0 (replicate 12 0).
Definition TaskContext_goto_trap_return (trap_return kstack_ptr : Z) : TaskContext :=
  MkTaskContext trap_return kstack_ptr (replicate 12 0).

(** * Tasks *)

(** [Arc<dyn File + Send + Sync>] *)
Inductive File := Stdin | Stdout | OSFile (id : Z).
#[export] Instance File_eq_dec : EqDecision File.
Proof. solve_decision. Defined.

Record TaskControlBlock := MkTcb {
  tcb_pid : Z;
  tcb_kernel_stack : Z;
  tcb_trap_cx_ppn : PhysPageNum;
  tcb_base_size : Z;
  tcb_task_cx : TaskContext;
  tcb_task_status : TaskStatus;
  tcb_memory_set : MemorySet;
  tcb_parent : option Z;
  tcb_children : list Z;
  tcb_exit_code : Z;
  tcb_fd_table : list (option File);
  tcb_heap_bottom : Z;
  tcb_program_brk : Z;
  tcb_task_info : TaskInfo;
  tcb_cur_stride : Z;
  tcb_pro_lev : Z
}.

Definition set_status (t : TaskControlBlock) (x : TaskStatus) : TaskControlBlock :=
  MkTcb (tcb_pid t) (tcb_kernel_stack t) (tcb_trap_cx_ppn t) (tcb_base_size t) (tcb_task_cx t) x
    (tcb_memory_set t) (tcb_parent t) (tcb_children t) (tcb_exit_code t) (tcb_fd_table t)
    (tcb_heap_bottom t) (tcb_program_brk t) (tcb_task_info t) (tcb_cur_stride t) (tcb_pro_lev t).
Definition set_memory_set (t : TaskControlBlock) (x : MemorySet) : TaskControlBlock :=
  MkTcb (tcb_pid t) (tcb_kernel_stack t) (tcb_trap_cx_ppn t) (tcb_base_size t) (tcb_task_cx t) (tcb_task_status t)
    x (tcb_parent t) (tcb_children t) (tcb_exit_code t) (tcb_fd_table t)
    (tcb_heap_bottom t) (tcb_program_brk t) (tcb_task_info t) (tcb_cur_stride t) (tcb_pro_lev t).
Definition set_trap_cx_ppn (t : TaskControlBlock) (x : PhysPageNum) : TaskControlBlock :=
  MkTcb (tcb_pid t) (tcb_kernel_stack t) x (tcb_base_size t) (tcb_task_cx t) (tcb_task_status t)
    (tcb_memory_set t) (tcb_parent t) (tcb_children t) (tcb_exit_code t) (tcb_fd_table t)
    (tcb_heap_bottom t) (tcb_program_brk t) (tcb_task_info t) (tcb_cur_stride t) (tcb_pro_lev t).
Definition set_parent (t : TaskControlBlock) (x : option Z) : TaskControlBlock :=
  MkTcb (tcb_pid t) (tcb_kernel_stack t) (tcb_trap_cx_ppn t) (tcb_base_size t) (tcb_task_cx t) (tcb_task_status t)
    (tcb_memory_set t) x (tcb_children t) (tcb_exit_code t) (tcb_fd_table t)
    (tcb_heap_bottom t) (tcb_program_brk t) (tcb_task_info t) (tcb_cur_stride t) (tcb_pro_lev t).
Definition set_children (t : TaskControlBlock) (x : list Z) : TaskControlBlock :=
  MkTcb (tcb_pid t) (tcb_kernel_stack t) (tcb_trap_cx_ppn t) (tcb_base_size t) (tcb_task_cx t) (tcb_task_status t)
    (tcb_memory_set t) (tcb_parent t) x (tcb_exit_code t) (tcb_fd_table t)
    (tcb_heap_bottom t) (tcb_program_brk t) (tcb_task_info t) (tcb_cur_stride t) (tcb_pro_lev t).
Definition set_exit_code (t : TaskControlBlock) (x : Z) : TaskControlBlock :=
  MkTcb (tcb_pid t) (tcb_kernel_stack t) (tcb_trap_cx_ppn t) (tcb_base_size t) (tcb_task_cx t) (tcb_task_status t)
    (tcb_memory_set t) (tcb_parent t) (tcb_children t) x (tcb_fd_table t)
    (tcb_heap_bottom t) (tcb_program_brk t) (tcb_task_info t) (tcb_cur_stride t) (tcb_pro_lev t).
Definition set_fd_table (t : TaskControlBlock) (x : list (option File)) : TaskControlBlock :=
  MkTcb (tcb_pid t) (tcb_kernel_stack t) (tcb_trap_cx_ppn t) (tcb_base_size t) (tcb_task_cx t) (tcb_task_status t)
    (tcb_memory_set t) (tcb_parent t) (tcb_children t) (tcb_exit_code t) x
    (tcb_heap_bottom t) (tcb_program_brk t) (tcb_task_info t) (tcb_cur_stride t) (tcb_pro_lev t).
Definition set_program_brk (t : TaskControlBlock) (x : Z) : TaskControlBlock :=
  MkTcb (tcb_pid t) (tcb_kernel_stack t) (tcb_trap_cx_ppn t) (tcb_base_size t) (tcb_task_cx t) (tcb_task_status t)
    (tcb_memory_set t) (tcb_parent t) (tcb_children t) (tcb_exit_code t) (tcb_fd_table t)
    (tcb_heap_bottom t) x (tcb_task_info t) (tcb_cur_stride t) (tcb_pro_lev t).
Definition set_task_info (t : TaskControlBlock) (x : TaskInfo) : TaskControlBlock :=
  MkTcb (tcb_pid t) (tcb_kernel_stack t) (tcb_trap_cx_ppn t) (tcb_base_size t) (tcb_task_cx t) (tcb_task_status t)
    (tcb_memory_set t) (tcb_parent t) (tcb_children t) (tcb_exit_code t) (tcb_fd_table t)
    (tcb_heap_bottom t) (tcb_program_brk t) x (tcb_cur_stride t) (tcb_pro_lev t).
Definition set_pro_lev (t : TaskControlBlock) (x : Z) : TaskControlBlock :=
  MkTcb (tcb_pid t) (tcb_kernel_stack t) (tcb_trap_cx_ppn t) (tcb_base_size t) (tcb_task_cx t) (tcb_task_status t)
    (tcb_memory_set t) (tcb_parent t) (tcb_children t) (tcb_exit_code t) (tcb_fd_table t)
    (tcb_heap_bottom t) (tcb_program_brk t) (tcb_task_info t) (tcb_cur_stride t) x.

Definition TaskControlBlockInner_get_user_token (t : TaskControlBlock) : Z := MemorySet_token (tcb_memory_set t).
Definition TaskControlBlockInner_get_status (t : TaskControlBlock) : TaskStatus := tcb_task_status t.
Definition TaskControlBlockInner_is_zombie (t : TaskControlBlock) : bool :=
  bool_decide (TaskControlBlockInner_get_status t = Zombie).

(** [(0..len).find(..)] gives the first free slot; without one the table grows. *)
Fixpoint first_free (fds : list (option File)) (fd : Z) : option Z :=
  match fds with
  | [] => None
  | None :: _ => Some fd
  | Some _ :: rest => first_free rest (fd + 1)
  end.
Definition TaskControlBlockInner_alloc_fd (t : TaskControlBlock) : Z * TaskControlBlock :=
  match first_free (tcb_fd_table t) 0 with
  | Some fd => (fd, t)
  | None =>
      let table := vec_push (tcb_fd_table t) None in
      (Z.of_nat (length table) - 1, set_fd_table t table)
  end.

(** * Open files *)

Record OSInode := MkOSInode { os_readable : bool; os_writable : bool; os_offset : Z; os_inode : Inode }.
Definition OSInode_new (readable writable : bool) (inode : Inode) : OSInode := MkOSInode readable writable 0 inode.
Definition OSInode_get_inode_id (f : OSInode) : Z := ino_block_id (os_inode f).
Definition OSInode_get_inode_pos (f : OSInode) : Z * Z := (ino_block_id (os_inode f), ino_block_offset (os_inode f)).

(** * The kernel *)

(** Where a suspended task continues: [trap_return], the return of [sys_yield], or the
    loop of [Stdin::read] with its buffer. *)
Inductive Kont := KTrapReturn | KYield | KStdin (buf : UserBuffer).

Record Kernel (D : Type) := MkKernel {
  k_mm : MM;                                (* memory and [FRAME_ALLOCATOR] *)
  k_space : MemorySet;                      (* [KERNEL_SPACE] *)
  k_pids : RecycleAllocator;                (* [PID_ALLOCATOR] *)
  k_kstacks : RecycleAllocator;             (* [KSTACK_ALLOCATOR] *)
  k_tcbs : gmap Z TaskControlBlock;
  k_next_tcb : Z;
  k_konts : gmap Z Kont;
  k_ready : list Z;                         (* [TASK_MANAGER.ready_queue] *)
  k_current : option Z;                     (* [PROCESSOR.current] *)
  k_initproc : Z;                           (* [INITPROC] *)
  k_files : gmap Z OSInode;
  k_next_file : Z;
  k_cache : BlockCacheManager D;            (* [BLOCK_CACHE_MANAGER] over [BLOCK_DEVICE] *)
  k_efs : EasyFileSystem;
  k_root : Inode;                           (* [ROOT_INODE] *)
  k_times : nat;                            (* clock reads so far *)
  k_chars : nat;                            (* console reads so far *)
  k_out : list Z                            (* bytes printed by programs *)
}.

Arguments MkKernel {D}.
Arguments k_mm {D}.
Arguments k_space {D}.
Arguments k_pids {D}.
Arguments k_kstacks {D}.
Arguments k_tcbs {D}.
Arguments k_next_tcb {D}.
Arguments k_konts {D}.
Arguments k_ready {D}.
Arguments k_current {D}.
Arguments k_initproc {D}.
Arguments k_files {D}.
Arguments k_next_file {D}.
Arguments k_cache {D}.
Arguments k_efs {D}.
Arguments k_root {D}.
Arguments k_times {D}.
Arguments k_chars {D}.
Arguments k_out {D}.

Section State.
Context {D : Type} `{BlockDevice D}.

Definition set_mm (k : Kernel D) (x : MM) : Kernel D :=
  MkKernel x (k_space k) (k_pids k) (k_kstacks k) (k_tcbs k) (k_next_tcb k) (k_konts k) (k_ready k) (k_current k)
    (k_initproc k) (k_files k) (k_next_file k) (k_cache k) (k_efs k) (k_root k) (k_times k) (k_chars k) (k_out k).
Definition set_space (k : Kernel D) (x : MemorySet) : Kernel D :=
  MkKernel (k_mm k) x (k_pids k) (k_kstacks k) (k_tcbs k) (k_next_tcb k) (k_konts k) (k_ready k) (k_current k)
    (k_initproc k) (k_files k) (k_next_file k) (k_cache k) (k_efs k) (k_root k) (k_times k) (k_chars k) (k_out k).
Definition set_pids (k : Kernel D) (x : RecycleAllocator) : Kernel D :=
  MkKernel (k_mm k) (k_space k) x (k_kstacks k) (k_tcbs k) (k_next_tcb k) (k_konts k) (k_ready k) (k_current k)
    (k_initproc k) (k_files k) (k_next_file k) (k_cache k) (k_efs k) (k_root k) (k_times k) (k_chars k) (k_out k).
Definition set_kstacks (k : Kernel D) (x : RecycleAllocator) : Kernel D :=
  MkKernel (k_mm k) (k_space k) (k_pids k) x (k_tcbs k) (k_next_tcb k) (k_konts k) (k_ready k) (k_current k)
    (k_initproc k) (k_files k) (k_next_file k) (k_cache k) (k_efs k) (k_root k) (k_times k) (k_chars k) (k_out k).
Definition set_tcbs (k : Kernel D) (x : gmap Z TaskControlBlock) : Kernel D :=
  MkKernel (k_mm k) (k_space k) (k_pids k) (k_kstacks k) x (k_next_tcb k) (k_konts k) (k_ready k) (k_current k)
    (k_initproc k) (k_files k) (k_next_file k) (k_cache k) (k_efs k) (k_root k) (k_times k) (k_chars k) (k_out k).
Definition set_next_tcb (k : Kernel D) (x : Z) : Kernel D :=
  MkKernel (k_mm k) (k_space k) (k_pids k) (k_kstacks k) (k_tcbs k) x (k_konts k) (k_ready k) (k_current k)
    (k_initproc k) (k_files k) (k_next_file k) (k_cache k) (k_efs k) (k_root k) (k_times k) (k_chars k) (k_out k).
Definition set_konts (k : Kernel D) (x : gmap Z Kont) : Kernel D :=
  MkKernel (k_mm k) (k_space k) (k_pids k) (k_kstacks k) (k_tcbs k) (k_next_tcb k) x (k_ready k) (k_current k)
    (k_initproc k) (k_files k) (k_next_file k) (k_cache k) (k_efs k) (k_root k) (k_times k) (k_chars k) (k_out k).
Definition set_ready (k : Kernel D) (x : list Z) : Kernel D :=
  MkKernel (k_mm k) (k_space k) (k_pids k) (k_kstacks k) (k_tcbs k) (k_next_tcb k) (k_konts k) x (k_current k)
    (k_initproc k) (k_files k) (k_next_file k) (k_cache k) (k_efs k) (k_root k) (k_times k) (k_chars k) (k_out k).
Definition set_current (k : Kernel D) (x : option Z) : Kernel D :=
  MkKernel (k_mm k) (k_space k) (k_pids k) (k_kstacks k) (k_tcbs k) (k_next_tcb k) (k_konts k) (k_ready k) x
    (k_initproc k) (k_files k) (k_next_file k) (k_cache k) (k_efs k) (k_root k) (k_times k) (k_chars k) (k_out k).
Definition set_initproc (k : Kernel D) (x : Z) : Kernel D :=
  MkKernel (k_mm k) (k_space k) (k_pids k) (k_kstacks k) (k_tcbs k) (k_next_tcb k) (k_konts k) (k_ready k) (k_current k)
    x (k_files k) (k_next_file k) (k_cache k) (k_efs k) (k_root k) (k_times k) (k_chars k) (k_out k).
Definition set_files (k : Kernel D) (x : gmap Z OSInode) : Kernel D :=
  MkKernel (k_mm k) (k_space k) (k_pids k) (k_kstacks k) (k_tcbs k) (k_next_tcb k) (k_konts k) (k_ready k) (k_current k)
    (k_initproc k) x (k_next_file k) (k_cache k) (k_efs k) (k_root k) (k_times k) (k_chars k) (k_out k).
Definition set_next_file (k : Kernel D) (x : Z) : Kernel D :=
  MkKernel (k_mm k) (k_space k) (k_pids k) (k_kstacks k) (k_tcbs k) (k_next_tcb k) (k_konts k) (k_ready k) (k_current k)
    (k_initproc k) (k_files k) x (k_cache k) (k_efs k) (k_root k) (k_times k) (k_chars k) (k_out k).
Definition set_cache_mgr (k : Kernel D) (x : BlockCacheManager D) : Kernel D :=
  MkKernel (k_mm k) (k_space k) (k_pids k) (k_kstacks k) (k_tcbs k) (k_next_tcb k) (k_konts k) (k_ready k) (k_current k)
    (k_initproc k) (k_files k) (k_next_file k) x (k_efs k) (k_root k) (k_times k) (k_chars k) (k_out k).
Definition set_times (k : Kernel D) (x : nat) : Kernel D :=
  MkKernel (k_mm k) (k_space k) (k_pids k) (k_kstacks k) (k_tcbs k) (k_next_tcb k) (k_konts k) (k_ready k) (k_current k)
    (k_initproc k) (k_files k) (k_next_file k) (k_cache k) (k_efs k) (k_root k) x (k_chars k) (k_out k).
Definition set_chars (k : Kernel D) (x : nat) : Kernel D :=
  MkKernel (k_mm k) (k_space k) (k_pids k) (k_kstacks k) (k_tcbs k) (k_next_tcb k) (k_konts k) (k_ready k) (k_current k)
    (k_initproc k) (k_files k) (k_next_file k) (k_cache k) (k_efs k) (k_root k) (k_times k) x (k_out k).
Definition set_out (k : Kernel D) (x : list Z) : Kernel D :=
  MkKernel (k_mm k) (k_space k) (k_pids k) (k_kstacks k) (k_tcbs k) (k_next_tcb k) (k_konts k) (k_ready k) (k_current k)
    (k_initproc k) (k_files k) (k_next_file k) (k_cache k) (k_efs k) (k_root k) (k_times k) (k_chars k) x.

Definition gets {A} (f : Kernel D → A) : M (Kernel D) A := λ k, Ok (f k, k).
Definition modify (f : Kernel D → Kernel D) : M (Kernel D) unit := λ k, Ok ((), f k).

(** Computations on memory and on the file system inside the kernel. *)
Definition on_mm {A} (p : M MM A) : M (Kernel D) A := λ k,
  match p (k_mm k) with Ok (a, s) => Ok (a, set_mm k s) | Err e => Err e end.
Definition on_fs {A} (p : prog A) : M (Kernel D) A := λ k,
  match run_cached p (k_cache k) with Ok (a, c) => Ok (a, set_cache_mgr k c) | Err e => Err e end.
Definition on_mem (f : memory → memory) : M (Kernel D) unit :=
  modify (λ k, set_mm k (MkMM (f (mm_mem (k_mm k))) (mm_fa (k_mm k)))).
Definition get_mem : M (Kernel D) memory := gets (λ k, mm_mem (k_mm k)).

(** Control blocks by key; a key always denotes a live block. *)
Definition get_tcb (t : Z) : M (Kernel D) TaskControlBlock := λ k,
  match k_tcbs k !! t with Some b => Ok (b, k) | None => Err Undefined end.
Definition set_tcb (t : Z) (b : TaskControlBlock) : M (Kernel D) unit :=
  modify (λ k, set_tcbs k (<[t := b]> (k_tcbs k))).
Definition get_file (f : Z) : M (Kernel D) OSInode := λ k,
  match k_files k !! f with Some b => Ok (b, k) | None => Err Undefined end.
Definition set_file (f : Z) (b : OSInode) : M (Kernel D) unit :=
  modify (λ k, set_files k (<[f := b]> (k_files k))).

(** [Arc::new]: a fresh key. *)
Definition Arc_new_tcb (b : TaskControlBlock) : M (Kernel D) Z := λ k,
  Ok (k_next_tcb k, set_next_tcb (set_tcbs k (<[k_next_tcb k := b]> (k_tcbs k))) (k_next_tcb k + 1)).
Definition Arc_new_file (b : OSInode) : M (Kernel D) Z := λ k,
  Ok (k_next_file k, set_next_file (set_files k (<[k_next_file k := b]> (k_files k))) (k_next_file k + 1)).

(** References to a control block: the ready queue, the processor, the children of other
    tasks and [INITPROC]. *)
Definition count (t : Z) (l : list Z) : nat := length (filter (λ x, x = t) l).
Definition Arc_strong_count (k : Kernel D) (t : Z) : nat :=
  (count t (k_ready k) + (if decide (k_current k = Some t) then 1 else 0)
   + count t ((map_to_list (k_tcbs k)).*2 ≫= tcb_children) + (if decide (k_initproc k = t) then 1 else 0))%nat.

(** * Task manager and processor *)

Definition add_task (task : Z) : M (Kernel D) unit :=
  modify (λ k, set_ready k (vec_push (k_ready k) task)).

Definition fetch_task : M (Kernel D) (option Z) := λ k,
  match k_ready k with
  | [] => Ok (None, k)
  | t :: rest => Ok (Some t, set_ready k rest)
  end.

Definition take_current_task : M (Kernel D) (option Z) := λ k,
  Ok (k_current k, set_current k None).
Definition current_task : M (Kernel D) (option Z) := gets k_current.
Definition set_current_task (task : Z) : M (Kernel D) unit := modify (λ k, set_current k (Some task)).

(** [current_task().unwrap()] with its control block. *)
Definition current_tcb : M (Kernel D) (Z * TaskControlBlock) :=
  o ← current_task;
  t ← lift (unwrap o);
  b ← get_tcb t;
  mret (t, b).

Definition current_user_token : M (Kernel D) Z :=
  '(_, b) ← current_tcb;
  mret (TaskControlBlockInner_get_user_token b).

(** * Timer *)

Definition MSEC_PER_SEC : Z := 1000.
Definition MICRO_PER_SEC : Z := 1000000.

Definition get_time (env : Env) : M (Kernel D) Z := λ k,
  Ok (env_time env (k_times k), set_times k (S (k_times k))).
Definition get_time_us (env : Env) : M (Kernel D) Z :=
  t ← get_time env;
  mret ((t * MICRO_PER_SEC)%usize / CLOCK_FREQ).
Definition get_time_ms (env : Env) : M (Kernel D) Z :=
  t ← get_time env;
  mret ((t * MSEC_PER_SEC)%usize / CLOCK_FREQ).

Definition TICKS_PER_SEC : Z := 100.

(** The deadline [set_next_trigger] passes to the SBI. *)
Definition set_next_trigger (env : Env) : M (Kernel D) Z :=
  t ← get_time env;
  mret (t + CLOCK_FREQ / TICKS_PER_SEC)%usize.

Definition TaskInfo_new (env : Env) : M (Kernel D) TaskInfo :=
  t ← get_time_us env;
  mret (MkTaskInfo Running (replicate (Z.to_nat MAX_SYSCALL_NUM) 0) t).

(** * Giving up the processor

    [schedule] switches to the idle flow; the task later continues at [kont]. *)
Definition suspend_current_and_run_next (kont : Kont) : M (Kernel D) unit :=
  o ← take_current_task;
  task ← lift (unwrap o);
  inner ← get_tcb task;
  _ ← set_tcb task (set_status inner Ready);
  _ ← add_task task;
  modify (λ k, set_konts k (<[task := kont]> (k_konts k))).
End State.
