(* ===== verification/Machine.v ===== *)
(** The assembly of the kernel on a model of the processor: [__alltraps] and [__restore]
    of [os/src/trap/trap.S], which save and restore the registers of a program in its trap
    context while the address space changes under them, and [__switch] of
    [os/src/task/switch.S].

    The instructions used there are the constructors of [instr]; memory is reached
    through Sv39 translation under the current [satp], in supervisor mode, where pages
    with the [U] flag are out of reach.  Instructions are fetched through the same
    translation: the routine runs on only while its page is mapped, executable, to the
    frame its code is in.  Code addresses inside that page are not modelled. *)

From S2P Require Import Prelude Config Address Allocator FrameAllocator PhysMem PageTable PageTableSpec MemorySet MemorySetSpec AddressSpace ElfLoad KernelSpace.
From S2P Require Import BlockAccess Kernel.

Ltac Zify.zify_post_hook ::= Z.to_euclidean_division_equations.

(** * The processor *)

Inductive csr := Sscratch | Sstatus | Sepc | Satp | Stvec | Sie.

Record Cpu := MkCpu {
  c_x : list Z;       (* x0 .. x31 *)
  c_sscratch : Z;
  c_sstatus : Z;
  c_sepc : Z;
  c_satp : Z;
  c_stvec : Z;
  c_sie : Z;
  c_pc : Z            (* where control goes at the end of a routine *)
}.

Inductive instr :=
| Sd (rs : nat) (offset : Z) (base : nat)
| Ld (rd : nat) (offset : Z) (base : nat)
| Csrrw (rd : nat) (c : csr) (rs : nat)
| Csrr (rd : nat) (c : csr)
| Csrw (c : csr) (rs : nat)
| Mv (rd rs : nat)
| SfenceVma
| Jr (rs : nat)
| Sret.

Definition reg (cpu : Cpu) (n : nat) : Z := default 0 (c_x cpu !! n).
Definition set_reg (cpu : Cpu) (n : nat) (v : Z) : Cpu :=
  MkCpu (<[n := v]> (c_x cpu)) (c_sscratch cpu) (c_sstatus cpu) (c_sepc cpu) (c_satp cpu) (c_stvec cpu) (c_sie cpu) (c_pc cpu).
Definition set_pc (cpu : Cpu) (v : Z) : Cpu :=
  MkCpu (c_x cpu) (c_sscratch cpu) (c_sstatus cpu) (c_sepc cpu) (c_satp cpu) (c_stvec cpu) (c_sie cpu) v.
Definition get_csr (cpu : Cpu) (c : csr) : Z :=
  match c with
  | Sscratch => c_sscratch cpu | Sstatus => c_sstatus cpu | Sepc => c_sepc cpu | Satp => c_satp cpu | Stvec => c_stvec cpu
  | Sie => c_sie cpu
  end.
Definition set_csr (cpu : Cpu) (c : csr) (v : Z) : Cpu :=
  match c with
  | Sscratch => MkCpu (c_x cpu) v (c_sstatus cpu) (c_sepc cpu) (c_satp cpu) (c_stvec cpu) (c_sie cpu) (c_pc cpu)
  | Sstatus => MkCpu (c_x cpu) (c_sscratch cpu) v (c_sepc cpu) (c_satp cpu) (c_stvec cpu) (c_sie cpu) (c_pc cpu)
  | Sepc => MkCpu (c_x cpu) (c_sscratch cpu) (c_sstatus cpu) v (c_satp cpu) (c_stvec cpu) (c_sie cpu) (c_pc cpu)
  | Satp => MkCpu (c_x cpu) (c_sscratch cpu) (c_sstatus cpu) (c_sepc cpu) v (c_stvec cpu) (c_sie cpu) (c_pc cpu)
  | Stvec => MkCpu (c_x cpu) (c_sscratch cpu) (c_sstatus cpu) (c_sepc cpu) (c_satp cpu) v (c_sie cpu) (c_pc cpu)
  | Sie => MkCpu (c_x cpu) (c_sscratch cpu) (c_sstatus cpu) (c_sepc cpu) (c_satp cpu) (c_stvec cpu) v (c_pc cpu)
  end.

(** * Memory in supervisor mode *)

Inductive access := Fetch | Load | Store.

Definition access_ok (a : access) (e : PageTableEntry) : bool :=
  bool_decide (Z.land (PageTableEntry_flags e) PTEFlags_U = 0) &&
  match a with
  | Fetch => PageTableEntry_executable e
  | Load => PageTableEntry_readable e
  | Store => PageTableEntry_writable e
  end.

(** The physical address of a canonical virtual address; a page fault leaves the routine. *)
Definition mmu (m : memory) (satp : Z) (a : access) (va : Z) : res Z :=
  if decide (0 ≤ va < 2 ^ 38 ∨ 2 ^ 64 - 2 ^ 38 ≤ va < 2 ^ 64) then
    match pt_view m (PageTable_from_token satp) (VirtAddr_floor (VirtAddr_from va)) with
    | Some e => if access_ok a e then Ok (ppn_0 (PageTableEntry_ppn e) * 4096 + va mod 4096) else Err Undefined
    | None => Err Undefined
    end
  else Err Undefined.

(** Eight-byte accesses are aligned. *)
Definition mmu8 (m : memory) (satp : Z) (a : access) (va : Z) : res Z :=
  if decide (va mod 8 = 0) then mmu m satp a va else Err Undefined.

Definition exec (i : instr) (cpu : Cpu) (m : memory) : res (Cpu * memory) :=
  match i with
  | Sd rs offset base =>
      pa ← mmu8 m (c_satp cpu) Store (reg cpu base + offset)%usize;
      mret (cpu, write_u64 m pa (reg cpu rs))
  | Ld rd offset base =>
      pa ← mmu8 m (c_satp cpu) Load (reg cpu base + offset)%usize;
      mret (set_reg cpu rd (read_u64 m pa), m)
  | Csrrw rd c rs => mret (set_reg (set_csr cpu c (reg cpu rs)) rd (get_csr cpu c), m)
  | Csrr rd c => mret (set_reg cpu rd (get_csr cpu c), m)
  | Csrw c rs => mret (set_csr cpu c (reg cpu rs), m)
  | Mv rd rs => mret (set_reg cpu rd (reg cpu rs), m)
  | SfenceVma => mret (cpu, m)
  | Jr rs => mret (set_pc cpu (reg cpu rs), m)
  | Sret => mret (set_pc cpu (c_sepc cpu), m)
  end.

(** Run a routine whose code is on the page [code], in the frame at [frame]. *)
Fixpoint run (code frame : Z) (ins : list instr) (cpu : Cpu) (m : memory) : res (Cpu * memory) :=
  match ins with
  | [] => mret (cpu, m)
  | i :: ins' =>
      pa ← mmu m (c_satp cpu) Fetch code;
      if decide (pa = frame) then
        '(cpu, m) ← exec i cpu m;
        run code frame ins' cpu m
      else Err Undefined
  end.

(** * trap.S *)

Abbreviation ra := 1%nat.
Abbreviation sp := 2%nat.
Abbreviation t0 := 5%nat.
Abbreviation t1 := 6%nat.
Abbreviation t2 := 7%nat.
Abbreviation a0 := 10%nat.
Abbreviation a1 := 11%nat.

Definition SAVE_GP (n : nat) : instr := Sd n (8 * Z.of_nat n) sp.
Definition LOAD_GP (n : nat) : instr := Ld n (8 * Z.of_nat n) sp.

Definition alltraps : list instr :=
  [Csrrw sp Sscratch sp;
   Sd 1 (1 * 8) sp;
   Sd 3 (3 * 8) sp] ++
  (SAVE_GP <$> seq 5 27) ++
  [Csrr t0 Sstatus; Csrr t1 Sepc; Sd t0 (32 * 8) sp; Sd t1 (33 * 8) sp;
   Csrr t2 Sscratch; Sd t2 (2 * 8) sp;
   Ld t0 (34 * 8) sp;
   Ld t1 (36 * 8) sp;
   Ld sp (35 * 8) sp;
   Csrw Satp t0; SfenceVma;
   Jr t1].

Definition restore : list instr :=
  [Csrw Satp a1; SfenceVma;
   Csrw Sscratch a0; Mv sp a0;
   Ld t0 (32 * 8) sp; Ld t1 (33 * 8) sp; Csrw Sstatus t0; Csrw Sepc t1;
   Ld 1 (1 * 8) sp;
   Ld 3 (3 * 8) sp] ++
  (LOAD_GP <$> seq 5 27) ++
  [Ld sp (2 * 8) sp;
   Sret].

(** * switch.S *)

(** The number of register [s<n>]. *)
Definition s_reg (n : nat) : nat := if decide (n < 2)%nat then (8 + n)%nat else (16 + n)%nat.
Definition SAVE_SN (n : nat) : instr := Sd (s_reg n) ((Z.of_nat n + 2) * 8) a0.
Definition LOAD_SN (n : nat) : instr := Ld (s_reg n) ((Z.of_nat n + 2) * 8) a1.

Definition switch : list instr :=
  [Sd sp 8 a0; Sd ra 0 a0] ++ (SAVE_SN <$> seq 0 12) ++
  [Ld ra 0 a1] ++ (LOAD_SN <$> seq 0 12) ++ [Ld sp 8 a1; Jr ra].

(** * Lemmas *)

Lemma pt_view_token m pt v : 0 ≤ ppn_0 (root_ppn pt) < 2 ^ 44 →
  pt_view m (PageTable_from_token (PageTable_token pt)) v = pt_view m pt v.
Proof. intros Hr. unfold pt_view, PageTable_translate, PageTable_find_pte. by rewrite token_root. Qed.

Lemma reg_set_eq cpu n v : (n < length (c_x cpu))%nat → reg (set_reg cpu n v) n = v.
Proof. intros Hn. unfold reg, set_reg. cbn [c_x]. by rewrite list_lookup_insert_eq. Qed.
Lemma reg_set_ne cpu n j v : n ≠ j → reg (set_reg cpu n v) j = reg cpu j.
Proof. intros Hn. unfold reg, set_reg. cbn [c_x]. by rewrite list_lookup_insert_ne. Qed.
Lemma length_set_reg cpu n v : length (c_x (set_reg cpu n v)) = length (c_x cpu).
Proof. apply length_insert. Qed.

(** Writes to the frames [d] as a step that allocates nothing. *)
Lemma mm_write_step l r s m d : sfa_inv l r (mm_fa s) → mem_wf m → (∀ y, y / 4096 ∉ d → read_u8 m y = read_u8 (mm_mem s) y) →
  mm_step l r s (MkMM m (mm_fa s)) [] d.
Proof.
  intros Hfa Hwf Hm. split; cbn [mm_fa mm_mem]; [done|done| | |constructor|cbn; lia|done].
  - intros y. split; [by right|]. by intros [?%not_elem_of_nil|].
  - by intros x ?%not_elem_of_nil.
Qed.

Lemma ms_inv_fa l r s ms σ0 σ : ms_inv l r s ms σ0 σ → sfa_inv l r (mm_fa s).
Proof. intros Hi. by destruct (mi_pt _ _ _ _ _ _ Hi) as [(? & _) _]. Qed.

(** ** A routine that only uses mapped pages

    [ok m] says that under [satp] the code page is fetched and word [i] of the data is at
    the physical address [addr i]. *)

Lemma run_fetch code frame i ins cpu m : mmu m (c_satp cpu) Fetch code = Ok frame →
  run code frame (i :: ins) cpu m = match exec i cpu m with Ok (cpu', m') => run code frame ins cpu' m' | Err e => Err e end.
Proof. intros Hf. cbn [run]. rewrite Hf. cbn [mbind res_bind]. rewrite decide_True by done. by destruct (exec i cpu m) as [[]|]. Qed.

Section Trap.
Context (l r : Z) (s : MM) (ks : KernelSymbols) (us ksp : MemorySet) (σu0 σu σk0 σk : page_map) (a : MapArea) (f : FrameTracker).
Context (Hu : ms_inv l r s us σu0 σu) (Hk : ms_inv l r s ksp σk0 σk) (Hks : strampoline_ok ks).
Context (Ha : a ∈ ms_areas us) (Ht : ma_map_type a = Framed) (Hperm : ma_map_perm a = 0x6) (Hv : trap_page ∈ area_vpns a).
Context (Hf : ma_data_frames a !! trap_page = Some f).
Context (Htu : σu !! trampoline_vpn = Some (trampoline_entry ks)) (Htk : σk !! trampoline_vpn = Some (trampoline_entry ks)).
Context (Hdis : ∀ x, x ∈ ms_frames us → x ∉ frame_nums (frames (ms_page_table ksp))).

(** The memory differs at most on the frame of the trap context. *)
Definition good (m : memory) : Prop := mem_wf m ∧ ∀ y, y / 4096 ≠ frame_num f → read_u8 m y = read_u8 (mm_mem s) y.

Lemma good_self : good (mm_mem s).
Proof using All. split; [|done]. apply (mi_pt _ _ _ _ _ _ Hu). Qed.

Lemma f_range : 0 ≤ frame_num f < 2 ^ 44.
Proof using All.
  destruct (framed_page l r _ _ _ _ _ _ Hu Ha Ht Hv) as (g & Hg & H44 & _). rewrite Hf in Hg. by injection Hg as <-.
Qed.

Lemma good_views m v : good m → vpn_ok v →
  pt_view m (PageTable_from_token (MemorySet_token us)) v = σu !! v ∧
  pt_view m (PageTable_from_token (MemorySet_token ksp)) v = σk !! v.
Proof using All.
  intros [Hwf Hm] Hvo. pose proof (area_frames_elem _ _ _ Hf) as Hfa.
  assert (mm_step l r s (MkMM m (mm_fa s)) [] [frame_num f]) as Hst.
  { apply mm_write_step; [by eapply ms_inv_fa|done|]. intros y [Hy _]%not_elem_of_cons. by apply Hm. }
  assert (ms_inv l r (MkMM m (mm_fa s)) us σu0 σu) as Hu'.
  { eapply ms_inv_frame; [done|done|]. intros x Hx ->%list_elem_of_singleton. exact (area_not_pt l r s us σu0 σu a _ Hu Ha Hfa Hx). }
  assert (ms_inv l r (MkMM m (mm_fa s)) ksp σk0 σk) as Hk'.
  { eapply ms_inv_frame; [done|done|]. intros x Hx ->%list_elem_of_singleton. apply (Hdis (frame_num f)); [|done].
    by eapply area_frames_ms. }
  destruct (mi_pt _ _ _ _ _ _ Hu') as [Wu Vu]. destruct (mi_pt _ _ _ _ _ _ Hk') as [Wk Vk]. cbn [mm_mem] in Vu, Vk.
  unfold MemorySet_token. rewrite !pt_view_token by by eapply (pt_wf_root l r). auto.
Qed.

Lemma trampoline_fetch m satp : good m → satp = MemorySet_token us ∨ satp = MemorySet_token ksp →
  mmu m satp Fetch TRAMPOLINE = Ok (strampoline ks).
Proof using All.
  intros Hg Hs. destruct (good_views m trampoline_vpn Hg) as [Vu Vk]; [unfold vpn_ok, trampoline_vpn; cbn; lia|].
  unfold mmu. rewrite decide_True by (unfold TRAMPOLINE, USIZE_MAX, PAGE_SIZE; lia).
  change (VirtAddr_floor (VirtAddr_from TRAMPOLINE)) with trampoline_vpn.
  assert (pt_view m (PageTable_from_token satp) trampoline_vpn = Some (trampoline_entry ks)) as ->.
  { destruct Hs as [-> | ->]; [by rewrite Vu|by rewrite Vk]. }
  destruct (strampoline_ppn ks Hks) as [_ H44]. destruct Hks as [Hal _]. unfold PAGE_SIZE in *.
  destruct (area_entry_fields (Z.lor PTEFlags_R PTEFlags_X) (MkFrameTracker (MkPhysPageNum (strampoline ks / 0x1000)))) as [Hp Hfl];
    [by compute|exact H44|]. unfold area_entry in Hp, Hfl. cbn [ft_ppn] in Hp, Hfl.
  unfold access_ok, PageTableEntry_executable, trampoline_entry, PAGE_SIZE. rewrite Hfl, Hp. cbn [ppn_0].
  change (TRAMPOLINE mod 4096) with 0. cbn. f_equal. lia.
Qed.

(** Word [i] of the trap context. *)
Abbreviation W m i := (read_u64 m (frame_num f * 4096 + 8 * i)).
Abbreviation set_W m i v := (write_u64 m (frame_num f * 4096 + 8 * i) v).

Lemma W_set_eq m i v : fits 64 v → W (set_W m i v) i = v.
Proof. apply read_u64_write_eq. Qed.
Lemma W_set_ne m i j v : i ≠ j → W (set_W m i v) j = W m j.
Proof. intros Hij. apply read_u64_write_out. lia. Qed.

Lemma good_set m i v : good m → 0 ≤ i < 512 → good (set_W m i v).
Proof using All.
  intros [Hwf Hm] Hi. split; [by apply write_u64_wf|]. intros y Hy. unfold write_u64. rewrite read_u8_write_bytes_out; [by apply Hm|].
  rewrite length_le_bytes. lia.
Qed.

Lemma cx_addr m acc i : good m → acc ≠ Fetch → 0 ≤ i < 512 →
  mmu8 m (MemorySet_token us) acc (add_w 64 TRAP_CONTEXT_BASE (8 * i)) = Ok (frame_num f * 4096 + 8 * i).
Proof using All.
  intros Hg Hacc Hi. destruct (good_views m trap_page Hg) as [Vu _]; [unfold vpn_ok, trap_page; cbn; lia|].
  assert (TRAP_CONTEXT_BASE = 2 ^ 64 - 8192) as E by reflexivity.
  rewrite add_w_small by (unfold fits; lia). unfold mmu8. rewrite decide_True by lia.
  unfold mmu. rewrite decide_True by lia.
  assert (VirtAddr_floor (VirtAddr_from (TRAP_CONTEXT_BASE + 8 * i)) = trap_page) as ->.
  { rewrite E. replace (2 ^ 64 - 8192 + 8 * i) with (2 ^ 64 - (8192 - 8 * i)) by lia. rewrite VirtAddr_from_high by lia.
    unfold VirtAddr_floor, trap_page, PAGE_SIZE. cbn [va_0]. f_equal. lia. }
  rewrite Vu. destruct (framed_page l r _ _ _ _ _ _ Hu Ha Ht Hv) as (g & Hg' & H44 & Hσ & _ & Hp & _ & _).
  rewrite Hf in Hg'. injection Hg' as <-. rewrite Hσ, Hp. destruct (area_entry_fields (ma_map_perm a) f) as [_ Hfl]; [by rewrite Hperm; compute|done|].
  unfold access_ok, PageTableEntry_readable, PageTableEntry_writable. rewrite Hfl, Hperm.
  assert ((TRAP_CONTEXT_BASE + 8 * i) mod 4096 = 8 * i) as -> by lia. by destruct acc.
Qed.

Section User.
Context (cpu : Cpu) (m : memory) (Hg : good m) (Hsatp : c_satp cpu = MemorySet_token us).
Abbreviation go := (run TRAMPOLINE (strampoline ks)).

Lemma run_user i ins : go (i :: ins) cpu m = match exec i cpu m with Ok (cpu', m') => go ins cpu' m' | Err e => Err e end.
Proof using All. apply run_fetch, trampoline_fetch; [done|]. by left. Qed.

Lemma run_sd rs i ins : reg cpu sp = TRAP_CONTEXT_BASE → 0 ≤ i < 512 →
  go (Sd rs (8 * i) sp :: ins) cpu m = go ins cpu (set_W m i (reg cpu rs)).
Proof using All. intros Hsp Hi. rewrite run_user. cbn [exec]. by rewrite Hsatp, Hsp, cx_addr. Qed.

Lemma run_ld rd i ins : reg cpu sp = TRAP_CONTEXT_BASE → 0 ≤ i < 512 →
  go (Ld rd (8 * i) sp :: ins) cpu m = go ins (set_reg cpu rd (W m i)) m.
Proof using All. intros Hsp Hi. rewrite run_user. cbn [exec]. by rewrite Hsatp, Hsp, cx_addr. Qed.
End User.

Abbreviation go := (run TRAMPOLINE (strampoline ks)).
Definition same_csrs (cpu cpu' : Cpu) : Prop := ∀ c, get_csr cpu' c = get_csr cpu c.

Lemma run_saves ns cpu : c_satp cpu = MemorySet_token us → reg cpu sp = TRAP_CONTEXT_BASE → (∀ n, fits 64 (reg cpu n)) →
  Forall (λ n, n < 32)%nat ns → ∀ m, good m →
  ∃ m', (∀ ins, go ((SAVE_GP <$> ns) ++ ins) cpu m = go ins cpu m') ∧ good m' ∧
    ∀ j : nat, W m' (Z.of_nat j) = if decide (j ∈ ns) then reg cpu j else W m (Z.of_nat j).
Proof using All.
  intros Hs Hsp Hfit. induction ns as [|n ns IH]; intros Hns m Hg.
  { exists m. split; [done|]. split; [done|]. intros j. by rewrite decide_False by apply not_elem_of_nil. }
  apply Forall_cons in Hns as [Hn Hns]. destruct (IH Hns (set_W m (Z.of_nat n) (reg cpu n))) as (m' & Hrun & Hg' & HW);
    [apply good_set; [done|lia]|].
  exists m'. split; [|split; [done|]].
  - intros ins. cbn [fmap list_fmap app]. unfold SAVE_GP at 1. rewrite run_sd by (done || lia). apply Hrun.
  - intros j. rewrite HW. destruct (decide (j ∈ ns)) as [Hj|Hj]; [by rewrite decide_True by (by apply list_elem_of_further)|].
    destruct (decide (j = n)) as [->|Hne].
    + rewrite decide_True by apply list_elem_of_here. by apply W_set_eq.
    + rewrite decide_False by set_solver. apply W_set_ne. lia.
Qed.

Lemma run_loads m ns : good m → Forall (λ n, n < 32)%nat ns → sp ∉ ns → ∀ cpu, length (c_x cpu) = 32%nat →
  c_satp cpu = MemorySet_token us → reg cpu sp = TRAP_CONTEXT_BASE →
  ∃ cpu', (∀ ins, go ((LOAD_GP <$> ns) ++ ins) cpu m = go ins cpu' m) ∧ same_csrs cpu cpu' ∧ length (c_x cpu') = 32%nat ∧
    ∀ j : nat, reg cpu' j = if decide (j ∈ ns) then W m (Z.of_nat j) else reg cpu j.
Proof using All.
  intros Hg. induction ns as [|n ns IH]; intros Hns Hsn cpu Hl Hs Hsp.
  { exists cpu. split; [done|]. split; [done|]. split; [done|]. intros j. by rewrite decide_False by apply not_elem_of_nil. }
  apply Forall_cons in Hns as [Hn Hns]. apply not_elem_of_cons in Hsn as [Hne Hsn].
  destruct (IH Hns Hsn (set_reg cpu n (W m (Z.of_nat n)))) as (cpu' & Hrun & Hcs & Hl' & HW);
    [by rewrite length_set_reg|done|by rewrite reg_set_ne|].
  exists cpu'. split; [|split; [|split; [done|]]].
  - intros ins. cbn [fmap list_fmap app]. unfold LOAD_GP at 1. rewrite run_ld by (done || lia). apply Hrun.
  - intros c. rewrite Hcs. by destruct c.
  - intros j. rewrite HW. destruct (decide (j ∈ ns)) as [Hj|Hj]; [by rewrite decide_True by (by apply list_elem_of_further)|].
    destruct (decide (j = n)) as [->|Hne'].
    + rewrite decide_True by apply list_elem_of_here. by apply reg_set_eq; lia.
    + rewrite decide_False by set_solver. by apply reg_set_ne.
Qed.

(** The general registers the trap context keeps: all but [x0] and [tp]. *)
Definition saved_reg (n : nat) : Prop := (1 ≤ n < 32)%nat ∧ n ≠ 4%nat.

(** The end of [__alltraps]: into the kernel's address space and its trap handler. *)
Lemma alltraps_leave cpu m :
  good m → length (c_x cpu) = 32%nat → c_satp cpu = MemorySet_token us → reg cpu sp = TRAP_CONTEXT_BASE →
  W m 34 = MemorySet_token ksp →
  ∃ cpu', go [Ld t0 (8 * 34) sp; Ld t1 (8 * 36) sp; Ld sp (8 * 35) sp; Csrw Satp t0; SfenceVma; Jr t1] cpu m = Ok (cpu', m) ∧
    c_satp cpu' = MemorySet_token ksp ∧ reg cpu' sp = W m 35 ∧ c_pc cpu' = W m 36 ∧
    c_sscratch cpu' = c_sscratch cpu ∧ c_stvec cpu' = c_stvec cpu.
Proof using All.
  intros Hg Hl Hs Hsp H34. rewrite run_ld by (done || lia). rewrite run_ld by (done || lia || by rewrite reg_set_ne).
  rewrite run_ld by (done || lia || by rewrite !reg_set_ne). set (cpu1 := set_reg _ sp _).
  assert (reg cpu1 t0 = W m 34) as R0 by (unfold cpu1; rewrite !(reg_set_ne _ _ t0) by done; apply reg_set_eq; lia).
  assert (reg cpu1 t1 = W m 36) as R1 by (unfold cpu1; rewrite (reg_set_ne _ _ t1) by done; apply reg_set_eq; rewrite length_set_reg; lia).
  assert (reg cpu1 sp = W m 35) as R2 by (unfold cpu1; apply reg_set_eq; rewrite !length_set_reg; lia).
  rewrite run_user by done. cbn [exec mret res_ret]. rewrite R0, H34.
  rewrite run_fetch by (apply trampoline_fetch; [done|by right]). cbn [exec mret res_ret].
  rewrite run_fetch by (apply trampoline_fetch; [done|by right]). cbn [exec mret res_ret run].
  eexists. split; [reflexivity|]. by rewrite <- R1, <- R2.
Qed.

(** The middle of [__alltraps]: the status registers and the program's stack pointer. *)
Lemma alltraps_csrs cpu m ins :
  good m → length (c_x cpu) = 32%nat → (∀ c, fits 64 (get_csr cpu c)) →
  c_satp cpu = MemorySet_token us → reg cpu sp = TRAP_CONTEXT_BASE →
  ∃ cpu' m', go ([Csrr t0 Sstatus; Csrr t1 Sepc; Sd t0 (8 * 32) sp; Sd t1 (8 * 33) sp; Csrr t2 Sscratch; Sd t2 (8 * 2) sp] ++ ins) cpu m =
      go ins cpu' m' ∧ good m' ∧ length (c_x cpu') = 32%nat ∧ same_csrs cpu cpu' ∧ reg cpu' sp = TRAP_CONTEXT_BASE ∧
    W m' 32 = c_sstatus cpu ∧ W m' 33 = c_sepc cpu ∧ W m' 2 = c_sscratch cpu ∧ ∀ i, i ≠ 2 → i ≠ 32 → i ≠ 33 → W m' i = W m i.
Proof using All.
  intros Hg Hl Hfit Hs Hsp. cbn [app]. rewrite run_user by done. cbn [exec mret res_ret get_csr].
  rewrite run_user by done. cbn [exec mret res_ret get_csr]. set (cpu1 := set_reg (set_reg cpu t0 _) t1 _).
  assert (reg cpu1 t0 = c_sstatus cpu) as R0 by (unfold cpu1; rewrite (reg_set_ne _ t1 t0) by done; apply reg_set_eq; lia).
  assert (reg cpu1 t1 = c_sepc cpu) as R1 by (unfold cpu1; apply reg_set_eq; rewrite length_set_reg; lia).
  assert (reg cpu1 sp = TRAP_CONTEXT_BASE) as Hsp1 by (unfold cpu1; by rewrite !reg_set_ne).
  rewrite run_sd by (done || lia). rewrite R0. set (m2 := set_W m 32 _). assert (good m2) as Hg2 by (apply good_set; [done|lia]).
  rewrite run_sd by (done || lia). rewrite R1. set (m3 := set_W m2 33 _). assert (good m3) as Hg3 by (apply good_set; [done|lia]).
  rewrite run_user by done. cbn [exec mret res_ret get_csr]. set (cpu2 := set_reg cpu1 t2 _).
  assert (reg cpu2 t2 = c_sscratch cpu) as R2 by (unfold cpu2; apply reg_set_eq; unfold cpu1; rewrite !length_set_reg; lia).
  assert (reg cpu2 sp = TRAP_CONTEXT_BASE) as Hsp2 by (unfold cpu2; by rewrite reg_set_ne).
  rewrite run_sd by (done || lia). rewrite R2. set (m4 := set_W m3 2 _).
  exists cpu2, m4. split; [done|]. split; [apply good_set; [done|lia]|].
  split; [unfold cpu2, cpu1; by rewrite !length_set_reg|]. split; [by intros []|]. split; [done|].
  unfold m4, m3, m2. rewrite (W_set_ne _ 2 32), (W_set_ne _ 33 32), (W_set_ne _ 2 33), !W_set_eq by (lia || apply (Hfit Sstatus) || apply (Hfit Sepc) || apply (Hfit Sscratch)).
  split; [done|]. split; [done|]. split; [done|]. intros i ???. by rewrite !W_set_ne by lia.
Qed.

Lemma saves_list n : n ∈ ([1; 3]%nat ++ seq 5 27) ↔ saved_reg n ∧ n ≠ sp.
Proof.
  rewrite elem_of_app, elem_of_seq, !elem_of_cons, elem_of_nil. unfold saved_reg. lia.
Qed.

Lemma alltraps_run cpu m :
  good m → length (c_x cpu) = 32%nat → (∀ n, fits 64 (reg cpu n)) → (∀ c, fits 64 (get_csr cpu c)) →
  c_satp cpu = MemorySet_token us → c_sscratch cpu = TRAP_CONTEXT_BASE → W m 34 = MemorySet_token ksp →
  ∃ cpu' m', go alltraps cpu m = Ok (cpu', m') ∧ good m' ∧
    (∀ n, saved_reg n → W m' (Z.of_nat n) = reg cpu n) ∧
    W m' 32 = c_sstatus cpu ∧ W m' 33 = c_sepc cpu ∧ (∀ i, 34 ≤ i → W m' i = W m i) ∧
    c_satp cpu' = MemorySet_token ksp ∧ reg cpu' sp = W m 35 ∧ c_pc cpu' = W m 36 ∧ c_sscratch cpu' = reg cpu sp ∧
    c_stvec cpu' = c_stvec cpu.
Proof using All.
  intros Hg Hl Hfit Hcfit Hsatp Hscr H34.
  change alltraps with (Csrrw sp Sscratch sp :: (SAVE_GP <$> [1; 3]%nat ++ seq 5 27) ++
    [Csrr t0 Sstatus; Csrr t1 Sepc; Sd t0 (8 * 32) sp; Sd t1 (8 * 33) sp; Csrr t2 Sscratch; Sd t2 (8 * 2) sp] ++
    [Ld t0 (8 * 34) sp; Ld t1 (8 * 36) sp; Ld sp (8 * 35) sp; Csrw Satp t0; SfenceVma; Jr t1]).
  rewrite run_user by done. cbn [exec mret res_ret get_csr]. rewrite Hscr.
  set (cpu1 := set_reg (set_csr cpu Sscratch (reg cpu sp)) sp TRAP_CONTEXT_BASE).
  assert (∀ n, n ≠ sp → reg cpu1 n = reg cpu n) as Hreg1 by (intros n Hn; unfold cpu1; by rewrite reg_set_ne).
  assert (reg cpu1 sp = TRAP_CONTEXT_BASE) as Hsp1 by (unfold cpu1; apply reg_set_eq; cbn; lia).
  assert (length (c_x cpu1) = 32%nat) as Hl1 by (unfold cpu1; by rewrite length_set_reg).
  destruct (run_saves ([1; 3]%nat ++ seq 5 27) cpu1 Hsatp Hsp1) with (m := m) as (m1 & Hrun1 & Hg1 & HW1).
  { intros n. destruct (decide (n = sp)) as [->|Hn]; [rewrite Hsp1; by compute|by rewrite Hreg1]. }
  { apply Forall_forall. intros n [[Hn _] _]%saves_list. lia. }
  { done. }
  rewrite Hrun1. destruct (alltraps_csrs cpu1 m1 [Ld t0 (8 * 34) sp; Ld t1 (8 * 36) sp; Ld sp (8 * 35) sp; Csrw Satp t0; SfenceVma; Jr t1])
    as (cpu2 & m2 & -> & Hg2 & Hl2 & Hcs2 & Hsp2 & H32 & H33 & H2 & Hoth); [done|done| |done|done|].
  { intros []; [apply Hfit|apply (Hcfit Sstatus)|apply (Hcfit Sepc)|apply (Hcfit Satp)|apply (Hcfit Stvec)|apply (Hcfit Sie)]. }
  assert (∀ i, 34 ≤ i → W m2 i = W m i) as Hhigh.
  { intros i Hi. rewrite Hoth by lia. specialize (HW1 (Z.to_nat i)). rewrite Z2Nat.id in HW1 by lia.
    rewrite HW1, decide_False; [done|]. intros [[Hn _] _]%saves_list. lia. }
  destruct (alltraps_leave cpu2 m2 Hg2 Hl2) as (cpu3 & Hrun3 & Hs3 & Hsp3 & Hpc3 & Hscr3 & Hstv3);
    [exact (eq_trans (Hcs2 Satp) Hsatp)|done|by rewrite Hhigh|].
  exists cpu3, m2. rewrite !Hhigh in * by lia. split; [done|]. split; [done|]. split; [|].
  - intros n Hn. destruct (decide (n = sp)) as [->|Hne]; [exact H2|]. rewrite Hoth by (unfold saved_reg in Hn; lia).
    rewrite HW1, decide_True by by apply saves_list. by apply Hreg1.
  - do 6 (split; [done|]). split; [exact (eq_trans Hscr3 (Hcs2 Sscratch))|exact (eq_trans Hstv3 (Hcs2 Stvec))].
Qed.

(** The start of [__restore]: into the program's address space, and the status registers. *)
Lemma restore_enter cpu m ins :
  good m → length (c_x cpu) = 32%nat → c_satp cpu = MemorySet_token ksp → reg cpu a0 = TRAP_CONTEXT_BASE →
  reg cpu a1 = MemorySet_token us →
  ∃ cpu', go ([Csrw Satp a1; SfenceVma; Csrw Sscratch a0; Mv sp a0; Ld t0 (8 * 32) sp; Ld t1 (8 * 33) sp; Csrw Sstatus t0; Csrw Sepc t1] ++ ins)
      cpu m = go ins cpu' m ∧ length (c_x cpu') = 32%nat ∧ c_satp cpu' = MemorySet_token us ∧ c_sscratch cpu' = TRAP_CONTEXT_BASE ∧
    c_sstatus cpu' = W m 32 ∧ c_sepc cpu' = W m 33 ∧ c_stvec cpu' = c_stvec cpu ∧ reg cpu' sp = TRAP_CONTEXT_BASE.
Proof using All.
  intros Hg Hl Hs Ha0 Ha1. cbn [app].
  rewrite run_fetch by (apply trampoline_fetch; [done|by right]). cbn [exec mret res_ret]. rewrite Ha1.
  set (cpu1 := set_csr cpu Satp (MemorySet_token us)). rewrite run_user by done. cbn [exec mret res_ret].
  rewrite run_user by done. cbn [exec mret res_ret]. change (reg cpu1 a0) with (reg cpu a0). rewrite Ha0.
  set (cpu2 := set_csr cpu1 Sscratch TRAP_CONTEXT_BASE). rewrite run_user by done. cbn [exec mret res_ret].
  change (reg cpu2 a0) with (reg cpu a0). rewrite Ha0. set (cpu3 := set_reg cpu2 sp TRAP_CONTEXT_BASE).
  assert (reg cpu3 sp = TRAP_CONTEXT_BASE) as Hsp3 by (unfold cpu3; apply reg_set_eq; cbn; lia).
  assert (length (c_x cpu3) = 32%nat) as Hl3 by (unfold cpu3; by rewrite length_set_reg).
  rewrite run_ld by (done || lia). rewrite run_ld by (done || lia || by rewrite reg_set_ne). set (cpu4 := set_reg (set_reg cpu3 t0 _) t1 _).
  assert (reg cpu4 t0 = W m 32) as R0 by (unfold cpu4; rewrite (reg_set_ne _ t1 t0) by done; apply reg_set_eq; lia).
  assert (reg cpu4 t1 = W m 33) as R1 by (unfold cpu4; apply reg_set_eq; rewrite length_set_reg; lia).
  rewrite run_user by done. cbn [exec mret res_ret]. rewrite run_user by done. cbn [exec mret res_ret].
  eexists. split; [reflexivity|]. split; [unfold cpu4; cbn [set_csr c_x]; by rewrite !length_set_reg|].
  do 2 (split; [done|]). split; [exact R0|]. split; [exact R1|]. split; [done|].
  change (reg cpu4 sp = TRAP_CONTEXT_BASE). unfold cpu4. by rewrite !reg_set_ne.
Qed.

Lemma restore_run cpu m :
  good m → length (c_x cpu) = 32%nat → c_satp cpu = MemorySet_token ksp → reg cpu a0 = TRAP_CONTEXT_BASE →
  reg cpu a1 = MemorySet_token us →
  ∃ cpu', go restore cpu m = Ok (cpu', m) ∧ length (c_x cpu') = 32%nat ∧
    (∀ n, saved_reg n → reg cpu' n = W m (Z.of_nat n)) ∧ c_sstatus cpu' = W m 32 ∧ c_pc cpu' = W m 33 ∧ c_sepc cpu' = W m 33 ∧
    c_satp cpu' = MemorySet_token us ∧ c_sscratch cpu' = TRAP_CONTEXT_BASE ∧ c_stvec cpu' = c_stvec cpu.
Proof using All.
  intros Hg Hl Hs Ha0 Ha1.
  change restore with ([Csrw Satp a1; SfenceVma; Csrw Sscratch a0; Mv sp a0; Ld t0 (8 * 32) sp; Ld t1 (8 * 33) sp; Csrw Sstatus t0; Csrw Sepc t1] ++
    ((LOAD_GP <$> [1; 3]%nat ++ seq 5 27) ++ [Ld sp (8 * 2) sp; Sret])).
  destruct (restore_enter cpu m ((LOAD_GP <$> [1; 3]%nat ++ seq 5 27) ++ [Ld sp (8 * 2) sp; Sret]))
    as (cpu1 & -> & Hl1 & Hs1 & Hscr1 & Hst1 & Hse1 & Htv1 & Hsp1); [done..|].
  destruct (run_loads m ([1; 3]%nat ++ seq 5 27) Hg) with (cpu := cpu1) as (cpu2 & Hrun2 & Hcs2 & Hl2 & HW2).
  { apply Forall_forall. intros n [[Hn _] _]%saves_list. lia. }
  { intros [_ Hn]%saves_list. done. }
  { done. }
  { done. }
  { done. }
  assert (reg cpu2 sp = TRAP_CONTEXT_BASE) as Hsp2 by (rewrite HW2, decide_False; [done|intros [_ Hn]%saves_list; done]).
  pose proof (eq_trans (Hcs2 Satp) Hs1 : c_satp cpu2 = _) as Hs2.
  rewrite Hrun2, run_ld by (done || lia). rewrite run_user by done. cbn [exec mret res_ret run].
  eexists. split; [reflexivity|]. cbn [set_pc c_x c_sstatus c_pc c_sepc c_satp c_sscratch c_stvec set_reg].
  rewrite (Hcs2 Sstatus : c_sstatus cpu2 = c_sstatus cpu1), (Hcs2 Sepc : c_sepc cpu2 = c_sepc cpu1), (Hcs2 Sscratch : c_sscratch cpu2 = c_sscratch cpu1),
    (Hcs2 Stvec : c_stvec cpu2 = c_stvec cpu1). split; [by rewrite length_insert|]. split; [|done].
  intros n Hn. change (reg (set_reg cpu2 sp (W m 2)) n = W m (Z.of_nat n)). destruct (decide (n = sp)) as [->|Hne].
  - by apply reg_set_eq; lia.
  - rewrite reg_set_ne by done. by rewrite HW2, decide_True by by apply saves_list.
Qed.
End Trap.

(** ** Switching *)

(** The registers a task context keeps, in the order of its words. *)
Definition cs_reg (i : nat) : nat := match i with O => ra | 1%nat => sp | S (S n) => s_reg n end.

Lemma cs_reg_inj i j : (i < 14)%nat → (j < 14)%nat → cs_reg i = cs_reg j → i = j.
Proof.
  intros Hi Hj. destruct i as [|[|i]], j as [|[|j]]; cbn [cs_reg]; unfold s_reg; repeat case_decide; lia.
Qed.
Lemma cs_reg_range i : (i < 14)%nat → (cs_reg i < 32)%nat ∧ cs_reg i ≠ a0 ∧ cs_reg i ≠ a1.
Proof. intros Hi. destruct i as [|[|i]]; cbn [cs_reg]; unfold s_reg; repeat case_decide; lia. Qed.

Section Switch.
Context (l r : Z) (s : MM) (ks : KernelSymbols) (ksp : MemorySet) (σ0 σ : page_map) (code cur nxt : Z).
Context (Hk : ms_inv l r s ksp σ0 σ) (Hks : symbols_ok ks) (Hl : ekernel ks ≤ 4096 * l).
Context (Hσ : ∀ v, 0 ≤ vpn_0 v < 0x88000 → σ !! v = kernel_entry ks v).
Context (Hcode : stext ks ≤ code < etext ks).
Context (Hcur : sbss_with_stack ks ≤ cur ∧ cur + 112 ≤ ebss ks ∧ cur mod 8 = 0).
Context (Hnxt : sbss_with_stack ks ≤ nxt ∧ nxt + 112 ≤ ebss ks ∧ nxt mod 8 = 0).

(** The memory differs at most on the context of the task that is left. *)
Definition kgood (m : memory) : Prop := mem_wf m ∧ ∀ y, ¬ (cur ≤ y < cur + 112) → read_u8 m y = read_u8 (mm_mem s) y.

Lemma kgood_views m v : kgood m → 0 ≤ vpn_0 v < 0x88000 → pt_view m (PageTable_from_token (MemorySet_token ksp)) v = kernel_entry ks v.
Proof using All.
  intros [Hwf Hm] Hv. assert (mm_step l r s (MkMM m (mm_fa s)) [] (seqZ (cur / 4096) ((cur + 111) / 4096 - cur / 4096 + 1))) as Hst.
  { apply mm_write_step; [by eapply ms_inv_fa|done|]. intros y Hy. apply Hm. intros Hin. apply Hy, elem_of_seqZ. lia. }
  assert (ms_inv l r (MkMM m (mm_fa s)) ksp σ0 σ) as Hk'.
  { eapply ms_inv_frame; [done|done|]. intros x Hx Hin%elem_of_seqZ.
    destruct (mi_live _ _ _ _ _ _ Hk x) as [Hlx _]; [apply elem_of_app; by left|]. destruct Hks as [_ Ho Hal].
    assert (cur + 112 ≤ 4096 * l) by lia. assert ((cur + 111) / 4096 < l) by lia. lia. }
  destruct (mi_pt _ _ _ _ _ _ Hk') as [Wk Vk]. unfold MemorySet_token.
  rewrite pt_view_token by by eapply (pt_wf_root l r). cbn [mm_mem] in Vk. rewrite Vk by (unfold vpn_ok; lia). by apply Hσ.
Qed.

Lemma region_mmu m g acc x : kgood m → g ∈ kernel_regions ks → rg_start g ≤ x < rg_end g →
  access_ok acc (identical_entry (rg_perm g) (MkVirtPageNum (x / 4096))) = true → mmu m (MemorySet_token ksp) acc x = Ok x.
Proof using All.
  intros Hg Hin Hx Hacc. destruct (kernel_regions_ok ks Hks) as (Hok & _ & _).
  destruct (proj1 (Forall_forall _ _) Hok g Hin) as (Hse & He & Ha & Hb & Hp).
  set (v := MkVirtPageNum (x / 4096)) in *. assert (v ∈ region_pages g) as Hv by (apply elem_region_pages; unfold v; cbn [vpn_0]; lia).
  pose proof (kernel_region_low ks v g Hks Hin Hv) as Hlow. unfold mmu. rewrite decide_True by lia.
  rewrite VirtAddr_from_low by lia. change (VirtAddr_floor (MkVirtAddr x)) with v. rewrite kgood_views by done.
  unfold kernel_entry. rewrite (kernel_region_perm ks g v Hks Hin Hv), Hacc.
  destruct (identical_entry_fields (rg_perm g) v Hp ltac:(lia)) as [-> _]. unfold v. cbn. f_equal. lia.
Qed.

Lemma identical_access p v acc : perm_ok p → 0 ≤ vpn_0 v < 2 ^ 44 →
  access_ok acc (identical_entry p v) =
    bool_decide (Z.land (Z.lor p PTEFlags_V) PTEFlags_U = 0) &&
    match acc with
    | Fetch => negb (bool_decide (Z.land (Z.lor p PTEFlags_V) PTEFlags_X = 0))
    | Load => negb (bool_decide (Z.land (Z.lor p PTEFlags_V) PTEFlags_R = 0))
    | Store => negb (bool_decide (Z.land (Z.lor p PTEFlags_V) PTEFlags_W = 0))
    end.
Proof.
  intros Hp Hv. destruct (identical_entry_fields p v Hp Hv) as [_ Hf].
  unfold access_ok, PageTableEntry_executable, PageTableEntry_readable, PageTableEntry_writable. by rewrite Hf.
Qed.

Lemma code_fetch m : kgood m → mmu m (MemorySet_token ksp) Fetch code = Ok code.
Proof using All.
  intros Hg. eapply (region_mmu m (MkRegion (stext ks) (etext ks) (Z.lor MapPermission_R MapPermission_X)));
    [done|apply list_elem_of_here|done|]. rewrite identical_access; [done|by compute|]. cbn. destruct Hks. unfold MEMORY_END in *. lia.
Qed.

Lemma data_mmu m acc x : kgood m → acc ≠ Fetch → sbss_with_stack ks ≤ x < ebss ks → x mod 8 = 0 →
  mmu8 m (MemorySet_token ksp) acc x = Ok x.
Proof using All.
  intros Hg Hacc Hx H8. unfold mmu8. rewrite decide_True by done.
  eapply (region_mmu m (MkRegion (sbss_with_stack ks) (ebss ks) (Z.lor MapPermission_R MapPermission_W)));
    [done|do 3 apply list_elem_of_further; apply list_elem_of_here|done|].
  rewrite identical_access; [by destruct acc|by compute|]. cbn. destruct Hks. unfold MEMORY_END in *. lia.
Qed.

Abbreviation kgo := (run code code).
Abbreviation C m b i := (read_u64 m (b + 8 * i)).

Lemma kgood_set m i v : kgood m → 0 ≤ i < 14 → kgood (write_u64 m (cur + 8 * i) v).
Proof using All.
  intros [Hwf Hm] Hi. split; [by apply write_u64_wf|]. intros y Hy. unfold write_u64. rewrite read_u8_write_bytes_out; [by apply Hm|].
  rewrite length_le_bytes. lia.
Qed.

Lemma ctx_bounds : 0x80200000 ≤ sbss_with_stack ks ∧ ebss ks ≤ 0x88000000.
Proof using All. destruct Hks. unfold MEMORY_END in *. lia. Qed.

Section KUser.
Context (cpu : Cpu) (m : memory) (Hg : kgood m) (Hsatp : c_satp cpu = MemorySet_token ksp).

Lemma run_kernel i ins : kgo (i :: ins) cpu m = match exec i cpu m with Ok (cpu', m') => kgo ins cpu' m' | Err e => Err e end.
Proof using All. apply run_fetch. rewrite Hsatp. by apply code_fetch. Qed.

Lemma run_save rs i ins : reg cpu a0 = cur → 0 ≤ i < 14 →
  kgo (Sd rs (8 * i) a0 :: ins) cpu m = kgo ins cpu (write_u64 m (cur + 8 * i) (reg cpu rs)).
Proof using All.
  intros Ha Hi. rewrite run_kernel. cbn [exec]. pose proof ctx_bounds. rewrite Hsatp, Ha, add_w_small by (unfold fits; lia).
  by rewrite data_mmu by (done || lia).
Qed.

Lemma run_load rd i ins : reg cpu a1 = nxt → 0 ≤ i < 14 →
  kgo (Ld rd (8 * i) a1 :: ins) cpu m = kgo ins (set_reg cpu rd (C m nxt i)) m.
Proof using All.
  intros Ha Hi. rewrite run_kernel. cbn [exec]. pose proof ctx_bounds. rewrite Hsatp, Ha, add_w_small by (unfold fits; lia).
  by rewrite data_mmu by (done || lia).
Qed.
End KUser.

Definition save_word (i : nat) : instr := Sd (cs_reg i) (8 * Z.of_nat i) a0.
Definition load_word (i : nat) : instr := Ld (cs_reg i) (8 * Z.of_nat i) a1.

Lemma run_ksaves is' cpu : c_satp cpu = MemorySet_token ksp → reg cpu a0 = cur → (∀ n, fits 64 (reg cpu n)) →
  Forall (λ i, i < 14)%nat is' → ∀ m, kgood m →
  ∃ m', (∀ ins, kgo ((save_word <$> is') ++ ins) cpu m = kgo ins cpu m') ∧ kgood m' ∧
    ∀ j : nat, C m' cur (Z.of_nat j) = if decide (j ∈ is') then reg cpu (cs_reg j) else C m cur (Z.of_nat j).
Proof using All.
  intros Hs Ha Hfit. induction is' as [|n is' IH]; intros Hns m Hg.
  { exists m. split; [done|]. split; [done|]. intros j. by rewrite decide_False by apply not_elem_of_nil. }
  apply Forall_cons in Hns as [Hn Hns]. destruct (IH Hns (write_u64 m (cur + 8 * Z.of_nat n) (reg cpu (cs_reg n)))) as (m' & Hrun & Hg' & HW);
    [apply kgood_set; [done|lia]|].
  exists m'. split; [|split; [done|]].
  - intros ins. cbn [fmap list_fmap app]. unfold save_word at 1. rewrite run_save by (done || lia). apply Hrun.
  - intros j. rewrite HW. destruct (decide (j ∈ is')) as [Hj|Hj]; [by rewrite decide_True by (by apply list_elem_of_further)|].
    destruct (decide (j = n)) as [->|Hne].
    + rewrite decide_True by apply list_elem_of_here. by apply read_u64_write_eq.
    + rewrite decide_False by set_solver. apply read_u64_write_out. lia.
Qed.

Lemma run_kloads m is' : kgood m → Forall (λ i, i < 14)%nat is' → NoDup is' → ∀ cpu, length (c_x cpu) = 32%nat →
  c_satp cpu = MemorySet_token ksp → reg cpu a1 = nxt →
  ∃ cpu', (∀ ins, kgo ((load_word <$> is') ++ ins) cpu m = kgo ins cpu' m) ∧ same_csrs cpu cpu' ∧ length (c_x cpu') = 32%nat ∧
    (∀ i, i ∈ is' → reg cpu' (cs_reg i) = C m nxt (Z.of_nat i)) ∧
    ∀ n, (∀ i, i ∈ is' → n ≠ cs_reg i) → reg cpu' n = reg cpu n.
Proof using All.
  intros Hg. induction is' as [|n is' IH]; intros Hns Hnd cpu Hlen Hs Ha.
  { exists cpu. split; [done|]. split; [done|]. split; [done|]. split; [by intros i ?%not_elem_of_nil|done]. }
  apply Forall_cons in Hns as [Hn Hns]. apply NoDup_cons in Hnd as [Hnin Hnd]. destruct (cs_reg_range n Hn) as (Hr & _ & Hra1).
  destruct (IH Hns Hnd (set_reg cpu (cs_reg n) (C m nxt (Z.of_nat n)))) as (cpu' & Hrun & Hcs & Hl' & HW & Ho);
    [by rewrite length_set_reg|done|by rewrite reg_set_ne|].
  exists cpu'. split; [|split; [|split; [done|split]]].
  - intros ins. cbn [fmap list_fmap app]. unfold load_word at 1. rewrite run_load by (done || lia). apply Hrun.
  - intros c. rewrite Hcs. by destruct c.
  - intros i [->|Hi]%elem_of_cons; [|by apply HW]. rewrite Ho; [by apply reg_set_eq; lia|].
    intros j Hj E. apply Hnin. rewrite Forall_forall in Hns. by rewrite (cs_reg_inj n j Hn (Hns j Hj) E).
  - intros j Hj. rewrite Ho by (intros i Hi; apply Hj; by apply list_elem_of_further).
    apply reg_set_ne. intros E. apply (Hj n (list_elem_of_here _ _)). done.
Qed.

Lemma switch_run cpu m :
  kgood m → cur + 112 ≤ nxt ∨ nxt + 112 ≤ cur → length (c_x cpu) = 32%nat → (∀ n, fits 64 (reg cpu n)) →
  c_satp cpu = MemorySet_token ksp → reg cpu a0 = cur → reg cpu a1 = nxt →
  ∃ cpu' m', kgo switch cpu m = Ok (cpu', m') ∧ kgood m' ∧ same_csrs cpu cpu' ∧ length (c_x cpu') = 32%nat ∧
    (∀ i, (i < 14)%nat → C m' cur (Z.of_nat i) = reg cpu (cs_reg i)) ∧
    (∀ i, (i < 14)%nat → reg cpu' (cs_reg i) = C m nxt (Z.of_nat i)) ∧ c_pc cpu' = C m nxt 0 ∧
    (∀ n, (∀ i, (i < 14)%nat → n ≠ cs_reg i) → reg cpu' n = reg cpu n).
Proof using All.
  intros Hg Hdis Hlen Hfit Hs Ha0 Ha1.
  change switch with ((save_word <$> [1; 0]%nat ++ seq 2 12) ++ (load_word <$> [0]%nat ++ seq 2 12 ++ [1]%nat) ++ [Jr ra]).
  assert (∀ i, i ∈ [1; 0]%nat ++ seq 2 12 ↔ (i < 14)%nat) as E1 by (intros i; rewrite elem_of_app, elem_of_seq, !elem_of_cons, elem_of_nil; lia).
  assert (∀ i, i ∈ [0]%nat ++ seq 2 12 ++ [1]%nat ↔ (i < 14)%nat) as E2 by (intros i; rewrite !elem_of_app, elem_of_seq, !elem_of_cons, elem_of_nil; lia).
  destruct (run_ksaves ([1; 0]%nat ++ seq 2 12) cpu Hs Ha0 Hfit) with (m := m) as (m1 & Hrun1 & Hg1 & HW1); [|done|].
  { apply Forall_forall. intros i. by rewrite E1. }
  destruct (run_kloads m1 ([0]%nat ++ seq 2 12 ++ [1]%nat) Hg1) with (cpu := cpu) as (cpu2 & Hrun2 & Hcs2 & Hl2 & HW2 & Ho2); [| |done|done|done|].
  { apply Forall_forall. intros i. by rewrite E2. }
  { apply (bool_decide_unpack _). vm_compute. exact I. }
  rewrite Hrun1, Hrun2. pose proof (eq_trans (Hcs2 Satp) Hs : c_satp cpu2 = _) as Hs2. rewrite run_kernel by done. cbn [exec mret res_ret run].
  assert (∀ i, (i < 14)%nat → C m1 nxt (Z.of_nat i) = C m nxt (Z.of_nat i)) as Hsame.
  { intros i Hi. apply read_u64_ext. intros y Hy. destruct Hg as [_ Hm], Hg1 as [_ Hm1]. rewrite Hm1, Hm by lia. done. }
  eexists _, m1. split; [reflexivity|]. split; [done|]. split; [intros c; rewrite <- (Hcs2 c); by destruct c|]. split; [done|].
  split; [intros i Hi; by rewrite HW1, decide_True by by apply E1|].
  assert (∀ i, (i < 14)%nat → reg cpu2 (cs_reg i) = C m nxt (Z.of_nat i)) as Hld by (intros i Hi; rewrite HW2 by (by apply E2); by apply Hsame).
  split; [exact Hld|]. split; [exact (Hld 0%nat ltac:(lia))|]. intros n Hn. apply Ho2. intros i Hi%E2. by apply Hn.
Qed.
End Switch.
