(* ===== verification/MachineSpec.v ===== *)
(** What the assembly of [Machine] does for the kernel around it: a program that traps is
    in the kernel with its registers in its trap context, [trap_return]
    ([os/src/trap/mod.rs]) takes it back, and [__switch] exchanges task contexts
    ([os/src/task/context.rs]). *)

From S2P Require Import Prelude Config Address Allocator FrameAllocator PhysMem PageTable PageTableSpec MemorySet MemorySetSpec AddressSpace ElfLoad KernelSpace.
From S2P Require Import BlockAccess Kernel Machine.

Ltac Zify.zify_post_hook ::= Z.to_euclidean_division_equations.

(** * Trap entry and return in [os/src/trap/mod.rs] *)

(** [stvec::write(trap_from_kernel as usize, TrapMode::Direct)] *)
Definition set_kernel_trap_entry (trap_from_kernel : Z) (cpu : Cpu) : Cpu := set_csr cpu Stvec trap_from_kernel.
Definition set_user_trap_entry (cpu : Cpu) : Cpu := set_csr cpu Stvec TRAMPOLINE.
(** [trap::init] *)
Definition trap_init (trap_from_kernel : Z) (cpu : Cpu) : Cpu := set_kernel_trap_entry trap_from_kernel cpu.
(** [sie::set_stimer()] *)
Definition enable_timer_interrupt (cpu : Cpu) : Cpu := set_csr cpu Sie (Z.lor (c_sie cpu) (Z.shiftl 1 5)).

(** [trap_return] with the addresses of [__alltraps] and [__restore]: the processor at the
    first instruction of [__restore] in the trampoline page. *)
Definition trap_return (alltraps_addr restore_addr user_satp : Z) (cpu : Cpu) : Cpu :=
  let cpu := set_user_trap_entry cpu in
  let trap_cx_ptr := TRAP_CONTEXT_BASE in
  let restore_va := add_w 64 (sub_w 64 restore_addr alltraps_addr) TRAMPOLINE in
  set_pc (set_reg (set_reg cpu a0 trap_cx_ptr) a1 user_satp) restore_va.

(** * Task contexts in memory *)

(** [#[repr(C)]]: [ra], [sp], [s0] to [s11]. *)
Definition context_at (m : memory) (p : Z) : TaskContext :=
  MkTaskContext (read_u64 m p) (read_u64 m (p + 8)) ((λ n, read_u64 m (p + 8 * (Z.of_nat n + 2))) <$> seq 0 12).
Definition cpu_context (cpu : Cpu) : TaskContext :=
  MkTaskContext (reg cpu ra) (reg cpu sp) ((λ n, reg cpu (s_reg n)) <$> seq 0 12).

(** * Switching tasks *)

(** The call [__switch(current_task_cx_ptr, next_task_cx_ptr)] of the routine at [code]. *)
Definition switch_call (code current_task_cx_ptr next_task_cx_ptr : Z) (cpu : Cpu) (m : memory) : res (Cpu * memory) :=
  run code code switch (set_reg (set_reg cpu a0 current_task_cx_ptr) a1 next_task_cx_ptr) m.
Definition schedule (code idle_task_cx_ptr switched_task_cx_ptr : Z) (cpu : Cpu) (m : memory) : res (Cpu * memory) :=
  switch_call code switched_task_cx_ptr idle_task_cx_ptr cpu m.

(** * When the routines apply *)

(** A program's space [us] and the kernel's space [ksp], both with the trampoline; the trap
    context of the program is in the frame [f], all areas of the program have frames of
    their own; the two spaces share no frame. *)
Record trap_ready (l r : Z) (s : MM) (ks : KernelSymbols) (us ksp : MemorySet) (f : FrameTracker) : Prop := {
  tr_user : ∃ σ0 σ, ms_inv l r s us σ0 σ ∧ σ !! trampoline_vpn = Some (trampoline_entry ks) ∧
    is_Some (σ0 !! trampoline_vpn) ∧ Forall (λ a, ma_map_type a = Framed) (ms_areas us);
  tr_kernel : ∃ σ0 σ, ms_inv l r s ksp σ0 σ ∧ σ !! trampoline_vpn = Some (trampoline_entry ks);
  tr_context : ∃ a, a ∈ ms_areas us ∧ ma_map_type a = Framed ∧ ma_map_perm a = 0x6 ∧ trap_page ∈ area_vpns a ∧
    ma_data_frames a !! trap_page = Some f;
  tr_apart : ∀ x, x ∈ ms_frames us → x ∉ ms_frames ksp;
  tr_symbols : strampoline_ok ks
}.

(** A processor whose registers hold 64-bit values. *)
Record cpu_wf (cpu : Cpu) : Prop := {
  cw_len : length (c_x cpu) = 32%nat;
  cw_regs : ∀ n, fits 64 (reg cpu n);
  cw_csrs : ∀ c, fits 64 (get_csr cpu c)
}.

(** The kernel's space: the sections of the kernel are mapped to themselves. *)
Record kernel_ready (l r : Z) (s : MM) (ks : KernelSymbols) (ksp : MemorySet) : Prop := {
  kr_space : ∃ σ0 σ, ms_inv l r s ksp σ0 σ ∧ ∀ v, 0 ≤ vpn_0 v < 0x88000 → σ !! v = kernel_entry ks v;
  kr_symbols : symbols_ok ks;
  kr_low : ekernel ks ≤ 4096 * l
}.

(** Task contexts are in the [.bss] section, where the kernel's heap and its statics are. *)
Definition context_ok (ks : KernelSymbols) (p : Z) : Prop :=
  sbss_with_stack ks ≤ p ∧ p + 112 ≤ ebss ks ∧ p mod 8 = 0.

(** * Lemmas *)

Lemma cx_word_eq m f i : 0 ≤ frame_num f < 2 ^ 44 → cx_word m (ft_ppn f) i = read_u64 m (frame_num f * 4096 + 8 * i).
Proof. intros Hf. unfold cx_word. by rewrite page_addr_eq. Qed.

Lemma trap_ready_frame l r s ks us ksp f : trap_ready l r s ks us ksp f → 0 ≤ frame_num f < 2 ^ 44.
Proof.
  intros [(σ0 & σ & Hu & _) _ (a & Ha & Ht & _ & Hv & Hf) _ _].
  destruct (framed_page l r _ _ _ _ _ _ Hu Ha Ht Hv) as (g & Hg & H44 & _). rewrite Hf in Hg. by injection Hg as <-.
Qed.

Lemma trap_frame_elem l r s ks us ksp f : trap_ready l r s ks us ksp f → frame_num f ∈ ms_frames us.
Proof. intros [_ _ (a & Ha & _ & _ & _ & Hf) _ _]. eapply area_frames_ms; [done|]. by eapply area_frames_elem. Qed.

Lemma tables_apart (us ksp : MemorySet) : (∀ x, x ∈ ms_frames us → x ∉ ms_frames ksp) →
  ∀ x, x ∈ ms_frames us → x ∉ frame_nums (frames (ms_page_table ksp)).
Proof. intros H x Hx Hin. apply (H x Hx). apply elem_of_app. by left. Qed.

(** Steps that leave the page tables alone keep the spaces. *)
Lemma trap_ready_step l r s s' ks us ksp f new d : trap_ready l r s ks us ksp f → mm_step l r s s' new d →
  (∀ x, x ∈ d → (x ∉ frame_nums (frames (ms_page_table us))) ∧ (x ∉ frame_nums (frames (ms_page_table ksp)))) →
  trap_ready l r s' ks us ksp f.
Proof.
  intros [(σu0 & σu & Hu & Htu & Hut) (σk0 & σk & Hk & Htk) Hcx Hap Hks] Hst Hd. split; [..|done|done|done].
  - exists σu0, σu. split; [|done]. eapply ms_inv_frame; [done|done|]. intros x Hx Hin. by destruct (Hd x Hin).
  - exists σk0, σk. split; [|done]. eapply ms_inv_frame; [done|done|]. intros x Hx Hin. by destruct (Hd x Hin).
Qed.

Lemma trap_ready_fresh l r s s' ks us ksp f new d : trap_ready l r s ks us ksp f → mm_step l r s s' new d → (∀ x, x ∈ d → x ∈ new) →
  trap_ready l r s' ks us ksp f.
Proof.
  intros Htr Hst Hd. eapply trap_ready_step; [done|done|]. intros x Hx%Hd%(mm_fresh _ _ _ _ _ _ Hst).
  destruct Htr as [(σu0 & σu & Hu & _) (σk0 & σk & Hk & _) _ _ _]. split; intros Hin; apply Hx.
  - apply (mi_live _ _ _ _ _ _ Hu). apply elem_of_app. by left.
  - apply (mi_live _ _ _ _ _ _ Hk). apply elem_of_app. by left.
Qed.

(** Writing a frame that is no page table of the two. *)
Lemma trap_ready_write l r s ks us ksp f x m : trap_ready l r s ks us ksp f →
  x ∉ frame_nums (frames (ms_page_table us)) → x ∉ frame_nums (frames (ms_page_table ksp)) → mem_wf m →
  (∀ y, y / 4096 ≠ x → read_u8 m y = read_u8 (mm_mem s) y) → trap_ready l r (MkMM m (mm_fa s)) ks us ksp f.
Proof.
  intros Htr Hu Hk Hwf Hm. eapply trap_ready_step; [done| |].
  - apply (mm_write_step l r s m [x]); [|done|intros y [Hy _]%not_elem_of_cons; by apply Hm].
    destruct Htr as [(σu0 & σu & Hi & _) _ _ _ _]. by eapply ms_inv_fa.
  - by intros y ->%list_elem_of_singleton.
Qed.

(** In particular the trap context. *)
Lemma trap_frame_table l r s ks us ksp f : trap_ready l r s ks us ksp f →
  (frame_num f ∉ frame_nums (frames (ms_page_table us))) ∧ (frame_num f ∉ frame_nums (frames (ms_page_table ksp))).
Proof.
  intros Htr. split.
  - destruct Htr as [(σu0 & σu & Hu & _) _ (a & Ha & _ & _ & _ & Hf) _ _]. eapply (area_not_pt l r s); [done|done|]. by eapply area_frames_elem.
  - apply (tables_apart us); [apply Htr|by eapply trap_frame_elem].
Qed.

Lemma trap_ready_context l r s ks us ksp f m : trap_ready l r s ks us ksp f → mem_wf m →
  (∀ y, y / 4096 ≠ frame_num f → read_u8 m y = read_u8 (mm_mem s) y) → trap_ready l r (MkMM m (mm_fa s)) ks us ksp f.
Proof. intros Htr. destruct (trap_frame_table _ _ _ _ _ _ _ Htr). by apply trap_ready_write. Qed.

Lemma token_fits l r s ms σ0 σ : ms_inv l r s ms σ0 σ → fits 64 (MemorySet_token ms).
Proof.
  intros Hi. destruct (mi_pt _ _ _ _ _ _ Hi) as [W _]. pose proof (pt_wf_root l r _ _ W) as Hr. unfold root in Hr. unfold MemorySet_token.
  rewrite token_value by done. unfold fits. lia.
Qed.

(** A space is left alone by steps that only write frames they allocate. *)
Lemma ms_inv_fresh l r s s' new d ms σ0 σ : ms_inv l r s ms σ0 σ → mm_step l r s s' new d → (∀ x, x ∈ d → x ∈ new) →
  ms_inv l r s' ms σ0 σ.
Proof.
  intros Hi Hst Hd. eapply ms_inv_frame; [done|done|]. intros x Hx Hin%Hd. apply (mm_fresh _ _ _ _ _ _ Hst x Hin).
  apply (mi_live _ _ _ _ _ _ Hi). apply elem_of_app. by left.
Qed.

(** A program loaded beside the kernel's space. *)
Lemma program_trap_ready l r ks elf_data phs s s' us σu ksp σ0 σ : strampoline_ok ks →
  ms_inv l r s ksp σ0 σ → σ !! trampoline_vpn = Some (trampoline_entry ks) → program_space l r ks elf_data phs s s' us σu →
  ∃ f, trap_ready l r s' ks us ksp f.
Proof.
  intros Hks Hk Htk [Hi _ _ Hall _ _ (a & Ha & Ht & Hp & Hv) _ _ Htr _ (new & d & Hst & Hd & Hfr & _)].
  destruct (framed_page l r _ _ _ _ _ _ Hi Ha Ht Hv) as (f & Hf & _). exists f.
  split; [|exists σ0, σ; split; [by eapply ms_inv_fresh|done]|by exists a| |done].
  { eexists _, σu. split; [done|]. split; [done|]. split; [|done]. by rewrite lookup_singleton_eq. }
  intros x Hx Hin. apply (mm_fresh _ _ _ _ _ _ Hst x (Hfr x Hx)). apply (mi_live _ _ _ _ _ _ Hk). done.
Qed.

Lemma alltraps_ok l r s ks us ksp f cpu : trap_ready l r s ks us ksp f → cpu_wf cpu →
  c_satp cpu = MemorySet_token us → c_sscratch cpu = TRAP_CONTEXT_BASE →
  cx_word (mm_mem s) (ft_ppn f) 34 = MemorySet_token ksp →
  ∃ cpu' m', run TRAMPOLINE (strampoline ks) alltraps cpu (mm_mem s) = Ok (cpu', m') ∧ mem_wf m' ∧
    (∀ y, y / 4096 ≠ frame_num f → read_u8 m' y = read_u8 (mm_mem s) y) ∧
    (∀ n, saved_reg n → cx_word m' (ft_ppn f) (Z.of_nat n) = reg cpu n) ∧
    cx_word m' (ft_ppn f) 32 = c_sstatus cpu ∧ cx_word m' (ft_ppn f) 33 = c_sepc cpu ∧
    (∀ i, 34 ≤ i → cx_word m' (ft_ppn f) i = cx_word (mm_mem s) (ft_ppn f) i) ∧
    c_satp cpu' = MemorySet_token ksp ∧ reg cpu' sp = cx_word (mm_mem s) (ft_ppn f) 35 ∧
    c_pc cpu' = cx_word (mm_mem s) (ft_ppn f) 36.
Proof.
  intros Htr [Hlen Hreg Hcsr] Hsatp Hscr H34. pose proof (trap_ready_frame _ _ _ _ _ _ _ Htr) as H44.
  destruct Htr as [(σu0 & σu & Hu & Htu & Hut) (σk0 & σk & Hk & Htk) (a & Ha & Ht & Hp & Hv & Hf) Hap Hks].
  pose proof (tables_apart _ _ Hap) as Hdis.
  rewrite !cx_word_eq in * by done.
  destruct (alltraps_run l r s ks us ksp σu0 σu σk0 σk a f Hu Hk Hks Ha Ht Hp Hv Hf Htu Htk Hdis cpu (mm_mem s))
    as (cpu' & m' & Hrun & [Hwf Hsame] & Hw & H32 & H33 & Hhi & Hs & Hsp & Hpc & _); [|done..|].
  { by apply (good_self l r s ks us ksp σu0 σu σk0 σk a f). }
  exists cpu', m'. split; [done|]. split; [done|]. split; [done|].
  split; [intros n Hn; rewrite cx_word_eq by done; by apply Hw|]. rewrite !cx_word_eq by done.
  split; [done|]. split; [done|]. split; [|done]. intros i Hi. rewrite !cx_word_eq by done. by apply Hhi.
Qed.

Lemma restore_ok l r s ks us ksp f cpu x y : trap_ready l r s ks us ksp f → length (c_x cpu) = 32%nat →
  c_satp cpu = MemorySet_token ksp →
  ∃ cpu', run TRAMPOLINE (strampoline ks) restore (trap_return x y (MemorySet_token us) cpu) (mm_mem s) = Ok (cpu', mm_mem s) ∧
    length (c_x cpu') = 32%nat ∧ (∀ n, saved_reg n → reg cpu' n = cx_word (mm_mem s) (ft_ppn f) (Z.of_nat n)) ∧
    c_sstatus cpu' = cx_word (mm_mem s) (ft_ppn f) 32 ∧ c_pc cpu' = cx_word (mm_mem s) (ft_ppn f) 33 ∧
    c_satp cpu' = MemorySet_token us ∧ c_sscratch cpu' = TRAP_CONTEXT_BASE ∧ c_stvec cpu' = TRAMPOLINE.
Proof.
  intros Htr Hlen Hsatp. pose proof (trap_ready_frame _ _ _ _ _ _ _ Htr) as H44.
  destruct Htr as [(σu0 & σu & Hu & Htu & Hut) (σk0 & σk & Hk & Htk) (a & Ha & Ht & Hp & Hv & Hf) Hap Hks].
  pose proof (tables_apart _ _ Hap) as Hdis.
  set (cpu0 := trap_return x y (MemorySet_token us) cpu).
  assert (reg cpu0 a0 = TRAP_CONTEXT_BASE ∧ reg cpu0 a1 = MemorySet_token us) as [Ha0 Ha1].
  { unfold cpu0, trap_return. split.
    - change (reg (set_reg (set_reg (set_user_trap_entry cpu) a0 TRAP_CONTEXT_BASE) a1 (MemorySet_token us)) a0 = TRAP_CONTEXT_BASE).
      rewrite reg_set_ne by done. apply reg_set_eq. cbn. lia.
    - change (reg (set_reg (set_reg (set_user_trap_entry cpu) a0 TRAP_CONTEXT_BASE) a1 (MemorySet_token us)) a1 = MemorySet_token us).
      apply reg_set_eq. rewrite length_set_reg. cbn. lia. }
  assert (length (c_x cpu0) = 32%nat) as Hl0 by (unfold cpu0, trap_return; cbn [set_pc c_x]; by rewrite !length_set_reg).
  destruct (restore_run l r s ks us ksp σu0 σu σk0 σk a f Hu Hk Hks Ha Ht Hp Hv Hf Htu Htk Hdis cpu0 (mm_mem s))
    as (cpu' & Hrun & Hl' & Hw & H32 & Hpc & _ & Hs & Hscr & Htv); [|done..|].
  { by apply (good_self l r s ks us ksp σu0 σu σk0 σk a f). }
  exists cpu'. split; [done|]. split; [done|]. split; [intros n Hn; rewrite cx_word_eq by done; by apply Hw|].
  rewrite !cx_word_eq by done. done.
Qed.

Lemma context_at_ext m m' p : (∀ y, p ≤ y < p + 112 → read_u8 m' y = read_u8 m y) → context_at m' p = context_at m p.
Proof.
  intros H. unfold context_at. f_equal; [apply read_u64_ext; intros; apply H; lia..|].
  apply list_fmap_ext. intros i n Hn%lookup_seq. apply read_u64_ext. intros. apply H. lia.
Qed.

Lemma switch_ok l r s ks ksp code cur nxt cpu : kernel_ready l r s ks ksp → stext ks ≤ code < etext ks →
  context_ok ks cur → context_ok ks nxt → cur + 112 ≤ nxt ∨ nxt + 112 ≤ cur →
  cpu_wf cpu → c_satp cpu = MemorySet_token ksp → reg cpu a0 = cur → reg cpu a1 = nxt →
  ∃ cpu' m', run code code switch cpu (mm_mem s) = Ok (cpu', m') ∧ mem_wf m' ∧
    (∀ y, ¬ (cur ≤ y < cur + 112) → read_u8 m' y = read_u8 (mm_mem s) y) ∧
    context_at m' cur = cpu_context cpu ∧ cpu_context cpu' = context_at (mm_mem s) nxt ∧
    c_pc cpu' = cx_ra (context_at (mm_mem s) nxt) ∧ (∀ c, get_csr cpu' c = get_csr cpu c).
Proof.
  intros [(σ0 & σ & Hk & Hσ) Hks Hl] Hcode Hcur Hnxt Hdis [Hlen Hreg Hcsr] Hs Ha0 Ha1.
  destruct (switch_run l r s ks ksp σ0 σ code cur nxt Hk Hks Hl Hσ Hcode Hcur Hnxt cpu (mm_mem s))
    as (cpu' & m' & Hrun & [Hwf Hsame] & Hcs & _ & Hsave & Hload & Hpc & _); [|done..|].
  { split; [|done]. apply (mi_pt _ _ _ _ _ _ Hk). }
  exists cpu', m'. split; [done|]. split; [done|]. split; [done|]. split; [|split; [|split; [|done]]].
  - unfold context_at, cpu_context. f_equal.
    + rewrite <- (Hsave 0%nat ltac:(lia) : _ = reg cpu ra). f_equal. lia.
    + exact (Hsave 1%nat ltac:(lia)).
    + apply list_fmap_ext. intros i n Hn%lookup_seq. rewrite <- (Hsave (S (S n)) ltac:(lia) : _ = reg cpu (s_reg n)). f_equal. lia.
  - unfold context_at, cpu_context. f_equal.
    + rewrite (Hload 0%nat ltac:(lia) : reg cpu' ra = _). f_equal. lia.
    + exact (Hload 1%nat ltac:(lia)).
    + apply list_fmap_ext. intros i n Hn%lookup_seq. rewrite (Hload (S (S n)) ltac:(lia) : reg cpu' (s_reg n) = _). f_equal. lia.
  - rewrite Hpc. cbn [context_at cx_ra]. f_equal. lia.
Qed.

Lemma switch_call_ok l r s ks ksp code cur nxt cpu : kernel_ready l r s ks ksp → stext ks ≤ code < etext ks →
  context_ok ks cur → context_ok ks nxt → cur + 112 ≤ nxt ∨ nxt + 112 ≤ cur → cpu_wf cpu → c_satp cpu = MemorySet_token ksp →
  ∃ cpu' m', switch_call code cur nxt cpu (mm_mem s) = Ok (cpu', m') ∧
    (∀ y, ¬ (cur ≤ y < cur + 112) → read_u8 m' y = read_u8 (mm_mem s) y) ∧
    context_at m' cur = cpu_context cpu ∧ cpu_context cpu' = context_at (mm_mem s) nxt ∧
    c_pc cpu' = cx_ra (context_at (mm_mem s) nxt) ∧ (∀ c, get_csr cpu' c = get_csr cpu c).
Proof.
  intros Hk Hcode Hcur Hnxt Hdis [Hlen Hreg Hcsr] Hs. set (cpu0 := set_reg (set_reg cpu a0 cur) a1 nxt).
  assert (∀ n, n ≠ a0 → n ≠ a1 → reg cpu0 n = reg cpu n) as Hne by (intros n H0 H1; unfold cpu0; by rewrite !reg_set_ne).
  assert (reg cpu0 a0 = cur ∧ reg cpu0 a1 = nxt) as [H0 H1].
  { unfold cpu0. rewrite reg_set_ne, !reg_set_eq by (rewrite ?length_set_reg, ?Hlen; lia). done. }
  assert (∀ p, context_ok ks p → fits 64 p) as Hp.
  { intros p (Hp1 & Hp2 & _). pose proof (kr_symbols _ _ _ _ _ Hk) as Hsy. pose proof (so_order _ Hsy). pose proof (so_stext _ Hsy). unfold fits, MEMORY_END in *. lia. }
  destruct (switch_ok l r s ks ksp code cur nxt cpu0 Hk Hcode Hcur Hnxt Hdis) as (cpu' & m' & Hrun & _ & Hsame & Hsave & Hload & Hpc & Hcs); [|done..|].
  { split; [by unfold cpu0; rewrite !length_set_reg| |intros c; destruct c; [exact (Hcsr Sscratch)|exact (Hcsr Sstatus)|exact (Hcsr Sepc)|exact (Hcsr Satp)|exact (Hcsr Stvec)|exact (Hcsr Sie)]]. intros n.
    destruct (decide (n = a0)) as [->|]; [rewrite H0; auto|]. destruct (decide (n = a1)) as [->|]; [rewrite H1; auto|]. by rewrite Hne. }
  exists cpu', m'. split; [done|]. split; [done|]. split; [|done]. rewrite Hsave. unfold cpu_context.
  rewrite !Hne by lia. f_equal. apply list_fmap_ext. intros i n Hn%lookup_seq. apply Hne; unfold s_reg; case_decide; lia.
Qed.

(** * Properties *)


(** C21: a task that gives up the processor gets it back where it was.  [schedule], called
    with the task's context, stores the callee-saved registers, [sp] and [ra] there, takes
    them from the idle context and continues at that context's [ra]; nothing else in memory
    and no control register changes.  When a later [__switch], in any state of memory, is
    given the task's context with its bytes intact, the task continues with the registers
    it had, at the return address of its own call. *)
Theorem switch_resumes (l r : Z) (s : MM) (ks : KernelSymbols) (ksp : MemorySet) (code task idle : Z) (cpu : Cpu)
    (Hk : kernel_ready l r s ks ksp) (Hcode : stext ks ≤ code < etext ks) (Htask : context_ok ks task) (Hidle : context_ok ks idle)
    (Hdis : task + 112 ≤ idle ∨ idle + 112 ≤ task) (Hcpu : cpu_wf cpu) (Hsatp : c_satp cpu = MemorySet_token ksp) :
  ∃ cpu1 m1, schedule code idle task cpu (mm_mem s) = Ok (cpu1, m1) ∧
    cpu_context cpu1 = context_at (mm_mem s) idle ∧ c_pc cpu1 = cx_ra (context_at (mm_mem s) idle) ∧
    (∀ c, get_csr cpu1 c = get_csr cpu c) ∧ context_at m1 task = cpu_context cpu ∧
    (∀ y, ¬ (task ≤ y < task + 112) → read_u8 m1 y = read_u8 (mm_mem s) y) ∧
    ∀ s2 ksp2 other cpu2, kernel_ready l r s2 ks ksp2 → context_ok ks other → other + 112 ≤ task ∨ task + 112 ≤ other →
      cpu_wf cpu2 → c_satp cpu2 = MemorySet_token ksp2 → (∀ y, task ≤ y < task + 112 → read_u8 (mm_mem s2) y = read_u8 m1 y) →
      ∃ cpu3 m3, switch_call code other task cpu2 (mm_mem s2) = Ok (cpu3, m3) ∧ cpu_context cpu3 = cpu_context cpu ∧ c_pc cpu3 = reg cpu ra.
Proof.
  destruct (switch_call_ok _ _ _ _ _ _ _ _ _ Hk Hcode Htask Hidle Hdis Hcpu Hsatp) as (cpu1 & m1 & Hrun & Hsame & Hsave & Hload & Hpc & Hcs).
  exists cpu1, m1. do 6 (split; [done|]). intros s2 ksp2 other cpu2 Hk2 Ho Hdis2 Hcpu2 Hs2 Hkeep.
  destruct (switch_call_ok _ _ _ _ _ _ _ _ _ Hk2 Hcode Ho Htask Hdis2 Hcpu2 Hs2) as (cpu3 & m3 & Hrun3 & _ & _ & Hload3 & Hpc3 & _).
  exists cpu3, m3. assert (context_at (mm_mem s2) task = context_at m1 task) as E by (apply context_at_ext; exact Hkeep).
  rewrite E, Hsave in Hload3, Hpc3. done.
Qed.

(** * Witnesses

    A program is loaded beside the kernel's space and its trap context names the kernel. *)

Lemma demo_kernel_space : ∃ ksp s σ, MemorySet_new_kernel demo_ks demo_mm = Ok (ksp, s) ∧
  ms_inv 0x80300 0x88000 s ksp {[ trampoline_vpn := trampoline_entry demo_ks ]} σ ∧ (∀ v, σ !! v = kernel_entry demo_ks v) ∧
  1000 ≤ sfa_avail (mm_fa s).
Proof.
  assert (sfa_avail (mm_fa demo_mm) = 0x7d00) as Hav by reflexivity.
  destruct (new_kernel_ok 0x80300 0x88000 demo_ks demo_mm demo_mm_ok demo_symbols_ok ltac:(lia)) as (ksp & s & σ & new & d & Hrun & Hi & Hσ & Hst & _ & Hl).
  exists ksp, s, σ. split; [exact Hrun|]. split; [done|]. split; [done|]. rewrite (mm_avail _ _ _ _ _ _ Hst). lia.
Qed.

Lemma demo_trap_ready : ∃ s us ksp f, trap_ready 0x80300 0x88000 s demo_ks us ksp f ∧
  cx_word (mm_mem s) (ft_ppn f) 34 = MemorySet_token ksp.
Proof.
  destruct demo_kernel_space as (ksp & s & σ & _ & Hk & Hσ & Hav).
  assert (3 * len (loads demo_phs ≫= seg_pages) + 12 = 18) as Hlen by (rewrite demo_loads; vm_compute; reflexivity).
  destruct (from_elf_ok 0x80300 0x88000 demo_ks (λ _, Some demo_elf) demo_elf_data demo_elf demo_phs s) as (us & s' & σu & _ & Hps);
    [by destruct (mi_pt _ _ _ _ _ _ Hk) as [(? & ? & _) _]|exact demo_ks_ok|reflexivity|exact demo_elf_ok|lia|].
  destruct (program_trap_ready _ _ _ _ _ _ _ _ _ _ _ _ demo_ks_ok Hk (eq_trans (Hσ _) eq_refl) Hps) as (f & Htr).
  pose proof (trap_ready_frame _ _ _ _ _ _ _ Htr) as H44. set (m := write_u64 (mm_mem s') (frame_num f * 4096 + 8 * 34) (MemorySet_token ksp)).
  exists (MkMM m (mm_fa s')), us, ksp, f. split.
  - apply (trap_ready_context _ _ s'); [done|apply write_u64_wf; apply (mi_pt _ _ _ _ _ _ (ps_inv _ _ _ _ _ _ _ _ _ Hps))|].
    intros y Hy. unfold m, write_u64. rewrite read_u8_write_bytes_out; [done|]. rewrite length_le_bytes. lia.
  - rewrite cx_word_eq by done. apply read_u64_write_eq. by eapply (token_fits 0x80300 0x88000).
Qed.

Definition demo_cpu (xs : list Z) (satp : Z) : Cpu := MkCpu xs TRAP_CONTEXT_BASE 0x20 0x10004 satp TRAMPOLINE 0x20 0.

Lemma demo_cpu_wf xs satp : length xs = 32%nat → Forall (fits 64) xs → fits 64 satp → cpu_wf (demo_cpu xs satp).
Proof.
  intros Hl Hf Hs. split; [done| |intros []; [by compute..|exact Hs|by compute|by compute]].
  intros n. unfold reg. cbn [demo_cpu c_x]. destruct (xs !! n) as [x|] eqn:Hx; [|by compute]. by apply (proj1 (Forall_lookup _ _) Hf n).
Qed.


Lemma demo_kernel_ready : ∃ s ksp, kernel_ready 0x80300 0x88000 s demo_ks ksp ∧ fits 64 (MemorySet_token ksp).
Proof.
  destruct demo_kernel_space as (ksp & s & σ & _ & Hk & Hσ & _). exists s, ksp.
  split; [|by eapply (token_fits 0x80300 0x88000)]. split; [|exact demo_symbols_ok|cbn; lia]. eexists _, σ. by split.
Qed.

Lemma switch_resumes_witness : ∃ s ksp cpu1 m1,
  schedule 0x80201000 0x80240070 0x80240000 (demo_cpu (replicate 32 9) (MemorySet_token ksp)) (mm_mem s) = Ok (cpu1, m1) ∧
  context_at m1 0x80240000 = MkTaskContext 9 9 (replicate 12 9).
Proof.
  destruct demo_kernel_ready as (s & ksp & Hk & Hfit).
  destruct (switch_resumes 0x80300 0x88000 s demo_ks ksp 0x80201000 0x80240000 0x80240070 (demo_cpu (replicate 32 9) (MemorySet_token ksp)) Hk)
    as (cpu1 & m1 & Hrun & _ & _ & _ & Hc & _).
  - cbn. lia.
  - unfold context_ok. cbn. lia.
  - unfold context_ok. cbn. lia.
  - lia.
  - apply demo_cpu_wf; [reflexivity| |exact Hfit]. apply Forall_replicate. by compute.
  - reflexivity.
  - exists s, ksp, cpu1, m1. exact (conj Hrun Hc).
Defined.
