(* ===== verification/OsFile.v ===== *)
(** Files as the kernel offers them to programs ([os/src/fs/inode.rs], [stdio.rs] and the
    [File] trait of [mod.rs]): opening through the root directory, reading and writing
    user buffers at the offset of the open file, and the console. *)

From S2P Require Import Prelude Config Address PhysMem UserMem BlockDev BlockCache BlockAccess Layout Efs Vfs Kernel.

(** * Open flags *)

Definition OpenFlags := Z.
Definition OpenFlags_RDONLY : OpenFlags := 0.
Definition OpenFlags_WRONLY : OpenFlags := Z.shiftl 1 0.
Definition OpenFlags_RDWR : OpenFlags := Z.shiftl 1 1.
Definition OpenFlags_CREATE : OpenFlags := Z.shiftl 1 9.
Definition OpenFlags_TRUNC : OpenFlags := Z.shiftl 1 10.

(** [bitflags]: [from_bits] rejects unknown bits. *)
Definition OpenFlags_from_bits (b : Z) : option OpenFlags :=
  if decide (Z.land b (2 ^ 32 - 1 - 0x603) = 0) then Some b else None.
Definition OpenFlags_is_empty (f : OpenFlags) : bool := bool_decide (f = 0).
Definition OpenFlags_contains (f g : OpenFlags) : bool := bool_decide (Z.land f g = g).

(** (readable, writable) *)
Definition OpenFlags_read_write (f : OpenFlags) : bool * bool :=
  if OpenFlags_is_empty f then (true, false)
  else if OpenFlags_contains f OpenFlags_WRONLY then (false, true)
  else (true, true).

(** What a call does when it does not simply return: [Switched] says that the task was
    taken off the processor. *)
Inductive SysResult := SysRet (v : Z) | Switched.

Section OsFile.
Context {D : Type} `{BlockDevice D}.

(** Methods of [ROOT_INODE] and of inodes of the mounted file system. *)
Definition root_find (name : list Z) : M (Kernel D) (option Inode) :=
  k ← get_state;
  on_fs (Inode_find (k_efs k) (k_root k) name).
Definition root_create (name : list Z) : M (Kernel D) (option Inode) :=
  k ← get_state;
  on_fs (Inode_create (k_efs k) (k_root k) name).
Definition inode_clear (inode : Inode) : M (Kernel D) unit :=
  k ← get_state;
  on_fs (Inode_clear (k_efs k) inode).

(** The initialiser of the lazy static [ROOT_INODE]: the mounted file system and its root. *)
Definition ROOT_INODE : prog (EasyFileSystem * Inode) :=
  efs ← EasyFileSystem_open;
  mret (efs, EasyFileSystem_root_inode efs).

(** The names [list_apps] prints. *)
Definition list_apps : M (Kernel D) (list (list Z)) :=
  k ← get_state;
  on_fs (Inode_ls (k_root k)).

Definition open_file (name : list Z) (flags : OpenFlags) : M (Kernel D) (option Z) :=
  let '(readable, writable) := OpenFlags_read_write flags in
  if OpenFlags_contains flags OpenFlags_CREATE then
    o ← root_find name;
    match o with
    | Some inode =>
        _ ← inode_clear inode;
        f ← Arc_new_file (OSInode_new readable writable inode);
        mret (Some f)
    | None =>
        o ← root_create name;
        match o with
        | Some inode => f ← Arc_new_file (OSInode_new readable writable inode); mret (Some f)
        | None => mret None
        end
    end
  else
    o ← root_find name;
    match o with
    | Some inode =>
        _ ← (if OpenFlags_contains flags OpenFlags_TRUNC then inode_clear inode else mret ());
        f ← Arc_new_file (OSInode_new readable writable inode);
        mret (Some f)
    | None => mret None
    end.

Definition set_offset (f : OSInode) (offset : Z) : OSInode :=
  MkOSInode (os_readable f) (os_writable f) offset (os_inode f).

(** The loop of [read_all]; [buffer] is the 512-byte buffer, [v] what was read so far. *)
Fixpoint read_all_loop (n : nat) (file : Z) (buffer v : list Z) : M (Kernel D) (list Z) :=
  match n with
  | O => lift (Err OutOfFuel)
  | S n' =>
      inner ← get_file file;
      '(len, buffer) ← on_fs (Inode_read_at (os_inode inner) (os_offset inner) buffer);
      if decide (len = 0) then mret v
      else
        _ ← set_file file (set_offset inner (os_offset inner + len)%usize);
        data ← lift (vec_slice buffer 0 len);
        read_all_loop n' file buffer (v ++ data)
  end.

Definition OSInode_read_all (fuel : nat) (file : Z) : M (Kernel D) (list Z) :=
  read_all_loop fuel file (replicate 512 0) [].

(** The bytes of a slice, and storing into it. *)
Definition slice_bytes_of (m : memory) (s : Slice) : list Z := read_bytes m (sl_addr s) (sl_len s).
Definition store_slice (s : Slice) (bytes : list Z) : M (Kernel D) unit :=
  on_mem (λ m, write_bytes m (sl_addr s) bytes).

Fixpoint OSInode_read_loop (file : Z) (slices : list Slice) (total_read_size : Z) : M (Kernel D) Z :=
  match slices with
  | [] => mret total_read_size
  | slice :: rest =>
      inner ← get_file file;
      m ← get_mem;
      '(read_size, bytes) ← on_fs (Inode_read_at (os_inode inner) (os_offset inner) (slice_bytes_of m slice));
      _ ← store_slice slice bytes;
      if decide (read_size = 0) then mret total_read_size
      else
        _ ← set_file file (set_offset inner (os_offset inner + read_size)%usize);
        OSInode_read_loop file rest (total_read_size + read_size)%usize
  end.

Definition OSInode_read (file : Z) (buf : UserBuffer) : M (Kernel D) Z :=
  OSInode_read_loop file (buffers buf) 0.

Fixpoint OSInode_write_loop (file : Z) (slices : list Slice) (total_write_size : Z) : M (Kernel D) Z :=
  match slices with
  | [] => mret total_write_size
  | slice :: rest =>
      inner ← get_file file;
      m ← get_mem;
      k ← get_state;
      write_size ← on_fs (Inode_write_at (k_efs k) (os_inode inner) (os_offset inner) (slice_bytes_of m slice));
      _ ← lift (res_assert (bool_decide (write_size = sl_len slice)));
      _ ← set_file file (set_offset inner (os_offset inner + write_size)%usize);
      OSInode_write_loop file rest (total_write_size + write_size)%usize
  end.

Definition OSInode_write (file : Z) (buf : UserBuffer) : M (Kernel D) Z :=
  OSInode_write_loop file (buffers buf) 0.

(** * The console *)

Definition console_getchar (env : Env) : M (Kernel D) Z := λ k,
  Ok (env_getchar env (k_chars k), set_chars k (S (k_chars k))).

(** One turn of the loop of [Stdin::read]: without a character the task gives up the
    processor and continues here. *)
Definition Stdin_try_read (env : Env) (user_buf : UserBuffer) : M (Kernel D) SysResult :=
  c ← console_getchar env;
  if decide (c = 0) then
    _ ← suspend_current_and_run_next (KStdin user_buf);
    mret Switched
  else
    let ch := wrap 8 c in
    b ← lift (vec_get (buffers user_buf) 0);
    _ ← on_mem (λ m, write_bytes m (sl_addr b) [ch]);
    mret (SysRet 1).

Definition Stdin_read (env : Env) (user_buf : UserBuffer) : M (Kernel D) SysResult :=
  _ ← lift (res_assert (bool_decide (UserBuffer_len user_buf = 1)));
  Stdin_try_read env user_buf.

(** Every piece of the buffer must be UTF-8 on its own. *)
Fixpoint Stdout_write_loop (slices : list Slice) : M (Kernel D) unit :=
  match slices with
  | [] => mret ()
  | b :: rest =>
      m ← get_mem;
      let bytes := slice_bytes_of m b in
      _ ← lift (res_assert (utf8_valid bytes));
      _ ← modify (λ k, set_out k (k_out k ++ bytes));
      Stdout_write_loop rest
  end.

Definition Stdout_write (user_buf : UserBuffer) : M (Kernel D) Z :=
  _ ← Stdout_write_loop (buffers user_buf);
  mret (UserBuffer_len user_buf).

(** * The [File] trait *)

Definition File_readable (f : File) : M (Kernel D) bool :=
  match f with
  | Stdin => mret true
  | Stdout => mret false
  | OSFile id => inner ← get_file id; mret (os_readable inner)
  end.

Definition File_writable (f : File) : M (Kernel D) bool :=
  match f with
  | Stdin => mret false
  | Stdout => mret true
  | OSFile id => inner ← get_file id; mret (os_writable inner)
  end.

Definition File_read (env : Env) (f : File) (buf : UserBuffer) : M (Kernel D) SysResult :=
  match f with
  | Stdin => Stdin_read env buf
  | Stdout => lift (Err Panic)
  | OSFile id => n ← OSInode_read id buf; mret (SysRet n)
  end.

Definition File_write (f : File) (buf : UserBuffer) : M (Kernel D) Z :=
  match f with
  | Stdin => lift (Err Panic)
  | Stdout => Stdout_write buf
  | OSFile id => OSInode_write id buf
  end.
End OsFile.
