(* ===== verification/OsFileSpec.v ===== *)
(** Open files over the abstract file system: what [open_file], [OSInode::read_all],
    [OSInode::read] and [OSInode::write] do to the files of a mounted file system. *)

From S2P Require Import Prelude Config Address PhysMem UserMem BlockDev BlockCache BlockAccess Bitmap Layout InodeTree.
From S2P Require Import InodeData Efs Vfs FsRep VfsSpec FsModel FsBoot TaskId MemorySet PageTable FrameAllocator Kernel OsFile.

Ltac Zify.zify_post_hook ::= Z.to_euclidean_division_equations.

(** * File system programs inside the kernel *)

Lemma wp_ret_inv {A B} h (p : prog A) (f : A → prog B) (g : A → B) bl Q :
  (∀ r, f r = mret (g r)) → wp h (p ≫= f) bl Q → wp h p bl (λ r bl', Q (g r) bl').
Proof.
  intros Hf (b & bl' & Hrun & HQ). apply run_flat_bind_Ok in Hrun as ((a & fl) & Hp & Hg). cbn in Hg. rewrite Hf in Hg.
  injection Hg as <- ->.
  by exists a, bl'.
Qed.

Section OsFileSpec.
Context {D : Type} `{BlockDevice D, !BlockDeviceLaws D}.
Implicit Types (k : Kernel D) (a : afs).

(** The cache of the kernel holds the file system [a], whose root is [ROOT_INODE]; [u] of
    [N] data blocks are in use. *)
Record mounted (N u : Z) a k : Prop := {
  mt_geo : efs_wf (k_efs k) N;
  mt_root : k_root k = EasyFileSystem_root_inode (k_efs k);
  mt_rep : ∃ bl, cache_rel (k_cache k) (MkFlat bl ∅) ∧ fs_rep (k_efs k) N bl u a
}.

(** Everything but the cache and the table of open files is the same. *)
Definition with_fs k (c : BlockCacheManager D) (fs : gmap Z OSInode) : Kernel D := set_files (set_cache_mgr k c) fs.

Lemma on_fs_ok {A} (p : prog A) k bl Q :
  cache_rel (k_cache k) (MkFlat bl ∅) → wp ∅ p bl Q →
  ∃ r c bl', on_fs p k = Ok (r, set_cache_mgr k c) ∧ cache_rel c (MkFlat bl' ∅) ∧ Q r bl'.
Proof.
  intros Hc (r & bl' & Hrun & HQ). pose proof (run_refines p _ _ Hc) as Hr. rewrite Hrun in Hr.
  destruct Hr as (c & Hm & Hc'). exists r, c, bl'. unfold on_fs. by rewrite Hm.
Qed.

Section Ops.
Context (N u : Z) a k (Hm : mounted N u a k).

Abbreviation inode_at := (inode_at (k_efs k)).

Lemma mounted_cache c bl u' a' :
  cache_rel c (MkFlat bl ∅) → fs_rep (k_efs k) N bl u' a' → mounted N u' a' (set_cache_mgr k c).
Proof. intros Hc Hr. split; [apply Hm|apply Hm|]. by exists bl. Qed.

(** One operation of the virtual file system. *)
Lemma on_fs_vop {A} (p : prog A) (g : A → vres) op :
  (∃ f, run_vop (k_efs k) op = p ≫= f ∧ ∀ r, f r = mret (g r)) → vop_ok (k_efs k) N u op a →
  ∃ r c, on_fs p k = Ok (r, set_cache_mgr k c) ∧ g r = (abs_vop (k_efs k) op a).1 ∧
    mounted N (u + vop_cost op a) (abs_vop (k_efs k) op a).2 (set_cache_mgr k c).
Proof.
  intros (f & Hp & Hf) Hok. destruct (mt_rep _ _ _ _ Hm) as (bl & Hc & Hrep).
  pose proof (rep_vop _ _ (mt_geo _ _ _ _ Hm) bl u a op Hrep Hok) as Hwp. rewrite Hp in Hwp. apply (wp_ret_inv _ _ _ g) in Hwp; [|done].
  destruct (on_fs_ok p k bl _ Hc Hwp) as (r & c & bl' & Hrun & Hc' & Hg & Hrep'). exists r, c.
  split; [done|]. split; [done|]. by eapply mounted_cache.
Qed.

Lemma mounted_room : 0 ≤ u ≤ N.
Proof.
  destruct (mt_rep _ _ _ _ Hm) as (bl & _ & nodes & used & nd0 & Hr). rewrite (fr_u _ _ _ _ _ _ _ _ Hr).
  assert (used ⊆ list_to_set (seqZ 0 N)) as Hsub%subseteq_size.
  { intros n Hn%(ok_used _ _ _ _ _ (fr_ok _ _ _ _ _ _ _ _ Hr)). apply elem_of_list_to_set, elem_of_seqZ. lia. }
  rewrite size_list_to_set, length_seqZ in Hsub by apply NoDup_seqZ. destruct (mt_geo _ _ _ _ Hm). lia.
Qed.

Lemma room_0 : u + 0 ≤ N.
Proof. pose proof mounted_room. lia. Qed.

Lemma mounted_same c : mounted N (u + 0) a (set_cache_mgr k c) → mounted N u a (set_cache_mgr k c).
Proof. by rewrite Z.add_0_r. Qed.

Lemma root_find_ok name : ∃ c, root_find name k = Ok (inode_at <$> dir_find name (a_dir a), set_cache_mgr k c) ∧
  mounted N u a (set_cache_mgr k c).
Proof.
  destruct (on_fs_vop (Inode_find (k_efs k) (k_root k) name) RInode (VFind name)) as (r & c & Hrun & [= ->] & Hm').
  { eexists. split; [by rewrite (mt_root _ _ _ _ Hm)|done]. }
  { split; [apply room_0|done]. }
  exists c. split; [exact Hrun|]. by apply mounted_same.
Qed.

Lemma root_ls_ok : ∃ c, list_apps k = Ok ((a_dir a).*1, set_cache_mgr k c) ∧ mounted N u a (set_cache_mgr k c).
Proof.
  destruct (on_fs_vop (Inode_ls (k_root k)) RNames VLs) as (r & c & Hrun & [= ->] & Hm').
  { eexists. split; [by rewrite (mt_root _ _ _ _ Hm)|done]. }
  { split; [apply room_0|done]. }
  exists c. split; [exact Hrun|]. by apply mounted_same.
Qed.

Lemma inode_read_ok id c offset buf : a_files a !! id = Some c → 0 ≤ offset → offset + len buf < 2 ^ 63 →
  let n := Z.max 0 (Z.min (len buf) (len c - offset)) in
  ∃ m, on_fs (Inode_read_at (inode_at id) offset buf) k = Ok ((n, splice buf 0 (slice c offset n)), set_cache_mgr k m) ∧
    mounted N u a (set_cache_mgr k m).
Proof.
  intros Hc Ho Hl n.
  destruct (on_fs_vop (Inode_read_at (inode_at id) offset buf) (λ x, RRead x.1 x.2) (VRead id offset buf))
    as ([r1 r2] & m & Hrun & Hr & Hm').
  { eexists. split; [done|by intros []]. }
  { split; [apply room_0|]. by rewrite Hc. }
  cbn in Hr. rewrite Hc in Hr. injection Hr as -> ->. exists m. split; [exact Hrun|]. by apply mounted_same.
Qed.

Lemma inode_write_ok id c offset buf : a_files a !! id = Some c → Forall is_byte buf → 0 < len buf → 0 ≤ offset →
  offset + len buf ≤ MAX_BLOCKS * 512 → u + growth (len c) (Z.max (len c) (offset + len buf)) ≤ N →
  ∃ m, on_fs (Inode_write_at (k_efs k) (inode_at id) offset buf) k = Ok (len buf, set_cache_mgr k m) ∧
    mounted N (u + growth (len c) (Z.max (len c) (offset + len buf)))
      (MkAfs (a_dir a) (<[id := write_content c offset buf]> (a_files a))) (set_cache_mgr k m).
Proof.
  intros Hc Hb Hl Ho Hmax Hroom.
  destruct (on_fs_vop (Inode_write_at (k_efs k) (inode_at id) offset buf) RNum (VWrite id offset buf))
    as (r & m & Hrun & Hr & Hm').
  { eexists. done. }
  { unfold vop_ok, vop_cost. rewrite Hc. done. }
  cbn in Hr, Hm'. rewrite Hc in Hm'. injection Hr as ->. by exists m.
Qed.

Lemma inode_clear_ok id c : a_files a !! id = Some c →
  ∃ m, inode_clear (inode_at id) k = Ok ((), set_cache_mgr k m) ∧
    mounted N (u - DiskInode_total_blocks (len c)) (MkAfs (a_dir a) (<[id := []]> (a_files a))) (set_cache_mgr k m).
Proof.
  intros Hc. destruct (mt_rep _ _ _ _ Hm) as (bl & _ & nodes & used & nd0 & Hr).
  destruct (rep_file _ _ _ _ _ _ _ _ Hr id c Hc) as (nd & Hnd & _ & _ & _ & _ & Hs).
  destruct (on_fs_vop (Inode_clear (k_efs k) (inode_at id)) (λ _, RUnit) (VClear id)) as ([] & m & Hrun & _ & Hm').
  { eexists. done. }
  { unfold vop_ok, vop_cost. rewrite Hc. split; [|by eexists]. change (default [] (Some c)) with c.
    pose proof mounted_room. pose proof (rep_freed _ _ _ _ _ _ _ _ Hr id nd Hnd) as Hf. rewrite Hs in Hf.
    assert (size (used ∖ bits_of (k_efs k) (nd_blocks nd)) ≤ size used)%nat by (apply subseteq_size; set_solver).
    rewrite (fr_u _ _ _ _ _ _ _ _ Hr) in *. lia. }
  cbn in Hm'. rewrite Hc in Hm'. exists m. split; [exact Hrun|]. exact Hm'.
Qed.
Lemma root_create_ok name : dir_find name (a_dir a) = None → vop_ok (k_efs k) N u (VCreate name) a →
  ∃ m, root_create name k = Ok (Some (inode_at (fresh (k_efs k) a)), set_cache_mgr k m) ∧
    mounted N (u + dir_growth (a_dir a))
      (MkAfs (a_dir a ++ [(name, fresh (k_efs k) a)]) (<[fresh (k_efs k) a := []]> (a_files a))) (set_cache_mgr k m).
Proof.
  intros Hf Hok. destruct (on_fs_vop (Inode_create (k_efs k) (k_root k) name) RInode (VCreate name)) as (r & m & Hrun & Hr & Hm').
  { eexists. split; [by rewrite (mt_root _ _ _ _ Hm)|done]. }
  { done. }
  cbn in Hr, Hm'. rewrite Hf in Hr, Hm'. injection Hr as ->. by exists m.
Qed.

Lemma mounted_max id c : a_files a !! id = Some c → len c ≤ MAX_BLOCKS * 512.
Proof.
  intros Hc. destruct (mt_rep _ _ _ _ Hm) as (bl & _ & nodes & used & nd0 & Hr).
  destruct (rep_file _ _ _ _ _ _ _ _ Hr id c Hc) as (nd & Hnd & _ & _ & _ & _ & <-).
  apply (fr_max bl _ (nd_ids nd) (nd_idx nd)), (no_file _ _ _ _ _ (ok_node _ _ _ _ _ (fr_ok _ _ _ _ _ _ _ _ Hr) id nd Hnd)).
Qed.

Lemma mounted_size id c : a_files a !! id = Some c → len c < 2 ^ 31.
Proof. intros Hc%mounted_max. unfold MAX_BLOCKS in Hc. lia. Qed.

Lemma mounted_files fs : mounted N u a (set_files k fs).
Proof. split; apply Hm. Qed.
End Ops.

(** * Whole files *)

(** File [f] is open at [offset] on inode [id]. *)
Definition open_at k (f id : Z) (os : OSInode) : Prop :=
  k_files k !! f = Some os ∧ os_inode os = inode_at (k_efs k) id.

Lemma read_all_loop_ok n N u a : ∀ k f id os c buffer v,
  mounted N u a k → open_at k f id os → a_files a !! id = Some c → 0 ≤ os_offset os ≤ len c →
  length buffer = 512%nat → len c - os_offset os + 512 ≤ 512 * Z.of_nat n →
  ∃ m, read_all_loop n f buffer v k =
      Ok (v ++ drop (Z.to_nat (os_offset os)) c, with_fs k m (<[f := set_offset os (len c)]> (k_files k))) ∧
    mounted N u a (with_fs k m (<[f := set_offset os (len c)]> (k_files k))).
Proof.
  induction n as [|n IH]; intros k f id os c buffer v Hm [Hf Hos] Hc Ho Hl Hn; [lia|].
  pose proof (mounted_size _ _ _ _ Hm id c Hc) as Hsz. cbn [read_all_loop].
  erewrite bind_Ok by (unfold get_file; by rewrite Hf). rewrite Hos.
  destruct (inode_read_ok _ _ _ _ Hm id c (os_offset os) buffer Hc ltac:(lia) ltac:(lia)) as (m & Hrun & Hm').
  erewrite bind_Ok by exact Hrun. cbn beta iota. set (cnt := Z.max 0 _) in *. case_decide as H0.
  - assert (os_offset os = len c) as E by lia. exists m. rewrite E, drop_ge, app_nil_r by lia.
    assert (set_offset os (len c) = os) as -> by (destruct os; cbn in *; by subst). rewrite insert_id by done. done.
  - assert (cnt = Z.min 512 (len c - os_offset os)) as Ecnt by lia.
    assert (len (slice c (os_offset os) cnt) = cnt) as Hsl by (rewrite length_slice by lia; lia).
    rewrite add_w_small by (unfold fits; lia). unfold set_file. erewrite bind_Ok by reflexivity.
    assert (vec_slice (splice buffer 0 (slice c (os_offset os) cnt)) 0 cnt = Ok (slice c (os_offset os) cnt)) as Hvs.
    { unfold vec_slice. rewrite decide_True by (rewrite length_splice by lia; lia). rewrite Z.sub_0_r.
      by rewrite slice_splice_eq by lia. }
    erewrite bind_Ok by (unfold lift; by rewrite Hvs).
    set (k1 := set_files (set_cache_mgr k m) _).
    destruct (IH k1 f id (set_offset os (os_offset os + cnt)) c (splice buffer 0 (slice c (os_offset os) cnt))
      (v ++ slice c (os_offset os) cnt)) as (m' & Hrun' & Hm2);
      [by apply mounted_files|split; [apply lookup_insert_eq|done]|done|cbn; lia|by rewrite length_splice; lia|cbn; lia|].
    exists m'. cbn [os_offset set_offset] in *. rewrite Hrun'. unfold k1 in *. cbn [k_files set_files] in *.
    rewrite insert_insert_eq in *. split; [|exact Hm2]. f_equal. f_equal. rewrite <- app_assoc. f_equal.
    unfold slice. rewrite Z2Nat.inj_add, <- drop_drop by lia. apply take_drop.
Qed.

(** * Opening *)

(** The inode [open_file] finds or makes, and the file system afterwards. *)
Definition afs_open (efs : EasyFileSystem) (name : list Z) (flags : OpenFlags) a : option (Z * afs) :=
  match dir_find name (a_dir a) with
  | Some id =>
      if OpenFlags_contains flags OpenFlags_CREATE || OpenFlags_contains flags OpenFlags_TRUNC
      then Some (id, MkAfs (a_dir a) (<[id := []]> (a_files a)))
      else Some (id, a)
  | None =>
      if OpenFlags_contains flags OpenFlags_CREATE
      then Some (fresh efs a, (abs_vop efs (VCreate name) a).2)
      else None
  end.

Definition opened k (c : BlockCacheManager D) (flags : OpenFlags) (id : Z) : Kernel D :=
  let '(readable, writable) := OpenFlags_read_write flags in
  set_next_file (with_fs k c (<[k_next_file k := OSInode_new readable writable (inode_at (k_efs k) id)]> (k_files k)))
    (k_next_file k + 1).

Lemma mounted_opened N u a k c flags id :
  mounted N u a (set_cache_mgr k c) → mounted N u a (opened k c flags id).
Proof. intros Hm. unfold opened. destruct (OpenFlags_read_write flags). split; apply Hm. Qed.

Lemma open_file_ok N u a k name flags :
  mounted N u a k →
  (dir_find name (a_dir a) = None → OpenFlags_contains flags OpenFlags_CREATE = true →
    vop_ok (k_efs k) N u (VCreate name) a) →
  match afs_open (k_efs k) name flags a with
  | Some (id, a') => ∃ c u', open_file name flags k = Ok (Some (k_next_file k), opened k c flags id) ∧
      mounted N u' a' (opened k c flags id)
  | None => ∃ c, open_file name flags k = Ok (None, set_cache_mgr k c) ∧ mounted N u a (set_cache_mgr k c)
  end.
Proof.
  intros Hm Hcr. destruct (root_find_ok _ _ _ _ Hm name) as (c & Hfind & Hm1). unfold afs_open, open_file, opened.
  destruct (OpenFlags_read_write flags) as [rd wr] eqn:Hrw.
  assert (∀ u' a' c' id, mounted N u' a' (set_cache_mgr k c') → mounted N u' a' (opened k c' flags id)) as Hop
    by (intros; by apply mounted_opened). unfold opened in Hop. rewrite Hrw in Hop.
  destruct (dir_find name (a_dir a)) as [id|] eqn:Hd.
  - assert (is_Some (a_files a !! id)) as [cc Hcc].
    { destruct (mt_rep _ _ _ _ Hm) as (bl & _ & nodes & used & nd0 & Hr). by eapply (rep_find_file _ _ _ _ _ _ _ _ Hr). }
    destruct (inode_clear_ok _ _ _ _ Hm1 id cc Hcc) as (c' & Hclr & Hm2).
    destruct (OpenFlags_contains flags OpenFlags_CREATE); cbn [orb].
    + erewrite bind_Ok by exact Hfind. cbn [fmap option_fmap option_map]. erewrite bind_Ok by exact Hclr.
      eexists c', _. split; [reflexivity|]. apply Hop, Hm2.
    + erewrite bind_Ok by exact Hfind. cbn [fmap option_fmap option_map].
      destruct (OpenFlags_contains flags OpenFlags_TRUNC).
      * erewrite bind_Ok by exact Hclr. eexists c', _. split; [reflexivity|]. apply Hop, Hm2.
      * eexists c, u. split; [reflexivity|]. by apply Hop.
  - destruct (OpenFlags_contains flags OpenFlags_CREATE) eqn:Hc.
    + erewrite bind_Ok by exact Hfind. cbn [fmap option_fmap option_map].
      destruct (root_create_ok _ _ _ _ Hm1 name Hd (Hcr eq_refl eq_refl)) as (c' & Hrun & Hm2).
      erewrite bind_Ok by exact Hrun. eexists c', _. split; [reflexivity|]. cbn [abs_vop snd]. rewrite Hd. apply Hop, Hm2.
    + erewrite bind_Ok by exact Hfind. cbn [fmap option_fmap option_map]. by exists c.
Qed.

(** * Writing a user buffer *)

Lemma length_write_content c o x : 0 ≤ o → o ≤ len c ∨ 0 < len x → len (write_content c o x) = Z.max (len c) (o + len x).
Proof.
  intros Ho Hx. unfold write_content. rewrite length_splice; rewrite ?length_app, ?length_replicate; lia.
Qed.

Lemma write_content_nil c o : 0 ≤ o ≤ len c → write_content c o [] = c.
Proof.
  intros Ho. unfold write_content. replace (Z.to_nat _) with 0%nat by (cbn; lia). rewrite app_nil_r.
  apply splice_nil. lia.
Qed.

Lemma write_content_app c o x y : 0 ≤ o → 0 < len x →
  write_content (write_content c o x) (o + len x) y = write_content c o (x ++ y).
Proof.
  intros Ho Hx. assert (len (write_content c o x) = Z.max (len c) (o + len x)) as Hl by (apply length_write_content; lia).
  unfold write_content in *. set (z := replicate (Z.to_nat (o + len x - len c)) 0) in *.
  assert (splice (c ++ z) o x ++ replicate (Z.to_nat (o + len x + len y - len (splice (c ++ z) o x))) 0 =
          splice (c ++ replicate (Z.to_nat (o + len (x ++ y) - len c)) 0) o x) as ->.
  { rewrite Hl. rewrite length_app. unfold splice. rewrite <- !app_assoc. f_equal.
    - rewrite !take_app. f_equal. unfold z. rewrite !take_replicate. f_equal. lia.
    - f_equal. rewrite !drop_app. rewrite <- app_assoc. f_equal. unfold z. rewrite !drop_replicate, <- replicate_add. f_equal. lia. }
  apply splice_app; [done|]. rewrite !length_app, length_replicate. lia.
Qed.

Lemma mounted_eq N u u' a k : mounted N u a k → u = u' → mounted N u' a k.
Proof. by intros ? <-. Qed.

Lemma growth_mono size x y : 0 ≤ size ≤ x → x ≤ y → y ≤ MAX_BLOCKS * 512 → 0 ≤ growth size x ≤ growth size y.
Proof.
  intros Hs Hxy Hy.
  pose proof (growth_needed (MkDiskInode size [] 0 0 Layout.File) x ltac:(cbn; lia) ltac:(lia)) as [_ H1].
  pose proof (growth_needed (MkDiskInode x [] 0 0 Layout.File) y ltac:(cbn; lia) ltac:(lia)) as [_ H2].
  unfold growth in *. cbn [di_size] in *. lia.
Qed.

(** The bytes of a user buffer. *)
Definition slices_bytes (m : memory) (slices : list Slice) : list Z := slices ≫= slice_bytes_of m.

Lemma OSInode_write_loop_ok N : ∀ slices a u k f id os c total,
  mounted N u a k → open_at k f id os → a_files a !! id = Some c → mem_wf (mm_mem (k_mm k)) →
  0 ≤ os_offset os → os_offset os ≤ len c ∨ slices ≠ [] → Forall (λ s, 0 < sl_len s) slices → 0 ≤ total →
  let data := slices_bytes (mm_mem (k_mm k)) slices in
  os_offset os + len data ≤ MAX_BLOCKS * 512 → total + len data < 2 ^ 63 →
  u + growth (len c) (Z.max (len c) (os_offset os + len data)) ≤ N →
  ∃ m, let k' := with_fs k m (<[f := set_offset os (os_offset os + len data)]> (k_files k)) in
    OSInode_write_loop f slices total k = Ok (total + len data, k') ∧
    mounted N (u + growth (len c) (Z.max (len c) (os_offset os + len data)))
      (MkAfs (a_dir a) (<[id := write_content c (os_offset os) data]> (a_files a))) k'.
Proof.
  induction slices as [|sl slices IH]; intros a u k f id os c total Hm [Hf Hos] Hc Hwf Ho Hor Hpos Ht data Hmax Htot Hroom.
  - destruct Hor as [Hor|]; [|done]. exists (k_cache k). cbn in data. unfold data. cbn [length].
    rewrite !Z.add_0_r, Z.max_l by lia. assert (set_offset os (os_offset os) = os) as -> by (by destruct os).
    rewrite write_content_nil, !insert_id by (done || lia). unfold growth. rewrite Z.sub_diag, Z.add_0_r.
    split; [by destruct k|]. destruct a, k. exact Hm.
  - apply Forall_cons in Hpos as [Hsl Hpos]. set (x := slice_bytes_of (mm_mem (k_mm k)) sl).
    assert (len x = sl_len sl) as Hx by (apply length_read_bytes; lia).
    assert (data = x ++ slices_bytes (mm_mem (k_mm k)) slices) as Ed by done. rewrite Ed in *. clear data Ed.
    set (y := slices_bytes _ slices) in *. rewrite length_app, Nat2Z.inj_add in *.
    cbn [OSInode_write_loop]. erewrite bind_Ok by (unfold get_file; by rewrite Hf).
    erewrite bind_Ok by reflexivity. erewrite bind_Ok by reflexivity. rewrite Hos. fold x.
    destruct (inode_write_ok N u a k Hm id c (os_offset os) x) as (m & Hrun & Hm1);
      [done|by apply read_bytes_wf|lia..| |].
    { pose proof (mounted_max _ _ _ _ Hm id c Hc).
      pose proof (growth_mono (len c) (Z.max (len c) (os_offset os + len x)) (Z.max (len c) (os_offset os + (len x + len y)))). lia. }
    erewrite bind_Ok by exact Hrun. rewrite bool_decide_eq_true_2 by done. erewrite bind_Ok by reflexivity.
    erewrite bind_Ok by reflexivity. rewrite !add_w_small by (unfold fits; unfold MAX_BLOCKS in *; lia).
    set (k1 := set_files (set_cache_mgr k m) _).
    pose proof (length_write_content c (os_offset os) x Ho ltac:(lia)) as Hlw.
    destruct (IH (MkAfs (a_dir a) (<[id := write_content c (os_offset os) x]> (a_files a)))
      (u + growth (len c) (Z.max (len c) (os_offset os + len x))) k1 f id (set_offset os (os_offset os + len x))
      (write_content c (os_offset os) x) (total + len x)) as (m' & Hrun' & Hm').
    { by apply mounted_files. }
    { split; [apply lookup_insert_eq|done]. }
    { apply lookup_insert_eq. }
    { done. }
    { cbn. lia. }
    { left. cbn. lia. }
    { done. }
    { lia. }
    { cbn. fold y. lia. }
    { cbn. fold y. lia. }
    { cbn. fold y. rewrite Hlw. unfold growth in *. replace (Z.max (Z.max _ _) _) with (Z.max (len c) (os_offset os + (len x + len y))) by lia. lia. }
    exists m'. unfold k1, with_fs in *. cbn [os_offset set_offset k_mm set_files set_cache_mgr k_files a_dir a_files] in *. fold y in Hrun', Hm'.
    rewrite insert_insert_eq in Hrun', Hm'. rewrite insert_insert_eq in Hm'. rewrite write_content_app in Hm' by lia.
    rewrite !(Z.add_assoc _ (len x) (len y)). split; [exact Hrun'|]. rewrite Hlw in Hm'. unfold growth in *.
    replace (Z.max (Z.max (len c) (os_offset os + len x)) (os_offset os + len x + len y))
      with (Z.max (len c) (os_offset os + len x + len y)) in Hm' by lia.
    eapply mounted_eq; [exact Hm'|lia].
Qed.

(** * Reading into a user buffer *)

Definition with_mem k (m : memory) : Kernel D := set_mm k (MkMM m (mm_fa (k_mm k))).

(** Storing the first [n] bytes [x] of slice [sl]. *)
Lemma store_prefix m sl x : 0 ≤ sl_len sl → len x ≤ sl_len sl →
  let m' := write_bytes m (sl_addr sl) (splice (slice_bytes_of m sl) 0 x) in
  slice_bytes_of m' sl = x ++ drop (length x) (slice_bytes_of m sl) ∧
  ∀ y, y ∉ slice_addrs sl → read_u8 m' y = read_u8 m y.
Proof.
  intros Hl Hx m'. assert (len (slice_bytes_of m sl) = sl_len sl) as Hb by (by apply length_read_bytes).
  assert (len (splice (slice_bytes_of m sl) 0 x) = sl_len sl) as Hs by (rewrite length_splice; lia).
  split.
  - unfold m', slice_bytes_of at 1. rewrite read_bytes_write_eq by done. unfold splice. simpl. done.
  - intros y Hy. apply read_u8_write_bytes_out. intros Hin. apply Hy, elem_of_seqZ. lia.
Qed.

Lemma slices_bytes_ext m m' slices :
  (∀ y, y ∈ slices ≫= slice_addrs → read_u8 m' y = read_u8 m y) → slices_bytes m' slices = slices_bytes m slices.
Proof.
  induction slices as [|sl slices IH]; intros Hy; [done|]. unfold slices_bytes in *. cbn [mbind list_bind] in *. f_equal.
  - apply read_bytes_ext. intros x Hx. apply Hy, elem_of_app. left. apply elem_of_seqZ. lia.
  - apply IH. intros y Hin. apply Hy, elem_of_app. by right.
Qed.

(** The file bytes of two pieces of a buffer, of which the first is filled or the file ends. *)
Lemma read_join (c x0 y0 : list Z) off n1 n2 :
  0 ≤ off → n1 = Z.max 0 (Z.min (len x0) (len c - off)) → n2 = Z.max 0 (Z.min (len y0) (len c - (off + n1))) →
  n1 ≠ 0 →
  (slice c off n1 ++ drop (Z.to_nat n1) x0) ++ slice c (off + n1) n2 ++ drop (Z.to_nat n2) y0 =
  slice c off (n1 + n2) ++ drop (Z.to_nat (n1 + n2)) (x0 ++ y0).
Proof.
  intros Ho E1 E2 Hne. destruct (decide (n1 = len x0)) as [E|E].
  - rewrite <- slice_slice_app by lia. rewrite (drop_ge x0) by lia. rewrite app_nil_r, <- app_assoc.
    rewrite drop_app_ge by lia. do 3 f_equal. lia.
  - assert (n2 = 0) as -> by lia. rewrite Z.add_0_r. unfold slice at 2. cbn. rewrite drop_0.
    rewrite drop_app_le by lia. by rewrite <- app_assoc.
Qed.

Lemma OSInode_read_loop_ok N u a id c : ∀ slices k f os total,
  mounted N u a k → open_at k f id os → a_files a !! id = Some c →
  0 ≤ os_offset os → NoDup (slices ≫= slice_addrs) → Forall (λ s, 0 < sl_len s) slices → 0 ≤ total →
  let m := mm_mem (k_mm k) in
  let old := slices_bytes m slices in
  let n := Z.max 0 (Z.min (len old) (len c - os_offset os)) in
  os_offset os + len old < 2 ^ 63 → total + len old < 2 ^ 63 →
  ∃ cm m', let k' := with_mem (with_fs k cm (<[f := set_offset os (os_offset os + n)]> (k_files k))) m' in
    OSInode_read_loop f slices total k = Ok (total + n, k') ∧ mounted N u a k' ∧
    slices_bytes m' slices = slice c (os_offset os) n ++ drop (Z.to_nat n) old ∧
    ∀ y, y ∉ slices ≫= slice_addrs → read_u8 m' y = read_u8 m y.
Proof.
  induction slices as [|sl slices IH]; intros k f os total Hm [Hf Hos] Hc Ho Hnd Hpos Ht m old n Hmax Htot.
  - exists (k_cache k), m. cbn in old. assert (n = 0) as -> by (unfold n, old; cbn; lia). rewrite !Z.add_0_r.
    assert (set_offset os (os_offset os) = os) as -> by (by destruct os). rewrite insert_id by done.
    assert (with_mem (with_fs k (k_cache k) (k_files k)) m = k) as -> by (unfold m; destruct k as [[]]; done).
    split; [done|]. split; [done|]. split; [|done]. by unfold slice.
  - apply Forall_cons in Hpos as [Hsl Hpos]. cbn [mbind list_bind] in Hnd. apply NoDup_app in Hnd as (Hnd1 & Hdis & Hnd2).
    set (x0 := slice_bytes_of m sl). assert (len x0 = sl_len sl) as Hx0 by (apply length_read_bytes; lia).
    assert (old = x0 ++ slices_bytes m slices) as Ed by done. set (y0 := slices_bytes m slices) in *.
    rewrite Ed, length_app, Nat2Z.inj_add in Hmax, Htot.
    cbn [OSInode_read_loop]. erewrite bind_Ok by (unfold get_file; by rewrite Hf). erewrite bind_Ok by reflexivity.
    rewrite Hos. fold m x0.
    destruct (inode_read_ok N u a k Hm id c (os_offset os) x0 Hc Ho ltac:(lia)) as (cm & Hrun & Hm1).
    erewrite bind_Ok by exact Hrun. cbn beta iota. set (n1 := Z.max 0 (Z.min (len x0) _)) in *.
    set (x := slice c (os_offset os) n1) in *. assert (len x = n1) as Hlx by (unfold x; rewrite length_slice by lia; lia).
    destruct (store_prefix m sl x ltac:(lia) ltac:(lia)) as [Hst Hout]. fold x0 in Hst, Hout.
    erewrite bind_Ok by reflexivity. set (m1 := write_bytes m _ _) in *.
    assert (slices_bytes m1 slices = y0) as Hy0.
    { apply slices_bytes_ext. intros y Hy. apply Hout. intros Hy'. by apply (Hdis y). }
    case_decide as H0.
    + assert (n = 0) as -> by (unfold n; rewrite Ed, length_app; lia).
      assert (x = []) as Ex by (apply nil_length_inv; lia). rewrite Ex in Hst. exists cm, m1.
      rewrite Z.add_0_r. assert (set_offset os (os_offset os + 0) = os) as -> by (rewrite Z.add_0_r; by destruct os).
      rewrite insert_id by done. split; [done|]. split; [split; apply Hm1|]. split.
      * change (slices_bytes m1 (sl :: slices)) with (slice_bytes_of m1 sl ++ slices_bytes m1 slices).
        rewrite Hst, Hy0, Ed. reflexivity.
      * intros y Hy. apply Hout. cbn [mbind list_bind] in Hy. set_solver.
    + rewrite !add_w_small by (unfold fits; lia). erewrite bind_Ok by reflexivity.
      set (k1 := set_files (set_mm (set_cache_mgr k cm) (MkMM m1 (mm_fa (k_mm k)))) (<[f := set_offset os (os_offset os + n1)]> (k_files k))).
      destruct (IH k1 f (set_offset os (os_offset os + n1)) (total + n1)) as (cm' & m' & Hrun' & Hm' & Hb' & Hout');
        [split; apply Hm1|split; [apply lookup_insert_eq|done]|done|cbn; lia|done|done|lia|cbn; rewrite Hy0; lia|cbn; rewrite Hy0; lia|].
      cbn [k_mm k1 set_files set_mm set_cache_mgr mm_mem os_offset set_offset k_files] in Hrun', Hm', Hb', Hout'. rewrite Hy0 in *.
      set (n2 := Z.max 0 (Z.min (len y0) _)) in *.
      assert (n = n1 + n2) as En by (unfold n; rewrite Ed, length_app; lia).
      exists cm', m'. unfold with_fs, with_mem in *. cbn [k_mm set_files set_mm set_cache_mgr mm_fa mm_mem k_files] in *.
      rewrite insert_insert_eq in Hrun', Hm'. rewrite En, !Z.add_assoc. split; [exact Hrun'|]. split; [exact Hm'|]. split.
      * change (slices_bytes m' (sl :: slices)) with (slice_bytes_of m' sl ++ slices_bytes m' slices). rewrite Hb'.
        assert (slice_bytes_of m' sl = slice_bytes_of m1 sl) as ->.
        { apply read_bytes_ext. intros y Hy. apply Hout'. apply Hdis, elem_of_seqZ. lia. }
        rewrite Hst, Ed. replace (length x) with (Z.to_nat n1) by lia. by apply read_join.
      * intros y Hy. cbn [mbind list_bind] in Hy. rewrite Hout', Hout by set_solver. done.
Qed.

(** * Properties *)

(** C19: [open_file] on a mounted file system.  An existing name gives a new open file at
    offset 0 on its inode, emptied when [CREATE] or [TRUNC] is set; a missing name is
    created under [CREATE], on the lowest free inode, and answers [None] otherwise.  The
    new handle has the access rights of the flags. *)
Theorem open_file_semantics (N u : Z) a k (name : list Z) (flags : OpenFlags)
    (Hm : mounted N u a k)
    (Hroom : dir_find name (a_dir a) = None → OpenFlags_contains flags OpenFlags_CREATE = true →
      vop_ok (k_efs k) N u (VCreate name) a) :
  match afs_open (k_efs k) name flags a with
  | Some (id, a') => ∃ c u', open_file name flags k = Ok (Some (k_next_file k), opened k c flags id) ∧
      mounted N u' a' (opened k c flags id) ∧ is_Some (a_files a' !! id)
  | None => ∃ c, open_file name flags k = Ok (None, set_cache_mgr k c) ∧ mounted N u a (set_cache_mgr k c)
  end.
Proof.
  pose proof (open_file_ok N u a k name flags Hm Hroom) as Hok. unfold afs_open in *.
  destruct (mt_rep _ _ _ _ Hm) as (bl & _ & nodes & used & nd0 & Hr).
  destruct (dir_find name (a_dir a)) as [id|] eqn:Hd.
  - destruct (rep_find_file _ _ _ _ _ _ _ _ Hr name id Hd) as (Hid & _).
    destruct (_ || _); destruct Hok as (c & u' & Hrun & Hm'); exists c, u'; (split; [done|]); (split; [done|]); [|done].
    cbn. by rewrite lookup_insert_eq.
  - destruct (OpenFlags_contains flags OpenFlags_CREATE); [|done]. destruct Hok as (c & u' & Hrun & Hm').
    exists c, u'. split; [done|]. split; [done|]. cbn. rewrite Hd. cbn. by rewrite lookup_insert_eq.
Qed.

(** [OSInode::read_all] returns the file from the current offset to its end, leaves
    the offset at the end and changes nothing else, whenever the fuel allows one turn per
    512 bytes and one more. *)
Theorem read_all_returns_file (N u : Z) a k (f id : Z) (os : OSInode) (c : list Z) (fuel : nat)
    (Hm : mounted N u a k) (Hf : open_at k f id os) (Hc : a_files a !! id = Some c)
    (Ho : 0 ≤ os_offset os ≤ len c) (Hfuel : len c - os_offset os + 512 ≤ 512 * Z.of_nat fuel) :
  ∃ m, let k' := with_fs k m (<[f := set_offset os (len c)]> (k_files k)) in
    OSInode_read_all fuel f k = Ok (drop (Z.to_nat (os_offset os)) c, k') ∧ mounted N u a k'.
Proof.
  destruct (read_all_loop_ok fuel N u a k f id os c (replicate 512 0) [] Hm Hf Hc Ho) as (m & Hrun & Hm');
    [by rewrite length_replicate|done|]. by exists m.
Qed.

(** What a program writes through one descriptor it reads back through another.  A
    write of a user buffer at the offset of an open file followed by a read through
    another open file of the same inode at the same offset, into a buffer of the same
    length, delivers the bytes written, into the pieces of the buffer in order, and
    changes no other memory. *)
Theorem write_read_back (N u : Z) a k (f g id : Z) (osf osg : OSInode) (c : list Z) (wbuf rbuf : list Slice)
    (Hm : mounted N u a k) (Hf : open_at k f id osf) (Hg : open_at k g id osg) (Hfg : f ≠ g)
    (Hc : a_files a !! id = Some c) (Hwf : mem_wf (mm_mem (k_mm k)))
    (Ho : 0 ≤ os_offset osf) (Hog : os_offset osg = os_offset osf)
    (Hw : Forall (λ s, 0 < sl_len s) wbuf) (Hw0 : wbuf ≠ [])
    (Hr : Forall (λ s, 0 < sl_len s) rbuf) (Hnd : NoDup (rbuf ≫= slice_addrs))
    (Hlen : len (slices_bytes (mm_mem (k_mm k)) rbuf) = len (slices_bytes (mm_mem (k_mm k)) wbuf))
    (Hmax : os_offset osf + len (slices_bytes (mm_mem (k_mm k)) wbuf) ≤ MAX_BLOCKS * 512)
    (Hroom : u + growth (len c) (Z.max (len c) (os_offset osf + len (slices_bytes (mm_mem (k_mm k)) wbuf))) ≤ N) :
  let data := slices_bytes (mm_mem (k_mm k)) wbuf in
  ∃ k' k'', OSInode_write f (MkUserBuffer wbuf) k = Ok (len data, k') ∧
    OSInode_read g (MkUserBuffer rbuf) k' = Ok (len data, k'') ∧
    slices_bytes (mm_mem (k_mm k'')) rbuf = data ∧
    ∀ y, y ∉ rbuf ≫= slice_addrs → read_u8 (mm_mem (k_mm k'')) y = read_u8 (mm_mem (k_mm k)) y.
Proof.
  intros data. assert (0 < len data) as Hpos.
  { destruct wbuf as [|s w]; [done|]. apply Forall_cons in Hw as [Hs _]. unfold data, slices_bytes. cbn [mbind list_bind].
    rewrite length_app. pose proof (length_read_bytes (mm_mem (k_mm k)) (sl_addr s) (sl_len s) ltac:(lia)).
    unfold slice_bytes_of. lia. }
  destruct (OSInode_write_loop_ok N wbuf a u k f id osf c 0) as (cm & Hrun & Hm1);
    [done|done|done|done|done|by right|done|lia|done|unfold MAX_BLOCKS in *; lia|done|].
  fold data in Hrun, Hm1. rewrite Z.add_0_l in Hrun.
  set (k1 := with_fs k cm _) in Hrun, Hm1. exists k1.
  pose proof (length_write_content c (os_offset osf) data Ho ltac:(lia)) as Hlw.
  destruct (OSInode_read_loop_ok N _ _ id (write_content c (os_offset osf) data) rbuf k1 g osg 0 Hm1)
    as (cm' & m' & Hrun' & _ & Hb & Hout).
  - split; [cbn; rewrite lookup_insert_ne by done; apply Hg|apply Hg].
  - apply lookup_insert_eq.
  - lia.
  - done.
  - done.
  - lia.
  - cbn. unfold MAX_BLOCKS in *. lia.
  - cbn. unfold MAX_BLOCKS in *. lia.
  - cbn [k_mm k1 with_fs set_files set_cache_mgr] in *. rewrite Hlw, Hog, Hlen in Hrun', Hb. fold data in Hrun', Hb, Hlen.
    replace (Z.max 0 (Z.min (len data) (Z.max (len c) (os_offset osf + len data) - os_offset osf))) with (len data) in * by lia.
    eexists.
    split; [exact Hrun|]. split; [exact Hrun'|]. split; [|exact Hout]. cbn. rewrite Hb.
    rewrite drop_ge, app_nil_r by lia. unfold write_content. apply slice_splice_eq; rewrite ?length_app, ?length_replicate; lia.
Qed.
End OsFileSpec.

(** * Witnesses

    A kernel with the file ["a"] of two bytes, open twice. *)

Definition demo_os (m : BlockCacheManager BlockFile) : Kernel BlockFile :=
  MkKernel (MkMM (write_bytes ∅ 4096 [55; 66; 77]) (StackFrameAllocator_new)) (MkMemorySet (MkPageTable (MkPhysPageNum 0) []) [])
    RecycleAllocator_new RecycleAllocator_new ∅ 0 ∅ [] None 0
    (<[1 := OSInode_new true true (inode_at demo_efs 1)]> {[2 := OSInode_new true false (inode_at demo_efs 1)]}) 3
    m demo_efs (EasyFileSystem_root_inode demo_efs) 0 0 [].

Lemma demo_os_mounted : ∃ m, mounted (mk_data 1040 1) 2 demo_fs1 (demo_os m).
Proof.
  destruct demo_fs1_rep as (m & bl & Hm & Hrep). exists m.
  exact (Build_mounted _ _ _ (demo_os m) (mk_efs_wf 1040 1 ltac:(lia) ltac:(lia)) eq_refl (ex_intro _ bl (conj Hm Hrep))).
Qed.

Lemma open_file_semantics_witness : ∃ m c u',
  open_file [98] OpenFlags_TRUNC (demo_os m) = Ok (Some 3, opened (demo_os m) c OpenFlags_TRUNC 1) ∧
  mounted (mk_data 1040 1) u' (MkAfs (a_dir demo_fs1) (<[1 := []]> (a_files demo_fs1)))
    (opened (demo_os m) c OpenFlags_TRUNC 1).
Proof.
  destruct demo_os_mounted as (m & Hm). exists m. destruct demo_finds as (_ & F2 & _).
  pose proof (open_file_semantics (mk_data 1040 1) 2 demo_fs1 (demo_os m) [98] OpenFlags_TRUNC Hm) as Hop.
  unfold afs_open in Hop. cbn [a_dir demo_fs1] in Hop. rewrite F2 in Hop.
  change (OpenFlags_contains OpenFlags_TRUNC OpenFlags_CREATE || OpenFlags_contains OpenFlags_TRUNC OpenFlags_TRUNC)
    with true in Hop. destruct Hop as (c & u' & Hrun & Hm' & _); [discriminate|]. exists c, u'. exact (conj Hrun Hm').
Defined.

Lemma demo_open m : open_at (demo_os m) 1 1 (OSInode_new true true (inode_at demo_efs 1)) ∧
  open_at (demo_os m) 2 1 (OSInode_new true false (inode_at demo_efs 1)).
Proof. split; (split; [|reflexivity]); [apply lookup_insert_eq|]. cbn [demo_os k_files]. by rewrite lookup_insert_ne. Qed.

Lemma read_all_returns_file_witness : ∃ m k', OSInode_read_all 2 1 (demo_os m) = Ok ([104; 105], k').
Proof.
  destruct demo_os_mounted as (m & Hm).
  destruct (read_all_returns_file (mk_data 1040 1) 2 demo_fs1 (demo_os m) 1 1
    (OSInode_new true true (inode_at demo_efs 1)) [104; 105] 2 Hm (proj1 (demo_open m))) as (cm & Hrun & _).
  - apply lookup_insert_eq.
  - cbn. lia.
  - cbn. lia.
  - exists m. eexists. exact Hrun.
Defined.

Lemma demo_buffers m : slices_bytes (mm_mem (k_mm (demo_os m))) [MkSlice 4096 1; MkSlice 4097 2] = [55; 66; 77] ∧
  mem_wf (mm_mem (k_mm (demo_os m))).
Proof.
  split; [reflexivity|]. apply write_bytes_wf; [intros x; unfold read_u8; rewrite lookup_empty; by compute|].
  repeat (apply Forall_cons; split; [by compute|]). by apply Forall_nil.
Qed.

Lemma write_read_back_witness : ∃ m k' k'',
  OSInode_write 1 (MkUserBuffer [MkSlice 4096 1; MkSlice 4097 2]) (demo_os m) = Ok (3, k') ∧
  OSInode_read 2 (MkUserBuffer [MkSlice 8192 3]) k' = Ok (3, k'') ∧
  slices_bytes (mm_mem (k_mm k'')) [MkSlice 8192 3] = [55; 66; 77].
Proof.
  destruct demo_os_mounted as (m & Hm). destruct (demo_open m) as [H1 H2]. destruct (demo_buffers m) as [Hb Hwf].
  destruct (write_read_back (mk_data 1040 1) 2 demo_fs1 (demo_os m) 1 2 1 _ _ [104; 105]
    [MkSlice 4096 1; MkSlice 4097 2] [MkSlice 8192 3] Hm H1 H2) as (k' & k'' & Hw & Hr & Hd & _).
  - discriminate.
  - apply lookup_insert_eq.
  - exact Hwf.
  - cbn. lia.
  - reflexivity.
  - repeat constructor.
  - discriminate.
  - repeat constructor.
  - apply NoDup_ListNoDup. cbn. repeat constructor; cbn; lia.
  - rewrite Hb. reflexivity.
  - rewrite Hb. unfold MAX_BLOCKS. cbn. lia.
  - rewrite Hb. vm_compute. discriminate.
  - rewrite Hb in Hw, Hr, Hd. exists m, k', k''. exact (conj Hw (conj Hr Hd)).
Defined.
