(* ===== verification/Pack.v ===== *)
(** The image packer ([easy_fs_pack] of [easy-fs-fuse/src/main.rs]) and its composition
    with the kernel: an image packed on the host serves its files to the kernel that
    mounts it.  What the host's directory holds (names and contents, in the order
    [read_dir] yields them) is an argument; the command line and the printing are left
    out. *)

From S2P Require Import Prelude BlockDev BlockCache BlockAccess Bitmap Layout InodeTree InodeData Efs Vfs FsRep VfsSpec FsModel.
From S2P Require Import FsBoot Kernel OsFile OsFileSpec.

Ltac Zify.zify_post_hook ::= Z.to_euclidean_division_equations.

(** * The host's files *)

(** [File::set_len]: cut off or extended with zeros. *)
Definition BlockFile_set_len (f : BlockFile) (n : Z) : BlockFile :=
  MkBlockFile (take (Z.to_nat n) (bf_file f ++ replicate (Z.to_nat n - length (bf_file f)) 0)).

(** An entry of the source directory: its name as bytes, and its contents unless it
    cannot be read. *)
Record HostEntry := MkHostEntry { he_file_name : list Z; he_data : option (list Z) }.

(** The parts of a name before and after its last dot. *)
Fixpoint rsplit_dot (s : list Z) : option (list Z * list Z) :=
  match s with
  | [] => None
  | b :: rest =>
      match rsplit_dot rest with
      | Some (before, after) => Some (b :: before, after)
      | None => if decide (b = 46) then Some ([], rest) else None
      end
  end.

(** [Path::file_stem]; a name that only starts with a dot, and [".."], have no extension. *)
Definition file_stem (file_name : list Z) : list Z :=
  if decide (file_name = [46; 46]) then file_name
  else match rsplit_dot file_name with
       | Some ([], _) | None => file_name
       | Some (before, _) => before
       end.

(** Contents and name of an entry: [read_to_end(..).unwrap()] and [to_str().unwrap()]. *)
Definition load_entry (e : HostEntry) : res (list Z * list Z) :=
  all_data ← unwrap (he_data e);
  let name := file_stem (he_file_name e) in
  _ ← res_assert (utf8_valid name);
  mret (name, all_data).

(** * The packer *)

(** The loop over the source directory *)
Fixpoint pack_entries (efs : EasyFileSystem) (root_inode : Inode) (entries : list HostEntry) : prog () :=
  match entries with
  | [] => mret tt
  | dir_entry :: rest =>
      '(name, all_data) ← prog_lift (load_entry dir_entry);
      o ← Inode_create efs root_inode name;
      inode ← prog_lift (unwrap o);
      _ ← Inode_write_at efs inode 0 all_data;
      pack_entries efs root_inode rest
  end.

Definition pack_prog (entries : list HostEntry) : prog (list (list Z)) :=
  efs ← EasyFileSystem_create 14000 1;
  let root_inode := EasyFileSystem_root_inode efs in
  _ ← pack_entries efs root_inode entries;
  Inode_ls root_inode.

(** The names printed and the output file the process leaves: what the block cache still
    holds at the exit of the process is lost. *)
Definition easy_fs_pack (output : BlockFile) (entries : list HostEntry) : res (list (list Z) * BlockFile) :=
  let block_file := BlockFile_set_len output (14000 * 512) in
  '(apps, cache) ← run_cached (pack_prog entries) (BlockCacheManager_new block_file);
  mret (apps, bm_dev cache).

(** * The packed file system *)

Abbreviation pack_efs := (mk_efs 14000 1).
Abbreviation pack_data := (mk_data 14000 1).

(** The files get the inodes 1, 2, .. in order. *)
Definition packed (files : list (list Z * list Z)) : afs :=
  MkAfs (zip files.*1 (seqZ 1 (len files))) (list_to_map (zip (seqZ 1 (len files)) files.*2)).

(** Data and index blocks of the files and of the directory. *)
Definition pack_cost (files : list (list Z * list Z)) : Z :=
  DiskInode_total_blocks (32 * len files) + foldr (λ f, Z.add (DiskInode_total_blocks (len f.2))) 0 files.

Definition file_packable (f : list Z * list Z) : Prop :=
  name_ok f.1 ∧ Forall is_byte f.2 ∧ 0 < len f.2 ≤ MAX_BLOCKS * 512.

(** Distinct names, nonempty files, and room for all of them. *)
Definition packable (files : list (list Z * list Z)) : Prop :=
  NoDup files.*1 ∧ Forall file_packable files ∧ len files ≤ 4095 ∧ pack_cost files ≤ pack_data.

Lemma total_blocks_mono x y : 0 ≤ x ≤ y → y ≤ MAX_BLOCKS * 512 →
  0 ≤ DiskInode_total_blocks x ≤ DiskInode_total_blocks y.
Proof.
  intros Hx Hy. pose proof (growth_mono 0 x y ltac:(lia) ltac:(lia) Hy) as H. unfold growth in H.
  change (DiskInode_total_blocks 0) with 0 in H. lia.
Qed.

Lemma pack_cost_snoc fs f : pack_cost (fs ++ [f]) =
  pack_cost fs + growth (32 * len fs) (32 * (len fs + 1)) + DiskInode_total_blocks (len f.2).
Proof.
  unfold pack_cost, growth. rewrite length_app, foldr_app. cbn [foldr length].
  assert (∀ x, foldr (λ f, Z.add (DiskInode_total_blocks (len f.2))) x fs =
    x + foldr (λ f, Z.add (DiskInode_total_blocks (len f.2))) 0 fs) as E.
  { intros x. induction fs as [|g fs IH]; cbn [foldr]; [lia|]. rewrite IH. lia. }
  rewrite E. replace (Z.of_nat (length fs + 1)) with (len fs + 1) by lia. lia.
Qed.

Lemma pack_cost_app fs gs : Forall file_packable (fs ++ gs) → len (fs ++ gs) ≤ 4095 → pack_cost fs ≤ pack_cost (fs ++ gs).
Proof.
  induction gs as [|g gs IH] using rev_ind; [by rewrite app_nil_r|]. rewrite app_assoc. intros [Hf Hg]%Forall_app Hl.
  rewrite length_app in Hl. cbn in Hl. rewrite pack_cost_snoc.
  apply Forall_singleton in Hg as (_ & _ & Hg). specialize (IH Hf ltac:(lia)).
  pose proof (total_blocks_mono (len g.2) (len g.2) ltac:(lia) ltac:(lia)).
  pose proof (total_blocks_mono (32 * len (fs ++ gs)) (32 * (len (fs ++ gs) + 1)) ltac:(lia) ltac:(unfold MAX_BLOCKS; lia)).
  unfold growth. lia.
Qed.

Lemma seqZ_snoc i n : 0 ≤ n → seqZ i (n + 1) = seqZ i n ++ [i + n].
Proof. intros Hn. rewrite seqZ_app by lia. f_equal. Qed.

Lemma length_seqZ_len {A} i (l : list A) : length (seqZ i (len l)) = length l.
Proof. rewrite length_seqZ. lia. Qed.

Lemma packed_ids fs j : is_Some (a_files (packed fs) !! j) ↔ 1 ≤ j ≤ len fs.
Proof.
  cbn [packed a_files]. rewrite <- not_eq_None_Some, <- not_elem_of_list_to_map, fst_zip by (rewrite length_seqZ_len, length_fmap; lia).
  rewrite elem_of_seqZ. lia.
Qed.

Lemma packed_snoc fs name data : packed (fs ++ [(name, data)]) =
  MkAfs (a_dir (packed fs) ++ [(name, len fs + 1)]) (<[len fs + 1 := data]> (a_files (packed fs))).
Proof.
  unfold packed. rewrite !fmap_app, length_app. replace (Z.of_nat (length fs + length [(name, data)])) with (len fs + 1) by (cbn; lia).
  rewrite seqZ_snoc by lia. rewrite !zip_with_app by (rewrite length_fmap, length_seqZ_len; done || rewrite length_seqZ_len, length_fmap; done).
  cbn [a_dir a_files fmap list_fmap zip_with fst snd]. replace (1 + len fs) with (len fs + 1) by lia. f_equal.
  rewrite list_to_map_snoc; [done|]. rewrite fst_zip by (rewrite length_seqZ_len, length_fmap; lia). rewrite elem_of_seqZ. lia.
Qed.

Lemma dir_find_zip name fs ids : length fs = length ids → name ∉ fs → dir_find name (zip fs ids) = None.
Proof.
  revert ids. induction fs as [|x fs IH]; intros [|i ids]; try done. cbn. intros [= Hl] [? ?]%not_elem_of_cons.
  rewrite decide_False by done. by apply IH.
Qed.

Lemma packed_find fs : NoDup fs.*1 → ∀ name data, (name, data) ∈ fs →
  ∃ id, dir_find name (a_dir (packed fs)) = Some id ∧ a_files (packed fs) !! id = Some data.
Proof.
  induction fs as [|[n d] fs IH] using rev_ind; [by intros _ ?? ?%not_elem_of_nil|]. rewrite fmap_app.
  intros (Hnd & Hdis & _)%NoDup_app name data Hin. rewrite packed_snoc. cbn [a_dir a_files].
  assert (∀ es, dir_find name (es ++ [(n, len fs + 1)]) = match dir_find name es with Some i => Some i | None =>
    if decide (n = name) then Some (len fs + 1) else None end) as Happ.
  { intros es. induction es as [|e es IHe]; cbn; [done|]. destruct (decide (e.1 = name)); [done|exact IHe]. }
  rewrite Happ. apply elem_of_app in Hin as [Hin|[= -> ->]%list_elem_of_singleton].
  - destruct (IH Hnd name data Hin) as (id & -> & Hf). exists id. split; [done|].
    assert (1 ≤ id ≤ len fs) by (by apply packed_ids; eexists). by rewrite lookup_insert_ne by lia.
  - unfold packed. cbn [a_dir]. rewrite dir_find_zip.
    + rewrite decide_True by done. eexists. split; [done|apply lookup_insert_eq].
    + by rewrite length_seqZ_len, length_fmap.
    + intros Hn. apply (Hdis n Hn). cbn. set_solver.
Qed.

Lemma fresh_from_skip files n : ∀ i k, (∀ j, i ≤ j < i + k → is_Some (files !! j)) → files !! (i + k) = None →
  0 ≤ k < Z.of_nat n → fresh_from files n i = i + k.
Proof.
  induction n as [|n IH]; intros i k Hs Hn Hk; [lia|]. cbn [fresh_from]. destruct (decide (k = 0)) as [->|Hne].
  - rewrite Z.add_0_r in *. by rewrite Hn.
  - destruct (Hs i ltac:(lia)) as [x ->]. rewrite (IH (i + 1) (k - 1)); [lia| |by replace (i + 1 + (k - 1)) with (i + k) by lia|lia].
    intros j Hj. apply Hs. lia.
Qed.

Lemma packed_fresh fs : len fs < 4095 → fresh pack_efs (packed fs) = len fs + 1.
Proof.
  intros Hl. unfold fresh. replace (len fs + 1) with (1 + len fs) by lia. apply fresh_from_skip.
  - intros j Hj. apply packed_ids. lia.
  - destruct (a_files (packed fs) !! (1 + len fs)) eqn:E; [|done].
    assert (1 ≤ 1 + len fs ≤ len fs) by (apply packed_ids; by eexists). lia.
  - cbn. lia.
Qed.

(** * The packer's run *)

Lemma pack_geo : efs_wf pack_efs pack_data.
Proof. apply mk_efs_wf; lia. Qed.

Section Run.
Abbreviation root := (EasyFileSystem_root_inode pack_efs).

(** An operation that is known to run, with its result and what it leaves to write back. *)
Lemma vop_runs {A} (p : prog A) (g : A → vres) op bl u a :
  (∃ f, run_vop pack_efs op = p ≫= f ∧ ∀ r, f r = mret (g r)) →
  fs_rep pack_efs pack_data bl u a → vop_ok pack_efs pack_data u op a →
  ∃ r bl', run_flat p (MkFlat bl ∅) = Ok (r, MkFlat bl' ∅) ∧
    (∀ b, syncs b op a = true → flat_synced p (MkFlat bl ∅) b = true) ∧
    g r = (abs_vop pack_efs op a).1 ∧ fs_rep pack_efs pack_data bl' (u + vop_cost op a) (abs_vop pack_efs op a).2.
Proof.
  intros (f & Hp & Hf) Hr Hok. pose proof (rep_vop _ _ pack_geo bl u a op Hr Hok) as Hwp. rewrite Hp in Hwp.
  apply (wp_ret_inv _ _ _ g) in Hwp; [|done]. destruct Hwp as (r & bl' & Hrun & Hg & Hr'). exists r, bl'. split; [done|].
  split; [|done]. intros b Hs. pose proof (vop_synced _ _ pack_geo bl u a op b Hr Hok Hs) as Hsy. rewrite Hp in Hsy.
  by rewrite (flat_synced_bind _ _ _ _ _ _ Hrun), Hf in Hsy.
Qed.

Lemma pack_one fs name data bl : NoDup (fs ++ [(name, data)]).*1 → Forall file_packable (fs ++ [(name, data)]) →
  len fs < 4095 → pack_cost (fs ++ [(name, data)]) ≤ pack_data → fs_rep pack_efs pack_data bl (pack_cost fs) (packed fs) →
  ∃ bl1 bl2, run_flat (Inode_create pack_efs root name) (MkFlat bl ∅) =
      Ok (Some (inode_at pack_efs (len fs + 1)), MkFlat bl1 ∅) ∧
    run_flat (Inode_write_at pack_efs (inode_at pack_efs (len fs + 1)) 0 data) (MkFlat bl1 ∅) = Ok (len data, MkFlat bl2 ∅) ∧
    (∀ b, flat_synced (Inode_write_at pack_efs (inode_at pack_efs (len fs + 1)) 0 data) (MkFlat bl1 ∅) b = true) ∧
    fs_rep pack_efs pack_data bl2 (pack_cost (fs ++ [(name, data)])) (packed (fs ++ [(name, data)])).
Proof.
  intros Hnd [Hfs Hp]%Forall_app Hl Hc Hr. apply Forall_singleton in Hp as (Hn & Hb & Hd). cbn [fst snd] in *.
  rewrite fmap_app in Hnd. apply NoDup_app in Hnd as (_ & Hdis & _). pose proof (packed_fresh fs Hl) as Hfr.
  assert (len (a_dir (packed fs)) = len fs) as Hld.
  { cbn. rewrite length_zip, length_fmap, length_seqZ_len. lia. }
  assert (dir_find name (a_dir (packed fs)) = None) as Hfind.
  { apply dir_find_zip; [by rewrite length_seqZ_len, length_fmap|]. intros Hin. apply (Hdis name Hin). cbn. set_solver. }
  rewrite pack_cost_snoc in Hc |- *. cbn [snd] in *.
  pose proof (total_blocks_mono (len data) (len data) ltac:(lia) ltac:(lia)) as Ht.
  assert (vop_cost (VCreate name) (packed fs) = growth (32 * len fs) (32 * (len fs + 1))) as Hvc.
  { cbn [vop_cost]. rewrite Hfind. unfold dir_growth. by rewrite Hld. }
  destruct (vop_runs (Inode_create pack_efs root name) RInode (VCreate name) bl (pack_cost fs) (packed fs)) as (r & bl1 & Hrun1 & _ & Hr1 & Hrep1);
    [by eexists|exact Hr| |].
  { split; [rewrite Hvc; lia|]. intros _. rewrite Hfr, Hld. unfold MAX_BLOCKS. split; [done|lia]. }
  rewrite Hvc in Hrep1. cbn [abs_vop fst snd] in Hr1, Hrep1. rewrite Hfind, Hfr in Hr1, Hrep1. injection Hr1 as ->. cbn [fst snd] in Hrep1.
  set (a1 := MkAfs _ _) in Hrep1. assert (a_files a1 !! (len fs + 1) = Some []) as Ha1 by apply lookup_insert_eq.
  destruct (vop_runs (Inode_write_at pack_efs (inode_at pack_efs (len fs + 1)) 0 data) RNum (VWrite (len fs + 1) 0 data) bl1
    (pack_cost fs + growth (32 * len fs) (32 * (len fs + 1))) a1)
    as (r & bl2 & Hrun2 & Hsy & Hr2 & Hrep2); [by eexists|exact Hrep1| |].
  { unfold vop_ok, vop_cost. rewrite Ha1. change (default [] (Some [])) with (@nil Z). unfold growth at 2.
    change (DiskInode_total_blocks (len [])) with 0. replace (Z.max (len []) (0 + len data)) with (len data) by (cbn; lia).
    split; [lia|]. split; [by eexists|]. split; [done|]. lia. }
  exists bl1, bl2. injection Hr2 as ->. split; [done|]. split; [done|]. split; [intros b; by apply Hsy|].
  cbn [abs_vop vop_cost fst snd] in Hrep2. rewrite Ha1 in Hrep2. change (default [] (Some [])) with (@nil Z) in Hrep2.
  rewrite packed_snoc. unfold growth at 2 in Hrep2. replace (Z.max (len []) (0 + len data)) with (len data) in Hrep2 by (cbn; lia).
  change (DiskInode_total_blocks (len [])) with 0 in Hrep2. rewrite Z.sub_0_r in Hrep2.
  cbn [a1 a_dir a_files] in Hrep2. rewrite insert_insert_eq in Hrep2.
  assert (write_content [] 0 data = data) as Hw; [|by rewrite Hw in Hrep2].
  unfold write_content, splice. cbn. rewrite Z.sub_0_r, drop_ge, app_nil_r by (rewrite length_replicate; lia). done.
Qed.

Lemma pack_entries_ok entries : ∀ fs gs bl b, mapM load_entry entries = Ok gs → packable (fs ++ gs) →
  fs_rep pack_efs pack_data bl (pack_cost fs) (packed fs) →
  ∃ bl', run_flat (pack_entries pack_efs root entries) (MkFlat bl ∅) = Ok ((), MkFlat bl' ∅) ∧
    (b = true → flat_synced (pack_entries pack_efs root entries) (MkFlat bl ∅) b = true) ∧
    fs_rep pack_efs pack_data bl' (pack_cost (fs ++ gs)) (packed (fs ++ gs)).
Proof.
  induction entries as [|e entries IH]; intros fs gs bl b; cbn [pack_entries].
  - intros [= <-] _ Hr. rewrite app_nil_r. by exists bl.
  - cbn [mapM]. destruct (load_entry e) as [[name data]|] eqn:He; [|done]. destruct (mapM load_entry entries) as [gs'|] eqn:Hg; [|done].
    intros [= <-] Hp Hr. change ((name, data) :: gs') with ([(name, data)] ++ gs') in *.
    rewrite app_assoc in *. destruct Hp as (Hnd & Hf & Hl & Hc).
    destruct (pack_one fs name data bl) as (bl1 & bl2 & H1 & H2 & Hs & Hr2); [| | | |exact Hr|].
    + rewrite (fmap_app _ (fs ++ _)) in Hnd. by apply NoDup_app in Hnd as [? _].
    + by apply Forall_app in Hf as [? _].
    + rewrite !length_app in Hl. cbn in Hl. lia.
    + by etrans; [apply (pack_cost_app _ gs')|].
    + destruct (IH (fs ++ [(name, data)]) gs' bl2 true eq_refl) as (bl3 & H3 & Hs3 & Hr3); [done|done|].
      exists bl3. cbn [prog_lift]. split; [|split; [|done]].
      * change (run_flat (o ← Inode_create pack_efs root name; inode ← prog_lift (unwrap o);
          _ ← Inode_write_at pack_efs inode 0 data; pack_entries pack_efs root entries) (MkFlat bl ∅) = Ok ((), MkFlat bl3 ∅)).
        rewrite run_flat_bind, H1. change (run_flat (_ ← Inode_write_at pack_efs (inode_at pack_efs (len fs + 1)) 0 data;
          pack_entries pack_efs root entries) (MkFlat bl1 ∅) = Ok ((), MkFlat bl3 ∅)). by rewrite run_flat_bind, H2.
      * intros _. change (flat_synced (o ← Inode_create pack_efs root name; inode ← prog_lift (unwrap o);
          _ ← Inode_write_at pack_efs inode 0 data; pack_entries pack_efs root entries) (MkFlat bl ∅) b = true).
        rewrite (flat_synced_bind _ _ _ _ _ _ H1). set (b1 := flat_synced _ _ b).
        change (flat_synced (_ ← Inode_write_at pack_efs (inode_at pack_efs (len fs + 1)) 0 data;
          pack_entries pack_efs root entries) (MkFlat bl1 ∅) b1 = true).
        rewrite (flat_synced_bind _ _ _ _ _ _ H2).
        rewrite Hs. by apply Hs3.
Qed.
End Run.

Lemma set_len_blocks f b : 0 ≤ b < 14000 → is_Some (dev_blocks (BlockFile_set_len f (14000 * 512)) !! b).
Proof.
  intros Hb. eexists. apply file_blocks_lookup. split; [|reflexivity]. unfold file_has, BlockFile_set_len. cbn [bf_file].
  rewrite length_take, length_app, length_replicate. lia.
Qed.

(** The packer's output: an image that holds the packed file system. *)
Lemma easy_fs_pack_ok output entries files : mapM load_entry entries = Ok files → packable files →
  ∃ image, easy_fs_pack output entries = Ok (files.*1, image) ∧
    fs_rep pack_efs pack_data (dev_blocks image) (pack_cost files) (packed files).
Proof.
  intros Hload Hp. set (dev := BlockFile_set_len output (14000 * 512)).
  destruct (efs_create_ok 14000 1 ltac:(lia) ltac:(lia) (dev_blocks dev)) as (efs & bl0 & Hcr & -> & Hrep0).
  { intros b [d Hd]%(set_len_blocks output). exists d. split; [exact Hd|]. by apply (dev_blocks_block dev b). }
  destruct (pack_entries_ok entries [] files bl0 true Hload Hp Hrep0) as (bl1 & Hrun1 & Hs1 & Hrep1). rewrite app_nil_l in Hrep1.
  destruct (vop_runs (Inode_ls (EasyFileSystem_root_inode pack_efs)) RNames VLs bl1 _ _ ltac:(by eexists) Hrep1)
    as (r & bl2 & Hrun2 & Hs2 & [= ->] & Hrep2); [split; [|done]; cbn; destruct Hp; lia|].
  cbn [vop_cost abs_vop snd] in Hrep2. rewrite Z.add_0_r in Hrep2.
  destruct (run_synced (pack_prog entries) (BlockCacheManager_new dev) (MkFlat (dev_blocks dev) ∅) false
    (a_dir (packed files)).*1 (MkFlat bl2 ∅)) as (m & Hm & _ & _ & Hd).
  - apply cache_rel_init.
  - done.
  - unfold pack_prog. by rewrite run_flat_bind, Hcr, run_flat_bind, Hrun1.
  - unfold pack_prog. rewrite (flat_synced_bind _ _ _ _ _ _ Hcr), (efs_create_synced 14000 1 ltac:(lia) ltac:(lia) _ _ _ Hcr).
    by rewrite (flat_synced_bind _ _ _ _ _ _ Hrun1), Hs1, Hs2.
  - exists (bm_dev m). cbn [fl_blocks] in Hd. rewrite Hd. split; [|exact Hrep2]. unfold easy_fs_pack. fold dev. rewrite Hm.
    cbn [packed a_dir]. rewrite fst_zip by (rewrite length_seqZ_len, length_fmap; lia). done.
Qed.

(** * Mounting the image *)

Section Mount.
Context {D : Type} `{BlockDevice D, !BlockDeviceLaws D}.

Lemma packed_mounts (dev : D) (image : BlockFile) files :
  fs_rep pack_efs pack_data (dev_blocks image) (pack_cost files) (packed files) → dev_blocks dev = dev_blocks image →
  ∃ c, run_cached ROOT_INODE (BlockCacheManager_new dev) = Ok ((pack_efs, EasyFileSystem_root_inode pack_efs), c) ∧
    ∀ k : Kernel D, k_cache k = c → k_efs k = pack_efs → k_root k = EasyFileSystem_root_inode pack_efs →
      mounted pack_data (pack_cost files) (packed files) k.
Proof.
  intros Hrep Hdev. destruct (rep_open _ _ pack_geo _ _ _ Hrep) as (efs & bl2 & Hop & -> & ->).
  pose proof (run_refines ROOT_INODE _ _ (cache_rel_init dev)) as Hr. unfold ROOT_INODE in Hr at 1.
  rewrite Hdev, run_flat_bind, Hop in Hr. destruct Hr as (c & Hc & Hrel). exists c. split; [exact Hc|]. intros k Ek Ee Er.
  split; [rewrite Ee; apply pack_geo|by rewrite Er, Ee|]. exists (dev_blocks image). by rewrite Ek, Ee.
Qed.

Lemma packed_ls (k : Kernel D) files : mounted pack_data (pack_cost files) (packed files) k →
  ∃ c, list_apps k = Ok (files.*1, set_cache_mgr k c) ∧ mounted pack_data (pack_cost files) (packed files) (set_cache_mgr k c).
Proof.
  intros Hm. destruct (root_ls_ok _ _ _ _ Hm) as (c & Hls & Hm'). exists c. rewrite Hls. cbn [packed a_dir].
  by rewrite fst_zip by (rewrite length_seqZ_len, length_fmap; lia).
Qed.

(** Opening and reading changes the cache and the table of open files. *)
Lemma packed_read (k : Kernel D) files name data fuel : mounted pack_data (pack_cost files) (packed files) k → NoDup files.*1 →
  (name, data) ∈ files → len data + 512 ≤ 512 * Z.of_nat fuel →
  ∃ k1 c fs, open_file name OpenFlags_RDONLY k = Ok (Some (k_next_file k), k1) ∧
    OSInode_read_all fuel (k_next_file k) k1 = Ok (data, set_next_file (with_fs k c fs) (k_next_file k + 1)).
Proof.
  intros Hm Hnd Hin Hfuel. destruct (packed_find files Hnd name data Hin) as (id & Hfind & Hfile).
  pose proof (open_file_ok _ _ _ k name OpenFlags_RDONLY Hm) as Ho. unfold afs_open in Ho. rewrite Hfind in Ho.
  destruct Ho as (c' & u' & Hopen & Hm'); [discriminate|]. eexists. 
  destruct (read_all_loop_ok fuel _ _ _ _ (k_next_file k) id (OSInode_new true false (inode_at (k_efs k) id)) data
    (replicate 512 0) [] Hm') as (c2 & Hread & _); [|exact Hfile|cbn; lia|done|cbn; lia|].
  - split; [apply lookup_insert_eq|done].
  - eexists _, _. split; [exact Hopen|exact Hread].
Qed.
End Mount.

(** * Properties *)

Section Properties.
Context {D : Type} `{BlockDevice D, !BlockDeviceLaws D}.

(** C20: the image the packer makes serves its files to the kernel.  For readable host
    files with distinct names that fit, [easy_fs_pack] lists all names, whatever the
    output file held before; a kernel that mounts a device with the blocks of the output
    file lists the same names, and opening each of them and reading it to the end gives
    the bytes of the host file. *)
Theorem packed_image_serves (output : BlockFile) (entries : list HostEntry) (files : list (list Z * list Z))
    (Hload : mapM load_entry entries = Ok files) (Hp : packable files) :
  ∃ image, easy_fs_pack output entries = Ok (files.*1, image) ∧
    ∀ dev : D, dev_blocks dev = dev_blocks image →
    ∃ efs root c, run_cached ROOT_INODE (BlockCacheManager_new dev) = Ok ((efs, root), c) ∧
    ∀ k : Kernel D, k_cache k = c → k_efs k = efs → k_root k = root →
      (∃ k1, list_apps k = Ok (files.*1, k1)) ∧
      ∀ name data fuel, (name, data) ∈ files → len data + 512 ≤ 512 * Z.of_nat fuel →
        ∃ f k1 k2, open_file name OpenFlags_RDONLY k = Ok (Some f, k1) ∧ OSInode_read_all fuel f k1 = Ok (data, k2).
Proof.
  destruct (easy_fs_pack_ok output entries files Hload Hp) as (image & Hpack & Hrep). exists image. split; [done|].
  intros dev Hdev. destruct (packed_mounts dev image files Hrep Hdev) as (c & Hc & Hm). eexists _, _, c. split; [exact Hc|].
  intros k Ek Ee Er. specialize (Hm k Ek Ee Er). split.
  - destruct (packed_ls _ _ Hm) as (c' & Hls & _). by eexists.
  - intros name data fuel Hin Hfuel. destruct (packed_read k files name data fuel Hm (proj1 Hp) Hin Hfuel) as (k1 & c' & fs & Ho & Hr).
    by eexists _, _, _.
Qed.
End Properties.

(** * Witnesses

    Two host files, ["a.bin"] and [".b"]. *)

Definition demo_entries : list HostEntry :=
  [MkHostEntry [97; 46; 98; 105; 110] (Some [1; 2]); MkHostEntry [46; 98] (Some [3])].
Definition demo_files : list (list Z * list Z) := [([97], [1; 2]); ([46; 98], [3])].

Lemma demo_packable : mapM load_entry demo_entries = Ok demo_files ∧ packable demo_files.
Proof.
  split; [vm_compute; reflexivity|]. split; [apply (bool_decide_unpack _); vm_compute; exact I|]. split.
  - repeat apply Forall_cons_2; [..|by apply Forall_nil]; (split; [split; [cbn; lia|]|]).
    all: split; [apply (bool_decide_unpack _); vm_compute; exact I|].
    all: try (cbn; unfold MAX_BLOCKS; lia). all: split; [|reflexivity]; set_solver by lia.
  - split; vm_compute; discriminate.
Qed.

Definition demo_kernel (m : BlockCacheManager BlockFile) (efs : EasyFileSystem) (root : Inode) : Kernel BlockFile :=
  let k := demo_os m in
  MkKernel (k_mm k) (k_space k) (k_pids k) (k_kstacks k) ∅ 0 ∅ [] None 0 ∅ 3 m efs root 0 0 [].

Lemma packed_image_serves_witness : ∃ image efs root m f k1 k2,
  easy_fs_pack (MkBlockFile [7; 7]) demo_entries = Ok ([[97]; [46; 98]], image) ∧
  run_cached ROOT_INODE (BlockCacheManager_new image) = Ok ((efs, root), m) ∧
  open_file [97] OpenFlags_RDONLY (demo_kernel m efs root) = Ok (Some f, k1) ∧
  OSInode_read_all 2 f k1 = Ok ([1; 2], k2).
Proof.
  destruct demo_packable as [Hl Hp].
  destruct (packed_image_serves (D := BlockFile) (MkBlockFile [7; 7]) demo_entries demo_files Hl Hp) as (image & Hpack & Hk).
  destruct (Hk image eq_refl) as (efs & root & m & Hroot & Hf).
  destruct (Hf (demo_kernel m efs root) eq_refl eq_refl eq_refl) as [_ Hread].
  destruct (Hread [97] [1; 2] 2%nat) as (f & k1 & k2 & Ho & Hr).
  - left.
  - cbn. lia.
  - exists image, efs, root, m, f, k1, k2. exact (conj Hpack (conj Hroot (conj Ho Hr))).
Defined.
