(* ===== verification/Process.v ===== *)
(** Processes ([os/src/task/task.rs], [id.rs] and [mod.rs]): creation, [exec], [fork],
    [spawn], exit, and the destruction of a control block when its last reference goes. *)

From S2P Require Import Prelude Config Address FrameAllocator TaskId PhysMem PageTable UserMem MemorySet.
From S2P Require Import BlockDev BlockCache Kernel OsFile.

(** [x as isize] *)
Definition signed (w x : Z) : Z := if decide (wrap w x < 2 ^ (w - 1)) then wrap w x else wrap w x - 2 ^ w.

Section Process.
Context {D : Type} `{BlockDevice D} (env : Env).

(** * Identifiers and kernel stacks *)

Definition pid_alloc : M (Kernel D) Z := λ k,
  let '(pid, a) := RecycleAllocator_alloc (k_pids k) in Ok (pid, set_pids k a).

Definition PidHandle_drop (pid : Z) : M (Kernel D) unit := λ k,
  match RecycleAllocator_dealloc (k_pids k) pid with Ok a => Ok ((), set_pids k a) | Err e => Err e end.

Definition kstack_alloc : M (Kernel D) Z := λ k,
  let '(kstack_id, a) := RecycleAllocator_alloc (k_kstacks k) in
  let k := set_kstacks k a in
  let '(kstack_bottom, kstack_top) := kernel_stack_position kstack_id in
  (space ← on_mm (MemorySet_insert_framed_area (k_space k) (VirtAddr_from kstack_bottom)
                    (VirtAddr_from kstack_top) (Z.lor MapPermission_R MapPermission_W));
   _ ← modify (λ k, set_space k space);
   mret kstack_id) k.

Definition kstack_dealloc (kstack : Z) : M (Kernel D) unit := λ k,
  match RecycleAllocator_dealloc (k_kstacks k) kstack with Ok a => Ok ((), set_kstacks k a) | Err e => Err e end.

Definition KernelStack_drop (kstack : Z) : M (Kernel D) unit :=
  let '(kernel_stack_bottom, _) := kernel_stack_position kstack in
  let kernel_stack_bottom_va := VirtAddr_from kernel_stack_bottom in
  vpn ← lift (VirtPageNum_from_VirtAddr kernel_stack_bottom_va);
  k ← get_state;
  space ← on_mm (MemorySet_remove_area_with_start_vpn (k_space k) vpn);
  _ ← modify (λ k, set_space k space);
  kstack_dealloc kstack.

(** * Creating processes *)

(** [memory_set.translate(VirtAddr::from(TRAP_CONTEXT_BASE).into()).unwrap().ppn()] *)
Definition trap_cx_ppn_of (ms : MemorySet) : M (Kernel D) PhysPageNum :=
  vpn ← lift (VirtPageNum_from_VirtAddr (VirtAddr_from TRAP_CONTEXT_BASE));
  m ← get_mem;
  e ← lift (unwrap (MemorySet_translate m ms vpn));
  mret (PageTableEntry_ppn e).

Definition kernel_token : M (Kernel D) Z := gets (λ k, MemorySet_token (k_space k)).

(** [*trap_cx = TrapContext::app_init_context(..)] *)
Definition init_trap_cx (ppn : PhysPageNum) (entry_point user_sp kernel_stack_top : Z) : M (Kernel D) unit :=
  token ← kernel_token;
  on_mem (λ m, set_trap_cx m ppn
    (TrapContext_app_init_context (env_sstatus env) entry_point user_sp token kernel_stack_top (env_trap_handler env))).

Definition TaskControlBlock_new (elf_data : list Z) : M (Kernel D) TaskControlBlock :=
  '(memory_set, user_sp, entry_point) ← on_mm (MemorySet_from_elf (env_symbols env) (env_elf_new env) elf_data);
  trap_cx_ppn ← trap_cx_ppn_of memory_set;
  pid_handle ← pid_alloc;
  kernel_stack ← kstack_alloc;
  let kernel_stack_top := KernelStack_get_top kernel_stack in
  task_info ← TaskInfo_new env;
  let tcb := MkTcb pid_handle kernel_stack trap_cx_ppn user_sp
    (TaskContext_goto_trap_return (env_trap_return env) kernel_stack_top) Ready memory_set None [] 0
    [Some Stdin; Some Stdout; Some Stdout] user_sp user_sp task_info 0 16 in
  _ ← init_trap_cx trap_cx_ppn entry_point user_sp kernel_stack_top;
  mret tcb.

Definition TaskControlBlock_exec (self : Z) (elf_data : list Z) : M (Kernel D) unit :=
  '(memory_set, user_sp, entry_point) ← on_mm (MemorySet_from_elf (env_symbols env) (env_elf_new env) elf_data);
  trap_cx_ppn ← trap_cx_ppn_of memory_set;
  inner ← get_tcb self;
  _ ← set_tcb self (set_memory_set inner memory_set);
  _ ← on_mm (MemorySet_drop (tcb_memory_set inner));
  inner ← get_tcb self;
  _ ← set_tcb self (set_trap_cx_ppn inner trap_cx_ppn);
  init_trap_cx trap_cx_ppn entry_point user_sp (KernelStack_get_top (tcb_kernel_stack inner)).

(** [parent_inner.children.push(child.clone())] *)
Definition push_child (parent child : Z) : M (Kernel D) unit :=
  b ← get_tcb parent;
  set_tcb parent (set_children b (vec_push (tcb_children b) child)).

Definition TaskControlBlock_fork (self : Z) : M (Kernel D) Z :=
  parent_inner ← get_tcb self;
  memory_set ← on_mm (MemorySet_from_existed_user (env_symbols env) (tcb_memory_set parent_inner));
  trap_cx_ppn ← trap_cx_ppn_of memory_set;
  pid_handle ← pid_alloc;
  kernel_stack ← kstack_alloc;
  let kernel_stack_top := KernelStack_get_top kernel_stack in
  let new_fd_table := tcb_fd_table parent_inner in
  task_info ← TaskInfo_new env;
  task_control_block ← Arc_new_tcb (MkTcb pid_handle kernel_stack trap_cx_ppn (tcb_base_size parent_inner)
    (TaskContext_goto_trap_return (env_trap_return env) kernel_stack_top) Ready memory_set (Some self) [] 0
    new_fd_table (tcb_heap_bottom parent_inner) (tcb_program_brk parent_inner) task_info 0 16);
  _ ← push_child self task_control_block;
  _ ← on_mem (λ m, set_cx_word m trap_cx_ppn CX_KERNEL_SP kernel_stack_top);
  mret task_control_block.

Definition TaskControlBlock_spawn (self : Z) (elf_data : list Z) : M (Kernel D) Z :=
  parent_inner ← get_tcb self;
  '(memory_set, user_sp, entry_point) ← on_mm (MemorySet_from_elf (env_symbols env) (env_elf_new env) elf_data);
  trap_cx_ppn ← trap_cx_ppn_of memory_set;
  pid_handle ← pid_alloc;
  kernel_stack ← kstack_alloc;
  let kernel_stack_top := KernelStack_get_top kernel_stack in
  let new_fd_table := tcb_fd_table parent_inner in
  task_info ← TaskInfo_new env;
  task_control_block ← Arc_new_tcb (MkTcb pid_handle kernel_stack trap_cx_ppn user_sp
    (TaskContext_goto_trap_return (env_trap_return env) kernel_stack_top) Ready memory_set (Some self) [] 0
    new_fd_table (tcb_heap_bottom parent_inner) (tcb_program_brk parent_inner) task_info 0 16);
  _ ← init_trap_cx trap_cx_ppn entry_point user_sp kernel_stack_top;
  _ ← push_child self task_control_block;
  _ ← on_mem (λ m, set_cx_word m trap_cx_ppn CX_KERNEL_SP kernel_stack_top);
  mret task_control_block.

(** * The program break *)

Definition TaskControlBlock_change_program_brk (self : Z) (size : Z) : M (Kernel D) (option Z) :=
  inner ← get_tcb self;
  let heap_bottom := tcb_heap_bottom inner in
  let old_break := tcb_program_brk inner in
  let new_brk := signed 64 (signed 64 (tcb_program_brk inner) + size) in
  if decide (new_brk < signed 64 heap_bottom) then mret None
  else
    '(result, ms) ←
      (if decide (size < 0)
       then on_mm (MemorySet_shrink_to (tcb_memory_set inner) (MkVirtAddr heap_bottom) (MkVirtAddr (wrap 64 new_brk)))
       else on_mm (MemorySet_append_to (tcb_memory_set inner) (MkVirtAddr heap_bottom) (MkVirtAddr (wrap 64 new_brk))));
    let inner := set_memory_set inner ms in
    if (result : bool) then
      _ ← set_tcb self (set_program_brk inner (wrap 64 new_brk));
      mret (Some old_break)
    else
      _ ← set_tcb self inner;
      mret None.

(** * Destruction

    Dropping the last reference drops the fields of the block in order: the pid, the
    kernel stack, the address space, the references to the children. *)
Fixpoint Arc_drop (n : nat) (t : Z) : M (Kernel D) unit :=
  k ← get_state;
  if decide (Arc_strong_count k t = 0%nat) then
    match n with
    | O => lift (Err OutOfFuel)
    | S n' =>
        b ← get_tcb t;
        _ ← modify (λ k, set_konts (set_tcbs k (delete t (k_tcbs k))) (delete t (k_konts k)));
        _ ← PidHandle_drop (tcb_pid b);
        _ ← KernelStack_drop (tcb_kernel_stack b);
        _ ← on_mm (MemorySet_drop (tcb_memory_set b));
        for_each (Arc_drop n') (tcb_children b)
    end
  else mret ().

(** The recursion is as deep as the tree of tasks. *)
Definition drop_task (t : Z) : M (Kernel D) unit :=
  k ← get_state;
  Arc_drop (S (size (k_tcbs k))) t.

(** * Exit *)

Definition IDLE_PID : Z := 0.

(** [child.parent = Some(INITPROC); initproc.children.push(child)] *)
Definition adopt (child : Z) : M (Kernel D) unit :=
  k ← get_state;
  b ← get_tcb child;
  _ ← set_tcb child (set_parent b (Some (k_initproc k)));
  push_child (k_initproc k) child.

Definition exit_current_and_run_next (exit_code : Z) : M (Kernel D) unit :=
  o ← take_current_task;
  task ← lift (unwrap o);
  inner ← get_tcb task;
  if decide (tcb_pid inner = IDLE_PID) then lift (Err Panic)
  else
    _ ← set_tcb task (set_exit_code (set_status inner Zombie) exit_code);
    _ ← for_each adopt (tcb_children inner);
    inner ← get_tcb task;
    let inner := set_children inner [] in
    ms ← on_mm (MemorySet_recycle_data_pages (tcb_memory_set inner));
    let inner := set_fd_table (set_memory_set inner ms) [] in
    _ ← set_tcb task inner;
    drop_task task.

(** * The initial process *)

(** ["ch6b_initproc"] *)
Definition initproc_name : list Z := [99; 104; 54; 98; 95; 105; 110; 105; 116; 112; 114; 111; 99].

(** The initialiser of the lazy static. *)
Definition INITPROC : M (Kernel D) Z :=
  o ← open_file initproc_name OpenFlags_RDONLY;
  inode ← lift (unwrap o);
  v ← OSInode_read_all (env_fuel env) inode;
  tcb ← TaskControlBlock_new v;
  Arc_new_tcb tcb.

(** The first use of [INITPROC] runs its initialiser. *)
Definition add_initproc : M (Kernel D) unit :=
  initproc ← INITPROC;
  _ ← modify (λ k, set_initproc k initproc);
  add_task initproc.
End Process.
