(* ===== verification/Syscall.v ===== *)
(** System calls and traps ([os/src/syscall/mod.rs], [process.rs], [fs.rs], the wrappers of
    [os/src/task/mod.rs], and [os/src/trap/mod.rs]).  A call either returns a value, which
    the trap handler stores in [x10] of the caller, or takes the task off the processor. *)

From S2P Require Import Prelude Config Address FrameAllocator TaskId PhysMem PageTable UserMem MemorySet.
From S2P Require Import BlockDev BlockCache BlockAccess Efs Vfs Kernel OsFile Process.

(** * Structures passed to programs *)

Definition TimeVal_bytes (sec usec : Z) : list Z := le_bytes 8 sec ++ le_bytes 8 usec.

Record Stat := MkStat { st_dev : Z; st_ino : Z; st_mode : Z; st_nlink : Z; st_pad : list Z }.
Definition StatMode_FILE : Z := 0x8000.
(** [#[repr(C)]] *)
Definition Stat_bytes (s : Stat) : list Z :=
  le_bytes 8 (st_dev s) ++ le_bytes 8 (st_ino s) ++ le_bytes 4 (st_mode s) ++ le_bytes 4 (st_nlink s) ++
  words_bytes 8 (st_pad s).

Section Syscall.
Context {D : Type} `{BlockDevice D} (env : Env).

(** * Wrappers that take the current task off the processor and put it back *)

Definition with_current {A} (f : TaskControlBlock → M (Kernel D) (A * TaskControlBlock)) : M (Kernel D) A :=
  o ← take_current_task;
  task ← lift (unwrap o);
  inner ← get_tcb task;
  '(a, inner) ← f inner;
  _ ← set_tcb task inner;
  _ ← set_current_task task;
  mret a.

Definition TaskControlBlockInner_add_maparea (inner : TaskControlBlock) (start_va end_va : VirtAddr)
    (permission : MapPermission) : M (Kernel D) (unit * TaskControlBlock) :=
  ms ← on_mm (MemorySet_insert_framed_area (tcb_memory_set inner) start_va end_va permission);
  mret ((), set_memory_set inner ms).

Definition TaskControlBlockInner_remove_maparea (inner : TaskControlBlock) (start_va end_va : VirtAddr) :
    M (Kernel D) (Z * TaskControlBlock) :=
  '(i, ms) ← on_mm (MemorySet_remove_framed_area (tcb_memory_set inner) start_va end_va);
  mret (i, set_memory_set inner ms).

Definition TaskControlBlockInner_check_maparea (inner : TaskControlBlock) (start_va end_va : VirtAddr) : bool :=
  MemorySet_check_conflict (tcb_memory_set inner) start_va end_va.

Definition TaskControlBlockInner_update_taskinfo (inner : TaskControlBlock) (id : Z) :
    M (Kernel D) (Z * TaskControlBlock) :=
  let info := tcb_task_info inner in
  n ← lift (vec_get (ti_syscall_times info) id);
  times ← lift (vec_set (ti_syscall_times info) id (n + 1)%u32);
  mret (0, set_task_info inner (MkTaskInfo (ti_status info) times (ti_time info))).

Definition TaskControlBlockInner_get_taskinfo (inner : TaskControlBlock) : TaskInfo := tcb_task_info inner.

Definition add_maparea (start_va end_va : VirtAddr) (permission : MapPermission) : M (Kernel D) unit :=
  with_current (λ inner, TaskControlBlockInner_add_maparea inner start_va end_va permission).

Definition remove_maparea (start_va end_va : VirtAddr) : M (Kernel D) Z :=
  with_current (λ inner, TaskControlBlockInner_remove_maparea inner start_va end_va).

Definition check_maparea (start_va end_va : VirtAddr) : M (Kernel D) bool :=
  with_current (λ inner, mret (MemorySet_check_conflict (tcb_memory_set inner) start_va end_va, inner)).

Definition update_taskinfo (id : Z) : M (Kernel D) Z :=
  with_current (λ inner, TaskControlBlockInner_update_taskinfo inner id).

Definition get_taskinfo : M (Kernel D) TaskInfo :=
  with_current (λ inner, mret (TaskControlBlockInner_get_taskinfo inner, inner)).

Definition check_mapsetarea (start_va end_va : VirtAddr) : M (Kernel D) bool :=
  with_current (λ inner, mret (TaskControlBlockInner_check_maparea inner start_va end_va, inner)).

(** * Processes *)

Definition sys_exit (exit_code : Z) : M (Kernel D) SysResult :=
  _ ← exit_current_and_run_next exit_code;
  mret Switched.

Definition sys_yield : M (Kernel D) SysResult :=
  _ ← suspend_current_and_run_next KYield;
  mret Switched.

Definition sys_getpid : M (Kernel D) Z :=
  '(_, b) ← current_tcb;
  mret (signed 64 (tcb_pid b)).

Definition sys_fork : M (Kernel D) Z :=
  '(current, _) ← current_tcb;
  new_task ← TaskControlBlock_fork env current;
  inner ← get_tcb new_task;
  let new_pid := tcb_pid inner in
  _ ← on_mem (λ m, set_cx_word m (tcb_trap_cx_ppn inner) 10 0);
  _ ← add_task new_task;
  mret (signed 64 new_pid).

(** Read a user string with the current page table. *)
Definition user_str (ptr : Z) : M (Kernel D) (list Z) :=
  token ← current_user_token;
  m ← get_mem;
  lift (translated_str (env_fuel env) m token ptr).

Definition sys_exec (path : Z) : M (Kernel D) Z :=
  path ← user_str path;
  o ← open_file path OpenFlags_RDONLY;
  match o with
  | Some app_inode =>
      all_data ← OSInode_read_all (env_fuel env) app_inode;
      '(task, _) ← current_tcb;
      _ ← TaskControlBlock_exec env task all_data;
      mret 0
  | None => mret (-1)
  end.

(** [pid == -1 || pid as usize == p.getpid()] *)
Definition pid_matches (pid : Z) (p : TaskControlBlock) : bool :=
  bool_decide (pid = -1) || bool_decide (wrap 64 pid = tcb_pid p).

(** [inner.children.iter().any(..)] *)
Fixpoint any_child (pid : Z) (children : list Z) : M (Kernel D) bool :=
  match children with
  | [] => mret false
  | c :: rest => b ← get_tcb c; if pid_matches pid b then mret true else any_child pid rest
  end.

(** The first zombie child that matches, with the children around it. *)
Fixpoint find_zombie (pid : Z) (before children : list Z) : M (Kernel D) (option (list Z * Z * list Z)) :=
  match children with
  | [] => mret None
  | c :: rest =>
      b ← get_tcb c;
      if TaskControlBlockInner_is_zombie b && pid_matches pid b then mret (Some (before, c, rest))
      else find_zombie pid (before ++ [c]) rest
  end.

Definition sys_waitpid (pid exit_code_ptr : Z) : M (Kernel D) Z :=
  '(task, inner) ← current_tcb;
  any ← any_child pid (tcb_children inner);
  if negb any then mret (-1)
  else
    pair ← find_zombie pid [] (tcb_children inner);
    match pair with
    | Some (before, child, after) =>
        _ ← set_tcb task (set_children inner (before ++ after));
        k ← get_state;
        _ ← lift (res_assert (bool_decide (Arc_strong_count k child + 1 = 1)%nat));
        b ← get_tcb child;
        let found_pid := tcb_pid b in
        let exit_code := tcb_exit_code b in
        m ← get_mem;
        pa ← lift (translated_refmut m (MemorySet_token (tcb_memory_set inner)) exit_code_ptr);
        _ ← on_mem (λ m, write_bytes m (pa_0 pa) (le_bytes 4 (wrap 32 exit_code)));
        _ ← drop_task child;
        mret (signed 64 found_pid)
    | None => mret (-2)
    end.

Definition sys_get_time (ts : Z) : M (Kernel D) Z :=
  us ← get_time_us env;
  token ← current_user_token;
  m ← get_mem;
  pa ← lift (translated_refmut m token ts);
  _ ← on_mem (λ m, write_bytes m (pa_0 pa) (TimeVal_bytes (us / 1000000) (us mod 1000000)));
  mret 0.

Definition sys_task_info (ti : Z) : M (Kernel D) Z :=
  token ← current_user_token;
  m ← get_mem;
  pa ← lift (translated_refmut m token ti);
  task_ref ← get_taskinfo;
  now ← get_time_us env;
  let info := MkTaskInfo Running (ti_syscall_times task_ref) ((now - ti_time task_ref)%usize / 1000) in
  _ ← on_mem (λ m, write_bytes m (pa_0 pa) (env_task_info_bytes env info));
  mret 0.

(** [MapPermission::U] with the permissions of the low three bits of [port]. *)
Definition mmap_perm (port : Z) : MapPermission :=
  let map_perm := MapPermission_U in
  let map_perm := if decide (Z.land 1 port ≠ 0) then Z.lor map_perm MapPermission_R else map_perm in
  let map_perm := if decide (Z.land 2 port ≠ 0) then Z.lor map_perm MapPermission_W else map_perm in
  if decide (Z.land 4 port ≠ 0) then Z.lor map_perm MapPermission_X else map_perm.

Definition sys_mmap (start len port : Z) : M (Kernel D) Z :=
  if decide (len = 0) then mret 0
  else if decide (Z.land port (2 ^ 64 - 1 - 7) ≠ 0 ∨ Z.land port 7 = 0) then mret (-1)
  else
    let end_ := (start + len)%usize in
    let start_va := VirtAddr_from start in
    if negb (VirtAddr_aligned start_va) then mret (-1)
    else
      let end_va := VirtAddr_from end_ in
      conflict ← check_maparea start_va end_va;
      if (conflict : bool) then mret (-1)
      else
        _ ← add_maparea start_va end_va (mmap_perm port);
        mret 0.

Definition sys_munmap (start len : Z) : M (Kernel D) Z :=
  let end_ := (start + len)%usize in
  let start_va := VirtAddr_from start in
  if negb (VirtAddr_aligned start_va) then mret (-1)
  else remove_maparea start_va (VirtAddr_from end_).

Definition sys_sbrk (size : Z) : M (Kernel D) Z :=
  '(task, _) ← current_tcb;
  o ← TaskControlBlock_change_program_brk task size;
  match o with
  | Some old_brk => mret (signed 64 old_brk)
  | None => mret (-1)
  end.

Definition sys_spawn (path : Z) : M (Kernel D) Z :=
  path ← user_str path;
  o ← open_file path OpenFlags_RDONLY;
  match o with
  | Some app_inode =>
      all_data ← OSInode_read_all (env_fuel env) app_inode;
      '(current, _) ← current_tcb;
      new_task ← TaskControlBlock_spawn env current all_data;
      inner ← get_tcb new_task;
      let new_pid := tcb_pid inner in
      _ ← on_mem (λ m, set_cx_word m (tcb_trap_cx_ppn inner) 10 0);
      _ ← add_task new_task;
      mret (signed 64 new_pid)
  | None => mret (-1)
  end.

Definition sys_set_priority (prio : Z) : M (Kernel D) Z :=
  if decide (prio < 2) then mret (-1)
  else
    _ ← with_current (λ inner, mret ((), set_pro_lev inner (wrap 64 prio)));
    mret prio.

(** * Files *)

Definition sys_write (fd buf len : Z) : M (Kernel D) Z :=
  token ← current_user_token;
  '(_, inner) ← current_tcb;
  if decide (fd >= Z.of_nat (length (tcb_fd_table inner))) then mret (-1)
  else
    o ← lift (vec_get (tcb_fd_table inner) fd);
    match o with
    | Some file =>
        writable ← File_writable file;
        if negb writable then mret (-1)
        else
          m ← get_mem;
          bufs ← lift (translated_byte_buffer m token buf len);
          n ← File_write file (UserBuffer_new bufs);
          mret (signed 64 n)
    | None => mret (-1)
    end.

Definition sys_read (fd buf len : Z) : M (Kernel D) SysResult :=
  token ← current_user_token;
  '(_, inner) ← current_tcb;
  if decide (fd >= Z.of_nat (length (tcb_fd_table inner))) then mret (SysRet (-1))
  else
    o ← lift (vec_get (tcb_fd_table inner) fd);
    match o with
    | Some file =>
        readable ← File_readable file;
        if negb readable then mret (SysRet (-1))
        else
          m ← get_mem;
          bufs ← lift (translated_byte_buffer m token buf len);
          File_read env file (UserBuffer_new bufs)
    | None => mret (SysRet (-1))
    end.

Definition sys_open (path flags : Z) : M (Kernel D) Z :=
  path ← user_str path;
  flags ← lift (unwrap (OpenFlags_from_bits flags));
  o ← open_file path flags;
  match o with
  | Some inode =>
      '(task, inner) ← current_tcb;
      let '(fd, inner) := TaskControlBlockInner_alloc_fd inner in
      table ← lift (vec_set (tcb_fd_table inner) fd (Some (OSFile inode)));
      _ ← set_tcb task (set_fd_table inner table);
      mret (signed 64 fd)
  | None => mret (-1)
  end.

Definition sys_close (fd : Z) : M (Kernel D) Z :=
  '(task, inner) ← current_tcb;
  if decide (fd >= Z.of_nat (length (tcb_fd_table inner))) then mret (-1)
  else
    o ← lift (vec_get (tcb_fd_table inner) fd);
    match o with
    | None => mret (-1)
    | Some _ =>
        table ← lift (vec_set (tcb_fd_table inner) fd None);
        _ ← set_tcb task (set_fd_table inner table);
        mret 0
    end.

(** The copy of the [Stat] to the user: piece [idx] of the buffer receives the bytes that
    start at offset [idx]. *)
Fixpoint fstat_copy (stat : list Z) (idx : Z) (slices : list Slice) : M (Kernel D) unit :=
  match slices with
  | [] => mret ()
  | byte :: rest =>
      _ ← on_mem (λ m, write_bytes m (sl_addr byte) (slice stat idx (sl_len byte)));
      fstat_copy stat (idx + 1) rest
  end.

Definition sys_fstat (fd st : Z) : M (Kernel D) Z :=
  '(_, inner) ← current_tcb;
  if decide (fd >= Z.of_nat (length (tcb_fd_table inner))) then mret (-1)
  else
    o ← lift (vec_get (tcb_fd_table inner) fd);
    match o with
    | None => mret (-1)
    | Some (OSFile id) =>
        os_node ← get_file id;
        let ino := OSInode_get_inode_id os_node in
        let '(block_id, block_offset) := OSInode_get_inode_pos os_node in
        k ← get_state;
        nlink ← on_fs (Inode_get_link_num (k_efs k) (k_root k) block_id block_offset);
        let stat := MkStat 0 ino StatMode_FILE nlink (replicate 7 0) in
        m ← get_mem;
        bufs ← lift (translated_byte_buffer m (MemorySet_token (tcb_memory_set inner)) st 80);
        _ ← fstat_copy (Stat_bytes stat) 0 bufs;
        mret 0
    | Some _ => lift (Err Panic)
    end.

Definition sys_linkat (old_name new_name : Z) : M (Kernel D) Z :=
  old ← user_str old_name;
  new ← user_str new_name;
  if decide (old ≠ new) then
    k ← get_state;
    o ← on_fs (Inode_link (k_efs k) (k_root k) old new);
    match o with Some _ => mret 0 | None => mret (-1) end
  else mret (-1).

Definition sys_unlinkat (name : Z) : M (Kernel D) Z :=
  name ← user_str name;
  o ← root_find name;
  match o with
  | Some inode =>
      k ← get_state;
      nlink ← on_fs (Inode_get_link_num (k_efs k) (k_root k) (ino_block_id inode) (ino_block_offset inode));
      _ ← (if decide (nlink = 1) then inode_clear inode else mret ());
      on_fs (Inode_unlink (k_root k) name)
  | None => mret (-1)
  end.

(** * Dispatch *)

Definition ret (p : M (Kernel D) Z) : M (Kernel D) SysResult := v ← p; mret (SysRet v).

Definition syscall (syscall_id a0 a1 a2 a3 : Z) : M (Kernel D) SysResult :=
  _ ← update_taskinfo syscall_id;
  match syscall_id with
  | 56 => ret (sys_open a1 (wrap 32 a2))
  | 57 => ret (sys_close a0)
  | 37 => ret (sys_linkat a1 a3)
  | 35 => ret (sys_unlinkat a1)
  | 63 => sys_read a0 a1 a2
  | 64 => ret (sys_write a0 a1 a2)
  | 80 => ret (sys_fstat a0 a1)
  | 93 => sys_exit (signed 32 a0)
  | 124 => sys_yield
  | 172 => ret sys_getpid
  | 220 => ret sys_fork
  | 221 => ret (sys_exec a0)
  | 260 => ret (sys_waitpid (signed 64 a0) a1)
  | 169 => ret (sys_get_time a0)
  | 410 => ret (sys_task_info a0)
  | 222 => ret (sys_mmap a0 a1 a2)
  | 215 => ret (sys_munmap a0 a1)
  | 214 => ret (sys_sbrk (signed 32 a0))
  | 400 => ret (sys_spawn a0)
  | 140 => ret (sys_set_priority (signed 64 a0))
  | _ => lift (Err Panic)
  end.

(** * Traps *)

Inductive Trap :=
| UserEnvCall
| StoreFault | StorePageFault | InstructionFault | InstructionPageFault | LoadFault | LoadPageFault
| IllegalInstruction
| SupervisorTimer
| OtherTrap.

(** [cx.x[10] = result as usize] for the current task *)
Definition set_result (v : Z) : M (Kernel D) unit :=
  '(_, b) ← current_tcb;
  on_mem (λ m, set_cx_word m (tcb_trap_cx_ppn b) 10 (wrap 64 v)).

(** A trap in the kernel itself is fatal. *)
Definition trap_from_kernel : M (Kernel D) unit := lift (Err Panic).

Definition trap_handler (cause : Trap) : M (Kernel D) unit :=
  match cause with
  | UserEnvCall =>
      '(_, b) ← current_tcb;
      let cx := tcb_trap_cx_ppn b in
      _ ← on_mem (λ m, set_cx_word m cx CX_SEPC (cx_word m cx CX_SEPC + 4)%usize);
      m ← get_mem;
      result ← syscall (cx_word m cx 17) (cx_word m cx 10) (cx_word m cx 11) (cx_word m cx 12) (cx_word m cx 13);
      match result with
      | SysRet v => set_result v
      | Switched => mret ()
      end
  | StoreFault | StorePageFault | InstructionFault | InstructionPageFault | LoadFault | LoadPageFault =>
      exit_current_and_run_next (-2)
  | IllegalInstruction => exit_current_and_run_next (-3)
  | SupervisorTimer =>
      _ ← set_next_trigger env;
      suspend_current_and_run_next KTrapReturn
  | OtherTrap => lift (Err Panic)
  end.

(** * The idle loop

    One turn of the loop of [run_tasks]: [None] when no task is ready. *)
Definition run_tasks_turn : M (Kernel D) (option Z) :=
  o ← fetch_task;
  match o with
  | Some task =>
      task_inner ← get_tcb task;
      _ ← set_tcb task (set_status task_inner Running);
      _ ← set_current_task task;
      mret (Some task)
  | None => mret None
  end.

(** What the task switched to does before it is back in user mode. *)
Definition resume (task : Z) : M (Kernel D) unit :=
  k ← get_state;
  let kont := default KTrapReturn (k_konts k !! task) in
  _ ← modify (λ k, set_konts k (delete task (k_konts k)));
  match kont with
  | KTrapReturn => mret ()
  | KYield => set_result 0
  | KStdin buf =>
      r ← Stdin_try_read env buf;
      match r with SysRet v => set_result v | Switched => mret () end
  end.

(** What a program and the trap entry code can write: the frames of the pages mapped
    writable for the user, and the page of the trap context. *)
Definition user_frame (b : TaskControlBlock) (x : Z) : Prop :=
  x = ppn_0 (tcb_trap_cx_ppn b) ∨
  ∃ area v f, area ∈ ms_areas (tcb_memory_set b) ∧ ma_data_frames area !! v = Some f ∧ x = ppn_0 (ft_ppn f) ∧
    Z.testbit (ma_map_perm area) 2 = true ∧ Z.testbit (ma_map_perm area) 4 = true.

(** A step of the machine: the running program computes, it traps, or the idle loop
    makes a turn. *)
Inductive kernel_step : Kernel D → Kernel D → Prop :=
| step_user k t b m :
    k_current k = Some t → k_tcbs k !! t = Some b → mem_wf m →
    (∀ a, ¬ user_frame b (a / 4096) → read_u8 m a = read_u8 (mm_mem (k_mm k)) a) →
    kernel_step k (set_mm k (MkMM m (mm_fa (k_mm k))))
| step_trap cause k k' t :
    k_current k = Some t → trap_handler cause k = Ok ((), k') → kernel_step k k'
| step_idle_run k k1 k' t :
    k_current k = None → run_tasks_turn k = Ok (Some t, k1) → resume t k1 = Ok ((), k') → kernel_step k k'
| step_idle_wait k k' :
    k_current k = None → run_tasks_turn k = Ok (None, k') → kernel_step k k'.
End Syscall.
