(* ===== verification/ProcSpec.v ===== *)
(** The process table as an abstract machine: what the kernel keeps about processes
    (statuses, ready queue, running task, process tree, identifiers), the five transitions
    that change it, and the invariant they preserve. *)

From S2P Require Import Prelude Config TaskId Kernel.

(** * States *)

(** The part of a control block that places the process. *)
Record skeleton := MkSkeleton {
  sk_pid : Z; sk_kstack : Z; sk_status : TaskStatus; sk_parent : option Z; sk_children : list Z
}.
Definition sk_set_status (b : skeleton) (x : TaskStatus) : skeleton :=
  MkSkeleton (sk_pid b) (sk_kstack b) x (sk_parent b) (sk_children b).
Definition sk_set_parent (b : skeleton) (x : option Z) : skeleton :=
  MkSkeleton (sk_pid b) (sk_kstack b) (sk_status b) x (sk_children b).
Definition sk_set_children (b : skeleton) (x : list Z) : skeleton :=
  MkSkeleton (sk_pid b) (sk_kstack b) (sk_status b) (sk_parent b) x.

Record procs := MkProcs {
  p_skels : gmap Z skeleton; p_next : Z; p_ready : list Z; p_current : option Z; p_init : Z;
  p_pids : RecycleAllocator; p_kstacks : RecycleAllocator
}.

(** * Transitions *)

(** Every child of an exiting process goes to the initial process. *)
Definition sk_adopt (i : Z) (m : gmap Z skeleton) (c : Z) : gmap Z skeleton :=
  alter (λ b, sk_set_children b (sk_children b ++ [c])) i (alter (λ b, sk_set_parent b (Some i)) c m).
Definition sk_exit (i t : Z) (b : skeleton) (m : gmap Z skeleton) : gmap Z skeleton :=
  alter (λ b, sk_set_children b []) t
    (foldl (sk_adopt i) (<[t := sk_set_status b Zombie]> m) (sk_children b)).

Inductive proc_step : procs → procs → Prop :=
| ps_suspend m n q i pa ka t b :
    m !! t = Some b →
    proc_step (MkProcs m n q (Some t) i pa ka)
              (MkProcs (<[t := sk_set_status b Ready]> m) n (q ++ [t]) None i pa ka)
| ps_run m n q i pa ka t b :
    m !! t = Some b →
    proc_step (MkProcs m n (t :: q) None i pa ka)
              (MkProcs (<[t := sk_set_status b Running]> m) n q (Some t) i pa ka)
| ps_new m n q i pa ka t b pid pa' ks ka' :
    m !! t = Some b → ra_room pa → ra_room ka →
    RecycleAllocator_alloc pa = (pid, pa') → RecycleAllocator_alloc ka = (ks, ka') →
    proc_step (MkProcs m n q (Some t) i pa ka)
              (MkProcs (<[t := sk_set_children b (sk_children b ++ [n])]>
                          (<[n := MkSkeleton pid ks Ready (Some t) []]> m))
                 (n + 1) (q ++ [n]) (Some t) i pa' ka')
| ps_exit m n q i pa ka t b :
    m !! t = Some b → sk_pid b ≠ 0 →
    proc_step (MkProcs m n q (Some t) i pa ka) (MkProcs (sk_exit i t b m) n q None i pa ka)
| ps_reap m n q i pa ka t b before c after bc pa' ka' :
    m !! t = Some b → sk_children b = before ++ c :: after → m !! c = Some bc → sk_status bc = Zombie →
    RecycleAllocator_dealloc pa (sk_pid bc) = Ok pa' → RecycleAllocator_dealloc ka (sk_kstack bc) = Ok ka' →
    proc_step (MkProcs m n q (Some t) i pa ka)
              (MkProcs (delete c (<[t := sk_set_children b (before ++ after)]> m)) n q (Some t) i pa' ka').

(** * The invariant *)

(** The status of a task says where it is referenced. *)
Definition status_ok (q : list Z) (cur : option Z) (i t : Z) (b : skeleton) : Prop :=
  match sk_status b with
  | UnInit => False
  | Ready => t ∈ q ∧ cur ≠ Some t
  | Running => cur = Some t ∧ t ∉ q
  | Zombie => cur ≠ Some t ∧ (t ∉ q) ∧ sk_children b = [] ∧ t ≠ i
  end.

(** Identifiers are distinct and are the ones the allocator has given out. *)
Record ids_ok (f : skeleton → Z) (m : gmap Z skeleton) (a : RecycleAllocator) : Prop := {
  id_alloc : ra_inv a;
  id_inj t t' b b' : m !! t = Some b → m !! t' = Some b' → f b = f b' → t = t';
  id_live x : ra_live a x ↔ ∃ t b, m !! t = Some b ∧ f b = x
}.

(** The processes form a tree with the initial process at its root; children are younger
    than their parents. *)
Record tree_ok (m : gmap Z skeleton) (i : Z) : Prop := {
  tr_root : ∃ b, m !! i = Some b ∧ sk_pid b = 0;
  tr_oldest t : is_Some (m !! t) → i ≤ t;
  tr_nodup t b : m !! t = Some b → NoDup (sk_children b);
  tr_child t b c : m !! t = Some b → c ∈ sk_children b →
    t < c ∧ ∃ bc, m !! c = Some bc ∧ sk_parent bc = Some t;
  tr_parent c : is_Some (m !! c) → c ≠ i → ∃ t b, m !! t = Some b ∧ c ∈ sk_children b
}.

Record proc_inv (p : procs) : Prop := {
  pi_fresh t : is_Some (p_skels p !! t) → t < p_next p;
  pi_ready_nodup : NoDup (p_ready p);
  pi_ready t : t ∈ p_ready p → is_Some (p_skels p !! t);
  pi_current t : p_current p = Some t → is_Some (p_skels p !! t);
  pi_status t b : p_skels p !! t = Some b → status_ok (p_ready p) (p_current p) (p_init p) t b;
  pi_tree : tree_ok (p_skels p) (p_init p);
  pi_pid : ids_ok sk_pid (p_skels p) (p_pids p);
  pi_kstack : ids_ok sk_kstack (p_skels p) (p_kstacks p)
}.

(** * Identifiers *)

Lemma ids_same f m m' a :
  ids_ok f m a → (∀ t, f <$> m' !! t = f <$> m !! t) → ids_ok f m' a.
Proof.
  intros [Ha Hinj Hlive] Hf.
  assert (Hl : ∀ t b', m' !! t = Some b' → ∃ b, m !! t = Some b ∧ f b = f b').
  { intros t b' Hb. specialize (Hf t). rewrite Hb in Hf. destruct (m !! t) as [b|]; [|done].
    exists b. split; [done|]. by injection Hf. }
  assert (Hr : ∀ t b, m !! t = Some b → ∃ b', m' !! t = Some b' ∧ f b = f b').
  { intros t b Hb. specialize (Hf t). rewrite Hb in Hf. destruct (m' !! t) as [b'|]; [|done].
    exists b'. split; [done|]. by injection Hf. }
  split; [done| |].
  - intros t t' b b' H1 H2 E. apply Hl in H1 as (b1 & H1 & E1). apply Hl in H2 as (b2 & H2 & E2).
    apply (Hinj t t' b1 b2); congruence.
  - intros x. rewrite Hlive. split; intros (t & b & Hb & <-).
    + apply Hr in Hb as (b' & ? & ?). eauto.
    + apply Hl in Hb as (b' & ? & ?). eauto.
Qed.

Lemma ids_alloc f m a x a' t b :
  ids_ok f m a → ra_room a → RecycleAllocator_alloc a = (x, a') → m !! t = None → f b = x →
  ids_ok f (<[t := b]> m) a'.
Proof.
  intros [Ha Hinj Hlive] Hroom Halloc Ht <-.
  destruct (ra_alloc_room a Ha Hroom) as (y & a'' & E & Ha' & Hny & Hl). rewrite Halloc in E. injection E as <- <-.
  assert (Hne : ∀ t' b', m !! t' = Some b' → f b' ≠ f b).
  { intros t' b' Hb E. apply Hny, Hlive. eauto. }
  split; [done| |].
  - intros t1 t2 b1 b2 H1 H2 E. apply lookup_insert_Some in H1 as [[<- <-]|[? H1]];
      apply lookup_insert_Some in H2 as [[<- <-]|[? H2]]; try done.
    + by destruct (Hne t2 b2 H2).
    + by destruct (Hne t1 b1 H1).
    + by apply (Hinj t1 t2 b1 b2).
  - intros x. rewrite Hl, Hlive. split.
    + intros [->|(t' & b' & Hb & <-)].
      * exists t, b. by rewrite lookup_insert_eq.
      * exists t', b'. rewrite lookup_insert_ne by congruence. done.
    + intros (t' & b' & Hb & <-). apply lookup_insert_Some in Hb as [[<- <-]|[? Hb]]; eauto.
Qed.

Lemma ids_dealloc f m a a' t b :
  ids_ok f m a → m !! t = Some b → RecycleAllocator_dealloc a (f b) = Ok a' → ids_ok f (delete t m) a'.
Proof.
  intros [Ha Hinj Hlive] Ht Hd.
  destruct (ra_dealloc_live a (f b)) as (a'' & E & Ha' & Hl & _); [done|apply Hlive; eauto|].
  rewrite Hd in E. injection E as <-. split; [done| |].
  - intros t1 t2 b1 b2 H1 H2. apply lookup_delete_Some in H1 as [_ H1], H2 as [_ H2]. by apply Hinj.
  - intros x. rewrite Hl, Hlive. split.
    + intros [(t' & b' & Hb & <-) Hne]. exists t', b'. rewrite lookup_delete_ne by congruence. done.
    + intros (t' & b' & Hb & <-). apply lookup_delete_Some in Hb as [Htt Hb]. split; [eauto|].
      intros E. apply Htt. by apply (Hinj t t' b b').
Qed.

(** Fewer than 2^64 - 1 processes leave room for another identifier. *)
Lemma ids_room f m a : ids_ok f m a → (Z.of_nat (size m) < 2 ^ 64 - 1) → ra_room a.
Proof.
  intros [(Hc & _ & _) _ Hlive] Hm. destruct (decide (ra_recycled a = [])) as [Hr|]; [right|by left].
  assert (Hsub : list_to_set (seqZ 0 (ra_current a)) ⊆ map_to_set (C := gset Z) (λ _, f) m).
  { intros x Hx. apply elem_of_list_to_set, elem_of_seqZ in Hx. apply elem_of_map_to_set.
    apply Hlive. unfold ra_live. rewrite Hr. set_solver by lia. }
  assert (Hcard : (size (map_to_set (C := gset Z) (λ _, f) m) ≤ size m)%nat).
  { clear. induction m as [|t b m Ht IH] using map_ind; [by rewrite map_to_set_empty|].
    rewrite map_to_set_insert_L by done. rewrite size_union_alt, size_singleton, map_size_insert_None by done.
    pose proof (subseteq_size (map_to_set (C := gset Z) (λ _, f) m ∖ {[f b]}) (map_to_set (C := gset Z) (λ _, f) m)
      ltac:(set_solver)). lia. }
  apply subseteq_size in Hsub. rewrite size_list_to_set in Hsub by apply NoDup_seqZ.
  rewrite length_seqZ in Hsub. lia.
Qed.

(** * The tree *)

Lemma fmap_lookup_insert {A} (g : skeleton → A) (m : gmap Z skeleton) t b b' x :
  m !! t = Some b → g b' = g b → g <$> <[t := b']> m !! x = g <$> m !! x.
Proof.
  intros Hb E. destruct (decide (x = t)) as [->|]; [|by rewrite lookup_insert_ne].
  rewrite lookup_insert_eq, Hb. simpl. by rewrite E.
Qed.

Definition sk_links (b : skeleton) : Z * option Z * list Z := (sk_pid b, sk_parent b, sk_children b).

Lemma tree_same m m' i : tree_ok m i → (∀ t, sk_links <$> m' !! t = sk_links <$> m !! t) → tree_ok m' i.
Proof.
  intros [(bi & Hbi & Hi) Hold Hnd Hch Hpar] Hf.
  assert (Hl : ∀ t b', m' !! t = Some b' → ∃ b, m !! t = Some b ∧ sk_links b = sk_links b').
  { intros t b' Hb. specialize (Hf t). rewrite Hb in Hf. destruct (m !! t) as [b|]; [|done].
    exists b. split; [done|]. unfold sk_links in *. simpl in Hf. congruence. }
  assert (Hr : ∀ t b, m !! t = Some b → ∃ b', m' !! t = Some b' ∧ sk_links b = sk_links b').
  { intros t b Hb. specialize (Hf t). rewrite Hb in Hf. destruct (m' !! t) as [b'|]; [|done].
    exists b'. split; [done|]. unfold sk_links in *. simpl in Hf. congruence. }
  split.
  - apply Hr in Hbi as (b' & ? & [= E _ _]). exists b'. split; [done|]. congruence.
  - intros t [b' Hb]. apply Hl in Hb as (b & ? & _). eauto.
  - intros t b' Hb. apply Hl in Hb as (b & Hb & [= _ _ <-]). eauto.
  - intros t b' c Hb Hc. apply Hl in Hb as (b & Hb & [= _ _ E]). rewrite <- E in Hc.
    destruct (Hch t b c Hb Hc) as (? & bc & Hbc & Hp). split; [done|].
    apply Hr in Hbc as (bc' & ? & [= _ E' _]). exists bc'. split; [done|]. congruence.
  - intros c [b' Hb] Hc. apply Hl in Hb as (b & Hb & _). destruct (Hpar c) as (t & bt & Hbt & Hin); [eauto|done|].
    apply Hr in Hbt as (bt' & ? & [= _ _ E]). exists t, bt'. split; [done|]. congruence.
Qed.

Lemma tree_new m i n t b pid ks :
  tree_ok m i → m !! t = Some b → (∀ t, is_Some (m !! t) → t < n) →
  tree_ok (<[t := sk_set_children b (sk_children b ++ [n])]> (<[n := MkSkeleton pid ks Ready (Some t) []]> m)) i.
Proof.
  intros [(bi & Hbi & Hi) Hold Hnd Hch Hpar] Hb Hn.
  assert (Ht : t < n) by eauto. assert (Hin : i < n) by eauto.
  assert (Hcn : ∀ t b c, m !! t = Some b → c ∈ sk_children b → c ≠ n).
  { intros t' b' c Hb' Hc. destruct (Hch t' b' c Hb' Hc) as (_ & bc & Hbc & _). intros ->. specialize (Hn n (mk_is_Some _ _ Hbc)). lia. }
  split.
  - destruct (decide (i = t)) as [->|]; [|exists bi; by rewrite !lookup_insert_ne by lia].
    eexists. rewrite lookup_insert_eq. split; [done|]. simpl. congruence.
  - intros t' [b' Hb']. apply lookup_insert_Some in Hb' as [[<- _]|[? Hb']]; [by apply Hold|].
    apply lookup_insert_Some in Hb' as [[<- _]|[? Hb']]; [lia|]. apply Hold. eauto.
  - intros t' b' Hb'. apply lookup_insert_Some in Hb' as [[<- <-]|[? Hb']].
    { simpl. apply NoDup_app. split; [eauto|]. split; [|apply NoDup_singleton].
      intros c Hc ->%list_elem_of_singleton. by apply (Hcn t b n). }
    apply lookup_insert_Some in Hb' as [[<- <-]|[? Hb']]; [constructor|eauto].
  - intros t' b' c Hb' Hc.
    assert (Hcase : (t' = t ∧ c = n) ∨ ∃ b0, m !! t' = Some b0 ∧ c ∈ sk_children b0).
    { apply lookup_insert_Some in Hb' as [[<- <-]|[? Hb']]; [set_solver|].
      apply lookup_insert_Some in Hb' as [[<- <-]|[? Hb']]; set_solver. }
    destruct Hcase as [[-> ->]|(b0 & Hb0 & Hc0)].
    { split; [done|]. rewrite lookup_insert_ne, lookup_insert_eq by lia. eauto. }
    destruct (Hch t' b0 c Hb0 Hc0) as (? & bc & Hbc & Hp). split; [done|].
    destruct (decide (c = t)) as [->|].
    + rewrite lookup_insert_eq. eexists. split; [done|]. simpl. congruence.
    + rewrite !lookup_insert_ne by naive_solver. eauto.
  - intros c [bc Hbc] Hc. destruct (decide (c = n)) as [->|].
    { exists t. rewrite lookup_insert_eq. eexists. split; [done|]. set_solver. }
    assert (is_Some (m !! c)) as Hc'.
    { apply lookup_insert_Some in Hbc as [[<- _]|[? Hbc]]; [eauto|]. rewrite lookup_insert_ne in Hbc by done. eauto. }
    destruct (Hpar c Hc' Hc) as (t' & b' & Hb' & Hin'). exists t'. destruct (decide (t' = t)) as [->|].
    + rewrite lookup_insert_eq. eexists. split; [done|]. simplify_eq. set_solver.
    + specialize (Hn t' (mk_is_Some _ _ Hb')). rewrite !lookup_insert_ne by lia. eauto.
Qed.

Lemma tree_reap m i t b before c after bc :
  tree_ok m i → m !! t = Some b → sk_children b = before ++ c :: after → m !! c = Some bc → sk_children bc = [] →
  tree_ok (delete c (<[t := sk_set_children b (before ++ after)]> m)) i.
Proof.
  intros [(bi & Hbi & Hi) Hold Hnd Hch Hpar] Hb Hbs Hbc Hleaf.
  destruct (Hch t b c Hb ltac:(rewrite Hbs; set_solver)) as (Htc & bc' & Hbc' & Hp). simplify_eq.
  assert (i ≤ t) as Hit by eauto.
  assert ((c ∉ before) ∧ (c ∉ after)) as [Hcb Hca].
  { specialize (Hnd t b Hb). rewrite Hbs in Hnd. apply NoDup_app in Hnd as (_ & Hd & Ha). apply NoDup_cons in Ha as [? _].
    split; [|done]. intros Hin. apply (Hd c Hin). set_solver. }
  assert (Hl : ∀ t' b', delete c (<[t := sk_set_children b (before ++ after)]> m) !! t' = Some b' → t' ≠ c ∧
            ∃ b0, m !! t' = Some b0 ∧ sk_parent b' = sk_parent b0 ∧
              sk_children b' `sublist_of` sk_children b0 ∧ c ∉ sk_children b').
  { intros t' b' Hb'. apply lookup_delete_Some in Hb' as [? Hb']. split; [done|].
    apply lookup_insert_Some in Hb' as [[<- <-]|[? Hb']].
    - exists b. split; [done|]. split; [done|]. simpl. split; [|set_solver]. rewrite Hbs.
      apply sublist_app; [done|by apply sublist_cons].
    - exists b'. split_and!; try done. intros Hin. destruct (Hch t' b' c Hb' Hin) as (_ & ? & ? & ?). simplify_eq. }
  assert (Hr : ∀ t' b0, t' ≠ c → m !! t' = Some b0 → ∃ b',
            delete c (<[t := sk_set_children b (before ++ after)]> m) !! t' = Some b' ∧ sk_pid b' = sk_pid b0 ∧
            sk_parent b' = sk_parent b0 ∧ ∀ x, x ≠ c → x ∈ sk_children b0 → x ∈ sk_children b').
  { intros t' b0 Hne Hb0. rewrite lookup_delete_ne by done. destruct (decide (t' = t)) as [->|].
    - rewrite lookup_insert_eq. simplify_eq. eexists. split; [done|]. split_and!; [done..|]. rewrite Hbs. set_solver.
    - rewrite lookup_insert_ne by done. eauto 6. }
  split.
  - destruct (Hr i bi) as (b' & ? & ? & _); [lia|done|]. exists b'. split; [done|]. congruence.
  - intros t' [b' Hb']. apply Hl in Hb' as (_ & b0 & ? & _). eauto.
  - intros t' b' Hb'. apply Hl in Hb' as (_ & b0 & Hb0 & _ & Hs & _). eapply sublist_NoDup; eauto.
  - intros t' b' x Hb' Hx. apply Hl in Hb' as (_ & b0 & Hb0 & _ & Hs & Hcx).
    destruct (Hch t' b0 x Hb0) as (? & bx & Hbx & Hpx); [by eapply elem_of_sublist|]. split; [done|].
    destruct (Hr x bx) as (bx' & ? & _ & E & _); [by intros ->|done|]. exists bx'. split; [done|]. congruence.
  - intros x [bx Hbx] Hx. apply Hl in Hbx as (Hxc & b0 & Hb0 & _).
    destruct (Hpar x) as (t' & b' & Hb' & Hin); [eauto|done|].
    destruct (decide (t' = c)) as [->|]; [simplify_eq; rewrite Hleaf in Hin; set_solver|].
    destruct (Hr t' b') as (b'' & ? & _ & _ & Hk); [done..|]. exists t', b''. eauto.
Qed.

Lemma adopt_all_lookup i cs : ∀ m bi x,
  i ∉ cs → NoDup cs → m !! i = Some bi →
  foldl (sk_adopt i) m cs !! x =
    if decide (x = i) then Some (sk_set_children bi (sk_children bi ++ cs))
    else if decide (x ∈ cs) then (λ b, sk_set_parent b (Some i)) <$> m !! x else m !! x.
Proof.
  induction cs as [|c cs IH]; intros m bi x Hi Hnd Hbi; simpl.
  { destruct (decide (x = i)) as [->|]; [|by destruct (decide (x ∈ []))].
    rewrite app_nil_r. rewrite Hbi. by destruct bi. }
  apply NoDup_cons in Hnd as [Hc Hnd]. apply not_elem_of_cons in Hi as [Hic Hi].
  rewrite (IH _ (sk_set_children bi (sk_children bi ++ [c]))); [|done..|].
  2:{ unfold sk_adopt. rewrite lookup_alter_eq, lookup_alter_ne, Hbi by congruence. done. }
  destruct (decide (x = i)) as [->|Hxi].
  { simpl. by rewrite <- app_assoc. }
  unfold sk_adopt. rewrite lookup_alter_ne by congruence. destruct (decide (x = c)) as [->|Hxc].
  - rewrite decide_False by done. rewrite decide_True by set_solver. by rewrite lookup_alter_eq.
  - rewrite lookup_alter_ne by congruence.
    destruct (decide (x ∈ cs)); [rewrite decide_True by set_solver|rewrite decide_False by set_solver]; done.
Qed.

Lemma exit_lookup i t b bi m x :
  tree_ok m i → m !! t = Some b → t ≠ i → m !! i = Some bi →
  sk_exit i t b m !! x =
    if decide (x = t) then Some (MkSkeleton (sk_pid b) (sk_kstack b) Zombie (sk_parent b) [])
    else if decide (x = i) then Some (sk_set_children bi (sk_children bi ++ sk_children b))
    else if decide (x ∈ sk_children b) then (λ b, sk_set_parent b (Some i)) <$> m !! x else m !! x.
Proof.
  intros [_ Hold Hnd Hch _] Hb Hti Hbi.
  assert (Hic : i ∉ sk_children b).
  { intros Hin. destruct (Hch t b i Hb Hin) as [? _]. specialize (Hold t (mk_is_Some _ _ Hb)). lia. }
  assert (Htc : t ∉ sk_children b).
  { intros Hin. destruct (Hch t b t Hb Hin) as [? _]. lia. }
  assert (Hf := adopt_all_lookup i (sk_children b) (<[t := sk_set_status b Zombie]> m) bi).
  unfold sk_exit. destruct (decide (x = t)) as [->|Hx].
  - rewrite lookup_alter_eq, Hf; [|done|by eapply Hnd|by rewrite lookup_insert_ne by congruence].
    rewrite decide_False by done. rewrite decide_False by done. by rewrite lookup_insert_eq.
  - rewrite lookup_alter_ne by congruence. rewrite Hf; [|done|by eapply Hnd|by rewrite lookup_insert_ne by congruence].
    by rewrite (lookup_insert_ne _ t x) by congruence.
Qed.

Lemma tree_exit m i t b :
  tree_ok m i → m !! t = Some b → t ≠ i → tree_ok (sk_exit i t b m) i.
Proof.
  intros Ht Hb Hti. pose proof Ht as [(bi & Hbi & Hi) Hold Hnd Hch Hpar].
  pose proof (λ x, exit_lookup i t b bi m x Ht Hb Hti Hbi) as Hx. set (m' := sk_exit i t b m) in *.
  assert (Hdis : ∀ c, c ∈ sk_children bi → c ∉ sk_children b).
  { intros c H1 H2. destruct (Hch _ _ _ Hbi H1) as (_ & bc & ? & ?), (Hch _ _ _ Hb H2) as (_ & bc' & ? & ?). congruence. }
  assert (Hnotin : ∀ c, c ∈ sk_children b → c ≠ t ∧ c ≠ i).
  { intros c Hc. destruct (Hch _ _ _ Hb Hc) as (? & _). specialize (Hold t (mk_is_Some _ _ Hb)). lia. }
  split.
  - exists (sk_set_children bi (sk_children bi ++ sk_children b)). rewrite Hx, decide_False, decide_True by done. done.
  - intros x [bx Hbx]. apply Hold. rewrite Hx in Hbx. repeat case_decide; subst; eauto.
    destruct (m !! x); [eauto|done].
  - intros x bx Hbx. rewrite Hx in Hbx. repeat case_decide; simplify_eq; simpl; [constructor| |..].
    + apply NoDup_app. eauto.
    + apply fmap_Some in Hbx as (b0 & ? & ->). simpl. eauto.
    + eauto.
  - intros x bx c Hbx Hc. rewrite Hx in Hbx.
    assert (Hcase : (x = i ∧ c ∈ sk_children b) ∨ ((c ∉ sk_children b) ∧ ∃ b0, m !! x = Some b0 ∧ c ∈ sk_children b0)).
    { destruct (decide (x = t)) as [->|]; [simplify_eq; simpl in Hc; set_solver|].
      destruct (decide (x = i)) as [->|]; [simplify_eq; simpl in Hc; set_solver|]. right.
      assert (∃ b0, m !! x = Some b0 ∧ c ∈ sk_children b0) as (b0 & Hb0 & Hc0).
      { case_decide; [|eauto]. apply fmap_Some in Hbx as (b0 & ? & ->). eauto. }
      split; [|eauto]. intros Hcb. destruct (Hch _ _ _ Hb0 Hc0) as (_ & ? & ? & ?), (Hch _ _ _ Hb Hcb) as (_ & ? & ? & ?).
      congruence. }
    destruct Hcase as [[-> Hcb]|(Hcb & b0 & Hb0 & Hc0)].
    + destruct (Hch _ _ _ Hb Hcb) as (? & bc & Hbc & _). specialize (Hold t (mk_is_Some _ _ Hb)). split; [lia|].
      destruct (Hnotin c Hcb). rewrite Hx, decide_False, decide_False, decide_True, Hbc by done. simpl. eauto.
    + destruct (Hch _ _ _ Hb0 Hc0) as (? & bc & Hbc & Hp). split; [done|]. rewrite Hx.
      destruct (decide (c = t)) as [->|]; [eexists; split; [done|]; simpl; congruence|].
      destruct (decide (c = i)) as [->|]; [eexists; split; [done|]; simpl; congruence|].
      rewrite decide_False by done. eauto.
  - intros c [bc Hbc] Hc.
    assert (is_Some (m !! c)) as Hc'.
    { rewrite Hx in Hbc. repeat case_decide; subst; eauto. destruct (m !! c); [eauto|done]. }
    destruct (Hpar c Hc' Hc) as (x & bx & Hbx & Hin). destruct (decide (x = t)) as [->|].
    { simplify_eq. exists i. rewrite Hx, decide_False, decide_True by done. eexists. split; [done|]. set_solver. }
    exists x. rewrite Hx, decide_False by done. destruct (decide (x = i)) as [->|].
    { simplify_eq. eexists. split; [done|]. set_solver. }
    case_decide; [|eauto]. rewrite Hbx. simpl. eauto.
Qed.

(** * Preservation *)

Section Preservation.
Context (m : gmap Z skeleton) (n i : Z) (pa ka : RecycleAllocator).

Lemma current_status q t b cur : proc_inv (MkProcs m n q cur i pa ka) → cur = Some t → m !! t = Some b →
  sk_status b = Running ∧ t ∉ q.
Proof.
  intros Hinv -> Hb. pose proof (pi_status _ Hinv t b Hb) as Hs. unfold status_ok in Hs. simpl in Hs.
  destruct (sk_status b); naive_solver.
Qed.

(** The clauses that only depend on the links and identifiers. *)
Lemma proc_inv_restatus q q' cur cur' t b s :
  proc_inv (MkProcs m n q cur i pa ka) → m !! t = Some b → NoDup q' →
  (∀ x, x ∈ q' → is_Some (m !! x)) → (∀ x, cur' = Some x → is_Some (m !! x)) →
  (∀ x bx, x ≠ t → m !! x = Some bx → status_ok q cur i x bx → status_ok q' cur' i x bx) →
  status_ok q' cur' i t (sk_set_status b s) →
  proc_inv (MkProcs (<[t := sk_set_status b s]> m) n q' cur' i pa ka).
Proof.
  intros Hinv Hb Hnd Hq Hcur Hoth Ht.
  assert (Hdom : ∀ x, is_Some (<[t := sk_set_status b s]> m !! x) ↔ is_Some (m !! x)).
  { intros x. rewrite lookup_insert_is_Some. split; [intros [<-|[? ?]]; eauto|]. destruct (decide (t = x)); auto. }
  split; simpl.
  - intros x Hx. apply (pi_fresh _ Hinv), Hdom, Hx.
  - done.
  - intros x Hx. by apply Hdom, Hq.
  - intros x Hx. by apply Hdom, Hcur.
  - intros x bx Hbx. apply lookup_insert_Some in Hbx as [[<- <-]|[? Hbx]]; [done|].
    apply Hoth; [done|done|]. by apply (pi_status _ Hinv).
  - apply (tree_same m); [apply (pi_tree _ Hinv)|]. intros x. by eapply fmap_lookup_insert.
  - apply (ids_same _ m); [apply (pi_pid _ Hinv)|]. intros x. by eapply fmap_lookup_insert.
  - apply (ids_same _ m); [apply (pi_kstack _ Hinv)|]. intros x. by eapply fmap_lookup_insert.
Qed.

Lemma inv_suspend q t b :
  proc_inv (MkProcs m n q (Some t) i pa ka) → m !! t = Some b →
  proc_inv (MkProcs (<[t := sk_set_status b Ready]> m) n (q ++ [t]) None i pa ka).
Proof.
  intros Hinv Hb. destruct (current_status q t b _ Hinv eq_refl Hb) as [Hrun Htq].
  eapply proc_inv_restatus; [done|done|..].
  - apply NoDup_app. split; [apply (pi_ready_nodup _ Hinv)|]. split; [set_solver|]. apply NoDup_singleton.
  - intros x [Hx| ->%list_elem_of_singleton]%elem_of_app; [by apply (pi_ready _ Hinv)|eauto].
  - done.
  - intros x bx Hx Hbx. unfold status_ok. destruct (sk_status bx); set_solver.
  - unfold status_ok. simpl. set_solver.
Qed.

Lemma inv_run q t b :
  proc_inv (MkProcs m n (t :: q) None i pa ka) → m !! t = Some b →
  proc_inv (MkProcs (<[t := sk_set_status b Running]> m) n q (Some t) i pa ka).
Proof.
  intros Hinv Hb. pose proof (pi_ready_nodup _ Hinv) as Hnd. simpl in Hnd. apply NoDup_cons in Hnd as [Ht Hnd].
  eapply proc_inv_restatus; [done|done|done|..].
  - intros x Hx. apply (pi_ready _ Hinv). set_solver.
  - intros x [= ->]. eauto.
  - intros x bx Hx Hbx. unfold status_ok. destruct (sk_status bx); set_solver.
  - done.
Qed.

Lemma inv_new q t b pid pa' ks ka' :
  proc_inv (MkProcs m n q (Some t) i pa ka) → m !! t = Some b → ra_room pa → ra_room ka →
  RecycleAllocator_alloc pa = (pid, pa') → RecycleAllocator_alloc ka = (ks, ka') →
  proc_inv (MkProcs (<[t := sk_set_children b (sk_children b ++ [n])]>
                       (<[n := MkSkeleton pid ks Ready (Some t) []]> m)) (n + 1) (q ++ [n]) (Some t) i pa' ka').
Proof.
  intros Hinv Hb Hpr Hkr Hpa Hka. destruct (current_status q t b _ Hinv eq_refl Hb) as [Hrun Htq].
  pose proof (pi_fresh _ Hinv) as Hn. simpl in Hn. assert (Htn : t < n) by eauto.
  assert (Hmn : m !! n = None). { destruct (m !! n) eqn:E; [|done]. specialize (Hn n (mk_is_Some _ _ E)). lia. }
  set (m1 := <[n := MkSkeleton pid ks Ready (Some t) []]> m).
  assert (Hm1t : m1 !! t = Some b) by (unfold m1; by rewrite lookup_insert_ne by lia).
  split; simpl.
  - intros x Hx. unfold m1 in Hx. rewrite !lookup_insert_is_Some in Hx. destruct Hx as [<-|[_ [<-|[_ Hx]]]]; [lia..|].
    specialize (Hn x Hx). lia.
  - apply NoDup_app. split; [apply (pi_ready_nodup _ Hinv)|]. split; [|apply NoDup_singleton].
    intros x Hx ->%list_elem_of_singleton. apply (pi_ready _ Hinv) in Hx. simpl in Hx. rewrite Hmn in Hx. by destruct Hx.
  - intros x Hx. apply lookup_insert_is_Some'. right. apply lookup_insert_is_Some'.
    apply elem_of_app in Hx as [Hx| ->%list_elem_of_singleton]; [right; by apply (pi_ready _ Hinv)|by left].
  - intros x [= ->]. rewrite lookup_insert_eq. eauto.
  - intros x bx Hbx. apply lookup_insert_Some in Hbx as [[<- <-]|[? Hbx]].
    { unfold status_ok. simpl. rewrite Hrun. split; [done|]. set_solver by lia. }
    apply lookup_insert_Some in Hbx as [[<- <-]|[? Hbx]].
    { unfold status_ok. simpl. set_solver by lia. }
    pose proof (pi_status _ Hinv x bx Hbx) as Hs. unfold status_ok in *. simpl in Hs. destruct (sk_status bx); set_solver.
  - apply tree_new; [apply (pi_tree _ Hinv)|done..].
  - apply (ids_same _ m1); [by eapply ids_alloc; [apply (pi_pid _ Hinv)|..]|]. intros x. by eapply fmap_lookup_insert.
  - apply (ids_same _ m1); [by eapply ids_alloc; [apply (pi_kstack _ Hinv)|..]|]. intros x. by eapply fmap_lookup_insert.
Qed.

Lemma exit_fmap {A} (g : skeleton → A) t b x :
  tree_ok m i → m !! t = Some b → t ≠ i →
  (∀ b b', sk_pid b = sk_pid b' → sk_kstack b = sk_kstack b' → g b = g b') →
  g <$> sk_exit i t b m !! x = g <$> m !! x.
Proof.
  intros Ht Hb Hti Hg. destruct (tr_root _ _ Ht) as (bi & Hbi & _).
  rewrite (exit_lookup i t b bi) by done. repeat case_decide; subst; simplify_option_eq; try done.
  - f_equal. by apply Hg.
  - f_equal. by apply Hg.
  - destruct (m !! x); simpl; [|done]. f_equal. by apply Hg.
Qed.

Lemma inv_exit q t b :
  proc_inv (MkProcs m n q (Some t) i pa ka) → m !! t = Some b → sk_pid b ≠ 0 →
  proc_inv (MkProcs (sk_exit i t b m) n q None i pa ka).
Proof.
  intros Hinv Hb Hpid. destruct (current_status q t b _ Hinv eq_refl Hb) as [Hrun Htq].
  pose proof (pi_tree _ Hinv) as Htree. simpl in Htree. destruct (tr_root _ _ Htree) as (bi & Hbi & Hbi0).
  assert (Hti : t ≠ i) by congruence.
  assert (Hdom : ∀ x, is_Some (sk_exit i t b m !! x) ↔ is_Some (m !! x)).
  { intros x. pose proof (exit_fmap (λ _, ()) t b x Htree Hb Hti ltac:(done)) as E.
    destruct (sk_exit i t b m !! x), (m !! x); done || (split; intros [? ?]; done). }
  split; simpl.
  - intros x Hx. apply (pi_fresh _ Hinv), Hdom, Hx.
  - apply (pi_ready_nodup _ Hinv).
  - intros x Hx. by apply Hdom, (pi_ready _ Hinv).
  - done.
  - intros x bx Hbx. rewrite (exit_lookup i t b bi) in Hbx by done. destruct (decide (x = t)) as [->|].
    { injection Hbx as <-. by unfold status_ok. }
    assert (∃ b0, m !! x = Some b0 ∧ sk_status bx = sk_status b0 ∧
                  (sk_children b0 = [] → x ≠ i → sk_children bx = [])) as (b0 & Hb0 & Es & Ec).
    { destruct (decide (x = i)) as [->|]; [injection Hbx as <-; exists bi; done|].
      case_decide; [|exists bx; done]. apply fmap_Some in Hbx as (b0 & ? & ->). by exists b0. }
    pose proof (pi_status _ Hinv x b0 Hb0) as Hs. unfold status_ok in *. simpl in Hs. rewrite Es.
    destruct (sk_status b0); naive_solver.
  - by apply tree_exit.
  - apply (ids_same _ m); [apply (pi_pid _ Hinv)|]. intros x. by apply exit_fmap.
  - apply (ids_same _ m); [apply (pi_kstack _ Hinv)|]. intros x. by apply exit_fmap.
Qed.

Lemma inv_reap q t b before c after bc pa' ka' :
  proc_inv (MkProcs m n q (Some t) i pa ka) → m !! t = Some b → sk_children b = before ++ c :: after →
  m !! c = Some bc → sk_status bc = Zombie →
  RecycleAllocator_dealloc pa (sk_pid bc) = Ok pa' → RecycleAllocator_dealloc ka (sk_kstack bc) = Ok ka' →
  proc_inv (MkProcs (delete c (<[t := sk_set_children b (before ++ after)]> m)) n q (Some t) i pa' ka').
Proof.
  intros Hinv Hb Hbs Hbc Hz Hpa Hka. destruct (current_status q t b _ Hinv eq_refl Hb) as [Hrun Htq].
  assert (Hct : c ≠ t) by congruence. set (m1 := <[t := sk_set_children b (before ++ after)]> m).
  assert (Hm1c : m1 !! c = Some bc) by (unfold m1; by rewrite lookup_insert_ne by done).
  assert (Hm1 : ∀ x bx, m1 !! x = Some bx → ∃ b0, m !! x = Some b0 ∧ sk_status bx = sk_status b0 ∧
                  (sk_children b0 = [] → sk_children bx = [])).
  { intros x bx Hbx. apply lookup_insert_Some in Hbx as [[<- <-]|[? Hbx]]; [|eauto]. exists b. split; [done|].
    split; [done|]. rewrite Hbs. intros H. by destruct before. }
  assert (Hnz := pi_status _ Hinv c bc Hbc). unfold status_ok in Hnz. simpl in Hnz. rewrite Hz in Hnz.
  destruct Hnz as (Hcc & Hcq & Hleaf & _).
  split; simpl.
  - intros x [bx Hbx]. apply lookup_delete_Some in Hbx as [_ Hbx]. apply Hm1 in Hbx as (b0 & ? & _).
    apply (pi_fresh _ Hinv). simpl. eauto.
  - apply (pi_ready_nodup _ Hinv).
  - intros x Hx. rewrite lookup_delete_ne by congruence. apply lookup_insert_is_Some'. right. by apply (pi_ready _ Hinv).
  - intros x [= ->]. rewrite lookup_delete_ne by congruence. unfold m1. rewrite lookup_insert_eq. eauto.
  - intros x bx Hbx. apply lookup_delete_Some in Hbx as [_ Hbx]. apply Hm1 in Hbx as (b0 & Hb0 & Es & Ec).
    pose proof (pi_status _ Hinv x b0 Hb0) as Hs. unfold status_ok in *. simpl in Hs. rewrite Es.
    destruct (sk_status b0); naive_solver.
  - by eapply tree_reap; [apply (pi_tree _ Hinv)|..].
  - eapply ids_dealloc; [|done|done]. apply (ids_same _ m); [apply (pi_pid _ Hinv)|]. intros x. by eapply fmap_lookup_insert.
  - eapply ids_dealloc; [|done|done]. apply (ids_same _ m); [apply (pi_kstack _ Hinv)|]. intros x. by eapply fmap_lookup_insert.
Qed.
End Preservation.

Lemma proc_step_inv p p' : proc_inv p → proc_step p p' → proc_inv p'.
Proof.
  intros Hinv Hstep. destruct Hstep; [by apply inv_suspend|by apply inv_run|by eapply inv_new|by apply inv_exit|].
  by eapply inv_reap.
Qed.

Lemma proc_steps_inv p p' : proc_inv p → rtc proc_step p p' → proc_inv p'.
Proof. intros Hinv Hs. induction Hs; eauto using proc_step_inv. Qed.

(** At most one transition. *)
Inductive proc_step01 (p : procs) : procs → Prop :=
| ps01_none : proc_step01 p p
| ps01_one p' : proc_step p p' → proc_step01 p p'.

#[export] Instance proc_step01_refl : Reflexive proc_step01.
Proof. intros p. constructor. Qed.

Lemma proc_step01_rtc p p' : proc_step01 p p' → rtc proc_step p p'.
Proof. destruct 1; [done|by apply rtc_once]. Qed.

(** While a task runs the ready queue only grows at its end. *)
Lemma proc_step01_queue p p' : proc_step01 p p' → p_current p ≠ None → ∃ x, p_ready p' = p_ready p ++ x.
Proof.
  intros [|p'' [] ] Hc; simpl in *; try done; try (exists []; by rewrite app_nil_r); eauto.
Qed.
