(* ===== verification/ProcInv.v ===== *)
(** The kernel implements the process table of [ProcSpec.v]: every trap and every turn of
    the idle loop is a sequence of its transitions, so every reachable state of the kernel
    satisfies its invariant. *)

From S2P Require Import Prelude Config Address Allocator FrameAllocator TaskId PhysMem PageTable UserMem MemorySet.
From S2P Require Import BlockDev BlockCache BlockAccess Efs Vfs Kernel OsFile Process Syscall ProcSpec.

(** * The process table of a kernel state *)

Definition skel (b : TaskControlBlock) : skeleton :=
  MkSkeleton (tcb_pid b) (tcb_kernel_stack b) (tcb_task_status b) (tcb_parent b) (tcb_children b).

Definition procs_of {D} (k : Kernel D) : procs :=
  MkProcs (skel <$> k_tcbs k) (k_next_tcb k) (k_ready k) (k_current k) (k_initproc k) (k_pids k) (k_kstacks k).

(** * Computations that leave the process table alone *)

Section Keeps.
Context {D : Type} `{BlockDevice D}.
Abbreviation K := (Kernel D).

Definition keeps {A} (p : M K A) : Prop := ∀ k, ensures p k (λ _ k', procs_of k' = procs_of k).

Lemma keeps_ret {A} (a : A) : keeps (mret a).
Proof. done. Qed.
Lemma keeps_bind {A B} (p : M K A) (f : A → M K B) : keeps p → (∀ a, keeps (f a)) → keeps (p ≫= f).
Proof.
  intros Hp Hf k. apply ensures_bind. eapply ensures_mono; [apply Hp|]. intros a k' Hk.
  eapply ensures_mono; [apply Hf|]. intros b k'' Hk'. by rewrite Hk', Hk.
Qed.
Lemma keeps_lift {A} (r : res A) : keeps (lift r).
Proof. intros k. by apply ensures_lift. Qed.
Lemma keeps_get : keeps get_state.
Proof. done. Qed.
Lemma keeps_gets {A} (f : K → A) : keeps (gets f).
Proof. done. Qed.
Lemma keeps_on_mm {A} (p : M MM A) : keeps (on_mm p).
Proof. intros k. unfold ensures, on_mm. by destruct (p (k_mm k)) as [[a s]|]. Qed.
Lemma keeps_on_fs {A} (p : prog A) : keeps (on_fs p).
Proof. intros k. unfold ensures, on_fs. by destruct (run_cached p (k_cache k)) as [[a s]|]. Qed.
Lemma keeps_on_mem f : keeps (on_mem f).
Proof. done. Qed.
Lemma keeps_get_mem : keeps get_mem.
Proof. done. Qed.
Lemma keeps_get_tcb t : keeps (get_tcb t).
Proof. intros k. unfold ensures, get_tcb. by destruct (k_tcbs k !! t). Qed.
Lemma keeps_get_file t : keeps (get_file t).
Proof. intros k. unfold ensures, get_file. by destruct (k_files k !! t). Qed.
Lemma keeps_set_file t b : keeps (set_file t b).
Proof. done. Qed.
Lemma keeps_new_file b : keeps (Arc_new_file b).
Proof. done. Qed.
Lemma keeps_time env : keeps (get_time env).
Proof. done. Qed.
Lemma keeps_getchar env : keeps (console_getchar env).
Proof. done. Qed.
Lemma keeps_out f : keeps (modify (λ k, set_out k (f k))).
Proof. done. Qed.
Lemma keeps_konts f : keeps (modify (λ k, set_konts k (f k))).
Proof. done. Qed.
Lemma keeps_space x : keeps (modify (λ k, set_space k x)).
Proof. done. Qed.

(** Updating a block without touching its skeleton. *)
Lemma keeps_update {A} t (f : TaskControlBlock → M K A) (g : TaskControlBlock → A → TaskControlBlock) :
  (∀ b, keeps (f b)) → (∀ b a, skel (g b a) = skel b) →
  keeps (b ← get_tcb t; a ← f b; _ ← set_tcb t (g b a); mret a).
Proof.
  intros Hf Hg k. apply ensures_bind. unfold ensures at 1, get_tcb. destruct (k_tcbs k !! t) as [b|] eqn:Hb; [|done].
  apply ensures_bind. eapply ensures_mono; [apply Hf|]. intros a k' Hk. apply ensures_bind.
  unfold ensures, set_tcb, modify, mret, M_ret. rewrite <- Hk. unfold procs_of. cbn. f_equal.
  rewrite fmap_insert, Hg. apply insert_id. rewrite lookup_fmap.
  injection Hk as Hs _ _ _ _ _ _. rewrite <- lookup_fmap. rewrite Hs, lookup_fmap, Hb. done.
Qed.
End Keeps.

Create HintDb keeps.
#[export] Hint Resolve keeps_ret keeps_lift keeps_get keeps_gets keeps_on_mm keeps_on_fs keeps_on_mem keeps_get_mem
  keeps_get_tcb keeps_get_file keeps_set_file keeps_new_file keeps_time keeps_getchar keeps_out keeps_konts
  keeps_space : keeps.
#[export] Hint Resolve keeps_bind : keeps.

(** Split a computation into its steps and discharge each from the database. *)
Ltac keeps :=
  repeat first
    [ progress eauto with keeps
    | apply keeps_bind; [|intros]
    | match goal with
      | |- keeps (match ?x with _ => _ end) => destruct x
      end ].

Section Keeping.
Context {D : Type} `{BlockDevice D} (env : Env).
Abbreviation K := (Kernel D).

Lemma keeps_for_each {A} (f : A → M K unit) l : (∀ x, keeps (f x)) → keeps (for_each f l).
Proof. intros Hf. induction l as [|x l IH]; simpl; keeps. Qed.

Lemma keeps_current_tcb : keeps (D := D) current_tcb.
Proof. unfold current_tcb, current_task. keeps. Qed.
Lemma keeps_token : keeps (D := D) current_user_token.
Proof. unfold current_user_token. keeps. Qed.
Lemma keeps_user_str p : keeps (D := D) (user_str env p).
Proof. unfold user_str. keeps. Qed.
Lemma keeps_open_file name flags : keeps (D := D) (open_file name flags).
Proof. unfold open_file, root_find, root_create, inode_clear. keeps. Qed.
Lemma keeps_read_all_loop n file : ∀ buffer v, keeps (D := D) (read_all_loop n file buffer v).
Proof. induction n as [|n IH]; intros buffer v; simpl; keeps. Qed.
Lemma keeps_read_all n file : keeps (D := D) (OSInode_read_all n file).
Proof. apply keeps_read_all_loop. Qed.
Lemma keeps_OSInode_read file l : ∀ n, keeps (D := D) (OSInode_read_loop file l n).
Proof. induction l as [|x l IH]; intros n; simpl; unfold store_slice; keeps. Qed.
Lemma keeps_OSInode_write file l : ∀ n, keeps (D := D) (OSInode_write_loop file l n).
Proof. induction l as [|x l IH]; intros n; simpl; keeps. Qed.
Lemma keeps_Stdout_write l : keeps (D := D) (Stdout_write_loop l).
Proof. induction l as [|x l IH]; simpl; keeps. Qed.
Lemma keeps_File_write f buf : keeps (D := D) (File_write f buf).
Proof.
  destruct f; simpl; [keeps|..].
  - unfold Stdout_write. pose proof keeps_Stdout_write. keeps.
  - apply keeps_OSInode_write.
Qed.
Lemma keeps_File_readable f : keeps (D := D) (File_readable f).
Proof. destruct f; simpl; keeps. Qed.
Lemma keeps_File_writable f : keeps (D := D) (File_writable f).
Proof. destruct f; simpl; keeps. Qed.
Lemma keeps_fstat_copy s l : ∀ i, keeps (D := D) (fstat_copy s i l).
Proof. induction l as [|x l IH]; intros i; simpl; keeps. Qed.
Lemma keeps_trap_cx_ppn_of ms : keeps (D := D) (trap_cx_ppn_of ms).
Proof. unfold trap_cx_ppn_of. keeps. Qed.
Lemma keeps_init_trap_cx ppn e u s : keeps (D := D) (init_trap_cx env ppn e u s).
Proof. unfold init_trap_cx, kernel_token. keeps. Qed.
Lemma keeps_TaskInfo_new : keeps (D := D) (TaskInfo_new env).
Proof. unfold TaskInfo_new, get_time_us. keeps. Qed.
Lemma keeps_set_result v : keeps (D := D) (set_result v).
Proof. unfold set_result. keeps. Qed.
Lemma keeps_any_child pid l : keeps (D := D) (any_child pid l).
Proof. induction l as [|x l IH]; simpl; keeps. Qed.
Lemma keeps_find_zombie pid l : ∀ before, keeps (D := D) (find_zombie pid before l).
Proof. induction l as [|x l IH]; intros before; simpl; keeps. Qed.

Lemma keeps_with_current {A} (f : TaskControlBlock → M K (A * TaskControlBlock)) :
  (∀ b k, ensures (f b) k (λ '(a, b') k', procs_of k' = procs_of k ∧ skel b' = skel b)) → keeps (with_current f).
Proof.
  intros Hf k. unfold with_current, take_current_task. apply ensures_bind. unfold ensures at 1.
  apply ensures_bind, ensures_lift. intros t Ht. apply ensures_bind. unfold ensures at 1, get_tcb.
  change (k_tcbs (set_current k None)) with (k_tcbs k). destruct (k_tcbs k !! t) as [b|] eqn:Hb; [|done].
  apply ensures_bind. eapply ensures_mono; [apply Hf|]. intros [a b'] k' [Hk Hs].
  unfold ensures, mbind, M_bind, set_tcb, set_current_task, modify, mret, M_ret. unfold procs_of in *. cbn in *.
  injection Hk as E1 E2 E3 E4 E5 E6 E7. rewrite fmap_insert, E1, E2, E3, E5, E6, E7, Hs. f_equal.
  - apply insert_id. by rewrite lookup_fmap, Hb.
  - unfold unwrap in Ht. destruct (k_current k); simpl in Ht; congruence.
Qed.

(** ** Storing a block with the same skeleton *)

Definition keeps_at {A} (t : Z) (s : skeleton) (p : M K A) : Prop :=
  ∀ k, p_skels (procs_of k) !! t = Some s → ensures p k (λ _ k', procs_of k' = procs_of k).

Lemma keeps_at_keeps {A} t s (p : M K A) : keeps p → keeps_at t s p.
Proof. intros Hp k _. apply Hp. Qed.
Lemma keeps_at_bind {A B} t s (p : M K A) (f : A → M K B) :
  keeps_at t s p → (∀ a, keeps_at t s (f a)) → keeps_at t s (p ≫= f).
Proof.
  intros Hp Hf k Hk. apply ensures_bind. eapply ensures_mono; [by apply Hp|]. intros a k' E.
  rewrite <- E in Hk. eapply ensures_mono; [by apply Hf|]. intros b k'' E'. by rewrite E', E.
Qed.
Lemma keeps_at_set t s b : skel b = s → keeps_at t s (set_tcb t b).
Proof.
  intros <- k Hk. unfold ensures, set_tcb, modify, procs_of in *. cbn in *. by rewrite fmap_insert, insert_id.
Qed.
Lemma keeps_get_tcb_bind {B} t (f : TaskControlBlock → M K B) :
  (∀ b, keeps_at t (skel b) (f b)) → keeps (get_tcb t ≫= f).
Proof.
  intros Hf k. apply ensures_bind. unfold ensures at 1, get_tcb. destruct (k_tcbs k !! t) as [b|] eqn:Hb; [|done].
  apply Hf. unfold procs_of. cbn. by rewrite lookup_fmap, Hb.
Qed.
Lemma keeps_at_get_tcb_bind {B} t s (f : TaskControlBlock → M K B) :
  (∀ b, skel b = s → keeps_at t s (f b)) → keeps_at t s (get_tcb t ≫= f).
Proof.
  intros Hf k Hk. apply ensures_bind. unfold ensures at 1, get_tcb. destruct (k_tcbs k !! t) as [b|] eqn:Hb; [|done].
  apply Hf; [|done]. unfold procs_of in Hk. cbn in Hk. rewrite lookup_fmap, Hb in Hk. by injection Hk.
Qed.
Lemma keeps_current_tcb_bind {B} (f : Z * TaskControlBlock → M K B) :
  (∀ t b, keeps_at t (skel b) (f (t, b))) → keeps (current_tcb ≫= f).
Proof.
  intros Hf k. apply ensures_bind. unfold current_tcb, current_task. apply ensures_bind. unfold ensures at 1, gets.
  apply ensures_bind, ensures_lift. intros t _. apply ensures_bind. unfold ensures at 1, get_tcb.
  destruct (k_tcbs k !! t) as [b|] eqn:Hb; [|done]. unfold ensures at 1. cbn.
  apply Hf. unfold procs_of. cbn. by rewrite lookup_fmap, Hb.
Qed.
End Keeping.

#[export] Hint Resolve keeps_current_tcb keeps_token keeps_user_str keeps_open_file keeps_read_all keeps_File_write
  keeps_File_readable keeps_File_writable keeps_fstat_copy keeps_trap_cx_ppn_of keeps_init_trap_cx keeps_TaskInfo_new
  keeps_set_result keeps_any_child keeps_find_zombie : keeps.

Ltac keeps_at :=
  repeat first
    [ apply keeps_at_set; first [reflexivity | assumption]
    | apply keeps_at_get_tcb_bind; intros
    | apply keeps_at_bind; [|intros]
    | match goal with
      | |- keeps_at _ _ (match ?x with _ => _ end) => destruct x
      end
    | apply keeps_at_keeps; progress keeps ].

Section KeepingCalls.
Context {D : Type} `{BlockDevice D} (env : Env).
Abbreviation K := (Kernel D).

Lemma keeps_update_taskinfo id : keeps (D := D) (update_taskinfo id).
Proof.
  apply keeps_with_current. intros b k. apply ensures_bind, ensures_lift. intros n _.
  apply ensures_bind, ensures_lift. intros times _. by apply ensures_ret.
Qed.
Lemma keeps_get_taskinfo : keeps (D := D) get_taskinfo.
Proof. by apply keeps_with_current. Qed.
Lemma keeps_check_maparea s e : keeps (D := D) (check_maparea s e).
Proof. by apply keeps_with_current. Qed.
Lemma keeps_add_maparea s e p : keeps (D := D) (add_maparea s e p).
Proof.
  apply keeps_with_current. intros b k. apply ensures_bind. eapply ensures_mono; [apply keeps_on_mm|].
  intros ms k' Hk. by apply ensures_ret.
Qed.
Lemma keeps_remove_maparea s e : keeps (D := D) (remove_maparea s e).
Proof.
  apply keeps_with_current. intros b k. apply ensures_bind. eapply ensures_mono; [apply keeps_on_mm|].
  intros [i ms] k' Hk. by apply ensures_ret.
Qed.
Hint Resolve keeps_update_taskinfo keeps_get_taskinfo keeps_check_maparea keeps_add_maparea keeps_remove_maparea : keeps.

Lemma keeps_getpid : keeps (D := D) sys_getpid.
Proof. unfold sys_getpid. keeps. Qed.
Lemma keeps_get_time ts : keeps (D := D) (sys_get_time env ts).
Proof. unfold sys_get_time, get_time_us. keeps. Qed.
Lemma keeps_task_info ti : keeps (D := D) (sys_task_info env ti).
Proof. unfold sys_task_info, get_time_us. keeps. Qed.
Lemma keeps_mmap s l p : keeps (D := D) (sys_mmap s l p).
Proof. unfold sys_mmap. keeps. Qed.
Lemma keeps_munmap s l : keeps (D := D) (sys_munmap s l).
Proof. unfold sys_munmap. keeps. Qed.
Lemma keeps_set_priority p : keeps (D := D) (sys_set_priority p).
Proof.
  unfold sys_set_priority. case_decide; [keeps|]. apply keeps_bind; [|keeps]. by apply keeps_with_current.
Qed.
Lemma keeps_sbrk s : keeps (D := D) (sys_sbrk s).
Proof.
  unfold sys_sbrk. apply keeps_current_tcb_bind. intros t b. unfold TaskControlBlock_change_program_brk. keeps_at.
Qed.
Lemma keeps_write fd buf len : keeps (D := D) (sys_write fd buf len).
Proof. unfold sys_write. keeps. Qed.
Lemma keeps_open p f : keeps (D := D) (sys_open env p f).
Proof.
  unfold sys_open. do 3 (apply keeps_bind; [keeps|intros ?]). case_match; [|keeps]. apply keeps_current_tcb_bind. intros t b.
  destruct (TaskControlBlockInner_alloc_fd b) as [fd b'] eqn:E.
  assert (skel b' = skel b) as <-.
  { unfold TaskControlBlockInner_alloc_fd in E. by destruct (first_free _ _); injection E as <- <-. }
  keeps_at.
Qed.
Lemma keeps_close fd : keeps (D := D) (sys_close fd).
Proof. unfold sys_close. apply keeps_current_tcb_bind. intros t b. keeps_at. Qed.
Lemma keeps_fstat fd st : keeps (D := D) (sys_fstat fd st).
Proof. unfold sys_fstat. keeps. Qed.
Lemma keeps_linkat o n : keeps (D := D) (sys_linkat env o n).
Proof. unfold sys_linkat. keeps. Qed.
Lemma keeps_unlinkat n : keeps (D := D) (sys_unlinkat env n).
Proof. unfold sys_unlinkat, root_find, inode_clear. keeps. Qed.
Lemma keeps_exec p : keeps (D := D) (sys_exec env p).
Proof.
  unfold sys_exec. do 2 (apply keeps_bind; [keeps|intros ?]). case_match; [|keeps].
  apply keeps_bind; [keeps|intros ?]. apply keeps_current_tcb_bind. intros t b. apply keeps_at_bind; [|intros; keeps_at].
  unfold TaskControlBlock_exec. keeps_at.
Qed.
End KeepingCalls.

(** * The structural operations *)

Definition p_set_skels (p : procs) (x : gmap Z skeleton) : procs :=
  MkProcs x (p_next p) (p_ready p) (p_current p) (p_init p) (p_pids p) (p_kstacks p).
Definition p_set_pids (p : procs) (x : RecycleAllocator) : procs :=
  MkProcs (p_skels p) (p_next p) (p_ready p) (p_current p) (p_init p) x (p_kstacks p).
Definition p_set_kstacks (p : procs) (x : RecycleAllocator) : procs :=
  MkProcs (p_skels p) (p_next p) (p_ready p) (p_current p) (p_init p) (p_pids p) x.
Definition p_set_ready (p : procs) (x : list Z) : procs :=
  MkProcs (p_skels p) (p_next p) x (p_current p) (p_init p) (p_pids p) (p_kstacks p).
Definition p_set_current (p : procs) (x : option Z) : procs :=
  MkProcs (p_skels p) (p_next p) (p_ready p) x (p_init p) (p_pids p) (p_kstacks p).
Definition p_add_task (p : procs) (b : skeleton) : procs :=
  MkProcs (<[p_next p := b]> (p_skels p)) (p_next p + 1) (p_ready p) (p_current p) (p_init p) (p_pids p) (p_kstacks p).

Section Structural.
Context {D : Type} `{BlockDevice D} (env : Env).
Abbreviation K := (Kernel D).

Lemma procs_set_tcb (k : K) t b :
  procs_of (set_tcbs k (<[t := b]> (k_tcbs k))) = p_set_skels (procs_of k) (<[t := skel b]> (p_skels (procs_of k))).
Proof. unfold procs_of, p_set_skels. cbn. by rewrite fmap_insert. Qed.

Lemma procs_delete_tcb (k : K) t x :
  procs_of (set_konts (set_tcbs k (delete t (k_tcbs k))) x) = p_set_skels (procs_of k) (delete t (p_skels (procs_of k))).
Proof. unfold procs_of, p_set_skels. cbn. by rewrite fmap_delete. Qed.

Lemma ensures_get_tcb t (k : K) Q :
  (∀ b, k_tcbs k !! t = Some b → p_skels (procs_of k) !! t = Some (skel b) → Q b k) → ensures (get_tcb t) k Q.
Proof.
  intros HQ. unfold ensures, get_tcb. destruct (k_tcbs k !! t) as [b|] eqn:Hb; [|done].
  apply HQ; [done|]. unfold procs_of. cbn. by rewrite lookup_fmap, Hb.
Qed.

Lemma ensures_current_tcb (k : K) Q :
  (∀ t b, k_current k = Some t → k_tcbs k !! t = Some b → p_skels (procs_of k) !! t = Some (skel b) → Q (t, b) k) →
  ensures current_tcb k Q.
Proof.
  intros HQ. unfold current_tcb, current_task. apply ensures_bind. unfold ensures at 1, gets.
  apply ensures_bind, ensures_lift. intros t Ht. apply ensures_bind, ensures_get_tcb. intros b Hb Hs.
  apply ensures_ret. apply HQ; [|done..]. unfold unwrap in Ht. destruct (k_current k); simpl in Ht; congruence.
Qed.

Lemma ensures_keeps {A} (p : M K A) k (Q : A → K → Prop) :
  keeps p → (∀ a k', procs_of k' = procs_of k → Q a k') → ensures p k Q.
Proof. intros Hp HQ. eapply ensures_mono; [apply Hp|]. auto. Qed.

Lemma ensures_take_current (k : K) (Q : option Z → K → Prop) :
  Q (k_current k) (set_current k None) → ensures take_current_task k Q.
Proof. done. Qed.

(** [suspend_current_and_run_next] is the transition of the table. *)
Lemma sim_suspend kont (k : K) :
  ensures (suspend_current_and_run_next kont) k (λ _ k', proc_step (procs_of k) (procs_of k') ∧ k_current k' = None).
Proof.
  unfold suspend_current_and_run_next. apply ensures_bind, ensures_take_current.
  apply ensures_bind, ensures_lift. intros t Ht. apply ensures_bind, ensures_get_tcb. intros b Hb Hs.
  assert (k_current k = Some t) as Hcur by (unfold unwrap in Ht; destruct (k_current k); simpl in Ht; congruence).
  unfold ensures, mbind, M_bind, set_tcb, add_task, modify. split; [|done].
  unfold procs_of in *. cbn in *. rewrite Hcur, fmap_insert. by apply (ps_suspend _ _ _ _ _ _ t (skel b)).
Qed.

(** A turn of the idle loop that finds a task. *)
Lemma sim_run (k : K) : k_current k = None →
  ensures run_tasks_turn k (λ o k', match o with
    | Some t => proc_step (procs_of k) (procs_of k') ∧ k_current k' = Some t ∧ ∃ q, k_ready k = t :: q ∧ k_ready k' = q
    | None => k' = k ∧ k_ready k = []
    end).
Proof.
  intros Hcur. unfold run_tasks_turn. apply ensures_bind. unfold ensures at 1, fetch_task.
  destruct (k_ready k) as [|t q] eqn:Hq; [by apply ensures_ret|].
  apply ensures_bind, ensures_get_tcb. intros b Hb Hs. unfold ensures, mbind, M_bind, set_tcb, set_current_task, modify.
  cbn. split; [|eauto]. unfold procs_of in *. cbn in *. rewrite Hcur, Hq, fmap_insert. by apply (ps_run _ _ _ _ _ _ t (skel b)).
Qed.

(** ** Identifiers *)

Lemma ensures_pid_alloc (k : K) :
  ensures pid_alloc k (λ x k', ∃ a, RecycleAllocator_alloc (p_pids (procs_of k)) = (x, a) ∧
    procs_of k' = p_set_pids (procs_of k) a).
Proof. unfold ensures, pid_alloc. cbn. destruct (RecycleAllocator_alloc (k_pids k)) as [x a]. eauto. Qed.

Lemma ensures_kstack_alloc (k : K) :
  ensures kstack_alloc k (λ x k', ∃ a, RecycleAllocator_alloc (p_kstacks (procs_of k)) = (x, a) ∧
    procs_of k' = p_set_kstacks (procs_of k) a).
Proof.
  unfold kstack_alloc, ensures. cbn [procs_of p_kstacks].
  destruct (RecycleAllocator_alloc (k_kstacks k)) as [x a]. destruct (kernel_stack_position x) as [bot top].
  set (k1 := set_kstacks k a).
  match goal with |- match ?p ?k1 with _ => _ end => change (ensures p k1 (λ x0 k', ∃ a0, (x, a) = (x0, a0) ∧ procs_of k' = p_set_kstacks (procs_of k) a0)) end.
  apply ensures_bind, ensures_keeps; [apply keeps_on_mm|]. intros sp k2 Hk2.
  apply ensures_bind. unfold ensures at 1, modify. apply ensures_ret. exists a. split; [done|].
  change (procs_of k2 = p_set_kstacks (procs_of k) a). by rewrite Hk2.
Qed.

Lemma ensures_PidHandle_drop x (k : K) :
  ensures (PidHandle_drop x) k (λ _ k', ∃ a, RecycleAllocator_dealloc (p_pids (procs_of k)) x = Ok a ∧
    procs_of k' = p_set_pids (procs_of k) a).
Proof. unfold ensures, PidHandle_drop. cbn. destruct (RecycleAllocator_dealloc (k_pids k) x) as [a|]; [|done]. eauto. Qed.

Lemma ensures_KernelStack_drop x (k : K) :
  ensures (KernelStack_drop x) k (λ _ k', ∃ a, RecycleAllocator_dealloc (p_kstacks (procs_of k)) x = Ok a ∧
    procs_of k' = p_set_kstacks (procs_of k) a).
Proof.
  unfold KernelStack_drop. destruct (kernel_stack_position x) as [bot top].
  apply ensures_bind, ensures_lift. intros vpn _. apply ensures_bind, ensures_get.
  apply ensures_bind, ensures_keeps; [apply keeps_on_mm|]. intros sp k2 Hk2.
  apply ensures_bind. unfold ensures at 1, modify. rewrite <- Hk2. unfold ensures, kstack_dealloc. cbn.
  destruct (RecycleAllocator_dealloc (k_kstacks k2) x) as [a|]; [|done]. eauto.
Qed.

Lemma ensures_push_child t c (k : K) :
  ensures (push_child t c) k (λ _ k', ∃ b, p_skels (procs_of k) !! t = Some b ∧
    procs_of k' = p_set_skels (procs_of k) (<[t := sk_set_children b (sk_children b ++ [c])]> (p_skels (procs_of k)))).
Proof.
  unfold push_child. apply ensures_bind, ensures_get_tcb. intros b Hb Hs. unfold ensures, set_tcb, modify.
  rewrite procs_set_tcb. eauto.
Qed.

(** ** New processes *)

Lemma ensures_Arc_new_tcb b (k : K) :
  ensures (Arc_new_tcb b) k (λ x k', x = p_next (procs_of k) ∧ procs_of k' = p_add_task (procs_of k) (skel b)).
Proof. unfold ensures, Arc_new_tcb, procs_of, p_add_task. cbn. by rewrite fmap_insert. Qed.

Lemma procs_add_task t (k : K) :
  ensures (add_task t) k (λ _ k', procs_of k' = p_set_ready (procs_of k) (p_ready (procs_of k) ++ [t])).
Proof. done. Qed.

(** The state in which a new process was created for [t], before it is queued. *)
Definition created (p : procs) (t : Z) (p' : procs) : Prop :=
  ∃ b pid pa ks ka, p_skels p !! t = Some b ∧
    RecycleAllocator_alloc (p_pids p) = (pid, pa) ∧ RecycleAllocator_alloc (p_kstacks p) = (ks, ka) ∧
    p' = p_set_skels (p_add_task (p_set_kstacks (p_set_pids p pa) ka) (MkSkeleton pid ks Ready (Some t) []))
           (<[t := sk_set_children b (sk_children b ++ [p_next p])]>
              (<[p_next p := MkSkeleton pid ks Ready (Some t) []]> (p_skels p))).

Lemma created_step p t p' :
  proc_inv p → p_current p = Some t → ra_room (p_pids p) → ra_room (p_kstacks p) → created p t p' →
  proc_step p (p_set_ready p' (p_ready p' ++ [p_next p])).
Proof.
  intros Hinv Hcur Hp Hk (b & pid & pa & ks & ka & Hb & Hpa & Hka & ->). destruct p. cbn in *. subst.
  by eapply ps_new.
Qed.

Lemma created_intro p t p1 p2 p3 pid pa ks ka b :
  t ≠ p_next p →
  RecycleAllocator_alloc (p_pids p) = (pid, pa) → p1 = p_set_pids p pa →
  RecycleAllocator_alloc (p_kstacks p1) = (ks, ka) → p2 = p_set_kstacks p1 ka →
  p3 = p_add_task p2 (MkSkeleton pid ks Ready (Some t) []) → p_skels p3 !! t = Some b →
  created p t (p_set_skels p3 (<[t := sk_set_children b (sk_children b ++ [p_next p])]> (p_skels p3))).
Proof.
  intros Hne Hpa -> Hka -> -> Hb. cbn in *. rewrite lookup_insert_ne in Hb by done.
  exists b, pid, pa, ks, ka. done.
Qed.

Lemma sim_fork (k : K) t :
  proc_inv (procs_of k) → is_Some (k_tcbs k !! t) →
  ensures (TaskControlBlock_fork env t) k (λ x k', x = k_next_tcb k ∧ created (procs_of k) t (procs_of k')).
Proof.
  intros Hinv [bt Hbt]. unfold TaskControlBlock_fork.
  assert (t ≠ p_next (procs_of k)) as Hne.
  { intros ->. pose proof (pi_fresh _ Hinv (p_next (procs_of k))) as Hf. cbn in *. rewrite lookup_fmap, Hbt in Hf.
    specialize (Hf ltac:(by eexists)). lia. }
  apply ensures_bind, ensures_keeps; [keeps|]. intros parent k1 Hk1.
  apply ensures_bind, ensures_keeps; [keeps|]. intros ms k2 Hk2. rewrite Hk1 in Hk2.
  apply ensures_bind, ensures_keeps; [keeps|]. intros ppn k3 Hk3. rewrite Hk2 in Hk3.
  apply ensures_bind. eapply ensures_mono; [apply ensures_pid_alloc|]. intros pid k4 (pa & Hpa & Hk4). rewrite Hk3 in *.
  apply ensures_bind. eapply ensures_mono; [apply ensures_kstack_alloc|]. intros ks k5 (ka & Hka & Hk5).
  apply ensures_bind, ensures_keeps; [keeps|]. intros ti k6 Hk6. rewrite Hk5 in Hk6.
  apply ensures_bind. eapply ensures_mono; [apply ensures_Arc_new_tcb|]. intros x k7 [Hx Hk7]. rewrite Hk6 in *.
  apply ensures_bind. eapply ensures_mono; [apply ensures_push_child|]. intros [] k8 (b & Hb & Hk8).
  apply ensures_bind, ensures_keeps; [keeps|]. intros [] k9 Hk9. apply ensures_ret.
  assert (x = p_next (procs_of k)) as -> by (rewrite Hx, Hk4; done). split; [done|]. rewrite Hk9, Hk8.
  exact (created_intro _ _ _ _ _ _ _ _ _ _ Hne Hpa Hk4 Hka eq_refl Hk7 Hb).
Qed.

Lemma sim_spawn (k : K) t data :
  proc_inv (procs_of k) → is_Some (k_tcbs k !! t) →
  ensures (TaskControlBlock_spawn env t data) k (λ x k', x = k_next_tcb k ∧ created (procs_of k) t (procs_of k')).
Proof.
  intros Hinv [bt Hbt]. unfold TaskControlBlock_spawn.
  assert (t ≠ p_next (procs_of k)) as Hne.
  { intros ->. pose proof (pi_fresh _ Hinv (p_next (procs_of k))) as Hf. cbn in *. rewrite lookup_fmap, Hbt in Hf.
    specialize (Hf ltac:(by eexists)). lia. }
  apply ensures_bind, ensures_keeps; [keeps|]. intros parent k1 Hk1.
  apply ensures_bind, ensures_keeps; [keeps|]. intros [[ms sp] entry] k2 Hk2. rewrite Hk1 in Hk2.
  apply ensures_bind, ensures_keeps; [keeps|]. intros ppn k3 Hk3. rewrite Hk2 in Hk3.
  apply ensures_bind. eapply ensures_mono; [apply ensures_pid_alloc|]. intros pid k4 (pa & Hpa & Hk4). rewrite Hk3 in *.
  apply ensures_bind. eapply ensures_mono; [apply ensures_kstack_alloc|]. intros ks k5 (ka & Hka & Hk5).
  apply ensures_bind, ensures_keeps; [keeps|]. intros ti k6 Hk6. rewrite Hk5 in Hk6.
  apply ensures_bind. eapply ensures_mono; [apply ensures_Arc_new_tcb|]. intros x k7 [Hx Hk7]. rewrite Hk6 in *.
  apply ensures_bind, ensures_keeps; [keeps|]. intros [] k7' Hk7'. rewrite Hk7 in Hk7'.
  apply ensures_bind. eapply ensures_mono; [apply ensures_push_child|]. intros [] k8 (b & Hb & Hk8).
  apply ensures_bind, ensures_keeps; [keeps|]. intros [] k9 Hk9. apply ensures_ret.
  assert (x = p_next (procs_of k)) as -> by (rewrite Hx, Hk4; done). split; [done|]. rewrite Hk9, Hk8.
  rewrite Hk7' in *. exact (created_intro _ _ _ _ _ _ _ _ _ _ Hne Hpa Hk4 Hka eq_refl eq_refl Hb).
Qed.

(** Queueing the new process, as [sys_fork] and [sys_spawn] end. *)
Lemma sim_queue_new (k k1 : K) t v :
  proc_inv (procs_of k) → k_current k = Some t → ra_room (k_pids k) → ra_room (k_kstacks k) →
  created (procs_of k) t (procs_of k1) →
  ensures (inner ← get_tcb (k_next_tcb k); _ ← on_mem (λ m, set_cx_word m (tcb_trap_cx_ppn inner) 10 v);
           _ ← add_task (k_next_tcb k); mret (signed 64 (tcb_pid inner))) k1
    (λ _ k', proc_step (procs_of k) (procs_of k')).
Proof.
  intros Hinv Hcur Hp Hks Hc. apply ensures_bind, ensures_keeps; [keeps|]. intros b k2 Hk2.
  apply ensures_bind, ensures_keeps; [keeps|]. intros [] k3 Hk3. rewrite Hk2 in Hk3.
  apply ensures_bind. eapply ensures_mono; [apply procs_add_task|]. intros [] k4 Hk4. apply ensures_ret.
  rewrite Hk4, Hk3. by eapply created_step.
Qed.

Lemma sim_sys_fork (k : K) :
  proc_inv (procs_of k) → ra_room (k_pids k) → ra_room (k_kstacks k) →
  ensures (sys_fork env) k (λ _ k', proc_step (procs_of k) (procs_of k')).
Proof.
  intros Hinv Hp Hks. unfold sys_fork. apply ensures_bind, ensures_current_tcb. intros t b Hcur Hb _.
  apply ensures_bind. eapply ensures_mono; [by apply sim_fork|]. intros x k1 [-> Hc]. by eapply sim_queue_new.
Qed.

Lemma sim_sys_spawn (k : K) path :
  proc_inv (procs_of k) → ra_room (k_pids k) → ra_room (k_kstacks k) →
  ensures (sys_spawn env path) k (λ _ k', proc_step01 (procs_of k) (procs_of k')).
Proof.
  intros Hinv Hp Hks. unfold sys_spawn.
  apply ensures_bind, ensures_keeps; [keeps|]. intros p k1 Hk1.
  apply ensures_bind, ensures_keeps; [keeps|]. intros [f|] k2 Hk2; rewrite Hk1 in Hk2.
  2:{ apply ensures_ret. by rewrite Hk2. }
  apply ensures_bind, ensures_keeps; [keeps|]. intros data k3 Hk3. rewrite Hk2 in Hk3. rewrite <- Hk3 in Hinv.
  assert (k_pids k3 = k_pids k ∧ k_kstacks k3 = k_kstacks k) as [Ep Ek] by (by injection Hk3).
  apply ensures_bind, ensures_current_tcb. intros t b Hcur Hb _.
  apply ensures_bind. eapply ensures_mono; [by apply sim_spawn|]. intros x k4 [-> Hc]. rewrite <- Hk3.
  eapply ensures_mono; [eapply sim_queue_new; [done..|congruence|congruence|done]|]. intros v k5 Hs. by apply ps01_one.
Qed.

(** ** References *)

Definition referenced (p : procs) (t : Z) : Prop :=
  t ∈ p_ready p ∨ p_current p = Some t ∨ (∃ t' b, p_skels p !! t' = Some b ∧ t ∈ sk_children b) ∨ p_init p = t.

Lemma count_zero t l : count t l = 0%nat ↔ t ∉ l.
Proof.
  unfold count. rewrite length_zero_iff_nil. split.
  - intros Hf Hin. assert (t ∈ filter (λ x, x = t) l) as H1 by (by apply list_elem_of_filter). rewrite Hf in H1. set_solver.
  - intros Hin. destruct (filter (λ x, x = t) l) as [|y l'] eqn:E; [done|]. exfalso. apply Hin.
    assert (y ∈ filter (λ x, x = t) l) as [-> ?]%list_elem_of_filter by (rewrite E; set_solver). done.
Qed.

Lemma strong_count_zero (k : K) t : Arc_strong_count k t = 0%nat ↔ ¬ referenced (procs_of k) t.
Proof.
  unfold Arc_strong_count, referenced, procs_of. cbn.
  assert (Hc : count t ((map_to_list (k_tcbs k)).*2 ≫= tcb_children) = 0%nat ↔
               ¬ ∃ t' b, (skel <$> k_tcbs k) !! t' = Some b ∧ t ∈ sk_children b).
  { rewrite count_zero. rewrite list_elem_of_bind. split; intros Hn Hex; apply Hn.
    - destruct Hex as (t' & b & (b' & <- & Hb')%lookup_fmap_Some & Hin). exists b'. split; [done|].
      apply list_elem_of_fmap. exists (t', b'). split; [done|]. by apply elem_of_map_to_list.
    - destruct Hex as (b & Hin & ([t' b'] & -> & Hb)%list_elem_of_fmap). apply elem_of_map_to_list in Hb.
      exists t', (skel b'). split; [|done]. by rewrite lookup_fmap, Hb. }
  pose proof (count_zero t (k_ready k)) as Hr. repeat case_decide; split; intros; try lia; intuition lia.
Qed.

Lemma ensures_drop_referenced t (k : K) (Q : unit → K → Prop) :
  referenced (procs_of k) t → Q () k → ensures (drop_task t) k Q.
Proof.
  intros Href HQ. unfold drop_task. apply ensures_bind, ensures_get. cbn [Arc_drop].
  apply ensures_bind, ensures_get. case_decide as Hc; [|done]. by apply strong_count_zero in Hc.
Qed.

(** ** Exit *)

Lemma ensures_adopt c (k : K) :
  ensures (adopt c) k (λ _ k', procs_of k' = p_set_skels (procs_of k) (sk_adopt (p_init (procs_of k)) (p_skels (procs_of k)) c)).
Proof.
  unfold adopt. apply ensures_bind, ensures_get. apply ensures_bind, ensures_get_tcb. intros b Hb Hs.
  apply ensures_bind. unfold ensures at 1, set_tcb, modify. eapply ensures_mono; [apply ensures_push_child|].
  intros [] k' (bi & Hbi & ->). rewrite procs_set_tcb in *. cbn in *. unfold p_set_skels, sk_adopt. cbn. f_equal.
  rewrite (alter_alt_Some _ _ c (skel b)) by done. by rewrite (alter_alt_Some _ _ _ bi).
Qed.

Lemma ensures_adopt_all cs : ∀ (k : K),
  ensures (for_each adopt cs) k (λ _ k', procs_of k' =
    p_set_skels (procs_of k) (foldl (sk_adopt (p_init (procs_of k))) (p_skels (procs_of k)) cs)).
Proof.
  induction cs as [|c cs IH]; intros k; simpl; [by apply ensures_ret|].
  apply ensures_bind. eapply ensures_mono; [apply ensures_adopt|]. intros [] k1 Hk1.
  eapply ensures_mono; [apply IH|]. intros [] k2 ->. by rewrite Hk1.
Qed.

Lemma sim_exit code (k : K) :
  proc_inv (procs_of k) →
  ensures (exit_current_and_run_next code) k (λ _ k', proc_step (procs_of k) (procs_of k') ∧ k_current k' = None).
Proof.
  intros Hinv. unfold exit_current_and_run_next. apply ensures_bind, ensures_take_current.
  apply ensures_bind, ensures_lift. intros t Ht. apply ensures_bind, ensures_get_tcb. intros b Hb Hs.
  assert (k_current k = Some t) as Hcur by (unfold unwrap in Ht; destruct (k_current k); simpl in Ht; congruence).
  case_decide as Hpid; [by apply ensures_lift|].
  apply ensures_bind. unfold ensures at 1, set_tcb at 1, modify at 1. apply ensures_bind.
  eapply ensures_mono; [apply ensures_adopt_all|]. intros [] k1 Hk1. rewrite procs_set_tcb in Hk1.
  apply ensures_bind, ensures_get_tcb. intros b' Hb' Hs'.
  apply ensures_bind, ensures_keeps; [keeps|]. intros ms k2 Hk2.
  apply ensures_bind. unfold ensures at 1, set_tcb, modify. set (k3 := set_tcbs _ _).
  assert (Hstep : proc_step (procs_of k) (procs_of k3)).
  { unfold k3. rewrite procs_set_tcb, Hk2.
    assert (procs_of k = MkProcs (skel <$> k_tcbs k) (k_next_tcb k) (k_ready k) (Some t) (k_initproc k) (k_pids k) (k_kstacks k))
      as E by (unfold procs_of; by rewrite Hcur).
    rewrite E. eapply eq_ind; [by apply (ps_exit _ _ _ _ _ _ t (skel b))|].
    unfold sk_exit. rewrite (alter_alt_Some _ _ t (skel b')); [by rewrite Hk1|]. by rewrite Hk1 in Hs'. }
  apply ensures_drop_referenced.
  - pose proof (proc_step_inv _ _ Hinv Hstep) as Hinv3. right. right. left.
    assert (Htb : p_skels (procs_of k) !! t = Some (skel b)) by done.
    apply (tr_parent _ _ (pi_tree _ Hinv3)).
    + unfold k3. rewrite procs_set_tcb. cbn. rewrite lookup_insert_eq. eauto.
    + intros E. apply Hpid. destruct (tr_root _ _ (pi_tree _ Hinv)) as (bi & Hbi & Hz).
      assert (t = p_init (procs_of k)) as Ei by (rewrite E; by destruct Hstep).
      rewrite <- Ei, Htb in Hbi. by injection Hbi as <-.
  - split; [done|]. unfold k3. cbn. assert (E := f_equal p_current Hk1). assert (E2 := f_equal p_current Hk2). cbn in E, E2.
    by rewrite E2, E.
Qed.

(** ** Reaping *)

Lemma ensures_find_zombie pid l : ∀ before (k : K),
  ensures (find_zombie pid before l) k (λ o k', k' = k ∧ match o with
    | Some (bf, c, af) => before ++ l = bf ++ c :: af ∧
        ∃ b, k_tcbs k !! c = Some b ∧ tcb_task_status b = Zombie ∧ pid_matches pid b = true
    | None => True end).
Proof.
  induction l as [|x l IH]; intros before k; simpl; [by apply ensures_ret|].
  apply ensures_bind, ensures_get_tcb. intros b Hb _. destruct (_ && _) eqn:E.
  - apply ensures_ret. split; [done|]. split; [done|]. apply andb_true_iff in E as [Ez Ep].
    apply bool_decide_eq_true in Ez. eauto.
  - eapply ensures_mono; [apply IH|]. intros [[[bf c] af]|] k' [-> Hp]; [|done]. split; [done|].
    by rewrite <- app_assoc in Hp.
Qed.

(** Dropping the last reference to a block without children. *)
Lemma ensures_drop_last t (k : K) b :
  ¬ referenced (procs_of k) t → p_skels (procs_of k) !! t = Some b → sk_children b = [] →
  ensures (drop_task t) k (λ _ k', ∃ pa ka,
    RecycleAllocator_dealloc (p_pids (procs_of k)) (sk_pid b) = Ok pa ∧
    RecycleAllocator_dealloc (p_kstacks (procs_of k)) (sk_kstack b) = Ok ka ∧
    procs_of k' = p_set_kstacks (p_set_pids (p_set_skels (procs_of k) (delete t (p_skels (procs_of k)))) pa) ka).
Proof.
  intros Href Hb Hleaf. unfold drop_task. apply ensures_bind, ensures_get. cbn [Arc_drop].
  apply ensures_bind, ensures_get. case_decide as Hc; [|by apply strong_count_zero in Href].
  apply ensures_bind, ensures_get_tcb. intros tb Htb Hs. rewrite Hb in Hs. injection Hs as ->. cbn in Hleaf. rewrite Hleaf.
  apply ensures_bind. unfold ensures at 1, modify. apply ensures_bind.
  eapply ensures_mono; [apply ensures_PidHandle_drop|]. intros [] k1 (pa & Hpa & Hk1).
  apply ensures_bind. eapply ensures_mono; [apply ensures_KernelStack_drop|]. intros [] k2 (ka & Hka & Hk2).
  apply ensures_bind, ensures_keeps; [keeps|]. intros [] k3 Hk3. simpl. apply ensures_ret.
  exists pa, ka. split; [done|]. rewrite Hk1 in Hka. split; [done|]. by rewrite Hk3, Hk2, Hk1, procs_delete_tcb.
Qed.

Lemma sim_waitpid pid ptr (k : K) :
  proc_inv (procs_of k) →
  ensures (sys_waitpid pid ptr) k (λ _ k', proc_step01 (procs_of k) (procs_of k')).
Proof.
  intros Hinv. unfold sys_waitpid. apply ensures_bind, ensures_current_tcb. intros t b Hcur Hb Hs.
  apply ensures_bind, ensures_keeps; [keeps|]. intros any k0 Hk0. destruct any; [|apply ensures_ret; by rewrite Hk0].
  simpl. apply ensures_bind. eapply ensures_mono; [apply ensures_find_zombie|].
  intros [[[before c] after]|] k0' [-> Hf]; [|apply ensures_ret; by rewrite Hk0]. simpl in Hf.
  destruct Hf as (Hch & bc & Hbc & Hz & _).
  assert (Hcs : p_skels (procs_of k) !! c = Some (skel bc)) by (rewrite <- Hk0; cbn; by rewrite lookup_fmap, Hbc).
  apply ensures_bind. unfold ensures at 1, set_tcb, modify. set (k1 := set_tcbs _ _).
  assert (Hk1 : procs_of k1 = p_set_skels (procs_of k)
            (<[t := sk_set_children (skel b) (before ++ after)]> (p_skels (procs_of k)))).
  { unfold k1. by rewrite procs_set_tcb, Hk0. }
  assert (Hct : c ≠ t).
  { pose proof (pi_status _ Hinv c _ Hcs) as Hst. unfold status_ok in Hst. cbn in Hst. rewrite Hz in Hst.
    destruct Hst as (Hst & _). congruence. }
  assert (Hleaf : tcb_children bc = []).
  { pose proof (pi_status _ Hinv c _ Hcs) as Hst. unfold status_ok in Hst. cbn in Hst. rewrite Hz in Hst. tauto. }
  apply ensures_bind, ensures_get. apply ensures_bind, ensures_lift. intros [] Hassert.
  apply ensures_bind, ensures_keeps; [keeps|]. intros b2 k2 Hk2.
  apply ensures_bind, ensures_keeps; [keeps|]. intros mem k3 Hk3.
  apply ensures_bind, ensures_keeps; [keeps|]. intros pa k4 Hk4.
  apply ensures_bind, ensures_keeps; [keeps|]. intros [] k5 Hk5. rewrite Hk4, Hk3, Hk2 in Hk5.
  unfold res_assert in Hassert. destruct (bool_decide (Arc_strong_count k1 c + 1 = 1)%nat) eqn:E; [|done].
  apply bool_decide_eq_true in E. assert (Arc_strong_count k1 c = 0%nat) as Hcnt by lia.
  apply strong_count_zero in Hcnt.
  apply ensures_bind. eapply ensures_mono; [apply (ensures_drop_last c k5 (skel bc))|].
  - by rewrite Hk5.
  - rewrite Hk5, Hk1. cbn. by rewrite lookup_insert_ne.
  - done.
  - intros [] k6 (pa' & ka' & Hpa & Hka & Hk6). apply ensures_ret. apply ps01_one. rewrite Hk6, Hk5, Hk1 in *.
    assert (procs_of k = MkProcs (skel <$> k_tcbs k) (k_next_tcb k) (k_ready k) (Some t) (k_initproc k) (k_pids k) (k_kstacks k))
      as E0 by (unfold procs_of; by rewrite Hcur).
    rewrite E0 in *. cbn in *. eapply ps_reap; done.
Qed.

(** * Every step of the kernel *)

Lemma sim_try_read buf (k : K) :
  ensures (Stdin_try_read env buf) k (λ _ k', proc_step01 (procs_of k) (procs_of k')).
Proof.
  unfold Stdin_try_read. apply ensures_bind, ensures_keeps; [keeps|]. intros c k1 Hk1. case_decide.
  - apply ensures_bind. eapply ensures_mono; [apply sim_suspend|]. intros [] k2 [Hs _]. apply ensures_ret.
    rewrite Hk1 in Hs. by apply ps01_one.
  - apply ensures_keeps; [keeps|]. intros r k2 Hk2. by rewrite Hk2, Hk1.
Qed.

Lemma sim_keeps {A} (p : M K A) (k : K) : keeps p → ensures p k (λ _ k', proc_step01 (procs_of k) (procs_of k')).
Proof. intros Hp. apply ensures_keeps; [done|]. intros a k' ->. done. Qed.

Lemma sim_bind_keeps {A B} (p : M K A) (f : A → M K B) (k : K) :
  ensures p k (λ _ k', proc_step01 (procs_of k) (procs_of k')) → (∀ a, keeps (f a)) →
  ensures (p ≫= f) k (λ _ k', proc_step01 (procs_of k) (procs_of k')).
Proof.
  intros Hp Hf. apply ensures_bind. eapply ensures_mono; [done|]. intros a k1 Hs.
  apply ensures_keeps; [done|]. intros b k2 Hk2. by rewrite Hk2.
Qed.

Lemma sim_read fd buf len (k : K) :
  ensures (sys_read env fd buf len) k (λ _ k', proc_step01 (procs_of k) (procs_of k')).
Proof.
  unfold sys_read. apply ensures_bind, ensures_keeps; [keeps|]. intros token k1 Hk1.
  apply ensures_bind, ensures_keeps; [keeps|]. intros [t b] k2 Hk2. rewrite Hk1 in Hk2. rewrite <- Hk2.
  case_decide; [by apply ensures_ret|]. apply ensures_bind, ensures_lift. intros [f|] _; [|by apply ensures_ret].
  apply ensures_bind, ensures_keeps; [keeps|]. intros [|] k3 Hk3; [|apply ensures_ret; by rewrite Hk3].
  apply ensures_bind, ensures_keeps; [keeps|]. intros m k4 Hk4. apply ensures_bind, ensures_lift. intros bufs _.
  rewrite <- Hk3, <- Hk4. destruct f; simpl.
  - unfold Stdin_read. apply ensures_bind, ensures_lift. intros [] _. apply sim_try_read.
  - by apply ensures_lift.
  - apply sim_keeps. apply keeps_bind; [apply keeps_OSInode_read|keeps].
Qed.

Lemma sim_syscall id a0 a1 a2 a3 (k : K) :
  proc_inv (procs_of k) → ra_room (k_pids k) → ra_room (k_kstacks k) →
  ensures (syscall env id a0 a1 a2 a3) k (λ _ k', proc_step01 (procs_of k) (procs_of k')).
Proof.
  intros Hinv Hp Hks. unfold syscall. apply ensures_bind, ensures_keeps; [apply keeps_update_taskinfo|].
  intros r k1 Hk1. rewrite <- Hk1 in *.
  assert (k_pids k1 = k_pids k ∧ k_kstacks k1 = k_kstacks k) as [Ep Ek] by (by injection Hk1).
  rewrite <- Ep in Hp. rewrite <- Ek in Hks.
  assert (Hret : ∀ p : M K Z, ensures p k1 (λ _ k', proc_step01 (procs_of k1) (procs_of k')) →
            ensures (ret p) k1 (λ _ k', proc_step01 (procs_of k1) (procs_of k'))).
  { intros p Hpp. apply sim_bind_keeps; [done|keeps]. }
  assert (Hnone : ensures (lift (Err Panic)) k1 (λ (_ : SysResult) k', proc_step01 (procs_of k1) (procs_of k'))) by done.
  pose proof (sim_sys_fork k1 Hinv Hp Hks) as Hfork. pose proof (λ p, sim_sys_spawn k1 p Hinv Hp Hks) as Hspawn.
  pose proof (λ p q, sim_waitpid p q k1 Hinv) as Hwait.
  assert (Hyield : ensures sys_yield k1 (λ _ k', proc_step01 (procs_of k1) (procs_of k'))).
  { apply sim_bind_keeps; [|keeps]. eapply ensures_mono; [apply sim_suspend|]. intros [] k' [? _]. by apply ps01_one. }
  assert (Hexit : ∀ c, ensures (sys_exit c) k1 (λ _ k', proc_step01 (procs_of k1) (procs_of k'))).
  { intros c. apply sim_bind_keeps; [|keeps]. eapply ensures_mono; [by apply sim_exit|]. intros [] k' [? _].
    by apply ps01_one. }
  assert (Hfork' : ensures (sys_fork env) k1 (λ _ k', proc_step01 (procs_of k1) (procs_of k'))).
  { eapply ensures_mono; [done|]. intros a k' ?. by apply ps01_one. }
  repeat case_match; try exact Hnone; try apply Hret; try done;
    try apply sim_read; try apply Hexit; try apply Hspawn; try apply Hwait; apply sim_keeps;
    eauto using keeps_open, keeps_close, keeps_linkat, keeps_unlinkat, keeps_write, keeps_fstat, keeps_getpid, keeps_exec,
      keeps_get_time, keeps_task_info, keeps_mmap, keeps_munmap, keeps_sbrk, keeps_set_priority.
Qed.

Lemma sim_trap cause (k : K) :
  proc_inv (procs_of k) → ra_room (k_pids k) → ra_room (k_kstacks k) →
  ensures (trap_handler env cause) k (λ _ k', proc_step01 (procs_of k) (procs_of k')).
Proof.
  intros Hinv Hp Hks.
  assert (Hexit : ∀ c, ensures (exit_current_and_run_next c) k (λ _ k', proc_step01 (procs_of k) (procs_of k'))).
  { intros c. eapply ensures_mono; [by apply sim_exit|]. intros [] k' [? _]. by apply ps01_one. }
  destruct cause; simpl; try apply Hexit; [| |done].
  - apply ensures_bind, ensures_current_tcb. intros t b Hcur Hb _.
    apply ensures_bind. unfold ensures at 1, on_mem, modify. apply ensures_bind. unfold ensures at 1, get_mem, gets.
    set (k1 := set_mm _ _). apply ensures_bind. eapply ensures_mono; [by apply sim_syscall|].
    intros r k2 Hs. change (procs_of k1) with (procs_of k) in Hs. destruct r; [|by apply ensures_ret].
    apply ensures_keeps; [keeps|]. intros [] k3 ->. done.
  - apply ensures_bind, ensures_keeps; [unfold set_next_trigger; keeps|]. intros d k1 Hk1.
    eapply ensures_mono; [apply sim_suspend|]. intros [] k2 [Hs _]. rewrite Hk1 in Hs. by apply ps01_one.
Qed.

Lemma sim_resume t (k : K) :
  ensures (resume env t) k (λ _ k', proc_step01 (procs_of k) (procs_of k')).
Proof.
  unfold resume. apply ensures_bind, ensures_get. apply ensures_bind. unfold ensures at 1, modify.
  set (k1 := set_konts _ _). change (procs_of k) with (procs_of k1). destruct (default _ _).
  - by apply ensures_ret.
  - apply sim_keeps. keeps.
  - apply sim_bind_keeps; [apply sim_try_read|]. intros r. keeps.
Qed.

Lemma sim_kernel_step (k k' : K) :
  proc_inv (procs_of k) → Z.of_nat (size (k_tcbs k)) < 2 ^ 64 - 1 →
  kernel_step env k k' → rtc proc_step (procs_of k) (procs_of k').
Proof.
  intros Hinv Hsize Hstep.
  assert (Hsz : Z.of_nat (size (p_skels (procs_of k))) < 2 ^ 64 - 1) by (cbn; by rewrite map_size_fmap).
  destruct Hstep as [k t b m Hcur Hb _ _|cause k k' t Hcur Ht|k k1 k' t Hcur Hrun Hres|k k' Hcur Hrun].
  - done.
  - refine (proc_step01_rtc _ _ (ensures_Ok _ _ _ _ _ (sim_trap cause k Hinv _ _) Ht)).
    + by apply (ids_room _ _ _ (pi_pid _ Hinv)).
    + by apply (ids_room _ _ _ (pi_kstack _ Hinv)).
  - eapply ensures_Ok in Hrun; [|by apply sim_run]. destruct Hrun as (Hs & _).
    eapply ensures_Ok in Hres; [|apply sim_resume]. eapply rtc_l; [done|]. by apply proc_step01_rtc.
  - eapply ensures_Ok in Hrun; [|by apply sim_run]. destruct Hrun as [-> _]. done.
Qed.
End Structural.
