(* ===== verification/TaskSpec.v ===== *)
(** Creating a process ([TaskControlBlock::new] of [os/src/task/task.rs] and
    [kstack_alloc] of [id.rs]): a program in a readable ELF file becomes a task that can
    be dispatched.  Its address space holds the program, its kernel stack is mapped in the
    kernel's space between guard pages, and its trap context makes the first return from
    the kernel start it at its entry point. *)

From S2P Require Import Prelude Config Address Allocator FrameAllocator TaskId PhysMem PageTable PageTableSpec UserMem MemorySet MemorySetSpec AddressSpace.
From S2P Require Import ElfLoad KernelSpace BlockDev BlockCache BlockAccess Bitmap Layout Efs Vfs Kernel Machine MachineSpec OsFile Process ProcSpec ProcInv.

Ltac Zify.zify_post_hook ::= Z.to_euclidean_division_equations.

(** * Words of a trap context *)

Lemma write_bytes_app m a xs ys : write_bytes m a (xs ++ ys) = write_bytes (write_bytes m a xs) (a + len xs) ys.
Proof.
  revert m a. induction xs as [|x xs IH]; intros m a; cbn [app write_bytes length]; [by rewrite Z.add_0_r|].
  rewrite IH. f_equal. lia.
Qed.

Lemma read_words ws : Forall (fits 64) ws → ∀ m a (i : nat) w, ws !! i = Some w →
  read_u64 (write_bytes m a (words_bytes 8 ws)) (a + 8 * Z.of_nat i) = w.
Proof.
  induction 1 as [|w ws Hw Hws IH]; intros m a i x Hx; [done|]. unfold words_bytes in *. rewrite bind_cons, write_bytes_app, length_le_bytes.
  change (Z.of_nat 8) with 8. destruct i as [|i]; cbn in Hx.
  - injection Hx as <-. rewrite Z.mul_0_r, Z.add_0_r. unfold read_u64. rewrite read_bytes_write_out by lia. by apply read_u64_write_eq.
  - replace (a + 8 * Z.of_nat (S i)) with (a + 8 + 8 * Z.of_nat i) by lia. by apply IH.
Qed.

(** [set_trap_cx] puts the context in its frame. *)
Lemma set_trap_cx_ok m f cx : mem_wf m → 0 ≤ frame_num f < 2 ^ 44 → Forall (fits 64) (TrapContext_words cx) →
  length (tc_x cx) = 32%nat →
  mem_wf (set_trap_cx m (ft_ppn f) cx) ∧
  (∀ y, y / 4096 ≠ frame_num f → read_u8 (set_trap_cx m (ft_ppn f) cx) y = read_u8 m y) ∧
  ∀ (i : nat) w, TrapContext_words cx !! i = Some w → cx_word (set_trap_cx m (ft_ppn f) cx) (ft_ppn f) (Z.of_nat i) = w.
Proof.
  intros Hm Hf Hw Hl. unfold set_trap_cx. rewrite page_addr_eq by done. fold (frame_num f). split; [|split].
  - apply write_bytes_wf; [done|apply words_bytes_bytes].
  - intros y Hy. apply read_u8_write_bytes_out. rewrite length_words_bytes. unfold TrapContext_words. rewrite length_app, Hl. cbn [length]. lia.
  - intros i w Hi. rewrite cx_word_eq by done. by apply read_words.
Qed.

(** * Frames of different pages are different *)

Lemma bind_disjoint {A B} (g : A → list B) (xs : list A) : NoDup (xs ≫= g) → ∀ i j a b x,
  xs !! i = Some a → xs !! j = Some b → x ∈ g a → x ∈ g b → i = j.
Proof.
  induction xs as [|y xs IH]; intros Hnd i j a b x Hi Hj Ha Hb; [done|]. rewrite bind_cons in Hnd.
  apply NoDup_app in Hnd as (_ & Hd & Hnd). assert (∀ k c, xs !! k = Some c → x ∈ g c → x ∈ xs ≫= g) as Hin.
  { intros k c Hk%list_elem_of_lookup_2 Hc. apply list_elem_of_bind. by exists c. }
  destruct i as [|i], j as [|j]; cbn in Hi, Hj; simplify_eq; [done|..|f_equal; by eapply IH]; exfalso; eapply Hd; eauto.
Qed.

Lemma frames_distinct l r s ms σ0 σ a b v w f g : ms_inv l r s ms σ0 σ → a ∈ ms_areas ms → b ∈ ms_areas ms →
  ma_data_frames a !! v = Some f → ma_data_frames b !! w = Some g → v ≠ w → frame_num f ≠ frame_num g.
Proof.
  intros Hi Ha Hb Hf Hg Hne E. pose proof (area_frames_elem _ _ _ Hf) as Hfa. pose proof (area_frames_elem _ _ _ Hg) as Hgb. rewrite <- E in Hgb.
  pose proof (ms_area_nodup l r _ _ _ _ _ Hi Ha) as Hnda.
  pose proof Ha as [i Hia]%list_elem_of_lookup. pose proof Hb as [j Hjb]%list_elem_of_lookup.
  pose proof (mi_nodup _ _ _ _ _ _ Hi) as (_ & _ & Hnd)%NoDup_app. pose proof (bind_disjoint _ _ Hnd _ _ _ _ _ Hia Hjb Hfa Hgb) as ->.
  rewrite Hia in Hjb. injection Hjb as <-. apply Hne. by eapply area_frames_inj.
Qed.

(** A page whose frame is not written keeps its contents. *)
Lemma page_unwritten l r s s' ms σ0 σ σ0' σ' a v f : ms_inv l r s ms σ0 σ → ms_inv l r s' ms σ0' σ' →
  a ∈ ms_areas ms → ma_map_type a = Framed → v ∈ area_vpns a → ma_data_frames a !! v = Some f →
  (∀ y, y / 4096 = frame_num f → read_u8 (mm_mem s') y = read_u8 (mm_mem s) y) →
  user_page (mm_mem s') ms v = user_page (mm_mem s) ms v ∧ user_flags (mm_mem s') ms v = user_flags (mm_mem s) ms v.
Proof.
  intros Hi Hi' Ha Ht Hv Hf Hm.
  destruct (framed_page l r _ _ _ _ _ _ Hi Ha Ht Hv) as (g & Hg & H44 & _ & _ & _ & -> & ->).
  destruct (framed_page l r _ _ _ _ _ _ Hi' Ha Ht Hv) as (g' & Hg' & _ & _ & _ & _ & -> & ->).
  rewrite Hf in Hg, Hg'. injection Hg as <-. injection Hg' as <-. split; [|done]. f_equal. unfold get_bytes_array.
  apply read_bytes_ext. rewrite page_addr_eq by exact H44. intros y Hy. apply Hm. unfold frame_num. lia.
Qed.

(** * The root of a table stays

    so that a token taken once remains valid. *)

Lemma create_loop_root idxs : ∀ i ppn pt s o pt' s', find_pte_create_loop i idxs ppn pt s = Ok ((o, pt'), s') → root_ppn pt' = root_ppn pt.
Proof.
  induction idxs as [|idx idxs IH]; intros i ppn pt s o pt' s'; cbn [find_pte_create_loop]; [by intros [= _ <- _]|].
  case_decide; [by intros [= _ <- _]|]. intros (s1 & s1' & [= <- <-] & H2)%bind_inv. apply bind_inv in H2 as (pt1 & s2 & H2 & H3).
  apply bind_inv in H3 as (s3 & s3' & _ & H3). rewrite (IH _ _ _ _ _ _ _ H3). destruct (PageTableEntry_is_valid _); [by injection H2 as <- _|].
  apply bind_inv in H2 as (o1 & s4 & _ & H2). apply bind_inv in H2 as (fr & s5 & _ & H2). apply bind_inv in H2 as ([] & s6 & _ & H2).
  by injection H2 as <- _.
Qed.

Lemma map_root pt v p fl s pt' s' : PageTable_map pt v p fl s = Ok (pt', s') → root_ppn pt' = root_ppn pt.
Proof.
  unfold PageTable_map, PageTable_find_pte_create. intros ([o pt1] & s1 & H1 & H2)%bind_inv. cbn beta iota in H2.
  apply bind_inv in H2 as (pte & s2 & _ & H2). apply bind_inv in H2 as (s3 & s3' & _ & H2). apply bind_inv in H2 as ([] & s4 & _ & H2).
  apply bind_inv in H2 as ([] & s5 & _ & H2). injection H2 as <- _. by eapply create_loop_root.
Qed.

Lemma map_vpns_root vs : ∀ a pt s a' pt' s', MapArea_map_vpns a pt vs s = Ok ((a', pt'), s') → root_ppn pt' = root_ppn pt.
Proof.
  induction vs as [|v vs IH]; intros a pt s a' pt' s'; cbn [MapArea_map_vpns]; [by intros [= _ <- _]|].
  intros ([a1 pt1] & s1 & H1 & H2)%bind_inv. cbn beta iota in H2. rewrite (IH _ _ _ _ _ _ H2). unfold MapArea_map_one in H1.
  apply bind_inv in H1 as ([p a2] & s2 & _ & H1). cbn beta iota in H1. apply bind_inv in H1 as (fl & s3 & _ & H1).
  apply bind_inv in H1 as (pt2 & s4 & H1 & H3). injection H3 as _ <- _. by eapply map_root.
Qed.

Lemma push_area_token ms x y perm s ms' s' : push_area ms x y Framed perm s = Ok (ms', s') → MemorySet_token ms' = MemorySet_token ms.
Proof.
  unfold push_area, MemorySet_push, MapArea_map. intros (na & s1 & _ & H)%bind_inv. apply bind_inv in H as ([a pt] & s2 & H & H2).
  cbn beta iota in H2. apply bind_inv in H2 as ([] & s3 & _ & H2). injection H2 as <- _.
  unfold MemorySet_token, PageTable_token. cbn [ms_page_table]. by rewrite (map_vpns_root _ _ _ _ _ _ _ H).
Qed.

(** * Kernel stacks *)

(** The two pages of the stack of a slot. *)
Definition kstack_pages (id : Z) : list VirtPageNum := MkVirtPageNum <$> seqZ (2 ^ 27 - 3 - 3 * id) 2.

Lemma elem_kstack_pages id v : v ∈ kstack_pages id ↔ 2 ^ 27 - 3 - 3 * id ≤ vpn_0 v < 2 ^ 27 - 1 - 3 * id.
Proof.
  unfold kstack_pages. rewrite list_elem_of_fmap. setoid_rewrite elem_of_seqZ. destruct v as [v]. cbn [vpn_0]. split.
  - intros (y & [= ->] & Hy). lia.
  - intros Hv. exists v. split; [done|lia].
Qed.

Lemma kstack_position_addr id : 0 ≤ id < 2 ^ 20 →
  kernel_stack_position id = (2 ^ 64 - 4096 * (3 * id + 3), 2 ^ 64 - 4096 * (3 * id + 1)) ∧
  VirtAddr_from (2 ^ 64 - 4096 * (3 * id + 3)) = MkVirtAddr (4096 * (2 ^ 27 - 3 - 3 * id)) ∧
  VirtAddr_from (2 ^ 64 - 4096 * (3 * id + 1)) = MkVirtAddr (4096 * (2 ^ 27 - 3 - 3 * id + 2)).
Proof.
  intros Hid. split; [|split].
  - unfold kernel_stack_position, KERNEL_STACK_SIZE, PAGE_SIZE, TRAMPOLINE, USIZE_MAX, PAGE_SIZE.
    rewrite add_w_small by (unfold fits; lia). rewrite mul_w_small by (unfold fits; lia).
    rewrite (sub_w_small _ (2 ^ 64 - 1 - 0x1000 + 1)) by (unfold fits; lia). rewrite sub_w_small by (unfold fits; lia).
    f_equal; lia.
  - rewrite VirtAddr_from_high by lia. f_equal. lia.
  - rewrite VirtAddr_from_high by lia. f_equal. lia.
Qed.

(** Above the memory the kernel maps only the trampoline and its stacks. *)
Lemma kernel_entry_high ks v : symbols_ok ks → 0x88000 ≤ vpn_0 v → v ≠ trampoline_vpn → kernel_entry ks v = None.
Proof.
  intros Hks Hv Hne. unfold kernel_entry. rewrite (decide_False _ _ Hne). destruct (region_perm _ v) as [p|] eqn:Hp; [|done].
  apply region_perm_Some in Hp as (g & Hg & Hin & _). pose proof (kernel_region_low ks v g Hks Hg Hin). lia.
Qed.

Section Kstack.
Context {D : Type} `{BlockDevice D} (l r : Z).

Lemma kstack_alloc_ok (k : Kernel D) σ0 σ id a : RecycleAllocator_alloc (k_kstacks k) = (id, a) → 0 ≤ id < 2 ^ 20 →
  ms_inv l r (k_mm k) (k_space k) σ0 σ → (∀ v, v ∈ kstack_pages id → σ !! v = None) → 6 ≤ sfa_avail (mm_fa (k_mm k)) →
  ∃ area ms s σ', kstack_alloc k = Ok (id, set_space (set_mm (set_kstacks k a) s) ms) ∧
    grown l r (k_mm k) (k_space k) σ0 σ s ms σ' [area] ∧ (∀ v, v ∈ area_vpns area ↔ v ∈ kstack_pages id) ∧
    zero_pages s ms area ∧ ma_map_perm area = 0x6 ∧ len (area_vpns area) = 2 ∧ MemorySet_token ms = MemorySet_token (k_space k).
Proof.
  intros Ha Hid Hi Hn Hav. destruct (kstack_position_addr id Hid) as (Hpos & Hlo & Hhi). set (x := 2 ^ 27 - 3 - 3 * id) in *.
  assert (len (pages_of (MkVirtAddr (4096 * x)) (MkVirtAddr (4096 * (x + 2)))) = 2) as Hlen.
  { unfold pages_of. cbn [va_0]. rewrite length_fmap, length_seqZ. lia. }
  assert (∀ v, v ∈ pages_of (MkVirtAddr (4096 * x)) (MkVirtAddr (4096 * (x + 2))) ↔ v ∈ kstack_pages id) as Hpg.
  { intros v. rewrite elem_pages by lia. rewrite elem_kstack_pages. unfold x. lia. }
  destruct (push_area_grown l r (k_mm k) (k_space k) σ0 σ (2 ^ 64 - 4096 * (3 * id + 3)) (2 ^ 64 - 4096 * (3 * id + 1)) (4096 * x) (4096 * (x + 2)) 0x6)
    as (area & ms & s & σ' & Hrun & G & Hv & Hp & Hz & _); [done|done|done|unfold range_va_ok; cbn; lia|done| |lia|].
  { intros v Hv. by apply Hn, Hpg. }
  exists area, ms, s, σ'. split; [|split; [done|split; [by intros v; rewrite Hv|split; [done|split; [done|split; [by rewrite Hv|by eapply push_area_token]]]]]].
  unfold kstack_alloc. rewrite Ha. cbv zeta. rewrite Hpos. cbn beta iota. erewrite bind_Ok; [erewrite bind_Ok by reflexivity; reflexivity|].
  unfold on_mm. cbn [k_mm k_space set_kstacks]. change (MemorySet_insert_framed_area (k_space k) (VirtAddr_from (2 ^ 64 - 4096 * (3 * id + 3)))
    (VirtAddr_from (2 ^ 64 - 4096 * (3 * id + 1))) (Z.lor MapPermission_R MapPermission_W) (k_mm k)) with
    (push_area (k_space k) (2 ^ 64 - 4096 * (3 * id + 3)) (2 ^ 64 - 4096 * (3 * id + 1)) Framed 0x6 (k_mm k)). by rewrite Hrun.
Qed.
End Kstack.

(** * A growing kernel space *)

Section Grown.
Context (l r : Z).

Lemma grown_same s ms σ0 σ s' ms' σ' as' v : ms_inv l r s ms σ0 σ → grown l r s ms σ0 σ s' ms' σ' as' →
  v ∉ as' ≫= area_vpns → σ' !! v = σ !! v.
Proof.
  intros Hi G Hv. pose proof (mi_view _ _ _ _ _ _ Hi v) as H1. pose proof (mi_view _ _ _ _ _ _ (gr_inv _ _ _ _ _ _ _ _ _ _ G) v) as H2.
  assert (∀ e, σ' !! v = Some e ↔ σ !! v = Some e) as He.
  { intros e. rewrite H1, H2, (gr_areas _ _ _ _ _ _ _ _ _ _ G). split; intros [|(a & Ha & He)]; auto; right; exists a.
    - apply elem_of_app in Ha as [Ha|Ha]; [done|]. destruct Hv. apply list_elem_of_bind. exists a. split; [|done].
      pose proof (mi_areas _ _ _ _ _ _ (gr_inv _ _ _ _ _ _ _ _ _ _ G)) as Hok. rewrite Forall_forall in Hok.
      apply area_pages_dom; [apply Hok; rewrite (gr_areas _ _ _ _ _ _ _ _ _ _ G); apply elem_of_app; by right|by eexists].
    - split; [apply elem_of_app; by left|done]. }
  destruct (σ !! v) as [e|]; [by apply He|]. destruct (σ' !! v) as [e|]; [|done]. discriminate (proj1 (He e) eq_refl).
Qed.

(** A program's space while the kernel's grows. *)
Lemma trap_ready_grown s ks us ksp f σ0 σ s' ksp' σ' as' : trap_ready l r s ks us ksp f →
  grown l r s ksp σ0 σ s' ksp' σ' as' → σ0 !! trampoline_vpn = Some (trampoline_entry ks) →
  σ !! trampoline_vpn = Some (trampoline_entry ks) →
  trap_ready l r s' ks us ksp' f ∧ ∀ y, y / 4096 ∈ ms_frames us → read_u8 (mm_mem s') y = read_u8 (mm_mem s) y.
Proof.
  intros [(σu0 & σu & Hu & Htu & Hut) _ Hcx Hap Hks] G H0 Hσ. destruct (gr_step _ _ _ _ _ _ _ _ _ _ G) as (new & d & Hst & Hd & _ & Hf & _).
  assert (∀ x, x ∈ ms_frames us → x ∉ new) as Hnew.
  { intros x Hx Hin. by apply (mm_fresh _ _ _ _ _ _ Hst x Hin), (mi_live _ _ _ _ _ _ Hu). }
  assert (∀ x, x ∈ ms_frames us → x ∉ d) as Hud.
  { intros x Hx [Hin|Hin]%Hd; [by apply (Hnew x)|]. apply (Hap x Hx). apply elem_of_app. by left. }
  split; [|intros y Hy; by apply (mm_same _ _ _ _ _ _ Hst), Hud]. split; [| |done| |done].
  - exists σu0, σu. split; [|done]. eapply ms_inv_frame; [done|done|]. intros x Hx. apply Hud. apply elem_of_app. by left.
  - exists σ0, σ'. split; [apply G|]. by apply (gr_fixed _ _ _ _ _ _ _ _ _ _ G).
  - intros x Hx [Hin|Hin]%Hf; [by apply (Hnew x)|by apply (Hap x)].
Qed.
End Grown.

(** * Processes *)

(** What the kernel is linked with: the trampoline is a page, and the constants it puts in
    a trap context are machine words. *)
Record env_ok (env : Env) : Prop := {
  env_tramp : strampoline_ok (env_symbols env);
  env_sstatus_fits : fits 64 (env_sstatus env);
  env_handler_fits : fits 64 (env_trap_handler env)
}.

Lemma init_context_fits sstatus entry sp satp ksp handler : Forall (fits 64) [sstatus; entry; sp; satp; ksp; handler] →
  Forall (fits 64) (TrapContext_words (TrapContext_app_init_context sstatus entry sp satp ksp handler)).
Proof.
  rewrite !Forall_cons. intros (H1 & H2 & H3 & H4 & H5 & H6 & _). unfold TrapContext_words. apply Forall_app. split.
  - apply Forall_insert; [|done]. apply Forall_replicate. by compute.
  - repeat (apply Forall_cons; split; [done|]). by apply Forall_nil.
Qed.

Lemma start_cx_fits env elf_data elf phs id satp : env_ok env → elf_ok elf_data elf phs → fits 64 (elf_entry_point elf) →
  0 ≤ id < 2 ^ 20 → fits 64 satp →
  Forall (fits 64) (TrapContext_words (TrapContext_app_init_context (env_sstatus env) (elf_entry_point elf)
    (4096 * (last_end 0 (loads phs) + 3)) satp (KernelStack_get_top id) (env_trap_handler env))).
Proof.
  intros [_ Hss Hh] Helf Hent Hid Hsat. pose proof (last_end_range _ _ (eo_segs _ _ _ Helf)) as HE. apply init_context_fits.
  repeat apply Forall_cons_2; [done|done|unfold fits; lia|done| |done|by apply Forall_nil].
  unfold KernelStack_get_top. destruct (kstack_position_addr id Hid) as (-> & _). unfold fits. cbn. lia.
Qed.

(** A program in memory: the trap context of the task is the one [app_init_context] makes,
    its space holds the segments of the file and an empty user stack. *)
Record program_ready {D} (l r : Z) (env : Env) (k : Kernel D) (b : TaskControlBlock) (elf_data : list Z) (phs : list ProgramHeader)
    (entry : Z) : Prop := {
  pr_trap : ∃ f, tcb_trap_cx_ppn b = ft_ppn f ∧ trap_ready l r (k_mm k) (env_symbols env) (tcb_memory_set b) (k_space k) f;
  pr_words : ∀ (i : nat) w, TrapContext_words (TrapContext_app_init_context (env_sstatus env) entry (4096 * (last_end 0 (loads phs) + 3))
      (MemorySet_token (k_space k)) (KernelStack_get_top (tcb_kernel_stack b)) (env_trap_handler env)) !! i = Some w →
    cx_word (mm_mem (k_mm k)) (tcb_trap_cx_ppn b) (Z.of_nat i) = w;
  pr_code : ∀ ph, ph ∈ loads phs → seg_loaded elf_data (mm_mem (k_mm k)) (tcb_memory_set b) ph;
  pr_stack : ∀ v, v ∈ stack_pages phs → user_page (mm_mem (k_mm k)) (tcb_memory_set b) v = Some (replicate 4096 0) ∧
    user_flags (mm_mem (k_mm k)) (tcb_memory_set b) v = Some 0x17
}.

(** A task that can be dispatched: besides, its kernel stack is mapped and empty, and its
    task context starts at [trap_return] on that stack. *)
Record runnable {D} (l r : Z) (env : Env) (k : Kernel D) (b : TaskControlBlock) (elf_data : list Z) (phs : list ProgramHeader)
    (entry : Z) : Prop := {
  rn_program : program_ready l r env k b elf_data phs entry;
  rn_kstack : ∀ v, v ∈ kstack_pages (tcb_kernel_stack b) → user_page (mm_mem (k_mm k)) (k_space k) v = Some (replicate 4096 0) ∧
    user_flags (mm_mem (k_mm k)) (k_space k) v = Some 0x7;
  rn_task_cx : tcb_task_cx b = TaskContext_goto_trap_return (env_trap_return env) (KernelStack_get_top (tcb_kernel_stack b))
}.

Section Create.
Context {D : Type} `{BlockDevice D} (l r : Z) (env : Env).

(** The pages of a program are in frames other than that of its trap context. *)
Lemma program_pages_kept ks s1 us σu0 σu f s2 ksp2 m :
  ms_inv l r s1 us σu0 σu → trap_ready l r (MkMM m (mm_fa s2)) ks us ksp2 f →
  (∀ y, y / 4096 ∈ ms_frames us → y / 4096 ≠ frame_num f → read_u8 m y = read_u8 (mm_mem s1) y) →
  ∀ a v, a ∈ ms_areas us → ma_map_type a = Framed → v ∈ area_vpns a → v ≠ trap_page →
    user_page m us v = user_page (mm_mem s1) us v ∧ user_flags m us v = user_flags (mm_mem s1) us v.
Proof.
  intros Hi Htr2 Hm a v Ha Ht Hv Hne.
  destruct Htr2 as [(σ0' & σ' & Hu' & _) _ (ta & Hta & _ & _ & _ & Htf) _ _].
  destruct (framed_page l r _ _ _ _ _ _ Hi Ha Ht Hv) as (g & Hg & _).
  apply (page_unwritten l r s1 (MkMM m (mm_fa s2)) us _ σu _ _ a v g Hi Hu' Ha Ht Hv Hg). intros y Hy. apply Hm.
  - rewrite Hy. eapply area_frames_ms; [done|]. by eapply area_frames_elem.
  - rewrite Hy. exact (frames_distinct l r _ _ _ _ a ta v trap_page g f Hi Ha Hta Hg Htf Hne).
Qed.

Lemma program_kept ks elf elf_data phs s s1 us σu f s2 ksp2 m : elf_ok elf_data elf phs →
  program_space l r ks elf_data phs s s1 us σu → trap_ready l r (MkMM m (mm_fa s2)) ks us ksp2 f →
  (∀ y, y / 4096 ∈ ms_frames us → y / 4096 ≠ frame_num f → read_u8 m y = read_u8 (mm_mem s1) y) →
  (∀ ph, ph ∈ loads phs → seg_loaded elf_data m us ph) ∧
  (∀ v, v ∈ stack_pages phs → user_page m us v = Some (replicate 4096 0) ∧ user_flags m us v = Some 0x17).
Proof.
  intros Helf Hps Htr2 Hm1. pose proof (program_pages_kept _ _ _ _ _ _ _ _ _ (ps_inv _ _ _ _ _ _ _ _ _ Hps) Htr2 Hm1) as Hkeep.
  pose proof (last_end_range _ _ (eo_segs _ _ _ Helf)) as HE. split.
  - intros ph Hph j Hj. destruct (ps_areas _ _ _ _ _ _ _ _ _ Hps ph Hph) as (a & Ha & Ht & Hv).
    assert (MkVirtPageNum (seg_first ph + j) ∈ seg_pages ph) as Hin by (apply elem_seg_pages; cbn; lia).
    destruct (Hkeep a (MkVirtPageNum (seg_first ph + j)) Ha Ht) as [-> ->]; [by rewrite Hv| |by apply (ps_segs _ _ _ _ _ _ _ _ _ Hps)].
    intros E. assert (MkVirtPageNum (seg_first ph + j) ∈ loads phs ≫= seg_pages) as Hb%(seg_below _ _ _ _ Helf)
      by (apply list_elem_of_bind; by exists ph). rewrite E in Hb. unfold trap_page in Hb. cbn in Hb. lia.
  - intros v Hv. destruct (ps_stack_area _ _ _ _ _ _ _ _ _ Hps) as (a & Ha & Ht & Hav).
    destruct (Hkeep a v Ha Ht) as [-> ->]; [by apply Hav| |by apply (ps_stack _ _ _ _ _ _ _ _ _ Hps)].
    intros ->. apply elem_stack_pages in Hv. unfold trap_page in Hv. cbn in Hv. lia.
Qed.

(** A kernel stack [area] that was just mapped is not touched by the trap context. *)
Lemma kstack_kept ks us f s1 ksp σ0 σ s2 ksp2 σ2 area m :
  grown l r s1 ksp σ0 σ s2 ksp2 σ2 [area] → zero_pages s2 ksp2 area → ma_map_perm area = 0x6 →
  trap_ready l r (MkMM m (mm_fa s2)) ks us ksp2 f → (∀ y, y / 4096 ≠ frame_num f → read_u8 m y = read_u8 (mm_mem s2) y) →
  ∀ v, v ∈ area_vpns area → user_page m ksp2 v = Some (replicate 4096 0) ∧ user_flags m ksp2 v = Some 0x7.
Proof.
  intros G Hz Hp Htr2 Hm2 v Hv. pose proof (gr_inv _ _ _ _ _ _ _ _ _ _ G) as Hi2.
  pose proof Htr2 as [_ (σ0' & σ' & Hk' & _) (ta & Hta & _ & _ & _ & Htf) Hap _].
  assert (area ∈ ms_areas ksp2) as Ha by (rewrite (gr_areas _ _ _ _ _ _ _ _ _ _ G); apply elem_of_app; right; apply list_elem_of_here).
  pose proof (gr_framed _ _ _ _ _ _ _ _ _ _ G) as Ht. rewrite Forall_singleton in Ht.
  destruct (framed_page l r _ _ _ _ _ _ Hi2 Ha Ht Hv) as (g & Hg & _).
  destruct (page_unwritten l r s2 (MkMM m (mm_fa s2)) ksp2 _ _ _ _ area v g Hi2 Hk' Ha Ht Hv Hg) as [E1 E2].
  { intros y Hy. apply Hm2. rewrite Hy. intros E. apply (Hap (frame_num f)).
    - eapply area_frames_ms; [done|]. by eapply area_frames_elem.
    - rewrite <- E. eapply area_frames_ms; [done|]. by eapply area_frames_elem. }
  cbn [mm_mem] in E1, E2. rewrite E1, E2. destruct (Hz v Hv) as [-> ->]. by rewrite Hp.
Qed.

Lemma trap_cx_ppn_ok (k : Kernel D) ks us ksp f : trap_ready l r (k_mm k) ks us ksp f → trap_cx_ppn_of us k = Ok (ft_ppn f, k).
Proof.
  intros [(σ0 & σ & Hu & _) _ (a & Ha & Ht & _ & Hv & Hf) _ _]. unfold trap_cx_ppn_of.
  erewrite bind_Ok by (unfold lift; change (VirtPageNum_from_VirtAddr (VirtAddr_from TRAP_CONTEXT_BASE)) with (Ok trap_page); reflexivity).
  erewrite bind_Ok by reflexivity. destruct (framed_page l r _ _ _ _ _ _ Hu Ha Ht Hv) as (g & Hg & _ & _ & Htr & Hp & _).
  rewrite Hf in Hg. injection Hg as <-. erewrite bind_Ok by (unfold lift; rewrite Htr; reflexivity). by rewrite Hp.
Qed.

(** The state after the creation of a process. *)
Definition created (k : Kernel D) (pids kstacks : RecycleAllocator) (s : MM) (space : MemorySet) : Kernel D :=
  set_mm (set_times (set_space (set_kstacks (set_pids k pids) kstacks) space) (S (k_times k))) s.

Section New.
Context (k : Kernel D) (σ0 σ : page_map) (elf_data : list Z) (elf : ElfFile) (phs : list ProgramHeader) (pid id : Z) (pa a : RecycleAllocator).
Context (Henv : env_ok env) (Hi : ms_inv l r (k_mm k) (k_space k) σ0 σ).
Context (H0 : σ0 !! trampoline_vpn = Some (trampoline_entry (env_symbols env))).
Context (Hσ : σ !! trampoline_vpn = Some (trampoline_entry (env_symbols env))).
Context (Hnew : env_elf_new env elf_data = Some elf) (Helf : elf_ok elf_data elf phs) (Hent : fits 64 (elf_entry_point elf)).
Context (Hkst : RecycleAllocator_alloc (k_kstacks k) = (id, a)) (Hid : 0 ≤ id < 2 ^ 20).
Context (Hfree : ∀ v, v ∈ kstack_pages id → σ !! v = None).
Context (Hav : 3 * len (loads phs ≫= seg_pages) + 18 ≤ sfa_avail (mm_fa (k_mm k))).

Abbreviation user_sp := (4096 * (last_end 0 (loads phs) + 3)).
Abbreviation first_cx space := (TrapContext_app_init_context (env_sstatus env) (elf_entry_point elf) user_sp (MemorySet_token space)
  (KernelStack_get_top id) (env_trap_handler env)).

(** The memory of the new process, step by step as the code makes it: after the kernel stack
    only the frame of the trap context is written, which leaves the memory [m]. *)
Lemma new_task_memory : ∃ us s1 f space s2 σ2 new d,
  MemorySet_from_elf (env_symbols env) (env_elf_new env) elf_data (k_mm k) = Ok ((us, user_sp, elf_entry_point elf), s1) ∧
  trap_ready l r s1 (env_symbols env) us (k_space k) f ∧
  kstack_alloc (set_pids (set_mm k s1) pa) = Ok (id, set_space (set_mm (set_kstacks (set_pids (set_mm k s1) pa) a) s2) space) ∧
  trap_ready l r s2 (env_symbols env) us space f ∧ (∀ v, v ∉ kstack_pages id → σ2 !! v = σ !! v) ∧
  MemorySet_token space = MemorySet_token (k_space k) ∧ (∀ x, x ∈ ms_frames us → x ∈ new) ∧
  (∀ x, x ∈ d → x ∈ new ∨ x ∈ frame_nums (frames (ms_page_table (k_space k)))) ∧
  (∃ σu, program_space l r (env_symbols env) elf_data phs (k_mm k) s1 us σu) ∧
  ∀ m, mem_wf m → (∀ y, y / 4096 ≠ frame_num f → read_u8 m y = read_u8 (mm_mem s2) y) →
    trap_ready l r (MkMM m (mm_fa s2)) (env_symbols env) us space f ∧
    (∀ ph, ph ∈ loads phs → seg_loaded elf_data m us ph) ∧
    (∀ v, v ∈ stack_pages phs → user_page m us v = Some (replicate 4096 0) ∧ user_flags m us v = Some 0x17) ∧
    (∀ v, v ∈ kstack_pages id → user_page m space v = Some (replicate 4096 0) ∧ user_flags m space v = Some 0x7) ∧
    ms_inv l r (MkMM m (mm_fa s2)) space σ0 σ2 ∧ mm_step l r (k_mm k) (MkMM m (mm_fa s2)) new d.
Proof using All.
  destruct (from_elf_ok l r (env_symbols env) (env_elf_new env) elf_data elf phs (k_mm k)) as (us & s1 & σu & Hrun1 & Hps);
    [by destruct (mi_pt _ _ _ _ _ _ Hi) as [(? & ? & _) _]|apply Henv|done|done|lia|].
  destruct (ps_step _ _ _ _ _ _ _ _ _ Hps) as (n1 & d1 & Hst1 & Hd1 & Hf1 & Hl1). pose proof (mm_avail _ _ _ _ _ _ Hst1) as Hav1.
  destruct (program_trap_ready _ _ _ _ _ _ _ _ _ _ _ _ (env_tramp _ Henv) Hi Hσ Hps) as (f & Htr1).
  pose proof (ms_inv_fresh _ _ _ _ _ _ _ _ _ Hi Hst1 Hd1) as Hi1.
  destruct (kstack_alloc_ok l r (set_pids (set_mm k s1) pa) σ0 σ id a Hkst Hid Hi1 Hfree)
    as (area & space & s2 & σ2 & Hrun2 & G & Hvs & Hz & Hp & Hl2 & Htok); [cbn [k_mm set_pids set_mm]; lia|].
  cbn [k_mm k_space set_pids set_mm] in G. pose proof (gr_inv _ _ _ _ _ _ _ _ _ _ G) as Hi2.
  destruct (trap_ready_grown l r _ _ _ _ _ _ _ _ _ _ _ Htr1 G H0 Hσ) as [Htr2 Hsame2].
  destruct (gr_step _ _ _ _ _ _ _ _ _ _ G) as (n2 & d2 & Hst2 & Hd2 & _).
  exists us, s1, f, space, s2, σ2, (n1 ++ n2 ++ []), (d1 ++ d2 ++ [frame_num f]). do 4 (split; [done|]). split; [|split; [done|split; [|split; [|split; [by exists σu|]]]]].
  - intros v Hv. eapply (grown_same l r); [exact Hi1|exact G|]. cbn [mbind list_bind]. by rewrite app_nil_r, Hvs.
  - intros x Hx. apply elem_of_app. left. by apply Hf1.
  - intros x. rewrite !elem_of_app. intros [Hx%Hd1|[[Hx|Hx]%Hd2| ->%list_elem_of_singleton]]; auto.
    left. left. apply Hf1. by eapply (trap_frame_elem l r).
  - intros m Hwf Hout. pose proof (trap_ready_context _ _ _ _ _ _ _ m Htr2 Hwf Hout) as Htr3.
    destruct (program_kept _ _ _ _ _ _ _ _ _ _ _ m Helf Hps Htr3) as (Hcode & Hstack); [intros y Hy Hne; rewrite Hout by done; by apply Hsame2|].
    pose proof (kstack_kept _ _ _ _ _ _ _ _ _ _ _ m G Hz Hp Htr3 Hout) as Hkpages.
    assert (mm_step l r s2 (MkMM m (mm_fa s2)) [] [frame_num f]) as Hst3
      by (apply mm_write_step; [by eapply ms_inv_fa|done|]; intros y [Hy _]%not_elem_of_cons; by apply Hout).
    do 3 (split; [done|]). split; [intros v Hv; by apply Hkpages, Hvs|]. split.
    + eapply ms_inv_frame; [done|exact Hst3|]. intros x Hx ->%list_elem_of_singleton.
      exact (tables_apart _ _ (tr_apart _ _ _ _ _ _ _ Htr2) _ (trap_frame_elem _ _ _ _ _ _ _ Htr2) Hx).
    + eapply mm_step_trans; [done|]. by eapply mm_step_trans.
Qed.

(** Writing the first trap context. *)
Lemma first_cx_written f us space s2 : trap_ready l r s2 (env_symbols env) us space f →
  let m := set_trap_cx (mm_mem s2) (ft_ppn f) (first_cx space) in
  mem_wf m ∧ (∀ y, y / 4096 ≠ frame_num f → read_u8 m y = read_u8 (mm_mem s2) y) ∧
  ∀ (i : nat) w, TrapContext_words (first_cx space) !! i = Some w → cx_word m (ft_ppn f) (Z.of_nat i) = w.
Proof using All.
  intros Htr2. destruct (tr_kernel _ _ _ _ _ _ _ Htr2) as (σk0 & σk & Hi2 & _). cbv zeta.
  apply (set_trap_cx_ok (mm_mem s2) f (first_cx space));
    [by destruct (mi_pt _ _ _ _ _ _ Hi2) as [(_ & ? & _) _]|by eapply (trap_ready_frame l r)|by eapply start_cx_fits; [..|by eapply (token_fits l r)]|reflexivity].
Qed.

Lemma TaskControlBlock_new_ok : RecycleAllocator_alloc (k_pids k) = (pid, pa) →
  ∃ b s space σ' new d, TaskControlBlock_new env elf_data k = Ok (b, created k pa a s space) ∧
    runnable l r env (created k pa a s space) b elf_data phs (elf_entry_point elf) ∧
    skel b = MkSkeleton pid id Ready None [] ∧ tcb_fd_table b = [Some Stdin; Some Stdout; Some Stdout] ∧
    ms_inv l r s space σ0 σ' ∧ (∀ v, v ∉ kstack_pages id → σ' !! v = σ !! v) ∧ MemorySet_token space = MemorySet_token (k_space k) ∧
    mm_step l r (k_mm k) s new d ∧ (∀ x, x ∈ d → x ∈ new ∨ x ∈ frame_nums (frames (ms_page_table (k_space k)))).
Proof using All.
  intros Hpid. destruct new_task_memory as (us & s1 & f & space & s2 & σ2 & new & d & Hrun1 & Htr1 & Hrun2 & Htr2 & Hσ2 & Htok & _ & Hd & _ & Hm).
  destruct (first_cx_written f us space s2 Htr2) as (Hwf & Hout & Hwords). cbv zeta in *. set (m := set_trap_cx _ _ _) in *.
  destruct (Hm m Hwf Hout) as (Htr3 & Hcode & Hstack & Hkst3 & Hi3 & Hst).
  unfold TaskControlBlock_new. eexists _, (MkMM m (mm_fa s2)), space, σ2, new, d. split.
  { erewrite bind_Ok by (unfold on_mm; by rewrite Hrun1). cbn beta iota.
    erewrite bind_Ok by (eapply (trap_cx_ppn_ok (set_mm k s1)); exact Htr1).
    erewrite bind_Ok by (unfold pid_alloc; cbn [k_pids set_mm]; rewrite Hpid; reflexivity).
    erewrite bind_Ok by exact Hrun2. cbv zeta. erewrite bind_Ok by reflexivity. erewrite bind_Ok by reflexivity. reflexivity. }
  split; [|done]. split; [|done|done]. split; [by exists f|done..].
Qed.
End New.
End Create.

(** * Starting *)

(** Where the first return from the kernel takes the processor. *)
Record started (env : Env) (us : MemorySet) (entry user_sp : Z) (cpu : Cpu) : Prop := {
  st_pc : c_pc cpu = entry;
  st_sp : reg cpu sp = user_sp;
  st_regs : ∀ n, saved_reg n → n ≠ sp → reg cpu n = 0;
  st_satp : c_satp cpu = MemorySet_token us;
  st_sstatus : c_sstatus cpu = env_sstatus env;
  st_sscratch : c_sscratch cpu = TRAP_CONTEXT_BASE;
  st_stvec : c_stvec cpu = TRAMPOLINE
}.

Lemma program_starts {D} l r env (k : Kernel D) b elf_data phs entry cpu x y :
  program_ready l r env k b elf_data phs entry → length (c_x cpu) = 32%nat → c_satp cpu = MemorySet_token (k_space k) →
  ∃ cpu', run TRAMPOLINE (strampoline (env_symbols env)) restore (trap_return x y (MemorySet_token (tcb_memory_set b)) cpu) (mm_mem (k_mm k)) =
      Ok (cpu', mm_mem (k_mm k)) ∧ started env (tcb_memory_set b) entry (4096 * (last_end 0 (loads phs) + 3)) cpu'.
Proof.
  intros [(f & Ef & Htr) Hw _ _] Hlen Hs. rewrite Ef in Hw.
  destruct (restore_ok _ _ _ _ _ _ _ _ x y Htr Hlen Hs) as (cpu' & Hrun & _ & Hr & H32 & Hpc & Hsatp & Hscr & Htv).
  exists cpu'. split; [done|]. split; try done.
  - rewrite Hpc. by apply (Hw 33%nat).
  - rewrite Hr by (unfold saved_reg; lia). by apply (Hw 2%nat).
  - intros n Hn Hne. rewrite Hr by done. apply Hw. unfold saved_reg in Hn. unfold TrapContext_words. rewrite lookup_app_l.
    + cbn [TrapContext_app_init_context TrapContext_set_sp tc_x]. rewrite list_lookup_insert_ne by lia. apply lookup_replicate_2. lia.
    + cbn [TrapContext_app_init_context TrapContext_set_sp tc_x]. rewrite length_insert, length_replicate. lia.
  - rewrite H32. by apply (Hw 32%nat).
Qed.

(** * Properties *)

(** [TaskControlBlock::new] turns a program into a process that starts.  With the
    kernel's space intact, a free kernel stack slot and enough frames it succeeds; the
    process has the next pid and stack slot, is ready, has no parent or children and the
    three standard files.  Its pages show the segments of the file and an empty user
    stack; its kernel stack is mapped, empty, in the kernel's space, where everything else
    is as before, under the same token.  The first [trap_return] to it, from any state of
    the processor in the kernel's space, ends at the entry point with the stack pointer at
    the top of the user stack and all other saved registers zero.  No frame in use is
    written except the kernel's page tables. *)
Theorem new_process_starts {D : Type} `{BlockDevice D} (l r : Z) (env : Env) (k : Kernel D) (σ0 σ : page_map) (elf_data : list Z)
    (elf : ElfFile) (phs : list ProgramHeader) (pid id : Z) (pa a : RecycleAllocator)
    (Henv : env_ok env) (Hi : ms_inv l r (k_mm k) (k_space k) σ0 σ)
    (H0 : σ0 !! trampoline_vpn = Some (trampoline_entry (env_symbols env)))
    (Hσ : σ !! trampoline_vpn = Some (trampoline_entry (env_symbols env)))
    (Hnew : env_elf_new env elf_data = Some elf) (Helf : elf_ok elf_data elf phs) (Hent : fits 64 (elf_entry_point elf))
    (Hpid : RecycleAllocator_alloc (k_pids k) = (pid, pa)) (Hkst : RecycleAllocator_alloc (k_kstacks k) = (id, a)) (Hid : 0 ≤ id < 2 ^ 20)
    (Hfree : ∀ v, v ∈ kstack_pages id → σ !! v = None)
    (Hav : 3 * len (loads phs ≫= seg_pages) + 18 ≤ sfa_avail (mm_fa (k_mm k))) :
  ∃ b k' σ', TaskControlBlock_new env elf_data k = Ok (b, k') ∧
    skel b = MkSkeleton pid id Ready None [] ∧ tcb_fd_table b = [Some Stdin; Some Stdout; Some Stdout] ∧
    runnable l r env k' b elf_data phs (elf_entry_point elf) ∧
    ms_inv l r (k_mm k') (k_space k') σ0 σ' ∧ (∀ v, v ∉ kstack_pages id → σ' !! v = σ !! v) ∧
    MemorySet_token (k_space k') = MemorySet_token (k_space k) ∧
    (∀ cpu x y, length (c_x cpu) = 32%nat → c_satp cpu = MemorySet_token (k_space k) → ∃ cpu',
      run TRAMPOLINE (strampoline (env_symbols env)) restore (trap_return x y (MemorySet_token (tcb_memory_set b)) cpu) (mm_mem (k_mm k')) =
        Ok (cpu', mm_mem (k_mm k')) ∧
      started env (tcb_memory_set b) (elf_entry_point elf) (4096 * (last_end 0 (loads phs) + 3)) cpu') ∧
    ∀ y, sfa_live l (mm_fa (k_mm k)) (y / 4096) → y / 4096 ∉ frame_nums (frames (ms_page_table (k_space k))) →
      read_u8 (mm_mem (k_mm k')) y = read_u8 (mm_mem (k_mm k)) y.
Proof.
  destruct (TaskControlBlock_new_ok l r env k σ0 σ elf_data elf phs pid id pa a Henv Hi H0 Hσ Hnew Helf Hent Hkst Hid Hfree Hav Hpid)
    as (b & s & space & σ' & new & d & Hrun & Hrn & Hsk & Hfd & Hi' & Hsame & Htok & Hst & Hd).
  exists b, (created k pa a s space), σ'. do 7 (split; [done|]). split.
  - intros cpu x y Hlen Hs. apply (program_starts l r _ _ _ elf_data); [apply Hrn|done|]. etrans; [exact Hs|]. symmetry. exact Htok.
  - intros y Hl Hy. apply (mm_same _ _ _ _ _ _ Hst). intros [Hin|Hin]%Hd; [by apply (mm_fresh _ _ _ _ _ _ Hst _ Hin)|done].
Qed.

(** * Witnesses *)

Definition elf_env : Env :=
  MkEnv demo_ks (λ _, Some demo_elf) 0x20 0x80201000 0x80202000 (λ n, Z.of_nat n) (λ _, 0) (λ _, []) 100.

Lemma elf_env_ok : env_ok elf_env.
Proof. split; [exact demo_ks_ok|by compute|by compute]. Qed.

Definition demo_state (s : MM) (space : MemorySet) : Kernel BlockFile :=
  MkKernel s space RecycleAllocator_new RecycleAllocator_new ∅ 0 ∅ [] None 0 ∅ 0 (BlockCacheManager_new (MkBlockFile []))
    (MkEfs (Bitmap_new 0 0) (Bitmap_new 0 0) 0 0) (MkInode 0 0) 0 0 [].

Lemma new_process_starts_witness : ∃ s space b k' cpu', 
  TaskControlBlock_new elf_env demo_elf_data (demo_state s space) = Ok (b, k') ∧ tcb_pid b = 0 ∧
  run TRAMPOLINE 0x80200000 restore (trap_return 0 100 (MemorySet_token (tcb_memory_set b)) (demo_cpu (replicate 32 7) (MemorySet_token space)))
    (mm_mem (k_mm k')) = Ok (cpu', mm_mem (k_mm k')) ∧ c_pc cpu' = 0x10000 ∧ reg cpu' sp = 0x15000.
Proof.
  destruct demo_kernel_space as (ksp & s & σ & _ & Hk & Hσ & Hav).
  destruct (new_process_starts 0x80300 0x88000 elf_env (demo_state s ksp) _ σ demo_elf_data demo_elf demo_phs 0 0
    (MkRecycleAllocator 1 []) (MkRecycleAllocator 1 []) elf_env_ok Hk) as (b & k' & σ' & Hrun & Hsk & _ & _ & _ & _ & _ & Hstart & _).
  - apply lookup_singleton_eq.
  - exact (eq_trans (Hσ trampoline_vpn) eq_refl).
  - reflexivity.
  - exact demo_elf_ok.
  - by compute.
  - reflexivity.
  - reflexivity.
  - lia.
  - intros v Hv%elem_kstack_pages. rewrite Hσ. apply kernel_entry_high; [exact demo_symbols_ok|lia|]. intros ->. cbn in Hv. lia.
  - rewrite demo_loads. change (len ([MkProgramHeader (Some true) 0x10000 5000 0 4 true false true] ≫= seg_pages)) with 2. cbn [k_mm demo_state]. lia.
  - destruct (Hstart (demo_cpu (replicate 32 7) (MemorySet_token ksp)) 0 100 eq_refl eq_refl) as (cpu' & Hr & Hst).
    rewrite demo_loads in Hst. exists s, ksp, b, k', cpu'. split; [exact Hrun|]. split; [by injection Hsk|]. split; [exact Hr|].
    split; [exact (st_pc _ _ _ _ _ Hst)|exact (st_sp _ _ _ _ _ Hst)].
Defined.
