(* ===== verification/ForkExec.v ===== *)
(** [fork] and [exec] as a program sees them ([os/src/task/task.rs],
    [os/src/syscall/process.rs]): a forked child continues where its parent called, with
    the same memory and the same registers except the result; [exec] replaces the program
    and starts the new one. *)

From S2P Require Import Prelude Config Address Allocator FrameAllocator TaskId PhysMem PageTable PageTableSpec UserMem MemorySet MemorySetSpec AddressSpace.
From S2P Require Import ElfLoad KernelSpace BlockDev BlockCache BlockAccess Bitmap Layout Efs Vfs Kernel Machine MachineSpec OsFile Process Syscall ProcSpec ProcInv TaskSpec.

Ltac Zify.zify_post_hook ::= Z.to_euclidean_division_equations.

(** * One word of a trap context *)

Lemma set_cx_word_ok m f i v : mem_wf m → 0 ≤ frame_num f < 2 ^ 44 → 0 ≤ i < 512 → fits 64 v →
  mem_wf (set_cx_word m (ft_ppn f) i v) ∧
  (∀ y, y / 4096 ≠ frame_num f → read_u8 (set_cx_word m (ft_ppn f) i v) y = read_u8 m y) ∧
  cx_word (set_cx_word m (ft_ppn f) i v) (ft_ppn f) i = v ∧
  ∀ j, j ≠ i → cx_word (set_cx_word m (ft_ppn f) i v) (ft_ppn f) j = cx_word m (ft_ppn f) j.
Proof.
  intros Hm Hf Hi Hv. unfold cx_word, set_cx_word. rewrite page_addr_eq by done. fold (frame_num f).
  split; [by apply write_u64_wf|]. split; [|split].
  - intros y Hy. unfold write_u64. rewrite read_u8_write_bytes_out; [done|]. rewrite length_le_bytes. lia.
  - by apply read_u64_write_eq.
  - intros j Hj. apply read_u64_write_out. lia.
Qed.

Lemma cx_word_kept m m' f i : 0 ≤ frame_num f < 2 ^ 44 → (∀ y, y / 4096 = frame_num f → read_u8 m' y = read_u8 m y) → 0 ≤ i < 512 →
  cx_word m' (ft_ppn f) i = cx_word m (ft_ppn f) i.
Proof. intros Hf Hm Hi. rewrite !cx_word_eq by done. apply read_u64_ext. intros y Hy. apply Hm. lia. Qed.

(** * The space of a child *)

Section Fork.
Context {D : Type} `{BlockDevice D} (l r : Z).

(** The words of a page follow from its bytes. *)
Lemma page_word m m' f f' i : 0 ≤ frame_num f < 2 ^ 44 → 0 ≤ frame_num f' < 2 ^ 44 →
  get_bytes_array m' (ft_ppn f') = get_bytes_array m (ft_ppn f) → 0 ≤ i < 512 → cx_word m' (ft_ppn f') i = cx_word m (ft_ppn f) i.
Proof.
  intros Hf Hf' E Hi. rewrite !cx_word_eq by done. unfold read_u64. f_equal. unfold get_bytes_array in E. rewrite !page_addr_eq in E by done.
  fold (frame_num f) (frame_num f') in E. unfold read_bytes. apply list_eq. intros j. rewrite !list_lookup_fmap.
  destruct (decide (j < 8)%nat) as [Hj|Hj]; [|by rewrite !lookup_seqZ_ge by lia]. rewrite !lookup_seqZ_lt by lia. cbn [fmap option_fmap option_map]. f_equal.
  assert (∀ x y n, read_bytes m' x 4096 = read_bytes m y 4096 → 0 ≤ n < 4096 → read_u8 m' (x + n) = read_u8 m (y + n)) as Hb.
  { intros x y n Hxy Hn. pose proof (read_bytes_lookup m' x 4096 _ eq_refl (x + n) ltac:(lia)) as H1.
    pose proof (read_bytes_lookup m y 4096 _ eq_refl (y + n) ltac:(lia)) as H2. rewrite Hxy in H1.
    replace (x + n - x) with n in H1 by lia. replace (y + n - y) with n in H2 by lia. congruence. }
  rewrite <- !Z.add_assoc. apply Hb; [done|lia].
Qed.

Lemma shape_framed xs ys : Forall2 same_shape xs ys → Forall (λ a, ma_map_type a = Framed) ys → Forall (λ a, ma_map_type a = Framed) xs.
Proof. induction 1 as [|x y xs ys (_ & Ht & _) _ IH]; [done|]. rewrite !Forall_cons. intros [? ?]. split; [by rewrite Ht|auto]. Qed.

Lemma copy_trap_ready ks s us ksp f s' dst σd new d : trap_ready l r s ks us ksp f →
  ms_inv l r s' dst {[ trampoline_vpn := trampoline_entry ks ]} σd → Forall2 same_shape (ms_areas dst) (ms_areas us) →
  mm_step l r s s' new d → (∀ x, x ∈ d → x ∈ new) → (∀ x, x ∈ ms_frames dst → x ∈ new) →
  (∀ v, v ∈ ms_vpns us → user_page (mm_mem s') dst v = user_page (mm_mem s) us v) →
  ∃ f', trap_ready l r s' ks dst ksp f' ∧
    ∀ i, 0 ≤ i < 512 → cx_word (mm_mem s') (ft_ppn f') i = cx_word (mm_mem s) (ft_ppn f) i.
Proof.
  intros Htr Hd Hsh Hst Hdn Hfr Hpages. pose proof (trap_ready_frame _ _ _ _ _ _ _ Htr) as H44.
  destruct Htr as [(σu0 & σu & Hu & _ & _ & Hall) (σ0 & σ & Hk & Htk) (a & Ha & Ht & Hp & Hv & Hf) _ Hks].
  pose proof Ha as [i Hi]%list_elem_of_lookup. destruct (Forall2_lookup_r _ _ _ _ _ Hsh Hi) as (a' & Ha'%list_elem_of_lookup_2 & Hr & Ht' & Hp').
  assert (trap_page ∈ area_vpns a') as Hv' by (unfold area_vpns in *; by rewrite Hr).
  rewrite Ht in Ht'. rewrite Hp in Hp'. destruct (framed_page l r _ _ _ _ _ _ Hd Ha' Ht' Hv') as (f' & Hf' & H44' & _ & _ & _ & Hpg' & _).
  exists f'. split; [split|].
  - eexists _, σd. split; [done|]. split; [apply (mi_view _ _ _ _ _ _ Hd); left; apply lookup_singleton_eq|].
    split; [by rewrite lookup_singleton_eq|]. by eapply shape_framed.
  - exists σ0, σ. split; [by eapply ms_inv_fresh|done].
  - by exists a'.
  - intros x Hx Hin. apply (mm_fresh _ _ _ _ _ _ Hst x (Hfr x Hx)). by apply (mi_live _ _ _ _ _ _ Hk).
  - done.
  - intros j Hj. apply page_word; [done|done| |done].
    destruct (framed_page l r _ _ _ _ _ _ Hu Ha Ht Hv) as (g & Hg & _ & _ & _ & _ & Hpg & _). rewrite Hf in Hg. injection Hg as <-.
    assert (trap_page ∈ ms_vpns us) as Hin by (apply list_elem_of_bind; by exists a). specialize (Hpages _ Hin). congruence.
Qed.

(** What fork needs of the kernel [k] and of the parent, task [t] with the control block [b]
    and the trap context in [f]. *)
Record forkable (env : Env) (k : Kernel D) (t : Z) (b : TaskControlBlock) (f : FrameTracker) (σ0 σ : page_map) (id : Z) : Prop := {
  fk_task : k_tcbs k !! t = Some b;
  fk_fresh : k_tcbs k !! k_next_tcb k = None;
  fk_cx : tcb_trap_cx_ppn b = ft_ppn f;
  fk_ready : trap_ready l r (k_mm k) (env_symbols env) (tcb_memory_set b) (k_space k) f;
  fk_kernel : ms_inv l r (k_mm k) (k_space k) σ0 σ;
  fk_tramp : σ0 !! trampoline_vpn = Some (trampoline_entry (env_symbols env)) ∧ σ !! trampoline_vpn = Some (trampoline_entry (env_symbols env));
  fk_id : 0 ≤ id < 2 ^ 20;
  fk_free : ∀ v, v ∈ kstack_pages id → σ !! v = None;
  fk_frames : 9 + 3 * len (ms_vpns (tcb_memory_set b)) ≤ sfa_avail (mm_fa (k_mm k))
}.

Section Child.
Context (env : Env) (k : Kernel D) (t : Z) (b : TaskControlBlock) (f : FrameTracker) (σ0 σ : page_map) (pid id : Z) (pa a : RecycleAllocator).
Context (Hfk : forkable env k t b f σ0 σ id).
Context (Hpid : RecycleAllocator_alloc (k_pids k) = (pid, pa)) (Hkst : RecycleAllocator_alloc (k_kstacks k) = (id, a)).
Abbreviation us := (tcb_memory_set b).
Abbreviation ks := (env_symbols env).

(** The memory after the fork: the child's space [us'] with its trap context in [f'], and
    the kernel's space. *)
Record forked (us' : MemorySet) (f' : FrameTracker) (space : MemorySet) (s : MM) : Prop := {
  fd_child : trap_ready l r s ks us' space f';
  fd_result : cx_word (mm_mem s) (ft_ppn f') 10 = 0;
  fd_ksp : cx_word (mm_mem s) (ft_ppn f') CX_KERNEL_SP = KernelStack_get_top id;
  fd_words i : 0 ≤ i < 512 → i ≠ 10 → i ≠ CX_KERNEL_SP →
    cx_word (mm_mem s) (ft_ppn f') i = cx_word (mm_mem (k_mm k)) (ft_ppn f) i;
  fd_pages v : v ∈ ms_vpns us → v ≠ trap_page → user_page (mm_mem s) us' v = user_page (mm_mem (k_mm k)) us v ∧
    user_flags (mm_mem s) us' v = user_flags (mm_mem (k_mm k)) us v;
  fd_parent : trap_ready l r s ks us space f;
  fd_kept y : y / 4096 ∈ ms_frames us → read_u8 (mm_mem s) y = read_u8 (mm_mem (k_mm k)) y;
  fd_token : MemorySet_token space = MemorySet_token (k_space k)
}.

Lemma shape_area us' v : Forall2 same_shape (ms_areas us') (ms_areas us) → v ∈ ms_vpns us →
  ∃ a', a' ∈ ms_areas us' ∧ ma_map_type a' = Framed ∧ v ∈ area_vpns a'.
Proof using All.
  intros Hsh (a1 & Hv & Ha)%list_elem_of_bind. destruct (tr_user _ _ _ _ _ _ _ (fk_ready _ _ _ _ _ _ _ _ Hfk)) as (_ & _ & _ & _ & _ & Hall).
  pose proof (proj1 (Forall_forall _ _) Hall a1 Ha) as Ht. cbn in Ht.
  apply list_elem_of_lookup in Ha as [i Hi]. destruct (Forall2_lookup_r _ _ _ _ _ Hsh Hi) as (a' & Ha'%list_elem_of_lookup_2 & Hr & Ht' & _).
  exists a'. split; [done|]. split; [by rewrite Ht'|]. unfold area_vpns in *. by rewrite Hr.
Qed.

(** Setting [kernel_sp] and the result in the child's trap context. *)
Lemma fork_finish us' f' space s :
  trap_ready l r s ks us' space f' → trap_ready l r s ks us space f → frame_num f' ∉ ms_frames us →
  (∀ i, 0 ≤ i < 512 → cx_word (mm_mem s) (ft_ppn f') i = cx_word (mm_mem (k_mm k)) (ft_ppn f) i) →
  Forall2 same_shape (ms_areas us') (ms_areas us) →
  (∀ v, v ∈ ms_vpns us → user_page (mm_mem s) us' v = user_page (mm_mem (k_mm k)) us v ∧
    user_flags (mm_mem s) us' v = user_flags (mm_mem (k_mm k)) us v) →
  (∀ y, y / 4096 ∈ ms_frames us → read_u8 (mm_mem s) y = read_u8 (mm_mem (k_mm k)) y) →
  MemorySet_token space = MemorySet_token (k_space k) →
  forked us' f' space (MkMM (set_cx_word (set_cx_word (mm_mem s) (ft_ppn f') CX_KERNEL_SP (KernelStack_get_top id)) (ft_ppn f') 10 0) (mm_fa s)).
Proof using All.
  intros Hch Hpar Hne Hw Hsh Hpg Hkept Htok. pose proof (trap_ready_frame _ _ _ _ _ _ _ Hch) as H44. pose proof (fk_id _ _ _ _ _ _ _ _ Hfk) as Hid.
  destruct (tr_user _ _ _ _ _ _ _ Hch) as (σc0 & σc & Hc & _). destruct (mi_pt _ _ _ _ _ _ Hc) as [(_ & Hwf & _) _].
  destruct (set_cx_word_ok (mm_mem s) f' CX_KERNEL_SP (KernelStack_get_top id)) as (Hwf1 & Hout1 & Hset1 & Hoth1); [done|done|by compute| |].
  { unfold KernelStack_get_top. destruct (kstack_position_addr id Hid) as (-> & _). unfold fits. cbn. lia. }
  destruct (set_cx_word_ok (set_cx_word (mm_mem s) (ft_ppn f') CX_KERNEL_SP (KernelStack_get_top id)) f' 10 0) as (Hwf2 & Hout2 & Hset2 & Hoth2);
    [done|done|lia|by compute|]. set (m := set_cx_word (set_cx_word _ _ _ _) _ 10 0) in *.
  assert (∀ y, y / 4096 ≠ frame_num f' → read_u8 m y = read_u8 (mm_mem s) y) as Hout by (intros y Hy; by rewrite Hout2, Hout1).
  pose proof (trap_ready_context _ _ _ _ _ _ _ m Hch Hwf2 Hout) as Hch'. destruct (trap_frame_table _ _ _ _ _ _ _ Hch) as [_ Hft].
  split; cbn [mm_mem]; [done|done|by rewrite Hoth2|..|done].
  - intros i Hi Hi1 Hi2. rewrite Hoth2, Hoth1 by done. by apply Hw.
  - intros v Hv Hnt. destruct (shape_area us' v Hsh Hv) as (a' & Ha' & Ht' & Hv').
    destruct (program_pages_kept l r ks s us' σc0 σc f' s space m Hc Hch' ltac:(auto) a' v Ha' Ht' Hv' Hnt) as [-> ->]. by apply Hpg.
  - apply (trap_ready_write l r s _ _ _ _ (frame_num f')); [done| |done|done|done]. intros Hin. apply Hne. apply elem_of_app. by left.
  - intros y Hy. rewrite Hout; [by apply Hkept|]. intros E. apply Hne. by rewrite <- E.
Qed.

Lemma fork_memory : ∃ us' s1 f' space s2,
  MemorySet_from_existed_user ks us (k_mm k) = Ok (us', s1) ∧ trap_ready l r s1 ks us' (k_space k) f' ∧
  kstack_alloc (set_pids (set_mm k s1) pa) = Ok (id, set_space (set_mm (set_kstacks (set_pids (set_mm k s1) pa) a) s2) space) ∧
  forked us' f' space (MkMM (set_cx_word (set_cx_word (mm_mem s2) (ft_ppn f') CX_KERNEL_SP (KernelStack_get_top id)) (ft_ppn f') 10 0) (mm_fa s2)).
Proof using All.
  destruct Hfk as [_ _ _ Htr Hk [H0 Hσ] Hid Hfree Hav]. destruct (tr_user _ _ _ _ _ _ _ Htr) as (σu0 & σu & Hu & _ & Hut & Hall).
  destruct (from_existed_user_ok l r ks (k_mm k) us σu0 σu Hu (tr_symbols _ _ _ _ _ _ _ Htr) Hall Hut ltac:(lia))
    as (us' & s1 & σd & n1 & d1 & Hrun1 & _ & Hd1 & Hsh & Hst1 & Hdn & Hfr & Hl1 & Hpages). pose proof (mm_avail _ _ _ _ _ _ Hst1) as Hav1.
  destruct (copy_trap_ready ks (k_mm k) us (k_space k) f s1 us' σd n1 d1 Htr Hd1 Hsh Hst1 Hdn Hfr) as (f' & Htr1 & Hw1).
  { intros v Hv. apply (Hpages v Hv). }
  pose proof (trap_ready_fresh _ _ _ _ _ _ _ _ _ _ Htr Hst1 Hdn) as Hpar1.
  assert (∀ x, x ∈ ms_frames us → x ∉ n1) as Hlive1.
  { intros x Hx Hin. by apply (mm_fresh _ _ _ _ _ _ Hst1 x Hin), (mi_live _ _ _ _ _ _ Hu). }
  destruct (kstack_alloc_ok l r (set_pids (set_mm k s1) pa) σ0 σ id a Hkst Hid (ms_inv_fresh _ _ _ _ _ _ _ _ _ Hk Hst1 Hdn) Hfree)
    as (area & space & s2 & σ2 & Hrun2 & G & _ & _ & _ & _ & Htok); [cbn [k_mm set_pids set_mm]; lia|].
  cbn [k_mm k_space set_pids set_mm] in G.
  destruct (trap_ready_grown l r _ _ _ _ _ _ _ _ _ _ _ Htr1 G H0 Hσ) as [Htr2 Hsame2].
  destruct (trap_ready_grown l r _ _ _ _ _ _ _ _ _ _ _ Hpar1 G H0 Hσ) as [Hpar2 Hpsame2].
  exists us', s1, f', space, s2. do 3 (split; [done|]). pose proof (trap_frame_elem _ _ _ _ _ _ _ Htr1) as Hfe.
  apply fork_finish; [done|done| | |done| | |done].
  - intros Hin. by apply (Hlive1 _ Hin), Hfr.
  - intros i Hi. rewrite <- Hw1 by done. apply (cx_word_kept _ _ f'); [by eapply (trap_ready_frame l r)| |done].
    intros y Hy. apply Hsame2. by rewrite Hy.
  - intros v Hv. destruct (shape_area us' v Hsh Hv) as (a' & Ha' & Ht' & Hv'). destruct (Hpages v Hv) as (<- & <- & _).
    destruct (tr_user _ _ _ _ _ _ _ Htr2) as (σc0 & σc & Hc & _). destruct (framed_page l r _ _ _ _ _ _ Hd1 Ha' Ht' Hv') as (g & Hg & _).
    apply (page_unwritten l r s1 s2 us' _ σd _ _ a' v g Hd1 Hc Ha' Ht' Hv' Hg). intros y Hy. apply Hsame2. rewrite Hy.
    eapply area_frames_ms; [done|]. by eapply area_frames_elem.
  - intros y Hy. rewrite Hpsame2 by done. apply (mm_same _ _ _ _ _ _ Hst1). intros Hin%Hdn. by apply (Hlive1 _ Hy).
Qed.

(** The run of [sys_fork]. *)
Lemma sys_fork_ok : k_current k = Some t → ∃ us' f' b' k', sys_fork env k = Ok (signed 64 pid, k') ∧
  k_tcbs k' = <[t := set_children b (tcb_children b ++ [k_next_tcb k])]> (<[k_next_tcb k := b']> (k_tcbs k)) ∧
  k_ready k' = k_ready k ++ [k_next_tcb k] ∧ skel b' = MkSkeleton pid id Ready (Some t) [] ∧
  tcb_fd_table b' = tcb_fd_table b ∧ tcb_heap_bottom b' = tcb_heap_bottom b ∧ tcb_program_brk b' = tcb_program_brk b ∧
  tcb_memory_set b' = us' ∧ tcb_trap_cx_ppn b' = ft_ppn f' ∧
  tcb_task_cx b' = TaskContext_goto_trap_return (env_trap_return env) (KernelStack_get_top id) ∧ forked us' f' (k_space k') (k_mm k').
Proof using All.
  intros Hcur. destruct fork_memory as (us' & s1 & f' & space & s2 & Hrun1 & Htr1 & Hrun2 & Hfd). pose proof (fk_task _ _ _ _ _ _ _ _ Hfk) as Ht.
  pose proof (fk_fresh _ _ _ _ _ _ _ _ Hfk) as Hc. assert (k_next_tcb k ≠ t) as Hne by congruence.
  unfold sys_fork, TaskControlBlock_fork. eexists us', f', _, _. split.
  { erewrite bind_Ok.
    2: { unfold current_tcb, current_task, gets. erewrite bind_Ok by reflexivity. rewrite Hcur. erewrite bind_Ok by reflexivity.
         erewrite bind_Ok by (unfold get_tcb; by rewrite Ht). reflexivity. }
    cbn beta iota. erewrite bind_Ok.
    2: { erewrite bind_Ok by (unfold get_tcb; by rewrite Ht). erewrite bind_Ok by (unfold on_mm; by rewrite Hrun1).
         erewrite bind_Ok by (eapply (trap_cx_ppn_ok l r (set_mm k s1)); exact Htr1).
         erewrite bind_Ok by (unfold pid_alloc; cbn [k_pids set_mm]; rewrite Hpid; reflexivity).
         erewrite bind_Ok by exact Hrun2. cbv zeta. erewrite bind_Ok by reflexivity. erewrite bind_Ok by reflexivity.
         erewrite bind_Ok. 2: { unfold push_child, get_tcb. erewrite bind_Ok; [reflexivity|]. cbn. by rewrite lookup_insert_ne, Ht by done. }
         erewrite bind_Ok by reflexivity. reflexivity. }
    erewrite bind_Ok. 2: { unfold get_tcb. cbn. by rewrite lookup_insert_ne, lookup_insert_eq by done. }
    cbv zeta. erewrite bind_Ok by reflexivity. erewrite bind_Ok by reflexivity. reflexivity. }
  do 9 (split; [reflexivity|]). exact Hfd.
Qed.
End Child.
End Fork.

(** * Replacing a program *)

Section Exec.
Context {D : Type} `{BlockDevice D} (l r : Z) (env : Env) (k : Kernel D) (t : Z) (b : TaskControlBlock) (f : FrameTracker).
Context (elf_data : list Z) (elf : ElfFile) (phs : list ProgramHeader).
Abbreviation ks := (env_symbols env).
Abbreviation old := (tcb_memory_set b).
Abbreviation user_sp := (4096 * (last_end 0 (loads phs) + 3)).

(** The frames of a space that does not share any with the dropped one stay. *)
Lemma trap_ready_drop s s' us ksp g gone : trap_ready l r s ks us ksp g → mm_free l r s s' gone [] →
  (∀ x, x ∈ ms_frames us → x ∉ gone) → (∀ x, x ∈ ms_frames ksp → x ∉ gone) → trap_ready l r s' ks us ksp g.
Proof.
  intros [(σu0 & σu & Hu & Hur) (σk0 & σk & Hk & Htk) Hcx Hap Hks] Hfr Hug Hkg. split; [..|done|done|done].
  - exists σu0, σu. split; [|done]. eapply ms_inv_free; [done|done|done|]. intros x _. apply not_elem_of_nil.
  - exists σk0, σk. split; [|done]. eapply ms_inv_free; [done|done|done|]. intros x _. apply not_elem_of_nil.
Qed.

Lemma exec_ok : env_ok env → k_tcbs k !! t = Some b → trap_ready l r (k_mm k) ks old (k_space k) f →
  env_elf_new env elf_data = Some elf → elf_ok elf_data elf phs → fits 64 (elf_entry_point elf) → 0 ≤ tcb_kernel_stack b < 2 ^ 20 →
  3 * len (loads phs ≫= seg_pages) + 12 ≤ sfa_avail (mm_fa (k_mm k)) →
  ∃ us g s, TaskControlBlock_exec env t elf_data k =
      Ok ((), set_mm (set_tcbs k (<[t := set_trap_cx_ppn (set_memory_set b us) (ft_ppn g)]> (k_tcbs k))) s) ∧
    program_ready l r env (set_mm k s) (set_trap_cx_ppn (set_memory_set b us) (ft_ppn g)) elf_data phs (elf_entry_point elf) ∧
    (∀ x, x ∈ ms_frames us → ¬ sfa_live l (mm_fa (k_mm k)) x) ∧
    (∀ x, sfa_live l (mm_fa (k_mm k)) x → sfa_live l (mm_fa s) x ↔ x ∉ ms_frames old) ∧
    (∀ y, sfa_live l (mm_fa (k_mm k)) (y / 4096) → read_u8 (mm_mem s) y = read_u8 (mm_mem (k_mm k)) y).
Proof.
  intros Henv Ht Htr Hnew Helf Hent Hid Hav. destruct (tr_kernel _ _ _ _ _ _ _ Htr) as (σ0 & σ & Hk & Hσ).
  destruct (tr_user _ _ _ _ _ _ _ Htr) as (σo0 & σo & Ho & _).
  destruct (from_elf_ok l r ks (env_elf_new env) elf_data elf phs (k_mm k)) as (us & s1 & σu & Hrun1 & Hps);
    [by destruct (mi_pt _ _ _ _ _ _ Hk) as [(? & ? & _) _]|apply Henv|done|done|lia|].
  destruct (ps_step _ _ _ _ _ _ _ _ _ Hps) as (n1 & d1 & Hst1 & Hd1 & Hf1 & _).
  destruct (program_trap_ready _ _ _ _ _ _ _ _ _ _ _ _ (env_tramp _ Henv) Hk Hσ Hps) as (g & Htr1).
  destruct (MemorySet_drop_ok l r s1 old σo0 σo (ms_inv_fresh _ _ _ _ _ _ _ _ _ Ho Hst1 Hd1)) as (s2 & Hdrop & Hfr).
  assert (∀ x, x ∈ ms_frames us → ¬ sfa_live l (mm_fa (k_mm k)) x) as Hfresh by (intros x Hx; by apply (mm_fresh _ _ _ _ _ _ Hst1), Hf1).
  assert (trap_ready l r s2 ks us (k_space k) g) as Htr2.
  { eapply trap_ready_drop; [done|done|..].
    - intros x Hx Hin. by apply (Hfresh x Hx), (mi_live _ _ _ _ _ _ Ho).
    - intros x Hx Hin. by apply (tr_apart _ _ _ _ _ _ _ Htr x). }
  assert (∀ y, read_u8 (mm_mem s2) y = read_u8 (mm_mem s1) y) as Hsame2 by (intros y; apply (mf_same _ _ _ _ _ _ Hfr), not_elem_of_nil).
  set (cx := TrapContext_app_init_context (env_sstatus env) (elf_entry_point elf) user_sp (MemorySet_token (k_space k))
    (KernelStack_get_top (tcb_kernel_stack b)) (env_trap_handler env)).
  destruct (set_trap_cx_ok (mm_mem s2) g cx) as (Hwf & Hout & Hwords);
    [apply Hfr|by eapply (trap_ready_frame l r)|by eapply start_cx_fits; [..|by eapply (token_fits l r)]|reflexivity|].
  set (m := set_trap_cx (mm_mem s2) (ft_ppn g) cx) in *.
  pose proof (trap_ready_context _ _ _ _ _ _ _ m Htr2 Hwf Hout) as Htr3.
  destruct (program_kept l r _ _ _ _ _ _ _ _ _ _ _ m Helf Hps Htr3) as [Hcode Hstack]; [intros y _ Hy; by rewrite Hout, Hsame2|].
  exists us, g, (MkMM m (mm_fa s2)). split.
  { unfold TaskControlBlock_exec. erewrite bind_Ok by (unfold on_mm; by rewrite Hrun1). cbn beta iota.
    erewrite bind_Ok by (eapply (trap_cx_ppn_ok l r (set_mm k s1)); exact Htr1). erewrite bind_Ok by (unfold get_tcb; cbn [k_tcbs set_mm]; by rewrite Ht).
    erewrite bind_Ok by reflexivity. erewrite bind_Ok by (unfold on_mm; cbn [k_mm set_mm set_tcbs]; by rewrite Hdrop).
    erewrite bind_Ok by (unfold get_tcb; cbn [k_tcbs set_mm set_tcbs]; by rewrite lookup_insert_eq). erewrite bind_Ok by reflexivity.
    unfold init_trap_cx. erewrite bind_Ok by reflexivity. unfold on_mem, modify, set_mm, set_tcbs. cbn. by rewrite insert_insert_eq. }
  split; [split; [by exists g|done..]|]. split; [done|]. split.
  - intros x Hx. cbn [mm_fa]. rewrite (mf_live _ _ _ _ _ _ Hfr), (mm_live _ _ _ _ _ _ Hst1). tauto.
  - intros y Hy. cbn [mm_mem]. rewrite Hout, Hsame2.
    + apply (mm_same _ _ _ _ _ _ Hst1). intros Hin%Hd1. by apply (mm_fresh _ _ _ _ _ _ Hst1 _ Hin).
    + intros E. apply (Hfresh (frame_num g)); [by eapply (trap_frame_elem l r)|]. by rewrite <- E.
Qed.
End Exec.

(** * Properties *)

(** C6: [fork] returns twice.  For a running process whose space and trap context are
    intact, [sys_fork] succeeds and returns the pid of the child to the parent, whose
    memory and trap context it leaves alone.  The child is ready, last in the queue, its
    parent is the caller; it has the same open files and break, and every page shows the
    bytes and flags of the parent's page, on frames of its own.  Returning to the child
    from the kernel continues at the parent's saved program counter with the parent's
    registers, except that [a0], the result of the call, is 0. *)
Theorem fork_returns_twice {D : Type} `{BlockDevice D} (l r : Z) (env : Env) (k : Kernel D) (t : Z) (b : TaskControlBlock) (f : FrameTracker)
    (σ0 σ : page_map) (pid id : Z) (pa a : RecycleAllocator)
    (Hfk : forkable l r env k t b f σ0 σ id) (Hcur : k_current k = Some t)
    (Hpid : RecycleAllocator_alloc (k_pids k) = (pid, pa)) (Hkst : RecycleAllocator_alloc (k_kstacks k) = (id, a)) :
  let child := k_next_tcb k in
  ∃ b' k', sys_fork env k = Ok (signed 64 pid, k') ∧
    k_tcbs k' !! t = Some (set_children b (tcb_children b ++ [child])) ∧ k_tcbs k' !! child = Some b' ∧
    k_ready k' = k_ready k ++ [child] ∧ skel b' = MkSkeleton pid id Ready (Some t) [] ∧
    tcb_fd_table b' = tcb_fd_table b ∧ tcb_program_brk b' = tcb_program_brk b ∧
    (∀ v, v ∈ ms_vpns (tcb_memory_set b) → v ≠ trap_page →
      user_page (mm_mem (k_mm k')) (tcb_memory_set b') v = user_page (mm_mem (k_mm k)) (tcb_memory_set b) v ∧
      user_flags (mm_mem (k_mm k')) (tcb_memory_set b') v = user_flags (mm_mem (k_mm k)) (tcb_memory_set b) v) ∧
    (∀ y, y / 4096 ∈ ms_frames (tcb_memory_set b) → read_u8 (mm_mem (k_mm k')) y = read_u8 (mm_mem (k_mm k)) y) ∧
    trap_ready l r (k_mm k') (env_symbols env) (tcb_memory_set b) (k_space k') f ∧
    ∀ cpu x y, length (c_x cpu) = 32%nat → c_satp cpu = MemorySet_token (k_space k) → ∃ cpu',
      run TRAMPOLINE (strampoline (env_symbols env)) restore (trap_return x y (MemorySet_token (tcb_memory_set b')) cpu) (mm_mem (k_mm k')) =
        Ok (cpu', mm_mem (k_mm k')) ∧
      c_satp cpu' = MemorySet_token (tcb_memory_set b') ∧ c_pc cpu' = cx_word (mm_mem (k_mm k)) (ft_ppn f) 33 ∧ reg cpu' a0 = 0 ∧
      ∀ n, saved_reg n → n ≠ a0 → reg cpu' n = cx_word (mm_mem (k_mm k)) (ft_ppn f) (Z.of_nat n).
Proof.
  intros child. destruct (sys_fork_ok l r env k t b f σ0 σ pid id pa a Hfk Hpid Hkst Hcur)
    as (us' & f' & b' & k' & Hrun & Et & Er & Hsk & Hfd & _ & Hbrk & <- & Ecx & _ & Hf).
  assert (child ≠ t) as Hne by (intros E; pose proof (fk_task _ _ _ _ _ _ _ _ _ _ Hfk); pose proof (fk_fresh _ _ _ _ _ _ _ _ _ _ Hfk); unfold child in *; congruence).
  exists b', k'. split; [done|]. rewrite Et. split; [apply lookup_insert_eq|].
  split; [rewrite lookup_insert_ne by done; apply lookup_insert_eq|]. do 4 (split; [done|]).
  split; [apply Hf|]. split; [apply Hf|]. split; [apply Hf|]. intros cpu x y Hlen Hs.
  destruct (restore_ok _ _ _ _ _ _ _ _ x y (fd_child _ _ _ _ _ _ _ _ _ _ _ Hf) Hlen) as (cpu' & Hrun' & _ & Hr & _ & Hpc & Hsatp & _).
  { rewrite Hs. symmetry. apply Hf. }
  exists cpu'. split; [done|]. split; [done|]. split; [rewrite Hpc; by apply Hf|].
  split; [rewrite Hr by (unfold saved_reg; lia); apply Hf|]. intros n Hn Hna. rewrite Hr by done. unfold saved_reg in Hn.
  apply (fd_words _ _ _ _ _ _ _ _ _ _ _ Hf); unfold CX_KERNEL_SP; lia.
Qed.

(** C11: [exec] replaces the program of a process and keeps the process.  With enough frames
    for the new space beside the old one it succeeds: the control block has the new space
    and trap context and is otherwise the same, no other block changes, the new space holds
    the segments of the file and an empty stack on frames that were free, exactly the frames
    of the old space have become free, and no frame in use is written.  Returning to the
    process from the kernel starts the new program at its entry point. *)
Theorem exec_replaces_program {D : Type} `{BlockDevice D} (l r : Z) (env : Env) (k : Kernel D) (t : Z) (b : TaskControlBlock) (f : FrameTracker)
    (elf_data : list Z) (elf : ElfFile) (phs : list ProgramHeader)
    (Henv : env_ok env) (Ht : k_tcbs k !! t = Some b) (Htr : trap_ready l r (k_mm k) (env_symbols env) (tcb_memory_set b) (k_space k) f)
    (Hnew : env_elf_new env elf_data = Some elf) (Helf : elf_ok elf_data elf phs) (Hent : fits 64 (elf_entry_point elf))
    (Hid : 0 ≤ tcb_kernel_stack b < 2 ^ 20) (Hav : 3 * len (loads phs ≫= seg_pages) + 12 ≤ sfa_avail (mm_fa (k_mm k))) :
  ∃ us g k', TaskControlBlock_exec env t elf_data k = Ok ((), k') ∧ let b' := set_trap_cx_ppn (set_memory_set b us) (ft_ppn g) in
    k_tcbs k' = <[t := b']> (k_tcbs k) ∧ k_space k' = k_space k ∧ procs_of k' = procs_of k ∧
    program_ready l r env k' b' elf_data phs (elf_entry_point elf) ∧
    (∀ x, x ∈ ms_frames us → ¬ sfa_live l (mm_fa (k_mm k)) x) ∧
    (∀ x, sfa_live l (mm_fa (k_mm k)) x → sfa_live l (mm_fa (k_mm k')) x ↔ x ∉ ms_frames (tcb_memory_set b)) ∧
    (∀ y, sfa_live l (mm_fa (k_mm k)) (y / 4096) → read_u8 (mm_mem (k_mm k')) y = read_u8 (mm_mem (k_mm k)) y) ∧
    ∀ cpu x y, length (c_x cpu) = 32%nat → c_satp cpu = MemorySet_token (k_space k) → ∃ cpu',
      run TRAMPOLINE (strampoline (env_symbols env)) restore (trap_return x y (MemorySet_token us) cpu) (mm_mem (k_mm k')) =
        Ok (cpu', mm_mem (k_mm k')) ∧
      started env us (elf_entry_point elf) (4096 * (last_end 0 (loads phs) + 3)) cpu'.
Proof.
  destruct (exec_ok l r env k t b f elf_data elf phs Henv Ht Htr Hnew Helf Hent Hid Hav) as (us & g & s & Hrun & Hpr & Hfresh & Hlive & Hsame).
  eexists us, g, _. split; [exact Hrun|]. cbv zeta. split; [done|]. split; [done|].
  split; [unfold procs_of; cbn; f_equal; rewrite fmap_insert; apply insert_id; by rewrite lookup_fmap, Ht|].
  assert (∀ k', k_mm k' = s → k_space k' = k_space k → program_ready l r env (k' : Kernel D) (set_trap_cx_ppn (set_memory_set b us) (ft_ppn g)) elf_data phs
    (elf_entry_point elf)) as Hpr' by (intros k' Em Es; destruct Hpr; split; rewrite ?Em, ?Es; done).
  split; [by apply Hpr'|]. do 3 (split; [done|]). intros cpu x y Hlen Hs.
  match goal with |- context [k_mm ?k'] =>
    exact (program_starts l r env k' _ elf_data phs (elf_entry_point elf) cpu x y (Hpr' k' eq_refl eq_refl) Hlen Hs) end.
Qed.

(** * Witnesses

    The program of [ElfLoad] runs as process 0. *)

Lemma program_vpns l r ks elf_data phs s s' ms σ : program_space l r ks elf_data phs s s' ms σ →
  (length (ms_vpns ms) ≤ length ((loads phs ≫= seg_pages) ++ stack_pages phs ++ [trap_page; trampoline_vpn]))%nat.
Proof.
  intros Hps. pose proof (ps_inv _ _ _ _ _ _ _ _ _ Hps) as Hi. apply submseteq_length, NoDup_submseteq; [apply Hi|].
  intros v Hv. rewrite !elem_of_app, !elem_of_cons. pose proof Hv as (a & Hva & Ha)%list_elem_of_bind.
  assert (vpn_ok v) as Hvo.
  { pose proof (mi_areas _ _ _ _ _ _ Hi) as Hok. rewrite Forall_forall in Hok. destruct (Hok a Ha) as (Hr & _).
    destruct (area_vpns_ok a Hr) as (_ & Hall & _). rewrite Forall_forall in Hall. by apply Hall. }
  destruct (proj1 (ps_pages _ _ _ _ _ _ _ _ _ Hps v Hvo)) as [?|[?|[?|?]]]; [|tauto..]. by eapply (area_pages_σ l r).
Qed.

Definition demo_process (f : FrameTracker) (us : MemorySet) : TaskControlBlock :=
  MkTcb 7 5 (ft_ppn f) 0x15000 TaskContext_zero_init Running us None [] 0 [Some Stdin; None; Some Stdout] 0x15000 0x15000 (MkTaskInfo Running [] 0) 0 16.
Definition demo_running (s : MM) (space : MemorySet) (b : TaskControlBlock) : Kernel BlockFile :=
  MkKernel s space RecycleAllocator_new RecycleAllocator_new {[3 := b]} 4 ∅ [] (Some 3) 3 ∅ 0 (BlockCacheManager_new (MkBlockFile []))
    (MkEfs (Bitmap_new 0 0) (Bitmap_new 0 0) 0 0) (MkInode 0 0) 0 0 [].

Lemma demo_forkable : ∃ s space f us σ, forkable 0x80300 0x88000 elf_env (demo_running s space (demo_process f us)) 3 (demo_process f us) f
  {[ trampoline_vpn := trampoline_entry demo_ks ]} σ 0 ∧ 100 ≤ sfa_avail (mm_fa s).
Proof.
  destruct demo_kernel_space as (ksp & s & σ & _ & Hk & Hσ & Hav).
  assert (3 * len (loads demo_phs ≫= seg_pages) + 12 = 18) as Hlen by (rewrite demo_loads; vm_compute; reflexivity).
  destruct (from_elf_ok 0x80300 0x88000 demo_ks (λ _, Some demo_elf) demo_elf_data demo_elf demo_phs s) as (us & s' & σu & _ & Hps);
    [by destruct (mi_pt _ _ _ _ _ _ Hk) as [(? & ? & _) _]|exact demo_ks_ok|reflexivity|exact demo_elf_ok|lia|].
  destruct (program_trap_ready _ _ _ _ _ _ _ _ _ _ _ _ demo_ks_ok Hk (eq_trans (Hσ _) eq_refl) Hps) as (f & Htr).
  destruct (ps_step _ _ _ _ _ _ _ _ _ Hps) as (new & d & Hst & Hd & _ & Hl). pose proof (mm_avail _ _ _ _ _ _ Hst) as Hav'.
  pose proof (program_vpns _ _ _ _ _ _ _ _ _ Hps) as Hv. rewrite !length_app in Hv.
  change (length (stack_pages demo_phs)) with 2%nat in Hv. cbn [length] in Hv.
  exists s', ksp, f, us, σ. split; [|lia]. split.
  - apply lookup_singleton_eq.
  - by apply lookup_singleton_ne.
  - reflexivity.
  - exact Htr.
  - exact (ms_inv_fresh _ _ _ _ _ _ _ _ _ Hk Hst Hd).
  - split; [apply lookup_singleton_eq|]. exact (eq_trans (Hσ trampoline_vpn) eq_refl).
  - lia.
  - intros v Hvk%elem_kstack_pages. rewrite Hσ. apply kernel_entry_high; [exact demo_symbols_ok|lia|]. intros ->. cbn in Hvk. lia.
  - cbn [k_mm demo_running tcb_memory_set demo_process]. lia.
Qed.

Lemma fork_returns_twice_witness : ∃ s space f us b' k' cpu',
  sys_fork elf_env (demo_running s space (demo_process f us)) = Ok (0, k') ∧ k_tcbs k' !! 4 = Some b' ∧ tcb_parent b' = Some 3 ∧
  run TRAMPOLINE 0x80200000 restore (trap_return 0 100 (MemorySet_token (tcb_memory_set b')) (demo_cpu (replicate 32 7) (MemorySet_token space)))
    (mm_mem (k_mm k')) = Ok (cpu', mm_mem (k_mm k')) ∧ reg cpu' a0 = 0.
Proof.
  destruct demo_forkable as (s & space & f & us & σ & Hfk & Hroom).
  destruct (fork_returns_twice 0x80300 0x88000 elf_env _ 3 _ f _ σ 0 0 (MkRecycleAllocator 1 []) (MkRecycleAllocator 1 []) Hfk)
    as (b' & k' & Hrun & _ & Hb' & _ & Hsk & _ & _ & _ & _ & _ & Hret).
  - reflexivity.
  - reflexivity.
  - reflexivity.
  - destruct (Hret (demo_cpu (replicate 32 7) (MemorySet_token space)) 0 100 eq_refl eq_refl) as (cpu' & Hr & _ & _ & Ha0 & _).
    exists s, space, f, us, b', k', cpu'. split; [exact Hrun|]. split; [exact Hb'|]. split; [by injection Hsk|]. split; [exact Hr|exact Ha0].
Defined.

Lemma exec_replaces_program_witness : ∃ s space f us us' g k' cpu',
  TaskControlBlock_exec elf_env 3 demo_elf_data (demo_running s space (demo_process f us)) = Ok ((), k') ∧
  k_tcbs k' !! 3 = Some (set_trap_cx_ppn (set_memory_set (demo_process f us) us') (ft_ppn g)) ∧
  run TRAMPOLINE 0x80200000 restore (trap_return 0 100 (MemorySet_token us') (demo_cpu (replicate 32 7) (MemorySet_token space)))
    (mm_mem (k_mm k')) = Ok (cpu', mm_mem (k_mm k')) ∧ c_pc cpu' = 0x10000.
Proof.
  destruct demo_forkable as (s & space & f & us & σ & Hfk & Hroom).
  destruct (exec_replaces_program 0x80300 0x88000 elf_env (demo_running s space (demo_process f us)) 3 (demo_process f us) f demo_elf_data demo_elf demo_phs)
    as (us' & g & k' & Hrun & Et & _ & _ & _ & _ & _ & _ & Hstart).
  - exact elf_env_ok.
  - exact (fk_task _ _ _ _ _ _ _ _ _ _ Hfk).
  - exact (fk_ready _ _ _ _ _ _ _ _ _ _ Hfk).
  - reflexivity.
  - exact demo_elf_ok.
  - by compute.
  - cbn. lia.
  - rewrite demo_loads. change (3 * 2 + 12 ≤ sfa_avail (mm_fa s)). lia.
  - destruct (Hstart (demo_cpu (replicate 32 7) (MemorySet_token space)) 0 100 eq_refl eq_refl) as (cpu' & Hr & Hst).
    exists s, space, f, us, us', g, k', cpu'. split; [exact Hrun|]. split; [rewrite Et; apply lookup_insert_eq|].
    split; [exact Hr|exact (st_pc _ _ _ _ _ Hst)].
Defined.
