(* ===== verification/ProcProps.v ===== *)
(** What the process table guarantees: the invariant in every reachable state, the order
    in which tasks run, and what [waitpid] and exit may rely on. *)

From S2P Require Import Prelude Config Address Allocator FrameAllocator TaskId PhysMem PageTable UserMem MemorySet.
From S2P Require Import BlockDev BlockCache BlockAccess Efs Vfs Kernel OsFile Process Syscall ProcSpec ProcInv.

(** A kernel before [add_initproc]: no process exists, no identifier is in use. *)
Definition boot_kernel {D} (mm : MM) (space : MemorySet) (next : Z) (cache : BlockCacheManager D) (efs : EasyFileSystem)
    (root : Inode) : Kernel D :=
  MkKernel mm space RecycleAllocator_new RecycleAllocator_new ∅ next ∅ [] None 0 ∅ 0 cache efs root 0 0 [].

(** Steps of a machine with fewer than 2^64 - 1 processes: one identifier is left. *)
Definition bounded_step {D} `{BlockDevice D} (env : Env) (k k' : Kernel D) : Prop :=
  kernel_step env k k' ∧ Z.of_nat (size (k_tcbs k)) < 2 ^ 64 - 1.

Section Props.
Context {D : Type} `{BlockDevice D} (env : Env).
Abbreviation K := (Kernel D).

Lemma ids_first f m n b :
  m = {[ n := b ]} → f b = 0 → ids_ok f m (MkRecycleAllocator 1 []).
Proof.
  intros -> Hf. split.
  - unfold ra_inv. simpl. repeat split; try lia; constructor.
  - intros t t' x x' H1 H2 _. apply lookup_singleton_Some in H1 as [<- _], H2 as [<- _]. done.
  - intros x. unfold ra_live. simpl. split.
    + intros [? _]. exists n, b. rewrite lookup_singleton_eq. split; [done|lia].
    + intros (t & b' & [<- <-]%lookup_singleton_Some & <-). split; [lia|set_solver].
Qed.

Lemma boot_inv n :
  proc_inv (MkProcs {[ n := MkSkeleton 0 0 Ready None [] ]} (n + 1) [n] None n (MkRecycleAllocator 1 [])
              (MkRecycleAllocator 1 [])).
Proof.
  split; simpl.
  - intros t [b [<- _]%lookup_singleton_Some]. lia.
  - apply NoDup_singleton.
  - intros t ->%list_elem_of_singleton. rewrite lookup_singleton_eq. eauto.
  - done.
  - intros t b [<- <-]%lookup_singleton_Some. unfold status_ok. simpl. set_solver.
  - split.
    + eexists. by rewrite lookup_singleton_eq.
    + intros t [b [<- _]%lookup_singleton_Some]. lia.
    + intros t b [<- <-]%lookup_singleton_Some. constructor.
    + intros t b c [<- <-]%lookup_singleton_Some Hc. set_solver.
    + intros c [b [<- _]%lookup_singleton_Some] Hc. done.
  - by eapply ids_first.
  - by eapply ids_first.
Qed.

Lemma new_task_ids data (k : K) :
  ensures (TaskControlBlock_new env data) k (λ b k', ∃ pid pa ks ka,
    RecycleAllocator_alloc (k_pids k) = (pid, pa) ∧ RecycleAllocator_alloc (k_kstacks k) = (ks, ka) ∧
    procs_of k' = p_set_kstacks (p_set_pids (procs_of k) pa) ka ∧ skel b = MkSkeleton pid ks Ready None []).
Proof.
  unfold TaskControlBlock_new. apply ensures_bind, ensures_keeps; [keeps|]. intros [[ms sp] entry] k1 Hk1.
  apply ensures_bind, ensures_keeps; [keeps|]. intros ppn k2 Hk2. rewrite Hk1 in Hk2.
  apply ensures_bind. eapply ensures_mono; [apply ensures_pid_alloc|]. intros pid k3 (pa & Hpa & Hk3). rewrite Hk2 in *.
  apply ensures_bind. eapply ensures_mono; [apply ensures_kstack_alloc|]. intros ks k4 (ka & Hka & Hk4).
  apply ensures_bind, ensures_keeps; [keeps|]. intros ti k5 Hk5. rewrite Hk4 in Hk5.
  apply ensures_bind, ensures_keeps; [keeps|]. intros [] k6 Hk6. apply ensures_ret.
  exists pid, pa, ks, ka. rewrite Hk3 in *. rewrite Hk6, Hk5. done.
Qed.

Lemma first_process_inv (k : K) n ip :
  procs_of k = MkProcs ∅ n [] None ip RecycleAllocator_new RecycleAllocator_new →
  ensures (add_initproc env) k (λ _ k', proc_inv (procs_of k')).
Proof.
  intros Hk. unfold add_initproc, INITPROC. apply ensures_bind.
  apply ensures_bind, ensures_keeps; [keeps|]. intros o k1 Hk1.
  apply ensures_bind, ensures_keeps; [keeps|]. intros f k2 Hk2. rewrite Hk1 in Hk2.
  apply ensures_bind, ensures_keeps; [keeps|]. intros v k3 Hk3. rewrite Hk2, Hk in Hk3.
  apply ensures_bind. eapply ensures_mono; [apply new_task_ids|]. intros b k4 (pid & pa & ks & ka & Hpa & Hka & Hk4 & Hb).
  injection Hk3 as E1 E2 E3 E4 E5 E6 E7. rewrite E6 in Hpa. rewrite E7 in Hka.
  assert (pid = 0 ∧ pa = MkRecycleAllocator 1 []) as [-> ->] by (vm_compute in Hpa; by injection Hpa as <- <-).
  assert (ks = 0 ∧ ka = MkRecycleAllocator 1 []) as [-> ->] by (vm_compute in Hka; by injection Hka as <- <-).
  eapply ensures_mono; [apply ensures_Arc_new_tcb|]. intros x k5 [-> Hk5].
  apply ensures_bind. unfold ensures, modify, add_task, modify.
  assert (Hp : procs_of k4 = MkProcs ∅ n [] None (k_initproc k3) (MkRecycleAllocator 1 []) (MkRecycleAllocator 1 [])).
  { rewrite Hk4. unfold procs_of, p_set_kstacks, p_set_pids. cbn. by rewrite E1, E2, E3, E4. }
  rewrite Hp, Hb in Hk5. injection Hk5 as F1 F2 F3 F4 F5 F6 F7. unfold procs_of. cbn.
  assert (k_next_tcb k4 = n) as En by (by injection Hp).
  rewrite F1, F2, F3, F4, F6, F7, En. cbn. apply boot_inv.
Qed.

Lemma boot_ok mm space n cache efs root :
  ensures (add_initproc env) (boot_kernel mm space n cache efs root : K) (λ _ k, proc_inv (procs_of k)).
Proof. apply (first_process_inv _ n 0). unfold procs_of. cbn. by rewrite fmap_empty. Qed.

Lemma bounded_steps_inv (k k' : K) :
  proc_inv (procs_of k) → rtc (bounded_step env) k k' → proc_inv (procs_of k').
Proof.
  intros Hinv Hs. induction Hs as [|k1 k2 k3 [Hs Hsz] _ IH]; [done|]. apply IH.
  by eapply proc_steps_inv; [|eapply sim_kernel_step].
Qed.

(** * Order of execution *)

(** A run of the machine with the tasks the idle loop dispatched in it. *)
Inductive kernel_run : list Z → K → K → Prop :=
| kr_nil k : kernel_run [] k k
| kr_dispatch t k k1 k2 k' ts :
    k_current k = None → Z.of_nat (size (k_tcbs k)) < 2 ^ 64 - 1 →
    run_tasks_turn k = Ok (Some t, k1) → resume env t k1 = Ok ((), k2) → kernel_run ts k2 k' → kernel_run (t :: ts) k k'
| kr_wait k k1 k' ts :
    k_current k = None → run_tasks_turn k = Ok (None, k1) → kernel_run ts k1 k' → kernel_run ts k k'
| kr_task k k1 k' ts :
    k_current k ≠ None → bounded_step env k k1 → kernel_run ts k1 k' → kernel_run ts k k'.

Lemma task_step_queue (k k' : K) :
  proc_inv (procs_of k) → k_current k ≠ None → bounded_step env k k' → ∃ x, k_ready k' = k_ready k ++ x.
Proof.
  intros Hinv Hcur [Hstep Hsize].
  assert (Hsz : Z.of_nat (size (p_skels (procs_of k))) < 2 ^ 64 - 1) by (cbn; by rewrite map_size_fmap).
  destruct Hstep as [k t b m _ _ _ _|cause k k' t _ Ht|k k1 k' t Hn _ _|k k' Hn _]; [|..|done|done].
  - exists []. by rewrite app_nil_r.
  - eapply (proc_step01_queue (procs_of k) (procs_of k')); [|done].
    refine (ensures_Ok _ _ _ _ _ (sim_trap env cause k Hinv _ _) Ht).
    + by apply (ids_room _ _ _ (pi_pid _ Hinv)).
    + by apply (ids_room _ _ _ (pi_kstack _ Hinv)).
Qed.

Lemma dispatch_queue t (k k1 k2 : K) :
  k_current k = None → run_tasks_turn k = Ok (Some t, k1) → resume env t k1 = Ok ((), k2) →
  rtc proc_step (procs_of k) (procs_of k2) ∧ ∃ q x, k_ready k = t :: q ∧ k_ready k2 = q ++ x.
Proof.
  intros Hcur Hrun Hres. eapply ensures_Ok in Hrun; [|by apply sim_run]. destruct Hrun as (Hs & Hc1 & q & Hq & Hq1).
  eapply ensures_Ok in Hres; [|apply sim_resume]. split; [eapply rtc_l; [done|]; by apply proc_step01_rtc|].
  apply proc_step01_queue in Hres as [x Hx]; [|cbn; congruence]. cbn in Hx. exists q, x. split; [done|]. congruence.
Qed.

Lemma run_in_order ts (k k' : K) :
  kernel_run ts k k' → proc_inv (procs_of k) →
  ∀ l t r, k_ready k = l ++ t :: r → (length l < length ts)%nat → ts !! length l = Some t.
Proof.
  intros Hrun. induction Hrun as [k|t0 k k1 k2 k' ts Hcur Hsz Ht Hres Hrun IH|k k1 k' ts Hcur Ht Hrun IH|k k1 k' ts Hcur Hs Hrun IH];
    intros Hinv l t r Hq Hlen; simpl in Hlen; [lia|..].
  - destruct (dispatch_queue t0 k k1 k2 Hcur Ht Hres) as (Hsteps & q & x & Hq0 & Hq2). rewrite Hq in Hq0.
    destruct l as [|y l]; simpl in *; [by injection Hq0 as -> _|]. injection Hq0 as -> <-.
    rewrite <- app_assoc in Hq2. apply (IH ltac:(by eapply proc_steps_inv) l t (r ++ x)); [done|lia].
  - eapply ensures_Ok in Ht; [|by apply sim_run]. destruct Ht as [_ Hnil]. rewrite Hq in Hnil. by destruct l.
  - destruct (task_step_queue k k1 Hinv Hcur Hs) as [x Hx]. rewrite Hq in Hx. rewrite <- app_assoc in Hx.
    apply (IH ltac:(eapply proc_steps_inv; [done|apply (sim_kernel_step env); [done|apply Hs..]]) l t (r ++ x)); [done|lia].
Qed.

(** * Waiting for children *)

Lemma any_child_eq pid (k : K) l : (∀ c, c ∈ l → is_Some (k_tcbs k !! c)) →
  any_child pid l k = Ok (existsb (λ c, match k_tcbs k !! c with Some b => pid_matches pid b | None => false end) l, k).
Proof.
  induction l as [|c l IH]; intros Hl; simpl; [done|]. destruct (Hl c) as [b Hb]; [set_solver|].
  unfold mbind, M_bind, get_tcb. rewrite Hb. destruct (pid_matches pid b); [done|]. apply IH. set_solver.
Qed.

(** A child that [waitpid] would reap. *)
Definition reapable (k : K) (pid c : Z) : Prop :=
  ∃ b, k_tcbs k !! c = Some b ∧ tcb_task_status b = Zombie ∧ pid_matches pid b = true.

Lemma find_zombie_none pid (k : K) l : ∀ before,
  (∀ c, c ∈ l → is_Some (k_tcbs k !! c)) → (∀ c, c ∈ l → ¬ reapable k pid c) →
  find_zombie pid before l k = Ok (None, k).
Proof.
  induction l as [|c l IH]; intros before Hl Hn; simpl; [done|]. destruct (Hl c) as [b Hb]; [set_solver|].
  unfold mbind, M_bind, get_tcb. rewrite Hb. destruct (_ && _) eqn:E.
  - exfalso. apply (Hn c); [set_solver|]. apply andb_true_iff in E as [Ez Ep]. apply bool_decide_eq_true in Ez. by exists b.
  - apply IH; set_solver.
Qed.

Lemma find_zombie_first pid (k : K) l c after : ∀ before,
  (∀ x, x ∈ l → is_Some (k_tcbs k !! x)) → (∀ x, x ∈ l → ¬ reapable k pid x) → reapable k pid c →
  find_zombie pid before (l ++ c :: after) k = Ok (Some (before ++ l, c, after), k).
Proof.
  induction l as [|x l IH]; intros before Hl Hn (bc & Hbc & Hz & Hp); simpl; unfold mbind, M_bind, get_tcb.
  - rewrite Hbc. unfold TaskControlBlockInner_is_zombie. rewrite bool_decide_eq_true_2, Hp by done. simpl.
    by rewrite app_nil_r.
  - destruct (Hl x) as [b Hb]; [set_solver|]. rewrite Hb. destruct (_ && _) eqn:E.
    + exfalso. apply (Hn x); [set_solver|]. apply andb_true_iff in E as [Ez Ep]. apply bool_decide_eq_true in Ez. by exists b.
    + replace (before ++ x :: l) with ((before ++ [x]) ++ l) by (by rewrite <- app_assoc).
      apply IH; [set_solver|set_solver|by exists bc].
Qed.

Lemma children_live (k : K) t b c :
  proc_inv (procs_of k) → k_tcbs k !! t = Some b → c ∈ tcb_children b → is_Some (k_tcbs k !! c).
Proof.
  intros Hinv Hb Hc. destruct (tr_child _ _ (pi_tree _ Hinv) t (skel b) c) as (_ & bc & Hbc & _); [|done|].
  - cbn. by rewrite lookup_fmap, Hb.
  - cbn in Hbc. rewrite lookup_fmap in Hbc. destruct (k_tcbs k !! c); [eauto|done].
Qed.

(** After the parent has let go of a zombie nothing refers to it. *)
Lemma zombie_unreferenced (k : K) t b before c after bc :
  proc_inv (procs_of k) → k_tcbs k !! t = Some b → tcb_children b = before ++ c :: after →
  k_tcbs k !! c = Some bc → tcb_task_status bc = Zombie →
  Arc_strong_count (set_tcbs k (<[t := set_children b (before ++ after)]> (k_tcbs k))) c = 0%nat.
Proof.
  intros Hinv Hb Hch Hbc Hz. apply strong_count_zero. rewrite procs_set_tcb. cbn.
  assert (Hbs : (skel <$> k_tcbs k) !! t = Some (skel b)) by (by rewrite lookup_fmap, Hb).
  assert (Hcs : (skel <$> k_tcbs k) !! c = Some (skel bc)) by (by rewrite lookup_fmap, Hbc).
  pose proof (pi_status _ Hinv c _ Hcs) as Hst. unfold status_ok in Hst. cbn in Hst. rewrite Hz in Hst.
  destruct Hst as (Hcur & Hq & _ & Hi). pose proof (tr_nodup _ _ (pi_tree _ Hinv) t _ Hbs) as Hnd. cbn in Hnd.
  rewrite Hch in Hnd. apply NoDup_app in Hnd as (_ & Hdis & Haf). apply NoDup_cons in Haf as [Hca _].
  destruct (tr_child _ _ (pi_tree _ Hinv) t (skel b) c Hbs) as (_ & bc' & Hbc' & Hp); [cbn; rewrite Hch; set_solver|].
  intros [?|[?|[(t' & b' & Hb' & Hin)|?]]]; cbn in *; [done|done| |congruence].
  apply lookup_insert_Some in Hb' as [[<- <-]|[Hne Hb']].
  - cbn in Hin. apply elem_of_app in Hin as [Hin|Hin]; [|done]. apply (Hdis c Hin). set_solver.
  - destruct (tr_child _ _ (pi_tree _ Hinv) t' b' c Hb' Hin) as (_ & ? & ? & ?). cbn in *. congruence.
Qed.

(** What [waitpid] does with the child it has found, in the state [k1]. *)
Definition reap (token ptr c : Z) (bc : TaskControlBlock) : M K Z :=
  m ← get_mem;
  pa ← lift (translated_refmut m token ptr);
  _ ← on_mem (λ m, write_bytes m (pa_0 pa) (le_bytes 4 (wrap 32 (tcb_exit_code bc))));
  _ ← drop_task c;
  mret (signed 64 (tcb_pid bc)).

(** * Properties *)

(** C2: the process table is well formed in every reachable state.  [add_initproc] on a
    kernel without processes establishes the invariant, and every step of the machine (a
    program computing, any trap with any system call, a turn of the idle loop) preserves
    it: a task is in the ready queue, once, exactly when its status is [Ready]; it is the
    current one exactly when it is [Running]; zombies are in neither and have no children;
    processes form a tree rooted at the initial process whose parent and child pointers
    agree; pids and kernel stacks of live processes are distinct and are the ones handed
    out by the allocators. *)
Theorem process_table_invariant :
  (∀ mm space n cache efs root,
     ensures (add_initproc env) (boot_kernel mm space n cache efs root : K) (λ _ k, proc_inv (procs_of k))) ∧
  (∀ k k' : K, proc_inv (procs_of k) → rtc (bounded_step env) k k' → proc_inv (procs_of k')).
Proof. split; [apply boot_ok|apply bounded_steps_inv]. Qed.

(** C9: the kernel refines the abstract process table: every run of the machine is, seen
    through [procs_of], a sequence of its five transitions (suspend, run, create, exit,
    reap) and of steps that do not change the table. *)
Theorem kernel_refines_process_table (k k' : K) :
  proc_inv (procs_of k) → rtc (bounded_step env) k k' → rtc proc_step (procs_of k) (procs_of k').
Proof.
  intros Hinv Hs. induction Hs as [|k1 k2 k3 [Hs Hsz] _ IH]; [done|].
  pose proof (sim_kernel_step env k1 k2 Hinv Hsz Hs) as H12. etrans; [done|]. apply IH. by eapply proc_steps_inv.
Qed.

(** C22: tasks run first come, first served, so no ready task waits for ever: in any run of
    the machine the task that has [n] tasks ahead of it in the ready queue is exactly the
    one the idle loop dispatches after [n] others, whatever the running programs do. *)
Theorem ready_tasks_run_in_order ts (k k' : K) l t r :
  proc_inv (procs_of k) → kernel_run ts k k' → k_ready k = l ++ t :: r → (length l < length ts)%nat →
  ts !! length l = Some t.
Proof. intros. by eapply run_in_order. Qed.

(** C29: a timer interrupt always hands the processor over: the handler returns, the
    interrupted task is [Ready] at the end of the queue, and the next turn of the idle
    loop runs the task at its head. *)
Theorem timer_preempts (k : K) t :
  proc_inv (procs_of k) → k_current k = Some t →
  ∃ k' t' k'', trap_handler env SupervisorTimer k = Ok ((), k') ∧ k_current k' = None ∧
    k_ready k' = k_ready k ++ [t] ∧ tcb_task_status <$> k_tcbs k' !! t = Some Ready ∧
    run_tasks_turn k' = Ok (Some t', k'') ∧ k_ready k ++ [t] = t' :: k_ready k'' ∧ k_current k'' = Some t' ∧
    tcb_task_status <$> k_tcbs k'' !! t' = Some Running.
Proof.
  intros Hinv Hcur. destruct (pi_current _ Hinv t Hcur) as [b Hb]. cbn in Hb.
  apply lookup_fmap_Some in Hb as (b0 & <- & Hb).
  assert (∃ t' q, k_ready k ++ [t] = t' :: q) as (t' & q & Hq) by (destruct (k_ready k); eauto).
  assert (Hl : ∃ b', <[t := set_status b0 Ready]> (k_tcbs k) !! t' = Some b').
  { destruct (decide (t' = t)) as [->|]; [rewrite lookup_insert_eq; eauto|]. rewrite lookup_insert_ne by done.
    assert (t' ∈ k_ready k ++ [t]) as [Hin|Hin]%elem_of_app by (rewrite Hq; set_solver); [|set_solver].
    apply (pi_ready _ Hinv) in Hin. cbn in Hin. rewrite lookup_fmap in Hin. destruct (k_tcbs k !! t'); [eauto|].
    by destruct Hin. }
  destruct Hl as [b' Hb']. simpl. unfold set_next_trigger, get_time, suspend_current_and_run_next, take_current_task.
  unfold mbind, M_bind, mret, M_ret, lift, get_tcb. cbn. rewrite Hcur. cbn. rewrite Hb.
  eexists _, t', _. split; [done|]. cbn. split; [done|]. split; [done|]. rewrite lookup_insert_eq. split; [done|].
  unfold run_tasks_turn, fetch_task, get_tcb, mbind, M_bind. cbn. unfold vec_push. rewrite Hq. cbn. rewrite Hb'.
  cbn. split; [done|]. cbn. by rewrite lookup_insert_eq.
Qed.

End Props.

(** * A small system

    The initial process runs; one child has exited with code 7, another is ready. *)
Definition demo_env : Env :=
  MkEnv (MkKernelSymbols 0 0 0 0 0 0 0 0 0 0) (λ _, None) 0 0 0 Z.of_nat (λ _, 0) (λ _, []) 10.
Definition demo_tcb (pid : Z) (s : TaskStatus) (parent : option Z) (children : list Z) : TaskControlBlock :=
  MkTcb pid pid (MkPhysPageNum 0) 0 TaskContext_zero_init s (MkMemorySet (MkPageTable (MkPhysPageNum 0) []) []) parent
    children 7 [] 0 0 (MkTaskInfo Running [] 0) 0 16.
Definition demo_kernel : Kernel BlockFile :=
  MkKernel (MkMM ∅ (MkStackFrameAllocator 0 0 [])) (MkMemorySet (MkPageTable (MkPhysPageNum 0) []) [])
    (MkRecycleAllocator 3 []) (MkRecycleAllocator 3 [])
    {[ 0 := demo_tcb 0 Running None [1; 2]; 1 := demo_tcb 1 Zombie (Some 0) []; 2 := demo_tcb 2 Ready (Some 0) [] ]} 3 ∅
    [2] (Some 0) 0 ∅ 0 (BlockCacheManager_new (MkBlockFile [])) (efs_layout 0 0).1.1.1 (MkInode 0 0) 0 0 [].

Lemma demo_skels t b :
  p_skels (procs_of demo_kernel) !! t = Some b →
  (t = 0 ∧ b = MkSkeleton 0 0 Running None [1; 2]) ∨ (t = 1 ∧ b = MkSkeleton 1 1 Zombie (Some 0) []) ∨
  (t = 2 ∧ b = MkSkeleton 2 2 Ready (Some 0) []).
Proof.
  cbn. rewrite !fmap_insert, map_fmap_singleton. intros Hb.
  apply lookup_insert_Some in Hb as [[<- <-]|[_ Hb]]; [by left|].
  apply lookup_insert_Some in Hb as [[<- <-]|[_ Hb]]; [by right; left|].
  apply lookup_singleton_Some in Hb as [<- <-]. by right; right.
Qed.

Lemma demo_ids f : (∀ t b, p_skels (procs_of demo_kernel) !! t = Some b → f b = t) →
  ids_ok f (p_skels (procs_of demo_kernel)) (MkRecycleAllocator 3 []).
Proof.
  intros Hf. split.
  - unfold ra_inv. simpl. repeat split; try lia; constructor.
  - intros t t' b b' H1 H2 E. by rewrite <- (Hf t b H1), <- (Hf t' b' H2).
  - intros x. unfold ra_live. simpl. split.
    + intros [Hx _]. assert (x = 0 ∨ x = 1 ∨ x = 2) as [->|[->| ->]] by lia.
      * eexists 0, _. split; [reflexivity|]. by apply Hf.
      * eexists 1, _. split; [reflexivity|]. by apply Hf.
      * eexists 2, _. split; [reflexivity|]. by apply Hf.
    + intros (t & b & Hb & <-). rewrite (Hf t b Hb). apply demo_skels in Hb. split; [lia|set_solver].
Qed.

Lemma demo_kernel_inv : proc_inv (procs_of demo_kernel).
Proof.
  split.
  - intros t [b Hb]. apply demo_skels in Hb. cbn. lia.
  - apply NoDup_singleton.
  - intros t ->%list_elem_of_singleton. by eexists.
  - intros t [= <-]. by eexists.
  - intros t b [[-> ->]|[[-> ->]|[-> ->]]]%demo_skels; unfold status_ok; cbn; set_solver.
  - split.
    + by eexists.
    + intros t [b Hb]. apply demo_skels in Hb. cbn. lia.
    + intros t b [[-> ->]|[[-> ->]|[-> ->]]]%demo_skels; cbn; [|constructor..]. by apply (bool_decide_unpack _).
    + intros t b c [[-> ->]|[[-> ->]|[-> ->]]]%demo_skels Hc; cbn in Hc; [|set_solver..].
      assert (c = 1 ∨ c = 2) as [->| ->] by set_solver; (split; [lia|]); by eexists.
    + intros c [b Hb] Hc. apply demo_skels in Hb. exists 0. eexists. split; [reflexivity|]. cbn in *. set_solver.
  - apply demo_ids. intros t b Hb. apply demo_skels in Hb. naive_solver.
  - apply demo_ids. intros t b Hb. apply demo_skels in Hb. naive_solver.
Qed.

(** The state after a timer interrupt, and after the next turn of the idle loop. *)
Definition demo_kernel1 : Kernel BlockFile :=
  match trap_handler demo_env SupervisorTimer demo_kernel with Ok (_, k) => k | Err _ => demo_kernel end.
Definition demo_kernel2 : Kernel BlockFile :=
  match (o ← run_tasks_turn; match o with Some t => resume demo_env t | None => mret () end) demo_kernel1 with
  | Ok (_, k) => k | Err _ => demo_kernel1 end.

Lemma demo_step1 : bounded_step demo_env demo_kernel demo_kernel1.
Proof. split; [|by vm_compute]. by apply (step_trap _ SupervisorTimer _ _ 0). Qed.
Lemma demo_step2 : bounded_step demo_env demo_kernel1 demo_kernel2.
Proof. split; [|by vm_compute]. by eapply step_idle_run. Qed.

Lemma process_table_invariant_witness : proc_inv (procs_of demo_kernel2).
Proof.
  apply (proj2 (process_table_invariant demo_env) demo_kernel demo_kernel2 demo_kernel_inv).
  eapply rtc_l; [apply demo_step1|]. apply rtc_once, demo_step2.
Defined.

Lemma kernel_refines_process_table_witness : rtc proc_step (procs_of demo_kernel) (procs_of demo_kernel2).
Proof.
  apply (kernel_refines_process_table demo_env demo_kernel demo_kernel2 demo_kernel_inv).
  eapply rtc_l; [apply demo_step1|]. apply rtc_once, demo_step2.
Defined.

Lemma ready_tasks_run_in_order_witness : [2] !! 0%nat = Some 2.
Proof.
  apply (ready_tasks_run_in_order demo_env [2] demo_kernel demo_kernel2 [] 2 []);
    [apply demo_kernel_inv| |reflexivity|simpl; lia].
  eapply kr_task; [done|apply demo_step1|]. by eapply kr_dispatch; [..|apply kr_nil].
Defined.

Lemma timer_preempts_witness :
  ∃ k' t' k'', trap_handler demo_env SupervisorTimer demo_kernel = Ok ((), k') ∧ k_current k' = None ∧
    k_ready k' = [2] ++ [0] ∧ tcb_task_status <$> k_tcbs k' !! 0 = Some Ready ∧
    run_tasks_turn k' = Ok (Some t', k'') ∧ [2] ++ [0] = t' :: k_ready k'' ∧ k_current k'' = Some t' ∧
    tcb_task_status <$> k_tcbs k'' !! t' = Some Running.
Proof. by apply (timer_preempts demo_env demo_kernel 0 demo_kernel_inv). Defined.

