(* ===== verification/BrkSpec.v ===== *)
(** The program break: [sbrk] on the heap area of a process
    (os/src/task/task.rs, [change_program_brk]; os/src/mm/memory_set.rs, [append_to],
    [shrink_to]).

    The heap is the area that starts at [heap_bottom].  Growing it maps fresh zero pages up
    to the page of the new break, shrinking it unmaps and frees the pages above. *)

From S2P Require Import Prelude Config Address FrameAllocator PhysMem PageTable PageTableSpec BlockDev.
From S2P Require Import MemorySet MemorySetSpec AddressSpace ElfLoad MmapSpec Kernel OsFile Process Syscall ProcSpec.
From S2P Require Import Machine MachineSpec TaskSpec ForkExec.
(** * Joining two areas *)

(** The framed areas [a] and [b] side by side make the area [c]. *)
Record joins (a b c : MapArea) : Prop := {
  jn_type : ma_map_type a = Framed ∧ ma_map_type b = Framed ∧ ma_map_type c = Framed;
  jn_perm : ma_map_perm a = ma_map_perm c ∧ ma_map_perm b = ma_map_perm c;
  jn_start : get_start (ma_vpn_range c) = get_start (ma_vpn_range a);
  jn_mid : get_end (ma_vpn_range a) = get_start (ma_vpn_range b);
  jn_end : get_end (ma_vpn_range c) = get_end (ma_vpn_range b);
  jn_disjoint : ma_data_frames b ##ₘ ma_data_frames a;
  jn_frames : ma_data_frames c = ma_data_frames b ∪ ma_data_frames a
}.

Lemma joins_vpns a b c : joins a b c → range_ok (ma_vpn_range a) → range_ok (ma_vpn_range b) →
  range_ok (ma_vpn_range c) ∧ area_vpns c = area_vpns a ++ area_vpns b.
Proof.
  intros [_ _ Hs Hm He _ _]. destruct a as [[[x] [y]] ? ? ?], b as [[[y'] [z]] ? ? ?], c as [[[x'] [z']] ? ? ?].
  unfold range_ok, area_vpns. cbn [ma_vpn_range get_start get_end vpn_0] in *. injection Hs as ->. injection Hm as <-. injection He as ->.
  intros Ha Hb. split; [lia|]. rewrite !VPNRange_vpns_eq, <- fmap_app by lia. f_equal.
  replace (z - x) with ((y - x) + (z - y)) by lia. rewrite seqZ_app by lia. do 2 f_equal. lia.
Qed.

Lemma map_to_list_disj_union {A} (m1 m2 : gmap VirtPageNum A) : m1 ##ₘ m2 → map_to_list (m1 ∪ m2) ≡ₚ map_to_list m1 ++ map_to_list m2.
Proof.
  induction m1 as [|v x m Hv IH] using map_ind; intros Hd; [by rewrite map_to_list_empty, map_empty_union|].
  apply map_disjoint_insert_l in Hd as [Hv2 Hd]. rewrite <- insert_union_l, !map_to_list_insert; [|done|by apply lookup_union_None].
  cbn [app]. by rewrite IH.
Qed.

Lemma joins_frames a b c : joins a b c → area_frames c ≡ₚ area_frames a ++ area_frames b.
Proof.
  intros [_ _ _ _ _ Hd Hf]. unfold area_frames. rewrite Hf, map_to_list_disj_union by done. rewrite !fmap_app. apply Permutation_app_comm.
Qed.

Lemma joins_pages a b c v e : joins a b c →
  area_pages c !! v = Some e ↔ area_pages a !! v = Some e ∨ area_pages b !! v = Some e.
Proof.
  intros [(Ta & Tb & Tc) [Pa Pb] _ _ _ Hd Hf]. unfold area_pages. rewrite Ta, Tb, Tc, Pa, Pb, Hf, map_fmap_union.
  rewrite lookup_union_Some by (by apply map_disjoint_fmap). tauto.
Qed.

Lemma joins_ok a b c : joins a b c → area_ok a → area_ok b → area_ok c.
Proof.
  intros Hj (Ra & Pa & Fa) (Rb & Pb & Fb). destruct (joins_vpns _ _ _ Hj Ra Rb) as [Rc Vc].
  destruct Hj as [(Ta & Tb & Tc) [Ea Eb] _ _ _ Hd Hf]. rewrite Ta in Fa. rewrite Tb in Fb. destruct Fa as [Da Na], Fb as [Db Nb].
  split; [done|]. split; [by rewrite <- Ea|]. rewrite Tc, Hf, Vc, dom_union_L, Da, Db, list_to_set_app_L. split; [set_solver|].
  intros v f [Hv|Hv]%lookup_union_Some; [by eapply Nb|by eapply Na|done].
Qed.

(** Cutting an area in two. *)
Lemma joins_split a b c : joins a b c → range_ok (ma_vpn_range a) → range_ok (ma_vpn_range b) → area_ok c →
  dom (ma_data_frames a) = list_to_set (area_vpns a) → dom (ma_data_frames b) = list_to_set (area_vpns b) → area_ok a ∧ area_ok b.
Proof.
  intros [(Ta & Tb & Tc) [Ea Eb] _ _ _ Hd Hf] Ra Rb (_ & Pc & Fc) Da Db. rewrite Tc in Fc. destruct Fc as [_ Nc].
  unfold area_ok. rewrite Ta, Tb, Ea, Eb. split; (split; [done|]; split; [done|]; split; [done|]); intros v f Hv; apply (Nc v); rewrite Hf.
  - by apply lookup_union_Some_r.
  - by apply lookup_union_Some_l.
Qed.

(** Only the pages and frames of the areas matter, not how they are cut. *)
Lemma ms_inv_areas l r s pt as1 as2 σ0 σ :
  ms_inv l r s (MkMemorySet pt as1) σ0 σ → Forall area_ok as2 → as2 ≫= area_vpns ≡ₚ as1 ≫= area_vpns →
  as2 ≫= area_frames ≡ₚ as1 ≫= area_frames →
  (∀ v e, (∃ a, a ∈ as2 ∧ area_pages a !! v = Some e) ↔ ∃ a, a ∈ as1 ∧ area_pages a !! v = Some e) →
  ms_inv l r s (MkMemorySet pt as2) σ0 σ.
Proof.
  intros [Hpt Hview Hok Hv Hf Hn Hl] Hok2 Ev Ef Ep. unfold ms_vpns, ms_frames in *. cbn [ms_areas ms_page_table] in *.
  split; unfold ms_vpns, ms_frames; cbn [ms_areas ms_page_table]; [done| |done| | | |].
  - intros v e. by rewrite Hview, Ep.
  - by rewrite Ev.
  - intros v. rewrite Ev. apply Hf.
  - by rewrite Ef.
  - intros x. rewrite Ef. apply Hl.
Qed.

Lemma ms_inv_perm l r s pt as1 as2 σ0 σ : ms_inv l r s (MkMemorySet pt as1) σ0 σ → as2 ≡ₚ as1 → ms_inv l r s (MkMemorySet pt as2) σ0 σ.
Proof.
  intros Hi Hp. eapply ms_inv_areas; [exact Hi|rewrite Hp; apply Hi|by rewrite Hp..|]. intros v e. by setoid_rewrite Hp.
Qed.

Lemma ms_inv_join l r s pt before a b c after σ0 σ : joins a b c → area_ok a → area_ok b →
  ms_inv l r s (MkMemorySet pt (before ++ a :: b :: after)) σ0 σ ↔ area_ok c ∧ ms_inv l r s (MkMemorySet pt (before ++ c :: after)) σ0 σ.
Proof.
  intros Hj Ha Hb. destruct (joins_vpns _ _ _ Hj (proj1 Ha) (proj1 Hb)) as [_ Vc]. pose proof (joins_frames _ _ _ Hj) as Fc.
  assert (∀ v e, (∃ x, x ∈ before ++ c :: after ∧ area_pages x !! v = Some e) ↔ ∃ x, x ∈ before ++ a :: b :: after ∧ area_pages x !! v = Some e) as Hp.
  { intros v e. setoid_rewrite elem_of_app. setoid_rewrite elem_of_cons. setoid_rewrite elem_of_cons. pose proof (joins_pages _ _ _ v e Hj) as Hjp. split.
    - intros (x & [?|[->|?]] & Hx); [eauto 6| |eauto 6]. apply Hjp in Hx as [?|?]; eauto 6.
    - intros (x & [?|[->|[->|?]]] & Hx); [eauto 6|exists c; rewrite Hjp; auto..|eauto 6]. }
  split.
  - intros Hi. pose proof (mi_areas _ _ _ _ _ _ Hi) as (Ok1 & Ok2)%Forall_app. cbn [ms_areas] in *.
    apply Forall_cons in Ok2 as [_ [_ Ok2]%Forall_cons]. pose proof (joins_ok _ _ _ Hj Ha Hb) as Hc. split; [done|].
    eapply ms_inv_areas; [exact Hi|by rewrite Forall_app, Forall_cons|..|done];
      rewrite !bind_app, !bind_cons, ?Vc, ?Fc, <- ?app_assoc; done.
  - intros [Hc Hi]. pose proof (mi_areas _ _ _ _ _ _ Hi) as (Ok1 & Ok2)%Forall_app. cbn [ms_areas] in *.
    apply Forall_cons in Ok2 as [_ Ok2]. eapply ms_inv_areas; [exact Hi|by rewrite Forall_app, !Forall_cons|..|done];
      rewrite !bind_app, !bind_cons, ?Vc, ?Fc, <- ?app_assoc; done.
Qed.

(** * The heap area *)

Definition page_up (x : Z) : Z := (x + 4095) / 4096.

(** The pages that lie in the heap when the break is [hi] but not when it is [lo]. *)
Definition heap_pages (lo hi : Z) : list VirtPageNum := MkVirtPageNum <$> seqZ (page_up lo) (page_up hi - page_up lo).

(** The first area at the page of [bottom] is the heap: writable user pages up to the break. *)
Definition heap_ok (ms : MemorySet) (bottom brk : Z) : Prop :=
  bottom mod 4096 = 0 ∧ 0 < bottom ≤ brk ∧ brk ≤ 2 ^ 38 ∧
  ∃ before heap after, find_area (MkVirtPageNum (bottom / 4096)) [] (ms_areas ms) = Some (before, heap, after) ∧
    ma_map_type heap = Framed ∧ ma_map_perm heap = 0x16 ∧ get_end (ma_vpn_range heap) = MkVirtPageNum (page_up brk).

Lemma elem_heap_pages lo hi v : v ∈ heap_pages lo hi ↔ page_up lo ≤ vpn_0 v < page_up hi.
Proof.
  unfold heap_pages. rewrite list_elem_of_fmap. setoid_rewrite elem_of_seqZ. destruct v as [v]. cbn [vpn_0]. split.
  - intros (y & [= ->] & Hy). lia.
  - intros Hv. exists v. split; [done|lia].
Qed.

Lemma range_new x y : x ≤ y → SimpleRange_new (MkVirtPageNum x) (MkVirtPageNum y) = Ok (MkSimpleRange (MkVirtPageNum x) (MkVirtPageNum y)).
Proof. intros H. unfold SimpleRange_new, mbind, res_bind, le_b, VirtPageNum_ord. cbn [vpn_0]. by rewrite bool_decide_true. Qed.

Lemma page_up_le x y : x ≤ y → page_up x ≤ page_up y.
Proof. unfold page_up. lia. Qed.

Lemma heap_pages_range lo hi : 0 ≤ lo ≤ hi → hi ≤ 2 ^ 38 →
  VPNRange_vpns (MkSimpleRange (MkVirtPageNum (page_up lo)) (MkVirtPageNum (page_up hi))) = heap_pages lo hi ∧
  NoDup (heap_pages lo hi) ∧ Forall vpn_ok (heap_pages lo hi) ∧ 0 ≤ page_up lo ≤ page_up hi ∧ page_up hi ≤ 2 ^ 26.
Proof.
  intros Hlo Hhi. assert (0 ≤ page_up lo ≤ page_up hi ∧ page_up hi ≤ 2 ^ 26) as Hb by (unfold page_up; lia).
  split; [by apply VPNRange_vpns_eq; lia|]. split; [apply NoDup_fmap_2; [intros ?? [=]; done|apply NoDup_seqZ]|].
  split; [|done]. apply Forall_forall. intros v Hv%elem_heap_pages. unfold vpn_ok. lia.
Qed.

Lemma find_area_inv start as' : ∀ acc b a after, find_area start acc as' = Some (b, a, after) →
  ∃ b', b = acc ++ b' ∧ as' = b' ++ a :: after ∧ get_start (ma_vpn_range a) = start ∧ Forall (λ x, get_start (ma_vpn_range x) ≠ start) b'.
Proof.
  induction as' as [|x as' IH]; intros acc b a after H; cbn [find_area] in H; [done|]. case_decide as Hs.
  - injection H as <- <- <-. exists []. by rewrite app_nil_r.
  - apply IH in H as (b' & -> & -> & Ha & Hb). exists (x :: b'). rewrite <- app_assoc. split; [done|]. split; [done|]. split; [done|].
    by apply Forall_cons.
Qed.

(** Opening [heap_ok]: the areas around the heap, and how to close it again. *)
Lemma heap_ok_open ms bottom brk : heap_ok ms bottom brk →
  ∃ before heap after, find_area (VirtAddr_floor (MkVirtAddr bottom)) [] (ms_areas ms) = Some (before, heap, after) ∧
    ms_areas ms = before ++ heap :: after ∧ ma_map_type heap = Framed ∧ ma_map_perm heap = 0x16 ∧
    ma_vpn_range heap = MkSimpleRange (MkVirtPageNum (bottom / 4096)) (MkVirtPageNum (page_up brk)) ∧
    ∀ pt heap' brk', bottom ≤ brk' ≤ 2 ^ 38 → same_shape heap' (set_vpn_range heap (MkSimpleRange (MkVirtPageNum (bottom / 4096)) (MkVirtPageNum (page_up brk')))) →
      heap_ok (MkMemorySet pt (before ++ heap' :: after)) bottom brk'.
Proof.
  intros (Hb & Hlo & Hhi & before & heap & after & Hf & Ht & Hp & He). pose proof Hf as (b' & E & Has & Hs & Hne)%find_area_inv.
  cbn [app] in E. subst b'. exists before, heap, after. unfold VirtAddr_floor, PAGE_SIZE. cbn [va_0]. change 0x1000 with 4096.
  split; [done|]. split; [done|]. split; [done|]. split; [done|]. split; [destruct heap as [[] ? ? ?]; cbn in *; by subst|].
  intros pt heap' brk' Hbrk (Hr & Ht' & Hp'). cbn in Hr, Ht', Hp'. split; [done|]. split; [lia|]. split; [lia|].
  exists before, heap', after. cbn [ms_areas]. rewrite Ht', Hp', Hr. split; [|done]. apply (find_area_at before []); [by rewrite Hr|done].
Qed.

(** Mapping the pages of a range beside a framed area of a space, as pages of that area:
    the new pages form an area [b] of their own. *)
Lemma map_beside l r s ms σ0 σ heap rg : ms_inv l r s ms σ0 σ → heap ∈ ms_areas ms → ma_map_type heap = Framed → range_ok rg →
  (∀ v, v ∈ VPNRange_vpns rg → σ !! v = None) → 3 * len (VPNRange_vpns rg) ≤ sfa_avail (mm_fa s) →
  ∃ b pt' s' new d, MapArea_map_vpns heap (ms_page_table ms) (VPNRange_vpns rg) s =
      Ok ((set_data_frames heap (ma_data_frames b ∪ ma_data_frames heap), pt'), s') ∧
    area_ok b ∧ same_shape b (MkMapArea rg ∅ Framed (ma_map_perm heap)) ∧ ma_data_frames b ##ₘ ma_data_frames heap ∧
    ms_inv l r s' (MkMemorySet pt' (vec_push (ms_areas ms) b)) σ0 (area_pages b ∪ σ) ∧
    mm_step l r s s' new d ∧ (∀ x, x ∈ d → x ∈ new ∨ x ∈ frame_nums (frames (ms_page_table ms))) ∧
    map_Forall (λ _ f, zeroed (mm_mem s') (ft_ppn f)) (ma_data_frames b).
Proof.
  intros Hi Hin Ht Hrg Hnone Hav. pose proof (proj1 (Forall_forall _ _) (mi_areas _ _ _ _ _ _ Hi) heap Hin) as (_ & Hp & Hfh).
  rewrite Ht in Hfh. set (b0 := MkMapArea rg ∅ Framed (ma_map_perm heap)). destruct (area_vpns_ok b0 Hrg) as (Hnd & Hvok & _).
  assert (∀ v, v ∈ VPNRange_vpns rg → ma_data_frames heap !! v = None) as Hdf.
  { intros v Hv. apply not_elem_of_dom. rewrite (proj1 Hfh), elem_of_list_to_set. intros Hv'.
    destruct (area_pages_σ l r s ms σ0 σ heap v Hi Hin Hv') as [e He]. by rewrite (Hnone v Hv) in He. }
  destruct (map_vpns_framed l r (VPNRange_vpns rg) s heap (ms_page_table ms) σ) as (fs & pt' & s' & new & Hm & Hlen & Href & Hfr & _ & Hst & Hall);
    [apply Hi|done..|].
  destruct (fresh_area_ok b0 fs (λ f, zeroed (mm_mem s') (ft_ppn f))) as (Hokb & Hpgb & Hfsb & Hz); [done..|].
  change (area_vpns b0) with (VPNRange_vpns rg) in *. change (ma_map_perm b0) with (ma_map_perm heap) in Hpgb. rewrite <- Hpgb in Href.
  exists (set_data_frames b0 (vpn_map (VPNRange_vpns rg) fs)), pt', s', ((frame_num <$> fs) ++ new), ((frame_num <$> fs) ++ frame_nums (frames pt')).
  split; [exact Hm|]. split; [done|]. split; [done|]. split.
  { apply map_disjoint_spec. intros v f g Hf Hg. rewrite Hdf in Hg; [done|]. by apply elem_of_list_to_map_2, elem_of_zip_l in Hf. }
  split; [|split; [done|split; [rewrite Hfr; clear; set_solver|done]]].
  eapply (ms_inv_add l r s ms σ0 σ s' pt' _ new); [done|done|done|done|done|]. eapply mm_step_perm; [exact Hst|]. by rewrite Hfsb.
Qed.

Section Brk.
Context (l r : Z) (s : MM) (ms : MemorySet) (σ0 σ : page_map) (bottom brk : Z).
Context (Hi : ms_inv l r s ms σ0 σ) (Hh : heap_ok ms bottom brk).

(** What [append_to] does to the space. *)
Lemma append_to_ok brk' : brk ≤ brk' ≤ 2 ^ 38 → (∀ v, v ∈ heap_pages brk brk' → σ !! v = None) →
  3 * len (heap_pages brk brk') ≤ sfa_avail (mm_fa s) →
  ∃ ms' s' σ' new d, MemorySet_append_to ms (MkVirtAddr bottom) (MkVirtAddr brk') s = Ok ((true, ms'), s') ∧
    ms_inv l r s' ms' σ0 σ' ∧ heap_ok ms' bottom brk' ∧ (∀ v, is_Some (σ' !! v) ↔ v ∈ heap_pages brk brk' ∨ is_Some (σ !! v)) ∧
    mm_step l r s s' new d ∧ (∀ x, x ∈ d → x ∈ new ∨ x ∈ frame_nums (frames (ms_page_table ms))) ∧
    (∀ v, v ∈ heap_pages brk brk' → user_page (mm_mem s') ms' v = Some (replicate 4096 0) ∧ user_flags (mm_mem s') ms' v = Some 0x17) ∧
    ∀ a v, a ∈ ms_areas ms → ma_map_type a = Framed → v ∈ area_vpns a →
      user_page (mm_mem s') ms' v = user_page (mm_mem s) ms v ∧ user_flags (mm_mem s') ms' v = user_flags (mm_mem s) ms v.
Proof using All.
  intros Hbrk Hnone Hav. pose proof Hh as (_ & Hbot & _ & _). destruct (heap_ok_open _ _ _ Hh) as (before & heap & after & Hfind & Has & Ht & Hp & Hrg & Hclose).
  destruct (heap_pages_range brk brk') as (Hvs & Hnd & Hvok & Hpu & Hpb); [lia..|].
  set (rg := MkSimpleRange (MkVirtPageNum (page_up brk)) (MkVirtPageNum (page_up brk'))) in *.
  assert (heap ∈ ms_areas ms) as Hin by (rewrite Has; apply elem_of_app; right; apply list_elem_of_here).
  pose proof (proj1 (Forall_forall _ _) (mi_areas _ _ _ _ _ _ Hi) heap Hin) as Hok.
  destruct (map_beside l r s ms σ0 σ heap rg Hi Hin Ht) as (b & pt' & s' & new & d & Hm & Hokb & (Rb & Tb & Pb) & Hdis & Hi' & Hst & Hd & Hz);
    [unfold range_ok; cbn; lia|by rewrite Hvs..|].
  assert (area_vpns b = heap_pages brk brk') as Hvb by (unfold area_vpns; by rewrite Rb).
  set (heap' := set_vpn_range (set_data_frames heap (ma_data_frames b ∪ ma_data_frames heap))
    (MkSimpleRange (MkVirtPageNum (bottom / 4096)) (MkVirtPageNum (page_up brk')))).
  assert (joins heap b heap') as Hj by (split; rewrite ?Rb, ?Hrg; done).
  assert (ms_inv l r s' (MkMemorySet pt' (before ++ heap' :: after)) σ0 (area_pages b ∪ σ)) as Hi2.
  { apply (ms_inv_join l r s' pt' before heap b heap' after σ0 _ Hj Hok Hokb). eapply ms_inv_perm; [exact Hi'|]. unfold vec_push.
    rewrite Has. rewrite <- app_assoc. apply Permutation_app_head. cbn [app]. apply perm_skip. by rewrite Permutation_cons_append. }
  exists (MkMemorySet pt' (before ++ heap' :: after)), s', (area_pages b ∪ σ), new, d. split.
  { unfold MemorySet_append_to. rewrite Hfind. erewrite (bind_Ok _ _ _ (heap', pt') s'); [reflexivity|].
    unfold MapArea_append_to. rewrite Hrg, VirtAddr_ceil_eq by lia. cbn [get_start get_end]. fold (page_up brk').
    erewrite bind_Ok by (unfold lift; by rewrite range_new by lia). fold rg. erewrite bind_Ok by exact Hm. cbn [ma_vpn_range set_data_frames].
    rewrite Hrg. cbn [get_start]. erewrite bind_Ok by (unfold lift; by rewrite range_new by (unfold page_up; lia)). reflexivity. }
  split; [exact Hi2|]. split; [by apply Hclose; [lia|]|].
  split; [intros v; by rewrite lookup_union_is_Some, <- (area_pages_dom b v Hokb), Hvb|].
  split; [exact Hst|]. split; [exact Hd|]. split.
  - intros v Hv. rewrite <- Hvb in Hv. replace 0x17 with (Z.lor (ma_map_perm b) PTEFlags_V) by (rewrite Pb; cbn; by rewrite Hp).
    eapply (user_page_fresh l r s' _ σ0 _ b v Hi'); [unfold vec_push; cbn; set_solver|done|done|exact Hz].
  - intros a v Ha Hta Hv. eapply (kept_page l r s s' _ d ms σ0 σ _ σ0 _ a v Hi Hi' Hst Hd Ha); [|done|done]. unfold vec_push. cbn. set_solver.
Qed.
(** A page in the way of the heap stops the kernel. *)
Lemma append_to_conflict brk' v : brk ≤ brk' ≤ 2 ^ 38 → v ∈ heap_pages brk brk' → is_Some (σ !! v) →
  3 * len (heap_pages brk brk') ≤ sfa_avail (mm_fa s) → MemorySet_append_to ms (MkVirtAddr bottom) (MkVirtAddr brk') s = Err Panic.
Proof using All.
  intros Hbrk Hv Hs Hav. pose proof Hh as (_ & Hbot & _ & _). destruct (heap_ok_open _ _ _ Hh) as (before & heap & after & Hfind & Has & Ht & Hp & Hrg & _).
  destruct (heap_pages_range brk brk') as (Hvs & Hnd & Hvok & Hpu & Hpb); [lia..|].
  assert (heap ∈ ms_areas ms) as Hin by (rewrite Has; apply elem_of_app; right; apply list_elem_of_here).
  pose proof (proj1 (Forall_forall _ _) (mi_areas _ _ _ _ _ _ Hi) heap Hin) as (Hr & Hpm & Hdom). rewrite Ht in Hdom.
  assert (MapArea_append_to heap (ms_page_table ms) (VirtAddr_ceil (MkVirtAddr brk')) s = Err Panic) as Herr.
  { unfold MapArea_append_to. rewrite Hrg, VirtAddr_ceil_eq by lia. cbn [get_start get_end]. fold (page_up brk').
    erewrite bind_Ok by (unfold lift; by rewrite range_new by lia). rewrite Hvs. apply bind_Err.
    apply (map_vpns_conflict l r (heap_pages brk brk') s heap (ms_page_table ms) σ v); [apply Hi|done..| |done].
    intros w Hw%elem_heap_pages. apply not_elem_of_dom. rewrite (proj1 Hdom), elem_of_list_to_set. unfold area_vpns. rewrite Hrg.
    rewrite elem_of_VPNRange_vpns by (unfold page_up in *; lia). lia. }
  unfold MemorySet_append_to. rewrite Hfind. by apply bind_Err.
Qed.

(** Cutting the heap at a lower break. *)
Lemma heap_split heap area' brk' : bottom ≤ brk' ≤ brk → area_ok heap → ma_map_type heap = Framed → ma_map_perm heap = 0x16 →
  ma_vpn_range heap = MkSimpleRange (MkVirtPageNum (bottom / 4096)) (MkVirtPageNum (page_up brk)) → same_shape area' heap →
  (∀ v, ma_data_frames area' !! v = if decide (v ∈ heap_pages brk' brk) then None else ma_data_frames heap !! v) →
  let a := set_vpn_range area' (MkSimpleRange (MkVirtPageNum (bottom / 4096)) (MkVirtPageNum (page_up brk'))) in
  ∃ b, joins a b heap ∧ area_ok a ∧ area_ok b ∧ area_vpns b = heap_pages brk' brk.
Proof using Hh.
  intros Hbrk Hok Ht Hp Hrg (_ & Ht' & Hp') Hdf. cbv zeta. pose proof Hh as (_ & Hbot & Hhi & _). pose proof Hok as (_ & _ & Hdom). rewrite Ht in Hdom.
  destruct Hdom as [Hdom _]. destruct (heap_pages_range brk' brk) as (Hvs & _ & _ & Hpu & Hpb); [lia..|].
  set (a := set_vpn_range area' _). set (rg := MkSimpleRange (MkVirtPageNum (page_up brk')) (MkVirtPageNum (page_up brk))) in *.
  set (b := MkMapArea rg (filter (λ p, p.1 ∈ heap_pages brk' brk) (ma_data_frames heap)) Framed 0x16).
  assert (bottom / 4096 ≤ page_up brk') as Hbp by (unfold page_up; lia).
  assert (∀ v, v ∈ area_vpns heap ↔ bottom / 4096 ≤ vpn_0 v < page_up brk) as Hvh.
  { intros v. unfold area_vpns. rewrite Hrg. apply elem_of_VPNRange_vpns; lia. }
  assert (∀ v, ma_data_frames b !! v = if decide (v ∈ heap_pages brk' brk) then ma_data_frames heap !! v else None) as Hdb.
  { intros v. cbn [ma_data_frames b]. rewrite map_lookup_filter. destruct (ma_data_frames heap !! v); cbn; [|by case_decide].
    case_decide as Hv; [by rewrite option_guard_True|by rewrite option_guard_False]. }
  assert (joins a b heap) as Hj.
  { split; [cbn; by rewrite Ht'|cbn; by rewrite Hp', Hp|by rewrite Hrg|done|by rewrite Hrg| |].
    - apply map_disjoint_spec. intros v f g. rewrite Hdb. cbn. rewrite Hdf. by case_decide.
    - apply map_eq. intros v. rewrite lookup_union, Hdb. cbn [ma_data_frames a set_vpn_range]. rewrite Hdf. case_decide; by destruct (ma_data_frames heap !! v). }
  exists b. split; [done|]. assert (area_ok a ∧ area_ok b) as [? ?]; [|by split; [|split; [|exact Hvs]]].
  apply (joins_split a b heap Hj); [unfold range_ok; cbn; lia..|done| |]; apply set_eq; intros v;
    rewrite elem_of_dom, elem_of_list_to_set.
  - cbn [ma_data_frames a set_vpn_range]. rewrite Hdf. unfold area_vpns. cbn [ma_vpn_range a set_vpn_range]. rewrite elem_of_VPNRange_vpns by lia.
    case_decide as Hv; rewrite elem_heap_pages in Hv; [split; [by intros []|lia]|]. rewrite <- elem_of_dom, Hdom, elem_of_list_to_set, Hvh. lia.
  - rewrite Hdb. change (area_vpns b) with (VPNRange_vpns rg). rewrite Hvs. case_decide as Hv; [|by split; [intros []|]].
    split; [done|]. intros _. rewrite <- elem_of_dom, Hdom, elem_of_list_to_set, Hvh. apply elem_heap_pages in Hv. lia.
Qed.

(** What [shrink_to] does to the space. *)
Lemma shrink_to_ok brk' : bottom ≤ brk' ≤ brk →
  ∃ ms' s' σ' gone, MemorySet_shrink_to ms (MkVirtAddr bottom) (MkVirtAddr brk') s = Ok ((true, ms'), s') ∧
    ms_inv l r s' ms' σ0 σ' ∧ heap_ok ms' bottom brk' ∧ (∀ v, σ' !! v = if decide (v ∈ heap_pages brk' brk) then None else σ !! v) ∧
    mm_free l r s s' gone (frame_nums (frames (ms_page_table ms))) ∧ len gone = len (heap_pages brk' brk) ∧
    (∀ x, x ∈ gone → x ∈ ms_frames ms) ∧
    ∀ a v, a ∈ ms_areas ms → ma_map_type a = Framed → v ∈ area_vpns a → v ∉ heap_pages brk' brk →
      user_page (mm_mem s') ms' v = user_page (mm_mem s) ms v.
Proof using All.
  intros Hbrk. pose proof Hh as (_ & Hbot & Hhi & _). destruct (heap_ok_open _ _ _ Hh) as (before & heap & after & Hfind & Has & Ht & Hp & Hrg & Hclose).
  destruct (heap_pages_range brk' brk) as (Hvs & Hnd & Hvok & Hpu & Hpb); [lia..|].
  assert (heap ∈ ms_areas ms) as Hin by (rewrite Has; apply elem_of_app; right; apply list_elem_of_here).
  pose proof (proj1 (Forall_forall _ _) (mi_areas _ _ _ _ _ _ Hi) heap Hin) as Hok. pose proof Hok as (_ & _ & Hdom). rewrite Ht in Hdom. destruct Hdom as [Hdom _].
  assert (∀ v, v ∈ heap_pages brk' brk → v ∈ area_vpns heap) as Hsub.
  { intros v Hv%elem_heap_pages. unfold area_vpns. rewrite Hrg. apply elem_of_VPNRange_vpns; unfold page_up in *; lia. }
  destruct (unmap_vpns_framed l r (heap_pages brk' brk) s heap (ms_page_table ms) σ) as (area' & s' & σ' & gone & Hu & Hsh & Hdf & Hσ' & Href & _ & Hperm & Hfree);
    [apply Hi|done..|intros v Hv; eapply (area_pages_σ l r); eauto|intros v Hv; rewrite Hdom, elem_of_list_to_set; eauto|by eapply ms_owns|].
  destruct (heap_split heap area' brk') as (b & Hj & Hoka & Hokb & Hvb); [done..|].
  set (a := set_vpn_range area' _) in *. pose proof (joins_frames _ _ _ Hj) as Hjf.
  assert (gone ≡ₚ area_frames b) as Hg.
  { rewrite Hperm in Hjf. change (area_frames a) with (area_frames area') in Hjf. rewrite (Permutation_app_comm gone) in Hjf. by apply Permutation_app_inv_l in Hjf. }
  assert (ms_inv l r s (MkMemorySet (ms_page_table ms) ((before ++ [a]) ++ b :: after)) σ0 σ) as Hi1.
  { rewrite <- app_assoc. apply (ms_inv_join l r s (ms_page_table ms) before a b heap after σ0 σ Hj Hoka Hokb). split; [done|]. rewrite <- Has. by destruct ms. }
  assert (ms_inv l r s' (MkMemorySet (ms_page_table ms) ((before ++ [a]) ++ after)) σ0 σ') as Hi2.
  { eapply (ms_inv_remove l r s _ σ0 σ (before ++ [a]) b after s' σ' Hi1); [done|intros v; by rewrite Hvb|done|by eapply mm_free_perm]. }
  exists (MkMemorySet (ms_page_table ms) (before ++ a :: after)), s', σ', gone. rewrite <- app_assoc in Hi2. split.
  { unfold MemorySet_shrink_to. rewrite Hfind. erewrite (bind_Ok _ _ _ a s'); [reflexivity|].
    unfold MapArea_shrink_to. rewrite Hrg, VirtAddr_ceil_eq by lia. cbn [get_start get_end]. fold (page_up brk').
    erewrite bind_Ok by (unfold lift; by rewrite range_new by lia). rewrite Hvs. erewrite bind_Ok by exact Hu. rewrite (proj1 Hsh), Hrg. cbn [get_start].
    erewrite bind_Ok by (unfold lift; by rewrite range_new by (unfold page_up; lia)). reflexivity. }
  split; [exact Hi2|]. split; [apply Hclose; [lia|]; destruct Hsh as (_ & ? & ?); by split|]. split; [exact Hσ'|]. split; [exact Hfree|].
  split; [by rewrite Hg, length_area_frames, Hvb by (done || apply Hj)|].
  split; [intros x Hx; eapply area_frames_ms; [exact Hin|]; rewrite Hperm; apply elem_of_app; by left|].
  intros x v Hx Htx Hv Hnv. rewrite Has in Hx.
  assert (∃ y, y ∈ before ++ a :: after ∧ ma_map_type y = Framed ∧ v ∈ area_vpns y) as (y & Hy & Hty & Hvy).
  { apply elem_of_app in Hx as [Hx|[->|Hx]%elem_of_cons]; [exists x; set_solver| |exists x; set_solver]. exists a. split; [set_solver|]. split; [apply Hj|].
    destruct (joins_vpns _ _ _ Hj (proj1 Hoka) (proj1 Hokb)) as [_ E]. rewrite E, Hvb in Hv. by apply elem_of_app in Hv as [?|?]. }
  eapply (kept_page_free l r s s' gone _ σ0 σ _ σ0 σ' y v Hi1 Hi2 Hfree); [|done|done|done]. cbn. set_solver.
Qed.
End Brk.

(** The heap of a program that was just loaded is empty and starts above its stack. *)
Lemma program_heap l r ks elf elf_data phs s s' ms σ : elf_ok elf_data elf phs → program_space l r ks elf_data phs s s' ms σ →
  heap_ok ms (4096 * (last_end 0 (loads phs) + 3)) (4096 * (last_end 0 (loads phs) + 3)).
Proof.
  intros He Hps. pose proof (last_end_range _ _ (eo_segs _ _ _ He)) as HE. destruct (ps_heap _ _ _ _ _ _ _ _ _ Hps) as (before & heap & after & Hf & Ht & Hp & Hend).
  set (E := last_end 0 (loads phs)) in *. split; [apply Z.mod_divide; [done|]; exists (E + 3); lia|]. split; [lia|]. split; [lia|].
  exists before, heap, after. unfold page_up. replace (4096 * (E + 3) / 4096) with (E + 3) by lia. replace ((4096 * (E + 3) + 4095) / 4096) with (E + 3) by lia. done.
Qed.

(** * Properties *)

Section Sbrk.
Context {D : Type} `{BlockDevice D}.

Lemma signed_small x : -2 ^ 63 ≤ x < 2 ^ 63 → signed 64 x = x.
Proof.
  intros Hx. unfold signed, wrap. change (2 ^ (64 - 1)) with (2 ^ 63). destruct (decide (x < 0)) as [Hn|Hn].
  - replace (x `mod` 2 ^ 64) with (x + 2 ^ 64) by (apply (Z.mod_unique_pos x (2 ^ 64) (-1)); lia). rewrite decide_False by lia. lia.
  - rewrite Z.mod_small, decide_True by lia. done.
Qed.

(** The process [t] with its break moved. *)
Definition moved (k : Kernel D) (t : Z) (b : TaskControlBlock) (ms : MemorySet) (brk : Z) (s : MM) : Kernel D :=
  set_tcbs (set_mm k s) (<[t := set_program_brk (set_memory_set b ms) brk]> (k_tcbs k)).

Lemma change_brk_run (k : Kernel D) t b size ms' s' :
  k_tcbs k !! t = Some b → 0 ≤ tcb_heap_bottom b ≤ 2 ^ 38 → 0 ≤ tcb_program_brk b ≤ 2 ^ 38 → -2 ^ 31 ≤ size < 2 ^ 31 →
  tcb_heap_bottom b ≤ tcb_program_brk b + size →
  (if decide (size < 0) then MemorySet_shrink_to (tcb_memory_set b) (MkVirtAddr (tcb_heap_bottom b)) (MkVirtAddr (tcb_program_brk b + size)) (k_mm k)
   else MemorySet_append_to (tcb_memory_set b) (MkVirtAddr (tcb_heap_bottom b)) (MkVirtAddr (tcb_program_brk b + size)) (k_mm k)) = Ok ((true, ms'), s') →
  TaskControlBlock_change_program_brk t size k = Ok (Some (tcb_program_brk b), moved k t b ms' (tcb_program_brk b + size) s').
Proof.
  intros Ht Hb Hp Hs Hle Hrun. unfold TaskControlBlock_change_program_brk. erewrite bind_Ok by (unfold get_tcb; by rewrite Ht). cbv zeta.
  rewrite (signed_small (tcb_program_brk b)), !signed_small by lia. rewrite wrap_small by (unfold fits; lia). rewrite decide_False by lia.
  erewrite (bind_Ok _ _ _ (true, ms') (set_mm k s')); [reflexivity|]. case_decide; unfold on_mm; by rewrite Hrun.
Qed.

Lemma change_brk_below (k : Kernel D) t b size : k_tcbs k !! t = Some b → 0 ≤ tcb_heap_bottom b ≤ 2 ^ 38 → 0 ≤ tcb_program_brk b ≤ 2 ^ 38 →
  -2 ^ 31 ≤ size < 2 ^ 31 → tcb_program_brk b + size < tcb_heap_bottom b → TaskControlBlock_change_program_brk t size k = Ok (None, k).
Proof.
  intros Ht Hb Hp Hs Hlt. unfold TaskControlBlock_change_program_brk. erewrite bind_Ok by (unfold get_tcb; by rewrite Ht). cbv zeta.
  rewrite (signed_small (tcb_program_brk b)), !signed_small by lia. by rewrite decide_True by lia.
Qed.

Lemma current_tcb_run (k : Kernel D) t b : k_current k = Some t → k_tcbs k !! t = Some b → current_tcb k = Ok ((t, b), k).
Proof.
  intros Hc Ht. unfold current_tcb, current_task, gets. erewrite bind_Ok by reflexivity. erewrite bind_Ok by (unfold lift; by rewrite Hc).
  erewrite bind_Ok by (unfold get_tcb; by rewrite Ht). done.
Qed.

Lemma sys_sbrk_panics (k : Kernel D) t b size : k_current k = Some t → k_tcbs k !! t = Some b → 0 ≤ tcb_heap_bottom b ≤ 2 ^ 38 →
  0 ≤ tcb_program_brk b ≤ 2 ^ 38 → 0 ≤ size < 2 ^ 31 → tcb_heap_bottom b ≤ tcb_program_brk b →
  MemorySet_append_to (tcb_memory_set b) (MkVirtAddr (tcb_heap_bottom b)) (MkVirtAddr (tcb_program_brk b + size)) (k_mm k) = Err Panic →
  sys_sbrk size k = Err Panic.
Proof.
  intros Hc Ht Hb Hp Hs Hle Herr. unfold sys_sbrk. rewrite (bind_Ok _ _ _ _ _ (current_tcb_run k t b Hc Ht)). apply bind_Err.
  unfold TaskControlBlock_change_program_brk. erewrite bind_Ok by (unfold get_tcb; by rewrite Ht). cbv zeta.
  rewrite (signed_small (tcb_program_brk b)), !signed_small by lia. rewrite wrap_small by (unfold fits; lia). rewrite !decide_False by lia.
  apply bind_Err. unfold on_mm. by rewrite Herr.
Qed.

Lemma sys_sbrk_run (k : Kernel D) t b size o k' : k_current k = Some t → k_tcbs k !! t = Some b →
  TaskControlBlock_change_program_brk t size k = Ok (o, k') →
  sys_sbrk size k = Ok (match o with Some old_brk => signed 64 old_brk | None => -1 end, k').
Proof.
  intros Hc Ht Hrun. unfold sys_sbrk. rewrite (bind_Ok _ _ _ _ _ (current_tcb_run k t b Hc Ht)).
  rewrite (bind_Ok _ _ _ _ _ Hrun). by destruct o.
Qed.
End Sbrk.

(** C16: [sbrk] moves the break of the running process.  A break below the bottom of the heap
    is refused and nothing changes.  Lowering the break unmaps exactly the pages above the
    new one and frees one frame for each, raising it maps exactly the pages up to the new
    one, zeroed, writable and owned by the process alone; both answer the old break, keep
    every other page of the process, and leave a heap that ends at the new break, so calls
    can follow each other.  Raising the break over a page that is mapped already, for
    instance by [mmap], stops the kernel. *)
Theorem sbrk_moves_break {D : Type} `{BlockDevice D} (l r : Z) (k : Kernel D) (t : Z) (b : TaskControlBlock) (σ0 σ : page_map) (size : Z)
    (Hc : k_current k = Some t) (Ht : k_tcbs k !! t = Some b) (Hi : ms_inv l r (k_mm k) (tcb_memory_set b) σ0 σ)
    (Hh : heap_ok (tcb_memory_set b) (tcb_heap_bottom b) (tcb_program_brk b)) (Hs : -2 ^ 31 ≤ size < 2 ^ 31)
    (Hmax : tcb_program_brk b + size ≤ 2 ^ 38) :
  let brk := tcb_program_brk b in let brk' := brk + size in
  let kept ms' s' P := ∀ a v, a ∈ ms_areas (tcb_memory_set b) → ma_map_type a = Framed → v ∈ area_vpns a → P v →
    user_page (mm_mem s') ms' v = user_page (mm_mem (k_mm k)) (tcb_memory_set b) v in
  (brk' < tcb_heap_bottom b → sys_sbrk size k = Ok (-1, k)) ∧
  (size < 0 → tcb_heap_bottom b ≤ brk' → ∃ ms' s' σ' gone, sys_sbrk size k = Ok (brk, moved k t b ms' brk' s') ∧
    ms_inv l r s' ms' σ0 σ' ∧ heap_ok ms' (tcb_heap_bottom b) brk' ∧
    (∀ v, σ' !! v = if decide (v ∈ heap_pages brk' brk) then None else σ !! v) ∧
    len gone = len (heap_pages brk' brk) ∧ (∀ x, sfa_live l (mm_fa s') x ↔ sfa_live l (mm_fa (k_mm k)) x ∧ x ∉ gone) ∧
    kept ms' s' (λ v, v ∉ heap_pages brk' brk)) ∧
  (0 ≤ size → 3 * len (heap_pages brk brk') ≤ sfa_avail (mm_fa (k_mm k)) →
    ((∀ v, v ∈ heap_pages brk brk' → σ !! v = None) → ∃ ms' s' σ', sys_sbrk size k = Ok (brk, moved k t b ms' brk' s') ∧
      ms_inv l r s' ms' σ0 σ' ∧ heap_ok ms' (tcb_heap_bottom b) brk' ∧
      (∀ v, is_Some (σ' !! v) ↔ v ∈ heap_pages brk brk' ∨ is_Some (σ !! v)) ∧
      (∀ v, v ∈ heap_pages brk brk' → user_page (mm_mem s') ms' v = Some (replicate 4096 0) ∧ user_flags (mm_mem s') ms' v = Some 0x17) ∧
      kept ms' s' (λ _, True)) ∧
    (∀ v, v ∈ heap_pages brk brk' → is_Some (σ !! v) → sys_sbrk size k = Err Panic)).
Proof.
  cbv zeta. pose proof Hh as (_ & Hbot & Hbrk & _).
  split; [intros Hlt; apply (sys_sbrk_run k t b size None k Hc Ht); by apply (change_brk_below k t b); [|lia..]|]. split.
  - intros Hneg Hle. destruct (shrink_to_ok l r _ _ _ _ _ _ Hi Hh (tcb_program_brk b + size)) as (ms' & s' & σ' & gone & Hrun & Hi' & Hh' & Hσ & Hfree & Hlen & _ & Hk); [lia|].
    exists ms', s', σ', gone. split; [|split; [done|split; [done|split; [done|split; [done|split; [apply Hfree|done]]]]]].
    rewrite (sys_sbrk_run k t b size (Some (tcb_program_brk b)) (moved k t b ms' (tcb_program_brk b + size) s') Hc Ht); [by rewrite signed_small by lia|].
    apply change_brk_run; [done|lia..|]. by rewrite decide_True.
  - intros Hpos Hav. split.
    + intros Hn. destruct (append_to_ok l r _ _ _ _ _ _ Hi Hh (tcb_program_brk b + size)) as (ms' & s' & σ' & new & d & Hrun & Hi' & Hh' & Hσ & _ & _ & Hz & Hk); [lia|done|done|].
      exists ms', s', σ'. split; [|split; [done|split; [done|split; [done|split; [done|intros a v Ha Hta Hv _; by apply (Hk a)]]]]].
      rewrite (sys_sbrk_run k t b size (Some (tcb_program_brk b)) (moved k t b ms' (tcb_program_brk b + size) s') Hc Ht); [by rewrite signed_small by lia|].
      apply change_brk_run; [done|lia..|]. by rewrite decide_False by lia.
    + intros v Hv Hm. apply (sys_sbrk_panics k t b size Hc Ht); [lia..|]. by apply (append_to_conflict l r _ _ σ0 σ _ _ Hi Hh _ v); [lia|..].
Qed.

(** The program of [ElfLoad] asks for 5000 bytes, then gives 4096 back. *)
Lemma sbrk_moves_break_witness : ∃ s us ms s' ms2 s2,
  let k := demo_running s us (demo_process (MkFrameTracker (MkPhysPageNum 0)) us) in
  let k' := moved k 3 (demo_process (MkFrameTracker (MkPhysPageNum 0)) us) ms 0x16388 s' in
  sys_sbrk 5000 k = Ok (0x15000, k') ∧ user_page (mm_mem s') ms (MkVirtPageNum 0x16) = Some (replicate 4096 0) ∧
  sys_sbrk (-4096) k' = Ok (0x16388, moved k' 3 (set_program_brk (set_memory_set (demo_process (MkFrameTracker (MkPhysPageNum 0)) us) ms) 0x16388) ms2 0x15388 s2).
Proof.
  assert (3 * len (loads demo_phs ≫= seg_pages) + 12 = 18) as Hlen by (rewrite demo_loads; vm_compute; reflexivity).
  destruct (from_elf_ok 0x80300 0x88000 demo_ks (λ _, Some demo_elf) demo_elf_data demo_elf demo_phs demo_mm) as (us & s & σ & _ & Hps);
    [exact demo_mm_ok|exact demo_ks_ok|reflexivity|exact demo_elf_ok|rewrite Hlen; vm_compute; discriminate|].
  pose proof (program_heap _ _ _ _ _ _ _ _ _ _ demo_elf_ok Hps) as Hheap. pose proof (ps_inv _ _ _ _ _ _ _ _ _ Hps) as Hi.
  destruct (ps_step _ _ _ _ _ _ _ _ _ Hps) as (new & d & Hst & _ & _ & Hl). pose proof (mm_avail _ _ _ _ _ _ Hst) as Hav.
  change (sfa_avail (mm_fa demo_mm)) with 0x7d00 in Hav. assert (last_end 0 (loads demo_phs) = 18) as HE by (by rewrite demo_loads).
  rewrite HE in Hheap.
  set (b := demo_process (MkFrameTracker (MkPhysPageNum 0)) us). set (k := demo_running s us b).
  destruct (sbrk_moves_break 0x80300 0x88000 k 3 b {[ trampoline_vpn := trampoline_entry demo_ks ]} σ 5000) as (_ & _ & Hgrow).
  1: reflexivity. 1: apply lookup_singleton_eq. 1: exact Hi. 1: exact Hheap. 1: lia. 1: cbn; lia.
  destruct Hgrow as [Hgrow _]; [lia|change (3 * 2 ≤ sfa_avail (mm_fa s)); lia|].
  destruct Hgrow as (ms & s' & σ' & Hrun & Hi' & Hh' & _ & Hz & _).
  { intros v Hv. destruct (σ !! v) eqn:Hs; [exfalso|done]. apply elem_heap_pages in Hv. change (21 ≤ vpn_0 v < 23) in Hv.
    assert (vpn_ok v) as Hvo by (unfold vpn_ok; lia). destruct (proj1 (ps_pages _ _ _ _ _ _ _ _ _ Hps v Hvo)) as [Hp|[Hp|[->| ->]]]; [by eexists| | |cbn in Hv; lia..].
    - apply (seg_below _ _ _ _ demo_elf_ok) in Hp. rewrite HE in Hp. lia.
    - apply elem_stack_pages in Hp. rewrite HE in Hp. lia. }
  destruct (sbrk_moves_break 0x80300 0x88000 (moved k 3 b ms 0x16388 s') 3 (set_program_brk (set_memory_set b ms) 0x16388) {[ trampoline_vpn := trampoline_entry demo_ks ]} σ' (-4096)) as (_ & Hshrink & _).
  1: reflexivity. 1: apply lookup_insert_eq. 1: exact Hi'. 1: exact Hh'. 1: lia. 1: cbn; lia.
  destruct Hshrink as (ms2 & s2 & σ2 & gone & Hrun2 & _); [lia|cbn; lia|].
  exists s, us, ms, s', ms2, s2. split; [exact Hrun|]. split; [|exact Hrun2]. apply Hz. apply elem_heap_pages. by vm_compute.
Defined.
