(* ===== verification/FileCalls.v ===== *)
(** Reading and writing files from a program: [sys_read] and [sys_write]
    (os/src/syscall/fs.rs) on an open file, from the virtual memory of the caller to the
    contents of the file and back. *)

From S2P Require Import Prelude Config Address Allocator FrameAllocator TaskId PhysMem PageTable PageTableSpec UserMem MemorySet MemorySetSpec AddressSpace.
From S2P Require Import ElfLoad KernelSpace BlockDev BlockCache BlockAccess Bitmap Layout InodeTree InodeData Efs Vfs FsRep VfsSpec FsModel FsBoot Kernel Machine MachineSpec.
From S2P Require Import OsFile OsFileSpec Process Syscall ProcSpec ProcInv TaskSpec ForkExec BrkSpec.

Ltac Zify.zify_post_hook ::= Z.to_euclidean_division_equations.

(** * Buffers of a program *)

(** The [n] bytes at [ptr] are in framed areas of the space, in the lower half. *)
Definition user_framed (ms : MemorySet) (ptr n : Z) : Prop :=
  user_range ptr n ∧ ∀ x, ptr ≤ x < ptr + n →
    ∃ a, a ∈ ms_areas ms ∧ ma_map_type a = Framed ∧ MkVirtPageNum (x / 4096) ∈ area_vpns a.

Lemma slices_user_bytes m σ bufs ptr n : bufs ≫= slice_addrs = user_pa σ <$> seqZ ptr n →
  slices_bytes m bufs = user_bytes m σ ptr n.
Proof.
  intros E. unfold user_bytes. rewrite (list_fmap_compose (user_pa σ) (read_u8 m)), <- E. clear. unfold slices_bytes.
  induction bufs as [|sl bufs IH]; [done|]. cbn [mbind list_bind] in *. by rewrite fmap_app, IH.
Qed.

Lemma length_user_bytes m σ ptr n : 0 ≤ n → len (user_bytes m σ ptr n) = n.
Proof. intros Hn. unfold user_bytes. rewrite length_fmap, length_seqZ. lia. Qed.

Section Buffer.
Context (l r : Z) (s : MM) (ms : MemorySet) (σ0 σ : page_map) (Hi : ms_inv l r s ms σ0 σ).

Lemma framed_pa ptr n x : user_framed ms ptr n → ptr ≤ x < ptr + n →
  ∃ a f, a ∈ ms_areas ms ∧ ma_data_frames a !! MkVirtPageNum (x / 4096) = Some f ∧ user_pa σ x = frame_num f * 4096 + x mod 4096.
Proof using All.
  intros [_ Hf] Hx. destruct (Hf x Hx) as (a & Ha & Ht & Hv). destruct (framed_page l r _ _ _ _ _ _ Hi Ha Ht Hv) as (f & Hfr & _ & Hσ & _ & Hp & _).
  exists a, f. split; [done|]. split; [done|]. unfold user_pa. by rewrite Hσ, Hp.
Qed.

Lemma framed_mapped ptr n : user_framed ms ptr n → user_mapped σ ptr n.
Proof using All.
  intros [_ Hf] x Hx. destruct (Hf x Hx) as (a & Ha & Ht & Hv). by eapply (area_pages_σ l r).
Qed.

(** Different addresses of a buffer are different bytes of memory. *)
Lemma framed_nodup ptr n : user_framed ms ptr n → NoDup (user_pa σ <$> seqZ ptr n).
Proof using All.
  intros Hf. apply NoDup_fmap_2_strong; [|apply NoDup_seqZ]. intros x y Hx%elem_of_seqZ Hy%elem_of_seqZ E.
  destruct (framed_pa ptr n x Hf Hx) as (a & f & Ha & Hfa & Ex). destruct (framed_pa ptr n y Hf Hy) as (b & g & Hb & Hgb & Ey).
  rewrite Ex, Ey in E. assert (frame_num f = frame_num g ∧ x mod 4096 = y mod 4096) as [Efg Em] by lia.
  destruct (decide (x / 4096 = y / 4096)) as [Hd|Hd]; [lia|].
  exfalso. refine (frames_distinct l r _ _ _ _ a b _ _ f g Hi Ha Hb Hfa Hgb _ Efg). by intros [= ?].
Qed.

(** The pieces of the buffer. *)
Lemma user_buffer_ok ptr n : user_framed ms ptr n → ∃ bufs,
  translated_byte_buffer (mm_mem s) (MemorySet_token ms) ptr n = Ok bufs ∧ bufs ≫= slice_addrs = user_pa σ <$> seqZ ptr n ∧
  Forall (λ sl, 0 < sl_len sl) bufs ∧ (∀ m, slices_bytes m bufs = user_bytes m σ ptr n).
Proof using All.
  intros Hf. destruct (translated_byte_buffer_ok l r s (ms_page_table ms) σ (mi_pt _ _ _ _ _ _ Hi) ptr n (proj1 Hf) (framed_mapped ptr n Hf)) as (bufs & Hb & Ha & Hall).
  exists bufs. split; [done|]. split; [done|]. split; [eapply Forall_impl; [exact Hall|cbn; lia]|]. intros m. by apply slices_user_bytes.
Qed.
End Buffer.

(** * The calls *)

Section Calls.
Context {D : Type} `{BlockDevice D, !BlockDeviceLaws D} (l r : Z) (env : Env) (k : Kernel D) (t : Z) (b : TaskControlBlock) (σ0 σ : page_map).
Context (N u : Z) (a : afs) (fd f id : Z) (os : OSInode) (c : list Z) (ptr n : Z).
Context (Hcur : k_current k = Some t) (Ht : k_tcbs k !! t = Some b) (Hi : ms_inv l r (k_mm k) (tcb_memory_set b) σ0 σ).
Context (Hm : mounted N u a k) (Hfd : 0 ≤ fd) (Hfile : tcb_fd_table b !! Z.to_nat fd = Some (Some (OSFile f))).
Context (Hopen : open_at k f id os) (Hc : a_files a !! id = Some c) (Ho : 0 ≤ os_offset os) (Hn : 0 < n) (Hf : user_framed (tcb_memory_set b) ptr n).

Lemma fd_lookup : vec_get (tcb_fd_table b) fd = Ok (Some (OSFile f)) ∧ ¬ fd >= Z.of_nat (length (tcb_fd_table b)).
Proof using All.
  unfold vec_get. rewrite Hfile. split; [done|]. apply lookup_lt_Some in Hfile. lia.
Qed.

Lemma current_token_run : current_user_token k = Ok (MemorySet_token (tcb_memory_set b), k).
Proof using All. unfold current_user_token. by rewrite (bind_Ok _ _ _ _ _ (current_tcb_run k t b Hcur Ht)). Qed.

(** The calls up to the access check of the descriptor. *)
Lemma sys_write_eq : sys_write fd ptr n k =
  (if negb (os_writable os) then Ok (-1, k)
   else (m ← get_mem; bufs ← lift (translated_byte_buffer m (MemorySet_token (tcb_memory_set b)) ptr n);
         w ← OSInode_write f (UserBuffer_new bufs); mret (signed 64 w)) k).
Proof using All.
  destruct fd_lookup as [Hvec Hlt]. unfold sys_write.
  rewrite (bind_Ok _ _ _ _ _ current_token_run), (bind_Ok _ _ _ _ _ (current_tcb_run k t b Hcur Ht)). rewrite decide_False by done.
  erewrite bind_Ok by (unfold lift; by rewrite Hvec). cbn beta iota.
  erewrite bind_Ok by (cbn [File_writable]; erewrite bind_Ok by (unfold get_file; by rewrite (proj1 Hopen)); reflexivity). by destruct (os_writable os).
Qed.

Lemma sys_read_eq : sys_read env fd ptr n k =
  (if negb (os_readable os) then Ok (SysRet (-1), k)
   else (m ← get_mem; bufs ← lift (translated_byte_buffer m (MemorySet_token (tcb_memory_set b)) ptr n);
         File_read env (OSFile f) (UserBuffer_new bufs)) k).
Proof using All.
  destruct fd_lookup as [Hvec Hlt]. unfold sys_read.
  rewrite (bind_Ok _ _ _ _ _ current_token_run), (bind_Ok _ _ _ _ _ (current_tcb_run k t b Hcur Ht)). rewrite decide_False by done.
  erewrite bind_Ok by (unfold lift; by rewrite Hvec). cbn beta iota.
  erewrite bind_Ok by (cbn [File_readable]; erewrite bind_Ok by (unfold get_file; by rewrite (proj1 Hopen)); reflexivity). by destruct (os_readable os).
Qed.

Lemma sys_write_ok : os_writable os = true → os_offset os + n ≤ MAX_BLOCKS * 512 →
  u + growth (len c) (Z.max (len c) (os_offset os + n)) ≤ N →
  ∃ m, let k' := with_fs k m (<[f := set_offset os (os_offset os + n)]> (k_files k)) in
    sys_write fd ptr n k = Ok (n, k') ∧
    mounted N (u + growth (len c) (Z.max (len c) (os_offset os + n)))
      (MkAfs (a_dir a) (<[id := write_content c (os_offset os) (user_bytes (mm_mem (k_mm k)) σ ptr n)]> (a_files a))) k'.
Proof using All.
  intros Hw Hmax Hroom. destruct (user_buffer_ok l r _ _ _ _ Hi ptr n Hf) as (bufs & Hb & _ & Hpos & Hbytes).
  pose proof (length_user_bytes (mm_mem (k_mm k)) σ ptr n ltac:(lia)) as Hlen.
  destruct (OSInode_write_loop_ok N bufs a u k f id os c 0) as (m & Hrun & Hm1);
    [done|done|done|apply (mi_pt _ _ _ _ _ _ Hi)|done| |done|lia|rewrite Hbytes, Hlen; done|rewrite Hbytes, Hlen; unfold MAX_BLOCKS in *; lia|rewrite Hbytes, Hlen; done|].
  { right. intros ->. specialize (Hbytes (mm_mem (k_mm k))). cbn in Hbytes. rewrite <- Hbytes in Hlen. cbn in Hlen. lia. }
  rewrite Hbytes, Hlen in Hrun, Hm1. exists m. split; [|exact Hm1]. rewrite sys_write_eq, Hw. cbn [negb].
  erewrite bind_Ok by reflexivity. erewrite bind_Ok by (unfold lift; by rewrite Hb). erewrite bind_Ok by exact Hrun.
  rewrite Z.add_0_l, signed_small by (unfold MAX_BLOCKS in *; lia). done.
Qed.

Lemma sys_read_ok : os_readable os = true → os_offset os + n < 2 ^ 63 →
  let old := user_bytes (mm_mem (k_mm k)) σ ptr n in
  let got := Z.max 0 (Z.min n (len c - os_offset os)) in
  ∃ cm m', let k' := with_mem (with_fs k cm (<[f := set_offset os (os_offset os + got)]> (k_files k))) m' in
    sys_read env fd ptr n k = Ok (SysRet got, k') ∧ mounted N u a k' ∧
    user_bytes m' σ ptr n = slice c (os_offset os) got ++ drop (Z.to_nat got) old ∧
    ∀ y, y ∉ user_pa σ <$> seqZ ptr n → read_u8 m' y = read_u8 (mm_mem (k_mm k)) y.
Proof using All.
  intros Hrd Hmax. cbv zeta. destruct (user_buffer_ok l r _ _ _ _ Hi ptr n Hf) as (bufs & Hb & Ha & Hpos & Hbytes).
  pose proof (length_user_bytes (mm_mem (k_mm k)) σ ptr n ltac:(lia)) as Hlen.
  destruct (OSInode_read_loop_ok N u a id c bufs k f os 0) as (cm & m' & Hrun & Hm' & Hread & Hout);
    [done|done|done|done|rewrite Ha; by apply (framed_nodup l r _ _ _ _ Hi)|done|lia|rewrite Hbytes, Hlen; done|rewrite Hbytes, Hlen; lia|].
  rewrite !Hbytes, Hlen in *. rewrite Ha in Hout. exists cm, m'. split; [|done]. rewrite sys_read_eq, Hrd. cbn [negb].
  erewrite bind_Ok by reflexivity. erewrite bind_Ok by (unfold lift; by rewrite Hb). cbn [File_read UserBuffer_new].
  unfold OSInode_read. cbn [buffers]. erewrite bind_Ok by exact Hrun. done.
Qed.

Lemma sys_write_refused : os_writable os = false → sys_write fd ptr n k = Ok (-1, k).
Proof using All.
  intros Hw. by rewrite sys_write_eq, Hw.
Qed.

Lemma sys_read_refused : os_readable os = false → sys_read env fd ptr n k = Ok (SysRet (-1), k).
Proof using All.
  intros Hrd. by rewrite sys_read_eq, Hrd.
Qed.

(** C18: [sys_write] and [sys_read] move bytes between the virtual memory of the program
    and the contents of an open file, for a buffer anywhere in its mapped memory, page
    boundaries included.  A write splices the bytes of the buffer into the file at the
    offset of the descriptor and answers their number; memory does not change.  A read
    stores the bytes of the file from the offset on, up to the end of the file, at the
    start of the buffer, answers their number, and changes no other byte of memory and no
    file.  Both advance the offset by their answer; a descriptor that does not allow the
    access answers -1 and nothing changes. *)
Theorem file_calls_move_user_bytes :
  (if os_writable os then
    os_offset os + n ≤ MAX_BLOCKS * 512 → u + growth (len c) (Z.max (len c) (os_offset os + n)) ≤ N →
    ∃ m, let k' := with_fs k m (<[f := set_offset os (os_offset os + n)]> (k_files k)) in
      sys_write fd ptr n k = Ok (n, k') ∧
      mounted N (u + growth (len c) (Z.max (len c) (os_offset os + n)))
        (MkAfs (a_dir a) (<[id := write_content c (os_offset os) (user_bytes (mm_mem (k_mm k)) σ ptr n)]> (a_files a))) k'
   else sys_write fd ptr n k = Ok (-1, k)) ∧
  (if os_readable os then
    os_offset os + n < 2 ^ 63 →
    let old := user_bytes (mm_mem (k_mm k)) σ ptr n in
    let got := Z.max 0 (Z.min n (len c - os_offset os)) in
    ∃ cm m', let k' := with_mem (with_fs k cm (<[f := set_offset os (os_offset os + got)]> (k_files k))) m' in
      sys_read env fd ptr n k = Ok (SysRet got, k') ∧ mounted N u a k' ∧
      user_bytes m' σ ptr n = slice c (os_offset os) got ++ drop (Z.to_nat got) old ∧
      ∀ y, y ∉ user_pa σ <$> seqZ ptr n → read_u8 m' y = read_u8 (mm_mem (k_mm k)) y
   else sys_read env fd ptr n k = Ok (SysRet (-1), k)).
Proof using All.
  split.
  - destruct (os_writable os) eqn:Hw; [exact (sys_write_ok Hw)|exact (sys_write_refused Hw)].
  - destruct (os_readable os) eqn:Hrd; [exact (sys_read_ok Hrd)|exact (sys_read_refused Hrd)].
Qed.
End Calls.

(** * Witness

    A program with the file ["a"] of two bytes open, and a buffer across two pages. *)

Definition demo_reader (us : MemorySet) : TaskControlBlock :=
  set_fd_table (demo_process (MkFrameTracker (MkPhysPageNum 0)) us) [Some Stdin; Some (OSFile 1)].
Definition demo_io (m : BlockCacheManager BlockFile) (s : MM) (us : MemorySet) : Kernel BlockFile :=
  set_mm (set_tcbs (set_current (demo_os m) (Some 3)) {[3 := demo_reader us]}) s.

Lemma demo_buffer ms : (∀ ph, ph ∈ loads demo_phs → ∃ a, a ∈ ms_areas ms ∧ ma_map_type a = Framed ∧ area_vpns a = seg_pages ph) →
  user_framed ms 0x10ffe 5.
Proof.
  intros Ha. split; [by vm_compute|]. intros x Hx.
  destruct (Ha (MkProgramHeader (Some true) 0x10000 5000 0 4 true false true)) as (a & Hin & Ht & Hv); [rewrite demo_loads; set_solver|].
  exists a. split; [done|]. split; [done|]. rewrite Hv.
  assert (x / 4096 = 0x10 ∨ x / 4096 = 0x11) as [-> | ->] by lia; apply (bool_decide_unpack _); by vm_compute.
Qed.

Lemma file_calls_move_user_bytes_witness : ∃ m s us σ k1 k2,
  sys_write 1 0x10ffe 5 (demo_io m s us) = Ok (5, k1) ∧
  sys_read elf_env 1 0x10ffe 5 (demo_io m s us) = Ok (SysRet 2, k2) ∧
  user_bytes (mm_mem (k_mm k2)) σ 0x10ffe 5 = [104; 105] ++ drop 2 (user_bytes (mm_mem s) σ 0x10ffe 5).
Proof.
  assert (3 * len (loads demo_phs ≫= seg_pages) + 12 = 18) as Hlen by (rewrite demo_loads; vm_compute; reflexivity).
  destruct (from_elf_ok 0x80300 0x88000 demo_ks (λ _, Some demo_elf) demo_elf_data demo_elf demo_phs demo_mm) as (us & s & σ & _ & Hps);
    [exact demo_mm_ok|exact demo_ks_ok|reflexivity|exact demo_elf_ok|rewrite Hlen; vm_compute; discriminate|].
  destruct demo_os_mounted as (m & Hm).
  destruct (file_calls_move_user_bytes 0x80300 0x88000 elf_env (demo_io m s us) 3 (demo_reader us) {[ trampoline_vpn := trampoline_entry demo_ks ]} σ
    (mk_data 1040 1) 2 demo_fs1 1 1 1 (OSInode_new true true (inode_at demo_efs 1)) [104; 105] 0x10ffe 5) as [Hw Hr].
  - reflexivity.
  - apply lookup_singleton_eq.
  - exact (ps_inv _ _ _ _ _ _ _ _ _ Hps).
  - destruct Hm as [Hg Ht Hp]. exact (Build_mounted _ _ _ (demo_io m s us) Hg Ht Hp).
  - lia.
  - reflexivity.
  - exact (proj1 (demo_open m)).
  - apply lookup_insert_eq.
  - cbn. lia.
  - lia.
  - exact (demo_buffer us (ps_areas _ _ _ _ _ _ _ _ _ Hps)).
  - destruct Hw as (cm & Hrun & _); [unfold MAX_BLOCKS; cbn; lia|vm_compute; discriminate|].
    destruct Hr as (cm' & m' & Hrun' & _ & Hd & _); [cbn; lia|].
    exists m, s, us, σ. eexists _, _. split; [exact Hrun|]. split; [exact Hrun'|]. exact Hd.
Defined.
