(* ===== verification/SpawnSpec.v ===== *)
(** Spawning: the process that [spawn] makes (os/src/task/task.rs, [TaskControlBlock::spawn]).

    The child has a fresh address space, like that of [TaskControlBlock::new], and is linked
    to its parent, like that of [fork]. *)

From S2P Require Import Prelude Config Address Allocator FrameAllocator TaskId PhysMem PageTable PageTableSpec UserMem MemorySet MemorySetSpec AddressSpace.
From S2P Require Import ElfLoad KernelSpace BlockDev BlockCache BlockAccess Bitmap Layout Efs Vfs Kernel Machine MachineSpec OsFile Process Syscall ProcSpec ProcInv TaskSpec ForkExec BrkSpec.

Ltac Zify.zify_post_hook ::= Z.to_euclidean_division_equations.

Section Spawn.
Context {D : Type} `{BlockDevice D} (l r : Z) (env : Env) (k : Kernel D) (t : Z) (b : TaskControlBlock) (σ0 σ : page_map).
Context (elf_data : list Z) (elf : ElfFile) (phs : list ProgramHeader) (pid id : Z) (pa a : RecycleAllocator).
Context (Henv : env_ok env) (Hi : ms_inv l r (k_mm k) (k_space k) σ0 σ).
Context (H0 : σ0 !! trampoline_vpn = Some (trampoline_entry (env_symbols env))).
Context (Hσ : σ !! trampoline_vpn = Some (trampoline_entry (env_symbols env))).
Context (Hnew : env_elf_new env elf_data = Some elf) (Helf : elf_ok elf_data elf phs) (Hent : fits 64 (elf_entry_point elf)).
Context (Hpid : RecycleAllocator_alloc (k_pids k) = (pid, pa)).
Context (Hkst : RecycleAllocator_alloc (k_kstacks k) = (id, a)) (Hid : 0 ≤ id < 2 ^ 20).
Context (Hfree : ∀ v, v ∈ kstack_pages id → σ !! v = None).
Context (Hav : 3 * len (loads phs ≫= seg_pages) + 18 ≤ sfa_avail (mm_fa (k_mm k))).
Context (Ht : k_tcbs k !! t = Some b) (Hc : k_tcbs k !! k_next_tcb k = None).

Abbreviation user_sp := (4096 * (last_end 0 (loads phs) + 3)).

(** The kernel stack pointer is written a second time, with the value it has. *)
Lemma spawn_cx_written f us space s2 : trap_ready l r s2 (env_symbols env) us space f →
  let cx := TrapContext_app_init_context (env_sstatus env) (elf_entry_point elf) user_sp (MemorySet_token space) (KernelStack_get_top id) (env_trap_handler env) in
  let m := set_cx_word (set_trap_cx (mm_mem s2) (ft_ppn f) cx) (ft_ppn f) CX_KERNEL_SP (KernelStack_get_top id) in
  mem_wf m ∧ (∀ y, y / 4096 ≠ frame_num f → read_u8 m y = read_u8 (mm_mem s2) y) ∧
  ∀ (i : nat) w, TrapContext_words cx !! i = Some w → cx_word m (ft_ppn f) (Z.of_nat i) = w.
Proof using All.
  intros Htr2. destruct (first_cx_written l r env k σ0 σ elf_data elf phs pid id pa a Henv Hi H0 Hσ Hnew Helf Hent Hkst Hid Hfree Hav f us space s2 Htr2) as (Hwf & Hout & Hwords).
  cbv zeta in *. set (cx := TrapContext_app_init_context _ _ _ _ _ _) in *.
  destruct (set_cx_word_ok (set_trap_cx (mm_mem s2) (ft_ppn f) cx) f CX_KERNEL_SP (KernelStack_get_top id)) as (Hwf1 & Hout1 & Hset1 & Hoth1);
    [done|by eapply (trap_ready_frame l r)|by compute| |].
  { unfold KernelStack_get_top. destruct (kstack_position_addr id Hid) as (-> & _). unfold fits. cbn. lia. }
  split; [done|]. split; [intros y Hy; by rewrite Hout1, Hout|]. intros i w Hw. destruct (decide (Z.of_nat i = CX_KERNEL_SP)) as [E|E].
  - rewrite E, Hset1. assert (i = 35%nat) as -> by (unfold CX_KERNEL_SP in E; lia). by injection Hw.
  - rewrite Hoth1 by done. by apply Hwords.
Qed.

(** The child, and the state with it. *)
Definition spawn_child (us : MemorySet) (f : FrameTracker) (info : TaskInfo) : TaskControlBlock :=
  MkTcb pid id (ft_ppn f) user_sp (TaskContext_goto_trap_return (env_trap_return env) (KernelStack_get_top id)) Ready us (Some t) [] 0
    (tcb_fd_table b) (tcb_heap_bottom b) (tcb_program_brk b) info 0 16.
Definition spawned (b' : TaskControlBlock) (s : MM) (space : MemorySet) : Kernel D :=
  set_tcbs (set_next_tcb (created k pa a s space) (k_next_tcb k + 1))
    (<[t := set_children b (tcb_children b ++ [k_next_tcb k])]> (<[k_next_tcb k := b']> (k_tcbs k))).

Lemma TaskInfo_new_run (k' : Kernel D) : ∃ info, TaskInfo_new env k' = Ok (info, set_times k' (S (k_times k'))).
Proof using Type. eexists. reflexivity. Qed.

(** The run, given what its steps on the memory return. *)
Lemma spawn_run us s1 f space s2 : MemorySet_from_elf (env_symbols env) (env_elf_new env) elf_data (k_mm k) = Ok ((us, user_sp, elf_entry_point elf), s1) →
  trap_ready l r s1 (env_symbols env) us (k_space k) f →
  kstack_alloc (set_pids (set_mm k s1) pa) = Ok (id, set_space (set_mm (set_kstacks (set_pids (set_mm k s1) pa) a) s2) space) →
  let cx := TrapContext_app_init_context (env_sstatus env) (elf_entry_point elf) user_sp (MemorySet_token space) (KernelStack_get_top id) (env_trap_handler env) in
  let m := set_cx_word (set_trap_cx (mm_mem s2) (ft_ppn f) cx) (ft_ppn f) CX_KERNEL_SP (KernelStack_get_top id) in
  ∃ info, TaskControlBlock_spawn env t elf_data k = Ok (k_next_tcb k, spawned (spawn_child us f info) (MkMM m (mm_fa s2)) space).
Proof using Ht Hc Hpid.
  intros Hrun1 Htr1 Hrun2. assert (k_next_tcb k ≠ t) as Hne by congruence.
  destruct (TaskInfo_new_run (set_space (set_mm (set_kstacks (set_pids (set_mm k s1) pa) a) s2) space)) as [info Hinfo]. exists info.
  unfold TaskControlBlock_spawn.
  erewrite bind_Ok by (unfold get_tcb; by rewrite Ht). erewrite bind_Ok by (unfold on_mm; by rewrite Hrun1). cbn beta iota.
  erewrite bind_Ok by (eapply (trap_cx_ppn_ok l r (set_mm k s1)); exact Htr1).
  erewrite bind_Ok by (unfold pid_alloc; cbn [k_pids set_mm]; rewrite Hpid; reflexivity).
  erewrite bind_Ok by exact Hrun2. cbv zeta. erewrite bind_Ok by exact Hinfo. erewrite bind_Ok by reflexivity. erewrite bind_Ok by reflexivity.
  erewrite bind_Ok. 2: { unfold push_child, get_tcb. erewrite bind_Ok; [reflexivity|]. cbn. by rewrite lookup_insert_ne, Ht by done. }
  erewrite bind_Ok by reflexivity. reflexivity.
Qed.

Lemma spawn_ok : ∃ b' k' σ' new d, TaskControlBlock_spawn env t elf_data k = Ok (k_next_tcb k, k') ∧
  k_tcbs k' = <[t := set_children b (tcb_children b ++ [k_next_tcb k])]> (<[k_next_tcb k := b']> (k_tcbs k)) ∧
  runnable l r env k' b' elf_data phs (elf_entry_point elf) ∧ skel b' = MkSkeleton pid id Ready (Some t) [] ∧
  tcb_fd_table b' = tcb_fd_table b ∧ tcb_heap_bottom b' = tcb_heap_bottom b ∧ tcb_program_brk b' = tcb_program_brk b ∧
  heap_ok (tcb_memory_set b') user_sp user_sp ∧
  ms_inv l r (k_mm k') (k_space k') σ0 σ' ∧ (∀ v, v ∉ kstack_pages id → σ' !! v = σ !! v) ∧
  MemorySet_token (k_space k') = MemorySet_token (k_space k) ∧ (∀ x, x ∈ ms_frames (tcb_memory_set b') → x ∈ new) ∧
  mm_step l r (k_mm k) (k_mm k') new d ∧ (∀ x, x ∈ d → x ∈ new ∨ x ∈ frame_nums (frames (ms_page_table (k_space k)))).
Proof using All.
  destruct (new_task_memory l r env k σ0 σ elf_data elf phs pid id pa a Henv Hi H0 Hσ Hnew Helf Hent Hkst Hid Hfree Hav)
    as (us & s1 & f & space & s2 & σ2 & new & d & Hrun1 & Htr1 & Hrun2 & Htr2 & Hσ2 & Htok & Hfr & Hd & (σu & Hps) & Hm).
  destruct (spawn_cx_written f us space s2 Htr2) as (Hwf & Hout & Hwords). cbv zeta in *. set (m := set_cx_word _ _ _ _) in *.
  destruct (Hm m Hwf Hout) as (Htr3 & Hcode & Hstack & Hkst3 & Hi3 & Hst). destruct (spawn_run us s1 f space s2 Hrun1 Htr1 Hrun2) as (info & Hrun). fold m in Hrun.
  exists (spawn_child us f info), (spawned (spawn_child us f info) (MkMM m (mm_fa s2)) space), σ2, new, d. split; [exact Hrun|].
  clear Hrun. clearbody m. split; [reflexivity|]. split; [split; [split; [by exists f|done..]|done|done]|]. do 4 (split; [reflexivity|]).
  split; [exact (program_heap _ _ _ _ _ _ _ _ _ _ Helf Hps)|done].
Qed.
End Spawn.

(** A process none of whose areas starts at its [heap_bottom] has no heap. *)
Lemma sbrk_without_heap {D : Type} `{BlockDevice D} (k : Kernel D) t b size : k_current k = Some t → k_tcbs k !! t = Some b →
  Forall (λ a, get_start (ma_vpn_range a) ≠ VirtAddr_floor (MkVirtAddr (tcb_heap_bottom b))) (ms_areas (tcb_memory_set b)) →
  sys_sbrk size k = Ok (-1, k).
Proof.
  intros Hc Ht Hno. apply (sys_sbrk_run k t b size None k Hc Ht). unfold TaskControlBlock_change_program_brk.
  erewrite bind_Ok by (unfold get_tcb; by rewrite Ht). cbv zeta. case_decide; [done|].
  assert (∀ as' acc, Forall (λ a, get_start (ma_vpn_range a) ≠ VirtAddr_floor (MkVirtAddr (tcb_heap_bottom b))) as' →
    find_area (VirtAddr_floor (MkVirtAddr (tcb_heap_bottom b))) acc as' = None) as Hf.
  { induction as' as [|x as' IH]; intros acc Has; [done|]. apply Forall_cons in Has as [Hx Has]. cbn [find_area]. rewrite decide_False by done. by apply IH. }
  erewrite (bind_Ok _ _ _ (false, tcb_memory_set b) k).
  - unfold set_tcb, modify, mbind, M_bind. destruct k, b. cbn in *. unfold set_tcbs, set_memory_set. cbn. by rewrite insert_id.
  - case_decide; unfold on_mm, MemorySet_shrink_to, MemorySet_append_to; rewrite Hf by done; by destruct k.
Qed.

(** * Properties *)

(** C12: [spawn] makes a child that runs another program.  With the kernel's space intact, a
    free kernel stack slot and enough frames it succeeds: the child has the next pid and
    stack slot, is ready, is the last child of its parent and has the parent's files; no
    other block changes.  It has the program of the file on fresh frames, and the first
    return to it from the kernel starts the program at its entry point.  The memory in use,
    the parent's included, is not written.  The [heap_bottom] and [program_brk] of the
    child are the parent's, although the heap area of the child is above its own stack. *)
Theorem spawn_starts_child {D : Type} `{BlockDevice D} (l r : Z) (env : Env) (k : Kernel D) (t : Z) (b : TaskControlBlock) (σ0 σ : page_map)
    (elf_data : list Z) (elf : ElfFile) (phs : list ProgramHeader) (pid id : Z) (pa a : RecycleAllocator)
    (Henv : env_ok env) (Hi : ms_inv l r (k_mm k) (k_space k) σ0 σ)
    (H0 : σ0 !! trampoline_vpn = Some (trampoline_entry (env_symbols env)))
    (Hσ : σ !! trampoline_vpn = Some (trampoline_entry (env_symbols env)))
    (Hnew : env_elf_new env elf_data = Some elf) (Helf : elf_ok elf_data elf phs) (Hent : fits 64 (elf_entry_point elf))
    (Hpid : RecycleAllocator_alloc (k_pids k) = (pid, pa)) (Hkst : RecycleAllocator_alloc (k_kstacks k) = (id, a)) (Hid : 0 ≤ id < 2 ^ 20)
    (Hfree : ∀ v, v ∈ kstack_pages id → σ !! v = None)
    (Hav : 3 * len (loads phs ≫= seg_pages) + 18 ≤ sfa_avail (mm_fa (k_mm k)))
    (Ht : k_tcbs k !! t = Some b) (Hc : k_tcbs k !! k_next_tcb k = None) :
  let user_sp := 4096 * (last_end 0 (loads phs) + 3) in
  ∃ b' k' σ', TaskControlBlock_spawn env t elf_data k = Ok (k_next_tcb k, k') ∧
    k_tcbs k' = <[t := set_children b (tcb_children b ++ [k_next_tcb k])]> (<[k_next_tcb k := b']> (k_tcbs k)) ∧
    skel b' = MkSkeleton pid id Ready (Some t) [] ∧ tcb_fd_table b' = tcb_fd_table b ∧
    tcb_heap_bottom b' = tcb_heap_bottom b ∧ tcb_program_brk b' = tcb_program_brk b ∧ heap_ok (tcb_memory_set b') user_sp user_sp ∧
    runnable l r env k' b' elf_data phs (elf_entry_point elf) ∧
    ms_inv l r (k_mm k') (k_space k') σ0 σ' ∧ (∀ v, v ∉ kstack_pages id → σ' !! v = σ !! v) ∧
    (∀ cpu x y, length (c_x cpu) = 32%nat → c_satp cpu = MemorySet_token (k_space k) → ∃ cpu',
      run TRAMPOLINE (strampoline (env_symbols env)) restore (trap_return x y (MemorySet_token (tcb_memory_set b')) cpu) (mm_mem (k_mm k')) =
        Ok (cpu', mm_mem (k_mm k')) ∧ started env (tcb_memory_set b') (elf_entry_point elf) user_sp cpu') ∧
    (∀ x, x ∈ ms_frames (tcb_memory_set b') → ¬ sfa_live l (mm_fa (k_mm k)) x) ∧
    ∀ y, sfa_live l (mm_fa (k_mm k)) (y / 4096) → y / 4096 ∉ frame_nums (frames (ms_page_table (k_space k))) →
      read_u8 (mm_mem (k_mm k')) y = read_u8 (mm_mem (k_mm k)) y.
Proof.
  destruct (spawn_ok l r env k t b σ0 σ elf_data elf phs pid id pa a Henv Hi H0 Hσ Hnew Helf Hent Hpid Hkst Hid Hfree Hav Ht Hc)
    as (b' & k' & σ' & new & d & Hrun & Htc & Hrn & Hsk & Hfd & Hhb & Hpb & Hheap & Hi' & Hsame & Htok & Hfr & Hst & Hd).
  exists b', k', σ'. do 10 (split; [done|]). split; [|split].
  - intros cpu x y Hlen Hs. apply (program_starts l r _ _ _ elf_data); [apply Hrn|done|]. etrans; [exact Hs|]. symmetry. exact Htok.
  - intros x Hx. by apply (mm_fresh _ _ _ _ _ _ Hst), Hfr.
  - intros y Hl Hy. apply (mm_same _ _ _ _ _ _ Hst). intros [Hin|Hin]%Hd; [by apply (mm_fresh _ _ _ _ _ _ Hst _ Hin)|done].
Qed.

Lemma spawn_starts_child_witness : ∃ s space f us b' k' cpu',
  TaskControlBlock_spawn elf_env 3 demo_elf_data (demo_running s space (demo_process f us)) = Ok (4, k') ∧
  k_tcbs k' !! 4 = Some b' ∧ tcb_parent b' = Some 3 ∧
  run TRAMPOLINE 0x80200000 restore (trap_return 0 100 (MemorySet_token (tcb_memory_set b')) (demo_cpu (replicate 32 7) (MemorySet_token space)))
    (mm_mem (k_mm k')) = Ok (cpu', mm_mem (k_mm k')) ∧ c_pc cpu' = 0x10000.
Proof.
  destruct demo_forkable as (s & space & f & us & σ & Hfk & Hroom).
  destruct (spawn_starts_child 0x80300 0x88000 elf_env (demo_running s space (demo_process f us)) 3 (demo_process f us) _ σ demo_elf_data demo_elf demo_phs
    0 0 (snd (RecycleAllocator_alloc RecycleAllocator_new)) (snd (RecycleAllocator_alloc RecycleAllocator_new)) elf_env_ok (fk_kernel _ _ _ _ _ _ _ _ _ _ Hfk))
    as (b' & k' & σ' & Hrun & Et & Hsk & _ & _ & _ & _ & _ & _ & _ & Hstart & _).
  - exact (proj1 (fk_tramp _ _ _ _ _ _ _ _ _ _ Hfk)).
  - exact (proj2 (fk_tramp _ _ _ _ _ _ _ _ _ _ Hfk)).
  - reflexivity.
  - exact demo_elf_ok.
  - by compute.
  - reflexivity.
  - reflexivity.
  - lia.
  - exact (fk_free _ _ _ _ _ _ _ _ _ _ Hfk).
  - rewrite demo_loads. change (3 * 2 + 18 ≤ sfa_avail (mm_fa s)). lia.
  - exact (fk_task _ _ _ _ _ _ _ _ _ _ Hfk).
  - exact (fk_fresh _ _ _ _ _ _ _ _ _ _ Hfk).
  - destruct (Hstart (demo_cpu (replicate 32 7) (MemorySet_token space)) 0 100 eq_refl eq_refl) as (cpu' & Hr & Hst).
    exists s, space, f, us, b', k', cpu'. split; [exact Hrun|]. split; [rewrite Et; rewrite lookup_insert_ne by done; apply lookup_insert_eq|].
    split; [by injection Hsk|]. split; [exact Hr|exact (st_pc _ _ _ _ _ Hst)].
Defined.
