(* ===== verification/TrapSpec.v ===== *)
(** System calls at the boundary: what the dispatcher does with the number of a call
    (os/src/syscall/mod.rs, os/src/task/mod.rs [update_taskinfo]). *)

From S2P Require Import Prelude Config Address Allocator FrameAllocator TaskId PhysMem PageTable PageTableSpec UserMem MemorySet MemorySetSpec AddressSpace.
From S2P Require Import ElfLoad KernelSpace BlockDev BlockCache BlockAccess Bitmap Layout Efs Vfs Kernel Machine MachineSpec OsFile Process Syscall ProcSpec ProcInv TaskSpec ForkExec.

Ltac Zify.zify_post_hook ::= Z.to_euclidean_division_equations.

(** The numbers the dispatcher knows. *)
Definition known_calls : list Z := [56; 57; 37; 35; 63; 64; 80; 93; 124; 172; 220; 221; 260; 169; 410; 222; 215; 214; 400; 140].

(** The control block with one more call of [id] counted. *)
Definition counted (b : TaskControlBlock) (id : Z) : TaskControlBlock :=
  let info := tcb_task_info b in
  set_task_info b (MkTaskInfo (ti_status info)
    (<[Z.to_nat id := (default 0 (ti_syscall_times info !! Z.to_nat id) + 1)%u32]> (ti_syscall_times info)) (ti_time info)).

Section Calls.
Context {D : Type} `{BlockDevice D} (env : Env) (k : Kernel D) (t : Z) (b : TaskControlBlock).
Context (Hc : k_current k = Some t) (Ht : k_tcbs k !! t = Some b) (Hl : length (ti_syscall_times (tcb_task_info b)) = 500%nat).

Lemma update_taskinfo_run id : 0 ≤ id →
  update_taskinfo id k = if decide (id < MAX_SYSCALL_NUM) then Ok (0, set_tcbs k (<[t := counted b id]> (k_tcbs k))) else Err Panic.
Proof using All.
  intros Hid. unfold update_taskinfo, with_current. erewrite bind_Ok by reflexivity. rewrite Hc. erewrite bind_Ok by reflexivity.
  erewrite bind_Ok by (unfold get_tcb; cbn; by rewrite Ht). set (times := ti_syscall_times (tcb_task_info b)) in *. case_decide as Hlt; unfold MAX_SYSCALL_NUM in Hlt.
  - assert (vec_get times id = Ok (default 0 (times !! Z.to_nat id))) as Hget.
    { unfold vec_get. destruct (times !! Z.to_nat id) eqn:E; [done|]. apply lookup_ge_None in E. lia. }
    assert (∀ v, vec_set times id v = Ok (<[Z.to_nat id := v]> times)) as Hset by (intros v; unfold vec_set; by rewrite decide_True by lia).
    erewrite (bind_Ok _ _ _ (0, counted b id)).
    2: { unfold TaskControlBlockInner_update_taskinfo. cbv zeta. fold times. erewrite bind_Ok by (unfold lift; by rewrite Hget).
         erewrite bind_Ok by (unfold lift; by rewrite Hset). reflexivity. }
    erewrite bind_Ok by reflexivity. erewrite bind_Ok by reflexivity. destruct k. cbn in *. by rewrite Hc.
  - apply bind_Err. unfold TaskControlBlockInner_update_taskinfo. cbv zeta. fold times. apply bind_Err. unfold lift, vec_get.
    by rewrite (lookup_ge_None_2 times (Z.to_nat id)) by lia.
Qed.

Lemma unknown_call_run id a0 a1 a2 a3 : 0 ≤ id → id ∉ known_calls → syscall env id a0 a1 a2 a3 k = Err Panic.
Proof using All.
  intros Hid Hno. unfold syscall. pose proof (update_taskinfo_run id Hid) as Hrun. case_decide; [|by apply bind_Err].
  rewrite (bind_Ok _ _ _ _ _ Hrun). assert (∀ n, n ∈ known_calls → id ≠ n) as Hne by (intros n Hn ->; done).
  repeat match goal with |- context [match ?x with _ => _ end] => destruct x; try reflexivity end;
    (exfalso; eapply Hne; [|reflexivity]; by apply (bool_decide_unpack _); vm_compute).
Qed.
End Calls.

(** * Properties *)


Definition fresh_process : TaskControlBlock :=
  MkTcb 0 0 (MkPhysPageNum 0) 0 TaskContext_zero_init Running (MkMemorySet (MkPageTable (MkPhysPageNum 0) []) []) None [] 0 [] 0 0
    (MkTaskInfo Running (replicate 500 0) 0) 0 16.

