(* ===== verification/Boot.v ===== *)
(** Start-up ([os/src/main.rs], [mm::init], [trap::init], the lazy statics of the drivers
    and of the file system): from a machine with a packed disk image to the first
    instruction of the initial process. *)

From S2P Require Import Prelude Config Address Allocator FrameAllocator TaskId PhysMem PageTable PageTableSpec UserMem MemorySet MemorySetSpec AddressSpace.
From S2P Require Import ElfLoad KernelSpace BlockDev BlockCache BlockAccess Bitmap Layout InodeTree Efs Vfs FsRep VfsSpec FsModel FsBoot Kernel.
From S2P Require Import Machine MachineSpec OsFile OsFileSpec Pack Process Syscall ProcSpec ProcInv TaskSpec ProcProps.

Ltac Zify.zify_post_hook ::= Z.to_euclidean_division_equations.

(** * Memory *)

(** [from_raw_parts_mut(sbss, ebss - sbss).fill(0)] *)
Definition clear_bss (sbss ebss : Z) (m : memory) : memory := write_bytes m sbss (replicate (Z.to_nat (ebss - sbss)) 0).

(** [satp::write(token)] and [sfence.vma] *)
Definition MemorySet_activate (self : MemorySet) (cpu : Cpu) : Cpu := set_csr cpu Satp (MemorySet_token self).

(** [mm::init] without the heap: the frame allocator, then [KERNEL_SPACE] at its first use. *)
Definition mm_init (ks : KernelSymbols) (m : memory) (cpu : Cpu) : res (MemorySet * MM * Cpu) :=
  let fa := init_frame_allocator (ekernel ks) in
  '(space, s) ← MemorySet_new_kernel ks (MkMM m fa);
  mret (space, s, MemorySet_activate space cpu).

(** * Devices and the file system *)

(** [VirtIOBlock::new]: the driver crate asks [dma_alloc] for the pages of its queues;
    [reqs] are the sizes it asks for. *)
Fixpoint VirtIOBlock_new (reqs : list Z) (queue_frames : list FrameTracker) : M MM (list FrameTracker) :=
  match reqs with
  | [] => mret queue_frames
  | pages :: reqs' =>
      '(_, queue_frames) ← dma_alloc pages queue_frames;
      VirtIOBlock_new reqs' queue_frames
  end.

Section Boot.
Context {D : Type} `{BlockDevice D}.

(** The initialiser of [ROOT_INODE] on the device. *)
Definition mount : M (Kernel D) unit := λ k,
  match run_cached ROOT_INODE (k_cache k) with
  | Ok ((efs, root), c) =>
      Ok ((), MkKernel (k_mm k) (k_space k) (k_pids k) (k_kstacks k) (k_tcbs k) (k_next_tcb k) (k_konts k) (k_ready k) (k_current k)
                (k_initproc k) (k_files k) (k_next_file k) c efs root (k_times k) (k_chars k) (k_out k))
  | Err e => Err e
  end.

(** The first use of [ROOT_INODE], which is the first use of [BLOCK_DEVICE]. *)
Definition force_root_inode (reqs : list Z) : M (Kernel D) unit :=
  _ ← on_mm (VirtIOBlock_new reqs []);
  mount.

(** Lazy statics that are not forced yet hold a value nothing reads. *)
Definition uninit_efs : EasyFileSystem := MkEfs (Bitmap_new 0 0) (Bitmap_new 0 0) 0 0.
Definition uninit_root : Inode := MkInode 0 0.

(** [rust_main] up to the call of [run_tasks]: the names [list_apps] prints, the kernel and
    the processor. *)
Definition rust_main (env : Env) (sbss trap_from_kernel : Z) (reqs : list Z) (dev : D) (m : memory) (cpu : Cpu) :
    res (list (list Z) * Kernel D * Cpu) :=
  let ks := env_symbols env in
  let m := clear_bss sbss (ebss ks) m in
  '(space, s, cpu) ← mm_init ks m cpu;
  _ ← remap_test ks (mm_mem s) space;
  let cpu := trap_init trap_from_kernel cpu in
  let cpu := enable_timer_interrupt cpu in
  let start : M (Kernel D) (list (list Z)) :=
    _ ← set_next_trigger env;
    _ ← force_root_inode reqs;
    names ← list_apps;
    _ ← add_initproc env;
    mret names in
  '(names, k) ← start (boot_kernel s space 0 (BlockCacheManager_new dev) uninit_efs uninit_root);
  mret (names, k, cpu).
End Boot.

(** * Code that only allocates

    Before the first [frame_dealloc] nothing is recycled, so frames come in order. *)

Definition fresh_only {A} (p : M MM A) : Prop :=
  ∀ s a s', p s = Ok (a, s') → sfa_recycled (mm_fa s) = [] → sfa_recycled (mm_fa s') = [].

Lemma fo_bind {A B} (p : M MM A) (f : A → M MM B) : fresh_only p → (∀ a, fresh_only (f a)) → fresh_only (p ≫= f).
Proof. intros Hp Hf s b s' (a & s1 & H1 & H2)%bind_inv Hs. by eapply Hf, Hp. Qed.
Lemma fo_ret {A} (a : A) : fresh_only (mret a).
Proof. by intros s x s' [= _ <-]. Qed.
Lemma fo_lift {A} (x : res A) : fresh_only (lift x).
Proof. intros s a s'. unfold lift. destruct x; [|done]. by intros [= _ <-]. Qed.
Lemma fo_state : fresh_only get_state.
Proof. by intros s a s' [= _ <-]. Qed.
Lemma fo_write_pte x e : fresh_only (write_pte x e).
Proof. intros s a s'. unfold write_pte. by intros [= _ <-]. Qed.
Lemma fo_frame_alloc : fresh_only frame_alloc.
Proof.
  intros s a s'. unfold frame_alloc, StackFrameAllocator_alloc. intros Hr Hs. rewrite Hs in Hr.
  change (vec_pop (@nil Z)) with (@None (Z * list Z)) in Hr. cbn beta iota zeta in Hr. case_decide; injection Hr as _ <-; done.
Qed.

Ltac fresh_only := repeat first
  [ apply fo_bind; [|intros ?] | apply fo_ret | apply fo_lift | apply fo_state | apply fo_write_pte | apply fo_frame_alloc
  | match goal with |- fresh_only (let '(_, _) := ?x in _) => destruct x | |- fresh_only (if ?b then _ else _) => destruct b end ].

Lemma fo_map pt v p fl : fresh_only (PageTable_map pt v p fl).
Proof. unfold PageTable_map, PageTable_find_pte_create. fresh_only. Qed.

Lemma fo_map_identical vs : ∀ a pt, ma_map_type a = Identical → fresh_only (MapArea_map_vpns a pt vs).
Proof.
  induction vs as [|v vs IH]; intros a pt Ha; cbn [MapArea_map_vpns]; [fresh_only|]. unfold MapArea_map_one. rewrite Ha.
  intros s x s' ([a1 pt1] & s1 & H1 & H2)%bind_inv Hs. cbn beta iota in H2.
  apply bind_inv in H1 as ([p a2] & s2 & [= <- <- <-] & H1). cbn beta iota in H1.
  apply bind_inv in H1 as (fl & s3 & Hl & H1). apply bind_inv in H1 as (pt2 & s4 & H1 & H3). injection H3 as <- <- <-.
  eapply IH; [exact Ha|exact H2|]. eapply fo_map; [exact H1|]. by eapply fo_lift.
Qed.

Lemma fo_push_area ms x y perm : fresh_only (push_area ms x y Identical perm).
Proof.
  unfold push_area, MemorySet_push, MapArea_map. intros s a s' (na & s1 & H1 & H2)%bind_inv Hs.
  assert (ma_map_type na = Identical ∧ s1 = s) as [Hna ->].
  { unfold lift, MapArea_new in H1. destruct (SimpleRange_new _ _); [|done]. by injection H1 as <- <-. }
  apply bind_inv in H2 as ([a1 pt1] & s2 & H2 & H3). cbn beta iota in H3. apply bind_inv in H3 as ([] & s3 & H3 & H4).
  injection H3 as <-. injection H4 as _ <-. by eapply fo_map_identical.
Qed.

Lemma fo_new_kernel ks : fresh_only (MemorySet_new_kernel ks).
Proof.
  unfold MemorySet_new_kernel, MemorySet_new_bare, PageTable_new, MemorySet_map_trampoline, push_mmio.
  repeat first [apply fo_push_area | apply fo_map | apply fo_bind; [|intros ?] | apply fo_ret | apply fo_lift | apply fo_frame_alloc].
Qed.

Lemma VirtIOBlock_new_ok l r reqs : ∀ s queue, mm_ok l r s → sfa_recycled (mm_fa s) = [] → Forall (Z.le 0) reqs →
  foldr Z.add 0 reqs ≤ sfa_avail (mm_fa s) →
  ∃ queue' s' new, VirtIOBlock_new reqs queue s = Ok (queue', s') ∧ mm_step l r s s' new new ∧ len new = foldr Z.add 0 reqs.
Proof.
  induction reqs as [|pages reqs IH]; intros s queue Hok Hrec Hreqs Hav; cbn [VirtIOBlock_new foldr] in *.
  { exists queue, s, []. split; [done|]. split; [by apply mm_step_refl|done]. }
  apply Forall_cons in Hreqs as [Hp Hreqs]. assert (0 ≤ foldr Z.add 0 reqs) as H0 by (clear -Hreqs; induction Hreqs; cbn; lia).
  destruct (dma_alloc_loop_ok l r (Z.to_nat pages) s 0 (MkPhysPageNum 0) queue Hok Hrec) as (s1 & base & Hrun & _ & _ & Hst & Hrec1 & _);
    [lia|lia|by left|]. pose proof (mm_avail _ _ _ _ _ _ Hst) as Hav1. rewrite length_seqZ, !Z2Nat.id in Hav1 by lia.
  edestruct (IH s1) as (q' & s' & new & Hrun' & Hst' & Hlen); [by eapply mm_step_ok|done|done|lia|].
  eexists q', s', _. split; [|split; [exact (mm_step_trans _ _ _ _ _ _ _ _ _ Hst Hst')|]].
  - erewrite bind_Ok by (unfold dma_alloc; erewrite bind_Ok by exact Hrun; reflexivity). cbn beta iota. exact Hrun'.
  - rewrite length_app, length_seqZ. lia.
Qed.

Lemma kernel_entry_trampoline ks : symbols_ok ks → kernel_entry ks trampoline_vpn = Some (trampoline_entry ks).
Proof.
  intros Hks. unfold kernel_entry. destruct (region_perm _ trampoline_vpn) as [p|] eqn:Hp; [|by rewrite decide_True].
  apply region_perm_Some in Hp as (g & Hg & Hin & _). pose proof (kernel_region_low ks _ g Hks Hg Hin) as Hlow. cbn in Hlow. lia.
Qed.

(** * The initial process *)

Section Initproc.
Context {D : Type} `{BlockDevice D, !BlockDeviceLaws D} (l r : Z) (env : Env).

Lemma runnable_ext (k k' : Kernel D) b elf_data phs entry : runnable l r env k b elf_data phs entry → k_mm k' = k_mm k → k_space k' = k_space k →
  runnable l r env k' b elf_data phs entry.
Proof. intros [[H1 H2 H3 H4] H5 H6] Em Es. split; [split|..]; rewrite ?Em, ?Es; done. Qed.

Lemma runnable_status (k : Kernel D) b x elf_data phs entry : runnable l r env k b elf_data phs entry →
  runnable l r env k (set_status b x) elf_data phs entry.
Proof. by intros [[] ]. Qed.

(** [run_tasks] dispatches the only task of the queue. *)
Lemma dispatch_first (k : Kernel D) t b : k_ready k = [t] → k_tcbs k !! t = Some b → k_konts k !! t = None →
  ∃ k1 k2, run_tasks_turn k = Ok (Some t, k1) ∧ resume env t k1 = Ok ((), k2) ∧
    k_mm k2 = k_mm k ∧ k_space k2 = k_space k ∧ k_current k2 = Some t ∧ k_tcbs k2 !! t = Some (set_status b Running).
Proof.
  intros Hr Hb Hk. unfold run_tasks_turn. eexists _, _. split.
  - erewrite bind_Ok by (unfold fetch_task; by rewrite Hr). cbn beta iota. erewrite bind_Ok by (unfold get_tcb; cbn [k_tcbs set_ready]; by rewrite Hb).
    do 2 erewrite bind_Ok by reflexivity. reflexivity.
  - split.
    + unfold resume. erewrite bind_Ok by reflexivity. cbn beta iota zeta. cbn [k_konts set_current set_tcbs set_ready]. rewrite Hk. cbn [default].
      erewrite bind_Ok by reflexivity. reflexivity.
    + do 3 (split; [reflexivity|]). apply lookup_insert_eq.
Qed.

Lemma add_initproc_ok (k : Kernel D) files data elf phs σ0 σ :
  mounted pack_data (pack_cost files) (packed files) k → NoDup files.*1 → (initproc_name, data) ∈ files →
  len data + 512 ≤ 512 * Z.of_nat (env_fuel env) →
  env_ok env → ms_inv l r (k_mm k) (k_space k) σ0 σ → σ0 !! trampoline_vpn = Some (trampoline_entry (env_symbols env)) →
  σ !! trampoline_vpn = Some (trampoline_entry (env_symbols env)) →
  env_elf_new env data = Some elf → elf_ok data elf phs → fits 64 (elf_entry_point elf) →
  k_pids k = RecycleAllocator_new → k_kstacks k = RecycleAllocator_new →
  (∀ v, v ∈ kstack_pages 0 → σ !! v = None) → 3 * len (loads phs ≫= seg_pages) + 18 ≤ sfa_avail (mm_fa (k_mm k)) →
  ∃ b k' σ', add_initproc env k = Ok ((), k') ∧
    k_tcbs k' = <[k_next_tcb k := b]> (k_tcbs k) ∧ k_ready k' = k_ready k ++ [k_next_tcb k] ∧ k_konts k' = k_konts k ∧
    skel b = MkSkeleton 0 0 Ready None [] ∧ tcb_fd_table b = [Some Stdin; Some Stdout; Some Stdout] ∧
    runnable l r env k' b data phs (elf_entry_point elf) ∧ ms_inv l r (k_mm k') (k_space k') σ0 σ' ∧
    (∀ v, v ∉ kstack_pages 0 → σ' !! v = σ !! v) ∧ MemorySet_token (k_space k') = MemorySet_token (k_space k).
Proof.
  intros Hm Hnd Hin Hfuel Henv Hi H0 Hσ Hnew Helf Hent Hpid Hkst Hfree Hav.
  destruct (packed_read k files initproc_name data (env_fuel env) Hm Hnd Hin Hfuel) as (k1 & c & fs & Hopen & Hread).
  set (k2 := set_next_file (with_fs k c fs) (k_next_file k + 1)) in *.
  destruct (TaskControlBlock_new_ok l r env k2 σ0 σ data elf phs 0 0 (MkRecycleAllocator 1 []) (MkRecycleAllocator 1 []) Henv Hi H0 Hσ Hnew Helf Hent)
    as (b & s & space & σ' & new & d & Hrun & Hrn & Hsk & Hfd & Hi' & Hsame & Htok & _);
    [change (k_kstacks k2) with (k_kstacks k); by rewrite Hkst|lia|done|done|change (k_pids k2) with (k_pids k); by rewrite Hpid|].
  unfold add_initproc, INITPROC. eexists b, _, σ'. split.
  { erewrite bind_Ok.
    2: { erewrite bind_Ok by exact Hopen. erewrite bind_Ok by reflexivity. erewrite bind_Ok by exact Hread. erewrite bind_Ok by exact Hrun. reflexivity. }
    erewrite bind_Ok by reflexivity. reflexivity. }
  do 5 (split; [done|]). split; [by eapply runnable_ext|]. done.
Qed.
End Initproc.

(** * Booting *)

(** What a bootable machine has: a kernel image as [linker.ld] lays it out, a packed disk
    whose initial process is a readable program, and enough memory. *)
Record bootable (env : Env) (reqs : list Z) (m : memory) (files : list (list Z * list Z)) (data : list Z) (elf : ElfFile)
    (phs : list ProgramHeader) : Prop := {
  bo_symbols : symbols_ok (env_symbols env);
  bo_sections : srodata (env_symbols env) < erodata (env_symbols env) ∧ sdata (env_symbols env) < edata (env_symbols env);
  bo_env : env_ok env;
  bo_mem : mem_wf m;
  bo_init : (initproc_name, data) ∈ files;
  bo_fuel : len data + 512 ≤ 512 * Z.of_nat (env_fuel env);
  bo_elf : env_elf_new env data = Some elf;
  bo_elf_ok : elf_ok data elf phs;
  bo_entry : fits 64 (elf_entry_point elf);
  bo_reqs : Forall (Z.le 0) reqs;
  bo_frames : 150 + foldr Z.add 0 reqs + 3 * len (loads phs ≫= seg_pages) + 18 ≤ 0x88000 - ekernel (env_symbols env) / 4096
}.

Section Main.
Context {D : Type} `{BlockDevice D, !BlockDeviceLaws D}.
Context (env : Env) (reqs : list Z) (m : memory) (files : list (list Z * list Z)) (data : list Z) (elf : ElfFile) (phs : list ProgramHeader).
Context (Hb : bootable env reqs m files data elf phs).
Abbreviation ks := (env_symbols env).
Abbreviation l := (ekernel ks / 4096).
Abbreviation r := 0x88000.

Lemma boot_memory sbss : let s := MkMM (clear_bss sbss (ebss ks) m) (init_frame_allocator (ekernel ks)) in
  mm_ok l r s ∧ sfa_recycled (mm_fa s) = [] ∧ sfa_avail (mm_fa s) = r - l.
Proof using All.
  cbv zeta. destruct (bo_symbols _ _ _ _ _ _ _ Hb) as [H1 H2 H3]. unfold MEMORY_END in H2.
  assert (0 < ekernel ks ≤ MEMORY_END) as He by (unfold MEMORY_END; lia).
  pose proof (init_frame_allocator_inv (ekernel ks) He) as Hinv. replace ((ekernel ks + 4095) / 4096) with l in Hinv by lia.
  split; [split; [exact Hinv|]|]; cbn [mm_mem mm_fa].
  - apply write_bytes_wf; [apply Hb|]. apply Forall_replicate. by compute.
  - rewrite init_frame_allocator_eq by done. unfold sfa_avail. cbn [sfa_recycled sfa_current sfa_end length].
    split; [done|]. change (MEMORY_END / 4096) with 0x88000. lia.
Qed.

(** The kernel's space, the device and the file system, before the initial process. *)
Lemma boot_mounts sbss (dev : D) (image : BlockFile) :
  fs_rep pack_efs pack_data (dev_blocks image) (pack_cost files) (packed files) → dev_blocks dev = dev_blocks image →
  ∃ space s σ s1 k, MemorySet_new_kernel ks (MkMM (clear_bss sbss (ebss ks) m) (init_frame_allocator (ekernel ks))) = Ok (space, s) ∧
    remap_test ks (mm_mem s) space = Ok () ∧
    (_ ← set_next_trigger env; _ ← force_root_inode reqs; list_apps)
      (boot_kernel s space 0 (BlockCacheManager_new dev) uninit_efs uninit_root) = Ok (files.*1, k) ∧
    mounted pack_data (pack_cost files) (packed files) k ∧ k_mm k = s1 ∧ k_space k = space ∧ k_konts k = ∅ ∧
    procs_of k = MkProcs ∅ 0 [] None 0 RecycleAllocator_new RecycleAllocator_new ∧
    ms_inv l r s1 space {[ trampoline_vpn := trampoline_entry ks ]} σ ∧ (∀ v, σ !! v = kernel_entry ks v) ∧
    3 * len (loads phs ≫= seg_pages) + 18 ≤ sfa_avail (mm_fa s1).
Proof using All.
  intros Hrep Hdev. destruct (boot_memory sbss) as (Hok & Hrec & Hav). set (s0 := MkMM _ _) in *.
  pose proof (bo_frames _ _ _ _ _ _ _ Hb) as Hfr. pose proof (bo_reqs _ _ _ _ _ _ _ Hb) as Hreqs.
  assert (0 ≤ foldr Z.add 0 reqs) as Hs0 by (clear -Hreqs; induction Hreqs; cbn; lia).
  destruct (new_kernel_ok l r ks s0 Hok (bo_symbols _ _ _ _ _ _ _ Hb) ltac:(lia)) as (space & s & σ & n1 & d1 & Hrun1 & Hi1 & Hσ & Hst1 & Hd1 & Hl1).
  pose proof (mm_avail _ _ _ _ _ _ Hst1) as Hav1. pose proof (fo_new_kernel ks _ _ _ Hrun1 Hrec) as Hrec1.
  destruct (VirtIOBlock_new_ok l r reqs s [] (mm_step_ok _ _ _ _ _ _ Hst1) Hrec1 Hreqs ltac:(lia)) as (q & s1 & n2 & Hrun2 & Hst2 & Hl2).
  pose proof (mm_avail _ _ _ _ _ _ Hst2) as Hav2. destruct (packed_mounts dev image files Hrep Hdev) as (c & Hroot & Hmt).
  set (k0 := boot_kernel s space 0 (BlockCacheManager_new dev) uninit_efs uninit_root).
  set (k1 := MkKernel s1 space RecycleAllocator_new RecycleAllocator_new ∅ 0 ∅ [] None 0 ∅ 0 c pack_efs (EasyFileSystem_root_inode pack_efs) 1 0 []).
  destruct (packed_ls k1 files (Hmt k1 eq_refl eq_refl eq_refl)) as (c' & Hls & Hm').
  exists space, s, σ, s1, (set_cache_mgr k1 c'). split; [done|]. split.
  { eapply (remap_test_ok l r); [apply Hb|exact Hi1|intros; apply Hσ|apply Hb|apply Hb]. }
  split.
  { erewrite bind_Ok by reflexivity. cbn beta iota. erewrite bind_Ok; [exact Hls|]. unfold force_root_inode.
    erewrite bind_Ok by (unfold on_mm; cbn [k_mm set_times k0 boot_kernel]; by rewrite Hrun2). unfold mount.
    cbn [k_cache set_mm set_times k0 boot_kernel]. by rewrite Hroot. }
  do 4 (split; [done|]). split; [unfold procs_of; cbn; by rewrite fmap_empty|].
  split; [by eapply ms_inv_fresh|]. split; [done|]. lia.
Qed.

Lemma start_bind {A B C} (p : M (Kernel D) B) (q : M (Kernel D) C) (n : M (Kernel D) A) (f : M (Kernel D) unit) k k1 k2 a :
  (_ ← p; _ ← q; n) k = Ok (a, k1) → f k1 = Ok ((), k2) → (_ ← p; _ ← q; x ← n; _ ← f; mret x) k = Ok (a, k2).
Proof.
  intros (x1 & s1 & H1 & H2)%bind_inv Hf. apply bind_inv in H2 as (x2 & s2 & H2 & H3).
  erewrite bind_Ok by exact H1. erewrite bind_Ok by exact H2. erewrite bind_Ok by exact H3. by erewrite bind_Ok by exact Hf.
Qed.

(** The machine at the call of [run_tasks]. *)
Lemma boot_main sbss trap_from_kernel (dev : D) (image : BlockFile) cpu : NoDup files.*1 →
  fs_rep pack_efs pack_data (dev_blocks image) (pack_cost files) (packed files) → dev_blocks dev = dev_blocks image →
  ∃ b k cpu', rust_main env sbss trap_from_kernel reqs dev m cpu = Ok (files.*1, k, cpu') ∧
    c_satp cpu' = MemorySet_token (k_space k) ∧ c_stvec cpu' = trap_from_kernel ∧ Z.testbit (c_sie cpu') 5 = true ∧
    k_ready k = [0] ∧ k_tcbs k = {[0 := b]} ∧ k_konts k = ∅ ∧ skel b = MkSkeleton 0 0 Ready None [] ∧
    runnable l r env k b data phs (elf_entry_point elf) ∧ kernel_ready l r (k_mm k) ks (k_space k) ∧ proc_inv (procs_of k).
Proof using All.
  intros Hnd Hrep Hdev.
  destruct (boot_mounts sbss dev image Hrep Hdev) as (space & s & σ & s1 & k & Hrun1 & Hremap & Hstart & Hm & Emm & Esp & Eko & Hpr & Hi & Hσ & Hav).
  pose proof Hpr as Hpr'. injection Hpr' as Hsk Hnt Hrd Hcur Hip Hpid Hkst. rewrite <- Emm, <- Esp in Hi. rewrite <- Emm in Hav.
  pose proof (bo_symbols _ _ _ _ _ _ _ Hb) as Hks.
  assert (∀ v, v ∈ kstack_pages 0 → σ !! v = None) as Hfree.
  { intros v Hv%elem_kstack_pages. rewrite Hσ. apply kernel_entry_high; [done|lia|]. intros ->. cbn in Hv. lia. }
  destruct (add_initproc_ok l r env k files data elf phs _ σ Hm Hnd (bo_init _ _ _ _ _ _ _ Hb) (bo_fuel _ _ _ _ _ _ _ Hb) (bo_env _ _ _ _ _ _ _ Hb) Hi)
    as (b & k' & σ' & Hadd & Et & Er & Ek & Hskb & _ & Hrn & Hi' & Hσ' & Htok);
    [apply lookup_singleton_eq|by rewrite Hσ, kernel_entry_trampoline|apply Hb|apply Hb|apply Hb|done|done|exact Hfree|exact Hav|].
  eexists b, k', _. split.
  { unfold rust_main, mm_init. cbv zeta. rewrite Hrun1. cbn [mbind res_bind mret res_ret]. rewrite Hremap. cbn [mbind res_bind mret res_ret].
    pose proof (start_bind _ _ _ _ _ _ _ _ Hstart Hadd) as Hst. cbn [mbind res_bind] in Hst |- *. rewrite Hst. reflexivity. }
  split; [cbn; rewrite <- Esp; symmetry; exact Htok|]. split; [done|].
  split; [cbn [enable_timer_interrupt set_csr c_sie]; by rewrite Z.lor_spec, orb_true_r|].
  rewrite Er, Hrd, Hnt. split; [done|]. split; [rewrite Et, Hnt; by apply fmap_empty_inv in Hsk as ->|]. split; [by rewrite Ek, Eko|].
  split; [done|]. split; [done|]. split.
  - split; [|done|destruct Hks; lia]. eexists _, σ'. split; [exact Hi'|]. intros v Hv. rewrite Hσ' by (rewrite elem_kstack_pages; lia). apply Hσ.
  - exact (ensures_Ok _ _ _ _ _ (first_process_inv env k 0 0 Hpr) Hadd).
Qed.
End Main.

(** * Properties *)

(** C1: a machine whose disk was made by [easy_fs_pack] boots into its initial process.
    [rust_main] reaches [run_tasks]: it lists the packed files, the kernel's space is active
    and passes [remap_test], kernel traps and the timer are set up, and one task is ready.
    The idle loop dispatches it; it has pid 0 and holds the program of the packed file
    [ch6b_initproc]; and [trap_return] from the kernel's space ends at the entry point of
    that program, in its own space, on its own stack.  The process table is well formed
    then and in every state reached from there. *)
Theorem boots_initial_process {D : Type} `{BlockDevice D, !BlockDeviceLaws D} (env : Env) (sbss trap_from_kernel : Z) (reqs : list Z)
    (m : memory) (cpu : Cpu) (output : BlockFile) (entries : list HostEntry) (files : list (list Z * list Z)) (data : list Z) (elf : ElfFile)
    (phs : list ProgramHeader)
    (Hload : mapM load_entry entries = Ok files) (Hp : packable files) (Hb : bootable env reqs m files data elf phs) :
  ∃ image, easy_fs_pack output entries = Ok (files.*1, image) ∧
    ∀ dev : D, dev_blocks dev = dev_blocks image →
    let l := ekernel (env_symbols env) / 4096 in
    ∃ k cpu1 k1 k2 b, rust_main env sbss trap_from_kernel reqs dev m cpu = Ok (files.*1, k, cpu1) ∧
      c_satp cpu1 = MemorySet_token (k_space k) ∧ c_stvec cpu1 = trap_from_kernel ∧ Z.testbit (c_sie cpu1) 5 = true ∧
      kernel_ready l 0x88000 (k_mm k) (env_symbols env) (k_space k) ∧
      run_tasks_turn k = Ok (Some 0, k1) ∧ resume env 0 k1 = Ok ((), k2) ∧ k_current k2 = Some 0 ∧ k_tcbs k2 !! 0 = Some b ∧
      skel b = MkSkeleton 0 0 Running None [] ∧ runnable l 0x88000 env k2 b data phs (elf_entry_point elf) ∧
      (∀ cpu2 x y, length (c_x cpu2) = 32%nat → c_satp cpu2 = c_satp cpu1 → ∃ cpu3,
        run TRAMPOLINE (strampoline (env_symbols env)) restore (trap_return x y (MemorySet_token (tcb_memory_set b)) cpu2) (mm_mem (k_mm k2)) =
          Ok (cpu3, mm_mem (k_mm k2)) ∧
        started env (tcb_memory_set b) (elf_entry_point elf) (4096 * (last_end 0 (loads phs) + 3)) cpu3) ∧
      ∀ k', rtc (bounded_step env) k k' → proc_inv (procs_of k').
Proof.
  destruct (easy_fs_pack_ok output entries files Hload Hp) as (image & Hpack & Hrep). exists image. split; [done|].
  intros dev Hdev l. destruct (boot_main env reqs m files data elf phs Hb sbss trap_from_kernel dev image cpu (proj1 Hp) Hrep Hdev)
    as (b & k & cpu1 & Hmain & Hs1 & Htv & Htm & Hr & Ht & Hko & Hsk & Hrn & Hkr & Hinv).
  destruct (dispatch_first env k 0 b) as (k1 & k2 & Hturn & Hres & Emm & Esp & Hcur & Hb2); [done|by rewrite Ht, lookup_singleton_eq|by rewrite Hko|].
  assert (runnable l 0x88000 env k2 (set_status b Running) data phs (elf_entry_point elf)) as Hrn2
    by (eapply (runnable_ext l 0x88000 env k); [by apply runnable_status|done|done]).
  exists k, cpu1, k1, k2, (set_status b Running). do 9 (split; [done|]). injection Hsk as S1 S2 S3 S4 S5.
  split; [unfold skel; cbn; by rewrite S1, S2, S4, S5|]. split; [done|]. split.
  - intros cpu2 x y Hlen Hs2. apply (program_starts l 0x88000 env k2 (set_status b Running) data phs); [apply Hrn2|done|]. by rewrite Hs2, Hs1, Esp.
  - intros k' Hsteps. exact (bounded_steps_inv env k k' Hinv Hsteps).
Qed.

(** * Witnesses

    A disk with one file, the initial process; its program is that of [ElfLoad]. *)

Definition init_entries : list HostEntry := [MkHostEntry (initproc_name ++ [46; 98]) (Some demo_elf_data)].
Definition init_files : list (list Z * list Z) := [(initproc_name, demo_elf_data)].

Lemma init_packable : mapM load_entry init_entries = Ok init_files ∧ packable init_files.
Proof.
  split; [vm_compute; reflexivity|]. split; [apply (bool_decide_unpack _); vm_compute; exact I|]. split.
  - apply Forall_cons_2; [|by apply Forall_nil]. split.
    + split; [cbn; lia|]. split; [apply (bool_decide_unpack _); vm_compute; exact I|]. split; [|reflexivity].
      apply (bool_decide_unpack _). vm_compute. exact I.
    + split; [apply (bool_decide_unpack _); vm_compute; exact I|]. vm_compute. split; [reflexivity|discriminate].
  - split; vm_compute; discriminate.
Qed.

Lemma init_bootable : bootable elf_env [2] ∅ init_files demo_elf_data demo_elf demo_phs.
Proof.
  split.
  - exact demo_symbols_ok.
  - split; reflexivity.
  - exact elf_env_ok.
  - intros x. by compute.
  - apply list_elem_of_here.
  - vm_compute. discriminate.
  - reflexivity.
  - exact demo_elf_ok.
  - by compute.
  - apply Forall_singleton. lia.
  - vm_compute. discriminate.
Qed.

Lemma boots_initial_process_witness : ∃ (image : BlockFile) k cpu1 k1 k2,
  easy_fs_pack (MkBlockFile []) init_entries = Ok ([initproc_name], image) ∧
  rust_main elf_env 0x80240000 0x80203000 [2] image ∅ (demo_cpu (replicate 32 0) 0) = Ok ([initproc_name], k, cpu1) ∧
  run_tasks_turn k = Ok (Some 0, k1) ∧ resume elf_env 0 k1 = Ok ((), k2) ∧ k_current k2 = Some 0.
Proof.
  destruct init_packable as [Hl Hp].
  destruct (boots_initial_process (D := BlockFile) elf_env 0x80240000 0x80203000 [2] ∅ (demo_cpu (replicate 32 0) 0) (MkBlockFile [])
    init_entries init_files demo_elf_data demo_elf demo_phs Hl Hp init_bootable) as (image & Hpack & Hboot).
  destruct (Hboot image eq_refl) as (k & cpu1 & k1 & k2 & b & Hmain & _ & _ & _ & _ & Hturn & Hres & Hcur & _).
  exists image, k, cpu1, k1, k2. exact (conj Hpack (conj Hmain (conj Hturn (conj Hres Hcur)))).
Defined.
